(* ===== verification/_CoqProject ===== *)
-Q . S2P
Prelude.v
Driver.v
Machine.v
Flat.v
RingBuffer.v
RingBufferThreads.v
Timer.v
Avalon.v
Precalc.v
Endpoint.v
EndpointStream.v
ControlRead.v
BulkTraffic.v
Cdc.v
CdcTraffic.v
Rndis.v
RndisMessages.v
Leds.v
Peripherals.v
XilinxBoard.v
Frame.v
XilinxApp.v
App.v
Protocol.v
UsbController.v
StdReq.v
ControlPackets.v
RndisTraffic.v
MassStorage.v
MassStorageTraffic.v
HidDevice.v
HidReports.v
Midi.v
Audio.v
AudioSamples.v
Descriptors.v
ConfigDescriptors.v
UsbInterrupt.v
HidParser.v
HidLayout.v
HidValues.v
Startup.v
BootMemory.v
FlashPages.v
BootloaderCDC.v
BootSession.v
BootFlash.v
BootloaderDFU.v
DfuSecure.v
DfuProgram.v
BootloaderHID.v
Firmware.v
FirmwareFrames.v
LostInterrupt.v
Enumeration.v
PowerOn.v
MinerInvariant.v
HostLink.v
XilinxFirmware.v
