(* ===== verification/Prelude.v ===== *)
(** * MiniMiner One: a verification library

    The repository holds a USB bitcoin miner: the driver of the host program
    bfgminer (bfgminer-driver/), the miner's firmware and the firmware of an
    FPGA programmer board (firmware/LUFA-120730/Projects/AvalonBTC and
    XilinxFpgaProg), both for the ATmega32U2, and the USB library LUFA they
    are built on (firmware/LUFA-120730/LUFA), vendored with all its demos,
    ports and boot loaders.  This library models what runs on a MiniMiner One and on the
    programmer: the two programs whole, the part of LUFA their makefiles
    compile and their control flow reaches, and the host's driver; and, of the
    rest their makefiles compile, the class drivers for network adapters
    (RNDIS), mass storage, MIDI, audio and HID with the HID report parser.
    Of LUFA's own programs it models the boot loaders that program such a
    device: over a serial port, by device firmware upgrade, as a HID device
    (Bootloaders/CDC, DFU, HID).

    ** Conventions

    A C function is a Rocq function of its name.  Code that touches neither
    variables nor registers is a pure function ([RingBuffer], [Precalc],
    [Descriptors], [timer_check]); the rest is written in the monad [M] of
    [Machine]: a state is the program's variables and the history of all
    register accesses, [None] is a busy-wait out of fuel or a statement with
    no defined result.  The hardware and everything behind it (pins, ASIC,
    FPGA, USB host) is a parameter, the class [Hardware]: a function of the
    history to the value of the next read.  Theorems quantify over it; what
    one needs of it is a named hypothesis (a latch reads back what was
    written, a flag comes up after so many polls, frames advance, the host has
    sent a packet), with a concrete hardware that satisfies it in the
    theorem's example.  A component's functions work over any globals that
    contain its variables (class [Has]); the two programs instantiate them
    with their records [App.Globals] and [XilinxApp.Globals].
    Integers have the width of the C type: [u8], [u16] and [u32] wrap.
    [wp_ False m Q s] says that [m] returns from [s] with [Q]; [Runs R m] that
    all its runs are in the relation [R]; [frame K S] that no register of [K]
    is written and the variables are related by [S].

    ** The files

    - [Prelude]: machine integers, bits, byte lists, and their lemmas.
    - [Driver]: bfgminer-driver/driver-miniminer1.[ch].
    - [Machine]: registers, histories, the monad, its logic and tactics.
    - [Flat]: an object accessed at several types, as its bytes.
    - [RingBuffer]: LUFA/Drivers/Misc/RingBuffer.h, with the interface [Fifo]
      the programs' theorems are proved against; [RingBufferThreads]: its
      operations access by access, shared by an interrupt and the main loop.
    - [Timer]: clock.c and timer.c (the same files in both programs).
    - [Avalon], [Precalc]: AvalonBTC/avalon.[ch], the ASIC's driver and the
      SHA-256 precomputation.
    - [Endpoint], [EndpointStream]: LUFA/Drivers/USB/Core/AVR8/Endpoint_AVR8,
      EndpointStream_AVR8 and its three templates; [ControlRead]: what a
      control-OUT data stage delivers; [ControlPackets]: the same, by single
      reads and waits; [BulkTraffic]: what the streams do to
      the packets and banks of several endpoints, the interface the class
      drivers' theorems are proved against.
    - [Cdc]: LUFA/Drivers/USB/Class/Device/CDCClassDevice; [CdcTraffic]: what
      its byte functions do to a packet and to a bank.
    - [Leds]: the miner's LEDs.h.  [Peripherals]: SPI_AVR8.h, Serial_AVR8.[ch].
      [XilinxBoard]: the programmer's LEDs.h and XilinxProtocol.[ch].
    - [Frame]: XilinxFpgaProg/serial.[ch]; [XilinxApp]: its application.[ch];
      [XilinxFirmware]: XilinxFpgaProg.c.
    - [App]: AvalonBTC/application.[ch]; [Firmware]: AvalonBTC/main.c, with the
      program as a step relation; [FirmwareFrames]: what each of its steps
      leaves alone, registers and variables; [LostInterrupt], [MinerInvariant]:
      what the reachable states have in common; [Protocol]: driver and
      firmware together; [HostLink]: the firmware's main loop and its USB
      endpoints together.
    - [UsbController], [StdReq], [UsbInterrupt], [ConfigDescriptors]:
      LUFA/Drivers/USB/Core, the controller, the standard requests with the
      USB task and the control-endpoint interrupt, the bus interrupt, the
      descriptor walkers; [Descriptors]: Descriptors.[ch] (of both programs).
    - [HidParser]: Class/Common/HIDParser.[ch] and the constants of
      HIDReportData.h; [HidLayout]: the descriptors it is meant for and the
      invariant of its loop; [HidValues]: what a parsed layout promises, and
      reading and writing values with it.
    - [Rndis]: Class/Device/RNDISClassDevice.[ch]; [RndisMessages]: the
      abstract adapter it implements; [RndisTraffic]: control requests and
      packets on the bus.
    - [MassStorage]: Class/Device/MassStorageClassDevice.[ch];
      [MassStorageTraffic]: a command from its block to its status.
    - [HidDevice]: Class/Device/HIDClassDevice.[ch]; [HidReports]: when reports
      are sent.
    - [Midi]: Class/Device/MIDIClassDevice.[ch].
    - [Audio]: Class/Device/AudioClassDevice.[ch]; [AudioSamples]: what its
      sample functions send and read.
    - [BootMemory]: the memories as the boot loaders see them and
      BootloaderAPI.c; [FlashPages]: filling, writing and erasing pages.
    - [BootloaderCDC]: Bootloaders/CDC/BootloaderCDC.c; [BootSession]: the
      AVR109 machine it implements; [BootFlash]: sessions, and what they leave
      in the flash memory.
    - [BootloaderDFU]: Bootloaders/DFU/BootloaderDFU.c; [DfuSecure]: its secure
      mode; [DfuProgram]: a download.
    - [BootloaderHID]: Bootloaders/HID/BootloaderHID.c, and a page written.
    - [Startup]: the functions of avr-libc the programs start with.
      [PowerOn]: the miner from power-on to its main loop; [Enumeration]:
      what the host reads of its descriptors.

    ** What is shown

    - The commands of the miner: [serialProcess] refines the protocol
      [App.cmd_spec]; a work command puts exactly the ASIC's twenty words on
      the wire ([work_command_sent], [asicSend_roundtrip]) with the right
      SHA-256 state ([asicPrecalc_sha256], [asicPrecalc_equiv]); a report is
      passed on as the nonce the ASIC found ([service_reports_nonce],
      [service_without_report], [spi_isr_total]).
    - The miner in its main loop: in every state the loop and the interrupts
      reach its memory is safe ([miner_invariant]), and work ends in time
      ([work_expires]).
    - From and to the host: a packet reaches the interpreter whole
      ([packet_interpreted]), the queue reaches the endpoint whole
      ([transmit_lossless]), and with the driver at the other end
      ([identify_roundtrip], [mining_session], [scanhash_reports],
      [detect_outcome], [statline_bounds]) a search returns the nonce found.
    - The programmer: whatever the packets, its frames are executed in order
      and answered ([packets_served], [packet_executed],
      [setup_configuration_ends]), the FPGA's bytes reach the host
      ([usart_forwarded]) and a line coding sets up the USART
      ([line_encoding_applied]).
    - The USB library: waits and streams terminate and lose nothing
      ([WaitUntilReady_returns], [write_stream_prefix],
      [control_write_complete]), requests are answered or refused
      ([get_descriptor_served], [set_address_applied],
      [unsupported_request_stalled], [line_encoding_roundtrip]), the
      controller starts and keeps listening ([USB_Init_ready],
      [USB_GEN_vect_listening]; [main_init_ready] for the whole miner, whose
      state then meets what the theorems on commands suppose), the descriptors
      are well formed and are what a host that asks for them receives
      ([descriptors_read], [GetDescriptor_wf],
      [GetSerialString_hex], [next_of_type_finds], [EPSizeMask_least]).
    - The HID parser: a parsed layout puts the items in their reports without
      overlap ([parsed_layout]), the parser returns without leaving its tables
      ([parse_returns]) and the items can be read ([parsed_item_read]; in a
      descriptor that mixes items with and without report identifiers, those
      that have one).
    - The class drivers: the RNDIS control channel refines the abstract adapter
      ([adapter_implemented], [command_answered]) and frames survive the wire
      ([packet_roundtrip]); a mass storage command is executed once and its
      status returned ([command_transaction]) or stalled
      ([invalid_command_stalled]); an unchanged HID report is repeated at
      exactly the idle rate ([idle_rate]); MIDI events and audio samples of 8
      and 16 bits survive the wire ([events_roundtrip], [samples_roundtrip]).
    - The boot loaders: the serial one answers a session of commands, in
      whatever packets, as the AVR109 machine answers it ([commands_served]),
      and a block of flash memory is read back as it was written
      ([flash_roundtrip]); the DFU loader in secure mode neither changes nor
      reveals the memories, whatever the host asks, until they are erased
      ([secure_mode]), and out of it a download programs exactly its pages
      ([firmware_programmed]), as a HID report does ([hid_page_written]).
      What is known of self-programming is the data sheet's account, the
      class [FlashLaws], with [cells] as a memory that meets it.
    - What goes wrong, as theorems: the miner can lose its report interrupt
      for good ([command_loses_interrupt], [spi_dead_forever]), the driver can
      submit an old nonce for new work ([stale_report_submitted]), the
      programmer's frame parser and its main loop can be brought out of step
      and to a stop ([select_underflow], [spi_data_hangs]), the HID library loses
      the values it writes ([one_bit_item_lost]), a standard query closes the
      RNDIS data path ([supported_list_overruns]), an empty packet executes a
      mass storage command again ([stale_command_replayed]) and blocks a MIDI
      endpoint ([empty_packet_blocks]), 24-bit samples lose their sign
      ([samples_roundtrip]), and so on.

    ** Bounds

    A busy-wait and an unbounded loop take [fuel], the number of rounds.
    Theorems of the form [wp_ False] prove that the stated fuel is enough: the
    polls after which the hardware answers, times the rounds (101 frame
    changes of the endpoint time-out; 4000 polls of the SPI interrupt; the
    length of a packet or buffer), and [loop_mono] says that more changes
    nothing.  The driver's wait for a report has no bound in the code; its
    theorem supposes an environment that ends it.

    ** Interrupts

    A step of [Firmware.fw_step] is one phase of the main loop or one whole
    interrupt routine: routines run between phases, in any order.  An
    interrupt inside a phase is not modelled there; what the steps rely on is
    that the clock is read atomically and that the ring buffers stand
    interleaving, which is proved access by access ([threads_fifo]).  The
    interrupt flag itself (SREG) is modelled where the code reads or writes it.

    ** Not modelled

    The [FILE] objects of stdio (the functions that only fill one in, and the
    assignment to [stdout]; the character function behind it is modelled).
    In the driver the log lines and the table of its functions; bfgminer
    itself, its serial ports, threads and allocator are the environment, and
    sha256 and swap32yes parameters.  The rest of LUFA is not compiled into
    these programs, or compiled and never called: host mode (pipes, host class
    drivers, USB_Host_GetDeviceConfigDescriptor), the UC3 and XMEGA ports, the
    other boards and peripherals, demos, example projects and build scripts.
    Of the boot loaders the start-up, main and the endpoint configuration are
    left out: they build the library with options of their own
    (ORDERED_EP_CONFIG, descriptors in RAM).  The board's
    layout (pcb/) is not code. *)

From Stdlib Require Export ZArith Lia Bool List.
From stdpp Require Export base list numbers option.
Export ListNotations.

#[global] Open Scope Z_scope.

(** ** Machine integers

    A C [uintN_t] is a [Z] in [0 .. 2^N - 1]; every assignment to one reduces
    its right-hand side with [u8], [u16] or [u32]. *)

Definition u8 (z : Z) : Z := z mod 2 ^ 8.
Definition u16 (z : Z) : Z := z mod 2 ^ 16.
Definition u32 (z : Z) : Z := z mod 2 ^ 32.

(** A two's complement number of [w] bits: the cast to a signed type. *)
Definition signed (w z : Z) : Z := if z <? 2 ^ (w - 1) then z else z - 2 ^ w.

(** [_BV(n)], i.e. [1 << n]. *)
Definition BV (n : Z) : Z := Z.shiftl 1 n.

(** [v & ~m] and [v | m], as the read-modify-write idioms use them. *)
Definition clrbits (v m : Z) : Z := Z.land v (Z.lnot m).
Definition setbits (v m : Z) : Z := Z.lor v m.

(** C truth values: a mask test [(v & m) != 0]. *)
Definition anybit (v m : Z) : bool := negb (Z.land v m =? 0).

Definition is_u8 (z : Z) : Prop := 0 <= z < 2 ^ 8.
Definition is_u16 (z : Z) : Prop := 0 <= z < 2 ^ 16.
Definition is_u32 (z : Z) : Prop := 0 <= z < 2 ^ 32.

#[export] Instance is_u8_dec z : Decision (is_u8 z).
Proof. unfold is_u8. apply _. Defined.
#[export] Instance is_u16_dec z : Decision (is_u16 z).
Proof. unfold is_u16. apply _. Defined.
#[export] Instance is_u32_dec z : Decision (is_u32 z).
Proof. unfold is_u32. apply _. Defined.

Create HintDb width.

Lemma u8_range z : is_u8 (u8 z).
Proof. apply Z.mod_pos_bound. lia. Qed.
Lemma u16_range z : is_u16 (u16 z).
Proof. apply Z.mod_pos_bound. lia. Qed.
Lemma u32_range z : is_u32 (u32 z).
Proof. apply Z.mod_pos_bound. lia. Qed.

Lemma u8_id z : is_u8 z -> u8 z = z.
Proof. apply Z.mod_small. Qed.
Lemma u16_id z : is_u16 z -> u16 z = z.
Proof. apply Z.mod_small. Qed.
Lemma u32_id z : is_u32 z -> u32 z = z.
Proof. apply Z.mod_small. Qed.

#[export] Hint Resolve u8_range u16_range u32_range : width.

Lemma u8_u8 z : u8 (u8 z) = u8 z.
Proof. apply u8_id, u8_range. Qed.
Lemma u16_u16 z : u16 (u16 z) = u16 z.
Proof. apply u16_id, u16_range. Qed.
Lemma u32_u32 z : u32 (u32 z) = u32 z.
Proof. apply u32_id, u32_range. Qed.

Lemma signed_mod w x : 0 < w -> - 2 ^ (w - 1) <= x < 2 ^ (w - 1) -> signed w (x mod 2 ^ w) = x.
Proof.
  intros Hw Hx. unfold signed. assert (Hp : 2 ^ w = 2 * 2 ^ (w - 1)) by (rewrite <- Z.pow_succ_r by lia; f_equal; lia).
  destruct (Z.ltb_spec x 0).
  - replace (x mod 2 ^ w) with (x + 2 ^ w).
    + destruct (Z.ltb_spec (x + 2 ^ w) (2 ^ (w - 1))); lia.
    + rewrite <- (Z.mod_add x 1) by lia. rewrite Z.mul_1_l. symmetry. apply Z.mod_small. lia.
  - rewrite Z.mod_small by lia. destruct (Z.ltb_spec x (2 ^ (w - 1))); lia.
Qed.

(** ** Bitwise reasoning *)

(** The high bits of a bounded value are clear. *)
Lemma testbit_high (w z i : Z) :
  0 <= w -> 0 <= z < 2 ^ w -> w <= i -> Z.testbit z i = false.
Proof.
  intros Hw Hz Hi. rewrite <- (Z.mod_small z (2 ^ w)) by lia.
  apply Z.mod_pow2_bits_high. lia.
Qed.

Lemma u8_testbit z i : 0 <= i -> Z.testbit (u8 z) i = (i <? 8) && Z.testbit z i.
Proof.
  intros Hi. unfold u8. destruct (Z.ltb_spec i 8).
  - rewrite Z.mod_pow2_bits_low by lia. done.
  - rewrite Z.mod_pow2_bits_high by lia. done.
Qed.

Lemma u32_testbit z i : 0 <= i -> Z.testbit (u32 z) i = (i <? 32) && Z.testbit z i.
Proof.
  intros Hi. unfold u32. destruct (Z.ltb_spec i 32).
  - rewrite Z.mod_pow2_bits_low by lia. done.
  - rewrite Z.mod_pow2_bits_high by lia. done.
Qed.

Lemma lor_bound w a b :
  0 <= w -> 0 <= a < 2 ^ w -> 0 <= b < 2 ^ w -> 0 <= Z.lor a b < 2 ^ w.
Proof.
  intros Hw Ha Hb. split; [apply Z.lor_nonneg; lia|].
  destruct (decide (Z.lor a b = 0)) as [->|Hn]; [lia|].
  apply Z.log2_lt_pow2; [pose proof (proj2 (Z.lor_nonneg a b)); lia|].
  rewrite Z.log2_lor by lia.
  destruct (decide (a = 0)) as [->|Ha0], (decide (b = 0)) as [->|Hb0].
  - rewrite Z.lor_0_l in Hn. done.
  - rewrite Z.max_r; [apply Z.log2_lt_pow2; lia|]. cbn. apply Z.log2_nonneg.
  - rewrite Z.max_l; [apply Z.log2_lt_pow2; lia|]. cbn. apply Z.log2_nonneg.
  - apply Z.max_lub_lt; apply Z.log2_lt_pow2; lia.
Qed.

Lemma land_bound w a b : 0 <= w -> 0 <= a < 2 ^ w -> 0 <= Z.land a b < 2 ^ w.
Proof.
  intros Hw Ha. split; [apply Z.land_nonneg; lia|].
  destruct (decide (Z.land a b = 0)) as [->|Hn]; [lia|].
  replace (Z.land a b) with (Z.land a b mod 2 ^ w).
  { apply Z.mod_pos_bound. lia. }
  rewrite <- Z.land_ones by lia. rewrite (Z.land_comm a b), <- Z.land_assoc.
  rewrite (Z.land_ones a) by lia. rewrite Z.mod_small by lia. done.
Qed.

Lemma lxor_bound w a b :
  0 <= w -> 0 <= a < 2 ^ w -> 0 <= b < 2 ^ w -> 0 <= Z.lxor a b < 2 ^ w.
Proof.
  intros Hw Ha Hb. split; [apply Z.lxor_nonneg; lia|].
  destruct (decide (Z.lxor a b = 0)) as [->|Hn]; [lia|].
  assert (Hnn : 0 <= Z.lxor a b) by (apply Z.lxor_nonneg; lia).
  destruct (Z.lt_ge_cases (Z.lxor a b) (2 ^ w)) as [|Hge]; [done|exfalso].
  assert (Hbit : Z.testbit (Z.lxor a b) (Z.log2 (Z.lxor a b)) = true)
    by (apply Z.bit_log2; lia).
  assert (w <= Z.log2 (Z.lxor a b)) by (apply Z.log2_le_pow2; lia).
  rewrite Z.lxor_spec in Hbit.
  rewrite (testbit_high w a), (testbit_high w b) in Hbit by lia. done.
Qed.

Lemma u32_lor a b : is_u32 a -> is_u32 b -> is_u32 (Z.lor a b).
Proof. apply lor_bound. lia. Qed.
Lemma u32_land a b : is_u32 a -> is_u32 (Z.land a b).
Proof. apply land_bound. lia. Qed.
Lemma u32_lxor a b : is_u32 a -> is_u32 b -> is_u32 (Z.lxor a b).
Proof. apply lxor_bound. lia. Qed.
Lemma u8_lor a b : is_u8 a -> is_u8 b -> is_u8 (Z.lor a b).
Proof. apply lor_bound. lia. Qed.
Lemma u8_land a b : is_u8 a -> is_u8 (Z.land a b).
Proof. apply land_bound. lia. Qed.
Lemma u8_lxor a b : is_u8 a -> is_u8 b -> is_u8 (Z.lxor a b).
Proof. apply lxor_bound. lia. Qed.
Lemma u8_clrbits a m : is_u8 a -> is_u8 (clrbits a m).
Proof. apply land_bound. lia. Qed.
#[export] Hint Resolve u32_lor u32_land u32_lxor u8_lor u8_land u8_lxor u8_clrbits
  : width.

(** Bits of the idioms above. *)
Lemma BV_testbit n i : 0 <= n -> Z.testbit (BV n) i = (i =? n).
Proof.
  intros Hn. unfold BV. rewrite Z.shiftl_1_l.
  destruct (Z.eqb_spec i n) as [->|Hi].
  - apply Z.pow2_bits_true. lia.
  - apply Z.pow2_bits_false. lia.
Qed.

Lemma clrbits_testbit v m i :
  0 <= i -> Z.testbit (clrbits v m) i = Z.testbit v i && negb (Z.testbit m i).
Proof. intros Hi. unfold clrbits. by rewrite Z.land_spec, Z.lnot_spec. Qed.

Lemma setbits_testbit v m i :
  Z.testbit (setbits v m) i = Z.testbit v i || Z.testbit m i.
Proof. unfold setbits. apply Z.lor_spec. Qed.

Lemma anybit_BV v n : 0 <= n -> anybit v (BV n) = Z.testbit v n.
Proof.
  intros Hn. unfold anybit.
  destruct (Z.testbit v n) eqn:E; destruct (Z.eqb_spec (Z.land v (BV n)) 0) as [H0|H0]; try done.
  - apply (f_equal (fun z => Z.testbit z n)) in H0.
    rewrite Z.land_spec, BV_testbit, E, Z.eqb_refl, Z.bits_0 in H0 by lia. done.
  - exfalso. apply H0. apply Z.bits_inj'. intros i Hi.
    rewrite Z.land_spec, BV_testbit, Z.bits_0 by lia.
    destruct (Z.eqb_spec i n) as [->|]; [by rewrite E|apply andb_false_r].
Qed.

(** Decide an equality of two [Z] expressions bit by bit. *)
Create Rewrite HintDb bits.
#[export] Hint Rewrite Z.lor_spec Z.land_spec Z.lxor_spec setbits_testbit Z.bits_0 : bits.
#[export] Hint Rewrite Z.lnot_spec Z.shiftr_spec Z.shiftl_spec u8_testbit u32_testbit
  BV_testbit clrbits_testbit using lia : bits.

Ltac case_ltb :=
  repeat match goal with
         | |- context [?a <? ?b] => destruct (Z.ltb_spec a b); try lia
         | |- context [?a =? ?b] => destruct (Z.eqb_spec a b); try lia
         end.

(** ** Little-endian byte strings *)

Fixpoint le_bytes (n : nat) (z : Z) : list Z :=
  match n with
  | O => []
  | S n' => u8 z :: le_bytes n' (Z.shiftr z 8)
  end.

Fixpoint le_value (bs : list Z) : Z :=
  match bs with
  | [] => 0
  | b :: bs' => Z.lor b (Z.shiftl (le_value bs') 8)
  end.

Lemma le_bytes_length n z : length (le_bytes n z) = n.
Proof. revert z. induction n; intros z; cbn; auto. Qed.

Lemma le_bytes_range n z : Forall is_u8 (le_bytes n z).
Proof. revert z. induction n; intros z; cbn; constructor; auto with width. Qed.

Lemma le_value_split b z : is_u8 b -> Z.lor b (Z.shiftl z 8) = b + 2 ^ 8 * z.
Proof.
  intros Hb. rewrite Z.shiftl_mul_pow2, (Z.mul_comm z) by lia.
  assert (Hd : Z.land b (2 ^ 8 * z) = 0).
  { apply Z.bits_inj'. intros i Hi. rewrite Z.land_spec, Z.bits_0.
    destruct (Z.lt_ge_cases i 8).
    - rewrite (Z.mul_comm (2 ^ 8)), Z.mul_pow2_bits_low by lia. apply andb_false_r.
    - rewrite (testbit_high 8 b) by (unfold is_u8 in *; lia). done. }
  apply Z.add_nocarry_lxor in Hd as Hx.
  rewrite Hx. apply Z.lxor_lor in Hd. by rewrite Hd.
Qed.

Lemma le_value_bytes n z : le_value (le_bytes n z) = z mod 2 ^ (8 * Z.of_nat n).
Proof.
  revert z. induction n as [|n IH]; intros z.
  - cbn. by rewrite Z.mod_1_r.
  - cbn [le_bytes le_value]. rewrite le_value_split by apply u8_range.
    rewrite IH, Z.shiftr_div_pow2 by lia. unfold u8.
    replace (8 * Z.of_nat (S n)) with (8 + 8 * Z.of_nat n) by lia.
    rewrite Z.pow_add_r, Z.rem_mul_r by lia. lia.
Qed.

Lemma le_value_range bs :
  Forall is_u8 bs -> 0 <= le_value bs < 2 ^ (8 * Z.of_nat (length bs)).
Proof.
  induction 1 as [|b bs Hb Hbs IH]; [cbn; lia|].
  cbn [le_value length]. rewrite le_value_split by done.
  replace (8 * Z.of_nat (S (length bs))) with (8 + 8 * Z.of_nat (length bs)) by lia.
  rewrite Z.pow_add_r by lia. unfold is_u8 in Hb. nia.
Qed.

Lemma le_bytes_value bs : Forall is_u8 bs -> le_bytes (length bs) (le_value bs) = bs.
Proof.
  induction 1 as [|b bs Hb Hbs IH]; [done|].
  cbn [length le_bytes le_value]. rewrite le_value_split by done.
  f_equal.
  - unfold u8. rewrite (Z.mul_comm (2 ^ 8)), Z.mod_add by lia. by apply Z.mod_small.
  - rewrite Z.shiftr_div_pow2, Z.add_comm, (Z.mul_comm (2 ^ 8)), Z.div_add_l by lia.
    rewrite (Z.div_small b) by done. by rewrite Z.add_0_r.
Qed.

(** ** Lists *)

(** Length in [Z], as the C code counts. *)
Definition zlen {A} (l : list A) : Z := Z.of_nat (length l).

Lemma zlen_nonneg {A} (l : list A) : 0 <= zlen l.
Proof. unfold zlen. lia. Qed.
Lemma zlen_app {A} (l k : list A) : zlen (l ++ k) = zlen l + zlen k.
Proof. unfold zlen. rewrite length_app. lia. Qed.
Lemma zlen_cons {A} (x : A) l : zlen (x :: l) = 1 + zlen l.
Proof. unfold zlen. cbn. lia. Qed.

(** Split the tests of a concrete branch. *)
Ltac bool_cases :=
  repeat match goal with
         | H : context [if ?b then _ else _] |- _ => destruct b eqn:?
         | |- context [if ?b then _ else _] => destruct b eqn:?
         end.
