(* ===== verification/Driver.v ===== *)
(** * bfgminer-driver: the host's driver

    driver-miniminer1.c: detection of the miner on a serial port, the thread
    life cycle, the search for a nonce, and the status line.  Everything the
    driver calls (the serial ports, bfgminer's threads and work queue, the
    allocator) is the environment [Host]: a function from the trace of all
    calls so far to the answer of the next one. *)

From S2P Require Import Prelude.

(** driver-miniminer1.h *)
Definition MMO_BAUD : Z := 115200.

Record MMOIdentity := mkMMOIdentity {
  mmo_version : Z;
  mmo_product : list Z;      (* char[8] *)
  mmo_serial : Z;
}.

Record MMOState := mkMMOState {
  mmo_state : Z;
  mmo_nonce_valid : Z;
  mmo_nonce : Z;
}.
Definition sizeof_MMOIdentity : Z := 13.
Definition sizeof_MMOState : Z := 6.

Record MMOInfo := mkMMOInfo {
  mmo_baud : Z;
  mmo_id : MMOIdentity;
}.

(** The fields of bfgminer's structures that the driver uses. *)
Record cgpu_info := mkCgpu {
  device_path : list Z;
  device_fd : Z;
  threads : Z;
  device_data : option MMOInfo;
}.

Record work := mkWork {
  work_midstate : list Z;    (* 32 bytes *)
  work_data : list Z;        (* 128 bytes *)
  blk_nonce : Z;
}.

(** ** The environment *)

Inductive call :=
  | Calloc                                    (* 0: out of memory *)
  | SerialOpen (path : list Z) (baud : Z)     (* a descriptor, or negative *)
  | SerialRead (fd max : Z)                   (* a length, and the bytes *)
  | SerialWrite (fd : Z) (bytes : list Z)
  | SerialClose (fd : Z)
  | SerialClaim (path : list Z)               (* 0: not claimed *)
  | AddCgpu (board : nat)
  | NotifierInit
  | WorkRestart                               (* thr->work_restart *)
  | RestartWait (ms : Z)
  | SubmitNonce (w : work) (nonce : Z).

Definition answer : Type := Z * list Z.
Definition event : Type := call * answer.

(** Most recent call first. *)
Class Host := host_answer : list event -> call -> answer.

(** What the driver owns: the boards it has created ([cgpu_info*] is a
    position in the list). *)
Record hstate := mkHost { trace : list event; boards : list cgpu_info }.

(** A call returns, ends the process, or has undefined behaviour; [None] is
    a loop that has not ended yet. *)
Inductive res (A : Type) := Ret (a : A) | Quit (code : Z) | Undef.
Arguments Ret {A} a.
Arguments Quit {A} code.
Arguments Undef {A}.

Definition D (A : Type) : Type := hstate -> option (res A * hstate).

#[export] Instance D_ret : MRet D := fun A a s => Some (Ret a, s).
#[export] Instance D_bind : MBind D := fun A B k m s =>
  match m s with
  | Some (Ret a, s') => k a s'
  | Some (Quit c, s') => Some (Quit c, s')
  | Some (Undef, s') => Some (Undef, s')
  | None => None
  end.

Definition quit {A} (code : Z) : D A := fun s => Some (Quit code, s).
Definition undef {A} : D A := fun s => Some (Undef, s).

Definition ask `{Host} (c : call) : D answer := fun s =>
  Some (Ret (host_answer (trace s) c), mkHost ((c, host_answer (trace s) c) :: trace s) (boards s)).

Definition call_ `{Host} (c : call) : D Z := x ← ask c; mret (fst x).

(** [board->f], and the assignment to a field. *)
Definition deref (b : nat) : D cgpu_info := fun s =>
  match boards s !! b with Some c => Some (Ret c, s) | None => Some (Undef, s) end.
Definition assign (b : nat) (f : cgpu_info -> cgpu_info) : D unit := fun s =>
  match boards s !! b with
  | Some c => Some (Ret tt, mkHost (trace s) (<[b := f c]> (boards s)))
  | None => Some (Undef, s)
  end.
Definition new_board (c : cgpu_info) : D nat := fun s =>
  Some (Ret (length (boards s)), mkHost (trace s) (boards s ++ [c])).

(** [memcpy] between the buffers of the driver *)
Definition slice (from n : nat) (l : list Z) : list Z := take n (drop from l).
Definition byte_at (l : list Z) (i : nat) : Z := nth i l 0.

(** ** The status line *)

(** [strlen]; [None] when no NUL is found in the memory given. *)
Fixpoint strlen (mem : list Z) : option nat :=
  match mem with
  | [] => None
  | c :: mem' => if c =? 0 then Some O else option_map S (strlen mem')
  end.

(** A C string up to its NUL. *)
Definition cstring (mem : list Z) : list Z :=
  match strlen mem with Some n => take n mem | None => mem end.

(** Store [bytes] at [off] of a buffer; [None] when they do not fit. *)
Definition store (off : nat) (bytes buf : list Z) : option (list Z) :=
  if (off + length bytes <=? length buf)%nat
  then Some (take off buf ++ bytes ++ drop (off + length bytes) buf)
  else None.

(** [sprintf(.., "%08X", v)] for a [uint32_t], without the NUL. *)
Definition hex_digit (d : Z) : Z := if d <? 10 then 0x30 + d else 0x41 + (d - 10).
Fixpoint hex_digits (n : nat) (v : Z) : list Z :=
  match n with
  | O => []
  | S n' => hex_digits n' (Z.shiftr v 4) ++ [hex_digit (Z.land v 0xF)]
  end.

(** [char before[] = "                ";] *)
Definition before_init : list Z := repeat 0x20 16 ++ [0].

(** The memory [info->id.product] starts: the structure is packed. *)
Definition product_mem (i : MMOIdentity) : list Z := mmo_product i ++ le_bytes 4 (mmo_serial i).

(** [None]: the writes leave [before]. *)
Definition statline_before (info : option MMOInfo) : option (list Z) :=
  match info with
  | None => Some before_init
  | Some info =>
      len ← strlen (product_mem (mmo_id info));
      b ← store 0 (take len (product_mem (mmo_id info))) before_init;
      store (len + 1) (hex_digits 8 (mmo_serial (mmo_id info)) ++ [0]) b
  end.

(** The text handed to [tailsprintf]. *)
Definition mmo_statline (board : nat) : D (list Z) :=
  cgpu ← deref board;
  match statline_before (device_data cgpu) with
  | Some b => mret (cstring b)
  | None => undef
  end.

(** ** Checking a nonce on the host

    [sha256] and [swap32yes] are bfgminer's. *)
Definition htobe32_bytes (n : Z) : list Z := rev (le_bytes 4 (u32 n)).

Definition mmo_checkNonce (sha256 : list Z -> list Z) (swap32yes : list Z -> list Z)
    (data : list Z) (nonce : Z) : bool :=
  let swap := swap32yes (take 76 data) ++ htobe32_bytes nonce in
  let hash1 := sha256 swap in
  let hash2 := sha256 hash1 in
  le_value (slice 28 4 hash2) =? 0.

Section driver.
Context `{Host}.

(** ** Detection *)

Definition parse_identity (buf : list Z) : MMOIdentity :=
  mkMMOIdentity (byte_at buf 1) (slice 2 8 buf) (le_value (slice 10 4 buf)).

(** Returns the result and the filled-in [info]; [info] is only stored in the
    board after bfgminer has been told of it. *)
Definition mmo_detect_custom (devpath : list Z) (info : MMOInfo) : D bool :=
  fd ← call_ (SerialOpen devpath (mmo_baud info));
  if fd <? 0 then mret false else
  call_ (SerialWrite fd [0x49]) ;;
  r ← ask (SerialRead fd (sizeof_MMOIdentity + 1));
  call_ (SerialClose fd) ;;
  let '(len, buf) := r in
  if negb (len =? 14) then mret false else
  let info := mkMMOInfo (mmo_baud info) (parse_identity buf) in
  c ← call_ (SerialClaim devpath);
  if negb (c =? 0) then
    claim ← call_ (SerialClaim devpath);
    if claim =? 0 then undef else mret false
  else
  m ← call_ Calloc;
  if m =? 0 then undef else
  mmo ← new_board (mkCgpu devpath (-1) 1 None);
  call_ (AddCgpu mmo) ;;
  assign mmo (fun c => mkCgpu (device_path c) (device_fd c) (threads c) (Some info)) ;;
  mret true.

Definition mmo_detect_one (devpath : list Z) : D bool :=
  m ← call_ Calloc;
  if m =? 0 then quit 1 else
  mmo_detect_custom devpath (mkMMOInfo MMO_BAUD (mkMMOIdentity 0 (repeat 0 8) 0)).

(** bfgminer's [serial_detect] runs the probe on the ports it chooses. *)
Definition mmo_detect (serial_detect : (list Z -> D bool) -> D unit) : D unit :=
  serial_detect mmo_detect_one.

(** ** The mining thread *)

Definition mmo_init (board : nat) : D bool :=
  mmo ← deref board;
  match device_data mmo with
  | None => undef
  | Some info =>
      fd ← call_ (SerialOpen (device_path mmo) (mmo_baud info));
      if fd =? -1 then mret false else
      assign board (fun c => mkCgpu (device_path c) fd (threads c) (device_data c)) ;;
      call_ NotifierInit ;;
      mret true
  end.

Definition mmo_shutdown (board : nat) : D unit :=
  cgpu ← deref board;
  call_ (SerialClose (device_fd cgpu)) ;;
  mret tt.

Definition hash_command (w : work) : list Z :=
  0x57 :: slice 0 32 (work_midstate w) ++ slice 64 12 (work_data w).

Definition parse_state (buffer : list Z) : MMOState :=
  mkMMOState (byte_at buffer 1) (byte_at buffer 2) (le_value (slice 3 4 buffer)).

(** One round of the loop; [Some n]: the loop ends with [nonce_count] [n]. *)
Definition scan_round (fd : Z) (w : work) : D (option Z) :=
  again ← call_ (RestartWait 250);
  if again =? 0 then mret (Some 0) else
  r ← ask (SerialRead fd (sizeof_MMOState + 1));
  let '(len, buffer) := r in
  let st := parse_state buffer in
  if (len =? 7) && (mmo_nonce_valid st =? 1) then
    call_ (SubmitNonce w (mmo_nonce st)) ;;
    mret (Some (mmo_nonce st))
  else if (len =? 7) && (mmo_state st =? 0x52) then mret (Some 0xFFFFFFFF)
  else
  restart ← call_ WorkRestart;
  mret (if negb (restart =? 0) then Some 0 else None).

Fixpoint scan_loop (fuel : nat) (fd : Z) (w : work) : D Z :=
  match fuel with
  | O => fun _ => None
  | S fuel' =>
      restart ← call_ WorkRestart;
      if negb (restart =? 0) then mret 0 else
      r ← scan_round fd w;
      match r with
      | Some nonce_count => mret nonce_count
      | None => scan_loop fuel' fd w
      end
  end.

(** The result, and the work with its [blk.nonce] spent. *)
Definition mmo_scanhash (fuel : nat) (board : nat) (w : work) : D (Z * work) :=
  cgpu ← deref board;
  call_ (SerialWrite (device_fd cgpu) (hash_command w)) ;;
  nonce_count ← scan_loop fuel (device_fd cgpu) w;
  mret (nonce_count, mkWork (work_midstate w) (work_data w) 0xFFFFFFFF).
End driver.

(** ** What the mining thread does

    A reply of seven bytes is a state report: a nonce, the end of the work,
    or neither. *)
Inductive verdict := NoReport | Nonce (n : Z) | GaveUp.

Definition verdict_of (r : answer) : verdict :=
  let st := parse_state (snd r) in
  if negb (fst r =? 7) then NoReport
  else if mmo_nonce_valid st =? 1 then Nonce (mmo_nonce st)
  else if mmo_state st =? 0x52 then GaveUp
  else NoReport.

(** A round that goes on, as the calls it makes with their answers, and a
    last round with the [nonce_count] it ends with. *)
Inductive idle_round (fd : Z) : list event -> Prop :=
  | idle_poll a b r c :
      fst a = 0 -> fst b <> 0 -> verdict_of r = NoReport -> fst c = 0 ->
      idle_round fd [(WorkRestart, a); (RestartWait 250, b); (SerialRead fd 7, r); (WorkRestart, c)].

Inductive last_round (fd : Z) (w : work) : list event -> Z -> Prop :=
  | last_restart a : fst a <> 0 -> last_round fd w [(WorkRestart, a)] 0
  | last_wait a b :
      fst a = 0 -> fst b = 0 -> last_round fd w [(WorkRestart, a); (RestartWait 250, b)] 0
  | last_nonce a b r n c :
      fst a = 0 -> fst b <> 0 -> verdict_of r = Nonce n ->
      last_round fd w
        [(WorkRestart, a); (RestartWait 250, b); (SerialRead fd 7, r); (SubmitNonce w n, c)] n
  | last_gave_up a b r :
      fst a = 0 -> fst b <> 0 -> verdict_of r = GaveUp ->
      last_round fd w [(WorkRestart, a); (RestartWait 250, b); (SerialRead fd 7, r)] 0xFFFFFFFF
  | last_late a b r c :
      fst a = 0 -> fst b <> 0 -> verdict_of r = NoReport -> fst c <> 0 ->
      last_round fd w
        [(WorkRestart, a); (RestartWait 250, b); (SerialRead fd 7, r); (WorkRestart, c)] 0.

(** [n] idle rounds in a row. *)
Inductive idle_rounds (fd : Z) : nat -> list event -> Prop :=
  | idle_none : idle_rounds fd 0 []
  | idle_more n e es : idle_round fd e -> idle_rounds fd n es -> idle_rounds fd (S n) (e ++ es).

Definition submissions (es : list event) : list (work * Z) :=
  omap (fun e => match fst e with SubmitNonce w n => Some (w, n) | _ => None end) es.

Section scan_facts.
Context `{Host}.

(** The environment answers these calls, in this order, after [h]. *)
Fixpoint answered (h : list event) (es : list event) : Prop :=
  match es with
  | [] => True
  | (c, a) :: es' => a = host_answer h c /\ answered ((c, a) :: h) es'
  end.

Lemma answered_app h e es : answered h e -> answered (rev e ++ h) es -> answered h (e ++ es).
Proof.
  revert h. induction e as [|[c a] e IH]; intros h; cbn [answered rev app]; [done|].
  intros [Ha He] Hes. split; [done|]. apply IH; [done|]. by rewrite <- app_assoc in Hes.
Qed.

(** After [es] from [s]. *)
Definition after (s : hstate) (es : list event) : hstate :=
  mkHost (rev es ++ trace s) (boards s).

Lemma after_app s e es : after (after s e) es = after s (e ++ es).
Proof. unfold after. cbn [trace boards]. by rewrite rev_app_distr, <- app_assoc. Qed.

(** The tests of the loop's body, by verdict. *)
Lemma verdict_flags len buf :
  let st := parse_state buf in
  match verdict_of (len, buf) with
  | Nonce n => (len =? 7) && (mmo_nonce_valid st =? 1) = true /\ n = mmo_nonce st
  | GaveUp => (len =? 7) && (mmo_nonce_valid st =? 1) = false
              /\ (len =? 7) && (mmo_state st =? 0x52) = true
  | NoReport => (len =? 7) && (mmo_nonce_valid st =? 1) = false
                /\ (len =? 7) && (mmo_state st =? 0x52) = false
  end.
Proof.
  unfold verdict_of. cbn [fst snd]. cbv zeta. destruct (len =? 7); [|done]. cbn [negb andb].
  destruct (mmo_nonce_valid _ =? 1); [done|]. by destruct (mmo_state _ =? 0x52).
Qed.

(** The head of the loop, and the rest of the round, on every branch. *)
Lemma scan_step fuel fd w s :
  (exists e n, last_round fd w e n /\ answered (trace s) e
     /\ scan_loop (S fuel) fd w s = Some (Ret n, after s e))
  \/ (exists e, idle_round fd e /\ answered (trace s) e
     /\ scan_loop (S fuel) fd w s = scan_loop fuel fd w (after s e)).
Proof.
  destruct s as [t b]. cbn [scan_loop]. unfold scan_round, call_, mbind, D_bind, ask, mret, D_ret.
  cbn [trace boards fst].
  set (a0 := host_answer t WorkRestart). set (t0 := (WorkRestart, a0) :: t).
  destruct (Z.eqb_spec (fst a0) 0) as [E0|E0]; cbn [negb].
  2: { left. exists [(WorkRestart, a0)], 0. split; [by constructor|]. by cbn; split_and!. }
  cbn [trace boards]. set (a1 := host_answer t0 (RestartWait 250)). set (t1 := (RestartWait 250, a1) :: t0).
  destruct (Z.eqb_spec (fst a1) 0) as [E1|E1].
  { left. exists [(WorkRestart, a0); (RestartWait 250, a1)], 0. split; [by constructor|]. by cbn; split_and!. }
  change (sizeof_MMOState + 1) with 7. cbn [trace boards].
  destruct (host_answer t1 (SerialRead fd 7)) as [len buf] eqn:E2.
  set (t2 := (SerialRead fd 7, (len, buf)) :: t1).
  pose proof (verdict_flags len buf) as Hv.
  destruct (verdict_of (len, buf)) as [|n|] eqn:Ev.
  - destruct Hv as [-> ->]. cbn [trace boards].
    set (a3 := host_answer ((SerialRead _ _, _) :: _) WorkRestart).
    assert (Ha : answered t [(WorkRestart, a0); (RestartWait 250, a1);
                             (SerialRead fd 7, (len, buf)); (WorkRestart, a3)])
      by (cbn; split_and!; done).
    destruct (Z.eqb_spec (fst a3) 0) as [E3|E3]; cbn [negb]; [right|left; eexists _, 0].
    + eexists. split; [by apply (idle_poll fd a0 a1 (len, buf) a3)|]. split; [exact Ha|reflexivity].
    + split; [by apply (last_late fd w a0 a1 (len, buf) a3)|]. split; [exact Ha|reflexivity].
  - destruct Hv as [-> ->]. left. eexists _, _.
    split; [by apply (last_nonce fd w a0 a1 (len, buf) _ (host_answer t2 (SubmitNonce w (mmo_nonce (parse_state buf)))))|].
    by cbn; split_and!.
  - destruct Hv as [-> ->]. left. eexists _, _.
    split; [by apply (last_gave_up fd w a0 a1 (len, buf))|]. by cbn; split_and!.
Qed.

(** The loop ends when the environment cannot answer [N] idle rounds. *)
Lemma scan_loop_ends fd w N : forall fuel s,
  (N <= fuel)%nat ->
  (forall es, idle_rounds fd N es -> answered (trace s) es -> False) ->
  exists k idle e n, (k < N)%nat /\ idle_rounds fd k idle /\ last_round fd w e n
    /\ answered (trace s) (idle ++ e)
    /\ scan_loop fuel fd w s = Some (Ret n, after s (idle ++ e)).
Proof.
  induction N as [|N IH]; intros fuel s Hf Hend.
  { exfalso. by apply (Hend []); [constructor|]. }
  destruct fuel as [|fuel]; [lia|].
  destruct (scan_step fuel fd w s) as [(e & n & Hl & Ha & Hr)|(e & Hi & Ha & Hr)].
  - exists O, [], e, n. split; [lia|]. split; [constructor|]. by split.
  - destruct (IH fuel (after s e)) as (k & idle & e' & n & Hk & Hid & Hl & Ha' & Hr'); [lia| |].
    { intros es Hes Hans. apply (Hend (e ++ es)); [by constructor|]. by apply answered_app. }
    exists (S k), (e ++ idle), e', n. split; [lia|]. split; [by constructor|]. split; [done|].
    rewrite <- app_assoc. split; [by apply answered_app|].
    rewrite Hr, Hr'. by rewrite after_app.
Qed.

Lemma idle_submits_nothing fd k es : idle_rounds fd k es -> submissions es = [].
Proof. induction 1 as [|k e es [] _ IH]; [done|]. cbn. exact IH. Qed.

Lemma submissions_app e es : submissions (e ++ es) = submissions e ++ submissions es.
Proof. unfold submissions. apply omap_app. Qed.

(** What a last round submits. *)
Lemma last_submits fd w e n :
  last_round fd w e n ->
  submissions e = [] /\ (n = 0 \/ n = 0xFFFFFFFF)
  \/ submissions e = [(w, n)] /\ exists r, In (SerialRead fd 7, r) e /\ verdict_of r = Nonce n.
Proof.
  intros []; [left..| |left|left]; cbn; auto.
  right. split; [done|]. exists r. auto.
Qed.

(** C18. [mmo_scanhash] hands the work to the miner with one write of 45 bytes
    (['W'], midstate, bytes 64 to 75 of the header), and then, provided the
    environment cannot keep answering with neither a report nor a restart,
    it returns: after finitely many idle polls and one last round, with the
    nonce the miner reported and submitted once, with [0xFFFFFFFF] when the
    miner gave up, or with [0] on a restart; the work's own nonce range is
    marked used. *)
Theorem scanhash_reports fuel N board c w s :
  let h := (SerialWrite (device_fd c) (hash_command w),
            host_answer (trace s) (SerialWrite (device_fd c) (hash_command w))) in
  boards s !! board = Some c ->
  (N <= fuel)%nat ->
  (forall es, idle_rounds (device_fd c) N es -> answered (h :: trace s) es -> False) ->
  exists k idle e n, (k < N)%nat /\ idle_rounds (device_fd c) k idle
    /\ last_round (device_fd c) w e n
    /\ mmo_scanhash fuel board w s =
         Some (Ret (n, mkWork (work_midstate w) (work_data w) 0xFFFFFFFF),
               after s (h :: idle ++ e))
    /\ (submissions (idle ++ e) = [] /\ (n = 0 \/ n = 0xFFFFFFFF)
        \/ submissions (idle ++ e) = [(w, n)]
           /\ exists r, In (SerialRead (device_fd c) 7, r) e /\ verdict_of r = Nonce n).
Proof.
  intros h Hb Hf Hend.
  destruct (scan_loop_ends (device_fd c) w N fuel (mkHost (h :: trace s) (boards s)) Hf Hend)
    as (k & idle & e & n & Hk & Hi & Hl & _ & Hr).
  exists k, idle, e, n. split; [done|]. split; [done|]. split; [done|]. split.
  - unfold mmo_scanhash, deref, call_, ask, mbind, D_bind, mret, D_ret. rewrite Hb.
    cbn [trace boards fst]. fold h. rewrite Hr. unfold after. cbn [trace boards rev].
    by rewrite <- app_assoc.
  - rewrite submissions_app, (idle_submits_nothing _ _ _ Hi), app_nil_l. by eapply last_submits.
Qed.
End scan_facts.

(** ** Detection *)

(** The descriptors opened, and those closed, in order. *)
Definition opened (es : list event) : list Z :=
  omap (fun e => match e with
                 | (SerialOpen _ _, (fd, _)) => if fd <? 0 then None else Some fd
                 | _ => None end) es.
Definition closed (es : list event) : list Z :=
  omap (fun e => match fst e with SerialClose fd => Some fd | _ => None end) es.

(** The board created for a miner that answered [buf]. *)
Definition detected (devpath : list Z) (info : MMOInfo) (buf : list Z) : cgpu_info :=
  mkCgpu devpath (-1) 1 (Some (mkMMOInfo (mmo_baud info) (parse_identity buf))).

Section detect_facts.
Context `{Host}.

Lemma assign_new s c f :
  assign (length (boards s)) f (mkHost (trace s) (boards s ++ [c])) =
    Some (Ret tt, mkHost (trace s) (boards s ++ [f c])).
Proof.
  unfold assign. cbn [boards trace]. rewrite lookup_app_r, Nat.sub_diag by lia. cbn.
  by rewrite insert_app_r_alt, Nat.sub_diag by lia.
Qed.

(** The answers of bfgminer about the port, and of the allocator. *)
Definition claims (es : list event) : list Z :=
  omap (fun e => match e with (SerialClaim _, (c, _)) => Some c | _ => None end) es.
Definition allocations (es : list event) : list Z :=
  omap (fun e => match e with (Calloc, (m, _)) => Some m | _ => None end) es.
(** The boards bfgminer has been told of. *)
Definition announced (es : list event) : list nat :=
  omap (fun e => match fst e with AddCgpu b => Some b | _ => None end) es.

(** The port has been opened at the right speed and the identity command
    answered by [len] bytes. *)
Definition replied (devpath : list Z) (info : MMOInfo) (es : list event) (len : Z) (buf : list Z) : Prop :=
  exists fd x y rest, 0 <= fd /\ es = (SerialOpen devpath (mmo_baud info), (fd, x)) :: (SerialWrite fd [0x49], y)
    :: (SerialRead fd 14, (len, buf)) :: rest.

(** C19. Detection terminates on every port and closes every port it opened,
    exactly once.  A miner is reported exactly when the port opens, the
    identity command is answered by 14 bytes, no driver claims the port and
    there is memory for the board; then exactly one board is added and
    announced, with the identity decoded from the answer.  Nothing is
    reported, added or announced exactly when the port does not open, the
    answer has another length, or another driver claims the port.  Two cases
    are undefined: no memory for the board, and a claim that is gone when it
    is asked for again, to log the name of its owner. *)
Theorem detect_outcome devpath info s :
  exists r es b', mmo_detect_custom devpath info s = Some (r, mkHost (rev es ++ trace s) b')
    /\ answered (trace s) es /\ opened es = closed es
    /\ match r with
       | Ret true => exists buf m, replied devpath info es 14 buf /\ claims es = [0]
           /\ allocations es = [m] /\ m <> 0
           /\ b' = boards s ++ [detected devpath info buf] /\ announced es = [length (boards s)]
       | Ret false => b' = boards s /\ announced es = []
           /\ ((exists fd x, es = [(SerialOpen devpath (mmo_baud info), (fd, x))] /\ fd < 0)
               \/ (exists len buf, replied devpath info es len buf /\ len <> 14)
               \/ (exists buf c c', replied devpath info es 14 buf /\ claims es = [c; c'] /\ c <> 0 /\ c' <> 0))
       | Undef => b' = boards s /\ announced es = [] /\ (exists buf, replied devpath info es 14 buf)
           /\ ((claims es = [0] /\ allocations es = [0]) \/ (exists c, claims es = [c; 0] /\ c <> 0))
       | Quit _ => False
       end.
Proof.
  destruct s as [t b]. unfold mmo_detect_custom, call_, mbind, D_bind, mret, D_ret, ask.
  cbn [trace boards fst].
  destruct (host_answer t (SerialOpen devpath (mmo_baud info))) as [fd x0] eqn:E0. cbn [fst].
  destruct (Z.ltb_spec fd 0) as [Hneg|Hpos].
  { eexists _, [_], b. split; [reflexivity|]. cbn. rewrite (proj2 (Z.ltb_lt _ _) Hneg). split_and!; auto.
    left. by exists fd, x0. }
  cbn [trace boards]. change (sizeof_MMOIdentity + 1) with 14.
  set (e1 := (SerialOpen _ _, _)). set (a1 := host_answer _ (SerialWrite _ _)).
  destruct (host_answer _ (SerialRead fd 14)) as [len buf] eqn:E2.
  set (a3 := host_answer _ (SerialClose fd)).
  set (es := [e1; (SerialWrite fd [0x49], a1); (SerialRead fd 14, (len, buf)); (SerialClose fd, a3)]).
  assert (Hopen : opened es = closed es) by (cbn; by rewrite (proj2 (Z.ltb_ge _ _) Hpos)).
  assert (Hrep : forall rest, replied devpath info (es ++ rest) len buf).
  { intros rest. exists fd, x0, a1, ((SerialClose fd, a3) :: rest). by split. }
  assert (Hes : answered t es) by (cbn; auto 10).
  destruct (Z.eqb_spec len 14) as [->|Hlen]; cbn [negb].
  2: { eexists _, es, b. split; [reflexivity|]. split_and!; auto. right; left. exists len, buf.
       split; [|done]. rewrite <- (app_nil_r es). apply Hrep. }
  cbn [trace boards]. destruct (host_answer _ (SerialClaim devpath)) as [c x4] eqn:E4. cbn [fst].
  destruct (Z.eqb_spec c 0) as [->|Hc]; cbn [negb trace boards].
  2: { destruct (host_answer _ (SerialClaim devpath)) as [c' x5] eqn:E5 in |- *. cbn [fst].
       set (es2 := es ++ [(SerialClaim devpath, (c, x4)); (SerialClaim devpath, (c', x5))]).
       assert (Ho2 : opened es2 = closed es2) by (unfold es2, opened, closed in *; by rewrite !omap_app, Hopen).
       assert (Ha2 : answered t es2) by (by apply answered_app; [|cbn; auto]).
       destruct (Z.eqb_spec c' 0) as [->|Hc']; eexists _, es2, b; (split; [reflexivity|]); split_and!; try done.
       - exists buf. apply Hrep.
       - right. by exists c.
       - right; right. exists buf, c, c'. split; [apply Hrep|done]. }
  destruct (host_answer _ Calloc) as [m x5] eqn:E5. cbn [fst].
  destruct (Z.eqb_spec m 0) as [->|Hm].
  { eexists _, (es ++ [(SerialClaim devpath, (0, x4)); (Calloc, (0, x5))]), b.
    split; [reflexivity|]. split; [by apply answered_app; [|cbn; auto]|].
    split; [unfold opened, closed in *; by rewrite !omap_app, Hopen|]. split_and!; try done. all: first [by left|exists buf; apply Hrep]. }
  unfold new_board. cbn [trace boards].
  set (a6 := host_answer _ (AddCgpu _)).
  pose proof (assign_new (mkHost ((AddCgpu (length b), a6) :: (Calloc, (m, x5)) :: (SerialClaim devpath, (0, x4))
                                    :: rev es ++ t) b)) as Ha.
  cbn [trace boards] in Ha. cbn [rev app es] in Ha. rewrite Ha.
  eexists _, (es ++ [(SerialClaim devpath, (0, x4)); (Calloc, (m, x5)); (AddCgpu (length b), a6)]), _.
  split; [reflexivity|]. split; [by apply answered_app; [|cbn; auto 10]|].
  split; [unfold opened, closed in *; by rewrite !omap_app, Hopen|]. exists buf, m. split_and!; try done; apply Hrep.
Qed.
End detect_facts.

(** ** The status line *)

Lemma strlen_prefix p rest :
  Forall (fun c => c <> 0) p -> strlen (p ++ 0 :: rest) = Some (length p).
Proof.
  induction 1 as [|c p Hc _ IH]; [done|]. cbn [app strlen length].
  by rewrite (proj2 (Z.eqb_neq _ _) Hc), IH.
Qed.

Lemma strlen_ge p rest n :
  Forall (fun c => c <> 0) p -> strlen (p ++ rest) = Some n -> (length p <= n)%nat.
Proof.
  intros Hp. revert n. induction Hp as [|c p Hc _ IH]; intros n; cbn [app strlen length]; [lia|].
  rewrite (proj2 (Z.eqb_neq _ _) Hc). destruct (strlen (p ++ rest)) as [m|]; [|done].
  cbn. intros [= <-]. specialize (IH m eq_refl). lia.
Qed.

Lemma cstring_prefix p rest : Forall (fun c => c <> 0) p -> cstring (p ++ 0 :: rest) = p.
Proof. intros Hp. unfold cstring. rewrite strlen_prefix by done. by apply take_app_length. Qed.

Lemma hex_digits_length n v : length (hex_digits n v) = n.
Proof. revert v. induction n; intros v; cbn; [done|]. rewrite length_app, IHn. cbn. lia. Qed.

Lemma hex_digits_nonzero n v : Forall (fun c => c <> 0) (hex_digits n v).
Proof.
  revert v. induction n as [|n IH]; intros v; cbn; [constructor|].
  apply Forall_app. split; [apply IH|]. constructor; [|constructor].
  pose proof (land_bound 4 0xF v ltac:(lia) ltac:(lia)) as Hb. rewrite Z.land_comm in Hb.
  unfold hex_digit. destruct (Z.ltb_spec (Z.land v 15) 10); lia.
Qed.

(** The buffer when the product name has [p] before its NUL. *)
Lemma statline_fits info p rest :
  mmo_product (mmo_id info) = p ++ 0 :: rest -> Forall (fun c => c <> 0) p ->
  (length p <= 7)%nat ->
  statline_before (Some info) =
    Some (p ++ [0x20] ++ hex_digits 8 (mmo_serial (mmo_id info)) ++ 0 :: drop (length p + 10) before_init).
Proof.
  intros Hprod Hp Hlen. unfold statline_before, product_mem. rewrite Hprod.
  rewrite <- app_assoc. cbn [app]. rewrite strlen_prefix by done. cbn [option_map mbind option_bind].
  rewrite take_app_length.
  pose proof (hex_digits_length 8 (mmo_serial (mmo_id info))) as Hd.
  set (ds := hex_digits 8 _) in *. clearbody ds.
  assert (Hl17 : length before_init = 17%nat) by reflexivity.
  unfold store. rewrite Hl17. cbn [Nat.add].
  rewrite (proj2 (Nat.leb_le _ _)) by lia. cbn [take app mbind option_bind].
  rewrite !length_app, length_drop, Hl17, Hd. cbn [length].
  rewrite (proj2 (Nat.leb_le _ _)) by lia. f_equal.
  change (take 0 before_init) with (@nil Z). cbn [app]. rewrite take_app, (take_ge p) by lia.
  replace (length p + 1 - length p)%nat with 1%nat by lia.
  replace (drop (length p) before_init) with (0x20 :: drop (S (length p)) before_init).
  2: { do 8 (destruct p as [|? p]; [reflexivity|]). cbn in Hlen. lia. }
  rewrite drop_app, (drop_ge p) by lia.
  replace (length p + 1 + (8 + 1) - length p)%nat with 10%nat by lia.
  cbn [drop take app]. rewrite drop_drop, <- !app_assoc. cbn [app].
  by replace (S (length p) + 9)%nat with (length p + 10)%nat by lia.
Qed.

(** A name that fills its eight bytes overruns the buffer. *)
Lemma statline_overruns info :
  length (mmo_product (mmo_id info)) = 8%nat ->
  Forall (fun c => c <> 0) (mmo_product (mmo_id info)) -> statline_before (Some info) = None.
Proof.
  intros Hlen Hp. unfold statline_before.
  pose proof (hex_digits_length 8 (mmo_serial (mmo_id info))) as Hd. set (ds := hex_digits 8 _) in *. clearbody ds.
  destruct (strlen (product_mem (mmo_id info))) as [n|] eqn:En; [|done].
  apply strlen_ge in En as Hn; [|done]. rewrite Hlen in Hn. cbn [mbind option_bind].
  unfold store at 2. destruct (Nat.leb_spec (0 + length (take n (product_mem (mmo_id info)))) (length before_init));
    cbn [mbind option_bind]; [|done].
  unfold store. rewrite (proj2 (Nat.leb_gt _ _)); [done|].
  rewrite !length_app, length_drop, Hd. cbn [take length]. change (length before_init) with 17%nat in *.
  change (length (take 0 before_init)) with 0%nat. lia.
Qed.

(** The status line is the product name, a space and the serial number
    as eight hexadecimal digits, and fits its 17-byte buffer exactly when
    the name has a NUL within its eight bytes; a name of eight characters
    makes [mmo_statline] write past the end of the buffer.  Detection copies
    those eight bytes from the device without a check. *)
Theorem statline_bounds board c info s :
  boards s !! board = Some c -> device_data c = Some info ->
  length (mmo_product (mmo_id info)) = 8%nat ->
  match strlen (mmo_product (mmo_id info)) with
  | Some n => mmo_statline board s =
      Some (Ret (take n (mmo_product (mmo_id info)) ++ [0x20] ++ hex_digits 8 (mmo_serial (mmo_id info))), s)
  | None => mmo_statline board s = Some (Undef, s)
  end.
Proof.
  intros Hb Hi Hlen. unfold mmo_statline, deref, mbind, D_bind. rewrite Hb, Hi.
  assert (Hcases : forall mem, Forall (fun c => c <> 0) mem /\ strlen mem = None
            \/ exists p rest, mem = p ++ 0 :: rest /\ Forall (fun c => c <> 0) p).
  { induction mem as [|x mem IH]; [by left|]. destruct (Z.eq_dec x 0) as [->|Hx].
    - right. by exists [], mem.
    - destruct IH as [[Hf Hs]|(p & rest & -> & Hp)].
      + left. split; [by constructor|]. cbn. by rewrite (proj2 (Z.eqb_neq _ _) Hx), Hs.
      + right. exists (x :: p), rest. split; [done|by constructor]. }
  destruct (Hcases (mmo_product (mmo_id info))) as [[Hf ->]|(p & rest & Hm & Hp)].
  - by rewrite statline_overruns.
  - assert (length p <= 7)%nat by (rewrite Hm, length_app in Hlen; cbn in Hlen; lia).
    rewrite (statline_fits info p rest) by done. rewrite Hm, strlen_prefix, take_app_length by done.
    unfold mret, D_ret. do 3 f_equal. rewrite !app_assoc. apply cstring_prefix.
    rewrite !Forall_app. split_and!; [done|by repeat constructor|apply hex_digits_nonzero].
Qed.

(** ** Witnesses: a host with one miner on a port *)

Definition witness_identity : list Z :=
  [0x49; 1; 0x4D; 0x69; 0x6E; 0x69; 0x4F; 0x6E; 0x65; 0; 0x12; 0x07; 0x13; 0x20].

(** The miner reports nothing to the first read and a nonce to the next. *)
Definition witness_host : Host := fun h c =>
  match c with
  | SerialOpen _ _ => (3, [])
  | SerialRead _ 14 => (14, witness_identity)
  | SerialRead _ _ =>
      if existsb (fun e => match fst e with SerialRead _ _ => true | _ => false end) h
      then (7, [0x53; 0x52; 1; 0x78; 0x56; 0x34; 0x12]) else (0, [])
  | RestartWait _ | Calloc => (1, [])
  | _ => (0, [])
  end.

Definition witness_board : cgpu_info :=
  mkCgpu [0x74] 3 1 (Some (mkMMOInfo MMO_BAUD (mkMMOIdentity 1 [0x4D; 0x69; 0x6E; 0x69; 0x4F; 0x6E; 0x65; 0] 0x20130712))).
Definition witness_work : work := mkWork (repeat 1 32) (repeat 2 128) 0.

Lemma witness_two_rounds h es :
  idle_rounds 3 2 es -> @answered witness_host h es -> False.
Proof.
  intros H2 Ha. inversion H2 as [|n1 e1 es1 I1 H1]; subst. inversion H1 as [|n2 e2 es2 I2 H0]; subst.
  inversion I1 as [a b r c Ea Eb Er Ec]; subst. inversion I2 as [a' b' r' c' Ea' Eb' Er' Ec']; subst.
  cbn in Ha. destruct Ha as (_ & _ & _ & _ & _ & _ & -> & _). discriminate Er'.
Qed.

Lemma scanhash_reports_witness :
  let s := mkHost [] [witness_board] in
  exists e n s', @mmo_scanhash witness_host 2 0 witness_work s = Some (Ret (n, mkWork (repeat 1 32) (repeat 2 128) 0xFFFFFFFF), s')
    /\ last_round 3 witness_work e n.
Proof.
  intros s.
  destruct (@scanhash_reports witness_host 2 2 0 witness_board witness_work s eq_refl (le_n 2))
    as (k & idle & e & n & _ & _ & Hl & Hr & _).
  - intros es. apply witness_two_rounds.
  - exists e, n. eexists. split; [exact Hr|exact Hl].
Defined.

(** A port with a miner behind it, and one that another driver owns. *)
#[local] Instance witness_port (owner : Z) : Host := fun _ c =>
  match c with
  | SerialOpen _ _ => (3, [])
  | SerialRead _ _ => (14, 0x49 :: 1 :: [0x4D; 0x69; 0x6E; 0x69; 0x4F; 0x6E; 0x65; 0x20] ++ [1; 2; 3; 4])
  | SerialClaim _ => (owner, [])
  | Calloc => (1, [])
  | _ => (0, [])
  end.

Lemma detect_outcome_witness :
  let info := mkMMOInfo MMO_BAUD (mkMMOIdentity 0 (repeat 0 8) 0) in
  (exists t b, @mmo_detect_custom (witness_port 0) [0x31] info (mkHost [] []) = Some (Ret true, mkHost t b)
     /\ map (fun c => option_map (fun i => mmo_serial (mmo_id i)) (device_data c)) b = [Some 0x04030201])
  /\ exists t, @mmo_detect_custom (witness_port 1) [0x31] info (mkHost [] []) = Some (Ret false, mkHost t []).
Proof.
  intros info. split.
  - destruct (@detect_outcome (witness_port 0) [0x31] info (mkHost [] [])) as (r & es & b' & Hrun & _ & _ & Hr).
    destruct r as [[]| |]; try (vm_compute in Hrun; discriminate Hrun).
    exists (rev es ++ []), b'. split; [exact Hrun|]. vm_compute in Hrun. by injection Hrun as _ <-.
  - destruct (@detect_outcome (witness_port 1) [0x31] info (mkHost [] [])) as (r & es & b' & Hrun & _ & _ & Hr).
    destruct r as [[]| |]; try (vm_compute in Hrun; discriminate Hrun).
    destruct Hr as [-> _]. by exists (rev es ++ []).
Defined.

Lemma statline_bounds_witness :
  mmo_statline 0 (mkHost [] [witness_board]) =
    Some (Ret [0x4D; 0x69; 0x6E; 0x69; 0x4F; 0x6E; 0x65; 0x20; 0x32; 0x30; 0x31; 0x33; 0x30; 0x37; 0x31; 0x32],
          mkHost [] [witness_board]).
Proof.
  exact (statline_bounds 0 witness_board (mkMMOInfo MMO_BAUD _) (mkHost [] [witness_board])
           eq_refl eq_refl eq_refl).
Defined.
