(* ===== verification/Machine.v ===== *)
(** * The machine the C code runs on

    Registers of the ATmega32U2, the history of the accesses a program makes,
    the hardware as a parameter, and the state-and-divergence monad the C
    functions are written in, with its weakest preconditions.

    The hardware (the I/O registers and everything behind them: pins, the SPI
    and USB controllers, the USB host, the interrupt routines that write the
    device-state register) is not code of the repository.  It is a parameter:
    a function from the history of all register accesses so far to the value
    the next read of a register returns.  Nothing is assumed of it except where
    a theorem names an assumption ([Latch] below, and the USB assumptions of
    the files that need them). *)

From S2P Require Import Prelude.

(** ** Registers *)

Inductive reg :=
  (* port latches, directions and pins *)
  | PORTB | DDRB | PINB | PORTC | DDRC | PINC | PORTD | DDRD | PIND
  (* SPI *)
  | SPCR | SPSR | SPDR
  (* timers, clock, reset cause *)
  | TIMSK0 | OCR0A | TCCR0A | TCCR0B | TCCR1A | TCCR1B | OCR1B | MCUSR | WDTCSR | CLKPR
  (* USART *)
  | UDR1 | UCSR1A | UCSR1B | UCSR1C | UBRR1
  (* USB controller *)
  | USBCON | PLLCSR | REGCR | UDCON | UDINT | UDIEN | UDADDR | UDFNUM
  | UENUM | UERST | UECONX | UECFG0X | UECFG1X | UESTA0X | UEIENX | UEINTX
  | UEDATX | UEBCLX | UEINT
  (* the status register, whose bit 7 is the global interrupt flag *)
  | SREG
  (* general purpose register 0, where LUFA keeps [USB_DeviceState] *)
  | GPIOR0
  (* the signature row, read with [boot_signature_byte_get] *)
  | SIGROW (addr : Z).

#[export] Instance reg_eq_dec : EqDecision reg.
Proof. solve_decision. Defined.

Definition reg_width (r : reg) : Z :=
  match r with OCR1B | UBRR1 | UDFNUM => 16 | _ => 8 end.

(** Truncation to the width of a register. *)
Definition reg_trunc (r : reg) (v : Z) : Z := v mod 2 ^ reg_width r.

(** ** Histories *)

Inductive io :=
  | Rd (r : reg) (v : Z)     (* a read of [r] that returned [v] *)
  | Wr (r : reg) (v : Z)     (* a write of [v] to [r] *)
  | DelayUs (n : Z).         (* [_delay_us(n)] *)

(** Most recent access first. *)
Abbreviation history := (list io).

(** The value last written to [r], if any. *)
Fixpoint last_wr (r : reg) (h : history) : option Z :=
  match h with
  | [] => None
  | Wr r' v :: h' => if decide (r = r') then Some v else last_wr r h'
  | _ :: h' => last_wr r h'
  end.

(** What has been read from [r] in a stretch of history, most recent first. *)
Fixpoint reads (r : reg) (h : history) : list Z :=
  match h with
  | [] => []
  | Rd r' v :: h' => if decide (r = r') then v :: reads r h' else reads r h'
  | _ :: h' => reads r h'
  end.

(** What has been written to [r], most recent first. *)
Fixpoint writes (r : reg) (h : history) : list Z :=
  match h with
  | [] => []
  | Wr r' v :: h' => if decide (r = r') then v :: writes r h' else writes r h'
  | _ :: h' => writes r h'
  end.

Lemma writes_app r h1 h2 : writes r (h1 ++ h2) = writes r h1 ++ writes r h2.
Proof. induction h1 as [|[] h1 IH]; cbn; rewrite ?IH; try done. by case_decide. Qed.

Lemma reads_app r h1 h2 : reads r (h1 ++ h2) = reads r h1 ++ reads r h2.
Proof. induction h1 as [|[] h1 IH]; cbn; rewrite ?IH; try done. by case_decide. Qed.

Lemma last_wr_writes r h : last_wr r h = head (writes r h).
Proof. induction h as [|[] h IH]; cbn; try done. by case_decide. Qed.

Class Hardware := hw_value : history -> reg -> Z.

(** A register that is a plain latch: it reads back what was last written to
    it (the PORTx, DDRx, SPCR... registers of the data sheet). *)
Definition latch_value `{Hardware} (r : reg) (h : history) : Z :=
  reg_trunc r (default (hw_value [] r) (last_wr r h)).

Class Latch `{Hardware} (r : reg) : Prop :=
  latch_read : forall h, reg_trunc r (hw_value h r) = latch_value r h.

(** Decide the comparisons of registers in the goal. *)
Ltac reg_decide :=
  repeat match goal with
  | |- context [decide (?a = ?b)] =>
      first [ rewrite (decide_True (P := a = b)) by reflexivity
            | rewrite (decide_False (P := a = b)) by (discriminate || congruence) ]
  end.

Lemma last_wr_cons_eq r v h : last_wr r (Wr r v :: h) = Some v.
Proof. cbn. by rewrite decide_True. Qed.

Lemma last_wr_cons_ne r r' v h : r <> r' -> last_wr r (Wr r' v :: h) = last_wr r h.
Proof. intros. cbn. by rewrite decide_False. Qed.

Create Rewrite HintDb latch.

Section latch_lemmas.
Context `{Hardware}.

Lemma latch_wr r v h : latch_value r (Wr r v :: h) = reg_trunc r v.
Proof. unfold latch_value. by rewrite last_wr_cons_eq. Qed.

Lemma latch_wr_ne r r' v h : r <> r' -> latch_value r (Wr r' v :: h) = latch_value r h.
Proof. intros. unfold latch_value. by rewrite last_wr_cons_ne. Qed.

Lemma latch_rd r r' v h : latch_value r (Rd r' v :: h) = latch_value r h.
Proof. done. Qed.

Lemma latch_delay r n h : latch_value r (DelayUs n :: h) = latch_value r h.
Proof. done. Qed.

Lemma latch_range r h : reg_width r = 8 -> is_u8 (latch_value r h).
Proof. intros Hw. unfold latch_value, reg_trunc. rewrite Hw. apply u8_range. Qed.

Lemma reg_trunc_trunc r v : reg_trunc r (reg_trunc r v) = reg_trunc r v.
Proof. unfold reg_trunc. by rewrite Z.mod_mod by (destruct r; cbn; lia). Qed.

Lemma reg_trunc_u8 r v : reg_width r = 8 -> is_u8 v -> reg_trunc r v = v.
Proof. intros Hw Hv. unfold reg_trunc. rewrite Hw. by apply u8_id. Qed.

Lemma reg_testbit r v n :
  reg_width r = 8 -> 0 <= n < 8 -> Z.testbit (reg_trunc r v) n = Z.testbit v n.
Proof. intros Hw Hn. unfold reg_trunc. rewrite Hw. apply Z.mod_pow2_bits_low. lia. Qed.
End latch_lemmas.

(** The value of a bit of a register written with [|=] and [&= ~]. *)
Ltac reg_bits :=
  repeat first
    [ rewrite reg_testbit by (reflexivity || (vm_compute; split; congruence))
    | rewrite setbits_testbit
    | rewrite clrbits_testbit by (vm_compute; congruence)
    | rewrite BV_testbit by (vm_compute; congruence) ];
  rewrite ?orb_true_r, ?andb_false_r, ?orb_false_r, ?andb_true_r.

#[export] Hint Rewrite @latch_wr @latch_rd @latch_delay @reg_trunc_trunc : latch.
#[export] Hint Rewrite @latch_wr_ne using discriminate : latch.
#[export] Hint Resolve latch_range : width.

(** The hardware on which every register is a latch, initially 0. *)
Definition plain_hardware : Hardware := fun h r => default 0 (last_wr r h).

#[export] Instance plain_latch r : @Latch plain_hardware r.
Proof. intros h. unfold latch_value, hw_value, plain_hardware. cbn. by destruct (last_wr r h). Qed.

(** Evaluate the latch reads of a straight-line run. *)
Ltac latch_simpl := rewrite ?latch_read; autorewrite with latch.

(** ** The monad

    A C function of result type [A], over the C globals [G], is a function of
    the state that returns [None] when a busy-wait has used up its fuel. *)

Record st (G : Type) := St { hist : history; glob : G }.
Arguments St {G} _ _.
Arguments hist {G} _.
Arguments glob {G} _.

Definition M (G A : Type) : Type := st G -> option (A * st G).

#[export] Instance M_ret G : MRet (M G) := fun A a s => Some (a, s).
#[export] Instance M_bind G : MBind (M G) := fun A B f m s =>
  match m s with
  | Some (a, s') => f a s'
  | None => None
  end.

Section ops.
Context {G : Type}.

Definition rd `{Hardware} (r : reg) : M G Z := fun s =>
  let v := reg_trunc r (hw_value (hist s) r) in
  Some (v, St (Rd r v :: hist s) (glob s)).

Definition wr (r : reg) (v : Z) : M G unit := fun s =>
  Some (tt, St (Wr r (reg_trunc r v) :: hist s) (glob s)).

Definition delay_us (n : Z) : M G unit := fun s =>
  Some (tt, St (DelayUs n :: hist s) (glob s)).

Definition gets {A} (f : G -> A) : M G A := fun s => Some (f (glob s), s).
Definition modify (f : G -> G) : M G unit := fun s => Some (tt, St (hist s) (f (glob s))).

(** [r |= m] and [r &= ~m] *)
Definition reg_or `{Hardware} (r : reg) (m : Z) : M G unit :=
  v ← rd r; wr r (setbits v m).
Definition reg_clr `{Hardware} (r : reg) (m : Z) : M G unit :=
  v ← rd r; wr r (clrbits v m).

(** The instructions [cli] and [sei], and reading and restoring the flag. *)
Definition cli `{Hardware} : M G unit := reg_clr SREG (BV 7).
Definition sei `{Hardware} : M G unit := reg_or SREG (BV 7).
Definition GetGlobalInterruptMask `{Hardware} : M G Z := rd SREG.
Definition SetGlobalInterruptMask (v : Z) : M G unit := wr SREG v.

Definition when (b : bool) (m : M G unit) : M G unit :=
  if b then m else mret tt.
Lemma when_true (m : M G unit) : when true m = m.
Proof. done. Qed.
Lemma when_false (m : M G unit) : when false m = mret tt.
Proof. done. Qed.

(** A statement whose value is undefined has no result. *)
Definition defined {A} (o : option A) : M G A := fun s =>
  match o with Some a => Some (a, s) | None => None end.

(** [for] over the elements of a list, in order. *)
Fixpoint for_each {A} (l : list A) (f : A -> M G unit) : M G unit :=
  match l with
  | [] => mret tt
  | x :: l' => f x ;; for_each l' f
  end.

(** [while]/[for(;;)] with fuel: the body continues with [inl] or leaves
    with [inr]. *)
Fixpoint loop {A B} (fuel : nat) (body : A -> M G (A + B)) (a : A) : M G B :=
  match fuel with
  | O => fun _ => None
  | S n => r ← body a; match r with inl a' => loop n body a' | inr b => mret b end
  end.
End ops.

(** ** Components of the globals

    A component's functions work over any globals that contain its state. *)
Class Has (F G : Type) := {
  proj : G -> F;
  inj : F -> G -> G;
  proj_inj : forall f g, proj (inj f g) = f;
  inj_inj : forall f f' g, inj f (inj f' g) = inj f g;
  inj_proj : forall g, inj (proj g) g = g;
}.

#[export] Instance Has_refl G : Has G G.
Proof. refine {| proj := fun g => g; inj := fun f _ => f |}; done. Defined.

Definition getc {F G} `{Has F G} {A} (f : F -> A) : M G A := gets (fun g => f (proj g)).
Definition modc {F G} `{Has F G} (f : F -> F) : M G unit :=
  modify (fun g => inj (f (proj g)) g).

(** ** Weakest preconditions

    [wp_ D m Q s]: if [m] run from [s] returns, its result and final state
    satisfy [Q]; if it runs out of fuel, [D] holds.  [D := True] is partial
    correctness, [D := False] total correctness. *)
Section wp.
Context {G : Type}.

Definition wp_ (D : Prop) {A} (m : M G A) (Q : A -> st G -> Prop) (s : st G) : Prop :=
  match m s with
  | Some (a, s') => Q a s'
  | None => D
  end.

Lemma wp_ret D {A} (a : A) Q s : Q a s -> wp_ D (mret a) Q s.
Proof. done. Qed.

Lemma wp_bind D {A B} (m : M G A) (f : A -> M G B) Q s :
  wp_ D m (fun a s' => wp_ D (f a) Q s') s -> wp_ D (m ≫= f) Q s.
Proof. unfold wp_, mbind, M_bind. destruct (m s) as [[a s']|]; done. Qed.

Lemma wp_conseq (D D' : Prop) {A} (m : M G A) (Q Q' : A -> st G -> Prop) s :
  wp_ D m Q s -> (D -> D') -> (forall a s', Q a s' -> Q' a s') -> wp_ D' m Q' s.
Proof. unfold wp_. destruct (m s) as [[a s']|]; auto. Qed.

Lemma wp_eq D {A} (m : M G A) (Q : A -> st G -> Prop) s a s' :
  m s = Some (a, s') -> Q a s' -> wp_ D m Q s.
Proof. unfold wp_. by intros ->. Qed.

(** A run whose result has been computed. *)
Lemma wp_exists {A} (m : M G A) (Q : A -> st G -> Prop) s :
  wp_ False m Q s -> exists a s', m s = Some (a, s') /\ Q a s'.
Proof. unfold wp_. destruct (m s) as [[a s']|]; [|done]. intros HQ. by exists a, s'. Qed.

Lemma wp_result {A} (m : M G A) (Q : A -> st G -> Prop) s a :
  wp_ False m Q s -> option_map fst (m s) = Some a ->
  wp_ False m (fun r s' => r = a /\ Q r s') s.
Proof. unfold wp_. destruct (m s) as [[a' s']|]; [|done]. by intros HQ [= ->]. Qed.

Lemma wp_rd `{Hardware} D r (Q : Z -> st G -> Prop) s :
  (let v := reg_trunc r (hw_value (hist s) r) in
   Q v (St (Rd r v :: hist s) (glob s))) -> wp_ D (rd r) Q s.
Proof. done. Qed.

(** [(REG & mask) != 0] *)
Lemma wp_flag `{Hardware} D r m (Q : bool -> st G -> Prop) s :
  (let v := reg_trunc r (hw_value (hist s) r) in
   Q (anybit v m) (St (Rd r v :: hist s) (glob s))) ->
  wp_ D (v ← rd r; mret (anybit v m)) Q s.
Proof. done. Qed.

Lemma wp_wr D r v (Q : unit -> st G -> Prop) s :
  Q tt (St (Wr r (reg_trunc r v) :: hist s) (glob s)) -> wp_ D (wr r v) Q s.
Proof. done. Qed.

Lemma wp_delay D n (Q : unit -> st G -> Prop) s :
  Q tt (St (DelayUs n :: hist s) (glob s)) -> wp_ D (delay_us n) Q s.
Proof. done. Qed.

Lemma wp_getc {F} `{Has F G} {A} D (f : F -> A) (Q : A -> st G -> Prop) s :
  Q (f (proj (glob s))) s -> wp_ D (getc f) Q s.
Proof. done. Qed.

Lemma wp_modc {F} `{Has F G} D (f : F -> F) (Q : unit -> st G -> Prop) s :
  Q tt (St (hist s) (inj (f (proj (glob s))) (glob s))) -> wp_ D (modc f) Q s.
Proof. done. Qed.

Lemma wp_defined D {A} (o : option A) a (Q : A -> st G -> Prop) s :
  o = Some a -> Q a s -> wp_ D (defined o) Q s.
Proof. by intros ->. Qed.

Lemma wp_for_each D {A} (f : A -> M G unit) (I : list A -> st G -> Prop) (l : list A) s :
  I l s ->
  (forall x l' s', I (x :: l') s' -> wp_ D (f x) (fun _ s'' => I l' s'') s') ->
  wp_ D (for_each l f) (fun _ s' => I [] s') s.
Proof.
  intros HI Hf. revert s HI. induction l as [|x l IH]; intros s HI; [done|].
  cbn. apply wp_bind. eapply wp_conseq; [by apply Hf|done|auto].
Qed.

(** Partial correctness of a loop from an invariant. *)
Lemma wp_loop {A B} (body : A -> M G (A + B)) (I : A -> st G -> Prop)
    (Q : B -> st G -> Prop) fuel a s :
  I a s ->
  (forall a s, I a s -> wp_ True (body a) (fun r s' =>
     match r with inl a' => I a' s' | inr b => Q b s' end) s) ->
  wp_ True (loop fuel body a) Q s.
Proof.
  intros HI Hb. revert a s HI.
  induction fuel as [|n IH]; intros a s HI; [done|].
  cbn. apply wp_bind. eapply wp_conseq; [by apply Hb|done|].
  intros [a'|b] s'; cbn; auto.
Qed.

(** Total correctness from an invariant with a measure. *)
Lemma wp_loop_total {A B} (body : A -> M G (A + B)) (I : A -> st G -> Prop)
    (mu : A -> st G -> nat) (Q : B -> st G -> Prop) fuel a s :
  I a s -> (mu a s < fuel)%nat ->
  (forall a s, I a s -> wp_ False (body a) (fun r s' =>
     match r with
     | inl a' => I a' s' /\ (mu a' s' < mu a s)%nat
     | inr b => Q b s'
     end) s) ->
  wp_ False (loop fuel body a) Q s.
Proof.
  intros HI Hmu Hb. revert a s HI Hmu.
  induction fuel as [|n IH]; intros a s HI Hmu; [lia|].
  cbn. apply wp_bind. eapply wp_conseq; [by apply Hb|done|].
  intros [a'|b] s'; cbn; [intros [HI' Hlt]; apply IH; [done|lia]|done].
Qed.

(** A loop that returns with some fuel returns the same with more. *)
Lemma loop_mono {A B} (body : A -> M G (A + B)) n m a s r :
  loop n body a s = Some r -> (n <= m)%nat -> loop m body a s = Some r.
Proof.
  revert m a s. induction n as [|n IH]; intros m a s Hr Hm; [done|].
  destruct m as [|m]; [lia|]. cbn in *. unfold mbind, M_bind in *.
  destruct (body a s) as [[[a'|b] s']|]; [|done|done].
  apply IH; [done|lia].
Qed.
End wp.

(** Symbolic execution of straight-line code: [wp_step] peels one operation. *)
Ltac wp_step :=
  lazymatch goal with
  | |- wp_ _ (_ ≫= _) _ _ => apply wp_bind
  | |- wp_ _ (mret _) _ _ => apply wp_ret
  | |- wp_ _ (rd _) _ _ => apply wp_rd; cbv zeta; cbn [hist glob]
  | |- wp_ _ (wr _ _) _ _ => apply wp_wr; cbn [hist glob]
  | |- wp_ _ (reg_or _ _) _ _ => unfold reg_or
  | |- wp_ _ (reg_clr _ _) _ _ => unfold reg_clr
  | |- wp_ _ cli _ _ => unfold cli
  | |- wp_ _ sei _ _ => unfold sei
  | |- wp_ _ GetGlobalInterruptMask _ _ => unfold GetGlobalInterruptMask
  | |- wp_ _ (SetGlobalInterruptMask _) _ _ => unfold SetGlobalInterruptMask
  | |- wp_ _ (delay_us _) _ _ => apply wp_delay; cbn [hist glob]
  | |- wp_ _ (getc _) _ _ => apply wp_getc; cbn [hist glob]
  | |- wp_ _ (modc _) _ _ => apply wp_modc; cbn [hist glob]
  | |- wp_ _ (when ?b _) _ _ => unfold when; let E := fresh "Hb" in destruct b eqn:E
  | |- wp_ _ (if ?b then _ else _) _ _ => let E := fresh "Hb" in destruct b eqn:E
  end.
Ltac wp_run := repeat wp_step.

(** ** Frames

    [Runs R m]: whatever [m] does, final and initial state are related by [R].
    [frame K S] relates states when none of the registers [K] has been written
    and the globals are related by [S]. *)
Class Runs {G} (R : relation (st G)) {A} (m : M G A) : Prop :=
  runs : forall s a s', m s = Some (a, s') -> R s s'.

Definition frame {G} (K : reg -> bool) (S : relation G) : relation (st G) := fun s s' =>
  (exists tr, hist s' = tr ++ hist s /\ forall r, K r = true -> writes r tr = [])
  /\ S (glob s) (glob s').

#[export] Instance frame_preorder {G} K (S : relation G) `{!PreOrder S} : PreOrder (frame K S).
Proof.
  split.
  - intros s. split; [exists []; by split|reflexivity].
  - intros s1 s2 s3 [(t1 & H1 & W1) S1] [(t2 & H2 & W2) S2]. split; [|by etransitivity].
    exists (t2 ++ t1). split; [by rewrite H2, H1, app_assoc|].
    intros r Hr. by rewrite writes_app, W1, W2.
Qed.

(** A framed register keeps its value. *)
Lemma frame_last_wr {G} K (S : relation G) s s' r :
  frame K S s s' -> K r = true -> last_wr r (hist s') = last_wr r (hist s).
Proof.
  intros [(tr & -> & Hw) _] Hr. by rewrite !last_wr_writes, writes_app, Hw.
Qed.

Lemma frame_latch {G} `{Hardware} K (S : relation G) s s' r :
  frame K S s s' -> K r = true -> latch_value r (hist s') = latch_value r (hist s).
Proof. intros HF Hr. unfold latch_value. by rewrite (frame_last_wr K S s s' r). Qed.

Section runs.
Context {G : Type}.

Lemma runs_ret R `{!PreOrder R} {A} (a : A) : Runs (G:=G) R (mret a).
Proof. intros s ? ? [= -> ->]. reflexivity. Qed.

Lemma runs_bind R `{!PreOrder R} {A B} (m : M G A) (f : A -> M G B) :
  Runs R m -> (forall a, Runs R (f a)) -> Runs R (m ≫= f).
Proof.
  intros Hm Hf s b s'. unfold mbind, M_bind. destruct (m s) as [[a s1]|] eqn:E; [|done].
  intros Hb. transitivity s1; [by eapply Hm|by eapply Hf].
Qed.

Lemma runs_for_each R `{!PreOrder R} {A} (l : list A) (f : A -> M G unit) :
  (forall x, Runs R (f x)) -> Runs R (for_each l f).
Proof.
  intros Hf. induction l as [|x l IH]; [by apply runs_ret|]. cbn. by apply runs_bind.
Qed.

Lemma runs_loop R `{!PreOrder R} {A B} fuel (body : A -> M G (A + B)) a :
  (forall a, Runs R (body a)) -> Runs R (loop fuel body a).
Proof.
  intros Hb. revert a. induction fuel as [|n IH]; intros a; [by intros s ? ?|].
  cbn. apply runs_bind; [done|done|]. intros [a'|b]; [apply IH|by apply runs_ret].
Qed.

Context (K : reg -> bool) (S : relation G) `{!PreOrder S}.

Lemma runs_rd `{Hardware} r : Runs (frame K S) (rd r).
Proof.
  intros s a s' [= <- <-]. split; [|reflexivity]. exists [Rd r (reg_trunc r (hw_value (hist s) r))].
  by split.
Qed.

Lemma runs_wr r v : K r = false -> Runs (frame K S) (wr r v).
Proof.
  intros HK s a s' [= <- <-]. split; [|reflexivity]. exists [Wr r (reg_trunc r v)].
  split; [done|]. intros r' Hr'. cbn. rewrite decide_False; [done|]. intros ->. congruence.
Qed.

Lemma runs_delay n : Runs (frame K S) (delay_us n).
Proof. intros s a s' [= <- <-]. split; [|reflexivity]. exists [DelayUs n]. by split. Qed.

Lemma runs_gets {A} (f : G -> A) : Runs (frame K S) (gets f).
Proof. intros s a s' [= <- <-]. reflexivity. Qed.

Lemma runs_modify (f : G -> G) : (forall g, S g (f g)) -> Runs (frame K S) (modify f).
Proof. intros Hf s a s' [= <- <-]. split; [exists []; by split|apply Hf]. Qed.
End runs.

(** Prove [Runs (frame K S) m] by walking [m]; functions that have an
    instance are not entered, and the ones that have none are unfolded by the
    caller. *)
Ltac runs_step :=
  lazymatch goal with
  | |- Runs _ (mret _) => apply (runs_ret _)
  | |- Runs _ (_ ≫= _) => apply (runs_bind _); [|intros]
  | |- Runs _ (rd _) => apply (runs_rd _ _)
  | |- Runs _ (wr _ _) => apply (runs_wr _ _); first [reflexivity|assumption]
  | |- Runs _ (delay_us _) => apply (runs_delay _ _)
  | |- Runs _ (gets _) => apply (runs_gets _ _)
  | |- Runs _ (getc _) => apply (runs_gets _ _)
  | |- Runs _ (modc _) => apply (runs_modify _ _); intros
  | |- Runs _ (modify _) => apply (runs_modify _ _); intros
  | |- Runs _ (for_each _ _) => apply (runs_for_each _); intros
  | |- Runs _ (loop _ _ _) => apply (runs_loop _); intros
  | |- Runs _ (reg_or _ _) => unfold reg_or
  | |- Runs _ (reg_clr _ _) => unfold reg_clr
  | |- Runs _ cli => unfold cli
  | |- Runs _ sei => unfold sei
  | |- Runs _ GetGlobalInterruptMask => unfold GetGlobalInterruptMask
  | |- Runs _ (SetGlobalInterruptMask _) => unfold SetGlobalInterruptMask
  | |- Runs _ (when ?b _) => unfold when
  | |- Runs _ (match ?x with _ => _ end) => destruct x
  | |- Runs _ (let _ := _ in _) => cbv zeta
  end.
Ltac runs_go := repeat first [ runs_step | apply _ ].

(** A run of [m] from a wp, together with its frame. *)
Lemma wp_frame {G} (D : Prop) (R : relation (st G)) {A} (m : M G A) Q s `{!Runs R m} :
  wp_ D m Q s -> wp_ D m (fun a s' => Q a s' /\ R s s') s.
Proof.
  unfold wp_. destruct (m s) as [[a s']|] eqn:E; [|done]. intros HQ. split; [done|by eapply runs].
Qed.

(** Programs without busy-waits always return. *)
Class Total {G A} (m : M G A) : Prop := total : forall s, is_Some (m s).

Lemma total_ret {G A} (a : A) : Total (G:=G) (mret a).
Proof. intros s. by eexists. Qed.
Lemma total_bind {G A B} (m : M G A) (f : A -> M G B) :
  Total m -> (forall a, Total (f a)) -> Total (m ≫= f).
Proof.
  intros Hm Hf s. unfold mbind, M_bind. destruct (Hm s) as [[a s'] ->]. apply Hf.
Qed.
Lemma total_for_each {G A} (l : list A) (f : A -> M G unit) :
  (forall x, Total (f x)) -> Total (for_each l f).
Proof. intros Hf. induction l; [apply total_ret|]. cbn. by apply total_bind. Qed.
Lemma total_rd {G} `{Hardware} r : Total (G:=G) (rd r).
Proof. intros s. by eexists. Qed.
Lemma total_wr {G} r v : Total (G:=G) (wr r v).
Proof. intros s. by eexists. Qed.
Lemma total_delay {G} n : Total (G:=G) (delay_us n).
Proof. intros s. by eexists. Qed.
Lemma total_gets {G A} (f : G -> A) : Total (gets f).
Proof. intros s. by eexists. Qed.
Lemma total_modify {G} (f : G -> G) : Total (modify f).
Proof. intros s. by eexists. Qed.

Ltac total_step :=
  lazymatch goal with
  | |- Total (mret _) => apply total_ret
  | |- Total (_ ≫= _) => apply total_bind; [|intros]
  | |- Total (rd _) => apply total_rd
  | |- Total (wr _ _) => apply total_wr
  | |- Total (delay_us _) => apply total_delay
  | |- Total (gets _) => apply total_gets
  | |- Total (getc _) => apply total_gets
  | |- Total (modc _) => apply total_modify
  | |- Total (modify _) => apply total_modify
  | |- Total (for_each _ _) => apply total_for_each; intros
  | |- Total (reg_or _ _) => unfold reg_or
  | |- Total (reg_clr _ _) => unfold reg_clr
  | |- Total cli => unfold cli
  | |- Total sei => unfold sei
  | |- Total GetGlobalInterruptMask => unfold GetGlobalInterruptMask
  | |- Total (SetGlobalInterruptMask _) => unfold SetGlobalInterruptMask
  | |- Total (when _ _) => unfold when
  | |- Total (match ?x with _ => _ end) => destruct x
  | |- Total (let _ := _ in _) => cbv zeta
  end.
Ltac total_go := repeat first [ total_step | apply _ ].

(** Termination and frame, apart. *)
Lemma wp_some_runs {G} (R : relation (st G)) {A} (m : M G A) s `{!Runs R m} :
  is_Some (m s) -> wp_ False m (fun _ s' => R s s') s.
Proof. unfold wp_. intros [[a s'] E]. rewrite E. by eapply runs. Qed.

Lemma wp_total_runs {G} (R : relation (st G)) {A} (m : M G A) s `{!Total m} `{!Runs R m} :
  wp_ False m (fun _ s' => R s s') s.
Proof.
  unfold wp_. destruct (total s) as [[a s'] E]. rewrite E. by eapply runs.
Qed.

Lemma wp_partial {G A} (m : M G A) (Q : A -> st G -> Prop) s :
  is_Some (m s) -> wp_ True m Q s -> wp_ False m Q s.
Proof. unfold wp_. intros [[a s'] ->]. done. Qed.

Lemma wp_some {G A} D (m : M G A) (Q : A -> st G -> Prop) s :
  (D -> False) -> wp_ D m Q s -> is_Some (m s).
Proof. unfold wp_. destruct (m s); [by eexists|]. intros HD Hd. by destruct HD. Qed.

Lemma wp_and {G A} (m : M G A) (Q1 Q2 : A -> st G -> Prop) s :
  wp_ False m Q1 s -> wp_ False m Q2 s -> wp_ False m (fun a s' => Q1 a s' /\ Q2 a s') s.
Proof. unfold wp_. destruct (m s) as [[a s']|]; auto. Qed.

(** A fact about the result that needs a hypothesis termination does not. *)
Lemma wp_under {G A} (P : Prop) (m : M G A) (Q : A -> st G -> Prop) s `{!Total m} :
  (P -> wp_ False m Q s) -> wp_ False m (fun a s' => P -> Q a s') s.
Proof. unfold wp_. destruct (total s) as [[a s'] ->]. auto. Qed.

(** The next statement by its specification: [wp_call (spec)]. *)
Ltac wp_spec spec :=
  refine (wp_conseq False _ _ _ _ _ spec (fun x => x) _); cbn beta.
Ltac wp_call spec := apply wp_bind; wp_spec spec.

(** ** Registers only

    Symbolic execution that keeps of the history what each register was last
    written, for code that sets many registers. *)

(** The history has grown by a write of [v] to [r] and reads. *)
Definition wrote (r : reg) (v : Z) (h h' : history) : Prop :=
  last_wr r h' = Some v /\ forall r', r' <> r -> last_wr r' h' = last_wr r' h.

Section abstract.
Context {G : Type}.

Lemma wp_wr_abs D r v (Q : unit -> st G -> Prop) h g :
  (forall h', wrote r (reg_trunc r v) h h' -> Q tt (St h' g)) -> wp_ D (wr r v) Q (St h g).
Proof.
  intros HQ. apply wp_wr, HQ. split; [apply last_wr_cons_eq|].
  intros r' Hr. by apply last_wr_cons_ne.
Qed.

Lemma wp_rmw_abs `{Hardware} D r f (Q : unit -> st G -> Prop) h g :
  (forall v h', (Latch r -> v = latch_value r h) -> wrote r (reg_trunc r (f v)) h h' ->
     Q tt (St h' g)) ->
  wp_ D (v ← rd r; wr r (f v)) Q (St h g).
Proof.
  intros HQ. apply wp_bind, wp_rd, wp_wr. eapply HQ.
  - intros HL. exact (HL h).
  - split; [apply last_wr_cons_eq|]. intros r' Hr. cbn [hist glob]. by rewrite last_wr_cons_ne.
Qed.

Lemma wp_rd_abs `{Hardware} D r (Q : Z -> st G -> Prop) h g :
  (forall v h', (Latch r -> v = latch_value r h) -> (forall r', last_wr r' h' = last_wr r' h) ->
     Q v (St h' g)) ->
  wp_ D (rd r) Q (St h g).
Proof. intros HQ. apply wp_rd. apply HQ; [intros HL; exact (HL h)|done]. Qed.

Lemma wrote_value `{Hardware} r v h h' : wrote r v h h' -> latch_value r h' = reg_trunc r v.
Proof. intros [Hv _]. unfold latch_value. by rewrite Hv. Qed.
Lemma wrote_other `{Hardware} r r' v h h' :
  wrote r v h h' -> r' <> r -> latch_value r' h' = latch_value r' h.
Proof. intros [_ Ho] Hr. unfold latch_value. by rewrite Ho. Qed.
Lemma read_value `{Hardware} r h h' :
  (forall r', last_wr r' h' = last_wr r' h) -> latch_value r h' = latch_value r h.
Proof. intros Ho. unfold latch_value. by rewrite Ho. Qed.
End abstract.

(** One statement; the new history is a variable. *)
Ltac abs_step :=
  lazymatch goal with
  | |- wp_ _ (_ ≫= _) _ _ => apply wp_bind
  | |- wp_ _ (mret _) _ _ => apply wp_ret
  | |- wp_ _ (wr _ _) _ (St _ _) => apply wp_wr_abs; intros ? ?
  | |- wp_ _ (reg_or ?r ?m) _ (St _ _) => apply (wp_rmw_abs _ r (fun v => setbits v m)); intros ? ? ? ?
  | |- wp_ _ (reg_clr ?r ?m) _ (St _ _) => apply (wp_rmw_abs _ r (fun v => clrbits v m)); intros ? ? ? ?
  | |- wp_ _ cli _ _ => unfold cli
  | |- wp_ _ sei _ _ => unfold sei
  | |- wp_ _ GetGlobalInterruptMask _ _ => unfold GetGlobalInterruptMask
  | |- wp_ _ (SetGlobalInterruptMask _) _ _ => unfold SetGlobalInterruptMask
  | |- wp_ _ (rd _) _ (St _ _) => apply wp_rd_abs; intros ? ? ? ?
  | |- wp_ _ (getc _) _ _ => apply wp_getc; cbn [hist glob]
  | |- wp_ _ (modc _) _ _ => apply wp_modc; cbn [hist glob]
  | |- wp_ _ (when ?b _) _ _ => unfold when; let E := fresh "Hb" in destruct b eqn:E
  | |- wp_ _ (if ?b then _ else _) _ _ => let E := fresh "Hb" in destruct b eqn:E
  end.
Ltac abs_run := repeat abs_step.

(** The value of a register from the writes in the context. *)
Ltac latch_chain :=
  repeat match goal with
  | Hw : wrote ?r _ _ ?h' |- context [latch_value ?r ?h'] => rewrite (wrote_value _ _ _ _ Hw)
  | Hw : wrote _ _ _ ?h' |- context [latch_value ?r ?h'] =>
      rewrite (wrote_other _ r _ _ _ Hw) by discriminate
  | Hw : wrote ?r _ _ ?h' |- context [last_wr ?r ?h'] => rewrite (proj1 Hw)
  | Hw : wrote _ _ _ ?h' |- context [last_wr ?r ?h'] => rewrite (proj2 Hw r) by discriminate
  | Hv : Latch ?r -> ?v = _ |- context [?v] => rewrite (Hv _)
  | Hr : (forall r', last_wr r' ?h' = _) |- context [latch_value ?r ?h'] =>
      rewrite (read_value r _ _ Hr)
  | Hr : (forall r', last_wr r' ?h' = _) |- context [last_wr ?r ?h'] => rewrite (Hr r)
  | Hf : frame _ _ (St ?h _) (St ?h' _) |- context [latch_value ?r ?h'] =>
      rewrite (frame_latch _ _ _ _ r Hf eq_refl : latch_value r h' = latch_value r h)
  | Hf : frame _ _ (St ?h _) (St ?h' _) |- context [last_wr ?r ?h'] =>
      rewrite (frame_last_wr _ _ _ _ r Hf eq_refl : last_wr r h' = last_wr r h)
  end; rewrite ?reg_trunc_trunc.
