(* ===== verification/Flat.v ===== *)
(** * Objects in memory

    A C object that is accessed at several types (a message buffer, a struct
    and the bytes around it) as the list of its bytes; the AVR has no padding
    and is little-endian.  [load] and [store] access [n] bytes at an offset,
    [load32] and [store32] a [uint32_t]; [inside] is the range check of an
    access whose offset the program computes. *)

From S2P Require Import Prelude.

Definition load (i n : nat) (m : list Z) : list Z := take n (drop i m).
Definition store (i : nat) (bs m : list Z) : list Z := list_inserts i bs m.
Definition load8 (i : nat) (m : list Z) : Z := default 0 (m !! i).
Definition store8 (i : nat) (v : Z) (m : list Z) : list Z := store i [u8 v] m.
Definition load32 (i : nat) (m : list Z) : Z := le_value (load i 4 m).
Definition store32 (i : nat) (v : Z) (m : list Z) : list Z := store i (le_bytes 4 v) m.

Definition inside (i n : Z) (m : list Z) : bool := (0 <=? i) && (i + n <=? zlen m).

(** [memcpy] into the object. *)
Definition copy_to (i : nat) (bs m : list Z) : option (list Z) :=
  if inside (Z.of_nat i) (zlen bs) m then Some (store i bs m) else None.

Lemma length_store i bs m : length (store i bs m) = length m.
Proof. apply length_inserts. Qed.

Lemma length_load i n m : (i + n <= length m)%nat -> length (load i n m) = n.
Proof. intros Hi. unfold load. rewrite length_take, length_drop. lia. Qed.

Lemma lookup_load i n m j : load i n m !! j = if decide (j < n)%nat then m !! (i + j)%nat else None.
Proof.
  unfold load. case_decide.
  - by rewrite lookup_take_lt, lookup_drop.
  - apply lookup_take_ge. lia.
Qed.

Lemma lookup_store i bs m j :
  (i + length bs <= length m)%nat ->
  store i bs m !! j = if decide (i <= j < i + length bs)%nat then bs !! (j - i)%nat else m !! j.
Proof.
  intros Hi. unfold store. case_decide as Hj.
  - apply list_lookup_inserts; lia.
  - destruct (decide (j < i)%nat).
    + by apply list_lookup_inserts_lt.
    + apply list_lookup_inserts_ge. lia.
Qed.

(** Loading what was stored, and loading beside it. *)
Lemma load_store_eq i n bs m :
  length bs = n -> (i + n <= length m)%nat -> load i n (store i bs m) = bs.
Proof.
  intros <- Hi. apply list_eq. intros j. rewrite lookup_load, lookup_store by lia.
  case_decide as Hj.
  - rewrite decide_True by lia. f_equal. lia.
  - symmetry. apply lookup_ge_None. lia.
Qed.

Lemma load_store_ne i n j bs m :
  (j + length bs <= length m)%nat -> (i + n <= j \/ j + length bs <= i)%nat ->
  load i n (store j bs m) = load i n m.
Proof.
  intros Hj Hd. apply list_eq. intros k. rewrite !lookup_load.
  case_decide; [|done]. rewrite lookup_store by lia. case_decide; [lia|done].
Qed.

Lemma Forall_store (P : Z -> Prop) i bs m :
  Forall P bs -> Forall P m -> Forall P (store i bs m).
Proof. intros. by apply Forall_inserts. Qed.

Lemma load_split i n k m : load i (n + k) m = load i n m ++ load (i + n) k m.
Proof. unfold load. rewrite <- drop_drop. by rewrite take_take_drop. Qed.

Lemma load32_halves i m : load32 i m = le_value (load i 2 m ++ load (i + 2) 2 m).
Proof. unfold load32. by rewrite (load_split i 2 2). Qed.

Lemma load_all m n : length m = n -> load 0 n m = m.
Proof. intros <-. unfold load. by rewrite drop_0, take_ge. Qed.

Lemma Forall_load (P : Z -> Prop) i n m : Forall P m -> Forall P (load i n m).
Proof. intros. by apply Forall_take, Forall_drop. Qed.

(** Sizes and offsets of the accesses in the goal are numerals: decide them. *)
Ltac flat_lia :=
  repeat (rewrite length_store || rewrite le_bytes_length || rewrite length_app
          || rewrite length_inserts);
  cbn [length]; lia.

Create Rewrite HintDb flat.
#[export] Hint Rewrite length_store : flat.

Section words.
Context (m : list Z).

Lemma length_store8 i v : length (store8 i v m) = length m.
Proof. apply length_store. Qed.
Lemma length_store32 i v : length (store32 i v m) = length m.
Proof. apply length_store. Qed.

Lemma load32_store32_eq i v : (i + 4 <= length m)%nat -> load32 i (store32 i v m) = u32 v.
Proof.
  intros Hi. unfold load32, store32. rewrite load_store_eq by (rewrite ?le_bytes_length; done || lia).
  apply (le_value_bytes 4).
Qed.
Lemma load32_store_ne i j bs :
  (j + length bs <= length m)%nat -> (i + 4 <= j \/ j + length bs <= i)%nat ->
  load32 i (store j bs m) = load32 i m.
Proof. intros. unfold load32. by rewrite load_store_ne. Qed.
Lemma load32_store32_ne i j v :
  (j + 4 <= length m)%nat -> (i + 4 <= j \/ j + 4 <= i)%nat ->
  load32 i (store32 j v m) = load32 i m.
Proof. intros. unfold store32. by apply load32_store_ne. Qed.
Lemma load32_store8_ne i j v :
  (j + 1 <= length m)%nat -> (i + 4 <= j \/ j + 1 <= i)%nat ->
  load32 i (store8 j v m) = load32 i m.
Proof. intros. unfold store8. by apply load32_store_ne. Qed.

Lemma load8_store_ne i j bs :
  (j + length bs <= length m)%nat -> (i + 1 <= j \/ j + length bs <= i)%nat ->
  load8 i (store j bs m) = load8 i m.
Proof. intros. unfold load8. rewrite lookup_store by done. case_decide; [lia|done]. Qed.
Lemma load8_store8_eq i v : (i + 1 <= length m)%nat -> load8 i (store8 i v m) = u8 v.
Proof.
  intros Hi. unfold load8, store8. rewrite lookup_store by (cbn; lia). cbn [length].
  rewrite decide_True by lia. by replace (i - i)%nat with 0%nat by lia.
Qed.
Lemma load8_store8_ne i j v :
  (j + 1 <= length m)%nat -> (i <> j)%nat -> load8 i (store8 j v m) = load8 i m.
Proof. intros. unfold store8. apply load8_store_ne; cbn [length]; lia. Qed.
Lemma load8_store32_ne i j v :
  (j + 4 <= length m)%nat -> (i + 1 <= j \/ j + 4 <= i)%nat ->
  load8 i (store32 j v m) = load8 i m.
Proof. intros. unfold store32. by apply load8_store_ne. Qed.

Lemma load_store32_eq i v : (i + 4 <= length m)%nat -> load i 4 (store32 i v m) = le_bytes 4 v.
Proof. intros Hi. unfold store32. by apply load_store_eq. Qed.
Lemma load_store32_ne i n j v :
  (j + 4 <= length m)%nat -> (i + n <= j \/ j + 4 <= i)%nat ->
  load i n (store32 j v m) = load i n m.
Proof. intros. unfold store32. by apply load_store_ne. Qed.
Lemma load_store8_ne i n j v :
  (j + 1 <= length m)%nat -> (i + n <= j \/ j + 1 <= i)%nat ->
  load i n (store8 j v m) = load i n m.
Proof. intros. unfold store8. by apply load_store_ne. Qed.

Lemma load32_range i : Forall is_u8 m -> is_u32 (load32 i m).
Proof.
  intros Hm. pose proof (le_value_range (load i 4 m) (Forall_load _ i 4 m Hm)) as Hr.
  unfold load32. assert (length (load i 4 m) <= 4)%nat by (unfold load; rewrite length_take; lia).
  unfold is_u32. pose proof (Z.pow_le_mono_r 2 (8 * Z.of_nat (length (load i 4 m))) 32). lia.
Qed.

Lemma load32_bytes i :
  Forall is_u8 m -> (i + 4 <= length m)%nat -> le_bytes 4 (load32 i m) = load i 4 m.
Proof.
  intros Hm Hi. unfold load32. pose proof (le_bytes_value (load i 4 m) (Forall_load _ i 4 m Hm)) as Hb.
  by rewrite (length_load i 4 m Hi) in Hb.
Qed.
End words.

#[export] Hint Rewrite @length_store8 @length_store32 : flat.

(** Evaluate loads from a memory of known length written at fixed offsets;
    [Hm] is the length. *)
Ltac flat_side := autorewrite with flat; cbn [length]; lia.
Ltac flat_simpl :=
  repeat first
    [ rewrite load32_store32_eq by flat_side | rewrite load32_store32_ne by flat_side
    | rewrite load32_store8_ne by flat_side
    | rewrite load8_store8_eq by flat_side | rewrite load8_store8_ne by flat_side
    | rewrite load8_store32_ne by flat_side
    | rewrite load_store32_eq by flat_side | rewrite load_store32_ne by flat_side
    | rewrite load_store8_ne by flat_side
    | rewrite load32_store_ne by flat_side | rewrite load8_store_ne by flat_side
    | rewrite load_store_eq by flat_side | rewrite load_store_ne by flat_side ].

(** ** Words *)

(** A struct of [uint32_t]s. *)
Definition words (ws : list Z) : list Z := concat (map (le_bytes 4) ws).

Lemma words_cons w ws : words (w :: ws) = le_bytes 4 w ++ words ws.
Proof. done. Qed.
Lemma length_words ws : length (words ws) = (4 * length ws)%nat.
Proof. induction ws as [|w ws IH]; [done|]. rewrite words_cons, length_app, le_bytes_length, IH. cbn. lia. Qed.
Lemma words_range ws : Forall is_u8 (words ws).
Proof. induction ws; [done|]. rewrite words_cons. apply Forall_app. split; [apply le_bytes_range|done]. Qed.

(** A load inside a part that is known. *)
Lemma load_load i n k m : (i + n <= k)%nat -> load i n (load 0 k m) = load i n m.
Proof.
  intros Hi. apply list_eq. intros j. rewrite !lookup_load. case_decide; [|done].
  rewrite decide_True by lia. done.
Qed.
Lemma load32_load i k m : (i + 4 <= k)%nat -> load32 i (load 0 k m) = load32 i m.
Proof. intros Hi. unfold load32. by rewrite load_load. Qed.

Lemma load_app_l i n bs l : (i + n <= length bs)%nat -> load i n (bs ++ l) = load i n bs.
Proof.
  intros Hi. apply list_eq. intros j. rewrite !lookup_load. case_decide; [|done].
  apply lookup_app_l. lia.
Qed.
Lemma load_app_r i n bs l : (length bs <= i)%nat -> load i n (bs ++ l) = load (i - length bs) n l.
Proof.
  intros Hi. apply list_eq. intros j. rewrite !lookup_load. case_decide; [|done].
  rewrite lookup_app_r by lia. f_equal. lia.
Qed.

Lemma load32_words k w ws l : ws !! k = Some w -> load32 (4 * k) (words ws ++ l) = u32 w.
Proof.
  revert k. induction ws as [|x ws IH]; intros k Hk; [done|]. rewrite words_cons, <- app_assoc.
  unfold load32. destruct k as [|k].
  - injection Hk as ->. rewrite load_app_l by (rewrite le_bytes_length; lia).
    rewrite load_all by apply le_bytes_length. apply (le_value_bytes 4).
  - rewrite load_app_r by (rewrite le_bytes_length; lia). rewrite le_bytes_length.
    replace (4 * S k - 4)%nat with (4 * k)%nat by lia. by apply IH.
Qed.

(** A part of the memory as the words it holds. *)
Lemma load_words n i m :
  Forall is_u8 m -> (i + 4 * n <= length m)%nat ->
  load i (4 * n) m = words (map (fun k => load32 (i + 4 * k) m) (seq 0 n)).
Proof.
  intros Hm. revert i. induction n as [|n IH]; intros i Hi; [done|].
  replace (4 * S n)%nat with (4 + 4 * n)%nat by lia. rewrite load_split, (IH (i + 4)%nat) by lia.
  cbn [seq map]. rewrite words_cons, Nat.mul_0_r, Nat.add_0_r.
  rewrite load32_bytes by (done || lia). f_equal. unfold words. do 2 f_equal.
  rewrite <- (fmap_S_seq 0). rewrite map_map. apply map_ext. intros k. f_equal. lia.
Qed.
