(* ===== verification/RingBuffer.v ===== *)
(** * LUFA/Drivers/Misc/RingBuffer.h

    The byte ring buffer the firmware keeps its two queues in.  The record
    [RingBuffer_t] has the C struct's fields, pointers being addresses, with
    the storage array beside it; the operations are the inline functions of
    the header (the interrupt-mask brackets around the [Count] updates are what
    makes an operation one atomic step of the model).

    The header promises a bounded FIFO to callers that test for room before
    they insert and for data before they remove: [Fifo] states that promise,
    and the ring buffer is proved to keep it.  Nothing in the code tests for
    room, so what an insertion into a full buffer does is stated too. *)

From S2P Require Import Prelude.

Record RingBuffer_t := mkRing {
  rb_In : Z;
  rb_Out : Z;
  rb_Start : Z;
  rb_End : Z;
  rb_Size : Z;
  rb_Count : Z;
  rb_data : list Z;     (* the storage array, from address [rb_Start] *)
}.

(** The byte at an address of the storage array. *)
Definition rb_load (b : RingBuffer_t) (addr : Z) : Z :=
  rb_data b !!! Z.to_nat (addr - rb_Start b).

Definition RingBuffer_InitBuffer (DataPtr : Z) (data : list Z) (Size : Z) : RingBuffer_t :=
  {| rb_In := DataPtr; rb_Out := DataPtr; rb_Start := DataPtr;
     rb_End := DataPtr + Size; rb_Size := Size; rb_Count := 0; rb_data := data |}.

Definition RingBuffer_GetCount (b : RingBuffer_t) : Z := rb_Count b.

Definition RingBuffer_GetFreeCount (b : RingBuffer_t) : Z :=
  u16 (rb_Size b - RingBuffer_GetCount b).

Definition RingBuffer_IsEmpty (b : RingBuffer_t) : bool := RingBuffer_GetCount b =? 0.

Definition RingBuffer_IsFull (b : RingBuffer_t) : bool := RingBuffer_GetCount b =? rb_Size b.

Definition RingBuffer_Insert (b : RingBuffer_t) (Data : Z) : RingBuffer_t :=
  let data' := <[Z.to_nat (rb_In b - rb_Start b) := u8 Data]> (rb_data b) in
  let In' := rb_In b + 1 in
  {| rb_In := if In' =? rb_End b then rb_Start b else In';
     rb_Out := rb_Out b; rb_Start := rb_Start b; rb_End := rb_End b;
     rb_Size := rb_Size b; rb_Count := u16 (rb_Count b + 1); rb_data := data' |}.

Definition RingBuffer_Remove (b : RingBuffer_t) : Z * RingBuffer_t :=
  let Data := rb_load b (rb_Out b) in
  let Out' := rb_Out b + 1 in
  (Data,
   {| rb_In := rb_In b;
      rb_Out := if Out' =? rb_End b then rb_Start b else Out';
      rb_Start := rb_Start b; rb_End := rb_End b;
      rb_Size := rb_Size b; rb_Count := u16 (rb_Count b - 1); rb_data := rb_data b |}).

Definition RingBuffer_Peek (b : RingBuffer_t) : Z := rb_load b (rb_Out b).

(** ** What a byte queue promises its clients *)

Class Fifo (B : Type) := {
  fifo_put : B -> Z -> B;
  fifo_take : B -> Z * B;
  fifo_ok : B -> Prop;             (* the representation invariant *)
  fifo_list : B -> list Z;         (* the bytes held, oldest first *)
  fifo_cap : B -> Z;
  fifo_bound : forall b, fifo_ok b -> zlen (fifo_list b) <= fifo_cap b;
  fifo_bytes : forall b, fifo_ok b -> Forall is_u8 (fifo_list b);
  fifo_put_spec : forall b x, fifo_ok b -> zlen (fifo_list b) < fifo_cap b ->
    fifo_ok (fifo_put b x) /\ fifo_list (fifo_put b x) = fifo_list b ++ [u8 x]
    /\ fifo_cap (fifo_put b x) = fifo_cap b;
  fifo_take_spec : forall b x l, fifo_ok b -> fifo_list b = x :: l ->
    fst (fifo_take b) = x /\ fifo_ok (snd (fifo_take b))
    /\ fifo_list (snd (fifo_take b)) = l /\ fifo_cap (snd (fifo_take b)) = fifo_cap b;
}.

Section fifo_clients.
Context {B : Type} `{Fifo B}.

(** Insert the bytes of a list in order. *)
Definition fifo_puts (b : B) (l : list Z) : B := fold_left fifo_put l b.

(** Remove [n] bytes in order. *)
Fixpoint fifo_takes (n : nat) (b : B) : list Z * B :=
  match n with
  | O => ([], b)
  | S n' => let (x, b1) := fifo_take b in
            let (l, b2) := fifo_takes n' b1 in (x :: l, b2)
  end.

Lemma fifo_puts_spec l : forall b,
  fifo_ok b -> zlen (fifo_list b) + zlen l <= fifo_cap b ->
  fifo_ok (fifo_puts b l) /\ fifo_list (fifo_puts b l) = fifo_list b ++ map u8 l
  /\ fifo_cap (fifo_puts b l) = fifo_cap b.
Proof.
  induction l as [|x l IH]; intros b Hok Hroom.
  { cbn. by rewrite app_nil_r. }
  change (fifo_puts b (x :: l)) with (fifo_puts (fifo_put b x) l). cbn [map].
  rewrite zlen_cons in Hroom. pose proof (zlen_nonneg l).
  destruct (fifo_put_spec b x Hok) as (Hok1 & Hl1 & Hc1); [lia|].
  destruct (IH (fifo_put b x)) as (Hok2 & Hl2 & Hc2); [done| |].
  { rewrite Hl1, Hc1, zlen_app. change (zlen [u8 x]) with 1. lia. }
  split; [done|]. split; [|congruence].
  by rewrite Hl2, Hl1, <- app_assoc.
Qed.

Lemma fifo_takes_spec l : forall b rest,
  fifo_ok b -> fifo_list b = l ++ rest ->
  fst (fifo_takes (length l) b) = l /\ fifo_ok (snd (fifo_takes (length l) b))
  /\ fifo_list (snd (fifo_takes (length l) b)) = rest
  /\ fifo_cap (snd (fifo_takes (length l) b)) = fifo_cap b.
Proof.
  induction l as [|x l IH]; intros b rest Hok Hl; cbn; [done|].
  destruct (fifo_take_spec b x (l ++ rest) Hok Hl) as (Hx & Hok1 & Hl1 & Hc1).
  destruct (fifo_take b) as [x' b1]. cbn in *. subst x'.
  destruct (IH b1 rest Hok1 Hl1) as (Hl2 & Hok2 & Hr2 & Hc2).
  destruct (fifo_takes (length l) b1) as [l' b2]. cbn in *. subst l'.
  split; [done|]. split; [done|]. split; [done|congruence].
Qed.
End fifo_clients.

(** ** The ring buffer is a FIFO *)

(** Position in the storage array of the [i]-th byte held. *)
Definition rb_pos (b : RingBuffer_t) (i : Z) : Z :=
  (rb_Out b - rb_Start b + i) mod rb_Size b.

Definition rb_contents (b : RingBuffer_t) : list Z :=
  map (fun i => rb_data b !!! Z.to_nat (rb_pos b (Z.of_nat i))) (seq 0 (Z.to_nat (rb_Count b))).

Record rb_ok (b : RingBuffer_t) : Prop := {
  rb_ok_size : 0 < rb_Size b < 2 ^ 16;
  rb_ok_len : zlen (rb_data b) = rb_Size b;
  rb_ok_end : rb_End b = rb_Start b + rb_Size b;
  rb_ok_out : rb_Start b <= rb_Out b < rb_End b;
  rb_ok_count : 0 <= rb_Count b <= rb_Size b;
  rb_ok_in : rb_In b = rb_Start b + rb_pos b (rb_Count b);
  rb_ok_bytes : Forall is_u8 (rb_data b);
}.

Lemma rb_pos_range b i : rb_ok b -> 0 <= rb_pos b i < rb_Size b.
Proof. intros []. apply Z.mod_pos_bound. lia. Qed.

Lemma ring_mod_inj s o i j :
  0 <= i < s -> 0 <= j < s -> (o + i) mod s = (o + j) mod s -> i = j.
Proof.
  intros Hi Hj Heq.
  pose proof (Z.div_mod (o + i) s ltac:(lia)) as H1.
  pose proof (Z.div_mod (o + j) s ltac:(lia)) as H2. rewrite Heq in H1.
  assert (i - j = s * ((o + i) / s - (o + j) / s)) by lia.
  assert ((o + i) / s - (o + j) / s = 0) by nia. lia.
Qed.

Lemma rb_contents_length b : rb_ok b -> zlen (rb_contents b) = rb_Count b.
Proof.
  intros []. unfold zlen, rb_contents. rewrite length_map, length_seq. lia.
Qed.

Lemma rb_contents_bytes b : rb_ok b -> Forall is_u8 (rb_contents b).
Proof.
  intros Hok. unfold rb_contents. apply List.Forall_forall.
  intros x (i & <- & _)%in_map_iff.
  pose proof (rb_pos_range b (Z.of_nat i) Hok). destruct Hok.
  eapply List.Forall_forall; [done|].
  apply list_elem_of_In, list_elem_of_lookup_total_2.
  unfold zlen in *. lia.
Qed.

(** The next position, wrapping at the end of the array. *)
Lemma ring_next b i :
  rb_ok b ->
  (if rb_Start b + rb_pos b i + 1 =? rb_End b then rb_Start b
   else rb_Start b + rb_pos b i + 1) = rb_Start b + rb_pos b (i + 1).
Proof.
  intros Hok. pose proof (rb_pos_range b i Hok) as Hp. destruct Hok.
  unfold rb_pos in *. rewrite Z.add_assoc.
  set (s := rb_Size b) in *. set (x := rb_Out b - rb_Start b + i) in *.
  rewrite <- (Z.add_mod_idemp_l x 1 s) by lia.
  destruct (Z.eqb_spec (rb_Start b + x mod s + 1) (rb_End b)).
  - replace (x `mod` s + 1) with s by lia. rewrite Z.mod_same by lia. lia.
  - rewrite (Z.mod_small (x `mod` s + 1)) by lia. lia.
Qed.

Lemma rb_pos_0 b : rb_ok b -> rb_pos b 0 = rb_Out b - rb_Start b.
Proof. intros []. unfold rb_pos. rewrite Z.add_0_r. apply Z.mod_small. lia. Qed.

Lemma ring_next_out b :
  rb_ok b ->
  (if rb_Out b + 1 =? rb_End b then rb_Start b else rb_Out b + 1)
  = rb_Start b + rb_pos b 1.
Proof.
  intros Hok. change 1 with (0 + 1) at 3.
  rewrite <- (ring_next b 0 Hok), (rb_pos_0 b Hok).
  replace (rb_Start b + (rb_Out b - rb_Start b) + 1) with (rb_Out b + 1) by lia. done.
Qed.

Lemma rb_insert_ok b x :
  rb_ok b -> rb_Count b < rb_Size b -> rb_ok (RingBuffer_Insert b x).
Proof.
  intros Hok Hroom. pose proof (ring_next b (rb_Count b) Hok) as Hn.
  destruct Hok. constructor; cbn.
  - done.
  - unfold zlen in *. by rewrite length_insert.
  - done.
  - done.
  - rewrite u16_id by (unfold is_u16; lia). lia.
  - rewrite u16_id by (unfold is_u16; lia). rewrite rb_ok_in0, Hn. done.
  - apply Forall_insert; [done|apply u8_range].
Qed.

Lemma rb_insert_contents b x :
  rb_ok b -> rb_Count b < rb_Size b ->
  rb_contents (RingBuffer_Insert b x) = rb_contents b ++ [u8 x].
Proof.
  intros Hok Hroom. unfold rb_contents. cbn [RingBuffer_Insert rb_Count rb_data].
  pose proof (rb_pos_range b (rb_Count b) Hok) as Hp.
  pose proof Hok as [? Hlen ? ? ? Hin ?].
  rewrite u16_id by (unfold is_u16; lia).
  replace (Z.to_nat (rb_Count b + 1)) with (Z.to_nat (rb_Count b) + 1)%nat by lia.
  rewrite seq_app, map_app. cbn [seq map]. f_equal.
  - apply map_ext_in. intros i Hi%in_seq.
    unfold rb_pos at 1. cbn. fold (rb_pos b (Z.of_nat i)).
    pose proof (rb_pos_range b (Z.of_nat i) Hok) as Hpi.
    apply list_lookup_total_insert_ne. rewrite Hin.
    intros Heq. assert (rb_pos b (rb_Count b) = rb_pos b (Z.of_nat i)) by lia.
    assert (rb_Count b = Z.of_nat i) by (eapply ring_mod_inj; [| |done]; lia). lia.
  - f_equal. unfold rb_pos at 1. cbn. fold (rb_pos b (Z.of_nat (Z.to_nat (rb_Count b)))).
    rewrite Z2Nat.id, Hin by lia.
    replace (rb_Start b + rb_pos b (rb_Count b) - rb_Start b)
      with (rb_pos b (rb_Count b)) by lia.
    apply list_lookup_total_insert_eq. unfold zlen in Hlen. lia.
Qed.

Lemma rb_remove_pos b i :
  rb_ok b -> rb_pos (snd (RingBuffer_Remove b)) i = rb_pos b (i + 1).
Proof.
  intros Hok. pose proof (ring_next_out b Hok) as Hn.
  unfold rb_pos at 1. cbn. rewrite Hn. destruct Hok. unfold rb_pos.
  set (p := (rb_Out b - rb_Start b + 1) mod rb_Size b).
  replace (rb_Start b + p - rb_Start b + i) with (p + i) by lia. subst p.
  rewrite Z.add_mod_idemp_l by lia. f_equal. lia.
Qed.

Lemma rb_remove_ok b :
  rb_ok b -> 0 < rb_Count b -> rb_ok (snd (RingBuffer_Remove b)).
Proof.
  intros Hok Hc. pose proof (rb_remove_pos b (rb_Count b - 1) Hok) as Hp.
  pose proof (ring_next_out b Hok) as Hn. pose proof (rb_pos_range b 1 Hok).
  destruct Hok. constructor; cbn; try done.
  - rewrite Hn. lia.
  - rewrite u16_id by (unfold is_u16; lia). lia.
  - rewrite u16_id by (unfold is_u16; lia). rewrite rb_ok_in0. f_equal.
    change (rb_pos b (rb_Count b) = rb_pos (snd (RingBuffer_Remove b)) (rb_Count b - 1)).
    rewrite Hp. f_equal. lia.
Qed.

Lemma rb_remove_contents b :
  rb_ok b -> 0 < rb_Count b ->
  rb_contents b = fst (RingBuffer_Remove b) :: rb_contents (snd (RingBuffer_Remove b)).
Proof.
  intros Hok Hc. pose proof (rb_pos_0 b Hok) as H0. pose proof Hok as [].
  unfold rb_contents at 1.
  replace (Z.to_nat (rb_Count b)) with (S (Z.to_nat (rb_Count b - 1))) by lia.
  cbn [seq map]. f_equal.
  - change (Z.of_nat 0) with 0. rewrite H0. done.
  - unfold rb_contents. cbn [RingBuffer_Remove snd rb_Count].
    rewrite u16_id by (unfold is_u16; lia).
    rewrite <- seq_shift, map_map. apply map_ext_in. intros i _.
    change (rb_data b !!! Z.to_nat (rb_pos b (Z.of_nat (S i))) =
            rb_data b !!! Z.to_nat (rb_pos (snd (RingBuffer_Remove b)) (Z.of_nat i))).
    rewrite rb_remove_pos by done. repeat f_equal. lia.
Qed.

#[export, refine] Instance RingBuffer_Fifo : Fifo RingBuffer_t := {|
  fifo_put := RingBuffer_Insert;
  fifo_take := RingBuffer_Remove;
  fifo_ok := rb_ok;
  fifo_list := rb_contents;
  fifo_cap := rb_Size;
|}.
Proof.
  - intros b Hok. rewrite rb_contents_length by done. destruct Hok. lia.
  - apply rb_contents_bytes.
  - intros b x Hok Hr. rewrite rb_contents_length in Hr by done.
    split; [by apply rb_insert_ok|]. split; [by apply rb_insert_contents|done].
  - intros b x l Hok Hl.
    assert (0 < rb_Count b).
    { rewrite <- rb_contents_length by done. rewrite Hl, zlen_cons.
      pose proof (zlen_nonneg l). lia. }
    pose proof (rb_remove_contents b Hok ltac:(done)) as Hc. rewrite Hl in Hc.
    injection Hc as Hx Hl'.
    split; [done|]. split; [by apply rb_remove_ok|]. done.
Defined.

(** A freshly initialised buffer is empty. *)
Lemma rb_init_ok p d n :
  0 < n < 2 ^ 16 -> zlen d = n -> Forall is_u8 d ->
  rb_ok (RingBuffer_InitBuffer p d n) /\ rb_contents (RingBuffer_InitBuffer p d n) = [].
Proof.
  intros Hn Hd Hb. split; [|done]. constructor; cbn; try done; try lia.
  unfold rb_pos. cbn. rewrite Z.sub_diag, Z.mod_0_l by lia. lia.
Qed.

Lemma rb_peek_remove b : RingBuffer_Peek b = fst (RingBuffer_Remove b).
Proof. done. Qed.

Lemma rb_empty_iff b : rb_ok b -> RingBuffer_GetCount b = 0 <-> rb_contents b = [].
Proof.
  intros Hok. unfold RingBuffer_GetCount. rewrite <- (rb_contents_length b Hok).
  unfold zlen. destruct (rb_contents b); cbn; split; intros; try done; lia.
Qed.

(** Insertion into a full buffer overwrites the oldest byte: the next byte
    removed is the one just inserted, the count exceeds the capacity, and the
    buffer no longer represents a queue. *)
Lemma rb_insert_full b x :
  rb_ok b -> rb_Count b = rb_Size b -> rb_Size b < 2 ^ 16 - 1 ->
  RingBuffer_Peek (RingBuffer_Insert b x) = u8 x
  /\ RingBuffer_GetCount (RingBuffer_Insert b x) = rb_Size b + 1
  /\ ~ rb_ok (RingBuffer_Insert b x).
Proof.
  intros Hok Hfull Hs. pose proof (rb_pos_0 b Hok) as H0. pose proof Hok as [].
  assert (Hin : rb_In b = rb_Out b).
  { rewrite rb_ok_in0, Hfull. unfold rb_pos in *.
    rewrite <- Z.add_mod_idemp_r, Z.mod_same, H0 by lia. lia. }
  assert (Hc : rb_Count (RingBuffer_Insert b x) = rb_Size b + 1).
  { cbn. rewrite u16_id; [lia|]. unfold is_u16. lia. }
  split; [|split; [done|]].
  - unfold RingBuffer_Peek, rb_load. cbn. rewrite Hin.
    apply list_lookup_total_insert_eq. unfold zlen in *. lia.
  - intros [_ _ _ _ Hc' _ _]. rewrite Hc in Hc'. cbn in Hc'. lia.
Qed.
