(* ===== verification/RingBufferThreads.v ===== *)
(** * RingBuffer.h between an interrupt routine and the main program

    The header allows one inserting and one removing thread.  Here an
    operation is the sequence of its accesses to the shared structure (the
    update of [Count], which the interrupt-mask brackets make atomic, is one),
    and the two threads interleave between any two of them: an interrupt
    routine that runs inside a main-loop operation is one such interleaving. *)

From stdpp Require Import relations.
From S2P Require Import Prelude RingBuffer.

(** ** The accesses of the two operations *)

Definition set_In v b := mkRing v (rb_Out b) (rb_Start b) (rb_End b) (rb_Size b) (rb_Count b) (rb_data b).
Definition set_Out v b := mkRing (rb_In b) v (rb_Start b) (rb_End b) (rb_Size b) (rb_Count b) (rb_data b).
Definition set_Count v b := mkRing (rb_In b) (rb_Out b) (rb_Start b) (rb_End b) (rb_Size b) v (rb_data b).
Definition set_data v b := mkRing (rb_In b) (rb_Out b) (rb_Start b) (rb_End b) (rb_Size b) (rb_Count b) v.

(** [*Buffer->In = Data], [++Buffer->In], the wrap, [Buffer->Count++] *)
Definition insert_store (x : Z) b := set_data (<[Z.to_nat (rb_In b - rb_Start b) := u8 x]> (rb_data b)) b.
Definition insert_next b := set_In (rb_In b + 1) b.
Definition insert_wrap b := set_In (if rb_In b =? rb_End b then rb_Start b else rb_In b) b.
Definition insert_count b := set_Count (u16 (rb_Count b + 1)) b.

(** [Data = *Buffer->Out], [++Buffer->Out], the wrap, [Buffer->Count--] *)
Definition remove_load b : Z := rb_load b (rb_Out b).
Definition remove_next b := set_Out (rb_Out b + 1) b.
Definition remove_wrap b := set_Out (if rb_Out b =? rb_End b then rb_Start b else rb_Out b) b.
Definition remove_count b := set_Count (u16 (rb_Count b - 1)) b.

Lemma insert_accesses b x :
  RingBuffer_Insert b x = insert_count (insert_wrap (insert_next (insert_store x b))).
Proof. done. Qed.
Lemma remove_accesses b :
  RingBuffer_Remove b = (remove_load b, remove_count (remove_wrap (remove_next b))).
Proof. done. Qed.

(** ** The two threads *)

Inductive inserting := InsIdle | InsStored | InsNext | InsWrapped.
Inductive removing := RemIdle | RemLoaded (x : Z) | RemNext (x : Z) | RemWrapped (x : Z).

(** [put]: the bytes handed to [RingBuffer_Insert] so far, after what the
    buffer held at first; [got]: what [RingBuffer_Remove] has returned. *)
Record threads := mkThreads {
  t_buf : RingBuffer_t;
  t_ins : inserting;
  t_rem : removing;
  put : list Z;
  got : list Z;
}.

(** An insertion starts when the inserting thread finds room, a removal when
    the removing thread finds data. *)
Inductive thread_step : threads -> threads -> Prop :=
  | step_store b c p g x : RingBuffer_IsFull b = false ->
      thread_step (mkThreads b InsIdle c p g) (mkThreads (insert_store x b) InsStored c (p ++ [u8 x]) g)
  | step_in_next b c p g :
      thread_step (mkThreads b InsStored c p g) (mkThreads (insert_next b) InsNext c p g)
  | step_in_wrap b c p g :
      thread_step (mkThreads b InsNext c p g) (mkThreads (insert_wrap b) InsWrapped c p g)
  | step_in_count b c p g :
      thread_step (mkThreads b InsWrapped c p g) (mkThreads (insert_count b) InsIdle c p g)
  | step_load b i p g : RingBuffer_IsEmpty b = false ->
      thread_step (mkThreads b i RemIdle p g) (mkThreads b i (RemLoaded (remove_load b)) p g)
  | step_out_next b i p g x :
      thread_step (mkThreads b i (RemLoaded x) p g) (mkThreads (remove_next b) i (RemNext x) p g)
  | step_out_wrap b i p g x :
      thread_step (mkThreads b i (RemNext x) p g) (mkThreads (remove_wrap b) i (RemWrapped x) p g)
  | step_out_count b i p g x :
      thread_step (mkThreads b i (RemWrapped x) p g) (mkThreads (remove_count b) i RemIdle p (g ++ [x])).

Definition both_idle (b : RingBuffer_t) : threads := mkThreads b InsIdle RemIdle (rb_contents b) [].

(** ** The invariant *)

Section invariant.
Context (start size o : Z) (Hsize : 0 < size < 2 ^ 16).

(** Where the [j]-th byte of [put] lies in the storage. *)
Definition place (j : Z) : Z := (o + j) mod size.

Lemma place_range j : 0 <= place j < size.
Proof. apply Z.mod_pos_bound. lia. Qed.

Lemma place_inj j k : place j = place k -> - size < j - k < size -> j = k.
Proof.
  unfold place. intros Heq Hd.
  pose proof (Z.div_mod (o + j) size ltac:(lia)) as H1.
  pose proof (Z.div_mod (o + k) size ltac:(lia)) as H2. rewrite Heq in H1.
  assert (j - k = size * ((o + j) / size - (o + k) / size)) by lia.
  assert ((o + j) / size - (o + k) / size = 0) by nia. lia.
Qed.

(** Advancing and wrapping. *)
Lemma place_next j :
  (if start + place j + 1 =? start + size then start else start + place j + 1) = start + place (j + 1).
Proof.
  pose proof (place_range j) as Hp. unfold place in *. rewrite Z.add_assoc.
  rewrite <- (Z.add_mod_idemp_l (o + j) 1 size) by lia.
  destruct (Z.eqb_spec (start + (o + j) mod size + 1) (start + size)).
  - replace ((o + j) `mod` size + 1) with size by lia. rewrite Z.mod_same by lia. lia.
  - rewrite (Z.mod_small ((o + j) `mod` size + 1)) by lia. lia.
Qed.

(** The bytes counted in, and where the two pointers are. *)
Definition counted (i : inserting) (p : list Z) : Z := zlen p - match i with InsIdle => 0 | _ => 1 end.
Definition in_at (i : inserting) (n : Z) : Z :=
  match i with
  | InsIdle | InsStored => start + place n
  | InsNext => start + place n + 1
  | InsWrapped => start + place (n + 1)
  end.
Definition out_at (c : removing) (n : Z) : Z :=
  match c with
  | RemIdle | RemLoaded _ => start + place n
  | RemNext _ => start + place n + 1
  | RemWrapped _ => start + place (n + 1)
  end.
Definition loaded (c : removing) : option Z :=
  match c with RemIdle => None | RemLoaded x | RemNext x | RemWrapped x => Some x end.

Record threads_ok (t : threads) : Prop := {
  to_start : rb_Start (t_buf t) = start;
  to_end : rb_End (t_buf t) = start + size;
  to_size : rb_Size (t_buf t) = size;
  to_len : zlen (rb_data (t_buf t)) = size;
  to_bytes : Forall is_u8 (rb_data (t_buf t));
  to_count : rb_Count (t_buf t) = counted (t_ins t) (put t) - zlen (got t);
  to_nonneg : 0 <= rb_Count (t_buf t);
  to_room : zlen (put t) - zlen (got t) <= size;
  to_in : rb_In (t_buf t) = in_at (t_ins t) (counted (t_ins t) (put t));
  to_out : rb_Out (t_buf t) = out_at (t_rem t) (zlen (got t));
  to_data : forall j : nat, zlen (got t) <= Z.of_nat j < zlen (put t) ->
    rb_data (t_buf t) !!! Z.to_nat (place (Z.of_nat j)) = put t !!! j;
  to_got : got t = take (length (got t)) (put t);
  to_loaded : forall x, loaded (t_rem t) = Some x -> 0 < rb_Count (t_buf t) /\ x = put t !!! length (got t);
}.

Lemma store_ok b c p g x :
  threads_ok (mkThreads b InsIdle c p g) -> RingBuffer_IsFull b = false ->
  threads_ok (mkThreads (insert_store x b) InsStored c (p ++ [u8 x]) g).
Proof.
  intros [Hs He Hz Hl HB Hc Hn Hr Hi Ho Hd Hg Hx] Hfull%Z.eqb_neq. unfold RingBuffer_GetCount in Hfull.
  unfold counted in *. cbn [t_buf t_ins t_rem put got in_at] in *.
  assert (Hlp : zlen (p ++ [u8 x]) = zlen p + 1) by (rewrite zlen_app; done).
  assert (Hgp : (length g <= length p)%nat) by (unfold zlen in *; lia).
  assert (Hin : rb_In b - rb_Start b = place (zlen p)) by (rewrite Hi, Hs; rewrite Z.sub_0_r; lia).
  pose proof (place_range (zlen p)) as Hpr.
  split; cbn [t_buf t_ins t_rem put got insert_store set_data rb_Start rb_End rb_Size rb_Count rb_In rb_Out rb_data in_at]; unfold counted; try done; try lia.
  - unfold zlen in *. by rewrite length_insert.
  - apply Forall_insert; [done|apply u8_range].
  - rewrite Hi. f_equal. f_equal. lia.
  - intros j Hj. rewrite Hin, Hlp in *. destruct (decide (Z.of_nat j = zlen p)) as [E|E].
    + rewrite E, list_lookup_total_insert_eq by (unfold zlen in *; lia).
      rewrite lookup_total_app_r by (unfold zlen in E; lia).
      by replace (j - length p)%nat with 0%nat by (unfold zlen in E; lia).
    + rewrite list_lookup_total_insert_ne, lookup_total_app_l; [apply Hd; lia|unfold zlen in *; lia|].
      pose proof (place_range (Z.of_nat j)). intros Heq.
      apply E. apply (place_inj (Z.of_nat j) (zlen p)); [lia|]. unfold zlen in *. lia.
  - by rewrite take_app_le.
  - intros y Hy. destruct (Hx y Hy) as [Hp ->]. split; [done|].
    rewrite lookup_total_app_l; [done|unfold zlen in *; lia].
Qed.

Lemma count_bound t : threads_ok t -> rb_Count (t_buf t) <= size.
Proof. intros [_ _ _ _ _ Hc _ Hr _ _ _ _ _]. rewrite Hc. unfold counted. destruct (t_ins t); lia. Qed.

(** The other steps change pointers and the count only. *)
Ltac pointer_step :=
  match goal with H : threads_ok _ |- _ => destruct H as [Hs He Hz Hl HB Hc Hn Hr Hi Ho Hd Hg Hx] end;
  unfold counted in *; cbn [t_buf t_ins t_rem put got in_at out_at loaded] in *;
  split; cbn [t_buf t_ins t_rem put got insert_next insert_wrap insert_count remove_next remove_wrap
    remove_count set_In set_Out set_Count rb_Start rb_End rb_Size rb_Count rb_In rb_Out rb_data in_at
    out_at loaded]; unfold counted; try done; try lia.

Lemma in_next_ok b c p g :
  threads_ok (mkThreads b InsStored c p g) -> threads_ok (mkThreads (insert_next b) InsNext c p g).
Proof. intros H. pointer_step. Qed.

Lemma in_wrap_ok b c p g :
  threads_ok (mkThreads b InsNext c p g) -> threads_ok (mkThreads (insert_wrap b) InsWrapped c p g).
Proof. intros H. pointer_step. rewrite Hi, He, Hs. apply place_next. Qed.

Lemma in_count_ok b c p g :
  threads_ok (mkThreads b InsWrapped c p g) -> threads_ok (mkThreads (insert_count b) InsIdle c p g).
Proof.
  intros H. pointer_step; rewrite ?(u16_id (rb_Count b + 1)) by (unfold is_u16; lia); try lia.
  - rewrite Hi. f_equal. f_equal. lia.
  - intros x Hy. destruct (Hx x Hy) as [Hp Hv]. split; [lia|done].
Qed.

Lemma load_ok b i p g :
  threads_ok (mkThreads b i RemIdle p g) -> RingBuffer_IsEmpty b = false ->
  threads_ok (mkThreads b i (RemLoaded (remove_load b)) p g).
Proof.
  intros H Hne%Z.eqb_neq. unfold RingBuffer_GetCount in Hne. pointer_step.
  intros x [= <-]. split; [lia|]. unfold remove_load, rb_load. rewrite Ho, Hs.
  replace (start + place (zlen g) - start) with (place (zlen g)) by lia.
  unfold zlen at 1. apply Hd. unfold zlen in *. destruct i; lia.
Qed.

Lemma out_next_ok b i p g x :
  threads_ok (mkThreads b i (RemLoaded x) p g) -> threads_ok (mkThreads (remove_next b) i (RemNext x) p g).
Proof. intros H. pointer_step. Qed.

Lemma out_wrap_ok b i p g x :
  threads_ok (mkThreads b i (RemNext x) p g) -> threads_ok (mkThreads (remove_wrap b) i (RemWrapped x) p g).
Proof. intros H. pointer_step. rewrite Ho, He, Hs. apply place_next. Qed.

Lemma out_count_ok b i p g x :
  threads_ok (mkThreads b i (RemWrapped x) p g) ->
  threads_ok (mkThreads (remove_count b) i RemIdle p (g ++ [x])).
Proof.
  intros H. pose proof (to_loaded _ H x eq_refl) as [Hpos Hv]. cbn [t_buf got put] in Hpos, Hv.
  assert (Hlg : zlen (g ++ [x]) = zlen g + 1) by (rewrite zlen_app; done).
  pose proof (count_bound _ H) as Hle. cbn [t_buf] in Hle.
  pointer_step; rewrite ?(u16_id (rb_Count b - 1)) by (unfold is_u16; lia); rewrite ?Hlg; try lia; try done.
  - intros j Hj. apply Hd. lia.
  - rewrite length_app. cbn [length].
    rewrite Nat.add_1_r, (take_S_r p (length g) x), <- Hg; [done|]. subst x.
    apply list_lookup_lookup_total_lt. unfold zlen in *. destruct i; lia.
Qed.

Lemma step_keeps t t' : thread_step t t' -> threads_ok t -> threads_ok t'.
Proof.
  destruct 1; eauto using store_ok, in_next_ok, in_wrap_ok, in_count_ok, load_ok, out_next_ok,
    out_wrap_ok, out_count_ok.
Qed.
End invariant.

(** ** The queue *)

Lemma rb_contents_lookup b (j : nat) :
  Z.of_nat j < rb_Count b -> rb_contents b !! j = Some (rb_data b !!! Z.to_nat (rb_pos b (Z.of_nat j))).
Proof.
  intros Hj. unfold rb_contents.
  change (map ?f ?l) with (f <$> l). rewrite list_lookup_fmap, lookup_seq_lt by lia. done.
Qed.

Lemma both_idle_ok b : rb_ok b ->
  threads_ok (rb_Start b) (rb_Size b) (rb_Out b - rb_Start b) (both_idle b).
Proof.
  intros Hok. pose proof (rb_contents_length b Hok) as Hlen. pose proof Hok as [? ? ? ? ? Hi ?].
  split; cbn [both_idle t_buf t_ins t_rem put got in_at out_at loaded]; unfold counted;
    change (zlen (@nil Z)) with 0; try done; try lia.
  - rewrite Hi. f_equal. unfold rb_pos, place. f_equal. lia.
  - unfold place. rewrite Z.add_0_r, Z.mod_small by lia. lia.
  - intros j Hj. rewrite Hlen in Hj.
    by rewrite (list_lookup_total_correct _ _ _ (rb_contents_lookup b j ltac:(lia))).
Qed.

Lemma quiescent start size o b p g :
  0 < size < 2 ^ 16 -> threads_ok start size o (mkThreads b InsIdle RemIdle p g) ->
  rb_ok b /\ p = g ++ rb_contents b.
Proof.
  intros Hsize Hok. pose proof (count_bound _ _ _ _ Hok) as Hle.
  destruct Hok as [Hs He Hz Hl HB Hc Hn Hr Hi Ho Hd Hg _].
  unfold counted in *. cbn [t_buf t_ins t_rem put got in_at out_at] in *. rewrite Z.sub_0_r in *.
  assert (Hpos : forall i, rb_pos b i = place size o (zlen g + i)).
  { intros i. unfold rb_pos. rewrite Ho, Hs, Hz. unfold place.
    replace (start + (o + zlen g) mod size - start + i) with ((o + zlen g) mod size + i) by lia.
    rewrite Z.add_mod_idemp_l by lia. f_equal. lia. }
  pose proof (place_range size o Hsize (zlen g)) as Hpr.
  split.
  - split; rewrite ?Hz; try done; try lia. rewrite Hi, Hpos, Hs. do 2 f_equal. lia.
  - rewrite Hg at 1. rewrite <- (take_drop (length g) p) at 1. f_equal.
    symmetry. apply (list_eq_same_length _ _ (length p - length g)).
    + by rewrite length_drop.
    + unfold rb_contents. rewrite length_map, length_seq. unfold zlen in *. lia.
    + intros j x y Hj Hx Hy. rewrite rb_contents_lookup in Hx by (unfold zlen in *; lia).
      injection Hx as <-. rewrite lookup_drop in Hy. rewrite Hpos.
      replace (zlen g + Z.of_nat j) with (Z.of_nat (length g + j)) by (unfold zlen; lia).
      rewrite Hd by (unfold zlen in *; lia). by apply list_lookup_total_correct.
Qed.

Section run.
Context (b : RingBuffer_t) (Hb : rb_ok b).

Lemma run_ok t : rtc thread_step (both_idle b) t ->
  threads_ok (rb_Start b) (rb_Size b) (rb_Out b - rb_Start b) t.
Proof.
  intros Hrun. pose proof (both_idle_ok b Hb) as Hok. revert Hok.
  induction Hrun as [|t1 t2 t3 Hstep _ IH]; [done|]. intros Hok. apply IH.
  eapply step_keeps; [apply Hb|done|done].
Qed.

(** C9. The ring buffer is a queue between an interrupt routine and the main
    program: however the accesses of one inserting and one removing thread
    interleave, when the inserting thread starts only with room and the
    removing one only with data, what has been removed is at every moment a
    prefix of what was put in, never more than the capacity is in the buffer,
    and whenever both threads are between operations the buffer is in order
    and holds exactly what was put in and not removed. *)
Theorem threads_fifo t :
  rtc thread_step (both_idle b) t ->
  got t = take (length (got t)) (put t)
  /\ 0 <= rb_Count (t_buf t) <= rb_Size b
  /\ (t_ins t = InsIdle -> t_rem t = RemIdle ->
      rb_ok (t_buf t) /\ put t = got t ++ rb_contents (t_buf t)).
Proof.
  intros Hrun. pose proof (run_ok t Hrun) as Hok. pose proof (rb_ok_size b Hb) as Hs.
  split; [apply Hok|]. split; [split; [apply Hok|by apply (count_bound _ _ _ t Hok)]|].
  destruct t as [b' i c p g]. cbn [t_ins t_rem t_buf put got]. intros -> ->.
  by apply (quiescent _ _ _ b' p g Hs Hok).
Qed.
End run.

(** A byte arrives while another is being removed. *)
Lemma threads_fifo_witness :
  let b := RingBuffer_Insert (RingBuffer_InitBuffer 0 [0; 0; 0] 3) 7 in
  let b1 := remove_next b in
  let b2 := insert_count (insert_wrap (insert_next (insert_store 8 b1))) in
  let t := mkThreads (remove_count (remove_wrap b2)) InsIdle RemIdle [7; 8] [7] in
  rb_ok (t_buf t) /\ rb_contents (t_buf t) = [8].
Proof.
  intros b b1 b2 t.
  assert (Hi : rb_ok (RingBuffer_InitBuffer 0 [0; 0; 0] 3)).
  { apply rb_init_ok; [lia|reflexivity|]. repeat constructor; vm_compute; congruence. }
  assert (Hb : rb_ok b) by (apply rb_insert_ok; [exact Hi|reflexivity]).
  assert (Hrun : rtc thread_step (both_idle b) t).
  { eapply rtc_l; [exact (step_load b InsIdle [7] [] eq_refl)|].
    eapply rtc_l; [apply step_out_next|].
    eapply rtc_l; [exact (step_store b1 (RemNext 7) [7] [] 8 eq_refl)|].
    eapply rtc_l; [apply step_in_next|]. eapply rtc_l; [apply step_in_wrap|].
    eapply rtc_l; [apply step_in_count|]. eapply rtc_l; [apply step_out_wrap|].
    eapply rtc_once. exact (step_out_count (remove_wrap b2) InsIdle [7; 8] [] 7). }
  destruct (threads_fifo b Hb t Hrun) as (_ & _ & Hq). destruct (Hq eq_refl eq_refl) as [Hok Hc].
  split; [exact Hok|]. change ([7; 8] = 7 :: rb_contents (t_buf t)) in Hc.
  exact (eq_sym (f_equal (@tl Z) Hc)).
Defined.
