(* ===== verification/Timer.v ===== *)
(** * AvalonBTC/clock.c and AvalonBTC/timer.c

    The millisecond clock, which an interrupt advances, and the software
    timers over it.  The clock is a wrapping 32-bit counter, so a timer is
    characterised by the wrapped distance from its start. *)

From S2P Require Import Prelude Machine.

(** ** clock.c *)

Record ClockState := mkClock { time_ : Z }.

(** Bit numbers of [<avr/io.h>] for the timer registers. *)
Definition OCIE0A : Z := 1.
Definition WGM01 : Z := 1.

Section clock.
Context {G : Type} `{Has ClockState G} `{Hardware}.

Definition TIMER0_COMPA_vect : M G unit :=
  modc (fun c => mkClock (u32 (time_ c + 1))).

Definition clockInit : M G unit :=
  modc (fun _ => mkClock 0) ;;
  reg_or TIMSK0 (BV OCIE0A) ;;
  wr OCR0A 249 ;;
  wr TCCR0A (BV WGM01) ;;
  wr TCCR0B 0x03.

(** The read is an [ATOMIC_BLOCK(ATOMIC_FORCEON)]. *)
Definition clockGetTime : M G Z := cli ;; ret ← getc time_; sei ;; mret ret.

(** The history after an atomic block. *)
Definition atomic_hist (h : history) : history :=
  match (cli ;; sei) (St h tt) with Some (_, s) => hist s | None => h end.

Lemma clockGetTime_run (s : st G) :
  clockGetTime s = Some (time_ (proj (glob s)), St (atomic_hist (hist s)) (glob s)).
Proof. done. Qed.

Lemma atomic_hist_app h :
  exists tr, atomic_hist h = tr ++ h /\ forall r, r <> SREG -> writes r tr = [].
Proof.
  unfold atomic_hist. cbn. eexists [_; _; _; _]. split; [reflexivity|].
  intros r Hr. cbn [writes]. by rewrite !decide_False.
Qed.

Lemma latch_atomic r h : r <> SREG -> latch_value r (atomic_hist h) = latch_value r h.
Proof.
  intros Hr. destruct (atomic_hist_app h) as (tr & -> & Hw). unfold latch_value.
  by rewrite !last_wr_writes, writes_app, Hw.
Qed.
End clock.

(** ** timer.c *)

Record Timer := mkTimer {
  active : Z;
  start : Z;
  interval : Z;
}.

(** The body of [timerExpired] once the clock has been read: what it returns
    and the timer it leaves. *)
Definition timer_check (time : Z) (t : Timer) : bool * Timer :=
  if active t =? 0 then (false, t)
  else if start t <? time then
    let diff := u32 (time - start t) in
    if interval t <? diff
    then (true, mkTimer 0 (start t) (interval t))
    else (false, t)
  else
    if interval t <=? u32 (u32 (Z.lnot (start t)) + time + 1)
    then (true, mkTimer 0 (start t) (interval t))
    else (false, t).

Section timer.
Context {G : Type} `{Has ClockState G} `{Hardware}.

Definition timerSet (t : Timer) (intv : Z) : M G Timer :=
  now ← clockGetTime; mret (mkTimer 1 now (u32 intv)).

Definition timerStop (t : Timer) : M G Timer :=
  mret (mkTimer 0 (start t) (interval t)).

Definition timerReset (t : Timer) : M G Timer :=
  mret (mkTimer 1 (u32 (start t + interval t)) (interval t)).

Definition timerRestart (t : Timer) : M G Timer :=
  now ← clockGetTime; mret (mkTimer 1 now (interval t)).

Definition timerExpired (t : Timer) : M G (bool * Timer) :=
  time ← clockGetTime; mret (timer_check time t).
End timer.

(** ** What a timer does *)

Record timer_wf (t : Timer) : Prop := {
  tw_start : is_u32 (start t);
  tw_interval : is_u32 (interval t);
}.

(** The distance the wrapped comparison of [timerExpired] computes. *)
Lemma timer_elapsed s now :
  is_u32 s -> is_u32 now -> u32 (u32 (Z.lnot s) + now + 1) = u32 (now - s).
Proof.
  intros Hs Hn. unfold u32, is_u32 in *. rewrite Z.lnot_eq_pred_opp.
  rewrite <- Z.add_assoc, Z.add_mod_idemp_l by lia. f_equal. lia.
Qed.

Lemma timer_check_spec now t :
  timer_wf t -> is_u32 now -> active t <> 0 ->
  let d := u32 (now - start t) in
  fst (timer_check now t) =
    (if start t <? now then interval t <? d else interval t <=? d).
Proof.
  intros [Hs Hi] Hn Ha. cbv zeta. unfold timer_check.
  rewrite (proj2 (Z.eqb_neq _ _) Ha), timer_elapsed by done.
  destruct (start t <? now); [destruct (_ <? _)|destruct (_ <=? _)]; done.
Qed.

Lemma timer_check_stop now t :
  fst (timer_check now t) = true ->
  active (snd (timer_check now t)) = 0.
Proof. unfold timer_check. bool_cases; done. Qed.

Lemma timer_one_shot_idle now t :
  fst (timer_check now t) = false -> snd (timer_check now t) = t.
Proof. unfold timer_check. bool_cases; done. Qed.

Lemma timer_check_inactive now t :
  active t = 0 -> timer_check now t = (false, t).
Proof. intros Ha. unfold timer_check. by rewrite Ha. Qed.

(** The wrapped distance between a start and a time [d] ticks later. *)
Lemma u32_elapsed s d : 0 <= d < 2 ^ 32 -> u32 (u32 (s + d) - s) = d.
Proof.
  intros Hd. unfold u32. rewrite Zminus_mod_idemp_l.
  replace (s + d - s) with d by lia. by apply Z.mod_small.
Qed.

Lemma u32_wrap_order s d :
  is_u32 s -> 0 <= d < 2 ^ 32 ->
  (s <? u32 (s + d)) = (0 <? d) && (s + d <? 2 ^ 32).
Proof.
  intros Hs Hd. unfold is_u32, u32 in *.
  destruct (Z.lt_ge_cases (s + d) (2 ^ 32)) as [Hlt|Hge].
  - rewrite Z.mod_small by lia.
    destruct (Z.ltb_spec s (s + d)), (Z.ltb_spec 0 d), (Z.ltb_spec (s + d) (2 ^ 32)); lia.
  - replace (s + d) with (s + d - 2 ^ 32 + 1 * 2 ^ 32) at 1 by lia.
    rewrite Z.mod_add, Z.mod_small by lia.
    destruct (Z.ltb_spec s (s + d - 2 ^ 32)), (Z.ltb_spec 0 d),
      (Z.ltb_spec (s + d) (2 ^ 32)); lia.
Qed.

(** ** Properties *)

Lemma timer_check_deadline s n d :
  is_u32 s -> is_u32 n -> 0 <= d < 2 ^ 32 ->
  fst (timer_check (u32 (s + d)) (mkTimer 1 s n)) =
    ((n <? d) || ((d =? n) && ((d =? 0) || (2 ^ 32 <=? s + d)))).
Proof.
  intros Hs Hn Hd. rewrite timer_check_spec; [|by constructor|auto with width|done].
  cbv zeta. cbn [start interval]. rewrite u32_elapsed, u32_wrap_order by done.
  destruct (Z.ltb_spec 0 d), (Z.ltb_spec (s + d) (2 ^ 32)), (Z.ltb_spec n d),
    (Z.leb_spec n d), (Z.eqb_spec d n), (Z.eqb_spec d 0), (Z.leb_spec (2 ^ 32) (s + d));
    cbn; lia.
Qed.

Section deadline.
Context {G : Type} `{Has ClockState G} `{Hardware}.

(** [d] timer interrupts in a row. *)
Fixpoint ticks (d : nat) : M G unit :=
  match d with
  | O => mret tt
  | S d' => ticks d' ;; TIMER0_COMPA_vect
  end.

Lemma ticks_run d s :
  is_u32 (time_ (proj (glob s))) ->
  exists g, ticks d s = Some (tt, St (hist s) g)
    /\ time_ (proj g) = u32 (time_ (proj (glob s)) + Z.of_nat d).
Proof.
  intros Hs. induction d as [|d (g & Hg & Ht)].
  - exists (glob s). destruct s. cbn. split; [done|].
    rewrite Z.add_0_r. symmetry. by apply u32_id.
  - cbn. unfold mbind, M_bind. rewrite Hg. cbn. eexists. split; [done|].
    rewrite proj_inj. cbn. rewrite Ht. unfold u32.
    rewrite Z.add_mod_idemp_l by lia. f_equal. lia.
Qed.

(** C15. A timer set with [timerSet] for [n] ticks and tested with
    [timerExpired] after [d] clock interrupts, the 32-bit clock possibly
    wrapping in between, has expired exactly when more than [n] ticks have
    passed, or exactly [n] have and the clock wrapped (or [n] is 0): it never
    fires early, it has fired after [n + 1] ticks whatever the clock's value,
    and only at [d = n] do the two branches of the comparison differ. *)
Theorem timer_deadline (t0 : Timer) (n : Z) (d : nat) (s : st G) :
  is_u32 (time_ (proj (glob s))) -> is_u32 n -> Z.of_nat d < 2 ^ 32 ->
  wp_ False (t ← timerSet t0 n; ticks d ;; timerExpired t)
    (fun r _ => fst r =
       ((n <? Z.of_nat d) ||
        ((Z.of_nat d =? n) && ((n =? 0) || (2 ^ 32 <=? time_ (proj (glob s)) + Z.of_nat d)))))
    s.
Proof.
  intros Hs Hn Hd. unfold timerSet, timerExpired. apply wp_bind, wp_bind.
  apply (wp_eq _ _ _ _ _ _ (clockGetTime_run s)), wp_ret, wp_bind.
  generalize (atomic_hist (hist s)). intros h.
  destruct (ticks_run d (St h (glob s)) Hs) as (g & Hrun & Ht). cbn [hist glob] in *.
  apply (wp_eq _ _ _ _ _ _ Hrun), wp_bind.
  apply (wp_eq _ _ _ _ _ _ (clockGetTime_run _)), wp_ret. cbn [glob].
  rewrite Ht, (u32_id n) by done.
  rewrite timer_check_deadline by (done || lia).
  destruct (Z.eqb_spec (Z.of_nat d) n) as [<-|]; done.
Qed.
End deadline.

Lemma timer_deadline_witness :
  wp_ False (t ← timerSet (H0 := plain_hardware) (mkTimer 0 0 0) 20;
             ticks 20 ;; timerExpired (H0 := plain_hardware) t)
    (fun r _ => fst r = true) (St [] (mkClock 0xFFFFFFF0)).
Proof.
  pose proof (@timer_deadline _ _ plain_hardware (mkTimer 0 0 0) 20 20 (St [] (mkClock 0xFFFFFFF0))) as H.
  eapply wp_conseq; [apply H; unfold is_u32; cbn; lia|done|].
  intros r s' ->. reflexivity.
Defined.

(** A timer fires at most once: the test that reports expiry leaves the
    timer inactive, an inactive timer never reports expiry whatever the clock
    reads, and a test that does not report expiry changes nothing. *)
Theorem timer_one_shot now now' t :
  (fst (timer_check now t) = true -> fst (timer_check now' (snd (timer_check now t))) = false)
  /\ (fst (timer_check now t) = false -> snd (timer_check now t) = t).
Proof.
  split; intros He.
  - apply timer_check_stop with (now := now) in He.
    rewrite timer_check_inactive by done. done.
  - unfold timer_check in *. bool_cases; done.
Qed.

Lemma timer_one_shot_witness :
  fst (timer_check 20000 (mkTimer 1 100 16000)) = true /\
  fst (timer_check 50000 (snd (timer_check 20000 (mkTimer 1 100 16000)))) = false.
Proof.
  split; [vm_compute; reflexivity|].
  apply (proj1 (timer_one_shot 20000 50000 (mkTimer 1 100 16000))). vm_compute. reflexivity.
Defined.
