(* ===== verification/Avalon.v ===== *)
(** * AvalonBTC/avalon.c and avalon.h

    The driver of the Avalon ASIC: the two-wire serial sender on PORTB, the
    reset line and the SPI-slave enable on PORTD/DDRD, and the SPI interrupt
    that assembles the 32-bit report.  ([asicPrecalc] is in [Precalc].) *)

From S2P Require Import Prelude Machine.

(** Bit numbers of [<avr/io.h>]. *)
Definition SPIE : Z := 7.
Definition SPE : Z := 6.
Definition DORD : Z := 5.
Definition CPHA : Z := 2.
Definition SPIF : Z := 7.
Definition PB4 : Z := 4.
Definition PB5 : Z := 5.
Definition PD6 : Z := 6.
Definition PD7 : Z := 7.

(** avalon.h *)
Definition DATA_N : Z := BV PB4.
Definition DATA_P : Z := BV PB5.
Definition RESET_PIN : Z := BV PD6.

(** The file's static variables. *)
Record AvalonState := mkAvalon {
  report_ : Z;
  report_valid_ : Z;
  report_count_ : Z;
  report_timeout : Z;
}.

Section avalon.
Context {G : Type} `{Has AvalonState G} `{Hardware}.

(** One iteration of the receive loop of the interrupt; [inr] leaves it. *)
Definition spi_poll (_ : unit) : M G (unit + unit) :=
  c ← getc report_count_;
  if c =? 4 then mret (inr tt) else
  s ← rd SPSR;
  if anybit s (BV SPIF) then
    modc (fun a => mkAvalon (u32 (Z.shiftl (report_ a) 8)) (report_valid_ a)
                            (report_count_ a) (report_timeout a)) ;;
    d ← rd SPDR;
    modc (fun a => mkAvalon (Z.lor (report_ a) d) (report_valid_ a)
                            (u8 (report_count_ a + 1)) 0) ;;
    mret (inl tt)
  else
    modc (fun a => mkAvalon (report_ a) (report_valid_ a) (report_count_ a)
                            (u16 (report_timeout a + 1))) ;;
    t ← getc report_timeout;
    mret (if t =? 1000 then inr tt else inl tt).

Definition SPI_STC_vect (fuel : nat) : M G unit :=
  reg_clr SPCR (BV SPIE) ;;
  d ← rd SPDR;
  modc (fun a => mkAvalon d (report_valid_ a) 1 0) ;;
  loop fuel spi_poll tt ;;
  modc (fun a => mkAvalon (report_ a) 1 (report_count_ a) (report_timeout a)).

(** One bit of [send32]; returns the shifted word. *)
Definition send_bit (word : Z) : M G Z :=
  let bit := Z.land word 0x01 in
  reg_clr PORTB (Z.lor DATA_N DATA_P) ;;
  delay_us 1 ;;
  (if negb (bit =? 0) then reg_or PORTB DATA_P else reg_or PORTB DATA_N) ;;
  delay_us 1 ;;
  mret (Z.shiftr word 1).

Fixpoint send_bits (i : nat) (word : Z) : M G unit :=
  match i with
  | O => mret tt
  | S i' => word' ← send_bit word; send_bits i' word'
  end.

Definition send32 (word : Z) : M G unit := send_bits 32 word.

Definition asicInit : M G unit :=
  wr DDRB 0x38 ;;
  wr PORTB 0x30 ;;
  reg_or DDRD (BV PD6) ;;
  reg_or PORTD (BV PD6) ;;
  wr SPCR (Z.lor (Z.lor (Z.lor (BV SPIE) (BV SPE)) (BV CPHA)) (BV DORD)).

Definition asicEnableSpi : M G unit := reg_or DDRD (BV PD7).
Definition asicDisableSpi : M G unit := reg_clr DDRD (BV PD7).
Definition asicIdle : M G unit := reg_or PORTB (Z.lor DATA_N DATA_P).

(** [report_count_ = 0; report_valid_ = 0;] *)
Definition clear_report : M G unit :=
  modc (fun a => mkAvalon (report_ a) 0 0 (report_timeout a)).

Definition asicResetSpi : M G unit :=
  clear_report ;;
  asicDisableSpi ;;
  delay_us 5 ;;
  asicEnableSpi ;;
  delay_us 1.

Definition asicStop : M G unit :=
  clear_report ;;
  reg_clr PORTD RESET_PIN.

Definition asicReset : M G unit :=
  clear_report ;;
  reg_clr PORTD RESET_PIN ;;
  delay_us 1000 ;;
  reg_or PORTD RESET_PIN ;;
  delay_us 1000.

(** [asicSend(buffer, size)]: the first [size] words of [buffer]. *)
Definition asicSend (buffer : list Z) (size : nat) : M G unit :=
  for_each (take size buffer) send32.

(** The [uint8_t] result truncates the 32-bit flag. *)
Definition asicReportValid : M G Z := v ← getc report_valid_; mret (u8 v).

Definition asicGetNonce : M G Z :=
  clear_report ;;
  getc report_.
End avalon.

(** The driver's functions but the interrupt never wait on a condition; the
    sender writes PORTB, the reset and enable functions PORTD and DDRD, and of
    the globals only the driver's own change. *)
Definition sender_regs (r : reg) : bool := negb (bool_decide (r = PORTB)).
Definition control_regs (r : reg) : bool := negb (bool_decide (r ∈ [PORTD; DDRD])).

#[global] Typeclasses Opaque send_bits asicSend asicIdle asicReset asicResetSpi asicStop.

Section avalon_frames.
Context {G : Type} `{Has AvalonState G} `{Hardware}.
Context (K : reg -> bool) (S : relation G) `{!PreOrder S}.

#[export] Instance send_bits_total n w : Total (send_bits n w : M G unit).
Proof. revert w. induction n; intros w; cbn [send_bits]; unfold send_bit; total_go. Qed.
#[export] Instance asicSend_total ws n : Total (asicSend ws n : M G unit).
Proof. unfold asicSend, send32. total_go. Qed.
#[export] Instance asicReset_total : Total (asicReset : M G unit).
Proof. unfold asicReset, clear_report. total_go. Qed.
#[export] Instance asicResetSpi_total : Total (asicResetSpi : M G unit).
Proof. unfold asicResetSpi, clear_report, asicDisableSpi, asicEnableSpi. total_go. Qed.
#[export] Instance asicStop_total : Total (asicStop : M G unit).
Proof. unfold asicStop, clear_report. total_go. Qed.
#[export] Instance asicIdle_total : Total (asicIdle : M G unit).
Proof. unfold asicIdle. total_go. Qed.

Lemma send_bits_runs (HK : K PORTB = false) n w : Runs (frame K S) (send_bits n w : M G unit).
Proof. revert w. induction n; intros w; cbn [send_bits]; unfold send_bit; runs_go. Qed.
Lemma asicSend_runs (HK : K PORTB = false) ws n : Runs (frame K S) (asicSend ws n : M G unit).
Proof. unfold asicSend, send32. runs_go. by apply send_bits_runs. Qed.
Lemma asicIdle_runs (HK : K PORTB = false) : Runs (frame K S) (asicIdle : M G unit).
Proof. unfold asicIdle. runs_go. Qed.

Context (HS : forall g f, S g (inj (f (proj g)) g)).

Lemma asicReset_runs (HK : K PORTD = false) : Runs (frame K S) (asicReset : M G unit).
Proof. unfold asicReset, clear_report. runs_go. apply (HS _ (fun _ => _)). Qed.
Lemma asicStop_runs (HK : K PORTD = false) : Runs (frame K S) (asicStop : M G unit).
Proof. unfold asicStop, clear_report. runs_go. apply (HS _ (fun _ => _)). Qed.
Lemma asicResetSpi_runs (HK : K DDRD = false) : Runs (frame K S) (asicResetSpi : M G unit).
Proof.
  unfold asicResetSpi, clear_report, asicDisableSpi, asicEnableSpi. runs_go.
  apply (HS _ (fun _ => _)).
Qed.
End avalon_frames.

(** ** The SPI interrupt

    Termination, for any hardware: between two received bytes at most 1000
    polls miss, and three more bytes are received. *)

(** The big-endian value of bytes given most recent (least significant)
    first. *)
Fixpoint be_value (bs : list Z) : Z :=
  match bs with
  | [] => 0
  | b :: bs' => Z.lor (u32 (Z.shiftl (be_value bs') 8)) b
  end.

Section spi_facts.
Context {G : Type} `{Has AvalonState G} `{Hardware}.

(** The loop's invariant: the report is the value of the bytes read since
    the history [h0], and the counters are in range. *)
Definition spi_inv (h0 : history) (_ : unit) (s : st G) : Prop :=
  let a := proj (glob s) in
  exists tr, hist s = tr ++ h0
    /\ report_ a = be_value (reads SPDR tr)
    /\ report_count_ a = zlen (reads SPDR tr)
    /\ 1 <= report_count_ a <= 4
    /\ 0 <= report_timeout a < 1000.

Definition spi_mu (_ : unit) (s : st G) : nat :=
  let a := proj (glob s) in
  Z.to_nat ((4 - report_count_ a) * 1000 + (1000 - report_timeout a)).

Definition spi_post (h0 : history) (_ : unit) (s : st G) : Prop :=
  let a := proj (glob s) in
  exists tr, hist s = tr ++ h0
    /\ report_ a = be_value (reads SPDR tr)
    /\ report_count_ a = zlen (reads SPDR tr)
    /\ 1 <= report_count_ a <= 4
    /\ (report_count_ a = 4 \/ report_timeout a = 1000).

Lemma spi_poll_step h0 a s :
  spi_inv h0 a s ->
  wp_ False (spi_poll a) (fun r s' =>
    match r with
    | inl a' => spi_inv h0 a' s' /\ (spi_mu a' s' < spi_mu a s)%nat
    | inr b => spi_post h0 b s'
    end) s.
Proof.
  intros (tr & Hh & Hr & Hc & Hcr & Ht). unfold spi_poll. wp_run.
  - apply Z.eqb_eq in Hb. exists tr. split_and!; try done; lia.
  - apply Z.eqb_neq in Hb. unfold spi_inv, spi_mu. cbn [glob hist].
    rewrite !proj_inj. cbn [report_ report_count_ report_timeout].
    rewrite !(u8_id (_ + 1)) by (unfold is_u8; lia). split; [|lia].
    eexists (Rd SPDR _ :: Rd SPSR _ :: tr). rewrite Hh. split; [done|].
    cbn [reads]. rewrite decide_True, decide_False by done.
    rewrite zlen_cons. cbn [be_value]. rewrite Hr. split; [done|]. lia.
  - unfold wp_, mret, M_ret. cbn [glob]. rewrite proj_inj. cbn [report_timeout].
    apply Z.eqb_neq in Hb.
    rewrite u16_id by (unfold is_u16; lia).
    destruct (Z.eqb_spec (report_timeout (proj (glob s)) + 1) 1000).
    + unfold spi_post. cbn [glob hist]. rewrite proj_inj. cbn.
      eexists (Rd SPSR _ :: tr). rewrite Hh. split; [done|].
      cbn [reads]. rewrite decide_False by done. split_and!; try done; lia.
    + unfold spi_inv, spi_mu. cbn [glob hist]. rewrite !proj_inj. cbn.
      split; [|lia]. eexists (Rd SPSR _ :: tr). rewrite Hh. split; [done|].
      cbn [reads]. rewrite decide_False by done. split_and!; try done; lia.
Qed.

(** The interrupt on any hardware. *)
Lemma spi_isr_spec (fuel : nat) (s : st G) :
  (4000 < fuel)%nat ->
  wp_ False (SPI_STC_vect fuel) (fun _ s' =>
    let a := proj (glob s') in
    report_valid_ a = 1 /\
    exists tr, hist s' = tr ++ hist s
      /\ report_ a = be_value (reads SPDR tr)
      /\ report_count_ a = zlen (reads SPDR tr)
      /\ 1 <= report_count_ a <= 4
      /\ (report_count_ a = 4 \/ report_timeout a = 1000)) s.
Proof.
  intros Hf. unfold SPI_STC_vect. wp_run.
  eapply wp_conseq with (D := False); [|done|].
  - apply (wp_loop_total spi_poll (spi_inv (hist s)) spi_mu (spi_post (hist s))).
    + unfold spi_inv. cbn [glob hist]. rewrite proj_inj. cbn [report_ report_count_ report_timeout].
      eexists [Rd SPDR _; Wr SPCR _; Rd SPCR _]. split; [done|]. cbn.
      split_and!; done || lia.
    + unfold spi_mu. cbn [glob]. rewrite proj_inj. cbn [report_count_ report_timeout]. lia.
    + intros a s' HI. by apply spi_poll_step.
  - intros [] s' (tr & Htr). wp_run. cbn [glob hist]. rewrite proj_inj.
    cbn [report_ report_valid_ report_count_ report_timeout]. eauto.
Qed.

(** The SPI interrupt routine terminates whatever the SPI hardware
    answers: its receive loop, which waits for the flag with a 1000-poll
    time-out per byte, never takes more than 4000 iterations; and it ends
    with the report valid, its value the big-endian composition of the bytes
    read from SPDR, and either all four bytes received or the time-out. *)
Theorem spi_isr_total (fuel : nat) (s : st G) :
  (4000 < fuel)%nat ->
  wp_ False (SPI_STC_vect fuel) (fun _ s' =>
    let a := proj (glob s') in
    report_valid_ a = 1 /\
    exists tr, hist s' = tr ++ hist s
      /\ report_ a = be_value (reads SPDR tr)
      /\ report_count_ a = zlen (reads SPDR tr)
      /\ 1 <= report_count_ a <= 4
      /\ (report_count_ a = 4 \/ report_timeout a = 1000)) s.
Proof. exact (spi_isr_spec fuel s). Qed.
End spi_facts.

Section spi_witness.
(** A hardware on which the SPI flag is always set and every byte is 0xA5. *)
#[local] Instance spi_always : Hardware := fun _ r =>
  match r with SPSR => BV SPIF | SPDR => 0xA5 | _ => 0 end.

Lemma spi_isr_total_witness :
  (4000 < 4001)%nat /\
  wp_ False (SPI_STC_vect 4001) (fun _ s' => report_valid_ (glob s') = 1)
    (St [] (mkAvalon 0 0 0 0)).
Proof.
  split; [lia|]. eapply wp_conseq; [apply (spi_isr_total 4001); lia|done|].
  intros ? ? [? _]. done.
Defined.
End spi_witness.

(** ** The two-wire sender *)

(** The receiver's end of the wire: the levels of DATA_P and DATA_N after each
    write to the port, oldest first.  A bit is a period with both lines low
    followed by exactly one line high; the line tells its value. *)
Definition line_P (v : Z) : bool := Z.testbit v PB5.
Definition line_N (v : Z) : bool := Z.testbit v PB4.

Fixpoint wire_bits (ws : list Z) : option (list bool) :=
  match ws with
  | [] => Some []
  | low :: sym :: ws' =>
      if negb (line_P low) && negb (line_N low) && xorb (line_P sym) (line_N sym)
      then cons (line_P sym) <$> wire_bits ws'
      else None
  | _ => None
  end.

Fixpoint word_bits (n : nat) (w : Z) : list bool :=
  match n with
  | O => []
  | S n' => Z.odd w :: word_bits n' (Z.shiftr w 1)
  end.

Fixpoint bits_value (bs : list bool) : Z :=
  match bs with
  | [] => 0
  | b :: bs' => Z.b2z b + 2 * bits_value bs'
  end.

(** The receiver of [n] words: 32 bits each, least significant first. *)
Fixpoint bits_words (n : nat) (bs : list bool) : list Z :=
  match n with
  | O => []
  | S n' => bits_value (take 32 bs) :: bits_words n' (drop 32 bs)
  end.

Lemma word_bits_length n w : length (word_bits n w) = n.
Proof. revert w. induction n; intros; cbn; auto. Qed.

Lemma bits_value_word n w : bits_value (word_bits n w) = w mod 2 ^ Z.of_nat n.
Proof.
  revert w. induction n as [|n IH]; intros w; [cbn; by rewrite Z.mod_1_r|].
  cbn [word_bits bits_value]. rewrite IH, Z.shiftr_div_pow2 by lia.
  rewrite Nat2Z.inj_succ, Z.pow_succ_r by lia.
  rewrite Z.rem_mul_r by lia. rewrite Zmod_odd.
  change (2 ^ 1) with 2. destruct (Z.odd w); cbn; lia.
Qed.

Lemma bits_words_concat ws :
  Forall is_u32 ws -> bits_words (length ws) (concat (map (word_bits 32) ws)) = ws.
Proof.
  induction 1 as [|w ws Hw Hws IH]; [done|].
  cbn [map concat length bits_words].
  rewrite take_app_length', drop_app_length' by (symmetry; apply word_bits_length).
  rewrite IH, bits_value_word. f_equal. by apply Z.mod_small.
Qed.

Lemma wire_bits_app b : forall n a bs, (length a <= n)%nat ->
  wire_bits a = Some bs -> wire_bits (a ++ b) = (app bs) <$> wire_bits b.
Proof.
  induction n as [|n IH]; intros [|low [|sym a]] bs Hn Ha; cbn in *; try lia; try done.
  - injection Ha as <-. by destruct (wire_bits b).
  - injection Ha as <-. by destruct (wire_bits b).
  - destruct (_ && _); [|done]. destruct (wire_bits a) as [bs'|] eqn:E; [|done].
    injection Ha as <-. rewrite (IH a bs') by (done || lia). by destruct (wire_bits b).
Qed.

Section send_facts.
Context {G : Type} `{Hardware} `{!Latch PORTB}.

(** [bits] went over the wire between the histories [h] and [h']: nothing
    but PORTB was written, and of PORTB only the two data lines changed. *)
Definition wire_run (h h' : history) (bits : list bool) : Prop :=
  exists tr, h' = tr ++ h
    /\ wire_bits (rev (writes PORTB tr)) = Some bits
    /\ (forall r, r <> PORTB -> writes r tr = [])
    /\ (forall i, 0 <= i < 8 -> i <> PB4 -> i <> PB5 ->
          Forall (fun v => Z.testbit v i = Z.testbit (latch_value PORTB h) i) (writes PORTB tr)).

Lemma latch_app h tr :
  latch_value PORTB (tr ++ h) =
    default (latch_value PORTB h) (reg_trunc PORTB <$> head (writes PORTB tr)).
Proof.
  unfold latch_value. rewrite !last_wr_writes, writes_app.
  by destruct (writes PORTB tr).
Qed.

Lemma wire_run_refl h : wire_run h h [].
Proof. exists []. split_and!; done. Qed.

Lemma wire_run_trans h h1 h2 b1 b2 :
  wire_run h h1 b1 -> wire_run h1 h2 b2 -> wire_run h h2 (b1 ++ b2).
Proof.
  intros (t1 & -> & Hb1 & Ho1 & Hp1) (t2 & -> & Hb2 & Ho2 & Hp2).
  exists (t2 ++ t1). split; [by rewrite app_assoc|].
  split; [|split].
  - rewrite writes_app, rev_app_distr.
    rewrite (wire_bits_app _ _ _ b1 (Nat.le_refl _)), Hb2 by done. done.
  - intros r Hr. by rewrite writes_app, Ho1, Ho2.
  - intros i Hi H4 H5. rewrite writes_app. apply Forall_app. split; [|auto].
    specialize (Hp2 i Hi H4 H5). specialize (Hp1 i Hi H4 H5).
    rewrite latch_app in Hp2. destruct (writes PORTB t1) as [|v l]; cbn in *; [done|].
    inversion Hp1 as [|? ? Hv ?]; subst. change (reg_trunc PORTB v) with (u8 v) in Hp2.
    rewrite u8_testbit, (proj2 (Z.ltb_lt _ _)), Hv in Hp2 by lia. done.
Qed.

(** The levels one bit puts on the port that reads [v]. *)
Lemma send_levels v (b : bool) :
  let low := clrbits v (Z.lor DATA_N DATA_P) in
  let sym := setbits low (if b then DATA_P else DATA_N) in
  line_P low = false /\ line_N low = false /\ line_P sym = b /\ line_N sym = negb b
  /\ (forall i, 0 <= i < 8 -> i <> PB4 -> i <> PB5 ->
        Z.testbit low i = Z.testbit v i /\ Z.testbit sym i = Z.testbit v i).
Proof.
  cbv zeta. unfold line_P, line_N, DATA_P, DATA_N, PB4, PB5.
  split_and!; [destruct b; autorewrite with bits; cbn;
               rewrite ?andb_false_r, ?orb_true_r; done..|].
  intros i [Hi _] H4 H5. destruct b; autorewrite with bits; case_ltb; cbn;
    rewrite ?andb_true_r, ?orb_false_r; done.
Qed.

Lemma send_levels_u8 v (b : bool) :
  is_u8 v ->
  is_u8 (clrbits v (Z.lor DATA_N DATA_P))
  /\ is_u8 (setbits (clrbits v (Z.lor DATA_N DATA_P)) (if b then DATA_P else DATA_N)).
Proof.
  intros Hv. split; [auto with width|]. unfold setbits.
  apply u8_lor; [auto with width|]. destruct b; vm_compute; split; congruence.
Qed.

Lemma odd_test w : negb (Z.land w 1 =? 0) = Z.odd w.
Proof.
  change 1 with (Z.ones 1). rewrite Z.land_ones by lia. rewrite Zmod_odd.
  by destruct (Z.odd w).
Qed.

Lemma send_bit_wire w (s : st G) :
  wp_ False (send_bit w)
    (fun w' s' => w' = Z.shiftr w 1 /\ wire_run (hist s) (hist s') [Z.odd w]
                  /\ glob s' = glob s) s.
Proof.
  unfold send_bit. rewrite odd_test.
  pose proof (latch_range PORTB (hist s) eq_refl) as Hv.
  destruct (send_levels (latch_value PORTB (hist s)) (Z.odd w)) as (HP & HN & HPs & HNs & Ho).
  destruct (send_levels_u8 (latch_value PORTB (hist s)) (Z.odd w) Hv) as [Hu1 Hu2].
  set (low := clrbits _ _) in *.
  wp_run; latch_simpl; rewrite ?Hb in *; fold low; cbn [hist glob]; rewrite !(reg_trunc_u8 PORTB low), !reg_trunc_u8 by done;
    (split; [done|split; [|done]]);
    eexists [_; _; _; _; _; _]; (split; [reflexivity|]); cbn [writes];
    rewrite !decide_True by done; cbn [rev app wire_bits];
    rewrite HP, HN, HPs, HNs; (split; [done|]);
    (split; [intros r Hr; cbn; by rewrite !decide_False by done|]);
    intros i Hi H4 H5; destruct (Ho i Hi H4 H5); repeat constructor; done.
Qed.

Lemma send_bits_wire n w (s : st G) :
  wp_ False (send_bits n w)
    (fun _ s' => wire_run (hist s) (hist s') (word_bits n w) /\ glob s' = glob s) s.
Proof.
  revert w s. induction n as [|n IH]; intros w s; cbn [send_bits word_bits].
  { split; [apply wire_run_refl|done]. }
  apply wp_bind. eapply wp_conseq; [apply send_bit_wire|done|].
  intros w' s1 (-> & Hr1 & Hg1).
  eapply wp_conseq; [apply IH|done|]. intros [] s2 [Hr2 Hg2].
  split; [|congruence]. by apply (wire_run_trans _ _ _ [_] _ Hr1 Hr2).
Qed.

(** Sending a list of words puts their bits on the wire, in order. *)
Lemma asicSend_wire ws n (s : st G) :
  wp_ False (asicSend ws n)
    (fun _ s' => wire_run (hist s) (hist s') (concat (map (word_bits 32) (take n ws)))
                 /\ glob s' = glob s) s.
Proof.
  unfold asicSend. revert s. induction (take n ws) as [|w l IH]; intros s;
    cbn [for_each map concat].
  { split; [apply wire_run_refl|done]. }
  apply wp_bind. eapply wp_conseq; [apply (send_bits_wire 32)|done|].
  intros [] s1 [Hr1 Hg1]. eapply wp_conseq; [apply IH|done|].
  intros [] s2 [Hr2 Hg2]. split; [|congruence]. by eapply wire_run_trans.
Qed.

(** C12. What [asicSend] puts on the two data lines decodes, at a receiver
    that reads one bit per return-to-low period, to exactly the words of the
    buffer, least significant bit first; meanwhile no register but PORTB is
    written and no other pin of PORTB changes. *)
Theorem asicSend_roundtrip (ws : list Z) (s : st G) :
  Forall is_u32 ws ->
  wp_ False (asicSend ws (length ws)) (fun _ s' =>
    exists tr bits, hist s' = tr ++ hist s
      /\ wire_bits (rev (writes PORTB tr)) = Some bits
      /\ bits_words (length ws) bits = ws
      /\ (forall r, r <> PORTB -> writes r tr = [])
      /\ (forall i, 0 <= i < 8 -> i <> PB4 -> i <> PB5 ->
            Forall (fun v => Z.testbit v i = Z.testbit (latch_value PORTB (hist s)) i)
                   (writes PORTB tr))) s.
Proof.
  intros Hws. eapply wp_conseq; [apply asicSend_wire|done|].
  rewrite take_ge by done.
  intros [] s' [(tr & Hh & Hb & Ho & Hp) _]. exists tr. eexists.
  split; [done|]. split; [done|]. split; [by apply bits_words_concat|done].
Qed.
End send_facts.

Lemma asicSend_roundtrip_witness :
  Forall is_u32 [0x5fddb5bc; 0x00bdafd2] /\
  wp_ False (@asicSend unit plain_hardware [0x5fddb5bc; 0x00bdafd2] 2) (fun _ s' =>
    exists tr bits, hist s' = tr ++ []
      /\ wire_bits (rev (writes PORTB tr)) = Some bits
      /\ bits_words 2 bits = [0x5fddb5bc; 0x00bdafd2]) (St [] tt).
Proof.
  assert (Hw : Forall is_u32 [0x5fddb5bc; 0x00bdafd2])
    by (repeat constructor; vm_compute; congruence).
  split; [exact Hw|].
  eapply wp_conseq; [apply (@asicSend_roundtrip unit plain_hardware _ _ (St [] tt) Hw)|done|].
  intros ? ? (tr & bits & H1 & H2 & H3 & _). by exists tr, bits.
Defined.
