(* ===== verification/Precalc.v ===== *)
(** * AvalonBTC/avalon.c, [asicPrecalc]

    The ASIC wants the state of the first three rounds of the second SHA-256
    block precomputed.  The compiled code works in place on a rotating array;
    the source keeps the textbook version under [#if 0].  Both are modelled,
    proved equal, and proved to compute the FIPS 180 round function. *)

From S2P Require Import Prelude.

(** [a[i]] and [a[i] = v] on C arrays held as lists. *)
Definition arr (l : list Z) (i : Z) : Z := l !!! Z.to_nat i.
Definition arr_set (l : list Z) (i v : Z) : list Z := <[Z.to_nat i := v]> l.

Definition rotate (x y : Z) : Z := Z.lor (u32 (Z.shiftl x y)) (Z.shiftr x (32 - y)).

Definition K : list Z := [0x428a2f98; 0x71374491; 0xb5c0fbcf].

(** [#define r(x) ((x-n)&7)] *)
Definition r_ (n x : Z) : Z := Z.land (x - n) 7.

(** One iteration of the compiled loop. *)
Definition precalc_step (data : list Z) (mp : list Z * list Z) (n : Z) : list Z * list Z :=
  let '(m, precalc) := mp in
  let x := Z.lxor (arr m (5 - n)) (arr m (6 - n)) in
  let x := Z.land x (arr m (4 - n)) in
  let x := Z.lxor (arr m (6 - n)) x in
  let x := u32 (x + arr K n) in
  let x := u32 (x + arr data n) in
  let x := u32 (x + arr m (7 - n)) in
  let y := rotate (arr m (4 - n)) 26 in
  let z := rotate (arr m (4 - n)) 21 in
  let z := Z.lxor y z in
  let y := rotate (arr m (4 - n)) 7 in
  let z := Z.lxor y z in
  let m := arr_set m (7 - n) (u32 (z + x)) in
  let m := arr_set m (3 - n) (u32 (arr m (3 - n) + arr m (7 - n))) in
  let x := rotate (arr m (r_ n 0)) 30 in
  let y := rotate (arr m (r_ n 0)) 19 in
  let y := Z.lxor y x in
  let x := rotate (arr m (r_ n 0)) 10 in
  let y := Z.lxor x y in
  let x := Z.lor (arr m (r_ n 0)) (arr m (r_ n 1)) in
  let x := Z.land (arr m (r_ n 2)) x in
  let z := Z.land (arr m (r_ n 0)) (arr m (r_ n 1)) in
  let x := Z.lor x z in
  let m := arr_set m (7 - n) (u32 (arr m (7 - n) + u32 (y + x))) in
  let precalc := arr_set precalc (2 - n) (arr m (7 - n)) in
  let precalc := arr_set precalc (5 - n) (arr m (3 - n)) in
  (m, precalc).

Definition asicPrecalc (midstate data precalc : list Z) : list Z :=
  let m := map (arr midstate) [0; 1; 2; 3; 4; 5; 6; 7] in
  snd (fold_left (precalc_step data) [0; 1; 2] (m, precalc)).

(** One iteration of the loop under [#if 0]. *)
Definition precalc_ref_step (data : list Z) (mp : list Z * list Z) (n : Z) : list Z * list Z :=
  let '(m, precalc) := mp in
  let S1 := Z.lxor (Z.lxor (rotate (arr m 4) 26) (rotate (arr m 4) 21)) (rotate (arr m 4) 7) in
  let ch := Z.lxor (Z.land (arr m 4) (arr m 5)) (Z.land (u32 (Z.lnot (arr m 4))) (arr m 6)) in
  let t1 := u32 (arr m 7 + S1 + ch + arr K n + arr data n) in
  let S0 := Z.lxor (Z.lxor (rotate (arr m 0) 30) (rotate (arr m 0) 19)) (rotate (arr m 0) 10) in
  let maj := Z.lxor (Z.lxor (Z.land (arr m 0) (arr m 1)) (Z.land (arr m 0) (arr m 2)))
                    (Z.land (arr m 1) (arr m 2)) in
  let t2 := u32 (S0 + maj) in
  let m := arr_set m 7 (arr m 6) in
  let m := arr_set m 6 (arr m 5) in
  let m := arr_set m 5 (arr m 4) in
  let m := arr_set m 4 (u32 (arr m 3 + t1)) in
  let m := arr_set m 3 (arr m 2) in
  let m := arr_set m 2 (arr m 1) in
  let m := arr_set m 1 (arr m 0) in
  let m := arr_set m 0 (u32 (t1 + t2)) in
  let precalc := arr_set precalc (2 - n) (arr m 0) in
  let precalc := arr_set precalc (5 - n) (arr m 4) in
  (m, precalc).

Definition asicPrecalc_ref (midstate data precalc : list Z) : list Z :=
  let m := map (arr midstate) [0; 1; 2; 3; 4; 5; 6; 7] in
  snd (fold_left (precalc_ref_step data) [0; 1; 2] (m, precalc)).

(** ** The SHA-256 round of FIPS 180-4 *)

Record sha_state := Sha { sa : Z; sb : Z; sc : Z; sd : Z; se : Z; sf : Z; sg : Z; sh : Z }.

Definition ROTR (n x : Z) : Z := Z.lor (Z.shiftr x n) (u32 (Z.shiftl x (32 - n))).
Definition Ch (x y z : Z) : Z := Z.lxor (Z.land x y) (Z.land (u32 (Z.lnot x)) z).
Definition Maj (x y z : Z) : Z :=
  Z.lxor (Z.lxor (Z.land x y) (Z.land x z)) (Z.land y z).
Definition Sigma0 (x : Z) : Z := Z.lxor (Z.lxor (ROTR 2 x) (ROTR 13 x)) (ROTR 22 x).
Definition Sigma1 (x : Z) : Z := Z.lxor (Z.lxor (ROTR 6 x) (ROTR 11 x)) (ROTR 25 x).

(** The constants of FIPS 180-4, 4.2.2: the first 32 bits of the fractional
    parts of the cube roots of the primes. *)
Definition cube_root (n : Z) : Z :=
  fold_right (fun b r => if (r + 2 ^ b) ^ 3 <=? n then r + 2 ^ b else r) 0 (map Z.of_nat (seq 0 36)).
Definition sha_K (i : Z) : Z := cube_root (arr [2; 3; 5] i * 2 ^ 96) mod 2 ^ 32.

Definition T1 (k w : Z) (s : sha_state) : Z :=
  u32 (sh s + Sigma1 (se s) + Ch (se s) (sf s) (sg s) + k + w).
Definition T2 (s : sha_state) : Z := u32 (Sigma0 (sa s) + Maj (sa s) (sb s) (sc s)).

Definition sha_round (k w : Z) (s : sha_state) : sha_state :=
  Sha (u32 (T1 k w s + T2 s)) (sa s) (sb s) (sc s)
      (u32 (sd s + T1 k w s)) (se s) (sf s) (sg s).

(** ** The two forms of each operation *)

Lemma rotate_ROTR x n : rotate x (32 - n) = ROTR n x.
Proof.
  unfold rotate, ROTR. rewrite Z.lor_comm. by replace (32 - (32 - n)) with n by lia.
Qed.

Lemma Sigma1_rotate x :
  Z.lxor (rotate x 7) (Z.lxor (rotate x 26) (rotate x 21)) = Sigma1 x.
Proof.
  unfold Sigma1. rewrite <- !rotate_ROTR. cbn [Z.sub]. by rewrite Z.lxor_comm.
Qed.

Lemma Sigma0_rotate x :
  Z.lxor (rotate x 10) (Z.lxor (rotate x 19) (rotate x 30)) = Sigma0 x.
Proof.
  unfold Sigma0. rewrite <- !rotate_ROTR. cbn [Z.sub].
  by rewrite Z.lxor_comm, (Z.lxor_comm (rotate x 19)).
Qed.

Lemma Ch_opt x y z :
  is_u32 x -> is_u32 z -> Z.lxor z (Z.land (Z.lxor y z) x) = Ch x y z.
Proof.
  intros Hx Hz. unfold Ch. apply Z.bits_inj'. intros i Hi. autorewrite with bits.
  destruct (Z.ltb_spec i 32).
  - by destruct (Z.testbit x i), (Z.testbit y i), (Z.testbit z i).
  - rewrite (testbit_high 32 x), (testbit_high 32 z) by (done || lia).
    by rewrite !andb_false_r.
Qed.

Lemma Maj_opt x y z :
  Z.lor (Z.land z (Z.lor x y)) (Z.land x y) = Maj x y z.
Proof.
  unfold Maj. apply Z.bits_inj'. intros i Hi. autorewrite with bits.
  by destruct (Z.testbit x i), (Z.testbit y i), (Z.testbit z i).
Qed.

(** Sums modulo [2^32]. *)
Lemma u32_add_l a b : u32 (u32 a + b) = u32 (a + b).
Proof. apply Z.add_mod_idemp_l. lia. Qed.
Lemma u32_add_r a b : u32 (a + u32 b) = u32 (a + b).
Proof. apply Z.add_mod_idemp_r. lia. Qed.

(** The source's constants are the standard's. *)
Lemma K_sha n : n = 0 \/ n = 1 \/ n = 2 -> arr K n = sha_K n.
Proof. intros [-> | [-> | ->]]; by vm_compute. Qed.

(** The array of the compiled loop holds the state rotated by [n]. *)
Definition rotated (n : Z) (s : sha_state) : list Z :=
  match n with
  | 0 => [sa s; sb s; sc s; sd s; se s; sf s; sg s; sh s]
  | 1 => [sb s; sc s; sd s; se s; sf s; sg s; sh s; sa s]
  | 2 => [sc s; sd s; se s; sf s; sg s; sh s; sa s; sb s]
  | _ => [sd s; se s; sf s; sg s; sh s; sa s; sb s; sc s]
  end.

Definition sha_wf (s : sha_state) : Prop :=
  is_u32 (sa s) /\ is_u32 (sb s) /\ is_u32 (sc s) /\ is_u32 (sd s) /\
  is_u32 (se s) /\ is_u32 (sf s) /\ is_u32 (sg s) /\ is_u32 (sh s).

Lemma sha_round_wf k w s : sha_wf s -> sha_wf (sha_round k w s).
Proof. unfold sha_wf. cbn. intros. destruct_and!. split_and!; auto with width. Qed.

Definition store_round (n : Z) (s : sha_state) (precalc : list Z) : list Z :=
  arr_set (arr_set precalc (2 - n) (sa s)) (5 - n) (se s).

(** The two sums as the compiled loop writes them. *)
Definition T1_opt (k w : Z) (s : sha_state) : Z :=
  u32 (Z.lxor (rotate (se s) 7) (Z.lxor (rotate (se s) 26) (rotate (se s) 21))
       + u32 (u32 (u32 (Z.lxor (sg s) (Z.land (Z.lxor (sf s) (sg s)) (se s)) + k) + w) + sh s)).
Definition T2_opt (s : sha_state) : Z :=
  u32 (Z.lxor (rotate (sa s) 10) (Z.lxor (rotate (sa s) 19) (rotate (sa s) 30))
       + Z.lor (Z.land (sc s) (Z.lor (sa s) (sb s))) (Z.land (sa s) (sb s))).

Lemma T1_opt_eq k w s : sha_wf s -> T1_opt k w s = T1 k w s.
Proof.
  unfold sha_wf. intros. destruct_and!. unfold T1_opt, T1.
  rewrite Sigma1_rotate, Ch_opt by done.
  rewrite (u32_add_l (_ + k)), (u32_add_l (_ + k + w)), u32_add_r. f_equal. lia.
Qed.

Lemma T2_opt_eq s : T2_opt s = T2 s.
Proof. unfold T2_opt, T2. by rewrite Sigma0_rotate, Maj_opt. Qed.

Definition round_opt (k w : Z) (s : sha_state) : sha_state :=
  Sha (u32 (T1_opt k w s + T2_opt s)) (sa s) (sb s) (sc s)
      (u32 (sd s + T1_opt k w s)) (se s) (sf s) (sg s).

Lemma round_opt_eq k w s : sha_wf s -> round_opt k w s = sha_round k w s.
Proof. intros Hwf. unfold round_opt, sha_round. by rewrite T1_opt_eq, T2_opt_eq. Qed.

(** One iteration of the compiled loop is one SHA-256 round, seen through the
    rotation of the array. *)
Lemma precalc_step_opt data n s p :
  n = 0 \/ n = 1 \/ n = 2 ->
  precalc_step data (rotated n s, p) n =
    (rotated (n + 1) (round_opt (arr K n) (arr data n) s),
     store_round n (round_opt (arr K n) (arr data n) s) p).
Proof. intros [-> | [-> | ->]]; reflexivity. Qed.

Lemma precalc_step_round data n s p :
  sha_wf s -> n = 0 \/ n = 1 \/ n = 2 ->
  precalc_step data (rotated n s, p) n =
    (rotated (n + 1) (sha_round (arr K n) (arr data n) s),
     store_round n (sha_round (arr K n) (arr data n) s) p).
Proof. intros Hwf Hn. by rewrite precalc_step_opt, round_opt_eq. Qed.

Lemma precalc_ref_step_round data n s p :
  precalc_ref_step data (rotated 0 s, p) n =
    (rotated 0 (sha_round (arr K n) (arr data n) s),
     store_round n (sha_round (arr K n) (arr data n) s) p).
Proof.
  assert (HT : u32 (sh s + Z.lxor (Z.lxor (rotate (se s) 26) (rotate (se s) 21)) (rotate (se s) 7)
                    + Ch (se s) (sf s) (sg s) + arr K n + arr data n)
               = T1 (arr K n) (arr data n) s).
  { unfold T1. by rewrite <- Sigma1_rotate, (Z.lxor_comm (rotate (se s) 7)). }
  assert (HS : u32 (Z.lxor (Z.lxor (rotate (sa s) 30) (rotate (sa s) 19)) (rotate (sa s) 10)
                    + Maj (sa s) (sb s) (sc s)) = T2 s).
  { unfold T2. rewrite <- Sigma0_rotate.
    by rewrite (Z.lxor_comm (rotate (sa s) 10)), (Z.lxor_comm (rotate (sa s) 19)). }
  unfold sha_round. rewrite <- HT, <- HS. reflexivity.
Qed.

(** ** Properties *)

Lemma arr_u32 l i : Forall is_u32 l -> is_u32 (arr l i).
Proof.
  intros Hl. unfold arr. destruct (l !! Z.to_nat i) as [v|] eqn:E.
  - rewrite (list_lookup_total_correct _ _ _ E). by eapply Forall_lookup_1.
  - rewrite list_lookup_total_alt, E. vm_compute. split; congruence.
Qed.

Definition sha_load (midstate : list Z) : sha_state :=
  Sha (arr midstate 0) (arr midstate 1) (arr midstate 2) (arr midstate 3)
      (arr midstate 4) (arr midstate 5) (arr midstate 6) (arr midstate 7).

Lemma sha_load_wf midstate : Forall is_u32 midstate -> sha_wf (sha_load midstate).
Proof. intros. unfold sha_wf. cbn [sha_load sa sb sc sd se sf sg sh]. split_and!; by apply arr_u32. Qed.

(** The states after one, two and three rounds. *)
Definition sha_after (n : nat) (data : list Z) (s : sha_state) : sha_state :=
  fold_left (fun s i => sha_round (sha_K i) (arr data i) s) (map Z.of_nat (seq 0 n)) s.

(** C16. The in-place loop that is compiled leaves in [precalc] what the textbook
    loop the source keeps under [#if 0] leaves there, for every midstate and
    data of 32-bit words and whatever [precalc] held. *)
Theorem asicPrecalc_equiv midstate data precalc :
  Forall is_u32 midstate ->
  asicPrecalc midstate data precalc = asicPrecalc_ref midstate data precalc.
Proof.
  intros Hm. pose proof (sha_load_wf midstate Hm) as Hwf.
  unfold asicPrecalc, asicPrecalc_ref.
  change (map (arr midstate) [0; 1; 2; 3; 4; 5; 6; 7]) with (rotated 0 (sha_load midstate)).
  cbn [fold_left].
  rewrite !precalc_ref_step_round, precalc_step_round by auto.
  rewrite (precalc_step_round _ 1), (precalc_step_round _ 2); auto using sha_round_wf.
Qed.

Lemma asicPrecalc_equiv_witness :
  Forall is_u32 [0x5fddb5bc;0x00bdafd2;0x144684c7;0x19c68fa2;0x27d0a8e3;0x34ad84b2;0xa92c66be;0x3e99a4fd]
  /\ asicPrecalc [0x5fddb5bc;0x00bdafd2;0x144684c7;0x19c68fa2;0x27d0a8e3;0x34ad84b2;0xa92c66be;0x3e99a4fd]
       [0xf64684bb;0x51bc1508;0x1a011337] [0;0;0;0;0;0]
     = asicPrecalc_ref [0x5fddb5bc;0x00bdafd2;0x144684c7;0x19c68fa2;0x27d0a8e3;0x34ad84b2;0xa92c66be;0x3e99a4fd]
       [0xf64684bb;0x51bc1508;0x1a011337] [0;0;0;0;0;0].
Proof.
  split; [|apply asicPrecalc_equiv]; repeat constructor; vm_compute; congruence.
Defined.

(** What the loop leaves in [precalc], as SHA-256 states. *)
Lemma asicPrecalc_states midstate data precalc :
  Forall is_u32 midstate -> length precalc = 6%nat ->
  let s := sha_load midstate in
  asicPrecalc midstate data precalc =
    [sa (sha_after 3 data s); sa (sha_after 2 data s); sa (sha_after 1 data s);
     se (sha_after 3 data s); se (sha_after 2 data s); se (sha_after 1 data s)].
Proof.
  intros Hm Hp. pose proof (sha_load_wf midstate Hm) as Hwf.
  unfold asicPrecalc.
  change (map (arr midstate) [0; 1; 2; 3; 4; 5; 6; 7]) with (rotated 0 (sha_load midstate)).
  cbn [fold_left]. rewrite precalc_step_round by auto.
  rewrite (precalc_step_round _ 1), (precalc_step_round _ 2); auto using sha_round_wf.
  rewrite !K_sha by auto.
  destruct precalc as [|? [|? [|? [|? [|? [|? [|]]]]]]]; try discriminate. reflexivity.
Qed.

Lemma sha_after_wf n data s : sha_wf s -> sha_wf (sha_after n data s).
Proof.
  intros Hs. unfold sha_after. revert s Hs. induction (map Z.of_nat (seq 0 n)) as [|i l IH]; [done|].
  intros s Hs. cbn. by apply IH, sha_round_wf.
Qed.

Lemma asicPrecalc_length midstate data precalc :
  length (asicPrecalc midstate data precalc) = length precalc.
Proof.
  unfold asicPrecalc.
  change (map (arr midstate) [0; 1; 2; 3; 4; 5; 6; 7]) with (rotated 0 (sha_load midstate)).
  cbn [fold_left]. rewrite precalc_step_opt by auto. rewrite (precalc_step_opt _ 1) by auto.
  rewrite (precalc_step_opt _ 2) by auto. cbn [snd]. unfold store_round, arr_set.
  by rewrite !length_insert.
Qed.

Lemma asicPrecalc_wf midstate data precalc :
  Forall is_u32 midstate -> length precalc = 6%nat ->
  length (asicPrecalc midstate data precalc) = 6%nat
  /\ Forall is_u32 (asicPrecalc midstate data precalc).
Proof.
  intros Hm Hp. rewrite asicPrecalc_states by done. split; [done|].
  assert (Hw : forall n, sha_wf (sha_after n data (sha_load midstate)))
    by (intros; by apply sha_after_wf, sha_load_wf).
  pose proof (Hw 1%nat) as H1. pose proof (Hw 2%nat) as H2. pose proof (Hw 3%nat) as H3.
  repeat constructor; (apply H1 || apply H2 || apply H3).
Qed.

(** C13. The six words [asicPrecalc] hands to the ASIC are the [a] and [e]
    variables of the SHA-256 state after rounds 3, 2 and 1 of the block that
    starts with [data], run from [midstate]: [precalc = a3 a2 a1 e3 e2 e1].
    Round function and constants are those of FIPS 180-4. *)
Theorem asicPrecalc_sha256 midstate data precalc :
  Forall is_u32 midstate -> length precalc = 6%nat ->
  let s := sha_load midstate in
  asicPrecalc midstate data precalc =
    [sa (sha_after 3 data s); sa (sha_after 2 data s); sa (sha_after 1 data s);
     se (sha_after 3 data s); se (sha_after 2 data s); se (sha_after 1 data s)].
Proof. intros Hm Hp. by apply asicPrecalc_states. Qed.

Lemma asicPrecalc_sha256_witness :
  length [0;0;0;0;0;0] = 6%nat /\
  asicPrecalc [1;2;3;4;5;6;7;8] [9;10;11] [0;0;0;0;0;0] !! 2%nat
    = Some (sa (sha_round 0x428a2f98 9 (Sha 1 2 3 4 5 6 7 8))).
Proof.
  split; [reflexivity|]. rewrite asicPrecalc_sha256; [reflexivity| |reflexivity].
  repeat constructor; vm_compute; congruence.
Defined.
