(* ===== verification/Endpoint.v ===== *)
(** * LUFA/Drivers/USB/Core/AVR8/Endpoint_AVR8.[ch], Endpoint.h

    The endpoint primitives of the USB library: the register accesses behind
    selecting, configuring, polling, filling and releasing an endpoint bank.
    The build is the makefile's: ATmega32U2 ([USB_SERIES_2_AVR]),
    [USB_DEVICE_ONLY], [FIXED_CONTROL_ENDPOINT_SIZE = 8],
    [DEVICE_STATE_AS_GPIOR = 0], [INTERRUPT_CONTROL_ENDPOINT]. *)

From S2P Require Import Prelude Machine.

(** Bit numbers of [<avr/iom32u2.h>]. *)
Definition TXINI : Z := 0.
Definition RXOUTI : Z := 2.
Definition RXSTPI : Z := 3.
Definition RWAL : Z := 5.
Definition FIFOCON : Z := 7.
Definition EPEN : Z := 0.
Definition RSTDT : Z := 3.
Definition STALLRQC : Z := 4.
Definition STALLRQ : Z := 5.
Definition EPDIR : Z := 0.
Definition EPTYPE0 : Z := 6.
Definition ALLOC : Z := 1.
Definition EPBK0 : Z := 2.
Definition EPSIZE0 : Z := 4.
Definition CFGOK : Z := 7.
Definition NBUSYBK0 : Z := 0.

(** Device.h: [USB_Device_States_t]. *)
Definition DEVICE_STATE_Unattached : Z := 0.
Definition DEVICE_STATE_Powered : Z := 1.
Definition DEVICE_STATE_Default : Z := 2.
Definition DEVICE_STATE_Addressed : Z := 3.
Definition DEVICE_STATE_Configured : Z := 4.
Definition DEVICE_STATE_Suspended : Z := 5.

(** Endpoint.h, Endpoint_AVR8.h and StdDescriptors.h constants. *)
Definition ENDPOINT_EPNUM_MASK : Z := 0x0F.
Definition ENDPOINT_CONTROLEP : Z := 0.
Definition ENDPOINT_TOTAL_ENDPOINTS : Z := 5.
Definition ENDPOINT_DIR_OUT : Z := 0x00.
Definition ENDPOINT_DIR_IN : Z := 0x80.
Definition EP_TYPE_CONTROL : Z := 0x00.
Definition EP_TYPE_BULK : Z := 0x02.
Definition EP_TYPE_INTERRUPT : Z := 0x03.
Definition USB_STREAM_TIMEOUT_MS : Z := 100.
Definition USB_Device_ControlEndpointSize : Z := 8.

Definition ENDPOINT_READYWAIT_NoError : Z := 0.
Definition ENDPOINT_READYWAIT_EndpointStalled : Z := 1.
Definition ENDPOINT_READYWAIT_DeviceDisconnected : Z := 2.
Definition ENDPOINT_READYWAIT_BusSuspended : Z := 3.
Definition ENDPOINT_READYWAIT_Timeout : Z := 4.

(** StdRequestType.h: the control request, and the library's globals. *)
Record USB_Request_Header_t := mkRequest {
  bmRequestType : Z;
  bRequest : Z;
  wValue : Z;
  wIndex : Z;
  wLength : Z;
}.

Record UsbState := mkUsb {
  USB_ControlRequest : USB_Request_Header_t;
  USB_Device_ConfigurationNumber : Z;
  USB_Device_CurrentlySelfPowered : bool;
  USB_Device_RemoteWakeupEnabled : bool;
  USB_IsInitialized : bool;
}.

Definition REQDIR_HOSTTODEVICE : Z := 0x00.
Definition REQDIR_DEVICETOHOST : Z := 0x80.

Record USB_Endpoint_Table_t := mkEndpointTable {
  et_Address : Z;
  et_Size : Z;
  et_Type : Z;
  et_Banks : Z;
}.

Section endpoint.
Context {G : Type} `{Hardware}.

Definition get_DeviceState : M G Z := rd GPIOR0.
Definition set_DeviceState (v : Z) : M G unit := wr GPIOR0 v.

(** [while (CheckBytes < Bytes) { MaskVal++; CheckBytes <<= 1; }] *)
Definition Endpoint_BytesToEPSizeMask (fuel : nat) (Bytes : Z) : M G Z :=
  loop fuel (fun mc : Z * Z =>
    let (MaskVal, CheckBytes) := mc in
    if CheckBytes <? Bytes
    then mret (inl (u8 (MaskVal + 1), u16 (Z.shiftl CheckBytes 1)))
    else mret (inr (u8 (Z.shiftl MaskVal EPSIZE0)))) (0, 8).

(** ATmega32U2: the byte count is the one register UEBCLX. *)
Definition Endpoint_BytesInEndpoint : M G Z := rd UEBCLX.

Definition Endpoint_GetEndpointDirection : M G Z :=
  v ← rd UECFG0X; mret (if anybit v (BV EPDIR) then ENDPOINT_DIR_IN else ENDPOINT_DIR_OUT).

Definition Endpoint_GetCurrentEndpoint : M G Z :=
  n ← rd UENUM; d ← Endpoint_GetEndpointDirection;
  mret (Z.lor (Z.land n ENDPOINT_EPNUM_MASK) d).

Definition Endpoint_SelectEndpoint (Address : Z) : M G unit :=
  wr UENUM (Z.land Address ENDPOINT_EPNUM_MASK).

Definition Endpoint_ResetEndpoint (Address : Z) : M G unit :=
  wr UERST (BV (Z.land Address ENDPOINT_EPNUM_MASK)) ;; wr UERST 0.

Definition Endpoint_EnableEndpoint : M G unit := reg_or UECONX (BV EPEN).
Definition Endpoint_DisableEndpoint : M G unit := reg_clr UECONX (BV EPEN).
Definition Endpoint_IsEnabled : M G bool := v ← rd UECONX; mret (anybit v (BV EPEN)).

Definition Endpoint_GetBusyBanks : M G Z :=
  v ← rd UESTA0X; mret (Z.land v (Z.shiftl 0x03 NBUSYBK0)).

Definition Endpoint_AbortPendingIN (fuel : nat) : M G unit :=
  loop fuel (fun _ : unit =>
    b ← Endpoint_GetBusyBanks;
    if b =? 0 then mret (inr tt) else
    reg_or UEINTX (BV RXOUTI) ;;
    loop fuel (fun _ : unit =>
      v ← rd UEINTX; mret (if anybit v (BV RXOUTI) then inl tt else inr tt)) tt ;;
    mret (inl tt)) tt.

Definition Endpoint_IsReadWriteAllowed : M G bool := v ← rd UEINTX; mret (anybit v (BV RWAL)).
Definition Endpoint_IsConfigured : M G bool := v ← rd UESTA0X; mret (anybit v (BV CFGOK)).
Definition Endpoint_GetEndpointInterrupts : M G Z := rd UEINT.
Definition Endpoint_HasEndpointInterrupted (Address : Z) : M G bool :=
  v ← Endpoint_GetEndpointInterrupts;
  mret (anybit v (BV (Z.land Address ENDPOINT_EPNUM_MASK))).
Definition Endpoint_IsINReady : M G bool := v ← rd UEINTX; mret (anybit v (BV TXINI)).
Definition Endpoint_IsOUTReceived : M G bool := v ← rd UEINTX; mret (anybit v (BV RXOUTI)).
Definition Endpoint_IsSETUPReceived : M G bool := v ← rd UEINTX; mret (anybit v (BV RXSTPI)).

Definition Endpoint_ClearSETUP : M G unit := reg_clr UEINTX (BV RXSTPI).
Definition Endpoint_ClearIN : M G unit := reg_clr UEINTX (Z.lor (BV TXINI) (BV FIFOCON)).
Definition Endpoint_ClearOUT : M G unit := reg_clr UEINTX (Z.lor (BV RXOUTI) (BV FIFOCON)).

Definition Endpoint_StallTransaction : M G unit := reg_or UECONX (BV STALLRQ).
Definition Endpoint_ClearStall : M G unit := reg_or UECONX (BV STALLRQC).
Definition Endpoint_IsStalled : M G bool := v ← rd UECONX; mret (anybit v (BV STALLRQ)).
Definition Endpoint_ResetDataToggle : M G unit := reg_or UECONX (BV RSTDT).

Definition Endpoint_SetEndpointDirection (DirectionMask : Z) : M G unit :=
  v ← rd UECFG0X;
  wr UECFG0X (Z.lor (clrbits v (BV EPDIR)) (if DirectionMask =? 0 then 0 else BV EPDIR)).

Definition Endpoint_Read_8 : M G Z := rd UEDATX.
Definition Endpoint_Write_8 (Data : Z) : M G unit := wr UEDATX Data.
Definition Endpoint_Discard_8 : M G unit := rd UEDATX ;; mret tt.

Definition Endpoint_Read_16_LE : M G Z :=
  b0 ← rd UEDATX; b1 ← rd UEDATX; mret (le_value [b0; b1]).
Definition Endpoint_Read_16_BE : M G Z :=
  b1 ← rd UEDATX; b0 ← rd UEDATX; mret (le_value [b0; b1]).
Definition Endpoint_Write_16_LE (Data : Z) : M G unit :=
  wr UEDATX (Z.land Data 0xFF) ;; wr UEDATX (Z.shiftr Data 8).
Definition Endpoint_Write_16_BE (Data : Z) : M G unit :=
  wr UEDATX (Z.shiftr Data 8) ;; wr UEDATX (Z.land Data 0xFF).
Definition Endpoint_Discard_16 : M G unit := rd UEDATX ;; rd UEDATX ;; mret tt.
Definition Endpoint_Read_32_LE : M G Z :=
  b0 ← rd UEDATX; b1 ← rd UEDATX; b2 ← rd UEDATX; b3 ← rd UEDATX;
  mret (le_value [b0; b1; b2; b3]).
Definition Endpoint_Read_32_BE : M G Z :=
  b3 ← rd UEDATX; b2 ← rd UEDATX; b1 ← rd UEDATX; b0 ← rd UEDATX;
  mret (le_value [b0; b1; b2; b3]).
Definition Endpoint_Write_32_LE (Data : Z) : M G unit :=
  wr UEDATX (Z.land Data 0xFF) ;; wr UEDATX (Z.shiftr Data 8) ;;
  wr UEDATX (Z.shiftr Data 16) ;; wr UEDATX (Z.shiftr Data 24).
Definition Endpoint_Write_32_BE (Data : Z) : M G unit :=
  wr UEDATX (Z.shiftr Data 24) ;; wr UEDATX (Z.shiftr Data 16) ;;
  wr UEDATX (Z.shiftr Data 8) ;; wr UEDATX (Z.land Data 0xFF).
Definition Endpoint_Discard_32 : M G unit :=
  rd UEDATX ;; rd UEDATX ;; rd UEDATX ;; rd UEDATX ;; mret tt.

(** The loop of [Endpoint_ConfigureEndpoint_Prv] over the endpoints [l]:
    an endpoint's memory allocation moves every higher one, so all of them
    are re-allocated in order. *)
Fixpoint reconfigure (Number UECFG0XData UECFG1XData : Z) (l : list Z) : M G bool :=
  match l with
  | [] => Endpoint_SelectEndpoint Number ;; mret true
  | EPNum :: l' =>
      Endpoint_SelectEndpoint EPNum ;;
      cfg ← (if EPNum =? Number
             then mret (UECFG0XData, UECFG1XData, 0)
             else c0 ← rd UECFG0X; c1 ← rd UECFG1X; ie ← rd UEIENX; mret (c0, c1, ie));
      let '(UECFG0XTemp, UECFG1XTemp, UEIENXTemp) := cfg : Z * Z * Z in
      if negb (anybit UECFG1XTemp (BV ALLOC))
      then reconfigure Number UECFG0XData UECFG1XData l'
      else
        Endpoint_DisableEndpoint ;;
        reg_clr UECFG1X (BV ALLOC) ;;
        Endpoint_EnableEndpoint ;;
        wr UECFG0X UECFG0XTemp ;;
        wr UECFG1X UECFG1XTemp ;;
        wr UEIENX UEIENXTemp ;;
        ok ← Endpoint_IsConfigured;
        if negb ok then mret false
        else reconfigure Number UECFG0XData UECFG1XData l'
  end.

(** [EPNum = Number; EPNum < ENDPOINT_TOTAL_ENDPOINTS; EPNum++] *)
Definition ep_from (Number : Z) : list Z :=
  map (fun i => Number + Z.of_nat i) (seq 0 (Z.to_nat (ENDPOINT_TOTAL_ENDPOINTS - Number))).

Definition Endpoint_ConfigureEndpoint_Prv (Number UECFG0XData UECFG1XData : Z) : M G bool :=
  reconfigure Number UECFG0XData UECFG1XData (ep_from Number).

Definition Endpoint_ConfigureEndpoint (fuel : nat) (Address Type_ Size Banks : Z) : M G bool :=
  let Number := Z.land Address ENDPOINT_EPNUM_MASK in
  if ENDPOINT_TOTAL_ENDPOINTS <=? Number then mret false else
  mask ← Endpoint_BytesToEPSizeMask fuel Size;
  Endpoint_ConfigureEndpoint_Prv Number
    (u8 (Z.lor (Z.shiftl Type_ EPTYPE0) (if anybit Address ENDPOINT_DIR_IN then BV EPDIR else 0)))
    (u8 (Z.lor (Z.lor (BV ALLOC) (if 1 <? Banks then BV EPBK0 else 0)) mask)).

Fixpoint Endpoint_ConfigureEndpointTable (fuel : nat) (Table : list USB_Endpoint_Table_t)
    : M G bool :=
  match Table with
  | [] => mret true
  | e :: Table' =>
      if et_Address e =? 0 then Endpoint_ConfigureEndpointTable fuel Table' else
      ok ← Endpoint_ConfigureEndpoint fuel (et_Address e) (et_Type e) (et_Size e) (et_Banks e);
      if negb ok then mret false else Endpoint_ConfigureEndpointTable fuel Table'
  end.

Definition Endpoint_ClearEndpoints : M G unit :=
  wr UEINT 0 ;;
  for_each (ep_from 0) (fun EPNum =>
    Endpoint_SelectEndpoint EPNum ;;
    wr UEIENX 0 ;;
    wr UEINTX 0 ;;
    wr UECFG1X 0 ;;
    Endpoint_DisableEndpoint).

(** [while (!ready) if (USB_DeviceState == Unattached) return;]: whether the
    device stayed attached; and that, then [k]. *)
Definition until_ready (fuel : nat) (ready : M G bool) : M G bool :=
  loop fuel (fun _ : unit =>
    r ← ready;
    if (r : bool) then mret (inr true) else
    d ← get_DeviceState;
    mret (if d =? DEVICE_STATE_Unattached then inr false else inl tt)) tt.
Definition wait_attached (fuel : nat) (ready : M G bool) (k : M G unit) : M G unit :=
  ok ← until_ready fuel ready; when ok k.

Definition Endpoint_ClearStatusStage `{Has UsbState G} (fuel : nat) : M G unit :=
  t ← getc (fun u => bmRequestType (USB_ControlRequest u));
  if anybit t REQDIR_DEVICETOHOST
  then wait_attached fuel Endpoint_IsOUTReceived Endpoint_ClearOUT
  else wait_attached fuel Endpoint_IsINReady Endpoint_ClearIN.

Definition USB_Device_GetFrameNumber : M G Z := rd UDFNUM.

(** One iteration of the loop of [Endpoint_WaitUntilReady]. *)
Definition wait_ready_step (tp : Z * Z) : M G (Z * Z + Z) :=
  let (TimeoutMSRem, PreviousFrameNumber) := tp in
  dir ← Endpoint_GetEndpointDirection;
  ready ← (if dir =? ENDPOINT_DIR_IN then Endpoint_IsINReady else Endpoint_IsOUTReceived);
  if (ready : bool) then mret (inr ENDPOINT_READYWAIT_NoError) else
  d ← get_DeviceState;
  if d =? DEVICE_STATE_Unattached then mret (inr ENDPOINT_READYWAIT_DeviceDisconnected)
  else if d =? DEVICE_STATE_Suspended then mret (inr ENDPOINT_READYWAIT_BusSuspended)
  else
  stalled ← Endpoint_IsStalled;
  if (stalled : bool) then mret (inr ENDPOINT_READYWAIT_EndpointStalled) else
  CurrentFrameNumber ← USB_Device_GetFrameNumber;
  if CurrentFrameNumber =? PreviousFrameNumber then mret (inl tp)
  else if TimeoutMSRem =? 0 then mret (inr ENDPOINT_READYWAIT_Timeout)
  else mret (inl (u8 (TimeoutMSRem - 1), CurrentFrameNumber)).

Definition Endpoint_WaitUntilReady (fuel : nat) : M G Z :=
  f ← USB_Device_GetFrameNumber;
  loop fuel wait_ready_step (USB_STREAM_TIMEOUT_MS, f).
End endpoint.

(** ** Properties *)

Section sizemask.
Context {G : Type}.

Definition mask_inv (Bytes : Z) (mc : Z * Z) (_ : st G) : Prop :=
  0 <= fst mc <= 12 /\ snd mc = 2 ^ (3 + fst mc)
  /\ (fst mc = 0 \/ 2 ^ (2 + fst mc) < Bytes).

Lemma EPSizeMask_spec (fuel : nat) (Bytes : Z) (s : st G) :
  0 <= Bytes <= 32768 -> (13 < fuel)%nat ->
  wp_ False (Endpoint_BytesToEPSizeMask fuel Bytes) (fun r s' =>
    s' = s /\
    exists code, 0 <= code <= 12 /\ r = u8 (Z.shiftl code EPSIZE0)
      /\ Bytes <= 8 * 2 ^ code
      /\ (forall code', 0 <= code' < code -> 8 * 2 ^ code' < Bytes)) s.
Proof.
  intros HB Hf. unfold Endpoint_BytesToEPSizeMask.
  apply (wp_loop_total _ (fun mc s' => mask_inv Bytes mc s' /\ s' = s)
           (fun mc _ => Z.to_nat (12 - fst mc))).
  - split; [|done]. unfold mask_inv. cbn. lia.
  - cbn. lia.
  - intros [m c] s' [(Hm & Hc & Hlo) ->]. cbn [fst snd] in *. subst c.
    destruct (Z.ltb_spec (2 ^ (3 + m)) Bytes) as [Hlt|Hge]; apply wp_ret.
    + assert (m < 12).
      { apply Z.lt_nge. intros Hge.
        pose proof (Z.pow_le_mono_r 2 15 (3 + m) ltac:(lia) ltac:(lia)). change (2 ^ 15) with 32768 in *. lia. }
      pose proof (Z.pow_le_mono_r 2 (3 + (m + 1)) 15 ltac:(lia) ltac:(lia)) as Hp.
      change (2 ^ 15) with 32768 in Hp.
      rewrite (u8_id (m+1)) by (unfold is_u8; lia). unfold mask_inv. cbn [fst snd].
      rewrite Z.shiftl_mul_pow2, <- Z.pow_add_r by lia.
      replace (3 + m + 1) with (3 + (m + 1)) by lia.
      pose proof (Z.pow_pos_nonneg 2 (3 + (m + 1)) ltac:(lia) ltac:(lia)).
      rewrite u16_id by (unfold is_u16; lia).
      replace (2 + (m + 1)) with (3 + m) by lia.
      split; [split; [split_and!; [lia|lia|done|by right]|done]|lia].
    + split; [done|]. exists m. change 8 with (2 ^ 3).
      rewrite <- Z.pow_add_r by lia. split_and!; try done; try lia.
      intros c' Hc'. rewrite <- Z.pow_add_r by lia. destruct Hlo as [|Hlo]; [lia|].
      pose proof (Z.pow_le_mono_r 2 (3 + c') (2 + m) ltac:(lia) ltac:(lia)). lia.
Qed.

(** The loop that turns an endpoint's bank size into the EPSIZE field
    terminates for every size up to 32768 within 14 iterations, with the
    least code whose bank of [8 * 2^code] bytes holds the size. *)
Theorem EPSizeMask_least (fuel : nat) (Bytes : Z) (s : st G) :
  0 <= Bytes <= 32768 -> (13 < fuel)%nat ->
  wp_ False (Endpoint_BytesToEPSizeMask fuel Bytes) (fun r s' =>
    s' = s /\
    exists code, 0 <= code <= 12 /\ r = u8 (Z.shiftl code EPSIZE0)
      /\ Bytes <= 8 * 2 ^ code
      /\ (forall code', 0 <= code' < code -> 8 * 2 ^ code' < Bytes)) s.
Proof. exact (EPSizeMask_spec fuel Bytes s). Qed.
End sizemask.

Lemma EPSizeMask_least_witness :
  wp_ False (@Endpoint_BytesToEPSizeMask unit 20 16) (fun r _ => r = 16) (St [] tt).
Proof.
  eapply wp_conseq; [apply (EPSizeMask_least 20 16 (St [] tt)); lia|done|].
  intros r s' (_ & code & Hc & -> & Hge & Hmin).
  assert (code = 1) as ->; [|reflexivity].
  destruct (decide (code = 1)) as [|Hne]; [done|exfalso].
  destruct (decide (code = 0)) as [->|]; [cbn in Hge; lia|].
  specialize (Hmin 1). cbn in Hmin. lia.
Defined.

Local Ltac unfold_codes :=
  unfold ENDPOINT_READYWAIT_NoError, ENDPOINT_READYWAIT_EndpointStalled,
    ENDPOINT_READYWAIT_DeviceDisconnected, ENDPOINT_READYWAIT_BusSuspended,
    ENDPOINT_READYWAIT_Timeout in *.

Section wait_ready.
Context {G : Type} `{Hardware}.

(** How many of the most recent values equal [v]. *)
Fixpoint run_len (v : Z) (l : list Z) : nat :=
  match l with
  | x :: l' => if decide (x = v) then S (run_len v l') else O
  | [] => O
  end.

(** How often consecutive values differ. *)
Fixpoint changes (l : list Z) : Z :=
  match l with
  | x :: ((y :: _) as l') => (if x =? y then 0 else 1) + changes l'
  | _ => 0
  end.

(** The frame counter advances: at most [k] consecutive reads of it return
    the same value (the bus starts a frame every millisecond). *)
Definition frame_progress (k : nat) : Prop :=
  forall h v, reg_trunc UDFNUM (hw_value h UDFNUM) = v ->
    (run_len v (reads UDFNUM h) < k)%nat.

Definition wait_inv (k : nat) (h0 : history) (tp : Z * Z) (s : st G) : Prop :=
  exists tr l, hist s = tr ++ h0 /\ reads UDFNUM tr = snd tp :: l
    /\ 0 <= fst tp <= 100
    /\ fst tp + changes (snd tp :: l) = 100
    /\ (run_len (snd tp) (reads UDFNUM (hist s)) <= k)%nat.

Definition wait_mu (k : nat) (tp : Z * Z) (s : st G) : nat :=
  (Z.to_nat (fst tp) * S k + (k - run_len (snd tp) (reads UDFNUM (hist s))))%nat.

Definition wait_post (h0 : history) (r : Z) (s : st G) : Prop :=
  exists tr, hist s = tr ++ h0 /\ 0 <= r <= 4
    /\ (r = ENDPOINT_READYWAIT_Timeout -> changes (reads UDFNUM tr) = 101).


(** The three ways an iteration that has read the frame number ends: [mid]
    is what it read before, of other registers. *)
Lemma wait_same k h0 T P s mid (g : G) :
  wait_inv k h0 (T, P) s -> reads UDFNUM mid = [] ->
  (run_len P (reads UDFNUM (hist s)) < k)%nat ->
  let s' := St (Rd UDFNUM P :: mid ++ hist s) g in
  wait_inv k h0 (T, P) s' /\ (wait_mu k (T, P) s' < wait_mu k (T, P) s)%nat.
Proof.
  intros (tr & l & Hh & Hl & Ht & Hch & Hrun) Hmid Hlt. cbn [fst snd] in *.
  assert (Hr : reads UDFNUM (Rd UDFNUM P :: mid ++ hist s) = P :: reads UDFNUM (hist s)).
  { cbn. by rewrite reads_app, Hmid. }
  split.
  - exists (Rd UDFNUM P :: mid ++ tr), (P :: l). cbn [hist fst snd].
    rewrite Hr. cbn [run_len]. rewrite decide_True by done.
    split_and!; try lia.
    + by rewrite Hh, app_comm_cons, app_assoc.
    + cbn. by rewrite reads_app, Hmid, Hl.
    + cbn [changes] in *. rewrite Z.eqb_refl. lia.
  - unfold wait_mu. cbn [hist fst snd]. rewrite Hr. cbn [run_len].
    rewrite decide_True by done. lia.
Qed.

Lemma wait_next k h0 T P s mid v (g : G) :
  wait_inv k h0 (T, P) s -> reads UDFNUM mid = [] ->
  (run_len v (reads UDFNUM (hist s)) < k)%nat -> v <> P -> T <> 0 ->
  let s' := St (Rd UDFNUM v :: mid ++ hist s) g in
  wait_inv k h0 (u8 (T - 1), v) s'
  /\ (wait_mu k (u8 (T - 1), v) s' < wait_mu k (T, P) s)%nat.
Proof.
  intros (tr & l & Hh & Hl & Ht & Hch & Hrun) Hmid Hlt Hv HT. cbn [fst snd] in *.
  assert (Hr : reads UDFNUM (Rd UDFNUM v :: mid ++ hist s) = v :: reads UDFNUM (hist s)).
  { cbn. by rewrite reads_app, Hmid. }
  rewrite u8_id by (unfold is_u8; lia). split.
  - exists (Rd UDFNUM v :: mid ++ tr), (P :: l). cbn [hist fst snd].
    rewrite Hr. cbn [run_len]. rewrite decide_True by done.
    split_and!; try lia.
    + by rewrite Hh, app_comm_cons, app_assoc.
    + cbn. by rewrite reads_app, Hmid, Hl.
    + cbn [changes] in *. rewrite (proj2 (Z.eqb_neq v P)) by done. lia.
  - unfold wait_mu. cbn [hist fst snd]. rewrite Hr. cbn [run_len].
    rewrite decide_True by done.
    replace (Z.to_nat T) with (S (Z.to_nat (T - 1))) by lia. lia.
Qed.

Lemma wait_timeout k h0 T P s mid v (g : G) :
  wait_inv k h0 (T, P) s -> reads UDFNUM mid = [] -> v <> P -> T = 0 ->
  wait_post h0 ENDPOINT_READYWAIT_Timeout (St (Rd UDFNUM v :: mid ++ hist s) g).
Proof.
  intros (tr & l & Hh & Hl & Ht & Hch & Hrun) Hmid Hv HT. cbn [fst snd] in *.
  exists (Rd UDFNUM v :: mid ++ tr). cbn [hist]. split_and!.
  - by rewrite Hh, app_comm_cons, app_assoc.
  - done.
  - done.
  - intros _. assert (reads UDFNUM (Rd UDFNUM v :: mid ++ tr) = v :: P :: l) as ->.
    { cbn. by rewrite reads_app, Hmid, Hl. }
    cbn [changes] in *.
    rewrite (proj2 (Z.eqb_neq v P)) by done. lia.
Qed.

Lemma wait_step_total k h0 tp s :
  frame_progress k -> wait_inv k h0 tp s ->
  wp_ False (wait_ready_step tp) (fun r s' =>
    match r with
    | inl tp' => wait_inv k h0 tp' s' /\ (wait_mu k tp' s' < wait_mu k tp s)%nat
    | inr b => wait_post h0 b s'
    end) s.
Proof.
  intros Hfp HI. pose proof HI as (tr & _ & Hh & _). destruct tp as [T P].
  unfold wait_ready_step, Endpoint_GetEndpointDirection, Endpoint_IsINReady,
    Endpoint_IsOUTReceived, get_DeviceState, Endpoint_IsStalled, USB_Device_GetFrameNumber.
  wp_run.
  all: try (rewrite Hh, !app_comm_cons; eexists; split; [reflexivity|]; split;
            [unfold_codes; lia|intros; discriminate]).
  all: match goal with |- context [Rd UDFNUM (reg_trunc UDFNUM (hw_value ?h UDFNUM)) :: _] =>
         pose proof (Hfp h _ eq_refl) as Hrl;
         set (v := reg_trunc UDFNUM (hw_value h UDFNUM)) in *; clearbody v end.
  all: match goal with |- context [Rd UDFNUM _ :: ?a :: ?b :: ?c :: ?d :: hist ?z] =>
         change (a :: b :: c :: d :: hist z) with ([a; b; c; d] ++ hist z) in * end.
  all: rewrite reads_app in Hrl; cbn [reads app] in Hrl;
       rewrite ?decide_False in Hrl by discriminate; cbn [app] in Hrl.
  all: repeat match goal with
       | Hb : (_ =? _) = _ |- _ => apply Z.eqb_eq in Hb || apply Z.eqb_neq in Hb
       end.
  all: first [ by subst; apply wait_same | by apply wait_next | by eapply wait_timeout ].
Qed.

(** C14. Waiting for an endpoint bank never hangs: on any hardware whose frame
    counter keeps moving, [Endpoint_WaitUntilReady] returns one of its five
    codes, whatever the endpoint, the bus and the device state do, and the
    time-out code only after exactly 101 changes of the frame number. *)
Theorem WaitUntilReady_returns (k fuel : nat) (s : st G) :
  frame_progress k -> (101 * S k < fuel)%nat ->
  wp_ False (Endpoint_WaitUntilReady fuel) (fun r s' =>
    exists tr, hist s' = tr ++ hist s /\ 0 <= r <= 4
      /\ (r = ENDPOINT_READYWAIT_Timeout -> changes (reads UDFNUM tr) = 101)) s.
Proof.
  intros Hfp Hf. unfold Endpoint_WaitUntilReady, USB_Device_GetFrameNumber. wp_step. wp_step.
  pose proof (Hfp (hist s) _ eq_refl) as Hrl.
  set (v := reg_trunc UDFNUM (hw_value (hist s) UDFNUM)) in *. clearbody v.
  eapply wp_conseq;
    [apply (wp_loop_total _ (wait_inv k (hist s)) (wait_mu k) (wait_post (hist s)))|done|].
  - exists [Rd UDFNUM v], []. cbn. rewrite !decide_True by done. cbn. rewrite ?decide_True by done.
    unfold USB_STREAM_TIMEOUT_MS. split_and!; try done; lia.
  - unfold wait_mu. cbn [fst]. change (Z.to_nat USB_STREAM_TIMEOUT_MS) with 100%nat. lia.
  - intros tp s' HI. by apply wait_step_total.
  - done.
Qed.
End wait_ready.

(** A bus on which nothing happens but frames: each read of the frame number
    is one more than the last; the endpoint is never ready. *)
Definition idle_bus : Hardware := fun h r =>
  match r with
  | UDFNUM => match reads UDFNUM h with [] => 0 | x :: _ => (x + 1) mod 2048 end
  | GPIOR0 => DEVICE_STATE_Configured
  | _ => 0
  end.

Lemma idle_bus_progress : @frame_progress idle_bus 1.
Proof.
  intros h v Hv. assert (run_len v (reads UDFNUM h) = 0%nat) as ->; [|lia].
  revert Hv. unfold hw_value, idle_bus.
  destruct (reads UDFNUM h) as [|x l]; cbn [run_len]; [done|].
  intros <-. rewrite decide_False; [done|].
  unfold reg_trunc. cbn [reg_width]. intros Hx.
  pose proof (Z.mod_pos_bound (x + 1) 2048 ltac:(lia)).
  rewrite Z.mod_small in Hx by lia.
  pose proof (Z.div_mod (x + 1) 2048 ltac:(lia)). lia.
Qed.

Lemma WaitUntilReady_returns_witness :
  wp_ False (@Endpoint_WaitUntilReady unit idle_bus 300)
    (fun r s' => r = 4 /\ exists tr, hist s' = tr ++ [] /\ 0 <= r <= 4
       /\ (r = 4 -> changes (reads UDFNUM tr) = 101)) (St [] tt).
Proof.
  refine (wp_result _ _ _ 4 (@WaitUntilReady_returns unit idle_bus 1 300 (St [] tt)
    idle_bus_progress _) _).
  - lia.
  - vm_compute. reflexivity.
Defined.

(** Waiting writes no register. *)
#[export] Instance WaitUntilReady_runs {G} `{Hardware} K (S : relation G) `{!PreOrder S} fuel :
  Runs (frame K S) (Endpoint_WaitUntilReady fuel).
Proof.
  unfold Endpoint_WaitUntilReady, wait_ready_step, Endpoint_GetEndpointDirection,
    Endpoint_IsINReady, Endpoint_IsOUTReceived, get_DeviceState, Endpoint_IsStalled,
    USB_Device_GetFrameNumber. runs_go.
Qed.

(** ** Configuring endpoints

    It returns on every hardware and touches the endpoint registers only. *)
Definition not_endpoint_config (r : reg) : bool :=
  match r with UENUM | UECONX | UECFG0X | UECFG1X | UEIENX => false | _ => true end.

#[export] Instance reconfigure_total {G} `{Hardware} n c0 c1 l :
  Total (G:=G) (reconfigure n c0 c1 l).
Proof.
  induction l as [|e l IH]; cbn [reconfigure];
    unfold Endpoint_SelectEndpoint, Endpoint_DisableEndpoint, Endpoint_EnableEndpoint,
      Endpoint_IsConfigured; total_go.
Qed.

#[export] Instance reconfigure_runs {G} `{Hardware} (S : relation G) `{!PreOrder S} n c0 c1 l :
  Runs (frame not_endpoint_config S) (reconfigure n c0 c1 l).
Proof.
  induction l as [|e l IH]; cbn [reconfigure];
    unfold Endpoint_SelectEndpoint, Endpoint_DisableEndpoint, Endpoint_EnableEndpoint,
      Endpoint_IsConfigured; runs_go.
Qed.

#[export] Instance ConfigureEndpoint_runs {G} `{Hardware} (S : relation G) `{!PreOrder S}
    fuel a t z b :
  Runs (frame not_endpoint_config S) (Endpoint_ConfigureEndpoint fuel a t z b).
Proof.
  unfold Endpoint_ConfigureEndpoint, Endpoint_ConfigureEndpoint_Prv, Endpoint_BytesToEPSizeMask.
  runs_go.
Qed.

Lemma EPSizeMask_total {G} fuel Bytes (s : st G) :
  0 <= Bytes <= 32768 -> (13 < fuel)%nat ->
  exists r, Endpoint_BytesToEPSizeMask fuel Bytes s = Some (r, s).
Proof.
  intros HB Hf. pose proof (EPSizeMask_spec fuel Bytes s HB Hf) as H. unfold wp_ in H.
  destruct (Endpoint_BytesToEPSizeMask fuel Bytes s) as [[r s']|]; [|done].
  destruct H as [-> _]. by exists r.
Qed.

Lemma ConfigureEndpoint_total {G} `{Hardware} (S : relation G) `{!PreOrder S} fuel a t z b (s : st G) :
  0 <= z <= 32768 -> (13 < fuel)%nat ->
  wp_ False (Endpoint_ConfigureEndpoint fuel a t z b)
    (fun _ s' => frame not_endpoint_config S s s') s.
Proof.
  intros Hz Hf. refine (wp_some_runs _ _ _ _). unfold Endpoint_ConfigureEndpoint.
  destruct (ENDPOINT_TOTAL_ENDPOINTS <=? _); [apply (total_ret false)|]. unfold mbind, M_bind.
  destruct (EPSizeMask_total fuel z s Hz Hf) as [r ->]. unfold Endpoint_ConfigureEndpoint_Prv. apply total.
Qed.
