(* ===== verification/EndpointStream.v ===== *)
(** * LUFA/Drivers/USB/Core/AVR8/EndpointStream_AVR8.c and Template/*.c

    The stream functions: one loop each for the data endpoints, for control
    writes and for control reads, instantiated by the source's templates with
    the byte order and the address space of the buffer.  A buffer is the list
    of its bytes, in whichever address space; the stream pointer is the offset
    from the buffer's start.  A function that stores into its buffer returns
    the new contents. *)

From S2P Require Import Prelude Machine Endpoint.

Definition ENDPOINT_RWSTREAM_NoError : Z := 0.
Definition ENDPOINT_RWSTREAM_EndpointStalled : Z := 1.
Definition ENDPOINT_RWSTREAM_DeviceDisconnected : Z := 2.
Definition ENDPOINT_RWSTREAM_BusSuspended : Z := 3.
Definition ENDPOINT_RWSTREAM_Timeout : Z := 4.
Definition ENDPOINT_RWSTREAM_IncompleteTransfer : Z := 5.

Definition ENDPOINT_RWCSTREAM_NoError : Z := 0.
Definition ENDPOINT_RWCSTREAM_HostAborted : Z := 1.
Definition ENDPOINT_RWCSTREAM_DeviceDisconnected : Z := 2.
Definition ENDPOINT_RWCSTREAM_BusSuspended : Z := 3.

(** [TEMPLATE_BUFFER_OFFSET] and [TEMPLATE_BUFFER_MOVE] of the LE and BE variants. *)
Inductive order := LE | BE.
Definition buffer_offset (o : order) (Length : Z) : Z :=
  match o with LE => 0 | BE => Length - 1 end.
Definition buffer_move (o : order) (p Amount : Z) : Z :=
  match o with LE => p + Amount | BE => p - Amount end.

Definition byte_at (Buffer : list Z) (p : Z) : Z := default 0 (Buffer !! Z.to_nat p).

Section stream.
Context {G : Type} `{Hardware}.

(** [TEMPLATE_TRANSFER_BYTE] of the writers and of the readers. *)
Definition transfer_out (Buffer : list Z) (p : Z) (_ : unit) : M G unit :=
  Endpoint_Write_8 (byte_at Buffer p).
Definition transfer_in (p : Z) (Buffer : list Z) : M G (list Z) :=
  b ← Endpoint_Read_8; mret (<[Z.to_nat p := b]> Buffer).

(** Template_Endpoint_RW.c.  [BytesProcessed] is [None] for a NULL pointer;
    the result is the error code, what [*BytesProcessed] becomes and the
    buffer. *)
Definition rw_step {A} (o : order) (clear : M G unit) (transfer : Z -> A -> M G A)
    (fuel : nat) (BytesProcessed : option Z) (x : Z * Z * Z * A)
    : M G ((Z * Z * Z * A) + (Z * option Z * A)) :=
  let '(Length, DataStream, BytesInTransfer, a) := x in
  if Length =? 0 then mret (inr (ENDPOINT_RWSTREAM_NoError, BytesProcessed, a)) else
  ok ← Endpoint_IsReadWriteAllowed;
  if negb (ok : bool) then
    clear ;;
    match BytesProcessed with
    | Some n =>
        mret (inr (ENDPOINT_RWSTREAM_IncompleteTransfer, Some (u16 (n + BytesInTransfer)), a))
    | None =>
        ErrorCode ← Endpoint_WaitUntilReady fuel;
        mret (if negb (ErrorCode =? 0) then inr (ErrorCode, None, a) else inl x)
    end
  else
    a' ← transfer DataStream a;
    mret (inl (u16 (Length - 1), buffer_move o DataStream 1, u16 (BytesInTransfer + 1), a')).

Definition Template_Endpoint_RW {A} (o : order) (clear : M G unit)
    (transfer : Z -> A -> M G A) (fuel : nat) (a : A) (Length : Z) (BytesProcessed : option Z)
    : M G (Z * option Z * A) :=
  let DataStream := buffer_offset o Length in
  ErrorCode ← Endpoint_WaitUntilReady fuel;
  if negb (ErrorCode =? 0) then mret (ErrorCode, BytesProcessed, a) else
  let '(Length, DataStream) :=
    match BytesProcessed with
    | Some n => (u16 (Length - n), buffer_move o DataStream n)
    | None => (Length, DataStream)
    end in
  loop fuel (rw_step o clear transfer fuel BytesProcessed) (Length, DataStream, 0, a).

(** The two functions written out in EndpointStream_AVR8.c have the
    template's loop, with no buffer. *)
Definition Endpoint_Discard_Stream (fuel : nat) (Length : Z) (BytesProcessed : option Z) :=
  Template_Endpoint_RW LE Endpoint_ClearOUT (fun _ (_ : unit) => Endpoint_Discard_8)
    fuel tt Length BytesProcessed.
Definition Endpoint_Null_Stream (fuel : nat) (Length : Z) (BytesProcessed : option Z) :=
  Template_Endpoint_RW LE Endpoint_ClearIN (fun _ (_ : unit) => Endpoint_Write_8 0)
    fuel tt Length BytesProcessed.

Definition write_stream (o : order) (fuel : nat) (Buffer : list Z) (Length : Z)
    (BytesProcessed : option Z) : M G (Z * option Z * unit) :=
  Template_Endpoint_RW o Endpoint_ClearIN (transfer_out Buffer) fuel tt Length BytesProcessed.
Definition read_stream (o : order) (fuel : nat) (Buffer : list Z) (Length : Z)
    (BytesProcessed : option Z) : M G (Z * option Z * list Z) :=
  Template_Endpoint_RW o Endpoint_ClearOUT transfer_in fuel Buffer Length BytesProcessed.

Definition Endpoint_Write_Stream_LE := write_stream LE.
Definition Endpoint_Write_Stream_BE := write_stream BE.
Definition Endpoint_Read_Stream_LE := read_stream LE.
Definition Endpoint_Read_Stream_BE := read_stream BE.
Definition Endpoint_Write_PStream_LE := write_stream LE.
Definition Endpoint_Write_PStream_BE := write_stream BE.
Definition Endpoint_Write_EStream_LE := write_stream LE.
Definition Endpoint_Write_EStream_BE := write_stream BE.
Definition Endpoint_Read_EStream_LE := read_stream LE.
Definition Endpoint_Read_EStream_BE := read_stream BE.

(** [while (!ready) { if (Unattached) ... else if (Suspended) ... }], the
    status stage of both control templates. *)
Definition control_status_wait (fuel : nat) (ready : M G bool) : M G Z :=
  loop fuel (fun _ : unit =>
    r ← ready;
    if (r : bool) then mret (inr ENDPOINT_RWCSTREAM_NoError) else
    USB_DeviceState_LCL ← get_DeviceState;
    mret (if USB_DeviceState_LCL =? DEVICE_STATE_Unattached
          then inr ENDPOINT_RWCSTREAM_DeviceDisconnected
          else if USB_DeviceState_LCL =? DEVICE_STATE_Suspended
          then inr ENDPOINT_RWCSTREAM_BusSuspended
          else inl tt)) tt.

(** The inner loop of Template_Endpoint_Control_W.c: [while (Length &&
    BytesInEndpoint < USB_Device_ControlEndpointSize)].  It runs at most
    [USB_Device_ControlEndpointSize] times, which is the fuel it is given. *)
Fixpoint control_fill (n : nat) (o : order) (Buffer : list Z)
    (Length DataStream BytesInEndpoint : Z) : M G (Z * Z * Z) :=
  match n with
  | O => mret (Length, DataStream, BytesInEndpoint)
  | S n' =>
      if negb (Length =? 0) && (BytesInEndpoint <? USB_Device_ControlEndpointSize) then
        Endpoint_Write_8 (byte_at Buffer DataStream) ;;
        control_fill n' o Buffer (u16 (Length - 1)) (buffer_move o DataStream 1)
          (u16 (BytesInEndpoint + 1))
      else mret (Length, DataStream, BytesInEndpoint)
  end.

(** One iteration of the data stage: [inr None] is its end. *)
Definition control_w_step (o : order) (Buffer : list Z) (x : Z * Z * bool)
    : M G ((Z * Z * bool) + option Z) :=
  let '(Length, DataStream, LastPacketFull) := x in
  if (Length =? 0) && negb LastPacketFull then mret (inr None) else
  USB_DeviceState_LCL ← get_DeviceState;
  if USB_DeviceState_LCL =? DEVICE_STATE_Unattached
  then mret (inr (Some ENDPOINT_RWCSTREAM_DeviceDisconnected))
  else if USB_DeviceState_LCL =? DEVICE_STATE_Suspended
  then mret (inr (Some ENDPOINT_RWCSTREAM_BusSuspended))
  else
  setup ← Endpoint_IsSETUPReceived;
  if (setup : bool) then mret (inr (Some ENDPOINT_RWCSTREAM_HostAborted)) else
  out ← Endpoint_IsOUTReceived;
  if (out : bool) then mret (inr None) else
  ready ← Endpoint_IsINReady;
  if (ready : bool) then
    BytesInEndpoint ← Endpoint_BytesInEndpoint;
    r ← control_fill (Z.to_nat USB_Device_ControlEndpointSize) o Buffer
          Length DataStream BytesInEndpoint;
    let '(Length, DataStream, BytesInEndpoint) := r : Z * Z * Z in
    Endpoint_ClearIN ;;
    mret (inl (Length, DataStream, BytesInEndpoint =? USB_Device_ControlEndpointSize))
  else mret (inl x).

Definition write_control_stream `{Has UsbState G} (o : order) (fuel : nat)
    (Buffer : list Z) (Length : Z) : M G Z :=
  let DataStream := buffer_offset o Length in
  wLen ← getc (fun u => wLength (USB_ControlRequest u));
  (if wLen <? Length then mret tt else when (Length =? 0) Endpoint_ClearIN) ;;
  let Length := if wLen <? Length then wLen else Length in
  r ← loop fuel (control_w_step o Buffer) (Length, DataStream, false);
  match r with
  | Some e => mret e
  | None => control_status_wait fuel Endpoint_IsOUTReceived
  end.

(** Template_Endpoint_Control_R.c *)
Definition control_drain (fuel : nat) (o : order) (x : Z * Z * list Z) : M G (Z * Z * list Z) :=
  loop fuel (fun x : Z * Z * list Z =>
    let '(Length, DataStream, Buffer) := x in
    if Length =? 0 then mret (inr x) else
    n ← Endpoint_BytesInEndpoint;
    if n =? 0 then mret (inr x) else
    Buffer' ← transfer_in DataStream Buffer;
    mret (inl (u16 (Length - 1), buffer_move o DataStream 1, Buffer'))) x.

Definition control_r_step (fuel : nat) (o : order) (x : Z * Z * list Z)
    : M G ((Z * Z * list Z) + (option Z * list Z)) :=
  let '(Length, DataStream, Buffer) := x in
  if Length =? 0 then mret (inr (None, Buffer)) else
  USB_DeviceState_LCL ← get_DeviceState;
  if USB_DeviceState_LCL =? DEVICE_STATE_Unattached
  then mret (inr (Some ENDPOINT_RWCSTREAM_DeviceDisconnected, Buffer))
  else if USB_DeviceState_LCL =? DEVICE_STATE_Suspended
  then mret (inr (Some ENDPOINT_RWCSTREAM_BusSuspended, Buffer))
  else
  setup ← Endpoint_IsSETUPReceived;
  if (setup : bool) then mret (inr (Some ENDPOINT_RWCSTREAM_HostAborted, Buffer)) else
  out ← Endpoint_IsOUTReceived;
  if (out : bool) then
    x' ← control_drain fuel o x;
    Endpoint_ClearOUT ;;
    mret (inl x')
  else mret (inl x).

Definition read_control_stream (o : order) (fuel : nat) (Buffer : list Z) (Length : Z)
    : M G (Z * list Z) :=
  let DataStream := buffer_offset o Length in
  when (Length =? 0) Endpoint_ClearOUT ;;
  r ← loop fuel (control_r_step fuel o) (Length, DataStream, Buffer);
  match r : option Z * list Z with
  | (Some e, Buffer') => mret (e, Buffer')
  | (None, Buffer') => e ← control_status_wait fuel Endpoint_IsINReady; mret (e, Buffer')
  end.

Definition Endpoint_Write_Control_Stream_LE `{Has UsbState G} := write_control_stream LE.
Definition Endpoint_Write_Control_Stream_BE `{Has UsbState G} := write_control_stream BE.
Definition Endpoint_Read_Control_Stream_LE := read_control_stream LE.
Definition Endpoint_Read_Control_Stream_BE := read_control_stream BE.
Definition Endpoint_Write_Control_PStream_LE `{Has UsbState G} := write_control_stream LE.
Definition Endpoint_Write_Control_PStream_BE `{Has UsbState G} := write_control_stream BE.
Definition Endpoint_Write_Control_EStream_LE `{Has UsbState G} := write_control_stream LE.
Definition Endpoint_Write_Control_EStream_BE `{Has UsbState G} := write_control_stream BE.
Definition Endpoint_Read_Control_EStream_LE := read_control_stream LE.
Definition Endpoint_Read_Control_EStream_BE := read_control_stream BE.
End stream.

(** ** Control writes *)

(** The bytes in the control endpoint's IN bank and the packets handed to the
    host (a write of UEINTX with TXINI clear releases the bank), and how often
    UEINTX was polled since it was last written. *)
Fixpoint bank (tr : history) : list Z :=
  match tr with
  | [] => []
  | Wr UEDATX v :: tr' => bank tr' ++ [v]
  | Wr UEINTX v :: tr' => if anybit v (BV TXINI) then bank tr' else []
  | _ :: tr' => bank tr'
  end.

Fixpoint sent (tr : history) : list (list Z) :=
  match tr with
  | [] => []
  | Wr UEINTX v :: tr' => if anybit v (BV TXINI) then sent tr' else sent tr' ++ [bank tr']
  | _ :: tr' => sent tr'
  end.

Fixpoint polls (tr : history) : nat :=
  match tr with
  | [] => O
  | Rd UEINTX _ :: tr' => S (polls tr')
  | Wr UEINTX _ :: _ => O
  | _ :: tr' => polls tr'
  end.

Definition full (p : list Z) : Prop := zlen p = USB_Device_ControlEndpointSize.

(** What a host takes for the end of the data stage of a read of [N] bytes:
    [N] bytes, or a short packet. *)
Definition data_done (N : Z) (tr : history) : Prop :=
  N <= zlen (concat (sent tr))
  \/ exists p, list.last (sent tr) = Some p /\ zlen p < USB_Device_ControlEndpointSize.

(** A host that reads [N] bytes from the control endpoint, from history [h0]
    on: it stays attached, starts no other transfer, takes every packet within
    [k] polls until the data stage is over and then, only then, and within [k]
    polls, sends the status packet.  UEBCLX counts the bytes of the bank. *)
Record control_reader `{Hardware} (k : nat) (N : Z) (h0 : history) : Prop := {
  cr_attached : forall tr, let d := reg_trunc GPIOR0 (hw_value (tr ++ h0) GPIOR0) in
    d <> DEVICE_STATE_Unattached /\ d <> DEVICE_STATE_Suspended;
  cr_no_setup : forall tr,
    anybit (reg_trunc UEINTX (hw_value (tr ++ h0) UEINTX)) (BV RXSTPI) = false;
  cr_count : forall tr, reg_trunc UEBCLX (hw_value (tr ++ h0) UEBCLX) = u8 (zlen (bank tr));
  cr_takes : forall tr, (k <= polls tr)%nat -> ~ data_done N tr ->
    anybit (reg_trunc UEINTX (hw_value (tr ++ h0) UEINTX)) (BV TXINI) = true;
  cr_status_only : forall tr,
    anybit (reg_trunc UEINTX (hw_value (tr ++ h0) UEINTX)) (BV RXOUTI) = true -> data_done N tr;
  cr_status : forall tr, (k <= polls tr)%nat -> data_done N tr ->
    anybit (reg_trunc UEINTX (hw_value (tr ++ h0) UEINTX)) (BV RXOUTI) = true;
}.

Definition wr_bytes (l : list Z) : history := map (Wr UEDATX) (rev l).

Lemma bank_wr_bytes l tr : bank (wr_bytes l ++ tr) = bank tr ++ l.
Proof.
  unfold wr_bytes. induction l as [|x l IH] using rev_ind; [by rewrite app_nil_r|].
  rewrite rev_app_distr. cbn. by rewrite IH, app_assoc.
Qed.
Lemma sent_wr_bytes l tr : sent (wr_bytes l ++ tr) = sent tr.
Proof.
  unfold wr_bytes. induction l as [|x l IH] using rev_ind; [done|].
  rewrite rev_app_distr. cbn. by rewrite IH.
Qed.
Lemma writes_wr_bytes l : writes UEDATX (wr_bytes l) = rev l.
Proof. unfold wr_bytes. induction (rev l) as [|x k IH]; cbn; [done|]. by rewrite IH. Qed.

Lemma take_drop_step (l : list Z) (p m : nat) x :
  l !! p = Some x -> take (S m) (drop p l) = x :: take m (drop (S p) l).
Proof. intros Hx. by rewrite (drop_S l x p) by done. Qed.

Lemma release_clears v m :
  is_u8 v -> anybit (reg_trunc UEINTX (clrbits v (Z.lor (BV TXINI) m))) (BV TXINI) = false.
Proof.
  intros Hv. rewrite reg_trunc_u8 by auto with width.
  rewrite anybit_BV, clrbits_testbit, Z.lor_spec, BV_testbit by done.
  by rewrite andb_false_r.
Qed.

Section control_write.
Context {G : Type} `{Hardware} `{Has UsbState G}.

Lemma control_fill_spec n Buffer Length p B m (s : st G) :
  Forall is_u8 Buffer -> 0 <= p -> 0 <= Length < 2 ^ 16 -> p + Length <= zlen Buffer ->
  0 <= B -> USB_Device_ControlEndpointSize - B <= Z.of_nat n ->
  m = Z.min Length (Z.max 0 (USB_Device_ControlEndpointSize - B)) ->
  control_fill n LE Buffer Length p B s =
  Some ((Length - m, p + m, B + m),
        St (wr_bytes (take (Z.to_nat m) (drop (Z.to_nat p) Buffer)) ++ hist s) (glob s)).
Proof.
  intros HB. unfold USB_Device_ControlEndpointSize.
  revert Length p B m s. induction n as [|n IH]; intros Length p B m s Hp HL HpL HB0 Hn Hm.
  - assert (m = 0) as -> by lia. rewrite Z.sub_0_r, !Z.add_0_r. by destruct s.
  - cbn [control_fill]. unfold USB_Device_ControlEndpointSize.
    destruct (Z.eqb_spec Length 0) as [->|HL0]; cbn [negb andb].
    { assert (m = 0) as -> by lia. rewrite Z.sub_0_r, !Z.add_0_r. by destruct s. }
    destruct (Z.ltb_spec B 8) as [HB8|HB8]; cbn [andb].
    2:{ assert (m = 0) as -> by lia. rewrite Z.sub_0_r, !Z.add_0_r. by destruct s. }
    destruct (lookup_lt_is_Some_2 Buffer (Z.to_nat p)) as [x Hx]; [unfold zlen in *; lia|].
    unfold mbind, M_bind, Endpoint_Write_8, wr. unfold byte_at. rewrite Hx. cbn [default].
    rewrite (reg_trunc_u8 UEDATX) by (reflexivity || exact (Forall_lookup_1 _ _ _ _ HB Hx)).
    rewrite !u16_id by (unfold is_u16; lia). unfold buffer_move.
    rewrite (IH _ _ _ (m - 1)) by lia. cbn [hist glob].
    remember (m - 1) as m' eqn:Hm'. assert (m = m' + 1) as -> by lia.
    replace (Z.to_nat (m' + 1)) with (S (Z.to_nat m')) by lia.
    rewrite (take_drop_step _ _ _ x Hx).
    replace (Z.to_nat (p + 1)) with (S (Z.to_nat p)) by lia.
    f_equal. f_equal; [f_equal; [f_equal; lia|lia]|].
    f_equal. unfold wr_bytes. cbn [rev]. by rewrite map_app, <- app_assoc.
Qed.

(** From here on: a host that reads [N] bytes, and a buffer of at least [L]. *)
Context (k : nat) (N L : Z) (h0 : history) (Buffer : list Z).
Context (Hhost : control_reader k N h0).
Context (HB : Forall is_u8 Buffer) (HL : 0 <= L < 2 ^ 16) (HLB : L <= zlen Buffer)
  (HLN : L <= N).

(** What has been accessed since [h0]. *)
Definition since (s : st G) : history := take (length (hist s) - length h0) (hist s).

Lemma since_app tr g : since (St (tr ++ h0) g) = tr.
Proof. unfold since. cbn. by rewrite length_app, Nat.add_sub, take_app_length. Qed.

Record cw_data (tr : history) (p : Z) : Prop := {
  cwd_bank : bank tr = [];
  cwd_bytes : concat (sent tr) = take (Z.to_nat p) Buffer;
  cwd_full : Forall full (removelast (sent tr));
}.

Definition cw_inv (x : Z * Z * bool) (s : st G) : Prop :=
  let '(Length, p, LastPacketFull) := x in
  exists tr, hist s = tr ++ h0 /\ cw_data tr p
    /\ 0 <= p /\ 0 <= Length /\ p + Length = L
    /\ (LastPacketFull = true \/ 0 < Length -> Forall full (sent tr))
    /\ (LastPacketFull = false -> Length = 0 -> data_done N tr).

Definition cw_mu (x : Z * Z * bool) (s : st G) : nat :=
  let '(Length, p, LastPacketFull) := x in
  ((2 * Z.to_nat Length + Nat.b2n LastPacketFull) * S k + (k - polls (since s)))%nat.

Definition cw_post (s : st G) : Prop :=
  exists tr, hist s = tr ++ h0 /\ cw_data tr L /\ data_done N tr.

(** While the packets so far are full and bytes remain, the host goes on. *)
Lemma not_done tr p :
  concat (sent tr) = take (Z.to_nat p) Buffer -> Forall full (sent tr) -> 0 <= p < L ->
  ~ data_done N tr.
Proof.
  intros Hc Hf Hp [HN|(q & Hq & Hs)].
  - rewrite Hc in HN. unfold zlen in *. rewrite length_take in HN. lia.
  - assert (full q) as Hfq; [|unfold full in Hfq; lia].
    rewrite last_lookup in Hq. by eapply Forall_lookup_1.
Qed.

(** Releasing the bank filled with the next [m] bytes. *)
Lemma cw_release tr p m v w :
  cw_data tr p -> Forall full (sent tr) -> 0 <= p -> 0 <= m ->
  anybit w (BV TXINI) = false ->
  let tr' := Wr UEINTX w :: Rd UEINTX v :: wr_bytes (take (Z.to_nat m) (drop (Z.to_nat p) Buffer)) ++ tr in
  cw_data tr' (p + m)
  /\ sent tr' = sent tr ++ [take (Z.to_nat m) (drop (Z.to_nat p) Buffer)].
Proof.
  intros [Hb Hc _] Hf Hp Hm Hw tr'.
  assert (sent tr' = sent tr ++ [take (Z.to_nat m) (drop (Z.to_nat p) Buffer)]) as Hs.
  { unfold tr'. cbn [sent]. rewrite Hw. cbn [sent bank].
    by rewrite sent_wr_bytes, bank_wr_bytes, Hb. }
  split; [split|done].
  - unfold tr'. cbn [bank]. by rewrite Hw.
  - rewrite Hs, concat_app, Hc. cbn. rewrite app_nil_r.
    rewrite Z2Nat.inj_add by lia. by rewrite take_take_drop.
  - by rewrite Hs, removelast_last.
Qed.

Lemma polls_wr_bytes l tr : polls (wr_bytes l ++ tr) = polls tr.
Proof. unfold wr_bytes. by induction (rev l) as [|x r IH]; cbn. Qed.

(** The host has taken a packet: fill the bank with the next one. *)
Lemma cw_packet tr p Length lpf g :
  cw_data tr p -> Forall full (sent tr) -> 0 <= p -> 0 <= Length -> p + Length = L ->
  (Length = 0 -> lpf = true) ->
  wp_ False
    (BytesInEndpoint ← Endpoint_BytesInEndpoint;
     r ← control_fill (Z.to_nat USB_Device_ControlEndpointSize) LE Buffer
           Length p BytesInEndpoint;
     let '(Length, DataStream, BytesInEndpoint) := r : Z * Z * Z in
     Endpoint_ClearIN ;;
     mret (inl (Length, DataStream, BytesInEndpoint =? USB_Device_ControlEndpointSize)))
    (fun (r : Z * Z * bool + option Z) s' =>
       match r with
       | inl x' => cw_inv x' s'
           /\ (cw_mu x' s' < (2 * Z.to_nat Length + Nat.b2n lpf) * S k)%nat
       | inr _ => False
       end)
    (St (tr ++ h0) g).
Proof.
  intros HD Hf Hp HL0 HpL Hlpf. unfold Endpoint_BytesInEndpoint. do 2 wp_step.
  rewrite (cr_count _ _ _ Hhost tr), (cwd_bank _ _ HD). change (u8 (zlen [])) with 0.
  set (m := Z.min Length 8). apply wp_bind. unfold wp_ at 1.
  rewrite (control_fill_spec _ _ _ _ _ m) by (done || unfold USB_Device_ControlEndpointSize; lia).
  cbn [hist glob]. unfold Endpoint_ClearIN. wp_run.
  set (v := reg_trunc UEINTX (hw_value _ UEINTX)). set (w := reg_trunc UEINTX (clrbits v _)).
  assert (Hw : anybit w (BV TXINI) = false)
    by (apply release_clears; apply Z.mod_pos_bound; cbn; lia).
  clearbody w v. set (q := take (Z.to_nat m) (drop (Z.to_nat p) Buffer)).
  destruct (cw_release (Rd UEBCLX 0 :: tr) p m v w) as [HD' Hs']; [by destruct HD; split|done..|lia|done|].
  fold q in HD', Hs'.
  set (tr' := Wr UEINTX w :: Rd UEINTX v :: wr_bytes q ++ Rd UEBCLX 0 :: tr) in *.
  assert (Hq : zlen q = m).
  { unfold q, zlen in *. rewrite length_take, length_drop. lia. }
  assert (Hh : Wr UEINTX w :: Rd UEINTX v :: wr_bytes q ++ Rd UEBCLX 0 :: tr ++ h0 = tr' ++ h0).
  { unfold tr'. cbn. by rewrite <- app_assoc. }
  rewrite Hh. split.
  - exists tr'. split_and!; try done; try lia.
    + rewrite Hs'. intros Hd. apply Forall_app. split; [done|]. constructor; [|done].
      unfold full, USB_Device_ControlEndpointSize in *. destruct Hd as [Hd%Z.eqb_eq|Hd]; lia.
    + intros Hd _. right. exists q. rewrite Hs', last_snoc. split; [done|].
      apply Z.eqb_neq in Hd. unfold USB_Device_ControlEndpointSize in *. lia.
  - unfold cw_mu. rewrite since_app. cbn [polls]. unfold tr'. cbn [polls]. rewrite Nat.sub_0_r.
    assert (2 * Z.to_nat (Length - m)%Z + Nat.b2n (0 + m =? USB_Device_ControlEndpointSize)%Z
            < 2 * Z.to_nat Length + Nat.b2n lpf)%nat; [|nia].
    unfold USB_Device_ControlEndpointSize. clear Hw HD' Hs' Hh tr'. clearbody q.
    assert (Hm : m = Z.min Length 8) by done. clearbody m.
    destruct (decide (Length = 0)) as [Hz|].
    + subst Length. rewrite Hlpf by done. assert (m = 0) as -> by lia. vm_compute. lia.
    + destruct (Z.eqb_spec (0 + m) 8), lpf; cbn [Nat.b2n]; lia.
Qed.

Lemma cw_step_total x s :
  cw_inv x s ->
  wp_ False (control_w_step LE Buffer x) (fun r s' =>
    match r with
    | inl x' => cw_inv x' s' /\ (cw_mu x' s' < cw_mu x s)%nat
    | inr None => cw_post s'
    | inr (Some _) => False
    end) s.
Proof.
  destruct x as [[Length p] lpf]. intros (tr & Hh & HD & Hp & HL0 & HpL & Hfull & Hdone).
  destruct s as [h g]. cbn [hist] in Hh. subst h.
  cbn [control_w_step]. destruct ((Length =? 0) && negb lpf) eqn:Hend.
  { apply andb_prop in Hend as [->%Z.eqb_eq ->%negb_true_iff]. apply wp_ret.
    exists tr. rewrite Z.add_0_r in HpL. subst p. by auto. }
  assert (Hf : Forall full (sent tr)).
  { apply Hfull. destruct lpf; [by left|right]. rewrite andb_true_r in Hend.
    apply Z.eqb_neq in Hend. lia. }
  unfold get_DeviceState, Endpoint_IsSETUPReceived, Endpoint_IsOUTReceived, Endpoint_IsINReady.
  wp_step. wp_step. pose proof (cr_attached _ _ _ Hhost tr) as [Hd0 Hd5].
  set (d := reg_trunc GPIOR0 _) in *. clearbody d.
  rewrite (proj2 (Z.eqb_neq _ _) Hd0), (proj2 (Z.eqb_neq _ _) Hd5).
  apply wp_bind, wp_flag. cbv zeta. cbn [hist glob].
  pose proof (cr_no_setup _ _ _ Hhost (Rd GPIOR0 d :: tr)) as Hs. cbn [app] in Hs.
  rewrite Hs. clear Hs. set (v1 := reg_trunc UEINTX _). clearbody v1.
  apply wp_bind, wp_flag. cbv zeta. cbn [hist glob].
  pose proof (cr_status_only _ _ _ Hhost (Rd UEINTX v1 :: Rd GPIOR0 d :: tr)) as Hso.
  pose proof (cr_status _ _ _ Hhost (Rd UEINTX v1 :: Rd GPIOR0 d :: tr)) as Hst.
  cbn [app] in Hso, Hst. set (v2 := reg_trunc UEINTX _) in *. clearbody v2.
  destruct (anybit v2 (BV RXOUTI)) eqn:Hout.
  { apply wp_ret. exists (Rd UEINTX v2 :: Rd UEINTX v1 :: Rd GPIOR0 d :: tr). split; [done|].
    specialize (Hso eq_refl). destruct (decide (p < L)) as [Hlt|].
    - exfalso. by apply (not_done tr p (cwd_bytes _ _ HD) Hf (conj Hp Hlt)).
    - assert (p = L) as -> by lia. split; [split; apply HD|done]. }
  apply wp_bind, wp_flag. cbv zeta. cbn [hist glob].
  pose proof (cr_takes _ _ _ Hhost (Rd UEINTX v2 :: Rd UEINTX v1 :: Rd GPIOR0 d :: tr)) as Htk.
  cbn [app] in Htk. set (v3 := reg_trunc UEINTX _) in *. clearbody v3.
  destruct (anybit v3 (BV TXINI)) eqn:Hin.
  - set (tr' := [Rd UEINTX v3; Rd UEINTX v2; Rd UEINTX v1; Rd GPIOR0 d] ++ tr).
    eapply wp_conseq; [apply (cw_packet tr' p Length lpf g)|done|]; try done.
    + destruct HD; by split.
    + intros ->. by destruct lpf.
    + intros [x'|] s' Hx; [|done]. split; [apply Hx|]. destruct Hx as [_ Hx].
      cbn [cw_mu]. lia.
  - apply wp_ret. split.
    + exists (Rd UEINTX v3 :: Rd UEINTX v2 :: Rd UEINTX v1 :: Rd GPIOR0 d :: tr).
      split_and!; try done. destruct HD; by split.
    + cbn [cw_mu]. rewrite since_app.
      change (Rd UEINTX v3 :: Rd UEINTX v2 :: Rd UEINTX v1 :: Rd GPIOR0 d :: tr ++ h0)
        with ((Rd UEINTX v3 :: Rd UEINTX v2 :: Rd UEINTX v1 :: Rd GPIOR0 d :: tr) ++ h0).
      rewrite since_app. cbn [polls] in *.
      destruct (decide (k <= polls tr)%nat) as [Hk|]; [exfalso|lia].
      assert (Hnd : ~ data_done N tr) by (intros Hdn; discriminate (Hst ltac:(lia) Hdn)).
      discriminate (Htk ltac:(lia) Hnd).
Qed.

Lemma cw_status_wait fuel s :
  cw_post s -> (k < fuel)%nat ->
  wp_ False (control_status_wait fuel Endpoint_IsOUTReceived)
    (fun r s' => r = ENDPOINT_RWCSTREAM_NoError /\ cw_post s') s.
Proof.
  intros HP Hfuel. unfold control_status_wait.
  apply (wp_loop_total _ (fun _ s' => cw_post s') (fun _ s' => (k - polls (since s'))%nat));
    [done|lia|].
  clear s HP. intros [] [h g] (tr & Hh & HD & Hdn). cbn [hist] in Hh. subst h.
  unfold Endpoint_IsOUTReceived, get_DeviceState.
  apply wp_bind, wp_flag. cbv zeta. cbn [hist glob].
  pose proof (cr_status _ _ _ Hhost tr) as Hst. set (v := reg_trunc UEINTX _) in *. clearbody v.
  destruct (anybit v (BV RXOUTI)) eqn:Hout.
  - apply wp_ret. split; [done|]. exists (Rd UEINTX v :: tr).
    split_and!; try done. destruct HD; by split.
  - do 2 wp_step. pose proof (cr_attached _ _ _ Hhost (Rd UEINTX v :: tr)) as [Hd0 Hd5].
    cbn [app] in Hd0, Hd5. set (d := reg_trunc GPIOR0 _) in *. clearbody d.
    rewrite (proj2 (Z.eqb_neq _ _) Hd0), (proj2 (Z.eqb_neq _ _) Hd5).
    apply wp_ret. split.
    + exists (Rd GPIOR0 d :: Rd UEINTX v :: tr). split_and!; try done. destruct HD; by split.
    + change (Rd GPIOR0 d :: Rd UEINTX v :: tr ++ h0)
        with ((Rd GPIOR0 d :: Rd UEINTX v :: tr) ++ h0). rewrite !since_app. cbn [polls].
      destruct (decide (k <= polls tr)%nat) as [Hk|]; [|lia]. discriminate (Hst Hk Hdn).
Qed.

Lemma cw_run fuel lpf s :
  cw_inv (L, 0, lpf) s -> ((2 * Z.to_nat L + 1) * S k + k < fuel)%nat ->
  wp_ False
    (r ← loop fuel (control_w_step LE Buffer) (L, 0, lpf);
     match r with
     | Some e => mret e
     | None => control_status_wait fuel Endpoint_IsOUTReceived
     end)
    (fun r s' => r = ENDPOINT_RWCSTREAM_NoError /\ cw_post s') s.
Proof.
  intros HI Hfuel. apply wp_bind.
  eapply wp_conseq; [apply (wp_loop_total _ cw_inv cw_mu
    (fun r s' => match r with None => cw_post s' | Some _ => False end))|done|].
  - done.
  - unfold cw_mu. destruct lpf; cbn [Nat.b2n]; nia.
  - intros x s' HI'. eapply wp_conseq; [by apply cw_step_total|done|].
    intros [x'|[]] s''; done.
  - intros [e|] s' HP; [done|]. apply cw_status_wait; [done|nia].
Qed.
End control_write.

(** The whole control write, from any state of the bus. *)
Lemma control_write_spec {G} `{Hardware} `{Has UsbState G}
    (k fuel : nat) (Buffer : list Z) (Length : Z) (s : st G) :
  let N := wLength (USB_ControlRequest (proj (glob s))) in
  let L := Z.min Length N in
  control_reader k N (hist s) ->
  Forall is_u8 Buffer -> is_u16 Length -> is_u16 N -> Length <= zlen Buffer ->
  ((2 * Z.to_nat L + 1) * S k + k < fuel)%nat ->
  wp_ False (Endpoint_Write_Control_Stream_LE fuel Buffer Length) (fun r s' =>
    r = ENDPOINT_RWCSTREAM_NoError
    /\ exists tr, hist s' = tr ++ hist s
       /\ concat (sent tr) = take (Z.to_nat L) Buffer
       /\ Forall full (removelast (sent tr))
       /\ data_done N tr) s.
Proof.
  intros N L Hhost HB HLen HN HLB Hfuel. unfold is_u16 in *.
  unfold Endpoint_Write_Control_Stream_LE, write_control_stream. cbn [buffer_offset].
  apply wp_bind, wp_getc. fold N. assert (HLdef : L = Z.min Length N) by done.
  clearbody L N.
  assert (Hfin : forall lpf s', glob s' = glob s ->
    cw_inv N L (hist s) Buffer (L, 0, lpf) s' ->
    wp_ False (r ← loop fuel (control_w_step LE Buffer) (L, 0, lpf);
       match r with
       | Some e => mret e
       | None => control_status_wait fuel Endpoint_IsOUTReceived
       end) (fun r s' => r = ENDPOINT_RWCSTREAM_NoError
        /\ exists tr, hist s' = tr ++ hist s /\ concat (sent tr) = take (Z.to_nat L) Buffer
           /\ Forall full (removelast (sent tr)) /\ data_done N tr) s').
  { intros lpf s' _ HI. eapply wp_conseq;
      [apply (cw_run k N L (hist s) Buffer Hhost HB); try done; lia|done|].
    intros r s'' [-> (tr & Hh & [_ Hc Hf] & Hdn)]. split; [done|]. by exists tr. }
  destruct (Z.ltb_spec N Length) as [HNL|HNL]; apply wp_bind.
  - apply wp_ret. assert (L = N) as HLeq by lia. rewrite HLeq in *. apply Hfin; [done|].
    exists []. split_and!; try done; try lia. intros _ HN0. left. unfold zlen. cbn. lia.
  - assert (L = Length) as HLeq by lia. rewrite <- HLeq.
    destruct (Z.eqb_spec L 0) as [HL0|HL0]; unfold when;
      [unfold Endpoint_ClearIN, reg_clr; do 3 wp_step|apply wp_ret]; (apply Hfin; [done|]).
    + set (v := reg_trunc UEINTX (hw_value _ UEINTX)).
      assert (Hw : anybit (reg_trunc UEINTX (clrbits v (Z.lor (BV TXINI) (BV FIFOCON)))) (BV TXINI)
                   = false) by (apply release_clears; apply Z.mod_pos_bound; cbn; lia).
      exists [Wr UEINTX (reg_trunc UEINTX (clrbits v (Z.lor (BV TXINI) (BV FIFOCON)))); Rd UEINTX v].
      cbn [sent bank]. split_and!; try done; try lia.
      * split; cbn [sent bank]; rewrite ?Hw; done.
      * intros _ _. right. exists []. cbn [sent bank]. rewrite Hw. done.
    + exists []. split_and!; try done; try lia.
Qed.

(** C11. Control-IN data stages are complete and well-formed: with any host that
    reads [wLength] bytes and answers within [k] polls,
    [Endpoint_Write_Control_Stream_LE] terminates with NoError, having sent
    exactly the first [min Length wLength] bytes of the buffer, in packets of
    8 bytes but for the last, and the host recognises the end: it got
    [wLength] bytes or a short (maybe zero-length) packet. *)
Theorem control_write_complete {G} `{Hardware} `{Has UsbState G}
    (k fuel : nat) (Buffer : list Z) (Length : Z) (s : st G) :
  let N := wLength (USB_ControlRequest (proj (glob s))) in
  let L := Z.min Length N in
  control_reader k N (hist s) ->
  Forall is_u8 Buffer -> is_u16 Length -> is_u16 N -> Length <= zlen Buffer ->
  ((2 * Z.to_nat L + 1) * S k + k < fuel)%nat ->
  wp_ False (Endpoint_Write_Control_Stream_LE fuel Buffer Length) (fun r s' =>
    r = ENDPOINT_RWCSTREAM_NoError
    /\ exists tr, hist s' = tr ++ hist s
       /\ concat (sent tr) = take (Z.to_nat L) Buffer
       /\ Forall full (removelast (sent tr))
       /\ data_done N tr) s.
Proof. exact (control_write_spec k fuel Buffer Length s). Qed.

(** A control write touches the data and status registers only. *)
Definition not_fifo (r : reg) : bool := match r with UEINTX | UEDATX => false | _ => true end.

#[export] Instance control_fill_runs {G} (S : relation G) `{!PreOrder S} n o Buffer L p B :
  Runs (frame not_fifo S) (control_fill n o Buffer L p B).
Proof.
  revert L p B. induction n as [|n IH]; intros L p B; cbn [control_fill];
    unfold Endpoint_Write_8; runs_go.
Qed.

#[export] Instance write_control_stream_runs {G} `{Hardware} `{Has UsbState G}
    (S : relation G) `{!PreOrder S} o fuel Buffer Length :
  Runs (frame not_fifo S) (write_control_stream o fuel Buffer Length).
Proof.
  unfold write_control_stream, control_w_step, control_status_wait, Endpoint_ClearIN,
    get_DeviceState, Endpoint_IsSETUPReceived, Endpoint_IsOUTReceived, Endpoint_IsINReady,
    Endpoint_BytesInEndpoint. runs_go.
Qed.

(** A prompt host for the witness: it takes each packet at the first poll. *)
Definition data_done_b (N : Z) (tr : history) : bool :=
  (N <=? zlen (concat (sent tr)))
  || match list.last (sent tr) with
     | Some p => zlen p <? USB_Device_ControlEndpointSize
     | None => false
     end.

Lemma data_done_b_spec N tr : data_done_b N tr = true <-> data_done N tr.
Proof.
  unfold data_done_b, data_done. rewrite orb_true_iff, Z.leb_le.
  destruct (list.last (sent tr)) as [p|].
  - rewrite Z.ltb_lt. split; intros [|Hp]; auto.
    + right. by exists p.
    + destruct Hp as (q & [= ->] & Hq). by right.
  - split; intros [|Hp]; auto; [done|]. by destruct Hp as (q & Hq & _).
Qed.

Definition prompt_reader (N : Z) : Hardware := fun h r =>
  match r with
  | GPIOR0 => DEVICE_STATE_Addressed
  | UEBCLX => zlen (bank h)
  | UEINTX => if data_done_b N h then BV RXOUTI else BV TXINI
  | _ => 0
  end.

Lemma prompt_reader_ok N : @control_reader (prompt_reader N) 0 N [].
Proof.
  assert (Hd : forall tr, data_done_b N tr = true \/ data_done_b N tr = false /\ ~ data_done N tr).
  { intros tr. rewrite <- data_done_b_spec. destruct (data_done_b N tr); auto. }
  split; intros tr; rewrite app_nil_r; unfold hw_value, prompt_reader; cbn -[data_done_b].
  - done.
  - by destruct (data_done_b N tr).
  - done.
  - intros _ Hn. destruct (Hd tr) as [Ht|[-> _]]; [|done].
    by apply data_done_b_spec in Ht.
  - destruct (Hd tr) as [Ht|[-> _]]; [|done]. by apply data_done_b_spec in Ht.
  - intros _ Hdn. apply data_done_b_spec in Hdn. by rewrite Hdn.
Qed.

(** 16 bytes for a host that asked for 64: two full packets and an empty one. *)
Definition witness_usb : UsbState :=
  mkUsb (mkRequest 0x80 6 0x0300 0 64) 0 false false true.

Lemma control_write_complete_witness :
  wp_ False (@Endpoint_Write_Control_Stream_LE UsbState (prompt_reader 64) _ 40 (seqZ 1 16) 16)
    (fun r s' => r = 0 /\ exists tr, hist s' = tr ++ [] /\ concat (sent tr) = seqZ 1 16
       /\ Forall full (removelast (sent tr)) /\ data_done 64 tr) (St [] witness_usb).
Proof.
  refine (@control_write_complete UsbState (prompt_reader 64) _ 0 40 (seqZ 1 16) 16
            (St [] witness_usb) (prompt_reader_ok 64) _ _ _ _ _).
  - apply (bool_decide_unpack _). vm_compute. exact I.
  - apply (bool_decide_unpack _). vm_compute. exact I.
  - apply (bool_decide_unpack _). vm_compute. exact I.
  - vm_compute. discriminate.
  - vm_compute. lia.
Defined.

(** ** Data endpoint writes *)

(** Banks handed over since a byte was last written. *)
Fixpoint releases (h : history) : nat :=
  match h with
  | [] => O
  | Wr UEINTX _ :: h' => S (releases h')
  | Wr UEDATX _ :: _ => O
  | _ :: h' => releases h'
  end.

(** A bank becomes writable after at most [m] hand-overs. *)
Definition bank_progress `{Hardware} (m : nat) : Prop :=
  forall h, (m <= releases h)%nat ->
    anybit (reg_trunc UEINTX (hw_value h UEINTX)) (BV RWAL) = true.

Lemma releases_quiet tr h : (forall r, writes r tr = []) -> releases (tr ++ h) = releases h.
Proof.
  induction tr as [|e tr IH]; [done|]. intros Hq.
  assert (Hq' : forall r, writes r tr = []).
  { intros r. specialize (Hq r). destruct e; cbn in Hq; try done. by case_decide. }
  destruct e as [r v|r v|n]; cbn; [by apply IH| |by apply IH].
  specialize (Hq r). cbn in Hq. by rewrite decide_True in Hq.
Qed.

Section write_stream.
Context {G : Type} `{Hardware}.
Context (k m fuel : nat) (Buffer : list Z) (L : Z) (h0 : history).
Context (Hfp : frame_progress k) (Hbp : bank_progress m) (Hwait : (101 * S k < fuel)%nat).
Context (HB : Forall is_u8 Buffer) (HL : 0 <= L < 2 ^ 16) (HLB : L <= zlen Buffer).

Definition ws_inv (x : Z * Z * Z * unit) (s : st G) : Prop :=
  let '(Length, p, _, _) := x in
  exists tr, hist s = tr ++ h0 /\ rev (writes UEDATX tr) = take (Z.to_nat p) Buffer
    /\ 0 <= p /\ 0 <= Length /\ p + Length = L.

Definition ws_mu (x : Z * Z * Z * unit) (s : st G) : nat :=
  let '(Length, _, _, _) := x in (Z.to_nat Length * S m + (m - releases (hist s)))%nat.

Definition ws_post (r : Z * option Z * unit) (s : st G) : Prop :=
  exists tr n, hist s = tr ++ h0 /\ rev (writes UEDATX tr) = take n Buffer
    /\ (n <= Z.to_nat L)%nat /\ 0 <= fst (fst r) <= 4
    /\ (fst (fst r) = ENDPOINT_RWSTREAM_NoError -> n = Z.to_nat L).

(** Waiting, with what it leaves alone. *)
Lemma wait_quiet (s : st G) :
  wp_ False (Endpoint_WaitUntilReady fuel) (fun r s' =>
    0 <= r <= 4 /\ exists tr, hist s' = tr ++ hist s /\ forall r, writes r tr = []) s.
Proof.
  eapply wp_conseq; [refine (wp_frame False (frame (fun _ => true) (=)) _ _ _
    (WaitUntilReady_returns k fuel s Hfp Hwait))|done|].
  intros r s' [(_ & _ & Hr & _) [(tr & Hh & Hq) _]]. split; [done|].
  exists tr. split; [done|]. intros r'. by apply Hq.
Qed.

Lemma ws_step x s :
  ws_inv x s ->
  wp_ False (rw_step LE Endpoint_ClearIN (transfer_out Buffer) fuel None x) (fun r s' =>
    match r with
    | inl x' => ws_inv x' s' /\ (ws_mu x' s' < ws_mu x s)%nat
    | inr b => ws_post b s'
    end) s.
Proof.
  destruct x as [[[Length p] bit] []]. intros (tr & Hh & Hw & Hp & HL0 & HpL).
  cbn [rw_step]. destruct (Z.eqb_spec Length 0) as [->|HLn].
  { apply wp_ret. exists tr, (Z.to_nat p). cbn. split_and!; try done; lia. }
  unfold Endpoint_IsReadWriteAllowed. apply wp_bind, wp_flag. cbv zeta.
  pose proof (Hbp (hist s)) as Hrw. set (v := reg_trunc UEINTX (hw_value _ UEINTX)) in *.
  clearbody v. destruct (anybit v (BV RWAL)) eqn:Hv; cbn [negb].
  - unfold transfer_out, Endpoint_Write_8, buffer_move. do 3 wp_step. cbv beta.
    destruct (lookup_lt_is_Some_2 Buffer (Z.to_nat p)) as [b Hb]; [unfold zlen in *; lia|].
    unfold byte_at. rewrite Hb. cbn [default].
    rewrite reg_trunc_u8 by (reflexivity || exact (Forall_lookup_1 _ _ _ _ HB Hb)).
    rewrite u16_id by (unfold is_u16; lia). split.
    + exists (Wr UEDATX b :: Rd UEINTX v :: tr). cbn [hist]. split_and!; try lia.
      * by rewrite Hh.
      * cbn [writes]. rewrite decide_True by done. cbn [rev]. rewrite Hw. replace (Z.to_nat (p + 1)) with (S (Z.to_nat p)) by lia.
        by rewrite (take_S_r _ _ b).
    + unfold ws_mu. cbn [hist releases]. rewrite Nat.sub_0_r.
      replace (Z.to_nat Length) with (S (Z.to_nat (Length - 1))) by lia. lia.
  - assert (Hrl : (releases (hist s) < m)%nat)
      by (apply Nat.nle_gt; intros Hm; discriminate (Hrw Hm)).
    unfold Endpoint_ClearIN, reg_clr. do 5 wp_step. cbv beta.
    set (v' := reg_trunc UEINTX (hw_value _ UEINTX)). clearbody v'.
    set (w := reg_trunc UEINTX (clrbits v' _)). clearbody w.
    eapply wp_conseq; [apply wait_quiet|done|]. cbn [hist].
    intros r s' (Hr & t & Ht & Hq).
    destruct (Z.eqb_spec r 0) as [->|Hrn]; cbn [negb]; apply wp_ret.
    + split.
      * exists (t ++ Wr UEINTX w :: Rd UEINTX v' :: Rd UEINTX v :: tr).
        split_and!; try done.
        { by rewrite Ht, Hh, <- app_assoc. }
        { rewrite writes_app, Hq. cbn. done. }
      * unfold ws_mu. rewrite Ht. rewrite releases_quiet by done. cbn. lia.
    + exists (t ++ Wr UEINTX w :: Rd UEINTX v' :: Rd UEINTX v :: tr), (Z.to_nat p).
      split_and!; try (cbn; lia).
      { by rewrite Ht, Hh, <- app_assoc. }
      { rewrite writes_app, Hq. cbn. done. }
      { intros Hz. by destruct Hrn. }
Qed.

Lemma ws_run (s : st G) :
  hist s = h0 -> (S (Z.to_nat L) * S m < fuel)%nat ->
  wp_ False (Endpoint_Write_Stream_LE fuel Buffer L None) ws_post s.
Proof.
  intros Hh Hfuel. unfold Endpoint_Write_Stream_LE, write_stream, Template_Endpoint_RW.
  cbn [buffer_offset]. apply wp_bind. eapply wp_conseq; [apply wait_quiet|done|].
  intros r s' (Hr & t & Ht & Hq). rewrite Hh in Ht.
  destruct (Z.eqb_spec r 0) as [->|Hrn]; cbn [negb].
  - apply (wp_loop_total _ ws_inv ws_mu ws_post).
    + exists t. split_and!; try done; try lia. by rewrite Hq.
    + unfold ws_mu. nia.
    + intros x s'' HI. by apply ws_step.
  - apply wp_ret. exists t, O. rewrite Hq. split_and!; try done; cbn; lia.
Qed.
End write_stream.

(** A bulk write never hangs and never corrupts: with the frame counter
    running and banks that become writable, [Endpoint_Write_Stream_LE] returns
    one of its codes, the endpoint FIFO has received a prefix of the buffer in
    order, and all of it when the code is NoError. *)
Theorem write_stream_prefix {G} `{Hardware} (k m fuel : nat) (Buffer : list Z) (Length : Z)
    (s : st G) :
  frame_progress k -> bank_progress m ->
  Forall is_u8 Buffer -> is_u16 Length -> Length <= zlen Buffer ->
  (101 * S k < fuel)%nat -> (S (Z.to_nat Length) * S m < fuel)%nat ->
  wp_ False (Endpoint_Write_Stream_LE fuel Buffer Length None) (fun r s' =>
    exists tr n, hist s' = tr ++ hist s /\ rev (writes UEDATX tr) = take n Buffer
      /\ (n <= Z.to_nat Length)%nat /\ 0 <= fst (fst r) <= 4
      /\ (fst (fst r) = ENDPOINT_RWSTREAM_NoError -> n = Z.to_nat Length)) s.
Proof.
  intros Hfp Hbp HB HL HLB Hf1 Hf2.
  by apply (ws_run k m fuel Buffer Length (hist s)).
Qed.

(** A host that takes every bank: 16 bytes per bank, frames advance. *)
Definition bulk_host : Hardware := fun h r =>
  match r with
  | UDFNUM => match reads UDFNUM h with [] => 0 | x :: _ => (x + 1) mod 2048 end
  | GPIOR0 => DEVICE_STATE_Configured
  | UEINTX => if (zlen (bank h) <? 16) || (1 <=? releases h)%nat then Z.lor (BV TXINI) (BV RWAL) else BV TXINI
  | UECFG0X => BV EPDIR
  | UEBCLX => zlen (bank h)
  | _ => 0
  end.

Lemma bulk_host_frames : @frame_progress bulk_host 1.
Proof. exact idle_bus_progress. Qed.

Lemma bulk_host_banks : @bank_progress bulk_host 1.
Proof.
  intros h Hr. unfold hw_value, bulk_host.
  rewrite (proj2 (Nat.leb_le _ _) Hr), orb_true_r. reflexivity.
Qed.

Lemma write_stream_prefix_witness :
  wp_ False (@Endpoint_Write_Stream_LE unit bulk_host 210 (seqZ 1 20) 20 None)
    (fun r s' => r = (0, None, tt) /\ exists tr n,
       hist s' = tr ++ [] /\ rev (writes UEDATX tr) = take n (seqZ 1 20)
       /\ (n <= 20)%nat /\ 0 <= fst (fst r) <= 4 /\ (fst (fst r) = 0 -> n = 20%nat)) (St [] tt).
Proof.
  refine (wp_result _ _ _ (0, None, tt)
    (@write_stream_prefix unit bulk_host 1 1 210 (seqZ 1 20) 20 (St [] tt)
       bulk_host_frames bulk_host_banks _ _ _ _ _) _).
  - apply (bool_decide_unpack _). vm_compute. exact I.
  - apply (bool_decide_unpack _). vm_compute. exact I.
  - vm_compute. discriminate.
  - lia.
  - vm_compute. lia.
  - vm_compute. reflexivity.
Defined.
