(* ===== verification/ControlRead.v ===== *)
(** * Control reads

    [Endpoint_Read_Control_Stream_LE] with any host that sends what it has
    announced, in packets of any size: the counterpart of
    [control_write_complete]. *)

From S2P Require Import Prelude Machine Endpoint EndpointStream.

(** OUT packets given back to the controller (a write of UEINTX with RXOUTI
    clear), and bytes read from the one in the bank. *)
Fixpoint released (tr : history) : nat :=
  match tr with
  | [] => O
  | Wr UEINTX v :: tr' => if anybit v (BV RXOUTI) then released tr' else S (released tr')
  | _ :: tr' => released tr'
  end.
Fixpoint got (tr : history) : nat :=
  match tr with
  | [] => O
  | Rd UEDATX _ :: tr' => S (got tr')
  | Wr UEINTX v :: tr' => if anybit v (BV RXOUTI) then got tr' else O
  | _ :: tr' => got tr'
  end.

(** A host that sends the packets [ps] to the control endpoint, from history
    [h0] on: it stays attached, starts no other transfer, has the next packet
    in the bank within [k] polls and, when all are taken and only then, takes
    the status packet within [k] polls. *)
Record control_writer `{Hardware} (k : nat) (ps : list (list Z)) (h0 : history) : Prop := {
  hw_attached : forall tr, let d := reg_trunc GPIOR0 (hw_value (tr ++ h0) GPIOR0) in
    d <> DEVICE_STATE_Unattached /\ d <> DEVICE_STATE_Suspended;
  hw_no_setup : forall tr,
    anybit (reg_trunc UEINTX (hw_value (tr ++ h0) UEINTX)) (BV RXSTPI) = false;
  hw_count : forall tr p, ps !! released tr = Some p ->
    reg_trunc UEBCLX (hw_value (tr ++ h0) UEBCLX) = zlen (drop (got tr) p);
  hw_data : forall tr p x, ps !! released tr = Some p -> p !! got tr = Some x ->
    reg_trunc UEDATX (hw_value (tr ++ h0) UEDATX) = x;
  hw_out : forall tr, (k <= polls tr)%nat -> (released tr < length ps)%nat ->
    anybit (reg_trunc UEINTX (hw_value (tr ++ h0) UEINTX)) (BV RXOUTI) = true;
  hw_out_only : forall tr,
    anybit (reg_trunc UEINTX (hw_value (tr ++ h0) UEINTX)) (BV RXOUTI) = true ->
    (released tr < length ps)%nat;
  hw_status : forall tr, (k <= polls tr)%nat -> (length ps <= released tr)%nat ->
    anybit (reg_trunc UEINTX (hw_value (tr ++ h0) UEINTX)) (BV TXINI) = true;
}.

Lemma release_out v m :
  is_u8 v -> anybit (reg_trunc UEINTX (clrbits v (Z.lor (BV RXOUTI) m))) (BV RXOUTI) = false.
Proof.
  intros Hv. rewrite reg_trunc_u8 by auto with width.
  by rewrite anybit_BV, clrbits_testbit, Z.lor_spec, BV_testbit, andb_false_r by done.
Qed.

Section control_read.
Context {G : Type} `{Hardware} (k : nat) (ps : list (list Z)) (h0 : history).
Context (Hhost : control_writer k ps h0) (g : G) (Buffer : list Z).
Context (Hps : Forall (fun p => p <> []) ps) (Hlen : zlen (concat ps) < 2 ^ 16).

(** The packet in the bank goes into the buffer. *)
Lemma drain_spec p q fuel tr Length DataStream Buf :
  ps !! released tr = Some p -> drop (got tr) p = q -> (length q < fuel)%nat ->
  zlen q <= Length < 2 ^ 16 -> 0 <= DataStream ->
  wp_ False (control_drain fuel LE (Length, DataStream, Buf)) (fun x s' =>
    x = (Length - zlen q, DataStream + zlen q, list_inserts (Z.to_nat DataStream) q Buf)
    /\ exists tr', s' = St (tr' ++ h0) g /\ released tr' = released tr /\ polls tr' = polls tr)
    (St (tr ++ h0) g).
Proof using Hhost.
  intros Hp. revert fuel tr Length DataStream Buf Hp.
  induction q as [|x q IH]; intros [|fuel] tr Length DataStream Buf Hp Hq Hf HL HD; cbn [length] in *; try lia;
    unfold control_drain; cbn [loop]; fold (control_drain (G := G)).
  - assert (Hz : zlen (A:=Z) [] = 0) by done. rewrite Hz, Z.sub_0_r, Z.add_0_r. cbn [list_inserts].
    apply wp_bind. destruct (Z.eqb_spec Length 0) as [->|HLn].
    { do 2 apply wp_ret. split; [done|]. by exists tr. }
    unfold Endpoint_BytesInEndpoint. do 2 wp_step. rewrite (hw_count _ _ _ Hhost tr p Hp), Hq, Hz.
    cbn [Z.eqb]. do 2 apply wp_ret. split; [done|]. by exists (Rd UEBCLX 0 :: tr).
  - rewrite zlen_cons in *. pose proof (zlen_nonneg q).
    apply wp_bind. rewrite (proj2 (Z.eqb_neq Length 0)) by lia.
    unfold Endpoint_BytesInEndpoint. do 2 wp_step. rewrite (hw_count _ _ _ Hhost tr p Hp), Hq, zlen_cons.
    rewrite (proj2 (Z.eqb_neq (1 + zlen q) 0)) by lia.
    unfold transfer_in, Endpoint_Read_8. do 4 wp_step.
    assert (Hx : p !! got tr = Some x) by (rewrite <- (Nat.add_0_r (got tr)), <- lookup_drop, Hq; done).
    pose proof (hw_data _ _ _ Hhost (Rd UEBCLX (1 + zlen q) :: tr) p x Hp Hx) as Hd. cbn [app] in Hd. rewrite Hd.
    apply wp_ret. rewrite u16_id by (unfold is_u16; lia). cbn [buffer_move].
    wp_spec (IH fuel (Rd UEDATX x :: Rd UEBCLX (1 + zlen q) :: tr) (Length - 1) (DataStream + 1)
      (<[Z.to_nat DataStream := x]> Buf) Hp ltac:(cbn [got]; rewrite <- (Nat.add_1_r (got tr)), <- drop_drop, Hq; done)
      ltac:(lia) ltac:(lia) ltac:(lia)).
    intros y s' [-> (tr' & -> & Hr & Hpl)]. split.
    + f_equal; [f_equal; lia|]. cbn [list_inserts]. rewrite list_insert_inserts_lt by lia. f_equal. lia.
    + by exists tr'.
Qed.

(** [n] packets are in the buffer; [b] says whether the bank is still full. *)
Definition cr_inv (x : Z * Z * list Z) (s : st G) : Prop :=
  exists tr, s = St (tr ++ h0) g /\ got tr = 0%nat
    /\ x = (zlen (concat (drop (released tr) ps)), zlen (concat (take (released tr) ps)),
            list_inserts 0 (concat (take (released tr) ps)) Buffer).
Definition cr_mu (_ : Z * Z * list Z) (s : st G) : nat :=
  let tr := take (length (hist s) - length h0) (hist s) in
  ((length ps - released tr) * S k + (k - polls tr))%nat.
Definition cr_post (r : option Z * list Z) (s : st G) : Prop :=
  exists tr, s = St (tr ++ h0) g /\ (length ps <= released tr)%nat
    /\ r = (None, list_inserts 0 (concat ps) Buffer).

Lemma cr_mu_app x tr : cr_mu x (St (tr ++ h0) g) = ((length ps - released tr) * S k + (k - polls tr))%nat.
Proof using. unfold cr_mu. cbn [hist]. by rewrite length_app, Nat.add_sub, take_app_length. Qed.

Lemma concat_take_drop n : zlen (concat (take n ps)) + zlen (concat (drop n ps)) = zlen (concat ps).
Proof using. rewrite <- zlen_app, <- concat_app. by rewrite take_drop. Qed.

(** No byte is left: no packet is. *)
Lemma all_taken n : zlen (concat (drop n ps)) = 0 -> (length ps <= n)%nat.
Proof using Hps.
  intros Hz. destruct (decide (length ps <= n)%nat) as [|Hn]; [done|exfalso].
  destruct (lookup_lt_is_Some_2 ps n) as [p Hp]; [lia|].
  rewrite (drop_S ps p n Hp) in Hz. cbn [concat] in Hz. rewrite zlen_app in Hz.
  pose proof (Forall_lookup_1 _ _ _ _ Hps Hp) as Hne. destruct p as [|y p]; [done|].
  rewrite zlen_cons in Hz. pose proof (zlen_nonneg p). pose proof (zlen_nonneg (concat (drop (S n) ps))). lia.
Qed.

Lemma cr_step fuel x s :
  cr_inv x s -> Forall (fun p => length p < fuel)%nat ps ->
  wp_ False (control_r_step fuel LE x) (fun r s' =>
    match r with inl x' => cr_inv x' s' /\ (cr_mu x' s' < cr_mu x s)%nat | inr b => cr_post b s' end) s.
Proof using Hhost Hlen Hps.
  intros (tr & -> & Hg & ->) Hfuel. cbn [control_r_step].
  destruct (Z.eqb_spec (zlen (concat (drop (released tr) ps))) 0) as [Hz|Hz].
  { apply wp_ret. apply all_taken in Hz. exists tr. split_and!; [done|done|]. by rewrite take_ge. }
  assert (Hr : (released tr < length ps)%nat).
  { destruct (decide (released tr < length ps)%nat); [done|]. rewrite drop_ge in Hz by lia. done. }
  unfold get_DeviceState, Endpoint_IsSETUPReceived, Endpoint_IsOUTReceived. do 2 wp_step.
  pose proof (hw_attached _ _ _ Hhost tr) as [Hd0 Hd5]. set (d := reg_trunc GPIOR0 _) in *. clearbody d.
  rewrite (proj2 (Z.eqb_neq _ _) Hd0), (proj2 (Z.eqb_neq _ _) Hd5).
  apply wp_bind, wp_flag. cbv zeta. cbn [hist glob].
  pose proof (hw_no_setup _ _ _ Hhost (Rd GPIOR0 d :: tr)) as Hs. cbn [app] in Hs. rewrite Hs. clear Hs.
  set (v1 := reg_trunc UEINTX _). clearbody v1. apply wp_bind, wp_flag. cbv zeta. cbn [hist glob].
  pose proof (hw_out _ _ _ Hhost (Rd UEINTX v1 :: Rd GPIOR0 d :: tr)) as Hout. cbn [app] in Hout.
  set (v2 := reg_trunc UEINTX _) in *. clearbody v2.
  set (tr2 := Rd UEINTX v2 :: Rd UEINTX v1 :: Rd GPIOR0 d :: tr).
  destruct (anybit v2 (BV RXOUTI)) eqn:E.
  - destruct (lookup_lt_is_Some_2 ps (released tr) Hr) as [p Hp].
    pose proof (concat_take_drop (released tr)) as Hsum.
    rewrite (drop_S ps p _ Hp) in *. cbn [concat] in *. rewrite zlen_app in *.
    pose proof (zlen_nonneg p). pose proof (zlen_nonneg (concat (drop (S (released tr)) ps))).
    pose proof (zlen_nonneg (concat (take (released tr) ps))).
    wp_call (drain_spec p p fuel tr2 (zlen p + zlen (concat (drop (S (released tr)) ps)))
      (zlen (concat (take (released tr) ps))) (list_inserts 0 (concat (take (released tr) ps)) Buffer)
      Hp ltac:(cbn [tr2 got]; by rewrite Hg, drop_0) (Forall_lookup_1 _ _ _ _ Hfuel Hp)
      ltac:(lia) ltac:(lia)).
    intros y s' [-> (tr3 & -> & Hr3 & Hp3)]. unfold Endpoint_ClearOUT, reg_clr. do 4 wp_step.
    set (v := reg_trunc UEINTX (hw_value _ UEINTX)).
    assert (Hrel : anybit (reg_trunc UEINTX (clrbits v (Z.lor (BV RXOUTI) (BV FIFOCON)))) (BV RXOUTI) = false)
      by (apply release_out, Z.mod_pos_bound; cbn; lia).
    set (w := reg_trunc UEINTX (clrbits _ _)) in *. apply wp_ret.
    change (St (Wr UEINTX w :: Rd UEINTX v :: tr3 ++ h0) g) with (St ((Wr UEINTX w :: Rd UEINTX v :: tr3) ++ h0) g).
    rewrite !cr_mu_app. cbn [released polls]. rewrite Hrel, Hr3.
    change (released tr2) with (released tr). split.
    + exists (Wr UEINTX w :: Rd UEINTX v :: tr3). split; [done|]. cbn [got released]. rewrite Hrel, Hr3.
      change (released tr2) with (released tr). split; [done|].
      rewrite (take_S_r ps _ p Hp), concat_app. cbn [concat]. rewrite app_nil_r, zlen_app.
      f_equal; [f_equal; lia|]. rewrite list_inserts_app_l. f_equal. unfold zlen. lia.
    + assert (length ps - released tr = S (length ps - S (released tr)))%nat as -> by lia. lia.
  - apply wp_ret. change (St (Rd UEINTX v2 :: Rd UEINTX v1 :: Rd GPIOR0 d :: tr ++ h0) g) with (St (tr2 ++ h0) g).
    split; [by exists tr2|]. rewrite !cr_mu_app. cbn [tr2 released polls] in *.
    destruct (decide (k <= S (polls tr))%nat) as [Hk|]; [|lia]. discriminate (Hout Hk Hr).
Qed.

(** The status stage. *)
Lemma cr_status_wait fuel tr :
  (length ps <= released tr)%nat -> (k < fuel)%nat ->
  wp_ False (control_status_wait fuel Endpoint_IsINReady) (fun r s' =>
    r = ENDPOINT_RWCSTREAM_NoError
    /\ exists tr', s' = St (tr' ++ h0) g /\ released tr' = released tr) (St (tr ++ h0) g).
Proof using Hhost.
  intros Hr Hfuel. unfold control_status_wait.
  apply (wp_loop_total _ (fun _ s' => exists tr', s' = St (tr' ++ h0) g /\ released tr' = released tr)
    (fun x s' => (k - polls (take (length (hist s') - length h0) (hist s')))%nat)).
  - by exists tr.
  - lia.
  - intros [] s' (tr1 & -> & Hr1). unfold Endpoint_IsINReady, get_DeviceState.
    apply wp_bind, wp_flag. cbv zeta. cbn [hist glob].
    pose proof (hw_status _ _ _ Hhost tr1) as Hst. set (v := reg_trunc UEINTX _) in *. clearbody v.
    destruct (anybit v (BV TXINI)) eqn:E.
    + apply wp_ret. split; [done|]. by exists (Rd UEINTX v :: tr1).
    + do 2 wp_step. pose proof (hw_attached _ _ _ Hhost (Rd UEINTX v :: tr1)) as [Hd0 Hd5]. cbn [app] in Hd0, Hd5.
      set (d := reg_trunc GPIOR0 _) in *. clearbody d.
      rewrite (proj2 (Z.eqb_neq _ _) Hd0), (proj2 (Z.eqb_neq _ _) Hd5). apply wp_ret.
      split; [by exists (Rd GPIOR0 d :: Rd UEINTX v :: tr1)|].
      change (Rd GPIOR0 d :: Rd UEINTX v :: tr1 ++ h0) with ((Rd GPIOR0 d :: Rd UEINTX v :: tr1) ++ h0).
      cbn [hist]. rewrite !length_app, !Nat.add_sub, !take_app_length. cbn [polls].
      destruct (decide (k <= polls tr1)%nat) as [Hk|]; [|lia]. discriminate (Hst Hk ltac:(lia)).
Qed.
End control_read.

(** Control-OUT data stages are complete: with any host that sends [Length]
    bytes, whatever the packets, and answers within [k] polls,
    [Endpoint_Read_Control_Stream_LE] terminates with NoError and the buffer
    starts with exactly those bytes; what it held behind them stays. *)
Theorem control_read_complete {G} `{Hardware} (k fuel : nat) (ps : list (list Z)) (Buffer : list Z) (s : st G) :
  control_writer k ps (hist s) -> Forall (fun p => p <> []) ps -> zlen (concat ps) < 2 ^ 16 ->
  Forall (fun p => length p < fuel)%nat ps -> (length ps * S k + k + 1 < fuel)%nat ->
  wp_ False (Endpoint_Read_Control_Stream_LE fuel Buffer (zlen (concat ps))) (fun r s' =>
    r = (ENDPOINT_RWCSTREAM_NoError, list_inserts 0 (concat ps) Buffer)
    /\ glob s' = glob s
    /\ exists tr, hist s' = tr ++ hist s /\ (length ps <= released tr)%nat) s.
Proof.
  intros Hhost Hps Hlen Hpf Hfuel. destruct s as [h0 g]. cbn [hist glob] in *.
  unfold Endpoint_Read_Control_Stream_LE, read_control_stream. cbn [buffer_offset].
  assert (Hrun : forall tr, got tr = 0%nat ->
    (zlen (concat ps), 0, Buffer) = (zlen (concat (drop (released tr) ps)), zlen (concat (take (released tr) ps)),
            list_inserts 0 (concat (take (released tr) ps)) Buffer) ->
    wp_ False (r ← loop fuel (control_r_step fuel LE) (zlen (concat ps), 0, Buffer);
      match r : option Z * list Z with
      | (Some e, Buffer') => mret (e, Buffer')
      | (None, Buffer') => e ← control_status_wait fuel Endpoint_IsINReady; mret (e, Buffer')
      end) (fun r s' => r = (ENDPOINT_RWCSTREAM_NoError, list_inserts 0 (concat ps) Buffer)
        /\ glob s' = g /\ exists tr, hist s' = tr ++ h0 /\ (length ps <= released tr)%nat) (St (tr ++ h0) g)).
  { intros tr Hg Hx. apply wp_bind. eapply wp_conseq;
      [apply (wp_loop_total _ (cr_inv ps h0 g Buffer) (cr_mu (G:=G) k ps h0) (cr_post ps h0 g Buffer))|done|].
    - by exists tr.
    - rewrite cr_mu_app. nia.
    - intros x s' HI. by apply (cr_step k ps h0 Hhost g Buffer Hps Hlen).
    - intros r s' (tr' & -> & Hr' & ->). wp_call (cr_status_wait k ps h0 Hhost g fuel tr' Hr' ltac:(nia)).
      intros e s'' [-> (tr2 & -> & Hr2)]. apply wp_ret. split_and!; [done|done|]. exists tr2. split; [done|]. lia. }
  unfold when. destruct (Z.eqb_spec (zlen (concat ps)) 0) as [Hz|Hz]; apply wp_bind.
  - assert (ps = []) as -> by (apply nil_length_inv; pose proof (all_taken ps Hps 0 Hz); lia).
    unfold Endpoint_ClearOUT, reg_clr. do 3 wp_step.
    match goal with |- wp_ _ _ _ (St (?a :: ?b :: h0) g) => apply (Hrun [a; b]) end; [|by destruct (released _)].
    cbn [got]. by destruct (anybit _ (BV RXOUTI)).
  - apply wp_ret. by apply (Hrun []).
Qed.

(** What it leaves alone. *)
#[export] Instance read_control_stream_runs {G} `{Hardware} (S : relation G) `{!PreOrder S} o fuel Buffer Length :
  Runs (frame not_fifo S) (read_control_stream o fuel Buffer Length).
Proof.
  unfold read_control_stream, control_r_step, control_drain, control_status_wait, transfer_in,
    Endpoint_Read_8, Endpoint_ClearOUT, get_DeviceState, Endpoint_IsSETUPReceived,
    Endpoint_IsOUTReceived, Endpoint_IsINReady, Endpoint_BytesInEndpoint. runs_go.
Qed.
