(* ===== verification/BulkTraffic.v ===== *)
(** * Bulk endpoints

    What the stream functions do to the packets a host has sent to an OUT
    endpoint and to the banks of an IN endpoint, with a host that is prompt:
    the next packet or bank is there when it is asked for.  A program may
    use several endpoints in turn; the history says which one each access to
    the shared registers was meant for. *)

From S2P Require Import Prelude Machine Endpoint EndpointStream.

(** The endpoint with number [n] is selected. *)
Definition sel (n : Z) (h : history) : bool := bool_decide (last_wr UENUM h = Some n).

(** Packets of the OUT endpoint [n] given back so far, and bytes read from the
    one in the bank. *)
Fixpoint out_bank (n : Z) (h : history) : nat * nat :=
  match h with
  | [] => (O, O)
  | Rd UEDATX _ :: h' => let '(r, j) := out_bank n h' in if sel n h' then (r, S j) else (r, j)
  | Wr UEINTX v :: h' =>
      let '(r, j) := out_bank n h' in
      if sel n h' && negb (anybit v (BV RXOUTI)) then (S r, O) else (r, j)
  | _ :: h' => out_bank n h'
  end.

(** Packets the IN endpoint [n] has sent so far, and the bytes in its bank. *)
Fixpoint in_bank (n : Z) (h : history) : list (list Z) * list Z :=
  match h with
  | [] => ([], [])
  | Wr UEDATX v :: h' => let '(s, b) := in_bank n h' in if sel n h' then (s, b ++ [v]) else (s, b)
  | Wr UEINTX v :: h' =>
      let '(s, b) := in_bank n h' in
      if sel n h' && negb (anybit v (BV TXINI)) then (s ++ [b], []) else (s, b)
  | _ :: h' => in_bank n h'
  end.

(** The bytes that have gone out of [n], those in the bank included. *)
Definition out_bytes (n : Z) (h : history) : list Z :=
  concat (fst (in_bank n h)) ++ snd (in_bank n h).

(** A host that sends the packets [ps], from power-on, to the OUT endpoint [n]. *)
Record bulk_out `{Hardware} (n : Z) (ps : list (list Z)) : Prop := {
  bo_dir : forall h, sel n h = true ->
    anybit (reg_trunc UECFG0X (hw_value h UECFG0X)) (BV EPDIR) = false;
  bo_flags : forall h r j p, sel n h = true -> out_bank n h = (r, j) -> ps !! r = Some p ->
    let v := reg_trunc UEINTX (hw_value h UEINTX) in
    anybit v (BV RXOUTI) = true /\ anybit v (BV RWAL) = (j <? length p)%nat;
  bo_data : forall h r j p x, sel n h = true -> out_bank n h = (r, j) -> ps !! r = Some p ->
    p !! j = Some x -> reg_trunc UEDATX (hw_value h UEDATX) = x;
}.

(** A host that takes every packet of the IN endpoint [n], which has banks of
    [size] bytes. *)
Record bulk_in `{Hardware} (n : Z) (size : nat) : Prop := {
  bi_size : (0 < size)%nat;
  bi_dir : forall h, sel n h = true ->
    anybit (reg_trunc UECFG0X (hw_value h UECFG0X)) (BV EPDIR) = true;
  bi_flags : forall h, sel n h = true ->
    let v := reg_trunc UEINTX (hw_value h UEINTX) in
    anybit v (BV TXINI) = true
    /\ anybit v (BV RWAL) = (length (snd (in_bank n h)) <? size)%nat;
}.

(** A packet is in the bank and [bs] is what is still to come of the packets,
    this one and the next. *)
Definition arriving (n : Z) (ps : list (list Z)) (bs : list Z) (h : history) : Prop :=
  exists r j p, out_bank n h = (r, j) /\ ps !! r = Some p /\ (j <= length p)%nat
    /\ bs = drop j p ++ concat (drop (S r) ps).

(** The endpoint is selected, too. *)
Definition incoming (n : Z) (ps : list (list Z)) (bs : list Z) (h : history) : Prop :=
  sel n h = true /\ arriving n ps bs h.

(** Stall requests so far, with the endpoint that was selected, and how often
    the program has looked for a stall since the last one. *)
Definition is_stall (v : Z) : bool := anybit v (BV STALLRQ) && negb (anybit v (BV STALLRQC)).
#[global] Arguments is_stall : simpl never.
Fixpoint stalls (h : history) : list (option Z) :=
  match h with
  | [] => []
  | Wr UECONX v :: h' => stalls h' ++ (if is_stall v then [last_wr UENUM h'] else [])
  | _ :: h' => stalls h'
  end.
Fixpoint stall_polls (h : history) : nat :=
  match h with
  | [] => O
  | Rd UECONX _ :: h' => S (stall_polls h')
  | Wr UECONX v :: h' => if is_stall v then O else stall_polls h'
  | _ :: h' => stall_polls h'
  end.

(** The delays the program has made. *)
Fixpoint delays (h : history) : nat :=
  match h with
  | [] => O
  | DelayUs _ :: h' => S (delays h')
  | _ :: h' => delays h'
  end.

(** The endpoints in [P] have been left alone, the same one is selected,
    none has been stalled, and no time has been wasted. *)
Record untouched (P : Z -> Prop) (h h' : history) : Prop := {
  un_sel : last_wr UENUM h' = last_wr UENUM h;
  un_bank m : P m -> in_bank m h' = in_bank m h /\ out_bank m h' = out_bank m h;
  un_stalls : stalls h' = stalls h;
  un_polls : (stall_polls h <= stall_polls h')%nat;
  un_delays : delays h' = delays h;
}.
Definition apart (n : Z) : history -> history -> Prop := untouched (fun m => m <> n).

#[export] Instance untouched_preorder P : PreOrder (untouched P).
Proof.
  split; [done|]. intros h1 h2 h3 [L1 E1 S1 P1 D1] [L2 E2 S2 P2 D2]. split; [congruence| |congruence|lia|congruence].
  intros m Hm. destruct (E1 m Hm), (E2 m Hm). split; congruence.
Qed.
#[export] Instance apart_preorder n : PreOrder (apart n) := untouched_preorder _.

Lemma untouched_mono (P Q : Z -> Prop) h h' : (forall m, Q m -> P m) -> untouched P h h' -> untouched Q h h'.
Proof. intros HPQ []. split; auto. Qed.

Lemma untouched_sel P n h h' : untouched P h h' -> sel n h' = sel n h.
Proof. unfold sel. by intros [-> _ _ _ _]. Qed.
Lemma sel_ne n m h : sel n h = true -> m <> n -> sel m h = false.
Proof. unfold sel. rewrite bool_decide_eq_true, bool_decide_eq_false. congruence. Qed.

(** One access to a shared register, with [n] selected. *)
Lemma apart_rd n r v h : sel n h = true -> apart n h (Rd r v :: h).
Proof.
  intros Hs. split; [done| |done|destruct r; cbn [stall_polls]; lia|done]. intros m Hm. split; [by destruct r|].
  destruct r; try done. cbn [out_bank]. rewrite (sel_ne n) by done. by destruct (out_bank m h).
Qed.
Lemma apart_wr n r v h : r <> UENUM -> r <> UECONX -> sel n h = true -> apart n h (Wr r v :: h).
Proof.
  intros Hr Hc Hs. split; [by destruct r| |by destruct r|by destruct r|done]. intros m Hm. cbn [in_bank out_bank].
  destruct r; try done; rewrite (sel_ne n) by done; by destruct (in_bank m h), (out_bank m h).
Qed.

(** Reads of anything but the data register change nothing of this. *)
Lemma incoming_rd n ps bs r v h : r <> UEDATX -> incoming n ps bs h -> incoming n ps bs (Rd r v :: h).
Proof. intros Hr [Hs Hb]. split; [exact Hs|]. by destruct r. Qed.

Lemma untouched_all P h h' : untouched (fun _ => True) h h' -> untouched P h h'.
Proof. by apply untouched_mono. Qed.

Lemma untouched_rd r v h : r <> UEDATX -> untouched (fun _ => True) h (Rd r v :: h).
Proof. intros Hr. split; [done| |done|destruct r; cbn [stall_polls]; lia|done]. intros m _. by destruct r. Qed.

Lemma untouched_incoming n ps bs h h' : untouched (fun _ => True) h h' -> incoming n ps bs h -> incoming n ps bs h'.
Proof.
  intros Hu [Hs Ha]. split; [by rewrite (untouched_sel _ _ _ _ Hu)|].
  unfold arriving. by rewrite (proj2 (un_bank _ _ _ Hu n I)).
Qed.

Lemma out_bank_rd n r v h : r <> UEDATX -> out_bank n (Rd r v :: h) = out_bank n h.
Proof. by destruct r. Qed.
Lemma in_bank_rd n r v h : in_bank n (Rd r v :: h) = in_bank n h.
Proof. by destruct r. Qed.

Section out.
Context {G : Type} `{Hardware} (n : Z) (ps : list (list Z)) (Hhost : bulk_out n ps).

(** The wait for a packet ends at once. *)
Lemma wait_out bs fuel h (g : G) (Q : Z -> st G -> Prop) :
  incoming n ps bs h -> (0 < fuel)%nat ->
  (forall h', incoming n ps bs h' -> out_bank n h' = out_bank n h -> apart n h h' ->
    Q ENDPOINT_READYWAIT_NoError (St h' g)) ->
  wp_ False (Endpoint_WaitUntilReady fuel) Q (St h g).
Proof.
  intros Hin Hf HQ. destruct fuel as [|fuel]; [lia|]. pose proof Hin as [Hs (r & j & p & Hb & Hp & Hj & Hbs)].
  unfold Endpoint_WaitUntilReady, USB_Device_GetFrameNumber. do 2 wp_step. cbn [loop].
  apply wp_bind. unfold wait_ready_step, Endpoint_GetEndpointDirection. do 3 wp_step.
  rewrite (bo_dir _ _ Hhost) by exact Hs. apply wp_ret.
  change (ENDPOINT_DIR_OUT =? ENDPOINT_DIR_IN) with false. cbv match. unfold Endpoint_IsOUTReceived.
  apply wp_bind, wp_flag. cbv zeta. cbn [hist glob].
  set (h2 := Rd UECFG0X _ :: Rd UDFNUM _ :: h).
  rewrite (proj1 (bo_flags _ _ Hhost h2 r j p Hs Hb Hp)). apply wp_ret, wp_ret.
  apply HQ; [by repeat apply incoming_rd|done|].
  by transitivity h2; [transitivity (Rd UDFNUM (reg_trunc UDFNUM (hw_value h UDFNUM)) :: h)|]; apply apart_rd.
Qed.

(** Giving a packet back. *)
Lemma clear_out h (g : G) (Q : unit -> st G -> Prop) r j :
  sel n h = true -> out_bank n h = (r, j) ->
  (forall h', sel n h' = true -> out_bank n h' = (S r, O) -> apart n h h' -> Q tt (St h' g)) ->
  wp_ False Endpoint_ClearOUT Q (St h g).
Proof using.
  intros Hs Hb HQ.
  unfold Endpoint_ClearOUT, reg_clr. do 3 wp_step. set (v := reg_trunc UEINTX (hw_value h UEINTX)).
  set (w := reg_trunc UEINTX (clrbits v _)).
  assert (Hw : anybit w (BV RXOUTI) = false).
  { unfold w. rewrite anybit_BV by done. by reg_bits. }
  apply HQ; [exact Hs| |].
  - cbn [out_bank]. change (sel n (Rd UEINTX v :: h)) with (sel n h). by rewrite Hb, Hs, Hw.
  - transitivity (Rd UEINTX v :: h); [by apply apart_rd|]. by apply apart_wr.
Qed.

(** After an exhausted packet comes the next. *)
Lemma incoming_next bs h h' r j p :
  incoming n ps bs h -> out_bank n h = (r, j) -> ps !! r = Some p -> j = length p -> bs <> [] ->
  sel n h' = true -> out_bank n h' = (S r, O) -> incoming n ps bs h'.
Proof using.
  intros [Hs (r' & j' & p' & Hb' & Hp' & Hj & Hbs)] Hb Hp -> Hne Hs' Hb2. split; [done|].
  assert (r' = r /\ j' = length p) as [-> ->] by (split; congruence). replace p' with p in * by congruence.
  rewrite drop_all in Hbs. cbn [app] in Hbs. destruct (ps !! S r) as [q|] eqn:Hq.
  - exists (S r), 0%nat, q. split_and!; [done|done|lia|]. by rewrite drop_0, Hbs, (drop_S ps q _ Hq).
  - exfalso. apply Hne. rewrite Hbs, drop_ge; [done|]. by apply lookup_ge_None.
Qed.

(** *** Reading a stream *)

Section read.
Context (start : Z) (B : option Z) (bs1 bs2 Buf : list Z) (h0 : history) (g : G) (fuel : nat).
Context (Hstart : 0 <= start) (HB : B = None \/ B = Some start) (Hlen : start + zlen bs1 < 2 ^ 16).

(** [b0] has been read, [b1] is still to be read. *)
Definition read_at (b0 b1 : list Z) (h : history) : Prop :=
  bs1 = b0 ++ b1 /\ incoming n ps (b1 ++ bs2) h /\ apart n h0 h
  /\ (fst (out_bank n h0) <= fst (out_bank n h))%nat.
Definition read_inv (x : Z * Z * Z * list Z) (s : st G) : Prop :=
  exists b0 b1 h, s = St h g /\ read_at b0 b1 h
    /\ x = (zlen b1, start + zlen b0, zlen b0, list_inserts (Z.to_nat start) b0 Buf).
Definition read_mu (x : Z * Z * Z * list Z) (s : st G) : nat :=
  (Z.to_nat (fst (fst (fst x))) + (length ps - fst (out_bank n (hist s))))%nat.
Definition read_post (r : Z * option Z * list Z) (s : st G) : Prop :=
  exists b0 b1 h, s = St h g /\ read_at b0 b1 h
    /\ ((b1 = [] /\ r = (ENDPOINT_RWSTREAM_NoError, B, list_inserts (Z.to_nat start) b0 Buf))
        \/ (b1 <> [] /\ (fst (out_bank n h0) < fst (out_bank n h))%nat /\ B = Some start
            /\ r = (ENDPOINT_RWSTREAM_IncompleteTransfer, Some (start + zlen b0),
                    list_inserts (Z.to_nat start) b0 Buf))).

Lemma read_step x s :
  read_inv x s -> (0 < fuel)%nat ->
  wp_ False (rw_step LE Endpoint_ClearOUT transfer_in fuel B x) (fun r s' =>
    match r with
    | inl x' => read_inv x' s' /\ (read_mu x' s' < read_mu x s)%nat
    | inr b => read_post b s'
    end) s.
Proof using Hhost Hstart HB Hlen.
  intros (b0 & b1 & h & -> & (Hb & Hin & Hap & Hmon) & ->) Hfuel. cbn [rw_step].
  destruct (Z.eqb_spec (zlen b1) 0) as [Hz|Hz].
  { apply wp_ret. assert (b1 = []) as -> by (destruct b1; [done|rewrite zlen_cons in Hz; pose proof (zlen_nonneg b1); lia]).
    exists b0, [], h. split; [done|]. split; [done|]. by left. }
  destruct b1 as [|x b1]; [done|]. pose proof Hin as [Hs (r & j & p & Hbk & Hp & Hj & Hbs)].
  unfold Endpoint_IsReadWriteAllowed. apply wp_bind, wp_flag. cbv zeta. cbn [hist glob].
  rewrite (proj2 (bo_flags _ _ Hhost h r j p Hs Hbk Hp)). set (v := reg_trunc UEINTX _).
  assert (Hap1 : apart n h0 (Rd UEINTX v :: h)) by (transitivity h; [done|by apply apart_rd]).
  assert (Hin1 : incoming n ps ((x :: b1) ++ bs2) (Rd UEINTX v :: h)) by by apply incoming_rd.
  assert (Hl : start + zlen b0 + (1 + zlen b1) < 2 ^ 16) by (rewrite Hb, zlen_app, zlen_cons in Hlen; lia).
  pose proof (zlen_nonneg b0) as Hp0. pose proof (zlen_nonneg b1) as Hp1.
  destruct (Nat.ltb_spec j (length p)) as [Hlt|Hge]; cbn [negb].
  - destruct (lookup_lt_is_Some_2 p j Hlt) as [y Hy]. rewrite (drop_S p y j Hy) in Hbs. cbn [app] in Hbs.
    injection Hbs as <- Hbs.
    unfold transfer_in, Endpoint_Read_8. do 4 wp_step.
    rewrite (bo_data _ _ Hhost (Rd UEINTX v :: h) r j p x Hs Hbk Hp Hy). apply wp_ret.
    rewrite zlen_cons, !u16_id by (unfold is_u16; lia). split.
    + exists (b0 ++ [x]), b1, (Rd UEDATX x :: Rd UEINTX v :: h). split; [done|]. split.
      * split; [by rewrite <- app_assoc|]. split; [|split].
        -- split; [exact Hs|]. exists r, (S j), p. cbn [out_bank].
           change (sel n (Rd UEINTX v :: h)) with (sel n h). rewrite Hbk, Hs. split_and!; [done|done|lia|done].
        -- transitivity (Rd UEINTX v :: h); [done|by apply apart_rd].
        -- cbn [out_bank]. change (sel n (Rd UEINTX v :: h)) with (sel n h). rewrite Hbk, Hs.
           rewrite Hbk in Hmon. exact Hmon.
      * rewrite zlen_app, list_inserts_app_l. cbn [buffer_move list_inserts]. unfold zlen. cbn [length].
        rewrite (Z2Nat.inj_add start), Nat2Z.id, (Nat.add_comm (Z.to_nat start)) by lia.
        do 3 f_equal; lia.
    + unfold read_mu. cbn [fst hist out_bank]. change (sel n (Rd UEINTX v :: h)) with (sel n h).
      rewrite Hbk, Hs. cbn [fst]. lia.
  - assert (j = length p) as -> by lia. apply wp_bind.
    apply (clear_out _ _ _ r (length p)); [exact Hs|exact Hbk|]. intros h1 Hs1 Hb1 Hap2.
    assert (Hin2 : incoming n ps ((x :: b1) ++ bs2) h1) by (eapply (incoming_next _ h); done).
    assert (Hap3 : apart n h0 h1) by (by transitivity (Rd UEINTX v :: h)).
    destruct HB as [-> | ->].
    + apply wp_bind. apply (wait_out ((x :: b1) ++ bs2)); [done|done|]. intros h2 Hin3 Hb3 Hap4.
      change (ENDPOINT_READYWAIT_NoError =? 0) with true. cbn [negb]. apply wp_ret.
      split; [|unfold read_mu; cbn [fst hist]; rewrite Hb3, Hb1, Hbk; cbn [fst]; apply lookup_lt_Some in Hp; lia].
      exists b0, (x :: b1), h2. split; [done|]. split; [|done].
      split; [done|]. split; [done|]. split; [by transitivity h1|]. rewrite Hb3, Hb1. rewrite Hbk in Hmon.
      cbn [fst] in *. lia.
    + apply wp_ret. exists b0, (x :: b1), h1. rewrite Hbk in Hmon. cbn [fst] in Hmon.
      split; [done|]. split; [split; [done|]; split; [done|]; split; [done|]; rewrite Hb1; cbn [fst]; lia|].
      right. rewrite u16_id by (unfold is_u16; lia). split; [done|]. rewrite Hb1. cbn [fst]. split; [lia|done].
Qed.

Lemma read_stream_spec :
  incoming n ps (bs1 ++ bs2) h0 -> (B = None -> start = 0) ->
  (length bs1 + length ps < fuel)%nat ->
  wp_ False (Endpoint_Read_Stream_LE fuel Buf (start + zlen bs1) B) read_post (St h0 g).
Proof using Hhost Hstart HB Hlen.
  intros Hin H0 Hfuel. unfold Endpoint_Read_Stream_LE, read_stream, Template_Endpoint_RW.
  apply wp_bind. apply (wait_out (bs1 ++ bs2)); [done|lia|]. intros h1 Hin1 Hb1 Hap1.
  change (ENDPOINT_READYWAIT_NoError =? 0) with true. cbn [negb]. pose proof (zlen_nonneg bs1).
  assert (Hx : (match B with Some n0 => (u16 (start + zlen bs1 - n0), buffer_move LE (buffer_offset LE (start + zlen bs1)) n0)
    | None => (start + zlen bs1, buffer_offset LE (start + zlen bs1)) end) = (zlen bs1, start)).
  { destruct HB as [-> | ->]; cbn [buffer_offset buffer_move].
    - by rewrite (H0 eq_refl).
    - f_equal. rewrite u16_id by (unfold is_u16; lia). lia. }
  rewrite Hx. apply (wp_loop_total _ read_inv read_mu).
  - exists [], bs1, h1. split; [done|]. split; [|by rewrite Z.add_0_r].
    split; [done|]. split; [done|]. split; [done|]. by rewrite Hb1.
  - unfold read_mu. cbn [fst hist]. unfold zlen. lia.
  - intros x s Hi. by apply read_step; [|lia].
Qed.
End read.
End out.

(** ** Writing *)

Section inn.
Context {G : Type} `{Hardware} (n : Z) (size : nat) (Hhost : bulk_in n size).

Lemma wait_in fuel h (g : G) (Q : Z -> st G -> Prop) :
  sel n h = true -> (0 < fuel)%nat ->
  (forall h', sel n h' = true -> in_bank n h' = in_bank n h -> apart n h h' ->
    Q ENDPOINT_READYWAIT_NoError (St h' g)) ->
  wp_ False (Endpoint_WaitUntilReady fuel) Q (St h g).
Proof using Hhost.
  intros Hs Hf HQ. destruct fuel as [|fuel]; [lia|].
  unfold Endpoint_WaitUntilReady, USB_Device_GetFrameNumber. do 2 wp_step. cbn [loop].
  apply wp_bind. unfold wait_ready_step, Endpoint_GetEndpointDirection. do 3 wp_step.
  rewrite (bi_dir _ _ Hhost) by exact Hs. apply wp_ret.
  change (ENDPOINT_DIR_IN =? ENDPOINT_DIR_IN) with true. cbv match. unfold Endpoint_IsINReady.
  apply wp_bind, wp_flag. cbv zeta. cbn [hist glob].
  set (h2 := Rd UECFG0X _ :: Rd UDFNUM _ :: h).
  rewrite (proj1 (bi_flags _ _ Hhost h2 Hs)). apply wp_ret, wp_ret.
  apply HQ; [exact Hs|done|].
  by transitivity h2; [transitivity (Rd UDFNUM (reg_trunc UDFNUM (hw_value h UDFNUM)) :: h)|]; apply apart_rd.
Qed.

(** Sending the bank. *)
Lemma clear_in h (g : G) (Q : unit -> st G -> Prop) :
  sel n h = true ->
  (forall h', sel n h' = true -> apart n h h' ->
    in_bank n h' = (fst (in_bank n h) ++ [snd (in_bank n h)], []) ->
    Q tt (St h' g)) ->
  wp_ False Endpoint_ClearIN Q (St h g).
Proof using.
  intros Hs HQ. unfold Endpoint_ClearIN, reg_clr. do 3 wp_step. set (v := reg_trunc UEINTX (hw_value h UEINTX)).
  set (w := reg_trunc UEINTX (clrbits v _)).
  assert (Hw : anybit w (BV TXINI) = false).
  { unfold w. rewrite anybit_BV by done. by reg_bits. }
  apply HQ; [exact Hs| |].
  - transitivity (Rd UEINTX v :: h); [by apply apart_rd|]. by apply apart_wr.
  - cbn [in_bank]. change (sel n (Rd UEINTX v :: h)) with (sel n h). rewrite Hs, Hw.
    by destruct (in_bank n h).
Qed.

Lemma out_bytes_sent h h' :
  in_bank n h' = (fst (in_bank n h) ++ [snd (in_bank n h)], []) -> out_bytes n h' = out_bytes n h.
Proof using.
  unfold out_bytes. intros ->. cbn [fst snd]. rewrite concat_app. cbn [concat]. by rewrite !app_nil_r.
Qed.

Section write.
Context (start L : Z) (B : option Z) (Buffer : list Z) (h0 : history) (g : G) (fuel : nat).
Context (Hstart : 0 <= start <= L) (HB : B = None \/ B = Some start) (Hlen : L < 2 ^ 16).
Context (H8 : Forall is_u8 Buffer) (HL : L <= zlen Buffer).

(** The first [p] bytes of the buffer are out. *)
Definition write_at (p : Z) (h : history) : Prop :=
  start <= p <= L /\ sel n h = true /\ apart n h0 h
  /\ out_bytes n h = out_bytes n h0 ++ take (Z.to_nat (p - start)) (drop (Z.to_nat start) Buffer).
Definition write_inv (x : Z * Z * Z * unit) (s : st G) : Prop :=
  exists p h, s = St h g /\ write_at p h /\ x = (L - p, p, p - start, tt)
    /\ (B = Some start -> p = start -> snd (in_bank n h) = snd (in_bank n h0)).
Definition write_mu (x : Z * Z * Z * unit) (s : st G) : nat :=
  (2 * Z.to_nat (fst (fst (fst x))) + (if length (snd (in_bank n (hist s))) <? size then 0 else 1))%nat.
Definition write_post (r : Z * option Z * unit) (s : st G) : Prop :=
  exists p h, s = St h g /\ write_at p h
    /\ ((p = L /\ r = (ENDPOINT_RWSTREAM_NoError, B, tt))
        \/ (p < L /\ snd (in_bank n h) = [] /\ B = Some start
            /\ ((length (snd (in_bank n h0)) < size)%nat -> start < p)
            /\ r = (ENDPOINT_RWSTREAM_IncompleteTransfer, Some p, tt))).

Lemma write_step x s :
  write_inv x s -> (0 < fuel)%nat ->
  wp_ False (rw_step LE Endpoint_ClearIN (transfer_out Buffer) fuel B x) (fun r s' =>
    match r with
    | inl x' => write_inv x' s' /\ (write_mu x' s' < write_mu x s)%nat
    | inr b => write_post b s'
    end) s.
Proof using Hhost Hstart HB Hlen H8 HL.
  intros (p & h & -> & (Hp & Hs & Hap & Hout) & -> & Hsame) Hfuel. cbn [rw_step].
  destruct (Z.eqb_spec (L - p) 0) as [Hz|Hz].
  { apply wp_ret. exists p, h. split; [done|]. split; [done|]. left. split; [lia|done]. }
  unfold Endpoint_IsReadWriteAllowed. apply wp_bind, wp_flag. cbv zeta. cbn [hist glob].
  rewrite (proj2 (bi_flags _ _ Hhost h Hs)). set (v := reg_trunc UEINTX _).
  assert (Hap1 : apart n h0 (Rd UEINTX v :: h)) by (transitivity h; [done|by apply apart_rd]).
  unfold write_mu. cbn [fst hist].
  destruct (length (snd (in_bank n h)) <? size)%nat eqn:Hroom; cbn [negb].
  - destruct (lookup_lt_is_Some_2 Buffer (Z.to_nat p)) as [y Hy]; [unfold zlen in HL; lia|].
    unfold transfer_out, Endpoint_Write_8, byte_at. rewrite Hy. change (default 0 (Some y)) with y. do 3 wp_step.
    rewrite reg_trunc_u8 by (reflexivity || exact (Forall_lookup_1 _ _ _ _ H8 Hy)).
    rewrite !u16_id by (unfold is_u16; lia). cbn [buffer_move hist].
    set (h1 := Wr UEDATX y :: Rd UEINTX v :: h).
    assert (Hbank : in_bank n h1 = (fst (in_bank n h), snd (in_bank n h) ++ [y])).
    { unfold h1. cbn [in_bank]. change (sel n (Rd UEINTX v :: h)) with (sel n h). rewrite Hs.
      by destruct (in_bank n h). }
    split.
    + exists (p + 1), h1. split; [done|]. split; [|split; [do 3 f_equal; lia|lia]].
      split; [lia|]. split; [exact Hs|]. split; [transitivity (Rd UEINTX v :: h); [done|by apply apart_wr]|].
      unfold out_bytes at 1. rewrite Hbank. cbn [fst snd]. rewrite app_assoc.
      change (concat (fst (in_bank n h)) ++ snd (in_bank n h)) with (out_bytes n h). rewrite Hout, <- app_assoc.
      f_equal. replace (Z.to_nat (p + 1 - start)) with (S (Z.to_nat (p - start))) by lia.
      rewrite (take_S_r _ _ y); [done|]. rewrite lookup_drop, <- Hy. f_equal. lia.
    + cbn [fst hist]. destruct (length (snd (in_bank n h1)) <? size)%nat; lia.
  - apply wp_bind. apply clear_in; [exact Hs|]. intros h1 Hs1 Hap2 Hb1.
    assert (Hap3 : apart n h0 h1) by (by transitivity (Rd UEINTX v :: h)).
    assert (Hout1 : out_bytes n h1 = out_bytes n h0 ++ take (Z.to_nat (p - start)) (drop (Z.to_nat start) Buffer))
      by (rewrite <- Hout; by apply out_bytes_sent).
    destruct HB as [HB1|HB1]; rewrite HB1.
    + apply wp_bind. apply wait_in; [done|done|]. intros h2 Hs2 Hb2 Hap4.
      change (ENDPOINT_READYWAIT_NoError =? 0) with true. cbn [negb hist]. apply wp_ret. cbn [hist]. split.
      * exists p, h2. split; [done|]. split; [|split; [done|congruence]]. split; [done|]. split; [done|].
        split; [by transitivity h1|]. rewrite <- Hout1. unfold out_bytes. by rewrite Hb2.
      * rewrite Hb2, Hb1. cbn [snd length]. pose proof (bi_size _ _ Hhost).
        rewrite (proj2 (Nat.ltb_lt 0 size)) by lia. cbn [fst]. lia.
    + apply wp_ret. exists p, h1. split; [done|]. split; [done|]. right. rewrite Hb1. cbn [snd].
      rewrite u16_id by (unfold is_u16; lia). split_and!; try done; [lia| |f_equal; f_equal; f_equal; lia].
      intros Hr0. destruct (decide (p = start)) as [->|]; [|lia].
      rewrite (Hsame HB1 eq_refl) in Hroom. apply Nat.ltb_lt in Hr0. congruence.
Qed.

Lemma write_stream_spec :
  sel n h0 = true -> (B = None -> start = 0) -> (2 * Z.to_nat L + 1 < fuel)%nat ->
  wp_ False (Endpoint_Write_Stream_LE fuel Buffer L B) write_post (St h0 g).
Proof using Hhost Hstart HB Hlen H8 HL.
  intros Hs H0 Hfuel. unfold Endpoint_Write_Stream_LE, write_stream, Template_Endpoint_RW.
  apply wp_bind. apply wait_in; [done|lia|]. intros h1 Hs1 Hb1 Hap1.
  change (ENDPOINT_READYWAIT_NoError =? 0) with true. cbn [negb].
  assert (Hx : (match B with Some n0 => (u16 (L - n0), buffer_move LE (buffer_offset LE L) n0)
    | None => (L, buffer_offset LE L) end) = (L - start, start)).
  { destruct HB as [-> | ->]; cbn [buffer_offset buffer_move].
    - rewrite (H0 eq_refl). f_equal. lia.
    - f_equal. by rewrite u16_id by (unfold is_u16; lia). }
  rewrite Hx. apply (wp_loop_total _ write_inv write_mu).
  - exists start, h1. split; [done|]. split; [|split; [do 3 f_equal; lia|by rewrite Hb1]].
    split; [lia|]. split; [done|]. split; [done|]. rewrite Z.sub_diag. cbn [Z.to_nat take].
    unfold out_bytes. by rewrite Hb1, app_nil_r.
  - unfold write_mu. cbn [fst hist]. destruct (_ <? size)%nat; lia.
  - intros x s Hi. by apply write_step; [|lia].
Qed.
End write.
End inn.

(** ** Taking and filling packet by packet *)

(** [bs] is what the program has still to take of the packets [ps], and a
    packet that is in the bank has a byte left. *)
Definition queued (n : Z) (ps : list (list Z)) (bs : list Z) (h : history) : Prop :=
  exists r j, out_bank n h = (r, j)
    /\ match ps !! r with
       | Some p => (j < length p)%nat /\ bs = drop j p ++ concat (drop (S r) ps)
       | None => r = length ps /\ j = O /\ bs = []
       end.

Lemma queued_next n ps r h :
  Forall (fun p => p <> []) ps -> out_bank n h = (r, O) -> (r <= length ps)%nat ->
  queued n ps (concat (drop r ps)) h.
Proof.
  intros Hne Hb Hr. exists r, O. split; [done|]. destruct (ps !! r) as [p|] eqn:Hp.
  - split; [|by rewrite (drop_S ps p r Hp), drop_0]. pose proof (Forall_lookup_1 _ _ _ _ Hne Hp) as Hn.
    destruct p; [done|]. cbn [length]. lia.
  - apply lookup_ge_None in Hp. rewrite drop_ge by done. split_and!; [lia|done|done].
Qed.

(** The byte count register of the IN endpoint [n]. *)
Definition bank_counted `{Hardware} (n : Z) : Prop :=
  forall h, sel n h = true -> (length (snd (in_bank n h)) < 256)%nat ->
    reg_trunc UEBCLX (hw_value h UEBCLX) = zlen (snd (in_bank n h)).

(** The byte count register of the OUT endpoint [n]. *)
Definition out_counted `{Hardware} (n : Z) (ps : list (list Z)) : Prop :=
  forall h r j p, sel n h = true -> out_bank n h = (r, j) -> ps !! r = Some p ->
    (j <= length p)%nat -> (length p < 256)%nat ->
    reg_trunc UEBCLX (hw_value h UEBCLX) = Z.of_nat (length p - j).

(** ** Selecting an endpoint *)

(** The number [Endpoint_SelectEndpoint] writes. *)
Definition ep_num (Address : Z) : Z := reg_trunc UENUM (Z.land Address ENDPOINT_EPNUM_MASK).

Lemma wp_select {G} Address h (g : G) (Q : unit -> st G -> Prop) :
  (let h' := Wr UENUM (ep_num Address) :: h in
   sel (ep_num Address) h' = true -> (forall m, out_bank m h' = out_bank m h /\ in_bank m h' = in_bank m h) ->
   Q tt (St h' g)) ->
  wp_ False (Endpoint_SelectEndpoint Address) Q (St h g).
Proof.
  intros HQ. unfold Endpoint_SelectEndpoint. apply wp_wr. apply HQ; [|done].
  unfold sel. rewrite last_wr_cons_eq. by apply bool_decide_eq_true.
Qed.

(** The device is configured all along. *)
Definition bus_configured `{Hardware} : Prop :=
  forall h, reg_trunc GPIOR0 (hw_value h GPIOR0) = DEVICE_STATE_Configured.

(** ** Examples *)

(** A host that has sent the packets [ps] to the endpoint [n] of a configured device. *)
Definition sender (n : Z) (ps : list (list Z)) : Hardware := fun h r =>
  let '(q, j) := out_bank n h in
  let p := default [] (ps !! q) in
  match r with
  | GPIOR0 => DEVICE_STATE_Configured
  | UEINTX =>
      if (q <? length ps)%nat then Z.lor (BV RXOUTI) (if (j <? length p)%nat then BV RWAL else 0) else 0
  | UEDATX => default 0 (p !! j)
  | UEBCLX => Z.of_nat (length p - j)
  | _ => 0
  end.

Lemma sender_bulk n ps : Forall (Forall is_u8) ps -> @bulk_out (sender n ps) n ps.
Proof.
  intros H8. split; unfold hw_value, sender.
  - intros h _. by destruct (out_bank n h).
  - intros h r j p _ -> Hp. rewrite Hp, (proj2 (Nat.ltb_lt _ _) (lookup_lt_Some _ _ _ Hp)).
    change (default [] (Some p)) with p. by destruct (j <? length p)%nat.
  - intros h r j p x _ -> Hp Hx. rewrite Hp. change (default [] (Some p)) with p. rewrite Hx.
    apply reg_trunc_u8; [done|].
    exact (Forall_lookup_1 _ _ _ _ (Forall_lookup_1 _ _ _ _ H8 Hp) Hx).
Qed.

(** A host that takes the packets of the endpoint [n] of a configured device. *)
Definition taker (n : Z) (size : nat) : Hardware := fun h r =>
  match r with
  | GPIOR0 => DEVICE_STATE_Configured
  | UECFG0X => BV EPDIR
  | UEINTX => Z.lor (BV TXINI) (if (length (snd (in_bank n h)) <? size)%nat then BV RWAL else 0)
  | UEBCLX => zlen (snd (in_bank n h))
  | _ => 0
  end.

Lemma taker_bulk n size : (0 < size)%nat -> @bulk_in (taker n size) n size.
Proof.
  intros Hs. split; [done|done|]. intros h _. unfold hw_value, taker. cbv zeta.
  by destruct (_ <? size)%nat.
Qed.

Lemma taker_counted n size : @bank_counted (taker n size) n.
Proof. intros h _ Hl. unfold hw_value, taker. apply reg_trunc_u8; [done|]. unfold is_u8, zlen. lia. Qed.
Lemma sender_counted n ps : @out_counted (sender n ps) n ps.
Proof.
  intros h r j p _ Hb Hp Hj Hl. unfold hw_value, sender. rewrite Hb, Hp. cbn [default].
  apply reg_trunc_u8; [done|]. unfold is_u8. cbn. lia.
Qed.
Lemma taker_configured n size : @bus_configured (taker n size).
Proof. done. Qed.
Lemma sender_configured n ps : @bus_configured (sender n ps).
Proof. intros h. unfold hw_value, sender. by destruct (out_bank n h). Qed.
