(* ===== verification/Cdc.v ===== *)
(** * LUFA/Drivers/USB/Class/Device/CDCClassDevice.[ch]

    The CDC-ACM (virtual serial port) class driver over the endpoint and
    stream functions.  The three events an application may hook are an
    interface, [CdcEvents]; the build has no [NO_CLASS_DRIVER_AUTOFLUSH]. *)

From S2P Require Import Prelude Machine Endpoint EndpointStream.

Definition REQTYPE_CLASS : Z := 0x20.
Definition REQREC_INTERFACE : Z := 1.
Definition CDC_REQ_SetLineEncoding : Z := 0x20.
Definition CDC_REQ_GetLineEncoding : Z := 0x21.
Definition CDC_REQ_SetControlLineState : Z := 0x22.
Definition CDC_REQ_SendBreak : Z := 0x23.
Definition CDC_NOTIF_SerialState : Z := 0x20.

Record CDC_LineEncoding_t := mkLineEncoding {
  BaudRateBPS : Z;
  CharFormat : Z;
  ParityType : Z;
  DataBits : Z;
}.

Record USB_ClassInfo_CDC_Device_t := mkCDC {
  ControlInterfaceNumber : Z;
  DataINEndpoint : USB_Endpoint_Table_t;
  DataOUTEndpoint : USB_Endpoint_Table_t;
  NotificationEndpoint : USB_Endpoint_Table_t;
  HostToDevice : Z;
  DeviceToHost : Z;
  LineEncoding : CDC_LineEncoding_t;
}.

Definition set_LineEncoding (e : CDC_LineEncoding_t) (c : USB_ClassInfo_CDC_Device_t) :=
  mkCDC (ControlInterfaceNumber c) (DataINEndpoint c) (DataOUTEndpoint c)
    (NotificationEndpoint c) (HostToDevice c) (DeviceToHost c) e.
Definition set_HostToDevice (v : Z) (c : USB_ClassInfo_CDC_Device_t) :=
  mkCDC (ControlInterfaceNumber c) (DataINEndpoint c) (DataOUTEndpoint c)
    (NotificationEndpoint c) v (DeviceToHost c) (LineEncoding c).

(** [memset(&State, 0, sizeof State)] and the endpoint types. *)
Definition set_type (t : Z) (e : USB_Endpoint_Table_t) : USB_Endpoint_Table_t :=
  mkEndpointTable (et_Address e) (et_Size e) t (et_Banks e).
Definition cdc_reset (c : USB_ClassInfo_CDC_Device_t) : USB_ClassInfo_CDC_Device_t :=
  mkCDC (ControlInterfaceNumber c)
    (set_type EP_TYPE_BULK (DataINEndpoint c)) (set_type EP_TYPE_BULK (DataOUTEndpoint c))
    (set_type EP_TYPE_INTERRUPT (NotificationEndpoint c)) 0 0 (mkLineEncoding 0 0 0 0).

(** The weakly linked event hooks of the application. *)
Class CdcEvents (G : Type) := {
  EVENT_CDC_Device_LineEncodingChanged : M G unit;
  EVENT_CDC_Device_ControLineStateChanged : M G unit;
  EVENT_CDC_Device_BreakSent : Z -> M G unit;
}.

(** [CDC_Device_Event_Stub], what an event the application does not hook runs. *)
Definition CDC_Device_Event_Stub {G} : M G unit := mret tt.

Section cdc.
Context {G : Type} `{Hardware} `{Has UsbState G} `{Has USB_ClassInfo_CDC_Device_t G}.
Context `{CdcEvents G}.

(** [while (!ready);] *)
Definition busy_wait (fuel : nat) (ready : M G bool) : M G unit :=
  loop fuel (fun _ : unit => r ← ready; mret (if r : bool then inr tt else inl tt)) tt.

Definition Write_LineEncoding (e : CDC_LineEncoding_t) : M G unit :=
  Endpoint_Write_32_LE (BaudRateBPS e) ;;
  Endpoint_Write_8 (CharFormat e) ;;
  Endpoint_Write_8 (ParityType e) ;;
  Endpoint_Write_8 (DataBits e).

Definition Read_LineEncoding : M G CDC_LineEncoding_t :=
  baud ← Endpoint_Read_32_LE; c ← Endpoint_Read_8; p ← Endpoint_Read_8; d ← Endpoint_Read_8;
  mret (mkLineEncoding baud c p d).

Definition CDC_Device_ProcessControlRequest (fuel : nat) : M G unit :=
  setup ← Endpoint_IsSETUPReceived;
  if negb (setup : bool) then mret tt else
  r ← getc USB_ControlRequest;
  n ← getc ControlInterfaceNumber;
  if negb (wIndex r =? n) then mret tt else
  let out := Z.lor (Z.lor REQDIR_HOSTTODEVICE REQTYPE_CLASS) REQREC_INTERFACE in
  let inn := Z.lor (Z.lor REQDIR_DEVICETOHOST REQTYPE_CLASS) REQREC_INTERFACE in
  if bRequest r =? CDC_REQ_GetLineEncoding then
    when (bmRequestType r =? inn) (
      Endpoint_ClearSETUP ;;
      busy_wait fuel Endpoint_IsINReady ;;
      e ← getc LineEncoding;
      Write_LineEncoding e ;;
      Endpoint_ClearIN ;;
      Endpoint_ClearStatusStage fuel)
  else if bRequest r =? CDC_REQ_SetLineEncoding then
    when (bmRequestType r =? out) (
      Endpoint_ClearSETUP ;;
      wait_attached fuel Endpoint_IsOUTReceived (
        e ← Read_LineEncoding;
        modc (set_LineEncoding e) ;;
        Endpoint_ClearOUT ;;
        Endpoint_ClearStatusStage fuel ;;
        EVENT_CDC_Device_LineEncodingChanged))
  else if bRequest r =? CDC_REQ_SetControlLineState then
    when (bmRequestType r =? out) (
      Endpoint_ClearSETUP ;;
      Endpoint_ClearStatusStage fuel ;;
      modc (set_HostToDevice (wValue r)) ;;
      EVENT_CDC_Device_ControLineStateChanged)
  else if bRequest r =? CDC_REQ_SendBreak then
    when (bmRequestType r =? out) (
      Endpoint_ClearSETUP ;;
      Endpoint_ClearStatusStage fuel ;;
      EVENT_CDC_Device_BreakSent (u8 (wValue r)))
  else mret tt.

Definition CDC_Device_ConfigureEndpoints (fuel : nat) : M G bool :=
  modc cdc_reset ;;
  e1 ← getc DataINEndpoint;
  ok ← Endpoint_ConfigureEndpointTable fuel [e1];
  if negb ok then mret false else
  e2 ← getc DataOUTEndpoint;
  ok ← Endpoint_ConfigureEndpointTable fuel [e2];
  if negb ok then mret false else
  e3 ← getc NotificationEndpoint;
  ok ← Endpoint_ConfigureEndpointTable fuel [e3];
  if negb ok then mret false else mret true.

(** [USB_DeviceState == DEVICE_STATE_Configured && LineEncoding.BaudRateBPS],
    the guard every data function starts with. *)
Definition cdc_ready : M G bool :=
  d ← get_DeviceState;
  if negb (d =? DEVICE_STATE_Configured) then mret false else
  e ← getc LineEncoding;
  mret (negb (BaudRateBPS e =? 0)).

Definition CDC_Device_SendData (fuel : nat) (Buffer : list Z) (Length : Z) : M G Z :=
  ok ← cdc_ready;
  if negb ok then mret ENDPOINT_RWSTREAM_DeviceDisconnected else
  e ← getc DataINEndpoint;
  Endpoint_SelectEndpoint (et_Address e) ;;
  r ← Endpoint_Write_Stream_LE fuel Buffer Length None;
  mret (fst (fst r)).

(** [String] without its NUL: [strlen] is its length. *)
Definition CDC_Device_SendString (fuel : nat) (String : list Z) : M G Z :=
  ok ← cdc_ready;
  if negb ok then mret ENDPOINT_RWSTREAM_DeviceDisconnected else
  e ← getc DataINEndpoint;
  Endpoint_SelectEndpoint (et_Address e) ;;
  r ← Endpoint_Write_Stream_LE fuel String (u16 (zlen String)) None;
  mret (fst (fst r)).

Definition CDC_Device_SendByte (fuel : nat) (Data : Z) : M G Z :=
  ok ← cdc_ready;
  if negb ok then mret ENDPOINT_RWSTREAM_DeviceDisconnected else
  e ← getc DataINEndpoint;
  Endpoint_SelectEndpoint (et_Address e) ;;
  rw ← Endpoint_IsReadWriteAllowed;
  ErrorCode ← (if negb (rw : bool)
               then Endpoint_ClearIN ;; Endpoint_WaitUntilReady fuel
               else mret ENDPOINT_READYWAIT_NoError);
  if negb (ErrorCode =? ENDPOINT_READYWAIT_NoError) then mret ErrorCode else
  Endpoint_Write_8 Data ;;
  mret ENDPOINT_READYWAIT_NoError.

Definition CDC_Device_Flush (fuel : nat) : M G Z :=
  ok ← cdc_ready;
  if negb ok then mret ENDPOINT_RWSTREAM_DeviceDisconnected else
  e ← getc DataINEndpoint;
  Endpoint_SelectEndpoint (et_Address e) ;;
  n ← Endpoint_BytesInEndpoint;
  if n =? 0 then mret ENDPOINT_READYWAIT_NoError else
  rw ← Endpoint_IsReadWriteAllowed;
  let BankFull := negb (rw : bool) in
  Endpoint_ClearIN ;;
  if BankFull then
    ErrorCode ← Endpoint_WaitUntilReady fuel;
    if negb (ErrorCode =? ENDPOINT_READYWAIT_NoError) then mret ErrorCode else
    Endpoint_ClearIN ;; mret ENDPOINT_READYWAIT_NoError
  else mret ENDPOINT_READYWAIT_NoError.

Definition CDC_Device_USBTask (fuel : nat) : M G unit :=
  ok ← cdc_ready;
  when ok (CDC_Device_Flush fuel ;; mret tt).

Definition CDC_Device_BytesReceived : M G Z :=
  ok ← cdc_ready;
  if negb ok then mret 0 else
  e ← getc DataOUTEndpoint;
  Endpoint_SelectEndpoint (et_Address e) ;;
  out ← Endpoint_IsOUTReceived;
  if (out : bool) then
    n ← Endpoint_BytesInEndpoint;
    if n =? 0 then Endpoint_ClearOUT ;; mret 0 else Endpoint_BytesInEndpoint
  else mret 0.

Definition CDC_Device_ReceiveByte : M G Z :=
  ok ← cdc_ready;
  if negb ok then mret (-1) else
  e ← getc DataOUTEndpoint;
  Endpoint_SelectEndpoint (et_Address e) ;;
  out ← Endpoint_IsOUTReceived;
  if (out : bool) then
    n ← Endpoint_BytesInEndpoint;
    ReceivedByte ← (if negb (n =? 0) then Endpoint_Read_8 else mret (-1));
    n' ← Endpoint_BytesInEndpoint;
    when (n' =? 0) Endpoint_ClearOUT ;;
    mret ReceivedByte
  else mret (-1).

(** A [USB_Request_Header_t] as it lies in memory. *)
Definition request_bytes (r : USB_Request_Header_t) : list Z :=
  [bmRequestType r; bRequest r] ++ le_bytes 2 (wValue r) ++ le_bytes 2 (wIndex r)
    ++ le_bytes 2 (wLength r).

Definition CDC_Device_SendControlLineStateChange (fuel : nat) : M G unit :=
  ok ← cdc_ready;
  if negb ok then mret tt else
  e ← getc NotificationEndpoint;
  Endpoint_SelectEndpoint (et_Address e) ;;
  let Notification := mkRequest
    (Z.lor (Z.lor REQDIR_DEVICETOHOST REQTYPE_CLASS) REQREC_INTERFACE)
    CDC_NOTIF_SerialState 0 0 2 in
  Endpoint_Write_Stream_LE fuel (request_bytes Notification) 8 None ;;
  st ← getc DeviceToHost;
  Endpoint_Write_Stream_LE fuel (le_bytes 2 st) 2 None ;;
  Endpoint_ClearIN.

(** The stdio hooks; [_FDEV_ERR] is -1 and [_FDEV_EOF] is -2. *)
Definition CDC_Device_putchar (fuel : nat) (c : Z) : M G Z :=
  r ← CDC_Device_SendByte fuel c; mret (if negb (r =? 0) then -1 else 0).

Definition CDC_Device_getchar : M G Z :=
  ReceivedByte ← CDC_Device_ReceiveByte;
  mret (if ReceivedByte <? 0 then -2 else ReceivedByte).

Definition CDC_Device_getchar_Blocking (fuel : nat) (USB_USBTask : M G unit) : M G Z :=
  loop fuel (fun _ : unit =>
    ReceivedByte ← CDC_Device_ReceiveByte;
    if 0 <=? ReceivedByte then mret (inr ReceivedByte) else
    d ← get_DeviceState;
    if d =? DEVICE_STATE_Unattached then mret (inr (-2)) else
    CDC_Device_USBTask fuel ;; USB_USBTask ;; mret (inl tt)) tt.
End cdc.

(** ** Control requests on a responsive bus *)

(** The host answers: the flags of the control endpoint come up within [k]
    polls and the device stays attached. *)
Record responsive `{Hardware} (k : nat) : Prop := {
  rs_flags : forall h, (k <= polls h)%nat ->
    let v := reg_trunc UEINTX (hw_value h UEINTX) in
    anybit v (BV TXINI) = true /\ anybit v (BV RXOUTI) = true;
  rs_attached : forall h, reg_trunc GPIOR0 (hw_value h GPIOR0) <> DEVICE_STATE_Unattached;
}.

(** Nothing has gone through the data register, and the globals are as they were. *)
Definition quiet {G} (s s' : st G) : Prop :=
  (exists tr, hist s' = tr ++ hist s /\ reads UEDATX tr = [] /\ writes UEDATX tr = [])
  /\ glob s' = glob s.

#[export] Instance quiet_preorder {G} : PreOrder (@quiet G).
Proof.
  split.
  - intros s. split; [by exists []|done].
  - intros s1 s2 s3 [(t1 & H1 & R1 & W1) G1] [(t2 & H2 & R2 & W2) G2]. split; [|congruence].
    exists (t2 ++ t1). rewrite H2, H1, reads_app, writes_app, R1, R2, W1, W2.
    by rewrite <- app_assoc.
Qed.

Lemma quiet_hist {G} tr (s : st G) g :
  g = glob s -> reads UEDATX tr = [] -> writes UEDATX tr = [] -> quiet s (St (tr ++ hist s) g).
Proof. intros -> Hrd Hwr. split; [by exists tr|done]. Qed.

Section responsive.
Context {G : Type} `{Hardware} (k fuel : nat).
Context (Hr : responsive k) (Hfuel : (k < fuel)%nat).

Definition flag (b : Z) : M G bool := v ← rd UEINTX; mret (anybit v (BV b)).

Lemma quiet_rd (s s' : st G) r v :
  r <> UEDATX -> quiet s s' -> quiet s (St (Rd r v :: hist s') (glob s')).
Proof.
  intros Hne Hq. etransitivity; [exact Hq|]. split; [|done]. exists [Rd r v].
  split; [done|]. cbn. by rewrite decide_False.
Qed.
Lemma quiet_wr (s s' : st G) r v :
  r <> UEDATX -> quiet s s' -> quiet s (St (Wr r v :: hist s') (glob s')).
Proof.
  intros Hne Hq. etransitivity; [exact Hq|]. split; [|done]. exists [Wr r v].
  split; [done|]. cbn. by rewrite decide_False.
Qed.

Lemma flag_up b h :
  b = TXINI \/ b = RXOUTI -> (k <= polls h)%nat ->
  anybit (reg_trunc UEINTX (hw_value h UEINTX)) (BV b) = true.
Proof. intros [-> | ->] Hk; by apply (rs_flags _ Hr). Qed.

(** So far only registers other than the data register have been read. *)
Definition waiting (s s' : st G) : Prop :=
  (exists tr, hist s' = tr ++ hist s /\ (forall r, writes r tr = []) /\ reads UEDATX tr = [])
  /\ glob s' = glob s.

(** A wait for the flag [b] has ended: the last access read it up. *)
Definition polled (b : Z) (s s' : st G) : Prop :=
  (exists v tr, hist s' = Rd UEINTX v :: tr ++ hist s /\ (forall r, writes r tr = [])
     /\ reads UEDATX tr = [] /\ anybit v (BV b) = true)
  /\ glob s' = glob s.

Lemma waiting_rd (s s' : st G) r v :
  r <> UEDATX -> waiting s s' -> waiting s (St (Rd r v :: hist s') (glob s')).
Proof.
  intros Hne [(tr & Hh & Hw & Hd) Hg]. split; [|done]. exists (Rd r v :: tr). cbn [hist].
  split; [by rewrite Hh|]. split; [done|]. cbn [reads]. by rewrite decide_False.
Qed.

Lemma waiting_polled b (s s' : st G) v :
  waiting s s' -> anybit v (BV b) = true -> polled b s (St (Rd UEINTX v :: hist s') (glob s')).
Proof.
  intros [(tr & Hh & Hw & Hd) Hg] Hv. split; [|done]. exists v, tr. cbn [hist]. by rewrite Hh.
Qed.

Lemma waiting_refl (s : st G) : waiting s s.
Proof. split; [by exists []|done]. Qed.

Lemma polled_quiet b (s s' : st G) : polled b s s' -> quiet s s'.
Proof.
  intros [(v & tr & Hh & Hw & Hd & _) Hg]. split; [|done]. exists (Rd UEINTX v :: tr).
  cbn [reads writes]. rewrite Hw, Hd. by reg_decide.
Qed.

Lemma busy_wait_total b s :
  b = TXINI \/ b = RXOUTI -> wp_ False (busy_wait fuel (flag b)) (fun _ s' => polled b s s') s.
Proof.
  intros Hb. unfold busy_wait.
  apply (wp_loop_total _ (fun _ s' => waiting s s') (fun _ s' => (k - polls (hist s'))%nat));
    [apply waiting_refl|lia|].
  intros [] s' Hq. unfold flag. apply wp_bind, wp_flag. cbv zeta.
  pose proof (flag_up b (hist s') Hb) as Hf.
  destruct (anybit _ (BV b)) eqn:E; apply wp_ret.
  - by apply waiting_polled.
  - split; [by apply waiting_rd|]. cbn [hist polls].
    destruct (decide (k <= polls (hist s'))%nat); [|lia]. discriminate Hf. done.
Qed.

Lemma wait_attached_total b (m : M G unit) Q s :
  b = TXINI \/ b = RXOUTI ->
  (forall s', polled b s s' -> wp_ False m Q s') ->
  wp_ False (wait_attached fuel (flag b) m) Q s.
Proof.
  intros Hb Hm. unfold wait_attached. apply wp_bind.
  eapply wp_conseq; [|exact (fun x : False => x)|].
  - apply (wp_loop_total _ (fun _ s' => waiting s s') (fun _ s' => (k - polls (hist s'))%nat)
      (fun ok s' => ok = true /\ polled b s s')); [apply waiting_refl|lia|].
    intros [] s' Hq. unfold flag. apply wp_bind, wp_flag. cbv zeta.
    pose proof (flag_up b (hist s') Hb) as Hf.
    destruct (anybit _ (BV b)) eqn:E.
    + apply wp_ret. split; [done|]. by apply waiting_polled.
    + unfold get_DeviceState. do 2 wp_step.
      rewrite (proj2 (Z.eqb_neq _ _) (rs_attached _ Hr _)). apply wp_ret.
      split; [by apply (waiting_rd s (St _ _)); [|apply waiting_rd]|]. cbn [hist polls].
      destruct (decide (k <= polls (hist s'))%nat); [|lia]. discriminate Hf. done.
  - intros ok s' [-> Hq]. cbn [when]. by apply Hm.
Qed.

Lemma clear_status_total `{Has UsbState G} s :
  wp_ False (Endpoint_ClearStatusStage fuel) (fun _ s' => quiet s s') s.
Proof.
  unfold Endpoint_ClearStatusStage. do 2 wp_step.
  destruct (anybit _ REQDIR_DEVICETOHOST).
  - apply wait_attached_total; [by right|]. intros s' Hq%polled_quiet. unfold Endpoint_ClearOUT. wp_run.
    by apply (quiet_wr s (St _ _)); [|apply quiet_rd].
  - apply wait_attached_total; [by left|]. intros s' Hq%polled_quiet. unfold Endpoint_ClearIN. wp_run.
    by apply (quiet_wr s (St _ _)); [|apply quiet_rd].
Qed.
End responsive.

(** ** The line coding *)

Definition line_encoding_bytes (e : CDC_LineEncoding_t) : list Z :=
  le_bytes 4 (BaudRateBPS e) ++ [CharFormat e; ParityType e; DataBits e].

(** The bytes [Endpoint_Write_32_LE] sends are the little-endian ones. *)
Lemma write_32_bytes v :
  is_u32 v ->
  [u8 (Z.land v 0xFF); u8 (Z.shiftr v 8); u8 (Z.shiftr v 16); u8 (Z.shiftr v 24)] = le_bytes 4 v.
Proof.
  intros Hv. cbn [le_bytes]. rewrite !Z.shiftr_shiftr by lia. cbn [Z.add Pos.add Pos.succ].
  f_equal. apply Z.bits_inj'. intros i Hi. rewrite !u8_testbit, Z.land_spec by done.
  destruct (Z.ltb_spec i 8); [|done]. cbn [andb].
  change 0xFF with (Z.ones 8). rewrite Z.ones_spec_low by lia. apply andb_true_r.
Qed.

(** What has been read from and written to the data register between two states. *)
Definition data_io {G} (s s' : st G) (rs ws : list Z) : Prop :=
  exists tr, hist s' = tr ++ hist s
    /\ rev (reads UEDATX tr) = rs /\ rev (writes UEDATX tr) = ws.

Lemma data_io_trans {G} (s1 s2 s3 : st G) r1 r2 w1 w2 :
  data_io s1 s2 r1 w1 -> data_io s2 s3 r2 w2 -> data_io s1 s3 (r1 ++ r2) (w1 ++ w2).
Proof.
  intros (t1 & H1 & R1 & W1) (t2 & H2 & R2 & W2). exists (t2 ++ t1).
  rewrite H2, H1, reads_app, writes_app, !rev_app_distr, R1, R2, W1, W2.
  by rewrite <- app_assoc.
Qed.

Lemma quiet_data_io {G} (s s' : st G) : quiet s s' -> data_io s s' [] [].
Proof. intros [(tr & Hh & Hrd & Hwr) _]. exists tr. by rewrite Hrd, Hwr. Qed.

(** Seven bytes carry a line coding and back. *)
Definition bytes_line_encoding (bs : list Z) : CDC_LineEncoding_t :=
  mkLineEncoding (le_value (take 4 bs)) (nth 4 bs 0) (nth 5 bs 0) (nth 6 bs 0).

Lemma line_encoding_bytes_inv bs :
  length bs = 7%nat -> Forall is_u8 bs -> line_encoding_bytes (bytes_line_encoding bs) = bs.
Proof.
  destruct bs as [|b0 [|b1 [|b2 [|b3 [|b4 [|b5 [|b6 [|]]]]]]]]; try done. intros _ HB.
  unfold line_encoding_bytes, bytes_line_encoding. cbn [BaudRateBPS CharFormat ParityType DataBits].
  change (take 4 [b0; b1; b2; b3; b4; b5; b6]) with [b0; b1; b2; b3].
  pose proof (le_bytes_value [b0; b1; b2; b3]) as Hle. cbn [length] in Hle.
  rewrite Hle; [done|]. by repeat (inversion_clear HB as [|? ? ? HB']; rename HB' into HB; constructor; [done|]).
Qed.

Section line_encoding.
Context {G : Type} `{Hardware} `{Has UsbState G} `{Has USB_ClassInfo_CDC_Device_t G}.
Context `{CdcEvents G} (k fuel : nat).
Context (Hr : responsive k) (Hfuel : (k < fuel)%nat).

Definition class_request (dir req : Z) (s : st G) : Prop :=
  let r := USB_ControlRequest (proj (glob s)) in
  bmRequestType r = Z.lor (Z.lor dir REQTYPE_CLASS) REQREC_INTERFACE
  /\ bRequest r = req /\ wIndex r = ControlInterfaceNumber (proj (glob s))
  /\ anybit (reg_trunc UEINTX (hw_value (hist s) UEINTX)) (BV RXSTPI) = true.

Lemma write_line_encoding_spec e (s : st G) :
  is_u32 (BaudRateBPS e) -> is_u8 (CharFormat e) -> is_u8 (ParityType e) -> is_u8 (DataBits e) ->
  wp_ False (Write_LineEncoding e) (fun _ s' =>
    glob s' = glob s /\ data_io s s' [] (line_encoding_bytes e)) s.
Proof.
  intros Hb Hc Hp Hd. unfold Write_LineEncoding, Endpoint_Write_32_LE, Endpoint_Write_8. wp_run.
  split; [done|]. eexists [_; _; _; _; _; _; _]. split; [reflexivity|].
  split; [done|]. cbn [writes]. rewrite !decide_True by done. cbn [rev app].
  unfold line_encoding_bytes. rewrite <- write_32_bytes by done. cbn [app].
  unfold reg_trunc. cbn [reg_width]. fold (u8 (CharFormat e)) (u8 (ParityType e)) (u8 (DataBits e)).
  by rewrite (u8_id (CharFormat e)), (u8_id (ParityType e)), (u8_id (DataBits e)).
Qed.

Lemma read_line_encoding_spec (s : st G) :
  wp_ False Read_LineEncoding (fun e s' =>
    glob s' = glob s /\ exists bs, length bs = 7%nat /\ Forall is_u8 bs
      /\ e = bytes_line_encoding bs /\ data_io s s' bs []) s.
Proof.
  unfold Read_LineEncoding, Endpoint_Read_32_LE, Endpoint_Read_8. wp_run. split; [done|].
  eexists [_; _; _; _; _; _; _]. split; [done|]. split; [|split; [reflexivity|]].
  2:{ eexists [_; _; _; _; _; _; _]. split; [reflexivity|]. split; [|done].
      cbn [reads]. rewrite !decide_True by done. reflexivity. }
  repeat constructor; apply Z.mod_pos_bound; cbn; lia.
Qed.

Lemma get_line_encoding_total (s : st G) :
  let e := LineEncoding (proj (glob s)) in
  is_u32 (BaudRateBPS e) -> is_u8 (CharFormat e) -> is_u8 (ParityType e) -> is_u8 (DataBits e) ->
  class_request REQDIR_DEVICETOHOST CDC_REQ_GetLineEncoding s ->
  wp_ False (CDC_Device_ProcessControlRequest fuel) (fun _ s' =>
    glob s' = glob s /\ data_io s s' [] (line_encoding_bytes e)) s.
Proof.
  intros e Hb Hc Hp Hd (Hty & Hreq & Hidx & Hset).
  unfold CDC_Device_ProcessControlRequest, Endpoint_IsSETUPReceived.
  apply wp_bind, wp_flag. cbv zeta. rewrite Hset. cbn [negb]. do 4 wp_step.
  rewrite Hidx, Z.eqb_refl, Hreq, Hty, !Z.eqb_refl. cbn [negb when].
  unfold Endpoint_ClearSETUP, reg_clr. do 4 wp_step. cbn beta.
  match goal with |- wp_ _ _ _ ?s1 => assert (Hq1 : quiet s s1) end.
  { by apply (quiet_hist [_; _; _]). }
  wp_step. eapply wp_conseq; [apply (busy_wait_total k); by auto|done|].
  intros [] s1 Hq2%polled_quiet. assert (Hq : quiet s s1) by (by etransitivity).
  assert (He : LineEncoding (proj (glob s1)) = e) by (by rewrite (proj2 Hq)).
  do 3 wp_step. rewrite He. eapply wp_conseq; [by apply write_line_encoding_spec|done|].
  intros [] s2 [Hg2 Hio]. unfold Endpoint_ClearIN, reg_clr. do 4 wp_step. cbn beta.
  match goal with |- wp_ _ _ _ ?x => assert (Hq3 : quiet s2 x) end.
  { by apply (quiet_hist [_; _]). }
  eapply wp_conseq; [by apply (clear_status_total k)|done|].
  intros [] s3 Hq4. assert (Hq5 : quiet s2 s3) by (by etransitivity).
  split; [by rewrite (proj2 Hq5), Hg2, (proj2 Hq)|].
  pose proof (data_io_trans _ _ _ _ _ _ _ (quiet_data_io _ _ Hq) Hio) as Hio1.
  pose proof (data_io_trans _ _ _ _ _ _ _ Hio1 (quiet_data_io _ _ Hq5)) as Hio2.
  by rewrite !app_nil_r in Hio2.
Qed.

Lemma set_line_encoding_total (s : st G) :
  EVENT_CDC_Device_LineEncodingChanged = CDC_Device_Event_Stub ->
  class_request REQDIR_HOSTTODEVICE CDC_REQ_SetLineEncoding s ->
  wp_ False (CDC_Device_ProcessControlRequest fuel) (fun _ s' =>
    exists bs, length bs = 7%nat /\ Forall is_u8 bs /\ data_io s s' bs []
      /\ glob s' = inj (set_LineEncoding (bytes_line_encoding bs) (proj (glob s))) (glob s)) s.
Proof.
  intros Hev (Hty & Hreq & Hidx & Hset).
  unfold CDC_Device_ProcessControlRequest, Endpoint_IsSETUPReceived.
  apply wp_bind, wp_flag. cbv zeta. rewrite Hset. cbn [negb]. do 4 wp_step.
  rewrite Hidx, Z.eqb_refl, Hreq, Hty.
  change (CDC_REQ_SetLineEncoding =? CDC_REQ_GetLineEncoding) with false.
  rewrite !Z.eqb_refl. cbn [negb when].
  unfold Endpoint_ClearSETUP, reg_clr. do 4 wp_step. cbn beta.
  match goal with |- wp_ _ _ _ ?s1 => assert (Hq1 : quiet s s1) end.
  { by apply (quiet_hist [_; _; _]). }
  eapply (wait_attached_total k); [done..|by right|]. intros s1 Hq2%polled_quiet.
  assert (Hq : quiet s s1) by (by etransitivity).
  wp_step. eapply wp_conseq; [apply read_line_encoding_spec|done|].
  intros e s2 (Hg2 & bs & Hlen & HB & -> & Hio). do 2 wp_step.
  unfold Endpoint_ClearOUT, reg_clr. do 4 wp_step. cbn beta.
  match goal with |- wp_ _ _ _ ?x =>
    assert (Hio2 : data_io s2 x [] []) by (by eexists [_; _]); set (s3 := x) in * end.
  wp_step. eapply wp_conseq; [by apply (clear_status_total k)|done|].
  intros [] s4 Hq4. rewrite Hev. apply wp_ret. exists bs. split_and!; try done.
  - pose proof (data_io_trans _ _ _ _ _ _ _ (quiet_data_io _ _ Hq) Hio) as Ha.
    pose proof (data_io_trans _ _ _ _ _ _ _ Ha Hio2) as Hb.
    pose proof (data_io_trans _ _ _ _ _ _ _ Hb (quiet_data_io _ _ Hq4)) as Hc.
    by rewrite !app_nil_r in Hc.
  - rewrite (proj2 Hq4). unfold s3. cbn [glob]. by rewrite Hg2, (proj2 Hq).
Qed.
End line_encoding.

(** The serial line coding survives a round trip: on a responsive bus, a
    SetLineEncoding request terminates having read seven bytes, and any later
    GetLineEncoding request terminates having sent exactly those seven bytes
    back. *)
Theorem line_encoding_roundtrip {G} `{Hardware} `{Has UsbState G}
    `{Has USB_ClassInfo_CDC_Device_t G} `{CdcEvents G} (k fuel : nat) (s1 : st G) :
  responsive k -> (k < fuel)%nat ->
  EVENT_CDC_Device_LineEncodingChanged = CDC_Device_Event_Stub ->
  class_request REQDIR_HOSTTODEVICE CDC_REQ_SetLineEncoding s1 ->
  wp_ False (CDC_Device_ProcessControlRequest fuel) (fun _ s2 =>
    exists bs, length bs = 7%nat /\ data_io s1 s2 bs []
      /\ forall s3 : st G,
           LineEncoding (proj (glob s3)) = LineEncoding (proj (glob s2)) ->
           class_request REQDIR_DEVICETOHOST CDC_REQ_GetLineEncoding s3 ->
           wp_ False (CDC_Device_ProcessControlRequest fuel) (fun _ s4 =>
             glob s4 = glob s3 /\ data_io s3 s4 [] bs) s3) s1.
Proof.
  intros Hr Hfuel Hev Hset.
  eapply wp_conseq; [by apply (set_line_encoding_total k)|done|].
  intros [] s2 (bs & Hlen & HB & Hio & Hg). exists bs. split_and!; [done|done|].
  intros s3 He Hget. rewrite Hg, proj_inj in He. cbn [set_LineEncoding LineEncoding] in He.
  assert (Hn : forall i, is_u8 (nth i bs 0)).
  { intros i. destruct (nth_in_or_default i bs 0) as [Hi| ->]; [|by vm_compute].
    by apply (proj1 (List.Forall_forall _ _) HB). }
  pose proof (get_line_encoding_total k fuel Hr Hfuel s3) as Hg3. cbv zeta in Hg3.
  rewrite He, line_encoding_bytes_inv in Hg3 by done. apply Hg3; try exact (Hn _); try done.
  cbn [bytes_line_encoding BaudRateBPS]. unfold is_u32.
  pose proof (le_value_range (take 4 bs) ltac:(by apply Forall_take)) as Hv.
  rewrite length_take, Hlen in Hv. exact Hv.
Qed.

(** Globals of a program with one CDC interface. *)
Definition cdc_globals : Type := UsbState * USB_ClassInfo_CDC_Device_t.
#[export] Instance Has_fst A B : Has A (A * B).
Proof. refine {| proj := fst; inj := fun a g => (a, snd g) |}; by intros; repeat match goal with x : _ * _ |- _ => destruct x end. Defined.
#[export] Instance Has_snd A B : Has B (A * B).
Proof. refine {| proj := snd; inj := fun b g => (fst g, b) |}; by intros; repeat match goal with x : _ * _ |- _ => destruct x end. Defined.

#[export] Instance stub_events G : CdcEvents G := {|
  EVENT_CDC_Device_LineEncodingChanged := CDC_Device_Event_Stub;
  EVENT_CDC_Device_ControLineStateChanged := CDC_Device_Event_Stub;
  EVENT_CDC_Device_BreakSent := fun _ => CDC_Device_Event_Stub;
|}.

(** A host that always has a flag up, and sends 7 as every data byte. *)
Definition eager_host : Hardware := fun h r =>
  match r with
  | UEINTX => 0xFF
  | GPIOR0 => DEVICE_STATE_Configured
  | UEDATX => 7
  | _ => 0
  end.

Lemma eager_host_responsive : @responsive eager_host 0.
Proof. by split. Qed.

Definition witness_cdc : USB_ClassInfo_CDC_Device_t :=
  mkCDC 0 (mkEndpointTable 0x83 16 2 1) (mkEndpointTable 4 16 2 1) (mkEndpointTable 0x82 8 3 1)
    0 0 (mkLineEncoding 0 0 0 0).
Definition witness_set : st cdc_globals :=
  St [] (mkUsb (mkRequest 0x21 0x20 0 0 7) 1 false false true, witness_cdc).
Definition witness_get (s : st cdc_globals) : st cdc_globals :=
  St (hist s) (mkUsb (mkRequest 0xA1 0x21 0 0 7) 1 false false true, snd (glob s)).

Lemma line_encoding_roundtrip_witness :
  wp_ False (@CDC_Device_ProcessControlRequest cdc_globals eager_host _ _ _ 1) (fun _ s2 =>
    exists bs, length bs = 7%nat /\ data_io witness_set s2 bs []
      /\ forall s3 : st cdc_globals,
           LineEncoding (proj (glob s3)) = LineEncoding (proj (glob s2)) ->
           @class_request cdc_globals eager_host _ _ REQDIR_DEVICETOHOST CDC_REQ_GetLineEncoding s3 ->
           wp_ False (@CDC_Device_ProcessControlRequest cdc_globals eager_host _ _ _ 1)
             (fun _ s4 => glob s4 = glob s3 /\ data_io s3 s4 [] bs) s3) witness_set.
Proof.
  refine (@line_encoding_roundtrip cdc_globals eager_host _ _ _ 0 1 witness_set
            eager_host_responsive _ eq_refl _).
  - lia.
  - by split_and!.
Defined.

(** The second premise can be met after the first run. *)
Lemma witness_get_request s :
  ControlInterfaceNumber (proj (glob s)) = 0 ->
  @class_request cdc_globals eager_host _ _ REQDIR_DEVICETOHOST CDC_REQ_GetLineEncoding
    (witness_get s).
Proof. intros Hn. split_and!; try done. Qed.
