(* ===== verification/CdcTraffic.v ===== *)
(** * Bytes through the virtual serial port

    What the class driver's byte functions do to a packet the host has sent
    and to the bank that goes to the host: the lemmas by which the programs
    above the driver reason about their input and output. *)

From S2P Require Import Prelude Machine Endpoint EndpointStream Cdc.

(** ** Receiving *)

(** Bytes read from the data register. *)
Definition taken (h : history) : nat := length (reads UEDATX h).

(** The bytes of [bs] still in the bank, when [n0] bytes had been read before. *)
Definition to_come (n0 : nat) (bs : list Z) (h : history) : list Z := drop (taken h - n0) bs.

Definition selected `{Hardware} (Address : Z) (h : history) : Prop :=
  latch_value UENUM h = reg_trunc UENUM (Z.land Address ENDPOINT_EPNUM_MASK).

(** The host has sent the packet [bs] to the endpoint [Address] of a
    configured device: while it is selected, the byte count is what is still
    to come, and when that is something the OUT flag is up and the data
    register reads its first byte. *)
Record out_packet `{Hardware} (n0 : nat) (Address : Z) (bs : list Z) : Prop := {
  op_count : forall h, selected Address h ->
    reg_trunc UEBCLX (hw_value h UEBCLX) = zlen (to_come n0 bs h);
  op_data : forall h x rest, selected Address h -> to_come n0 bs h = x :: rest ->
    anybit (reg_trunc UEINTX (hw_value h UEINTX)) (BV RXOUTI) = true
    /\ reg_trunc UEDATX (hw_value h UEDATX) = x;
  op_configured : forall h, reg_trunc GPIOR0 (hw_value h GPIOR0) = DEVICE_STATE_Configured;
}.

(** Only the endpoint's selection and its flags are written. *)
Definition not_flags (r : reg) : bool := match r with UENUM | UEINTX => false | _ => true end.
Definition flags_only {G} : relation (st G) := frame not_flags (=).

#[export] Instance ReceiveByte_runs {G} `{Hardware} `{Has USB_ClassInfo_CDC_Device_t G} :
  Runs (G:=G) flags_only CDC_Device_ReceiveByte.
Proof.
  unfold flags_only, CDC_Device_ReceiveByte, cdc_ready, get_DeviceState, Endpoint_SelectEndpoint,
    Endpoint_IsOUTReceived, Endpoint_BytesInEndpoint, Endpoint_Read_8, Endpoint_ClearOUT. runs_go.
Qed.
#[export] Instance BytesReceived_runs {G} `{Hardware} `{Has USB_ClassInfo_CDC_Device_t G} :
  Runs (G:=G) flags_only CDC_Device_BytesReceived.
Proof.
  unfold flags_only, CDC_Device_BytesReceived, cdc_ready, get_DeviceState, Endpoint_SelectEndpoint,
    Endpoint_IsOUTReceived, Endpoint_BytesInEndpoint, Endpoint_ClearOUT. runs_go.
Qed.

Section receive.
Context {G : Type} `{Hardware} `{Has USB_ClassInfo_CDC_Device_t G} (n0 : nat) (bs : list Z).

(** The port is open on a device the packet was sent to, and [rest] of the
    packet is still in the bank. *)
Record receiving (rest : list Z) (s : st G) : Prop := {
  rc_open : BaudRateBPS (LineEncoding (proj (glob s))) <> 0;
  rc_packet : out_packet n0 (et_Address (DataOUTEndpoint (proj (glob s)))) bs;
  rc_taken : (n0 <= taken (hist s))%nat;
  rc_rest : to_come n0 bs (hist s) = rest;
}.

(** The guard of every data function passes. *)
Lemma ready_passes rest s : receiving rest s ->
  wp_ False cdc_ready (fun ok s' => ok = true /\ exists v, s' = St (Rd GPIOR0 v :: hist s) (glob s)) s.
Proof.
  intros [Ho Hp _ _]. unfold cdc_ready, get_DeviceState. do 2 wp_step.
  rewrite (op_configured _ _ _ Hp). change (negb (_ =? DEVICE_STATE_Configured)) with false. cbv match.
  do 3 wp_step. rewrite (proj2 (Z.eqb_neq _ 0) Ho). split; [done|by eexists].
Qed.

Lemma receiving_data (s : st G) rest x :
  to_come n0 bs (hist s) = x :: rest ->
  (n0 <= taken (hist s))%nat -> drop (S (taken (hist s) - n0)) bs = rest.
Proof.
  unfold to_come. intros Hx _.
  replace (S (taken (hist s) - n0)) with ((taken (hist s) - n0) + 1)%nat by lia.
  rewrite <- drop_drop, Hx. done.
Qed.

(** One byte, or -1 when the packet is empty. *)
Lemma receive_byte rest s : receiving rest s ->
  wp_ False CDC_Device_ReceiveByte (fun r s' => flags_only s s' /\
    match rest with
    | [] => r = -1
    | x :: rest' => r = x /\ is_u8 x /\ receiving rest' s'
    end) s.
Proof.
  intros Hr. pose proof Hr as [Ho Hp Ht Hre].
  refine (wp_conseq False False _ _ _ _ (wp_frame False flags_only _ (fun r s' => match rest with
    [] => r = -1 | x :: rest' => r = x /\ is_u8 x /\ receiving rest' s' end) s _) (fun x => x) _);
    [|intros r s' [? ?]; done].
  unfold CDC_Device_ReceiveByte. wp_call (ready_passes rest s Hr). intros ok s1 [-> [v0 ->]].
  cbn [negb]. do 2 wp_step. unfold Endpoint_SelectEndpoint. do 2 wp_step.
  unfold Endpoint_IsOUTReceived. apply wp_bind, wp_flag. cbv zeta. cbn [hist glob].
  set (e := DataOUTEndpoint (proj (glob s))) in *.
  set (h1 := Wr UENUM _ :: Rd GPIOR0 v0 :: hist s).
  assert (Hsel : selected (et_Address e) h1) by (unfold selected, h1; rewrite latch_wr; apply reg_trunc_trunc).
  assert (Hcome : to_come n0 bs h1 = rest) by exact Hre.
  destruct rest as [|x rest].
  - destruct (anybit _ (BV RXOUTI)) eqn:E; [|by apply wp_ret].
    unfold Endpoint_BytesInEndpoint. do 2 wp_step.
    pose proof (op_count _ _ _ Hp (Rd UEINTX (reg_trunc UEINTX (hw_value h1 UEINTX)) :: h1) Hsel) as Hc.
    unfold to_come in Hc, Hcome. change (taken (Rd UEINTX _ :: h1)) with (taken h1) in Hc.
    rewrite Hcome in Hc. rewrite Hc. change (negb (zlen [] =? 0)) with false. cbv match.
    do 3 wp_step. wp_run; done.
  - destruct (op_data _ _ _ Hp h1 x rest Hsel Hcome) as [Hf _]. rewrite Hf.
    unfold Endpoint_BytesInEndpoint. do 2 wp_step.
    set (h2 := Rd UEINTX _ :: h1).
    rewrite (op_count _ _ _ Hp h2 Hsel). change (to_come n0 bs h2) with (to_come n0 bs h1).
    rewrite Hcome, zlen_cons.
    rewrite (proj2 (Z.eqb_neq (1 + zlen rest) 0)) by (pose proof (zlen_nonneg rest); lia).
    cbn [negb]. unfold Endpoint_Read_8. do 2 wp_step. set (h3 := Rd UEBCLX _ :: h2).
    destruct (op_data _ _ _ Hp h3 x rest Hsel Hcome) as [_ Hd]. cbn [hist]. rewrite Hd.
    do 2 wp_step. set (h4 := Rd UEBCLX _ :: Rd UEDATX x :: h3).
    assert (Hfin : forall h, taken h = S (taken (hist s)) ->
      x = x /\ is_u8 x /\ receiving rest (St h (glob s))).
    { intros h Hh. split; [done|]. split; [rewrite <- Hd; apply Z.mod_pos_bound; cbn; lia|].
      split; [done|done|cbn [hist]; lia|]. unfold to_come. cbn [hist]. rewrite Hh.
      replace (S (taken (hist s)) - n0)%nat with (S (taken (hist s) - n0)) by lia.
      by apply (receiving_data s rest x). }
    assert (Hrd : taken h4 = S (taken (hist s))).
    { unfold taken, h4, h3, h2, h1. cbn [reads]. by reg_decide. }
    unfold Endpoint_ClearOUT, when. wp_run; apply Hfin; unfold taken in *; cbn [reads]; reg_decide; exact Hrd.
Qed.

(** The loop that takes bytes until there are none: [f] handles a byte, and
    [I rest] holds when [rest] is still to come. *)
Lemma receive_all (f : Z -> M G unit) (I : list Z -> st G -> Prop) fuel s rest :
  (forall l s1 s2, I l s1 -> flags_only s1 s2 -> I l s2) ->
  (forall x l s1, is_u8 x -> I (x :: l) s1 -> wp_ False (f x) (fun _ s2 => I l s2
     /\ taken (hist s2) = taken (hist s1) /\ proj (glob s2) = proj (glob s1) :> USB_ClassInfo_CDC_Device_t) s1) ->
  receiving rest s -> I rest s -> (length rest < fuel)%nat ->
  wp_ False (loop fuel (fun _ : unit =>
      received_byte ← CDC_Device_ReceiveByte;
      if 0 <=? received_byte then f received_byte ;; mret (inl tt) else mret (inr tt)) tt)
    (fun _ s' => I [] s') s.
Proof.
  intros HI Hf Hr Hs Hfuel.
  apply (wp_loop_total _ (fun _ s1 => exists l, receiving l s1 /\ I l s1)
    (fun _ s1 => length (to_come n0 bs (hist s1)))).
  - by exists rest.
  - by rewrite (rc_rest _ _ Hr).
  - intros [] s1 (l & Hl & HIl). wp_call (receive_byte l s1 Hl). intros r s2 [HF Hm].
    pose proof (HI _ _ _ HIl HF) as HI2. destruct l as [|x l].
    + rewrite Hm. by apply wp_ret.
    + destruct Hm as (-> & Hx & Hr2). rewrite (proj2 (Z.leb_le 0 x)) by (unfold is_u8 in Hx; lia).
      wp_call (Hf x l s2 Hx HI2). intros [] s3 (HI3 & Ht & Hg). apply wp_ret.
      assert (Hr3 : receiving l s3).
      { destruct Hr2 as [H1 H2 H3 H4]. split; [by rewrite Hg|by rewrite Hg|by rewrite Ht|].
        unfold to_come in *. by rewrite Ht. }
      split; [by exists l|]. rewrite (rc_rest _ _ Hr3), (rc_rest _ _ Hl). cbn [length]. lia.
Qed.

(** The test before the loop sees the packet. *)
Lemma bytes_received rest s : receiving rest s -> rest <> [] ->
  wp_ False CDC_Device_BytesReceived (fun n s' => n <> 0 /\ receiving rest s' /\ flags_only s s') s.
Proof.
  intros Hr Hne. pose proof Hr as [Ho Hp Ht Hre].
  refine (wp_conseq False False _ _ _ _ (wp_frame False flags_only _ (fun n s' => n <> 0 /\ receiving rest s') s _)
    (fun x => x) _); [|intros n s' [[? ?] ?]; done].
  unfold CDC_Device_BytesReceived. wp_call (ready_passes rest s Hr). intros ok s1 [-> [v0 ->]].
  cbn [negb]. do 2 wp_step. unfold Endpoint_SelectEndpoint. do 2 wp_step.
  unfold Endpoint_IsOUTReceived. apply wp_bind, wp_flag. cbv zeta. cbn [hist glob].
  set (h1 := Wr UENUM _ :: Rd GPIOR0 v0 :: hist s).
  assert (Hsel : selected (et_Address (DataOUTEndpoint (proj (glob s)))) h1)
    by (unfold selected, h1; rewrite latch_wr; apply reg_trunc_trunc).
  assert (Hcome : to_come n0 bs h1 = rest) by exact Hre.
  destruct rest as [|x rest]; [done|].
  destruct (op_data _ _ _ Hp h1 x rest Hsel Hcome) as [-> _].
  assert (Hn : zlen (x :: rest) <> 0) by (rewrite zlen_cons; pose proof (zlen_nonneg rest); lia).
  unfold Endpoint_BytesInEndpoint. do 2 wp_step. set (h2 := Rd UEINTX _ :: h1).
  rewrite (op_count _ _ _ Hp h2 Hsel). change (to_come n0 bs h2) with (to_come n0 bs h1).
  rewrite Hcome, (proj2 (Z.eqb_neq _ 0) Hn). wp_step.
  set (h3 := Rd UEBCLX _ :: h2). cbn [hist]. rewrite (op_count _ _ _ Hp h3 Hsel).
  change (to_come n0 bs h3) with (to_come n0 bs h1). rewrite Hcome. split; [done|]. split; try done.
Qed.
End receive.

(** ** Sending *)

Section send.
Context {G : Type} `{Hardware} `{Has USB_ClassInfo_CDC_Device_t G}.
Context (k fuel : nat) (Hfp : frame_progress k) (Hwait : (101 * S k < fuel)%nat).

(** A byte is in the bank exactly when the function says so. *)
Lemma send_byte c (s : st G) : is_u8 c ->
  wp_ False (CDC_Device_SendByte fuel c) (fun r s' => glob s' = glob s /\ exists tr,
    hist s' = tr ++ hist s
    /\ writes UEDATX tr = (if r =? ENDPOINT_READYWAIT_NoError then [c] else [])) s.
Proof.
  intros Hc. unfold CDC_Device_SendByte, cdc_ready, get_DeviceState.
  set (h := hist s). set (g := glob s).
  assert (Hdone : forall h', (exists tr, h' = tr ++ h /\ writes UEDATX tr = []) ->
    wp_ False (Endpoint_Write_8 c ;; mret ENDPOINT_READYWAIT_NoError) (fun r s' => glob s' = g /\
      exists tr, hist s' = tr ++ h
        /\ writes UEDATX tr = (if r =? ENDPOINT_READYWAIT_NoError then [c] else [])) (St h' g)).
  { intros h' (tr & -> & Hw). unfold Endpoint_Write_8. wp_run. split; [done|].
    exists (Wr UEDATX c :: tr). cbn [writes]. reg_decide. rewrite Hw.
    by rewrite reg_trunc_u8 by done. }
  do 3 wp_step. destruct (negb (_ =? DEVICE_STATE_Configured)).
  { apply wp_ret. cbn [negb]. apply wp_ret. split; [done|]. by eexists [_]. }
  do 3 wp_step. destruct (BaudRateBPS _ =? 0); cbn [negb].
  { apply wp_ret. split; [done|]. by eexists [_]. }
  do 2 wp_step. unfold Endpoint_SelectEndpoint. do 2 wp_step. unfold Endpoint_IsReadWriteAllowed.
  apply wp_bind, wp_flag. cbv zeta. apply wp_bind.
  destruct (anybit _ (BV RWAL)); cbn [negb].
  - apply wp_ret. change (negb (ENDPOINT_READYWAIT_NoError =? ENDPOINT_READYWAIT_NoError)) with false.
    cbv match. apply Hdone. by eexists [_; _; _].
  - unfold Endpoint_ClearIN, reg_clr. do 4 wp_step. cbn [hist glob].
    match goal with |- wp_ _ _ _ ?x => set (s1 := x) end.
    assert (H1 : exists tr, hist s1 = tr ++ h /\ writes UEDATX tr = []) by (by eexists [_; _; _; _; _]).
    assert (Hg1 : glob s1 = g) by done. clearbody s1.
    wp_spec (wp_and _ _ _ s1 (wait_quiet k fuel Hfp Hwait s1)
      (wp_frame False (frame (fun _ => true) eq) _ _ s1 (wait_quiet k fuel Hfp Hwait s1))).
    intros r [h2 g2] [(_ & t & Ht & Hq) [_ [_ Hg]]]. cbn [hist glob] in *.
    assert (H2 : exists tr, h2 = tr ++ h /\ writes UEDATX tr = []).
    { destruct H1 as (tr & Hh1 & Hw1). exists (t ++ tr). rewrite Ht, Hh1, app_assoc.
      by rewrite writes_app, Hq, Hw1. }
    replace g2 with g by congruence. clear Hg.
    destruct (r =? ENDPOINT_READYWAIT_NoError) eqn:E; cbn [negb]; [by apply Hdone|].
    apply wp_ret. rewrite E. split; [done|]. exact H2.
Qed.
End send.

(** ** Examples *)

(** A host that has sent one packet to a configured device. *)
Definition packet_host (bs : list Z) : Hardware := fun h r =>
  match r with
  | UEBCLX => zlen (to_come 0 bs h)
  | UEINTX => match to_come 0 bs h with [] => 0 | _ => BV RXOUTI end
  | UEDATX => match to_come 0 bs h with [] => 0 | x :: _ => x end
  | GPIOR0 => DEVICE_STATE_Configured
  | _ => default 0 (last_wr r h)
  end.

Lemma packet_host_sends bs Address :
  Forall is_u8 bs -> zlen bs < 256 -> @out_packet (packet_host bs) 0 Address bs.
Proof.
  intros HB Hlen. split; [| |done].
  - intros h _. cbn [hw_value packet_host]. apply reg_trunc_u8; [done|].
    unfold to_come, is_u8, zlen in *. rewrite length_drop. lia.
  - intros h x rest _ Hc. cbn [hw_value packet_host]. rewrite Hc. split; [done|].
    apply reg_trunc_u8; [done|]. pose proof (Forall_drop is_u8 (taken h - 0) bs HB) as HF.
    fold (to_come 0 bs h) in HF. rewrite Hc in HF. by inversion_clear HF.
Qed.

(** A host that takes every bank, with the port open. *)
Definition open_port : USB_ClassInfo_CDC_Device_t :=
  set_LineEncoding (mkLineEncoding 115200 0 0 8) witness_cdc.
