(* ===== verification/Rndis.v ===== *)
(** * LUFA/Drivers/USB/Class/Device/RNDISClassDevice.[ch]

    The RNDIS (network adapter) class driver.  Messages are read, answered
    and sent in one buffer, the first field of the interface's [State]; the
    driver addresses it at several types, at offsets the host chooses and
    past its end, so [State] is modelled as the bytes of the struct
    ([Flat]).  An access outside the struct has no result. *)

From S2P Require Import Prelude Machine Flat Endpoint EndpointStream Cdc.

(** ** RNDISClassCommon.h *)

Definition RNDIS_ERROR_LOGICAL_CMD_FAILED : Z := 0x80.
Definition REMOTE_NDIS_VERSION_MAJOR : Z := 0x01.
Definition REMOTE_NDIS_VERSION_MINOR : Z := 0x00.
Definition REMOTE_NDIS_PACKET_MSG : Z := 0x00000001.
Definition REMOTE_NDIS_INITIALIZE_MSG : Z := 0x00000002.
Definition REMOTE_NDIS_HALT_MSG : Z := 0x00000003.
Definition REMOTE_NDIS_QUERY_MSG : Z := 0x00000004.
Definition REMOTE_NDIS_SET_MSG : Z := 0x00000005.
Definition REMOTE_NDIS_RESET_MSG : Z := 0x00000006.
Definition REMOTE_NDIS_KEEPALIVE_MSG : Z := 0x00000008.
Definition REMOTE_NDIS_INITIALIZE_CMPLT : Z := 0x80000002.
Definition REMOTE_NDIS_QUERY_CMPLT : Z := 0x80000004.
Definition REMOTE_NDIS_SET_CMPLT : Z := 0x80000005.
Definition REMOTE_NDIS_RESET_CMPLT : Z := 0x80000006.
Definition REMOTE_NDIS_KEEPALIVE_CMPLT : Z := 0x80000008.
Definition REMOTE_NDIS_STATUS_SUCCESS : Z := 0x00000000.
Definition REMOTE_NDIS_STATUS_NOT_SUPPORTED : Z := 0xC00000BB.
Definition REMOTE_NDIS_MEDIA_STATE_CONNECTED : Z := 0.
Definition REMOTE_NDIS_MEDIUM_802_3 : Z := 0.
Definition REMOTE_NDIS_DF_CONNECTIONLESS : Z := 1.

Definition OID_GEN_SUPPORTED_LIST : Z := 0x00010101.
Definition OID_GEN_HARDWARE_STATUS : Z := 0x00010102.
Definition OID_GEN_MEDIA_SUPPORTED : Z := 0x00010103.
Definition OID_GEN_MEDIA_IN_USE : Z := 0x00010104.
Definition OID_GEN_MAXIMUM_FRAME_SIZE : Z := 0x00010106.
Definition OID_GEN_MAXIMUM_TOTAL_SIZE : Z := 0x00010111.
Definition OID_GEN_LINK_SPEED : Z := 0x00010107.
Definition OID_GEN_TRANSMIT_BLOCK_SIZE : Z := 0x0001010A.
Definition OID_GEN_RECEIVE_BLOCK_SIZE : Z := 0x0001010B.
Definition OID_GEN_VENDOR_ID : Z := 0x0001010C.
Definition OID_GEN_VENDOR_DESCRIPTION : Z := 0x0001010D.
Definition OID_GEN_CURRENT_PACKET_FILTER : Z := 0x0001010E.
Definition OID_GEN_MEDIA_CONNECT_STATUS : Z := 0x00010114.
Definition OID_GEN_PHYSICAL_MEDIUM : Z := 0x00010202.
Definition OID_GEN_XMIT_OK : Z := 0x00020101.
Definition OID_GEN_RCV_OK : Z := 0x00020102.
Definition OID_GEN_XMIT_ERROR : Z := 0x00020103.
Definition OID_GEN_RCV_ERROR : Z := 0x00020104.
Definition OID_GEN_RCV_NO_BUFFER : Z := 0x00020105.
Definition OID_802_3_PERMANENT_ADDRESS : Z := 0x01010101.
Definition OID_802_3_CURRENT_ADDRESS : Z := 0x01010102.
Definition OID_802_3_MULTICAST_LIST : Z := 0x01010103.
Definition OID_802_3_MAXIMUM_LIST_SIZE : Z := 0x01010104.
Definition OID_802_3_RCV_ERROR_ALIGNMENT : Z := 0x01020101.
Definition OID_802_3_XMIT_ONE_COLLISION : Z := 0x01020102.
Definition OID_802_3_XMIT_MORE_COLLISIONS : Z := 0x01020103.

Definition RNDIS_MESSAGE_BUFFER_SIZE : Z := 128.
Definition ETHERNET_FRAME_SIZE_MAX : Z := 1500.
Definition RNDIS_REQ_SendEncapsulatedCommand : Z := 0x00.
Definition RNDIS_REQ_GetEncapsulatedResponse : Z := 0x01.
Definition RNDIS_Uninitialized : Z := 0.
Definition RNDIS_Initialized : Z := 1.
Definition RNDIS_Data_Initialized : Z := 2.
Definition RNDIS_NOTIF_ResponseAvailable : Z := 0x01.
Definition NDIS_HardwareStatus_Ready : Z := 0.

(** Offsets of the fields of the message structs, and their sizes.  All
    fields are [uint32_t]. *)
Definition Header_MessageType : nat := 0.
Definition Header_MessageLength : nat := 4.
Definition sizeof_RNDIS_Message_Header_t : Z := 8.

(** Initialize, KeepAlive, Query and Set messages and their completions have
    the request's identifier here, and the completions the status. *)
Definition Message_RequestId : nat := 8.
Definition Complete_Status : nat := 12.

Definition InitializeComplete_MajorVersion : nat := 16.
Definition InitializeComplete_MinorVersion : nat := 20.
Definition InitializeComplete_DeviceFlags : nat := 24.
Definition InitializeComplete_Medium : nat := 28.
Definition InitializeComplete_MaxPacketsPerTransfer : nat := 32.
Definition InitializeComplete_MaxTransferSize : nat := 36.
Definition InitializeComplete_PacketAlignmentFactor : nat := 40.
Definition InitializeComplete_AFListOffset : nat := 44.
Definition InitializeComplete_AFListSize : nat := 48.
Definition sizeof_RNDIS_Initialize_Complete_t : Z := 52.

Definition sizeof_RNDIS_KeepAlive_Complete_t : Z := 16.

Definition ResetComplete_Status : nat := 8.
Definition ResetComplete_AddressingReset : nat := 12.
Definition sizeof_RNDIS_Reset_Complete_t : Z := 16.

(** Set and Query messages. *)
Definition Request_Oid : nat := 12.
Definition Request_InformationBufferLength : nat := 16.
Definition Request_InformationBufferOffset : nat := 20.
Definition sizeof_RNDIS_Set_Complete_t : Z := 16.

Definition QueryComplete_InformationBufferLength : nat := 16.
Definition QueryComplete_InformationBufferOffset : nat := 20.
Definition sizeof_RNDIS_Query_Complete_t : Z := 24.

Definition Packet_MessageType : nat := 0.
Definition Packet_MessageLength : nat := 4.
Definition Packet_DataOffset : nat := 8.
Definition Packet_DataLength : nat := 12.
Definition sizeof_RNDIS_Packet_Message_t : Z := 44.

(** ** RNDISClassDevice.h *)

(** The fields of [Config], the vendor description without its NUL, and the
    bytes of [State]. *)
Record USB_ClassInfo_RNDIS_Device_t := mkRNDIS {
  ControlInterfaceNumber : Z;
  DataINEndpoint : USB_Endpoint_Table_t;
  DataOUTEndpoint : USB_Endpoint_Table_t;
  NotificationEndpoint : USB_Endpoint_Table_t;
  AdapterVendorDescription : list Z;
  AdapterMACAddress : list Z;
  State : list Z;
}.

(** The layout of [State]: [RNDISMessageBuffer] (128 bytes), [ResponseReady],
    [CurrRNDISState], [CurrPacketFilter]. *)
Definition State_ResponseReady : nat := 128.
Definition State_CurrRNDISState : nat := 129.
Definition State_CurrPacketFilter : nat := 130.
Definition sizeof_State : nat := 134.

Definition set_State (m : list Z) (c : USB_ClassInfo_RNDIS_Device_t) : USB_ClassInfo_RNDIS_Device_t :=
  mkRNDIS (ControlInterfaceNumber c) (DataINEndpoint c) (DataOUTEndpoint c) (NotificationEndpoint c)
    (AdapterVendorDescription c) (AdapterMACAddress c) m.

Definition ResponseReady (c : USB_ClassInfo_RNDIS_Device_t) : bool :=
  negb (load8 State_ResponseReady (State c) =? 0).
Definition CurrRNDISState (c : USB_ClassInfo_RNDIS_Device_t) : Z := load8 State_CurrRNDISState (State c).
Definition CurrPacketFilter (c : USB_ClassInfo_RNDIS_Device_t) : Z :=
  load32 State_CurrPacketFilter (State c).

(** ** RNDISClassDevice.c *)

Definition AdapterSupportedOIDList : list Z :=
  [OID_GEN_SUPPORTED_LIST; OID_GEN_PHYSICAL_MEDIUM; OID_GEN_HARDWARE_STATUS;
   OID_GEN_MEDIA_SUPPORTED; OID_GEN_MEDIA_IN_USE; OID_GEN_MAXIMUM_FRAME_SIZE;
   OID_GEN_MAXIMUM_TOTAL_SIZE; OID_GEN_LINK_SPEED; OID_GEN_TRANSMIT_BLOCK_SIZE;
   OID_GEN_RECEIVE_BLOCK_SIZE; OID_GEN_VENDOR_ID; OID_GEN_VENDOR_DESCRIPTION;
   OID_GEN_CURRENT_PACKET_FILTER; OID_GEN_MAXIMUM_TOTAL_SIZE; OID_GEN_MEDIA_CONNECT_STATUS;
   OID_GEN_XMIT_OK; OID_GEN_RCV_OK; OID_GEN_XMIT_ERROR; OID_GEN_RCV_ERROR;
   OID_GEN_RCV_NO_BUFFER; OID_802_3_PERMANENT_ADDRESS; OID_802_3_CURRENT_ADDRESS;
   OID_802_3_MULTICAST_LIST; OID_802_3_MAXIMUM_LIST_SIZE; OID_802_3_RCV_ERROR_ALIGNMENT;
   OID_802_3_XMIT_ONE_COLLISION; OID_802_3_XMIT_MORE_COLLISIONS].

(** [switch (OId)] of the query: the bytes of the answer, or [None] in the
    default case. *)
Definition query_answer (c : USB_ClassInfo_RNDIS_Device_t) (OId : Z) : option (list Z) :=
  let among := existsb (Z.eqb OId) in
  if among [OID_GEN_SUPPORTED_LIST] then Some (concat (map (le_bytes 4) AdapterSupportedOIDList))
  else if among [OID_GEN_PHYSICAL_MEDIUM] then Some (le_bytes 4 0)
  else if among [OID_GEN_HARDWARE_STATUS] then Some (le_bytes 4 NDIS_HardwareStatus_Ready)
  else if among [OID_GEN_MEDIA_SUPPORTED; OID_GEN_MEDIA_IN_USE] then Some (le_bytes 4 REMOTE_NDIS_MEDIUM_802_3)
  else if among [OID_GEN_VENDOR_ID] then Some (le_bytes 4 0x00FFFFFF)
  else if among [OID_GEN_MAXIMUM_FRAME_SIZE; OID_GEN_TRANSMIT_BLOCK_SIZE; OID_GEN_RECEIVE_BLOCK_SIZE]
  then Some (le_bytes 4 ETHERNET_FRAME_SIZE_MAX)
  else if among [OID_GEN_VENDOR_DESCRIPTION] then Some (AdapterVendorDescription c ++ [0])
  else if among [OID_GEN_MEDIA_CONNECT_STATUS] then Some (le_bytes 4 REMOTE_NDIS_MEDIA_STATE_CONNECTED)
  else if among [OID_GEN_LINK_SPEED] then Some (le_bytes 4 100000)
  else if among [OID_802_3_PERMANENT_ADDRESS; OID_802_3_CURRENT_ADDRESS] then Some (AdapterMACAddress c)
  else if among [OID_802_3_MAXIMUM_LIST_SIZE] then Some (le_bytes 4 1)
  else if among [OID_GEN_CURRENT_PACKET_FILTER] then Some (le_bytes 4 (CurrPacketFilter c))
  else if among [OID_GEN_XMIT_OK; OID_GEN_RCV_OK; OID_GEN_XMIT_ERROR; OID_GEN_RCV_ERROR;
              OID_GEN_RCV_NO_BUFFER; OID_802_3_RCV_ERROR_ALIGNMENT; OID_802_3_XMIT_ONE_COLLISION;
              OID_802_3_XMIT_MORE_COLLISIONS] then Some (le_bytes 4 0)
  else if among [OID_GEN_MAXIMUM_TOTAL_SIZE]
  then Some (le_bytes 4 (RNDIS_MESSAGE_BUFFER_SIZE + ETHERNET_FRAME_SIZE_MAX))
  else None.

(** The answer is written at the offset [ResponseData] of [State]; the result
    is [*ResponseSize], [None] for [false]. *)
Definition RNDIS_Device_ProcessNDISQuery (c : USB_ClassInfo_RNDIS_Device_t) (OId : Z)
    (ResponseData : nat) : option (option Z * USB_ClassInfo_RNDIS_Device_t) :=
  match query_answer c OId with
  | None => Some (None, c)
  | Some bs => m ← copy_to ResponseData bs (State c); Some (Some (u16 (zlen bs)), set_State m c)
  end.

(** [SetData] is an offset into [State]. *)
Definition RNDIS_Device_ProcessNDISSet (c : USB_ClassInfo_RNDIS_Device_t) (OId SetData : Z) :
    option (bool * USB_ClassInfo_RNDIS_Device_t) :=
  if OId =? OID_GEN_CURRENT_PACKET_FILTER then
    if negb (inside SetData 4 (State c)) then None else
    let m := store32 State_CurrPacketFilter (load32 (Z.to_nat SetData) (State c)) (State c) in
    let m := store8 State_CurrRNDISState
      (if negb (load32 State_CurrPacketFilter m =? 0) then RNDIS_Data_Initialized else RNDIS_Initialized) m in
    Some (true, set_State m c)
  else if OId =? OID_802_3_MULTICAST_LIST then Some (true, c)
  else Some (false, c).

(** The cases of [RNDIS_Device_ProcessRNDISControlMessage]. *)
Definition initialize_msg (c : USB_ClassInfo_RNDIS_Device_t) : USB_ClassInfo_RNDIS_Device_t :=
  let m := State c in
  let m := store8 State_ResponseReady 1 m in
  let m := store32 Header_MessageType REMOTE_NDIS_INITIALIZE_CMPLT m in
  let m := store32 Header_MessageLength sizeof_RNDIS_Initialize_Complete_t m in
  let m := store32 Message_RequestId (load32 Message_RequestId m) m in
  let m := store32 Complete_Status REMOTE_NDIS_STATUS_SUCCESS m in
  let m := store32 InitializeComplete_MajorVersion REMOTE_NDIS_VERSION_MAJOR m in
  let m := store32 InitializeComplete_MinorVersion REMOTE_NDIS_VERSION_MINOR m in
  let m := store32 InitializeComplete_DeviceFlags REMOTE_NDIS_DF_CONNECTIONLESS m in
  let m := store32 InitializeComplete_Medium REMOTE_NDIS_MEDIUM_802_3 m in
  let m := store32 InitializeComplete_MaxPacketsPerTransfer 1 m in
  let m := store32 InitializeComplete_MaxTransferSize
    (sizeof_RNDIS_Packet_Message_t + ETHERNET_FRAME_SIZE_MAX) m in
  let m := store32 InitializeComplete_PacketAlignmentFactor 0 m in
  let m := store32 InitializeComplete_AFListOffset 0 m in
  let m := store32 InitializeComplete_AFListSize 0 m in
  set_State (store8 State_CurrRNDISState RNDIS_Initialized m) c.

Definition halt_msg (c : USB_ClassInfo_RNDIS_Device_t) : USB_ClassInfo_RNDIS_Device_t :=
  let m := State c in
  let m := store8 State_ResponseReady 0 m in
  let m := store32 Header_MessageLength 0 m in
  set_State (store8 State_CurrRNDISState RNDIS_Uninitialized m) c.

Definition query_msg (c : USB_ClassInfo_RNDIS_Device_t) : option USB_ClassInfo_RNDIS_Device_t :=
  let m := store8 State_ResponseReady 1 (State c) in
  let Query_Oid := load32 Request_Oid m in
  let m := store32 Header_MessageType REMOTE_NDIS_QUERY_CMPLT m in
  r ← RNDIS_Device_ProcessNDISQuery (set_State m c) Query_Oid (Z.to_nat sizeof_RNDIS_Query_Complete_t);
  let '(ResponseSize, c) := r in
  let m := State c in
  match ResponseSize with
  | Some n =>
      let m := store32 Complete_Status REMOTE_NDIS_STATUS_SUCCESS m in
      let m := store32 Header_MessageLength (u16 (sizeof_RNDIS_Query_Complete_t + n)) m in
      let m := store32 QueryComplete_InformationBufferLength n m in
      let m := store32 QueryComplete_InformationBufferOffset
        (sizeof_RNDIS_Query_Complete_t - sizeof_RNDIS_Message_Header_t) m in
      Some (set_State m c)
  | None =>
      let m := store32 Complete_Status REMOTE_NDIS_STATUS_NOT_SUPPORTED m in
      let m := store32 Header_MessageLength sizeof_RNDIS_Query_Complete_t m in
      let m := store32 QueryComplete_InformationBufferLength 0 m in
      let m := store32 QueryComplete_InformationBufferOffset 0 m in
      Some (set_State m c)
  end.

(** [&RNDISMessageBuffer[sizeof(Header) + offset]]: pointers have 16 bits. *)
Definition data_offset (off : Z) : Z := u16 (u32 (sizeof_RNDIS_Message_Header_t + off)).

Definition set_msg (c : USB_ClassInfo_RNDIS_Device_t) : option USB_ClassInfo_RNDIS_Device_t :=
  let m := store8 State_ResponseReady 1 (State c) in
  let SET_Oid := load32 Request_Oid m in
  let m := store32 Header_MessageType REMOTE_NDIS_SET_CMPLT m in
  let m := store32 Header_MessageLength sizeof_RNDIS_Set_Complete_t m in
  let m := store32 Message_RequestId (load32 Message_RequestId m) m in
  let SetData := data_offset (load32 Request_InformationBufferOffset m) in
  r ← RNDIS_Device_ProcessNDISSet (set_State m c) SET_Oid SetData;
  let '(ok, c) := r : bool * _ in
  Some (set_State (store32 Complete_Status
    (if ok then REMOTE_NDIS_STATUS_SUCCESS else REMOTE_NDIS_STATUS_NOT_SUPPORTED) (State c)) c).

Definition reset_msg (c : USB_ClassInfo_RNDIS_Device_t) : USB_ClassInfo_RNDIS_Device_t :=
  let m := store8 State_ResponseReady 1 (State c) in
  let m := store32 Header_MessageType REMOTE_NDIS_RESET_CMPLT m in
  let m := store32 Header_MessageLength sizeof_RNDIS_Reset_Complete_t m in
  let m := store32 ResetComplete_Status REMOTE_NDIS_STATUS_SUCCESS m in
  set_State (store32 ResetComplete_AddressingReset 0 m) c.

Definition keepalive_msg (c : USB_ClassInfo_RNDIS_Device_t) : USB_ClassInfo_RNDIS_Device_t :=
  let m := store8 State_ResponseReady 1 (State c) in
  let m := store32 Header_MessageType REMOTE_NDIS_KEEPALIVE_CMPLT m in
  let m := store32 Header_MessageLength sizeof_RNDIS_KeepAlive_Complete_t m in
  let m := store32 Message_RequestId (load32 Message_RequestId m) m in
  set_State (store32 Complete_Status REMOTE_NDIS_STATUS_SUCCESS m) c.

Definition RNDIS_Device_ProcessRNDISControlMessage (c : USB_ClassInfo_RNDIS_Device_t) :
    option USB_ClassInfo_RNDIS_Device_t :=
  let MessageType := load32 Header_MessageType (State c) in
  if MessageType =? REMOTE_NDIS_INITIALIZE_MSG then Some (initialize_msg c)
  else if MessageType =? REMOTE_NDIS_HALT_MSG then Some (halt_msg c)
  else if MessageType =? REMOTE_NDIS_QUERY_MSG then query_msg c
  else if MessageType =? REMOTE_NDIS_SET_MSG then set_msg c
  else if MessageType =? REMOTE_NDIS_RESET_MSG then Some (reset_msg c)
  else if MessageType =? REMOTE_NDIS_KEEPALIVE_MSG then Some (keepalive_msg c)
  else Some c.

(** [memset(&State, 0, ..)] and the endpoint types. *)
Definition rndis_reset (c : USB_ClassInfo_RNDIS_Device_t) : USB_ClassInfo_RNDIS_Device_t :=
  mkRNDIS (ControlInterfaceNumber c) (set_type EP_TYPE_BULK (DataINEndpoint c))
    (set_type EP_TYPE_BULK (DataOUTEndpoint c)) (set_type EP_TYPE_INTERRUPT (NotificationEndpoint c))
    (AdapterVendorDescription c) (AdapterMACAddress c) (repeat 0 sizeof_State).

Section rndis.
Context {G : Type} `{Hardware} `{Has UsbState G} `{Has USB_ClassInfo_RNDIS_Device_t G}.

Definition modify_State (f : list Z -> list Z) : M G unit := modc (fun c => set_State (f (State c)) c).

(** A request that announces more bytes than the struct holds has no result:
    they would be written past it. *)
Definition RNDIS_Device_ProcessControlRequest (fuel : nat) : M G unit :=
  setup ← Endpoint_IsSETUPReceived;
  if negb (setup : bool) then mret tt else
  r ← getc USB_ControlRequest;
  n ← getc ControlInterfaceNumber;
  if negb (wIndex r =? n) then mret tt else
  if bRequest r =? RNDIS_REQ_SendEncapsulatedCommand then
    when (bmRequestType r =? Z.lor (Z.lor REQDIR_HOSTTODEVICE REQTYPE_CLASS) REQREC_INTERFACE) (
      Endpoint_ClearSETUP ;;
      m ← getc State;
      defined (if wLength r <=? zlen m then Some tt else None) ;;
      e ← Endpoint_Read_Control_Stream_LE fuel m (wLength r);
      modify_State (fun _ => snd e) ;;
      Endpoint_ClearIN ;;
      c ← getc id;
      c' ← defined (RNDIS_Device_ProcessRNDISControlMessage c);
      modc (fun _ => c'))
  else if bRequest r =? RNDIS_REQ_GetEncapsulatedResponse then
    when (bmRequestType r =? Z.lor (Z.lor REQDIR_DEVICETOHOST REQTYPE_CLASS) REQREC_INTERFACE) (
      m ← getc State;
      when (load32 Header_MessageLength m =? 0)
        (modify_State (fun m => store32 Header_MessageLength 1 (store8 0 0 m))) ;;
      Endpoint_ClearSETUP ;;
      m ← getc State;
      let Length := u16 (load32 Header_MessageLength m) in
      defined (if Z.min Length (wLength r) <=? zlen m then Some tt else None) ;;
      Endpoint_Write_Control_Stream_LE fuel m Length ;;
      Endpoint_ClearOUT ;;
      modify_State (store32 Header_MessageLength 0))
  else mret tt.

Definition RNDIS_Device_ConfigureEndpoints (fuel : nat) : M G bool :=
  modc rndis_reset ;;
  e1 ← getc DataINEndpoint;
  ok ← Endpoint_ConfigureEndpointTable fuel [e1];
  if negb ok then mret false else
  e2 ← getc DataOUTEndpoint;
  ok ← Endpoint_ConfigureEndpointTable fuel [e2];
  if negb ok then mret false else
  e3 ← getc NotificationEndpoint;
  ok ← Endpoint_ConfigureEndpointTable fuel [e3];
  if negb ok then mret false else mret true.

Definition RNDIS_Device_USBTask (fuel : nat) : M G unit :=
  d ← get_DeviceState;
  if negb (d =? DEVICE_STATE_Configured) then mret tt else
  e ← getc NotificationEndpoint;
  Endpoint_SelectEndpoint (et_Address e) ;;
  ready ← Endpoint_IsINReady;
  c ← getc id;
  when ((ready : bool) && ResponseReady c) (
    let Notification := mkRequest
      (Z.lor (Z.lor REQDIR_DEVICETOHOST REQTYPE_CLASS) REQREC_INTERFACE)
      RNDIS_NOTIF_ResponseAvailable 0 0 0 in
    Endpoint_Write_Stream_LE fuel (request_bytes Notification) 8 None ;;
    Endpoint_ClearIN ;;
    modify_State (store8 State_ResponseReady 0)).

(** [USB_DeviceState == Configured && CurrRNDISState == RNDIS_Data_Initialized] *)
Definition data_ready : M G bool :=
  d ← get_DeviceState;
  if negb (d =? DEVICE_STATE_Configured) then mret false else
  s ← getc CurrRNDISState; mret (s =? RNDIS_Data_Initialized).

Definition RNDIS_Device_IsPacketReceived : M G bool :=
  ok ← data_ready;
  if negb (ok : bool) then mret false else
  e ← getc DataOUTEndpoint;
  Endpoint_SelectEndpoint (et_Address e) ;;
  Endpoint_IsOUTReceived.

(** The code, [*PacketLength] and the caller's buffer; [header0] is what the
    stack held where the header is read. *)
Definition RNDIS_Device_ReadPacket (fuel : nat) (header0 Buffer : list Z) (PacketLength : Z) :
    M G (Z * Z * list Z) :=
  ok ← data_ready;
  if negb (ok : bool) then mret (ENDPOINT_RWSTREAM_DeviceDisconnected, PacketLength, Buffer) else
  e ← getc DataOUTEndpoint;
  Endpoint_SelectEndpoint (et_Address e) ;;
  out ← Endpoint_IsOUTReceived;
  if negb (out : bool) then mret (ENDPOINT_RWSTREAM_NoError, 0, Buffer) else
  r ← Endpoint_Read_Stream_LE fuel header0 sizeof_RNDIS_Packet_Message_t None;
  let DataLength := load32 Packet_DataLength (snd r) in
  if ETHERNET_FRAME_SIZE_MAX <? DataLength then
    Endpoint_StallTransaction ;; mret (RNDIS_ERROR_LOGICAL_CMD_FAILED, 0, Buffer)
  else
  r ← Endpoint_Read_Stream_LE fuel Buffer (u16 DataLength) None;
  Endpoint_ClearOUT ;;
  mret (ENDPOINT_RWSTREAM_NoError, u16 DataLength, snd r).

(** The header [RNDIS_Device_SendPacket] fills in. *)
Definition packet_header (PacketLength : Z) : list Z :=
  let m := repeat 0 (Z.to_nat sizeof_RNDIS_Packet_Message_t) in
  let m := store32 Packet_MessageType REMOTE_NDIS_PACKET_MSG m in
  let m := store32 Packet_MessageLength (u16 (sizeof_RNDIS_Packet_Message_t + PacketLength)) m in
  let m := store32 Packet_DataOffset (sizeof_RNDIS_Packet_Message_t - sizeof_RNDIS_Message_Header_t) m in
  store32 Packet_DataLength PacketLength m.

Definition RNDIS_Device_SendPacket (fuel : nat) (Buffer : list Z) (PacketLength : Z) : M G Z :=
  ok ← data_ready;
  if negb (ok : bool) then mret ENDPOINT_RWSTREAM_DeviceDisconnected else
  e ← getc DataINEndpoint;
  Endpoint_SelectEndpoint (et_Address e) ;;
  ErrorCode ← Endpoint_WaitUntilReady fuel;
  if negb (ErrorCode =? ENDPOINT_READYWAIT_NoError) then mret ErrorCode else
  Endpoint_Write_Stream_LE fuel (packet_header PacketLength) sizeof_RNDIS_Packet_Message_t None ;;
  Endpoint_Write_Stream_LE fuel Buffer PacketLength None ;;
  Endpoint_ClearIN ;;
  mret ENDPOINT_RWSTREAM_NoError.
End rndis.
