(* ===== verification/RndisMessages.v ===== *)
(** * The RNDIS control messages

    The adapter as its host knows it: a phase, a packet filter and an answer
    to every request ([adapter_step], on messages and replies as values), and
    the proof that [RNDIS_Device_ProcessRNDISControlMessage], which works in
    place on the bytes of one buffer, is that adapter; the one query that is
    not answered so, because its answer is longer than the buffer. *)

From S2P Require Import Prelude Flat Endpoint Rndis.

(** ** The adapter *)

Inductive phase := Uninitialized | Initialized | DataInitialized.
Definition phase_code (p : phase) : Z :=
  match p with Uninitialized => 0 | Initialized => 1 | DataInitialized => 2 end.

Record adapter := mkAdapter { ad_phase : phase; ad_filter : Z }.

Inductive message :=
  | Initialize (id version_major version_minor max_transfer : Z)
  | Halt (id : Z)
  | Query (id oid : Z) (info : list Z)
  | SetOid (id oid : Z) (info : list Z)
  | Reset
  | KeepAlive (id : Z).

(** A message as the host sends it: words, then the information buffer, which
    starts 20 bytes after the identifier. *)
Definition message_words (msg : message) : list Z :=
  match msg with
  | Initialize id j n t => [2; 24; id; j; n; t]
  | Halt id => [3; 12; id]
  | Query id oid info => [4; 28 + zlen info; id; oid; zlen info; 20; 0]
  | SetOid id oid info => [5; 28 + zlen info; id; oid; zlen info; 20; 0]
  | Reset => [6; 12; 0]
  | KeepAlive id => [8; 12; id]
  end.
Definition message_info (msg : message) : list Z :=
  match msg with Query _ _ info | SetOid _ _ info => info | _ => [] end.
Definition message_bytes (msg : message) : list Z := words (message_words msg) ++ message_info msg.

(** Every field fits its word, and a packet filter is one. *)
Definition message_ok (msg : message) : Prop :=
  Forall is_u32 (message_words msg) /\ Forall is_u8 (message_info msg)
  /\ zlen (message_bytes msg) <= RNDIS_MESSAGE_BUFFER_SIZE
  /\ match msg with
     | SetOid _ oid info => oid = OID_GEN_CURRENT_PACKET_FILTER -> length info = 4%nat
     | _ => True
     end.

(** The reply: its words and its information buffer. *)
Definition adapter_step (answer : Z -> option (list Z)) (a : adapter) (msg : message) :
    adapter * option (list Z * list Z) :=
  match msg with
  | Initialize id _ _ _ =>
      (mkAdapter Initialized (ad_filter a),
       Some ([REMOTE_NDIS_INITIALIZE_CMPLT; 52; id; REMOTE_NDIS_STATUS_SUCCESS; 1; 0;
              REMOTE_NDIS_DF_CONNECTIONLESS; REMOTE_NDIS_MEDIUM_802_3; 1; 1544; 0; 0; 0], []))
  | Halt _ => (mkAdapter Uninitialized (ad_filter a), None)
  | Query id oid _ =>
      (a, Some match answer oid with
          | Some info => ([REMOTE_NDIS_QUERY_CMPLT; 24 + zlen info; id; REMOTE_NDIS_STATUS_SUCCESS;
                           zlen info; 16], info)
          | None => ([REMOTE_NDIS_QUERY_CMPLT; 24; id; REMOTE_NDIS_STATUS_NOT_SUPPORTED; 0; 0], [])
          end)
  | SetOid id oid info =>
      let ok := (oid =? OID_GEN_CURRENT_PACKET_FILTER) || (oid =? OID_802_3_MULTICAST_LIST) in
      (if oid =? OID_GEN_CURRENT_PACKET_FILTER then
         let v := le_value info in mkAdapter (if v =? 0 then Initialized else DataInitialized) v
       else a,
       Some ([REMOTE_NDIS_SET_CMPLT; 16; id;
              if ok then REMOTE_NDIS_STATUS_SUCCESS else REMOTE_NDIS_STATUS_NOT_SUPPORTED], []))
  | Reset => (a, Some ([REMOTE_NDIS_RESET_CMPLT; 16; REMOTE_NDIS_STATUS_SUCCESS; 0], []))
  | KeepAlive id =>
      (a, Some ([REMOTE_NDIS_KEEPALIVE_CMPLT; 16; id; REMOTE_NDIS_STATUS_SUCCESS], []))
  end.
Definition reply_bytes (r : list Z * list Z) : list Z := words (fst r) ++ snd r.

(** ** The interface *)

(** The bytes of [State], and the adapter they hold. *)
Definition is_state (m : list Z) : Prop := length m = sizeof_State /\ Forall is_u8 m.
Record represents (c : USB_ClassInfo_RNDIS_Device_t) (a : adapter) : Prop := {
  rp_state : is_state (State c);
  rp_phase : CurrRNDISState c = phase_code (ad_phase a);
  rp_filter : CurrPacketFilter c = ad_filter a;
}.

(** The vendor's name fits the buffer behind the reply's header. *)
Record config_ok (c : USB_ClassInfo_RNDIS_Device_t) : Prop := {
  ck_mac : length (AdapterMACAddress c) = 6%nat /\ Forall is_u8 (AdapterMACAddress c);
  ck_name : zlen (AdapterVendorDescription c) <= 103 /\ Forall is_u8 (AdapterVendorDescription c);
}.

Definition same_config (c c' : USB_ClassInfo_RNDIS_Device_t) : Prop := c' = set_State (State c') c.

(** [msg] is in the buffer. *)
Definition holds (msg : message) (c : USB_ClassInfo_RNDIS_Device_t) : Prop :=
  load 0 (length (message_bytes msg)) (State c) = message_bytes msg.

(** What is waiting for the host: nothing, or a reply of the announced length. *)
Definition offers (c : USB_ClassInfo_RNDIS_Device_t) (r : option (list Z)) : Prop :=
  match r with
  | None => ResponseReady c = false /\ load32 Header_MessageLength (State c) = 0
  | Some bs =>
      ResponseReady c = true
      /\ load 0 (length bs) (State c) = bs
      /\ load32 Header_MessageLength (State c) = zlen bs
      /\ zlen bs <= RNDIS_MESSAGE_BUFFER_SIZE
  end.

Ltac rndis_layout :=
  cbv [Header_MessageType Header_MessageLength Message_RequestId Complete_Status
    InitializeComplete_MajorVersion InitializeComplete_MinorVersion InitializeComplete_DeviceFlags
    InitializeComplete_Medium InitializeComplete_MaxPacketsPerTransfer InitializeComplete_MaxTransferSize
    InitializeComplete_PacketAlignmentFactor InitializeComplete_AFListOffset InitializeComplete_AFListSize
    ResetComplete_Status ResetComplete_AddressingReset Request_Oid Request_InformationBufferLength
    Request_InformationBufferOffset QueryComplete_InformationBufferLength
    QueryComplete_InformationBufferOffset State_ResponseReady State_CurrRNDISState
    State_CurrPacketFilter sizeof_RNDIS_Message_Header_t sizeof_RNDIS_Initialize_Complete_t
    sizeof_RNDIS_KeepAlive_Complete_t sizeof_RNDIS_Reset_Complete_t sizeof_RNDIS_Set_Complete_t
    sizeof_RNDIS_Query_Complete_t sizeof_RNDIS_Packet_Message_t sizeof_State] in *.

Lemma is_state_store i bs m : Forall is_u8 bs -> is_state m -> is_state (store i bs m).
Proof. intros Hb [Hl Hm]. split; [by rewrite length_store|by apply Forall_store]. Qed.
Lemma is_state_store32 i v m : is_state m -> is_state (store32 i v m).
Proof. apply is_state_store, le_bytes_range. Qed.
Lemma is_state_store8 i v m : is_state m -> is_state (store8 i v m).
Proof. apply is_state_store. repeat constructor; apply u8_range. Qed.
Create HintDb rndis.
#[export] Hint Resolve is_state_store32 is_state_store8 : rndis.

(** A word of the message in the buffer. *)
Lemma message_word k w msg c :
  message_ok msg -> holds msg c -> message_words msg !! k = Some w ->
  load32 (4 * k) (State c) = w.
Proof.
  intros (Hw & _ & _) Hh Hk. pose proof (Forall_lookup_1 _ _ _ _ Hw Hk) as Hr.
  rewrite <- (u32_id w Hr), <- (load32_words k w (message_words msg) (message_info msg) Hk).
  fold (message_bytes msg). rewrite <- Hh, load32_load; [done|]. unfold message_bytes.
  rewrite length_app, length_words. apply lookup_lt_Some in Hk. lia.
Qed.

Lemma message_info_at msg c :
  holds msg c ->
  load (4 * length (message_words msg)) (length (message_info msg)) (State c) = message_info msg.
Proof.
  unfold holds, message_bytes. rewrite length_app, length_words, load_split. cbn [Nat.add].
  intros Hh. pose proof (f_equal length Hh) as Hlen. rewrite !length_app, length_words in Hlen.
  assert (Hle : forall i n, (length (load i n (State c)) <= n)%nat) by (intros; unfold load; rewrite length_take; lia).
  pose proof (Hle 0 (4 * length (message_words msg)))%nat.
  pose proof (Hle (4 * length (message_words msg)) (length (message_info msg)))%nat.
  apply app_inj_2 in Hh as [_ Hh]; [done|lia].
Qed.

(** A reply in the buffer, from the words at its start and what follows. *)
Lemma offers_reply c ws info :
  is_state (State c) -> load8 State_ResponseReady (State c) = 1 ->
  map (fun k => load32 (4 * k) (State c)) (seq 0 (length ws)) = ws ->
  load (4 * length ws) (length info) (State c) = info ->
  (1 < length ws)%nat -> ws !!! 1%nat = 4 * zlen ws + zlen info ->
  4 * zlen ws + zlen info <= RNDIS_MESSAGE_BUFFER_SIZE ->
  offers c (Some (reply_bytes (ws, info))).
Proof.
  intros [Hl Hm] Hready Hws Hinfo H1 Hlen Hle. unfold zlen, RNDIS_MESSAGE_BUFFER_SIZE in *. rndis_layout.
  assert (Hz : zlen (reply_bytes (ws, info)) = 4 * zlen ws + zlen info).
  { unfold reply_bytes, zlen. cbn [fst snd]. rewrite length_app, length_words. lia. }
  split_and!.
  - unfold ResponseReady. rndis_layout. by rewrite Hready.
  - unfold reply_bytes. cbn [fst snd]. rewrite length_app, length_words, load_split.
    cbn [Nat.add]. rewrite Hinfo. f_equal. rewrite load_words by (done || lia). f_equal. exact Hws.
  - rewrite Hz. unfold zlen. rewrite <- Hlen. destruct ws as [|w0 [|w1 ws]]; cbn [length] in H1; try lia.
    cbn [length seq map] in Hws. by injection Hws.
  - rewrite Hz. unfold zlen, RNDIS_MESSAGE_BUFFER_SIZE. lia.
Qed.

(** Loads from a chain of stores at the layout's offsets. *)
Ltac stores_simpl := cbn [seq map Nat.mul Nat.add length]; rndis_layout; flat_simpl.

(** The new state of the adapter, and the reply, after a chain of stores. *)
Ltac state_simpl := unfold CurrRNDISState, CurrPacketFilter in *; cbn [State set_State] in *; stores_simpl.
Ltac solve_reply Hid :=
  apply offers_reply; cbn [State set_State];
  [eauto 20 with rndis|by stores_simpl|stores_simpl; rewrite ?Hid; try done
  |try done|cbn [length]; lia|try done|try done].

Section steps.
Context (c : USB_ClassInfo_RNDIS_Device_t) (a : adapter) (Hc : represents c a).

Lemma state_length : length (State c) = 134%nat.
Proof. apply (rp_state _ _ Hc). Qed.

(** The identifier comes back as it came. *)
Lemma request_id msg id :
  message_ok msg -> holds msg c -> message_words msg !! 2%nat = Some id ->
  u32 (load32 8 (State c)) = id.
Proof.
  intros Hok Hh Hid. rewrite (message_word 2 id msg c Hok Hh Hid : load32 8 (State c) = id).
  apply u32_id. exact (Forall_lookup_1 _ _ _ _ (proj1 Hok) Hid).
Qed.

Lemma initialize_step id j n t :
  message_ok (Initialize id j n t) -> holds (Initialize id j n t) c ->
  represents (initialize_msg c) (mkAdapter Initialized (ad_filter a))
  /\ offers (initialize_msg c) (Some (reply_bytes ([REMOTE_NDIS_INITIALIZE_CMPLT; 52; id;
       REMOTE_NDIS_STATUS_SUCCESS; 1; 0; REMOTE_NDIS_DF_CONNECTIONLESS; REMOTE_NDIS_MEDIUM_802_3;
       1; 1544; 0; 0; 0], []))).
Proof using Hc.
  intros Hok Hh. pose proof (request_id _ id Hok Hh eq_refl) as Hid. pose proof state_length as Hl.
  pose proof Hc as [Hs Hp Hf]. unfold initialize_msg. split.
  - split; [cbn [State set_State]; eauto 20 with rndis|by state_simpl|by state_simpl].
  - solve_reply Hid.
Qed.

Lemma halt_step :
  represents (halt_msg c) (mkAdapter Uninitialized (ad_filter a)) /\ offers (halt_msg c) None.
Proof using Hc.
  pose proof state_length as Hl. pose proof Hc as [Hs Hp Hf]. unfold halt_msg. split.
  - split; [cbn [State set_State]; eauto 20 with rndis|by state_simpl|by state_simpl].
  - unfold offers, ResponseReady. cbn [State set_State]. by stores_simpl.
Qed.

Lemma reset_step :
  represents (reset_msg c) a
  /\ offers (reset_msg c) (Some (reply_bytes ([REMOTE_NDIS_RESET_CMPLT; 16; REMOTE_NDIS_STATUS_SUCCESS; 0], []))).
Proof using Hc.
  pose proof state_length as Hl. pose proof Hc as [Hs Hp Hf]. unfold reset_msg. split.
  - split; [cbn [State set_State]; eauto 20 with rndis|by state_simpl|by state_simpl].
  - solve_reply Hl.
Qed.

Lemma keepalive_step id :
  message_ok (KeepAlive id) -> holds (KeepAlive id) c ->
  represents (keepalive_msg c) a
  /\ offers (keepalive_msg c)
       (Some (reply_bytes ([REMOTE_NDIS_KEEPALIVE_CMPLT; 16; id; REMOTE_NDIS_STATUS_SUCCESS], []))).
Proof using Hc.
  intros Hok Hh. pose proof (request_id _ id Hok Hh eq_refl) as Hid. pose proof state_length as Hl.
  pose proof Hc as [Hs Hp Hf]. unfold keepalive_msg. split.
  - split; [cbn [State set_State]; eauto 20 with rndis|by state_simpl|by state_simpl].
  - solve_reply Hid.
Qed.

(** The answers fit behind the header, but for the list of identifiers. *)
Lemma query_answer_size oid bs :
  config_ok c -> oid <> OID_GEN_SUPPORTED_LIST -> query_answer c oid = Some bs ->
  zlen bs <= 104 /\ Forall is_u8 bs.
Proof using.
  intros [[Hm Hm8] [Hn Hn8]] Hoid. unfold query_answer. cbn [existsb].
  rewrite (proj2 (Z.eqb_neq oid _) Hoid). cbn [orb].
  assert (H4 : forall v, Some (le_bytes 4 v) = Some bs -> zlen bs <= 104 /\ Forall is_u8 bs).
  { intros v <-%(inj Some). split; [unfold zlen; rewrite le_bytes_length; lia|apply le_bytes_range]. }
  repeat match goal with |- (if ?b then _ else _) = _ -> _ => destruct b; [try apply H4|] end.
  3: done.
  all: intros <-%(inj Some).
  - split; [rewrite zlen_app; unfold zlen in *; cbn [length]; lia|].
    apply Forall_app. split; [done|]. by repeat constructor.
  - split; [unfold zlen; lia|done].
Qed.

Lemma query_answer_ext m oid :
  load32 State_CurrPacketFilter m = load32 State_CurrPacketFilter (State c) ->
  query_answer (set_State m c) oid = query_answer c oid.
Proof using. unfold query_answer, CurrPacketFilter. cbn [State set_State]. by intros ->. Qed.

Lemma query_step id oid info :
  config_ok c -> oid <> OID_GEN_SUPPORTED_LIST ->
  message_ok (Query id oid info) -> holds (Query id oid info) c ->
  exists c', query_msg c = Some c' /\ same_config c c' /\ represents c' a
    /\ offers c' (option_map reply_bytes (snd (adapter_step (query_answer c) a (Query id oid info)))).
Proof using Hc.
  intros Hcfg Hoid Hok Hh. pose proof (message_word 2 id _ c Hok Hh eq_refl : load32 8 (State c) = id) as Hid.
  pose proof (message_word 3 oid _ c Hok Hh eq_refl : load32 12 (State c) = oid) as Ho.
  pose proof state_length as Hl. pose proof Hc as [Hs Hp Hf]. unfold query_msg, RNDIS_Device_ProcessNDISQuery.
  replace (load32 Request_Oid (store8 State_ResponseReady 1 (State c))) with oid
    by (rndis_layout; by flat_simpl).
  rewrite query_answer_ext by (rndis_layout; by flat_simpl). cbn [adapter_step snd option_map].
  destruct (query_answer c oid) as [bs|] eqn:Ha; cbn [mbind option_bind].
  - destruct (query_answer_size oid bs Hcfg Hoid Ha) as [Hz Hb]. unfold zlen in Hz.
    change (Z.to_nat sizeof_RNDIS_Query_Complete_t) with 24%nat.
    unfold copy_to, inside. cbn [State set_State]. rndis_layout.
    rewrite (proj2 (Z.leb_le 0 (Z.of_nat 24))), (proj2 (Z.leb_le (Z.of_nat 24 + zlen bs) _))
      by (unfold zlen; autorewrite with flat; lia).
    cbn [andb mbind option_bind]. eexists. split; [done|]. split; [done|].
    rewrite !(u16_id (zlen bs)), (u16_id (24 + zlen bs)) by (unfold is_u16, zlen; lia).
    assert (Hw : u32 (zlen bs) = zlen bs /\ u32 (24 + zlen bs) = 24 + zlen bs)
      by (split; apply u32_id; unfold is_u32, zlen; lia).
    split.
    + split; [cbn [State set_State]; eauto 20 using is_state_store with rndis|by state_simpl|by state_simpl].
    + apply offers_reply; cbn [State set_State];
        [eauto 20 using is_state_store with rndis|by stores_simpl
        |stores_simpl; rewrite Hid; by destruct Hw as [-> ->]|by stores_simpl|cbn [length]; lia|done|].
      unfold zlen, RNDIS_MESSAGE_BUFFER_SIZE in *. cbn [length]. lia.
  - eexists. split; [done|]. split; [done|]. split.
    + split; [cbn [State set_State]; eauto 20 with rndis|by state_simpl|by state_simpl].
    + solve_reply Hid.
Qed.

Lemma set_step id oid info :
  message_ok (SetOid id oid info) -> holds (SetOid id oid info) c ->
  exists c', set_msg c = Some c' /\ same_config c c'
    /\ represents c' (fst (adapter_step (query_answer c) a (SetOid id oid info)))
    /\ offers c' (option_map reply_bytes (snd (adapter_step (query_answer c) a (SetOid id oid info)))).
Proof using Hc.
  intros Hok Hh. pose proof (request_id _ id Hok Hh eq_refl) as Hid.
  pose proof (message_word 3 oid _ c Hok Hh eq_refl : load32 12 (State c) = oid) as Ho.
  pose proof (message_word 5 20 _ c Hok Hh eq_refl : load32 20 (State c) = 20) as H20.
  pose proof state_length as Hl. pose proof Hc as [Hs Hp Hf]. unfold set_msg, RNDIS_Device_ProcessNDISSet.
  replace (load32 Request_Oid (store8 State_ResponseReady 1 (State c))) with oid
    by (rndis_layout; by flat_simpl).
  cbn [State set_State]. rndis_layout.
  match goal with |- context [data_offset ?x] => replace x with 20 by (by flat_simpl) end.
  change (data_offset 20) with 28. cbn [adapter_step fst snd option_map].
  destruct (Z.eqb_spec oid OID_GEN_CURRENT_PACKET_FILTER) as [->|Hoid].
  - pose proof (proj2 (proj2 (proj2 Hok)) eq_refl) as Hinfo.
    pose proof (message_info_at _ c Hh) as Hv. cbn [message_words message_info length Nat.mul Nat.add] in Hv.
    rewrite Hinfo in Hv.
    unfold inside. autorewrite with flat. rewrite (proj2 (Z.leb_le 0 28)), (proj2 (Z.leb_le (28 + 4) _))
      by (unfold zlen; autorewrite with flat; lia).
    change (Z.to_nat 28) with 28%nat. cbn [andb negb mbind option_bind]. eexists. split; [done|].
    split; [done|].
    assert (Hv32 : load32 28 (State c) = le_value info) by (unfold load32; by rewrite Hv).
    pose proof (load32_range (State c) 28 (proj2 Hs)) as Hvr. rewrite Hv32 in Hvr.
    assert (Hu : u32 (le_value info) = le_value info) by by apply u32_id.
    cbn [State set_State]. flat_simpl. rewrite Hv32, Hu. split.
    + split; [cbn [State set_State]; eauto 20 with rndis| |].
      * state_simpl. by destruct (le_value info =? 0).
      * state_simpl. exact Hu.
    + solve_reply Hid.
  - cbn [orb].
    destruct (Z.eqb_spec oid OID_802_3_MULTICAST_LIST) as [_|_]; cbn [mbind option_bind State set_State];
      (eexists; split; [done|]; split; [done|]; split;
       [split; [cbn [State set_State]; eauto 20 with rndis|by state_simpl|by state_simpl]|solve_reply Hid]).
Qed.
End steps.

(** ** The contract *)

(** The driver implements the adapter: whatever message of the protocol the
    host has put in the buffer, but a query for the list of supported
    identifiers, the handler leaves the state the adapter enters, and in the
    same buffer the reply the adapter gives, of the length it announces, or
    nothing when there is none; no access leaves the buffer. *)
Lemma adapter_implemented c a msg :
  represents c a -> config_ok c -> message_ok msg -> holds msg c ->
  (forall id info, msg <> Query id OID_GEN_SUPPORTED_LIST info) ->
  let r := adapter_step (query_answer c) a msg in
  exists c', RNDIS_Device_ProcessRNDISControlMessage c = Some c'
    /\ same_config c c' /\ represents c' (fst r) /\ offers c' (option_map reply_bytes (snd r)).
Proof.
  intros Hc Hcfg Hok Hh Hlist. unfold RNDIS_Device_ProcessRNDISControlMessage.
  assert (Ht : forall w, message_words msg !! 0%nat = Some w -> load32 Header_MessageType (State c) = w)
    by (intros w; exact (message_word 0 w msg c Hok Hh)).
  destruct msg as [id j n t|id|id oid info|id oid info| |id]; cbn [message_words lookup list_lookup] in Ht;
    rewrite (Ht _ eq_refl).
  - eexists. split; [done|]. split; [done|]. by apply initialize_step with (j := j) (n := n) (t := t).
  - eexists. split; [done|]. split; [done|]. by apply halt_step.
  - apply (query_step c a Hc id oid info Hcfg); [|done..]. intros ->. by eapply Hlist.
  - by apply set_step.
  - eexists. split; [done|]. split; [done|]. by apply reset_step.
  - eexists. split; [done|]. split; [done|]. by apply keepalive_step.
Qed.

(** ** The list of supported identifiers

    The list names [OID_GEN_MAXIMUM_TOTAL_SIZE] twice; with 27 entries the
    reply has 132 bytes. *)

Definition supported_list : list Z := words AdapterSupportedOIDList.

Lemma supported_list_split :
  supported_list = words (take 26 AdapterSupportedOIDList) ++ [0x03; 0x01; 0x02; 0x01].
Proof. reflexivity. Qed.

Lemma list_query_runs c a id info :
  represents c a -> message_ok (Query id OID_GEN_SUPPORTED_LIST info) ->
  holds (Query id OID_GEN_SUPPORTED_LIST info) c ->
  exists m, query_msg c = Some (set_State m c) /\ is_state m
    /\ load32 Header_MessageLength m = 132
    /\ load 24 108 m = supported_list
    /\ load 132 2 m = load 132 2 (State c).
Proof.
  intros Hc Hok Hh. pose proof (message_word 3 _ _ c Hok Hh eq_refl : load32 12 (State c) = _) as Ho.
  pose proof (state_length c a Hc) as Hl. pose proof Hc as [Hs Hp Hf].
  unfold query_msg, RNDIS_Device_ProcessNDISQuery.
  replace (load32 Request_Oid (store8 State_ResponseReady 1 (State c))) with OID_GEN_SUPPORTED_LIST
    by (rndis_layout; by flat_simpl).
  change (query_answer _ OID_GEN_SUPPORTED_LIST) with (Some supported_list). cbn [mbind option_bind].
  change (Z.to_nat sizeof_RNDIS_Query_Complete_t) with 24%nat.
  assert (H108 : length supported_list = 108%nat) by reflexivity.
  assert (Hb : Forall is_u8 supported_list) by apply words_range.
  assert (Hz : u16 (zlen supported_list) = 108) by reflexivity. rewrite Hz. clear Hz.
  generalize dependent supported_list. intros bs H108 Hb.
  unfold copy_to, inside. cbn [State set_State]. rndis_layout.
  rewrite (proj2 (Z.leb_le 0 (Z.of_nat 24))), (proj2 (Z.leb_le (Z.of_nat 24 + zlen bs) _))
    by (unfold zlen; autorewrite with flat; lia).
  cbn [andb mbind option_bind State set_State]. eexists. split; [done|].
  split; [eauto 20 using is_state_store with rndis|]. split; [|split]; by flat_simpl.
Qed.

(** Two bytes below, the rest above. *)
Lemma le_value_app2 l r :
  length l = 2%nat -> Forall is_u8 l -> Forall is_u8 r ->
  u16 (le_value (l ++ r)) = le_value l /\ Z.shiftr (le_value (l ++ r)) 16 = le_value r.
Proof.
  intros Hl Hl8 Hr. destruct l as [|x [|y [|]]]; try done.
  apply Forall_cons_iff in Hl8 as [Hx [Hy _]%Forall_cons_iff].
  cbn [app le_value]. rewrite !le_value_split by done. unfold u16. rewrite Z.shiftr_div_pow2 by lia.
  pose proof (le_value_range r Hr). unfold is_u8 in *.
  replace (x + 2 ^ 8 * (y + 2 ^ 8 * le_value r)) with (x + 2 ^ 8 * y + le_value r * 2 ^ 16) by lia.
  rewrite Z.mod_add, Z.div_add, (Z.div_small (x + 2 ^ 8 * y)), Z.mod_small by lia. lia.
Qed.

(** The answer to the standard query for the supported identifiers is four
    bytes longer than the message buffer.  Those four bytes, the last
    identifier, land in the fields behind it: whatever phase the adapter was
    in and whatever filter was set, it is then in the phase Initialized with
    a filter that ends in 0x0102, and no longer takes or sends packets. *)
Theorem supported_list_overruns c a id info :
  represents c a -> message_ok (Query id OID_GEN_SUPPORTED_LIST info) ->
  holds (Query id OID_GEN_SUPPORTED_LIST info) c ->
  exists c', RNDIS_Device_ProcessRNDISControlMessage c = Some c'
    /\ load32 Header_MessageLength (State c') = RNDIS_MESSAGE_BUFFER_SIZE + 4
    /\ CurrRNDISState c' = RNDIS_Initialized
    /\ u16 (CurrPacketFilter c') = 0x0102
    /\ Z.shiftr (CurrPacketFilter c') 16 = Z.shiftr (ad_filter a) 16.
Proof.
  intros Hc Hok Hh. destruct (list_query_runs c a id info Hc Hok Hh) as (m & Hq & [Hl Hm] & Hlen & Hlist & Hrest).
  exists (set_State m c). unfold RNDIS_Device_ProcessRNDISControlMessage.
  rewrite (message_word 0 4 _ c Hok Hh eq_refl : load32 Header_MessageType (State c) = 4).
  split; [exact Hq|]. rewrite <- (rp_filter _ _ Hc). pose proof (rp_state _ _ Hc) as [Hcl Hc8].
  unfold CurrRNDISState, CurrPacketFilter. cbn [State set_State]. split; [exact Hlen|].
  assert (Hend : load 128 4 m = [3; 1; 2; 1]).
  { rewrite supported_list_split, (load_split 24 104 4) in Hlist.
    apply app_inj_2 in Hlist as [_ Hlist]; [exact Hlist|]. rewrite length_load; [done|]. rndis_layout. lia. }
  rndis_layout.
  assert (Hin : forall j, (j < 4)%nat -> m !! (128 + j)%nat = [3; 1; 2; 1] !! j).
  { intros j Hj. rewrite <- Hend, lookup_load. by rewrite decide_True. }
  split; [unfold load8; by rewrite (Hin 1%nat ltac:(lia) : m !! 129%nat = Some 1)|].
  assert (Hlow : load 130 2 m = [2; 1]).
  { apply list_eq. intros j. rewrite lookup_load. case_decide as Hj.
    - rewrite (Hin (2 + j)%nat ltac:(lia) : m !! (130 + j)%nat = _). done.
    - symmetry. by apply lookup_ge_None, not_lt. }
  rewrite !load32_halves, Hlow. cbn [Nat.add]. rewrite Hrest. split.
  - by apply le_value_app2; [|repeat constructor|apply Forall_load].
  - rewrite (proj2 (le_value_app2 [2; 1] _ eq_refl ltac:(by repeat constructor) (Forall_load _ _ _ _ Hc8))).
    symmetry. apply le_value_app2; [apply length_load; lia|by apply Forall_load..].
Qed.

(** ** Examples *)

(** An adapter with a message in its buffer. *)
Definition rndis_ready (m : list Z) : USB_ClassInfo_RNDIS_Device_t :=
  mkRNDIS 0 (mkEndpointTable 0x81 64 2 1) (mkEndpointTable 2 64 2 1) (mkEndpointTable 0x83 8 3 1)
    [76; 85; 70; 65] [2; 0; 2; 0; 2; 0] m.
Definition rndis_with (msg : message) : USB_ClassInfo_RNDIS_Device_t :=
  rndis_ready (store 0 (message_bytes msg) (repeat 0 134)).

Lemma rndis_ready_ok m : config_ok (rndis_ready m).
Proof. repeat split; try done; apply (bool_decide_unpack _); vm_compute; exact I. Qed.

Lemma supported_list_overruns_witness :
  exists c', RNDIS_Device_ProcessRNDISControlMessage (rndis_with (Query 9 OID_GEN_SUPPORTED_LIST [])) = Some c'
    /\ CurrRNDISState c' = RNDIS_Initialized /\ u16 (CurrPacketFilter c') = 0x0102.
Proof.
  destruct (supported_list_overruns (rndis_with (Query 9 OID_GEN_SUPPORTED_LIST [])) (mkAdapter Uninitialized 0) 9 [])
    as (c' & Hrun & _ & Hs & Hf & _).
  - split; [|done|done]. split; [done|]. apply (bool_decide_unpack _). vm_compute. exact I.
  - split_and!; try done; apply (bool_decide_unpack _); vm_compute; exact I.
  - done.
  - exists c'. done.
Defined.
