(* ===== verification/Leds.v ===== *)
(** * LUFA/Drivers/Board/AVR8/AvalonBTC/LEDs.h

    The board's LED driver: two LEDs on the low bits of PORTD, the port that
    also carries the ASIC's reset line. *)

From S2P Require Import Prelude Machine.

Definition LEDS_LED1 : Z := BV 0.
Definition LEDS_LED2 : Z := BV 1.
(** The board does not define it: LEDs.h makes it 0. *)
Definition LEDS_LED3 : Z := 0.
Definition LEDS_ALL_LEDS : Z := Z.lor LEDS_LED1 LEDS_LED2.
Definition LEDS_NO_LEDS : Z := 0.

Section leds.
Context {G : Type} `{Hardware}.

Definition LEDs_Init : M G unit := reg_or DDRD LEDS_ALL_LEDS ;; reg_clr PORTD LEDS_ALL_LEDS.
Definition LEDs_Disable : M G unit := reg_clr DDRD LEDS_ALL_LEDS ;; reg_clr PORTD LEDS_ALL_LEDS.
Definition LEDs_TurnOnLEDs (LEDMask : Z) : M G unit := reg_or PORTD LEDMask.
Definition LEDs_TurnOffLEDs (LEDMask : Z) : M G unit := reg_clr PORTD LEDMask.
Definition LEDs_ChangeLEDs (LEDMask ActiveMask : Z) : M G unit :=
  v ← rd PORTD; wr PORTD (Z.lor (clrbits v LEDMask) ActiveMask).
Definition LEDs_SetAllLEDs (LEDMask : Z) : M G unit := LEDs_ChangeLEDs LEDS_ALL_LEDS LEDMask.
Definition LEDs_ToggleLEDs (LEDMask : Z) : M G unit := v ← rd PORTD; wr PORTD (Z.lxor v LEDMask).
Definition LEDs_GetLEDs : M G Z := v ← rd PORTD; mret (Z.land v LEDS_ALL_LEDS).
End leds.

(** The LED functions leave the other pins of PORTD alone. *)
Definition keeps_pin `{Hardware} {G A} (i : Z) (m : M G A) : Prop :=
  forall s a s', m s = Some (a, s') ->
    Z.testbit (latch_value PORTD (hist s')) i = Z.testbit (latch_value PORTD (hist s)) i.

Section leds_pins.
Context {G : Type} `{Hardware} `{!Latch PORTD}.

Lemma LEDs_ChangeLEDs_keeps i LEDMask ActiveMask :
  0 <= i < 8 -> Z.testbit LEDMask i = false -> Z.testbit ActiveMask i = false ->
  keeps_pin i (@LEDs_ChangeLEDs G _ LEDMask ActiveMask).
Proof.
  intros Hi Hl Ha s a s' [= <- <-]. cbn [hist]. latch_simpl.
  change (reg_trunc PORTD ?x) with (u8 x).
  rewrite u8_testbit, Z.lor_spec, clrbits_testbit, Hl, Ha, andb_true_r, orb_false_r by lia.
  by rewrite (proj2 (Z.ltb_lt i 8)) by lia.
Qed.

Lemma LEDs_ToggleLEDs_keeps i LEDMask :
  0 <= i < 8 -> Z.testbit LEDMask i = false -> keeps_pin i (@LEDs_ToggleLEDs G _ LEDMask).
Proof.
  intros Hi Hl s a s' [= <- <-]. cbn [hist]. latch_simpl.
  change (reg_trunc PORTD ?x) with (u8 x).
  rewrite u8_testbit, Z.lxor_spec, Hl, xorb_false_r by lia.
  by rewrite (proj2 (Z.ltb_lt i 8)) by lia.
Qed.
End leds_pins.
