(* ===== verification/Peripherals.v ===== *)
(** * LUFA/Drivers/Peripheral/AVR8: SPI_AVR8.h, Serial_AVR8.h, Serial_AVR8.c

    The SPI master and the USART of the FPGA programmer.  Their busy-waits
    poll a flag; [fuel] bounds the polls. *)

From S2P Require Import Prelude Machine.

(** Bit numbers of [<avr/io.h>]. *)
Definition SPR0 : Z := 0.
Definition CPHA : Z := 2.
Definition CPOL : Z := 3.
Definition MSTR : Z := 4.
Definition DORD : Z := 5.
Definition SPE : Z := 6.
Definition SPI2X : Z := 0.
Definition SPIF : Z := 7.
Definition RXC1 : Z := 7.
Definition UDRE1 : Z := 5.
Definition U2X1 : Z := 1.
Definition RXCIE1 : Z := 7.
Definition RXEN1 : Z := 4.
Definition TXEN1 : Z := 3.
Definition UPM11 : Z := 5.
Definition UPM10 : Z := 4.
Definition USBS1 : Z := 3.
Definition UCSZ11 : Z := 2.
Definition UCSZ10 : Z := 1.

(** makefile *)
Definition F_CPU : Z := 16000000.

(** ** SPI *)

Definition SPI_USE_DOUBLESPEED : Z := BV SPE.
Definition SPI_SPEED_FCPU_DIV_8 : Z := Z.lor SPI_USE_DOUBLESPEED (BV SPR0).
Definition SPI_SCK_LEAD_RISING : Z := Z.shiftl 0 CPOL.
Definition SPI_SAMPLE_LEADING : Z := Z.shiftl 0 CPHA.
Definition SPI_ORDER_MSB_FIRST : Z := Z.shiftl 0 DORD.
Definition SPI_MODE_MASTER : Z := BV MSTR.

Section spi.
Context {G : Type} `{Hardware}.

Definition SPI_Init (SPIOptions : Z) : M G unit :=
  reg_or DDRB (BV 0) ;;
  reg_or PORTB (BV 0) ;;
  reg_or DDRB (Z.lor (BV 1) (BV 2)) ;;
  reg_clr DDRB (BV 3) ;;
  reg_or PORTB (BV 3) ;;
  (if anybit SPIOptions SPI_USE_DOUBLESPEED then reg_or SPSR (BV SPI2X)
   else reg_clr SPSR (BV SPI2X)) ;;
  reg_clr DDRB (BV 0) ;;
  wr SPCR (Z.lor (BV SPE) SPIOptions).

Definition SPI_Disable : M G unit :=
  reg_clr DDRB (Z.lor (BV 1) (BV 2)) ;;
  reg_clr PORTB (Z.lor (BV 0) (BV 3)) ;;
  wr SPCR 0 ;;
  wr SPSR 0.

Definition SPI_GetCurrentMode : M G Z := v ← rd SPCR; mret (Z.land v SPI_MODE_MASTER).

(** [while (!(SPSR & (1 << SPIF)));] *)
Definition spi_wait (fuel : nat) : M G unit :=
  loop fuel (fun _ : unit =>
    v ← rd SPSR; mret (if anybit v (BV SPIF) then inr tt else inl tt)) tt.

Definition SPI_TransferByte (fuel : nat) (Byte : Z) : M G Z :=
  wr SPDR Byte ;; spi_wait fuel ;; rd SPDR.
Definition SPI_SendByte (fuel : nat) (Byte : Z) : M G unit := wr SPDR Byte ;; spi_wait fuel.
Definition SPI_ReceiveByte (fuel : nat) : M G Z := wr SPDR 0 ;; spi_wait fuel ;; rd SPDR.
End spi.

(** ** USART *)

(** The division is C's: none by zero. *)
Definition SERIAL_UBBRVAL (Baud : Z) : option Z :=
  if Baud =? 0 then None else Some (u32 (u32 (F_CPU / 16 + Baud / 2) / Baud - 1)).
Definition SERIAL_2X_UBBRVAL (Baud : Z) : option Z :=
  if Baud =? 0 then None else Some (u32 (u32 (F_CPU / 8 + Baud / 2) / Baud - 1)).

Section usart.
Context {G : Type} `{Hardware}.

Definition Serial_Init (BaudRate : Z) (DoubleSpeed : bool) : M G unit :=
  ubrr ← defined (if DoubleSpeed then SERIAL_2X_UBBRVAL BaudRate else SERIAL_UBBRVAL BaudRate);
  wr UBRR1 ubrr ;;
  wr UCSR1C (Z.lor (BV UCSZ11) (BV UCSZ10)) ;;
  wr UCSR1A (if DoubleSpeed then BV U2X1 else 0) ;;
  wr UCSR1B (Z.lor (BV TXEN1) (BV RXEN1)) ;;
  reg_or DDRD (BV 3) ;;
  reg_or PORTD (BV 2).

Definition Serial_Disable : M G unit :=
  wr UCSR1B 0 ;; wr UCSR1A 0 ;; wr UCSR1C 0 ;; wr UBRR1 0 ;;
  reg_clr DDRD (BV 3) ;; reg_clr PORTD (BV 2).

Definition Serial_IsCharReceived : M G bool := v ← rd UCSR1A; mret (anybit v (BV RXC1)).

(** [while (!(UCSR1A & (1 << UDRE1)));] *)
Definition usart_wait (fuel : nat) : M G unit :=
  loop fuel (fun _ : unit =>
    v ← rd UCSR1A; mret (if anybit v (BV UDRE1) then inr tt else inl tt)) tt.

Definition Serial_SendByte (fuel : nat) (DataByte : Z) : M G unit :=
  usart_wait fuel ;; wr UDR1 DataByte.

Definition Serial_ReceiveByte : M G Z :=
  c ← Serial_IsCharReceived;
  if (c : bool) then rd UDR1 else mret (-1).

Definition Serial_putchar (fuel : nat) (DataByte : Z) : M G Z :=
  Serial_SendByte fuel DataByte ;; mret 0.

(** [_FDEV_EOF] of [<stdio.h>] is -2. *)
Definition FDEV_EOF : Z := -2.
Definition Serial_getchar : M G Z :=
  c ← Serial_IsCharReceived;
  if (c : bool) then Serial_ReceiveByte else mret FDEV_EOF.

Definition Serial_getchar_Blocking (fuel : nat) : M G Z :=
  loop fuel (fun _ : unit =>
    c ← Serial_IsCharReceived; mret (if (c : bool) then inr tt else inl tt)) tt ;;
  Serial_ReceiveByte.

(** [mem] is the memory the pointer walks, RAM or flash; a string without a
    NUL in it is walked out of it. *)
Fixpoint Serial_SendString (fuel : nat) (mem : list Z) : M G unit :=
  match mem with
  | [] => fun _ => None
  | CurrByte :: mem' =>
      if CurrByte =? 0 then mret tt
      else Serial_SendByte fuel CurrByte ;; Serial_SendString fuel mem'
  end.
Definition Serial_SendString_P (fuel : nat) (mem : list Z) : M G unit := Serial_SendString fuel mem.

Definition Serial_SendData (fuel : nat) (Buffer : list Z) (Length : nat) : M G unit :=
  for_each (take Length Buffer) (Serial_SendByte fuel).
End usart.

(** ** What the busy-waits promise *)

(** The reads of [r] since it, or [t], was last written. *)
Fixpoint polls_since (t r : reg) (h : history) : nat :=
  match h with
  | [] => O
  | Wr r' _ :: h' => if decide (r' = t) then O else polls_since t r h'
  | Rd r' _ :: h' => if decide (r' = r) then S (polls_since t r h') else polls_since t r h'
  | DelayUs _ :: h' => polls_since t r h'
  end.

(** A transfer on an enabled SPI master completes within [k] polls of its
    start; an idle USART transmitter frees its register within [k] polls. *)
Definition spi_responsive `{Hardware} (k : nat) : Prop := forall h,
  Z.testbit (latch_value SPCR h) SPE = true -> (k <= polls_since SPDR SPSR h)%nat ->
  anybit (reg_trunc SPSR (hw_value h SPSR)) (BV SPIF) = true.
Definition usart_responsive `{Hardware} (k : nat) : Prop := forall h,
  (k <= polls_since UDR1 UCSR1A h)%nat ->
  anybit (reg_trunc UCSR1A (hw_value h UCSR1A)) (BV UDRE1) = true.

(** A transfer that was not started on an enabled SPI never completes. *)
Definition spi_silent `{Hardware} : Prop := forall h,
  Z.testbit (latch_value SPCR h) SPE = false ->
  anybit (reg_trunc SPSR (hw_value h SPSR)) (BV SPIF) = false.

Section waits.
Context {G : Type} `{Hardware}.

(** After a busy-wait: only reads of [r]. *)
Definition polled_only (r : reg) (s s' : st G) : Prop :=
  (exists tr, hist s' = tr ++ hist s /\ forall r', writes r' tr = [])
  /\ glob s' = glob s.

Lemma flag_wait (t r : reg) (b : Z) k fuel (s : st G) :
  t <> r -> (k < fuel)%nat ->
  (forall tr, (forall r', writes r' tr = []) -> (k <= polls_since t r (tr ++ hist s))%nat ->
     anybit (reg_trunc r (hw_value (tr ++ hist s) r)) (BV b) = true) ->
  wp_ False (loop fuel (fun _ : unit =>
      v ← rd r; mret (if anybit v (BV b) then inr tt else inl tt)) tt)
    (fun _ s' => polled_only r s s') s.
Proof.
  intros Ht Hf Hflag.
  apply (wp_loop_total _
    (fun _ s' => exists tr, hist s' = tr ++ hist s /\ (forall r', writes r' tr = []) /\ glob s' = glob s)
    (fun _ s' => (k - polls_since t r (hist s'))%nat)).
  - exists []. auto.
  - lia.
  - intros [] [h g] (tr & Hh & Hw & Hg). do 3 wp_step. cbn [hist glob] in *.
    set (v := reg_trunc r (hw_value h r)).
    assert (Hext : exists tr', Rd r v :: h = tr' ++ hist s /\ (forall r', writes r' tr' = []) /\ g = glob s).
    { exists (Rd r v :: tr). by rewrite Hh. }
    destruct (anybit v (BV b)) eqn:Ev.
    + destruct Hext as (tr' & Hh' & Hw' & Hg'). split; [by exists tr'|done].
    + split; [exact Hext|]. cbn [polls_since]. rewrite decide_True by done.
      destruct (Nat.le_gt_cases k (polls_since t r h)) as [Hk|Hk]; [exfalso|lia].
      rewrite Hh in Hk. specialize (Hflag tr Hw Hk). rewrite <- Hh in Hflag. subst v. congruence.
Qed.
End waits.
