(* ===== verification/XilinxBoard.v ===== *)
(** * The FPGA programmer's board

    LUFA/Drivers/Board/AVR8/XilinxFpgaBoard/LEDs.h and
    Projects/XilinxFpgaProg/XilinxProtocol.[ch]: the LEDs on the high pins of
    PORTB, and the FPGA's configuration pins. *)

From S2P Require Import Prelude Machine Peripherals.

(** ** LEDs.h *)

Definition LEDS_LED1 : Z := BV 6.
Definition LEDS_LED2 : Z := BV 7.
(** The board does not define it: LEDs.h makes it 0. *)
Definition LEDS_LED3 : Z := 0.
Definition LEDS_NO_LEDS : Z := 0.

(** [LEDS_ALL_LEDS] is the text [LEDS_LED1 | LEDS_LED2], without
    parentheses: its value where it stands alone, and [~LEDS_ALL_LEDS] and
    [PORTB & LEDS_ALL_LEDS] as the compiler parses them. *)
Definition LEDS_ALL_LEDS : Z := Z.lor LEDS_LED1 LEDS_LED2.
Definition not_ALL_LEDS : Z := Z.lor (Z.lnot LEDS_LED1) LEDS_LED2.
Definition and_ALL_LEDS (v : Z) : Z := Z.lor (Z.land v LEDS_LED1) LEDS_LED2.
Definition and_not_ALL_LEDS (v : Z) : Z := Z.lor (Z.land v (Z.lnot LEDS_LED1)) LEDS_LED2.

Section leds.
Context {G : Type} `{Hardware}.

Definition LEDs_Init : M G unit :=
  reg_or DDRB LEDS_ALL_LEDS ;;
  v ← rd PORTB; wr PORTB (Z.land v not_ALL_LEDS).
Definition LEDs_Disable : M G unit :=
  (v ← rd DDRB; wr DDRB (Z.land v not_ALL_LEDS)) ;;
  v ← rd PORTB; wr PORTB (Z.land v not_ALL_LEDS).
Definition LEDs_TurnOnLEDs (LEDMask : Z) : M G unit := reg_or PORTB LEDMask.
Definition LEDs_TurnOffLEDs (LEDMask : Z) : M G unit := reg_clr PORTB LEDMask.
Definition LEDs_SetAllLEDs (LEDMask : Z) : M G unit :=
  v ← rd PORTB; wr PORTB (Z.lor (and_not_ALL_LEDS v) LEDMask).
Definition LEDs_ChangeLEDs (LEDMask ActiveMask : Z) : M G unit :=
  v ← rd PORTB; wr PORTB (Z.lor (clrbits v LEDMask) ActiveMask).
Definition LEDs_ToggleLEDs (LEDMask : Z) : M G unit := v ← rd PORTB; wr PORTB (Z.lxor v LEDMask).
Definition LEDs_GetLEDs : M G Z := v ← rd PORTB; mret (and_ALL_LEDS v).
End leds.

(** ** XilinxProtocol.[ch] *)

Definition PIN_PROGRAM_B : Z := 5.
Definition PIN_INIT_B : Z := 4.
Definition PIN_DONE : Z := 6.

Definition SPI_OPTIONS : Z :=
  Z.lor (Z.lor (Z.lor (Z.lor SPI_SPEED_FCPU_DIV_8 SPI_SCK_LEAD_RISING) SPI_SAMPLE_LEADING)
           SPI_ORDER_MSB_FIRST) SPI_MODE_MASTER.

Section protocol.
Context {G : Type} `{Hardware}.

Definition clearProgramB : M G unit := reg_clr PORTB (BV PIN_PROGRAM_B).
Definition setProgramB : M G unit := reg_or PORTB (BV PIN_PROGRAM_B).
Definition isSetInitB : M G bool := v ← rd PINB; mret (anybit v (BV PIN_INIT_B)).
Definition isSetDone : M G bool := v ← rd PIND; mret (anybit v (BV PIN_DONE)).

Definition xilinxInit : M G unit :=
  SPI_Init SPI_OPTIONS ;;
  reg_or DDRB (BV 0) ;;
  reg_or PORTB (BV 0).

(** [while(!isSetInitB() && timeout)]; the remaining [timeout]. *)
Fixpoint init_wait (timeout : nat) : M G nat :=
  i ← isSetInitB;
  if (i : bool) then mret timeout else
  match timeout with
  | O => mret O
  | S t => delay_us 1000 ;; init_wait t
  end.

Definition xilinxSetupConfiguration : M G bool :=
  clearProgramB ;;
  delay_us 5 ;;
  setProgramB ;;
  delay_us 5 ;;
  timeout ← init_wait 1000;
  mret (match timeout with O => false | S _ => true end).

Definition xilinxSend (fuel : nat) (buffer : Z) : M G unit := SPI_SendByte fuel buffer.
End protocol.

(** ** The LEDs, whatever is asked *)

Section led_facts.
Context {G : Type} `{Hardware} `{!Latch PORTB}.

(** [LEDs_SetAllLEDs] lights the second LED even when it is not in the mask,
    and [LEDs_GetLEDs] always reports it lit. *)
Lemma SetAllLEDs_second mask (s : st G) :
  wp_ False (LEDs_SetAllLEDs mask)
    (fun _ s' => Z.testbit (latch_value PORTB (hist s')) 7 = true) s.
Proof.
  unfold LEDs_SetAllLEDs. wp_run. latch_simpl. rewrite reg_testbit by (reflexivity || lia).
  unfold and_not_ALL_LEDS, LEDS_LED2. rewrite !Z.lor_spec, BV_testbit by lia.
  by rewrite Z.eqb_refl, orb_true_r.
Qed.

Lemma GetLEDs_second (s : st G) :
  wp_ False LEDs_GetLEDs (fun v _ => Z.testbit v 7 = true) s.
Proof.
  unfold LEDs_GetLEDs. wp_run. unfold and_ALL_LEDS, LEDS_LED2.
  rewrite Z.lor_spec, BV_testbit by lia. by rewrite Z.eqb_refl, orb_true_r.
Qed.
End led_facts.

(** ** Starting a configuration *)

Section setup.
Context {G : Type} `{Hardware}.

(** What the INIT_B pin showed at each poll, oldest first. *)
Definition init_polls (tr : history) : list bool :=
  rev (map (fun v => anybit v (BV PIN_INIT_B)) (reads PINB tr)).

(** The time spent, in microseconds. *)
Fixpoint elapsed (tr : history) : Z :=
  match tr with
  | [] => 0
  | DelayUs n :: tr' => n + elapsed tr'
  | _ :: tr' => elapsed tr'
  end.

Lemma elapsed_app t1 t2 : elapsed (t1 ++ t2) = elapsed t1 + elapsed t2.
Proof. induction t1 as [|[] t1 IH]; cbn; rewrite ?IH; lia. Qed.
Lemma init_polls_app t1 t2 : init_polls (t1 ++ t2) = init_polls t2 ++ init_polls t1.
Proof. unfold init_polls. by rewrite reads_app, map_app, rev_app_distr. Qed.

Lemma init_polls_one v : init_polls [Rd PINB v] = [anybit v (BV PIN_INIT_B)].
Proof. done. Qed.

(** The wait: [p] polls found the pin low, then either it was high with time
    left, or the time was up. *)
Lemma init_wait_spec n (s : st G) :
  wp_ False (init_wait n) (fun left s' => exists tr p b,
    hist s' = tr ++ hist s /\ glob s' = glob s
    /\ init_polls tr = repeat false p ++ [b] /\ (p <= n)%nat
    /\ elapsed tr = 1000 * Z.of_nat p
    /\ left = (n - p)%nat /\ (b = false -> p = n)
    /\ (forall r, writes r tr = [])) s.
Proof.
  revert s. induction n as [|n IH]; intros s; cbn [init_wait]; unfold isSetInitB; do 4 wp_step.
  all: set (v := reg_trunc PINB (hw_value (hist s) PINB)).
  all: destruct (anybit v (BV PIN_INIT_B)) eqn:Ev.
  - apply wp_ret. exists [Rd PINB v], O, true. rewrite init_polls_one, Ev. split_and!; (done || lia).
  - apply wp_ret. exists [Rd PINB v], O, false. rewrite init_polls_one, Ev. split_and!; (done || lia).
  - apply wp_ret. exists [Rd PINB v], O, true. rewrite init_polls_one, Ev. split_and!; (done || lia).
  - do 2 wp_step. wp_spec (IH (St (DelayUs 1000 :: Rd PINB v :: hist s) (glob s))).
    intros left s' (tr & p & b & Hh & Hg & Hp & Hn & He & Hl & Hb & Hw). cbn [hist glob] in *.
    exists (tr ++ [DelayUs 1000; Rd PINB v]), (S p), b.
    rewrite <- app_assoc. rewrite init_polls_app, elapsed_app, Hp, He.
    change (init_polls [DelayUs 1000; Rd PINB v]) with [anybit v (BV PIN_INIT_B)]. rewrite Ev.
    split_and!; try (done || lia).
    + cbn [elapsed]. lia.
    + intros Hf. by rewrite (Hb Hf).
    + intros r. rewrite writes_app, Hw. done.
Qed.

(** Starting a configuration always ends, within 1000 waits of a
    millisecond: PROGRAM_B is pulsed low for 5 us and left high, INIT_B is
    polled until it is high or the time is up, and the result says whether
    INIT_B was seen high before the last poll. *)
Theorem setup_configuration_ends `{!Latch PORTB} (s : st G) :
  wp_ False xilinxSetupConfiguration (fun r s' => exists tr p b,
    hist s' = tr ++ hist s /\ glob s' = glob s
    /\ init_polls tr = repeat false p ++ [b] /\ (p <= 1000)%nat
    /\ elapsed tr = 10 + 1000 * Z.of_nat p
    /\ (r = true <-> (p < 1000)%nat) /\ ((p < 1000)%nat -> b = true)
    /\ map (fun v => Z.testbit v PIN_PROGRAM_B) (rev (writes PORTB tr)) = [false; true]
    /\ forall r', r' <> PORTB -> writes r' tr = []) s.
Proof.
  unfold xilinxSetupConfiguration, clearProgramB, setProgramB. do 14 wp_step.
  set (v1 := reg_trunc PORTB (clrbits _ _)).
  set (s1 := St _ _). wp_call (init_wait_spec 1000 s1).
  intros left s' (tr & p & b & Hh & Hg & Hp & Hn & He & Hl & Hb & Hw). apply wp_ret.
  subst s1. cbn [hist glob] in *. set (v2 := reg_trunc PORTB (setbits _ _)) in *.
  eexists (tr ++ [DelayUs 5; Wr PORTB v2; Rd PORTB _; DelayUs 5; Wr PORTB v1; Rd PORTB _]), p, b.
  rewrite <- app_assoc. split; [exact Hh|]. split; [exact Hg|].
  rewrite init_polls_app, elapsed_app, Hp, He. split; [by rewrite app_nil_l|]. split; [done|].
  split; [cbn [elapsed]; lia|]. split; [rewrite Hl; destruct (1000 - p)%nat eqn:E; split; (done || lia)|].
  split; [intros Hlt; destruct b; [done|]; specialize (Hb eq_refl); lia|].
  split; [|intros r' Hr; rewrite writes_app, Hw; cbn [writes app]; reg_decide; done].
  rewrite writes_app, Hw. cbn [writes app]. reg_decide. cbn [rev app map].
  unfold v1, v2. reg_bits. done.
Qed.

End setup.

(** On a board whose FPGA never answers. *)
Lemma setup_configuration_ends_witness :
  let s := St [] tt in
  wp_ False (@xilinxSetupConfiguration unit plain_hardware) (fun r s' => exists tr p b,
    hist s' = tr ++ hist s /\ glob s' = glob s
    /\ init_polls tr = repeat false p ++ [b] /\ (p <= 1000)%nat
    /\ elapsed tr = 10 + 1000 * Z.of_nat p
    /\ (r = true <-> (p < 1000)%nat) /\ ((p < 1000)%nat -> b = true)
    /\ map (fun v => Z.testbit v PIN_PROGRAM_B) (rev (writes PORTB tr)) = [false; true]
    /\ forall r', r' <> PORTB -> writes r' tr = []) s.
Proof. exact (@setup_configuration_ends unit plain_hardware _ (St [] tt)). Defined.
