(* ===== verification/Frame.v ===== *)
(** * Projects/XilinxFpgaProg/serial.[ch]: the programmer's commands

    A command is a frame: a command byte, a length byte, and that many bytes.
    [serialAddByte] collects a frame, [serialProcess] executes it. *)

From S2P Require Import Prelude Machine RingBuffer Peripherals XilinxBoard.

Definition SERIAL_START_CONFIG : Z := 0x01.
Definition SERIAL_DOWNLOAD_DATA : Z := 0x02.
Definition SERIAL_SPI_DATA : Z := 0x03.
Definition SERIAL_SPI_SELECT : Z := 0x04.
Definition SERIAL_USART_DATA : Z := 0x05.
Definition SERIAL_USE_USART : Z := 0x06.
Definition SERIAL_USE_SPI : Z := 0x07.
Definition SERIAL_FPGA_RESET : Z := 0x08.
Definition SERIAL_FPGA_START : Z := 0x09.
Definition SERIAL_END_COMMANDS : Z := 0x0a.
Definition SERIAL_ACK : Z := 0x80.
Definition SERIAL_NAK : Z := 0x81.

(** The file's static variables. *)
Record SerialState := mkSerial {
  buffer_ : RingBuffer_t;
  frame_size_ : Z;
}.
Definition set_buffer b s := mkSerial b (frame_size_ s).
Definition set_frame_size n s := mkSerial (buffer_ s) n.

Section serial.
Context {G : Type} `{Hardware} `{Has SerialState G}.

(** [p]: the address of [buffer_data_]. *)
Definition serialInit (p : Z) : M G unit :=
  modc (fun s => set_buffer (RingBuffer_InitBuffer p (rb_data (buffer_ s)) 128) s) ;;
  modc (set_frame_size 0).

(** The end of [serialAddByte]: store the byte, test for the end of the frame. *)
Definition serial_insert (byte : Z) : M G bool :=
  modc (fun s => set_buffer (RingBuffer_Insert (buffer_ s) byte) s) ;;
  s ← getc (fun s => s);
  if RingBuffer_GetCount (buffer_ s) =? frame_size_ s then
    modc (set_frame_size 0) ;; mret true
  else mret false.

Definition serialAddByte (byte : Z) : M G bool :=
  b ← getc buffer_;
  let size := RingBuffer_GetCount b in
  if (size =? 0) && (SERIAL_END_COMMANDS <=? byte) then mret false else
  when (negb (size =? 0) && (size =? 1)) (modc (set_frame_size (u8 (byte + 2)))) ;;
  serial_insert byte.

(** [RingBuffer_Remove(&buffer_)] *)
Definition serial_remove : M G Z :=
  b ← getc buffer_;
  modc (set_buffer (snd (RingBuffer_Remove b))) ;;
  mret (fst (RingBuffer_Remove b)).

(** [for(i=0; i<size; i++) f(RingBuffer_Remove(&buffer_));] *)
Fixpoint serial_removes (n : nat) (f : Z -> M G unit) : M G unit :=
  match n with
  | O => mret tt
  | S n' => x ← serial_remove; f x ;; serial_removes n' f
  end.

(** The branch of each command. *)
Definition cmd_download (fuel : nat) (size : Z) : M G bool :=
  LEDs_ToggleLEDs LEDS_LED1 ;;
  serial_removes (Z.to_nat size) (xilinxSend fuel) ;;
  done_ ← isSetDone;
  if (done_ : bool) then mret true else isSetInitB.

Definition cmd_select : M G bool :=
  prop ← serial_remove;
  (if negb (prop =? 0) then reg_clr PORTD (BV 3) else reg_or PORTD (BV 3)) ;;
  mret true.

Definition cmd_use_usart : M G bool :=
  SPI_Disable ;;
  reg_clr PORTB (Z.lor (BV 1) (BV 2)) ;;
  reg_or DDRB (Z.lor (BV 1) (BV 2)) ;;
  mret true.

(** A 5 us pulse on a pin of PORTB. *)
Definition pulse (pin : Z) : M G unit :=
  reg_or PORTB (BV pin) ;; delay_us 5 ;; reg_clr PORTB (BV pin).

Definition serialProcess (fuel : nat) : M G bool :=
  cmd ← serial_remove;
  size ← serial_remove;
  if cmd =? SERIAL_START_CONFIG then xilinxSetupConfiguration
  else if cmd =? SERIAL_DOWNLOAD_DATA then cmd_download fuel size
  else if cmd =? SERIAL_USE_SPI then xilinxInit ;; mret true
  else if cmd =? SERIAL_SPI_DATA then
    LEDs_ToggleLEDs LEDS_LED2 ;;
    serial_removes (Z.to_nat size) (SPI_SendByte fuel) ;; mret true
  else if cmd =? SERIAL_SPI_SELECT then cmd_select
  else if cmd =? SERIAL_USE_USART then cmd_use_usart
  else if cmd =? SERIAL_USART_DATA then
    serial_removes (Z.to_nat size) (Serial_SendByte fuel) ;; mret true
  else if cmd =? SERIAL_FPGA_RESET then pulse 1 ;; mret true
  else if cmd =? SERIAL_FPGA_START then pulse 2 ;; mret true
  else
    serial_removes (Z.to_nat size) (fun _ => mret tt) ;; mret false.
End serial.

(** ** Collecting a frame *)

Section collect.
Context {G : Type} `{Hardware} `{Has SerialState G}.

(** The frame parser between two bytes: [l] collected, of a frame of [n]. *)
Record collecting (l : list Z) (n : Z) (s : st G) : Prop := {
  col_ok : rb_ok (buffer_ (proj (glob s)));
  col_list : rb_contents (buffer_ (proj (glob s))) = l;
  col_cap : rb_Size (buffer_ (proj (glob s))) = 128;
  col_frame : frame_size_ (proj (glob s)) = n;
}.

(** Everything but the parser's state. *)
Definition same_rest (s s' : st G) : Prop :=
  hist s' = hist s /\ exists f, glob s' = inj f (glob s).

Lemma same_rest_refl s : same_rest s s.
Proof. split; [done|]. exists (proj (glob s)). by rewrite inj_proj. Qed.
Lemma same_rest_trans s1 s2 s3 : same_rest s1 s2 -> same_rest s2 s3 -> same_rest s1 s3.
Proof.
  intros [H1 [f1 E1]] [H2 [f2 E2]]. split; [congruence|]. exists f2. by rewrite E2, E1, inj_inj.
Qed.

(** [serialAddByte] on a list, as an abstract machine: the new contents, the
    new frame size, and whether a frame is complete. *)
Definition add_spec (l : list Z) (n byte : Z) : list Z * Z * bool :=
  match l with
  | [] => if SERIAL_END_COMMANDS <=? byte then ([], n, false)
          else if 1 =? n then ([byte], 0, true) else ([byte], n, false)
  | _ =>
      let n' := if zlen l =? 1 then u8 (byte + 2) else n in
      let l' := l ++ [byte] in
      if zlen l' =? n' then (l', 0, true) else (l', n', false)
  end.

Lemma collecting_set l n f (s : st G) h :
  rb_ok (buffer_ f) -> rb_contents (buffer_ f) = l -> rb_Size (buffer_ f) = 128 -> frame_size_ f = n ->
  collecting l n (St h (inj f (glob s))).
Proof. intros. split; cbn [glob]; by rewrite proj_inj. Qed.

Lemma count_of l n s : collecting l n s -> RingBuffer_GetCount (buffer_ (proj (glob s))) = zlen l.
Proof. intros [Hok Hl _ _]. unfold RingBuffer_GetCount. by rewrite <- rb_contents_length, Hl. Qed.

Lemma serial_insert_spec l n byte (s : st G) :
  collecting l n s -> zlen l < 128 -> is_u8 byte ->
  wp_ False (serial_insert byte) (fun r s' =>
    r = (zlen l + 1 =? n) /\ collecting (l ++ [byte]) (if zlen l + 1 =? n then 0 else n) s'
    /\ same_rest s s') s.
Proof.
  intros Hcol Hlen Hb. pose proof Hcol as [Hok Hl Hc Hn].
  assert (Hroom : rb_Count (buffer_ (proj (glob s))) < rb_Size (buffer_ (proj (glob s))))
    by (rewrite <- rb_contents_length, Hl, Hc; done).
  pose proof (rb_insert_ok _ byte Hok Hroom) as Hok'.
  pose proof (rb_insert_contents _ byte Hok Hroom) as Hl'. rewrite Hl, u8_id in Hl' by done.
  assert (Hc' : rb_Size (RingBuffer_Insert (buffer_ (proj (glob s))) byte) = 128) by done.
  unfold serial_insert. do 4 wp_step. rewrite proj_inj. cbn [set_buffer buffer_ frame_size_].
  set (b' := RingBuffer_Insert _ byte) in *.
  assert (Hcnt : RingBuffer_GetCount b' = zlen l + 1)
    by (unfold RingBuffer_GetCount; rewrite <- rb_contents_length, Hl', zlen_app by done; done).
  rewrite Hcnt, Hn. clearbody b'.
  destruct (zlen l + 1 =? n); wp_run.
  - rewrite inj_inj, proj_inj. split; [done|]. split; [|split; [done|by eexists]].
    apply collecting_set; cbn; congruence.
  - split; [done|]. split; [|split; [done|by eexists]]. apply collecting_set; cbn; congruence.
Qed.

(** The parser implements that machine as long as its buffer has room. *)
Lemma serialAddByte_spec l n byte (s : st G) :
  collecting l n s -> zlen l < 128 -> is_u8 byte ->
  wp_ False (serialAddByte byte) (fun r s' =>
    let '(l', n', r') := add_spec l n byte in
    r = r' /\ collecting l' n' s' /\ same_rest s s') s.
Proof.
  intros Hcol Hlen Hb. unfold serialAddByte. do 2 wp_step. cbv zeta. rewrite (count_of _ _ _ Hcol).
  assert (Hins : forall m s1, collecting l m s1 -> same_rest s s1 ->
    wp_ False (serial_insert byte) (fun r s' =>
      let '(l', n', r') := (if zlen l + 1 =? m then (l ++ [byte], 0, true) else (l ++ [byte], m, false)) in
      r = r' /\ collecting l' n' s' /\ same_rest s s') s1).
  { intros m s1 Hcol1 Hs1. wp_spec (serial_insert_spec l m byte s1 Hcol1 Hlen Hb).
    intros r s' (-> & Hc' & Hs'). destruct (zlen l + 1 =? m).
    all: split; [done|split; [done|by eapply same_rest_trans]]. }
  destruct l as [|x l].
  - cbn [add_spec]. change (zlen [] =? 0) with true. cbn [andb negb].
    destruct (SERIAL_END_COMMANDS <=? byte); [apply wp_ret; auto using same_rest_refl|].
    cbn [when]. apply wp_bind, wp_ret. exact (Hins n s Hcol (same_rest_refl s)).
  - cbn [add_spec]. rewrite zlen_app. change (zlen [byte]) with 1.
    rewrite (proj2 (Z.eqb_neq (zlen (x :: l)) 0)) by (rewrite zlen_cons; pose proof (zlen_nonneg l); lia).
    cbn [andb negb]. apply wp_bind. unfold when.
    destruct (zlen (x :: l) =? 1).
    + apply wp_modc. apply Hins.
      * destruct Hcol. by apply collecting_set.
      * split; [done|by eexists].
    + apply wp_ret. apply Hins; [done|apply same_rest_refl].
Qed.

(** The bytes of a list handed to [serialAddByte], with its results. *)
Fixpoint add_bytes (l : list Z) : M G (list bool) :=
  match l with
  | [] => mret []
  | b :: l' => r ← serialAddByte b; rs ← add_bytes l'; mret (r :: rs)
  end.

(** The abstract machine on a list. *)
Fixpoint adds_spec (l : list Z) (n : Z) (bytes : list Z) : list Z * Z * list bool :=
  match bytes with
  | [] => (l, n, [])
  | b :: bytes' =>
      let '(l1, n1, r) := add_spec l n b in
      let '(l2, n2, rs) := adds_spec l1 n1 bytes' in (l2, n2, r :: rs)
  end.

Lemma add_spec_length l n b : zlen (fst (fst (add_spec l n b))) <= zlen l + 1.
Proof.
  unfold add_spec, zlen. destruct l as [|x l]; bool_cases; cbn [fst]; rewrite ?length_app; cbn [length]; lia.
Qed.

Lemma add_bytes_spec bytes : forall l n (s : st G),
  collecting l n s -> zlen l + zlen bytes <= 128 -> Forall is_u8 bytes ->
  wp_ False (add_bytes bytes) (fun rs s' =>
    let '(l', n', rs') := adds_spec l n bytes in
    rs = rs' /\ collecting l' n' s' /\ same_rest s s') s.
Proof.
  induction bytes as [|b bytes IH]; intros l n s Hcol Hlen HB.
  - apply wp_ret. cbn [adds_spec]. split; [done|]. split; [done|apply same_rest_refl].
  - rewrite zlen_cons in Hlen. pose proof (zlen_nonneg bytes). inversion_clear HB.
    cbn [add_bytes adds_spec]. pose proof (add_spec_length l n b) as Hl1.
    wp_call (serialAddByte_spec l n b s Hcol ltac:(lia) ltac:(done)).
    destruct (add_spec l n b) as [[l1 n1] r1]. intros r s1 (-> & Hc1 & Hs1). cbn [fst] in Hl1.
    wp_call (IH l1 n1 s1 Hc1 ltac:(lia) ltac:(done)).
    destruct (adds_spec l1 n1 bytes) as [[l2 n2] rs2]. intros rs s2 (-> & Hc2 & Hs2).
    apply wp_ret. split; [done|]. split; [done|by eapply same_rest_trans].
Qed.

(** A frame. *)
Definition packet (cmd : Z) (payload : list Z) : list Z := cmd :: zlen payload :: payload.

(** Bytes between frames. *)
Definition junk (b : Z) : Prop := SERIAL_END_COMMANDS <= b < 2 ^ 8.

Lemma add_junk j : forall s : st G, collecting [] 0 s -> Forall junk j ->
  wp_ False (add_bytes j) (fun rs s' => rs = repeat false (length j) /\ s' = s) s.
Proof.
  induction j as [|b j IH]; intros s Hcol HJ; [by apply wp_ret|].
  inversion_clear HJ as [|? ? [Hb _] HJ']. cbn [add_bytes]. unfold serialAddByte. do 3 wp_step.
  cbv zeta. rewrite (count_of _ _ _ Hcol). change (zlen [] =? 0) with true.
  rewrite (proj2 (Z.leb_le _ _) Hb). cbn [andb]. apply wp_ret.
  wp_call (IH s Hcol HJ'). intros rs s' [-> ->]. by apply wp_ret.
Qed.

Lemma add_bytes_app l1 l2 Q (s : st G) :
  wp_ False (add_bytes l1) (fun r1 s1 => wp_ False (add_bytes l2) (fun r2 s2 => Q (r1 ++ r2) s2) s1) s ->
  wp_ False (add_bytes (l1 ++ l2)) Q s.
Proof.
  revert Q s. induction l1 as [|b l1 IH]; intros Q s; [done|]. cbn [add_bytes app].
  unfold wp_ at 1 3, mbind, M_bind. destruct (serialAddByte b s) as [[r s1]|]; [|done].
  specialize (IH (fun rs s2 => Q (r :: rs) s2) s1). revert IH. unfold wp_, mret, M_ret.
  destruct (add_bytes l1 s1) as [[r1 s2]|]; [|intros _ []].
  intros IH Hq. specialize (IH Hq). by destruct (add_bytes (l1 ++ l2) s1) as [[r2 s3]|].
Qed.

(** The payload, from the point where [k] bytes are still to come. *)
Lemma adds_payload p : forall l n,
  2 <= zlen l -> n = zlen l + zlen p -> p <> [] ->
  adds_spec l n p = (l ++ p, 0, repeat false (length p - 1) ++ [true]).
Proof.
  induction p as [|b p IH]; intros l n Hl Hn Hp; [done|]. clear Hp.
  rewrite zlen_cons in Hn. pose proof (zlen_nonneg p).
  assert (Hadd : add_spec l n b = if zlen l + 1 =? n then (l ++ [b], 0, true) else (l ++ [b], n, false)).
  { unfold add_spec. destruct l as [|x l]; [done|].
    rewrite (proj2 (Z.eqb_neq (zlen (x :: l)) 1)) by lia. rewrite zlen_app. reflexivity. }
  cbn [adds_spec]. rewrite Hadd. destruct p as [|b' p].
  - change (zlen []) with 0 in *. rewrite (proj2 (Z.eqb_eq _ _)) by lia. done.
  - rewrite zlen_cons in *. rewrite (proj2 (Z.eqb_neq _ _)) by (pose proof (zlen_nonneg p); lia).
    rewrite (IH (l ++ [b]) n); [|rewrite zlen_app; change (zlen [b]) with 1; lia| |done].
    + rewrite <- app_assoc. cbn [length Nat.sub app]. by rewrite Nat.sub_0_r.
    + rewrite zlen_app. change (zlen [b]) with 1. lia.
Qed.

Lemma adds_frame cmd payload :
  0 <= cmd < SERIAL_END_COMMANDS -> zlen payload <= 126 ->
  adds_spec [] 0 (packet cmd payload) =
    (packet cmd payload, 0, repeat false (S (length payload)) ++ [true]).
Proof.
  intros Hcmd Hlen. pose proof (zlen_nonneg payload). unfold packet. cbn [adds_spec add_spec].
  rewrite (proj2 (Z.leb_gt _ _)) by lia. change (1 =? 0) with false. cbv match. cbn [add_spec adds_spec].
  change (zlen [cmd] =? 1) with true. cbv match. cbn [app].
  rewrite u8_id by (unfold is_u8; lia). change (zlen [cmd; zlen payload]) with 2.
  destruct payload as [|b p].
  - done.
  - rewrite zlen_cons in *. pose proof (zlen_nonneg p).
    rewrite (proj2 (Z.eqb_neq _ _)) by lia.
    rewrite (adds_payload (b :: p)); [|change (zlen [cmd; 1 + zlen p]) with 2; lia| |done].
    + cbn [length Nat.sub repeat app]. by rewrite Nat.sub_0_r.
    + rewrite (zlen_cons b p). change (zlen [cmd; 1 + zlen p]) with 2. lia.
Qed.

(** Framing: from an empty buffer, whatever bytes that cannot start a
    command come first, [serialAddByte] reports a complete frame exactly at
    the last byte of the frame, for every command byte and every payload of
    at most 126 bytes, and the buffer then holds the frame and nothing else. *)
Theorem frame_recognised j cmd payload (s : st G) :
  collecting [] 0 s -> Forall junk j ->
  0 <= cmd < SERIAL_END_COMMANDS -> zlen payload <= 126 -> Forall is_u8 payload ->
  wp_ False (add_bytes (j ++ packet cmd payload)) (fun rs s' =>
    rs = repeat false (length j + S (length payload)) ++ [true]
    /\ collecting (packet cmd payload) 0 s' /\ same_rest s s') s.
Proof.
  intros Hcol HJ Hcmd Hlen HB. pose proof (zlen_nonneg payload).
  apply add_bytes_app. wp_spec (add_junk j s Hcol HJ). intros r1 s1 [-> ->].
  unfold SERIAL_END_COMMANDS in Hcmd.
  wp_spec (add_bytes_spec (packet cmd payload) [] 0 s Hcol
    ltac:(unfold packet; rewrite !zlen_cons; change (zlen (@nil Z)) with 0; lia)
    ltac:(unfold packet; repeat constructor; unfold is_u8; (done || lia))).
  rewrite adds_frame by done. intros rs s' (-> & Hc & Hs). split; [|done].
  by rewrite repeat_app, <- app_assoc.
Qed.
End collect.

(** ** Executing a frame *)

Section execute.
Context {G : Type} `{Hardware} `{Has SerialState G}.

Lemma serial_remove_spec x l n (s : st G) :
  collecting (x :: l) n s ->
  wp_ False serial_remove (fun v s' => v = x /\ is_u8 x /\ collecting l n s' /\ same_rest s s') s.
Proof.
  intros [Hok Hl Hc Hn]. unfold serial_remove. wp_run.
  assert (Hcnt : 0 < rb_Count (buffer_ (proj (glob s)))).
  { rewrite <- rb_contents_length, Hl, zlen_cons by done. pose proof (zlen_nonneg l). lia. }
  pose proof (rb_remove_contents _ Hok Hcnt) as Hr. rewrite Hl in Hr. injection Hr as Hx Hl'.
  pose proof (rb_contents_bytes _ Hok) as HB. rewrite Hl in HB. inversion_clear HB.
  split; [done|]. split; [done|]. split; [|split; [done|by eexists]].
  apply collecting_set; [by apply rb_remove_ok|done|done|done].
Qed.

(** An output function that writes its byte to [R] and only polls else, on
    histories that satisfy [P]. *)
Definition outputs (R : reg) (P : history -> Prop) (f : Z -> M G unit) : Prop :=
  forall x s, is_u8 x -> P (hist s) -> wp_ False (f x) (fun _ s' =>
    (exists tr, hist s' = tr ++ hist s /\ forall r, writes r tr = if decide (r = R) then [x] else [])
    /\ glob s' = glob s) s.

Lemma serial_removes_output R P f l : forall rest n (s : st G),
  outputs R P f ->
  (forall tr h, (forall r, r <> R -> writes r tr = []) -> P h -> P (tr ++ h)) ->
  P (hist s) -> collecting (l ++ rest) n s ->
  wp_ False (serial_removes (length l) f) (fun _ s' =>
    collecting rest n s'
    /\ (exists tr, hist s' = tr ++ hist s /\ forall r, writes r tr = if decide (r = R) then rev l else [])
    /\ exists g, glob s' = inj g (glob s)) s.
Proof.
  induction l as [|x l IH]; intros rest n s Hf Hst HP Hcol; cbn [length serial_removes].
  - apply wp_ret. split; [done|]. split; [exists []; split; [done|intros r; by case_decide]|].
    exists (proj (glob s)). by rewrite inj_proj.
  - wp_call (serial_remove_spec x (l ++ rest) n s Hcol). intros v s1 (-> & Hx & Hc1 & Hh1 & g1 & Hg1).
    wp_call (Hf x s1 Hx ltac:(by rewrite Hh1)). intros [] s2 [(tr & Hh2 & Hw) Hg2].
    assert (Hc2 : collecting (l ++ rest) n s2) by (destruct Hc1; split; by rewrite ?Hg2).
    wp_spec (IH rest n s2 Hf Hst ltac:(rewrite Hh2, Hh1; apply Hst; [intros r Hr; by rewrite Hw, decide_False|done]) Hc2).
    intros [] s3 (Hc3 & (tr' & Hh3 & Hw') & g3 & Hg3). split; [done|]. split.
    + exists (tr' ++ tr). rewrite Hh3, Hh2, Hh1, app_assoc. split; [done|]. intros r.
      rewrite writes_app, Hw, Hw'. by case_decide.
    + exists g3. by rewrite Hg3, Hg2, Hg1, inj_inj.
Qed.

(** The bytes removed and dropped. *)
Lemma serial_removes_drop l rest n (s : st G) :
  collecting (l ++ rest) n s ->
  wp_ False (serial_removes (length l) (fun _ => mret tt)) (fun _ s' =>
    collecting rest n s' /\ same_rest s s') s.
Proof.
  revert s. induction l as [|x l IH]; intros s Hcol; cbn [length serial_removes].
  { apply wp_ret. split; [done|apply same_rest_refl]. }
  wp_call (serial_remove_spec x (l ++ rest) n s Hcol). intros v s1 (-> & _ & Hc1 & Hs1).
  apply wp_bind, wp_ret. wp_spec (IH s1 Hc1). intros [] s2 [Hc2 Hs2].
  split; [done|by eapply same_rest_trans].
Qed.

Definition spi_on (h : history) : Prop := Z.testbit (latch_value SPCR h) SPE = true.

Lemma latch_untouched r tr h : writes r tr = [] -> latch_value r (tr ++ h) = latch_value r h.
Proof. intros Hw. unfold latch_value. by rewrite !last_wr_writes, writes_app, Hw. Qed.

Lemma spi_on_stable tr h : (forall r, r <> SPDR -> writes r tr = []) -> spi_on h -> spi_on (tr ++ h).
Proof. intros Hw. unfold spi_on. by rewrite latch_untouched by (apply Hw; done). Qed.

Lemma SPI_SendByte_outputs k fuel :
  spi_responsive k -> (k < fuel)%nat -> outputs SPDR spi_on (SPI_SendByte fuel).
Proof.
  intros Hr Hk x s Hx Hon. unfold SPI_SendByte, spi_wait. do 2 wp_step.
  change (reg_trunc SPDR x) with (u8 x). rewrite u8_id by done.
  set (s1 := St _ _).
  assert (Hflag : forall tr, (forall r', writes r' tr = []) -> (k <= polls_since SPDR SPSR (tr ++ hist s1))%nat ->
    anybit (reg_trunc SPSR (hw_value (tr ++ hist s1) SPSR)) (BV SPIF) = true).
  { intros tr Hw Hp. apply Hr; [|exact Hp]. subst s1. cbn [hist].
    rewrite latch_untouched by done. by rewrite latch_wr_ne. }
  wp_spec (flag_wait SPDR SPSR SPIF k fuel s1 ltac:(done) Hk Hflag).
  intros [] s' [(tr & Hh & Hw) Hg]. split; [|exact Hg].
  exists (tr ++ [Wr SPDR x]). rewrite <- app_assoc. split; [exact Hh|].
  intros r. rewrite writes_app, Hw. cbn [writes app]. destruct (decide (r = SPDR)) as [->|Hne]; reg_decide; done.
Qed.

Lemma Serial_SendByte_outputs k fuel :
  usart_responsive k -> (k < fuel)%nat -> outputs UDR1 (fun _ => True) (Serial_SendByte fuel).
Proof.
  intros Hr Hk x s Hx _. unfold Serial_SendByte, usart_wait.
  wp_call (flag_wait UDR1 UCSR1A UDRE1 k fuel s ltac:(done) Hk ltac:(intros tr Hw Hp; exact (Hr _ Hp))).
  intros [] s' [(tr & Hh & Hw) Hg]. wp_run.
  change (reg_trunc UDR1 x) with (u8 x). rewrite u8_id by done. split; [|exact Hg].
  exists (Wr UDR1 x :: tr). rewrite Hh. split; [done|].
  intros r. cbn [writes]. rewrite Hw. destruct (decide (r = UDR1)) as [->|Hne]; reg_decide; done.
Qed.

(** The data registers and, for commands that keep the SPI's mode, its
    control register. *)
Definition data_regs (r : reg) : bool := match r with SPDR | UDR1 => true | _ => false end.
Definition bus_regs (r : reg) : bool := match r with SPDR | UDR1 | SPCR => true | _ => false end.

#[local] Instance toggle_runs m : Runs (Machine.frame bus_regs (@eq G)) (LEDs_ToggleLEDs m).
Proof. unfold LEDs_ToggleLEDs. runs_go. Qed.
#[local] Instance pulse_runs p : Runs (Machine.frame bus_regs (@eq G)) (pulse p).
Proof. unfold pulse. runs_go. Qed.
#[local] Instance init_wait_runs n : Runs (Machine.frame bus_regs (@eq G)) (init_wait n).
Proof. induction n as [|n IH]; cbn [init_wait]; unfold isSetInitB; runs_go. Qed.
#[local] Instance setup_runs : Runs (Machine.frame bus_regs (@eq G)) xilinxSetupConfiguration.
Proof. unfold xilinxSetupConfiguration, clearProgramB, setProgramB. runs_go. Qed.
#[local] Instance init_runs : Runs (Machine.frame data_regs (@eq G)) xilinxInit.
Proof. unfold xilinxInit, SPI_Init. runs_go. Qed.
#[local] Instance use_usart_runs : Runs (Machine.frame data_regs (@eq G)) cmd_use_usart.
Proof. unfold cmd_use_usart, SPI_Disable. runs_go. Qed.

#[local] Instance init_wait_total n : Total (G:=G) (init_wait n).
Proof. induction n as [|n IH]; cbn [init_wait]; unfold isSetInitB; total_go. Qed.
#[local] Instance setup_total : Total (G:=G) xilinxSetupConfiguration.
Proof. unfold xilinxSetupConfiguration, clearProgramB, setProgramB. total_go. Qed.
#[local] Instance pulse_total p : Total (G:=G) (pulse p).
Proof. unfold pulse. total_go. Qed.

(** The SPI's mode, and how a command leaves it. *)
Definition spi_mode (h : history) : bool := Z.testbit (latch_value SPCR h) SPE.
Definition mode_after (cmd : Z) (on : bool) : bool :=
  if cmd =? SERIAL_USE_SPI then true else if cmd =? SERIAL_USE_USART then false else on.

(** Commands whose payload is sent on, and the payloads that the others
    consume whole. *)
Definition spi_cmd (cmd : Z) : bool := (cmd =? SERIAL_DOWNLOAD_DATA) || (cmd =? SERIAL_SPI_DATA).
Definition payload_ok (cmd : Z) (payload : list Z) : bool :=
  if (cmd =? 0) || spi_cmd cmd || (cmd =? SERIAL_USART_DATA) then true
  else if cmd =? SERIAL_SPI_SELECT then zlen payload =? 1
  else zlen payload =? 0.

(** What the commands that can fail have failed on. *)
Definition may_fail (cmd : Z) : bool :=
  (cmd =? 0) || (cmd =? SERIAL_START_CONFIG) || (cmd =? SERIAL_DOWNLOAD_DATA).

(** The execution of a frame, from [s] to [s'] with result [r]. *)
Record executed (cmd : Z) (payload : list Z) (s : st G) (r : bool) (s' : st G) : Prop := {
  ex_ready : collecting [] 0 s';
  ex_rest : exists g, glob s' = inj g (glob s);
  ex_mode : spi_mode (hist s') = mode_after cmd (spi_mode (hist s));
  ex_fail : r = false -> may_fail cmd = true;
  ex_unknown : cmd = 0 -> r = false;
  ex_data : exists tr, hist s' = tr ++ hist s
    /\ rev (writes SPDR tr) = (if spi_cmd cmd then payload else [])
    /\ rev (writes UDR1 tr) = (if cmd =? SERIAL_USART_DATA then payload else []);
}.

(** The serial state apart, nothing but registers off the data path. *)
Definition moved : relation (st G) :=
  Machine.frame bus_regs (fun g g' => exists f, g' = inj f g).

#[local] Instance inj_preorder : PreOrder (fun g g' : G => exists f : SerialState, g' = inj f g).
Proof.
  split.
  - intros g. exists (proj g). by rewrite inj_proj.
  - intros g1 g2 g3 [f1 ->] [f2 ->]. exists f2. by rewrite inj_inj.
Qed.

Lemma same_rest_moved s s' : same_rest s s' -> moved s s'.
Proof. intros [Hh [f Hg]]. split; [by exists []|by exists f]. Qed.

Lemma quiet_moved s s' : Machine.frame bus_regs (@eq G) s s' -> moved s s'.
Proof. intros [Htr Hg]. split; [done|]. exists (proj (glob s)). by rewrite inj_proj. Qed.

Lemma moved_mode s s' : moved s s' -> spi_mode (hist s') = spi_mode (hist s).
Proof. intros HF. unfold spi_mode. by rewrite (frame_latch _ _ _ _ SPCR HF). Qed.

Lemma collecting_eq l n (s s' : st G) : glob s' = glob s -> collecting l n s -> collecting l n s'.
Proof. intros Hg []. split; by rewrite Hg. Qed.

(** A command that sends nothing, from the state after its frame's bytes
    were removed. *)
Lemma executed_control cmd payload (m : M G bool) s s1 :
  moved s s1 -> collecting [] 0 s1 -> spi_cmd cmd = false -> (cmd =? SERIAL_USART_DATA) = false ->
  Runs (Machine.frame data_regs (@eq G)) m ->
  wp_ False m (fun r s' => spi_mode (hist s') = mode_after cmd (spi_mode (hist s1))
    /\ (r = false -> may_fail cmd = true) /\ (cmd = 0 -> r = false)) s1 ->
  wp_ False m (fun r s' => executed cmd payload s r s') s1.
Proof.
  intros Hmv Hc Hn1 Hn2 HR Hm. pose proof Hmv as [(tr0 & Hh0 & Hw0) [g Hg]].
  wp_spec (wp_frame False (Machine.frame data_regs (@eq G)) m _ s1 Hm).
  intros r s' [(Hmode & Hf & Hu) [(tr & Htr & Hw) Heq]]. split; try done.
  - by apply (collecting_eq _ _ s1).
  - exists g. by rewrite <- Heq.
  - by rewrite Hmode, (moved_mode s s1 Hmv).
  - exists (tr ++ tr0). rewrite Htr, Hh0, app_assoc. split; [done|]. rewrite Hn1, Hn2.
    by rewrite !writes_app, !Hw, !Hw0.
Qed.

(** What follows the sending of the payload. *)
Lemma executed_then cmd payload s r0 s2 r s3 :
  executed cmd payload s r0 s2 -> Machine.frame bus_regs (@eq G) s2 s3 ->
  (r = false -> may_fail cmd = true) -> (cmd = 0 -> r = false) -> executed cmd payload s r s3.
Proof.
  intros [Hc [g Hg] Hm _ _ (tr & Htr & H1 & H2)] HF Hf Hu.
  pose proof HF as [(tr' & Htr' & Hw') Heq]. split; try done.
  - by apply (collecting_eq _ _ s2).
  - exists g. by rewrite <- Heq.
  - by rewrite (moved_mode s2 s3 (quiet_moved _ _ HF)).
  - exists (tr' ++ tr). rewrite Htr', Htr, app_assoc. split; [done|].
    by rewrite !writes_app, !Hw'.
Qed.

Lemma frame_mono (m : M G bool) :
  Runs (Machine.frame bus_regs (@eq G)) m -> Runs (Machine.frame data_regs (@eq G)) m.
Proof.
  intros HR s a s' Hrun. destruct (HR s a s' Hrun) as [(tr & Hh & Hw) Hg]. split; [|done].
  exists tr. split; [done|]. intros r Hr. apply Hw. by destruct r.
Qed.

Lemma mode_kept (m : M G bool) s `{!Runs (Machine.frame bus_regs (@eq G)) m} (Q : bool -> st G -> Prop) :
  wp_ False m Q s -> wp_ False m (fun r s' => Q r s' /\ spi_mode (hist s') = spi_mode (hist s)) s.
Proof.
  intros Hm. wp_spec (wp_frame False (Machine.frame bus_regs (@eq G)) m Q s Hm).
  intros r s' [HQ HF]. split; [done|]. unfold spi_mode.
  by rewrite (frame_latch _ _ _ _ SPCR HF).
Qed.

(** Commands that send their payload. *)
Lemma executed_output cmd payload R P f (s s1 : st G) :
  moved s s1 -> collecting payload 0 s1 -> outputs R P f -> P (hist s1) ->
  (forall tr h, (forall r, r <> R -> writes r tr = []) -> P h -> P (tr ++ h)) ->
  (forall b, mode_after cmd b = b) -> cmd <> 0 ->
  (R = SPDR /\ spi_cmd cmd = true /\ (cmd =? SERIAL_USART_DATA) = false
   \/ R = UDR1 /\ spi_cmd cmd = false /\ (cmd =? SERIAL_USART_DATA) = true) ->
  wp_ False (serial_removes (length payload) f) (fun _ s' => executed cmd payload s true s') s1.
Proof.
  intros Hmv Hc Hf HP Hst Hmode Hcmd Hdata. pose proof Hmv as [(tr0 & Hh0 & Hw0) [g Hg]].
  rewrite <- (app_nil_r payload) in Hc.
  wp_spec (serial_removes_output R P f payload [] 0 s1 Hf Hst HP Hc).
  intros [] s' (Hc' & (tr & Htr & Hw) & g' & Hg').
  assert (HR : R <> SPCR) by (by destruct Hdata as [[-> _]|[-> _]]). split; try done.
  - exists g'. by rewrite Hg', Hg, inj_inj.
  - rewrite Hmode, <- (moved_mode s s1 Hmv). unfold spi_mode.
    by rewrite Htr, latch_untouched by (by rewrite Hw, decide_False).
  - exists (tr ++ tr0). rewrite Htr, Hh0, app_assoc. split; [done|].
    rewrite !writes_app, !Hw, !Hw0, !app_nil_r by done.
    destruct Hdata as [(-> & -> & ->)|(-> & -> & ->)]; reg_decide; by rewrite rev_involutive.
Qed.

(** The two bytes in front. *)
Lemma header_removed cmd payload s (m : Z -> Z -> M G bool) Q :
  collecting (packet cmd payload) 0 s ->
  (forall s1, moved s s1 -> collecting payload 0 s1 -> wp_ False (m cmd (zlen payload)) Q s1) ->
  wp_ False (c ← serial_remove; z ← serial_remove; m c z) Q s.
Proof.
  intros Hc Hm. wp_call (serial_remove_spec _ _ _ s Hc). intros v s1 (-> & _ & Hc1 & Hs1).
  wp_call (serial_remove_spec _ _ _ s1 Hc1). intros v s2 (-> & _ & Hc2 & Hs2).
  apply Hm; [|done]. apply same_rest_moved. by eapply same_rest_trans.
Qed.

(** The pins polled at the end of a download. *)
Lemma download_end : Runs (Machine.frame bus_regs (@eq G))
  (done_ ← isSetDone; if (done_ : bool) then mret true else isSetInitB).
Proof. unfold isSetDone, isSetInitB. runs_go. Qed.

Lemma zlen_nat {A} (l : list A) : Z.to_nat (zlen l) = length l.
Proof. unfold zlen. lia. Qed.

Context (k fuel : nat) (Hspi : spi_responsive k) (Husart : usart_responsive k) (Hk : (k < fuel)%nat).

#[local] Instance toggle_total m : Total (G:=G) (LEDs_ToggleLEDs m).
Proof. unfold LEDs_ToggleLEDs. total_go. Qed.

(** An LED toggled, then the payload sent on the SPI. *)
Lemma execute_spi cmd led payload s s1 (m : M G bool) :
  moved s s1 -> collecting payload 0 s1 -> spi_mode (hist s) = true -> spi_cmd cmd = true ->
  Runs (Machine.frame bus_regs (@eq G)) m -> Total m ->
  (forall s2, wp_ False m (fun r _ => r = false -> may_fail cmd = true) s2) ->
  wp_ False (LEDs_ToggleLEDs led ;; serial_removes (Z.to_nat (zlen payload)) (SPI_SendByte fuel) ;; m)
    (fun r s' => executed cmd payload s r s') s1.
Proof.
  intros Hmv Hc Hon Hcmd HR HT Hf. rewrite zlen_nat.
  assert (Hn : cmd <> 0 /\ (cmd =? SERIAL_USART_DATA) = false /\ forall b, mode_after cmd b = b).
  { unfold spi_cmd in Hcmd. apply orb_true_iff in Hcmd as [E|E]; apply Z.eqb_eq in E as ->; done. }
  destruct Hn as (Hn0 & Hn1 & Hm).
  wp_call (wp_total_runs (Machine.frame bus_regs (@eq G)) (LEDs_ToggleLEDs led) s1).
  intros [] s2 H12. pose proof (quiet_moved _ _ H12) as Hq.
  assert (Hmv2 : moved s s2) by (etransitivity; [exact Hmv|exact Hq]).
  wp_call (executed_output cmd payload SPDR spi_on (SPI_SendByte fuel) s s2 Hmv2
    (collecting_eq _ _ s1 s2 (eq_sym (proj2 H12)) Hc)
    (SPI_SendByte_outputs k fuel Hspi Hk) (eq_trans (moved_mode _ _ Hmv2) Hon) spi_on_stable Hm Hn0
    (or_introl (conj eq_refl (conj Hcmd Hn1)))).
  intros [] s3 He. wp_spec (wp_frame False (Machine.frame bus_regs (@eq G)) m _ s3 (Hf s3)).
  intros r s4 [Hr HF]. by apply (executed_then cmd payload s true s3 r s4).
Qed.

(** A command that only sets pins. *)
Lemma execute_pins cmd payload s s1 (m : M G bool) :
  moved s s1 -> collecting [] 0 s1 -> spi_cmd cmd = false -> (cmd =? SERIAL_USART_DATA) = false ->
  (forall b, mode_after cmd b = b) -> cmd <> 0 -> Runs (Machine.frame bus_regs (@eq G)) m ->
  wp_ False m (fun r _ => r = false -> may_fail cmd = true) s1 ->
  wp_ False m (fun r s' => executed cmd payload s r s') s1.
Proof.
  intros Hmv Hc Hn1 Hn2 Hm Hn0 HR Hf. apply executed_control; try done; [by apply frame_mono|].
  wp_spec (mode_kept m s1 _ Hf). intros r s' [Hr ->]. by rewrite Hm.
Qed.

Lemma execute_unknown payload s s1 :
  moved s s1 -> collecting payload 0 s1 ->
  wp_ False (serial_removes (length payload) (fun _ => mret tt) ;; mret false)
    (fun r s' => executed 0 payload s r s') s1.
Proof.
  intros Hmv Hc. rewrite <- (app_nil_r payload) in Hc.
  wp_call (serial_removes_drop payload [] 0 s1 Hc). intros [] s2 [Hc2 Hs2]. apply wp_ret.
  assert (Hmv2 : moved s s2) by (etransitivity; [exact Hmv|exact (same_rest_moved _ _ Hs2)]).
  pose proof Hmv2 as [(tr & Hh & Hw) Hg]. split; try done.
  - exact (moved_mode _ _ Hmv2).
  - exists tr. by rewrite !Hw.
Qed.

Lemma execute_select payload s s1 :
  moved s s1 -> collecting payload 0 s1 -> zlen payload = 1 ->
  wp_ False cmd_select (fun r s' => executed SERIAL_SPI_SELECT payload s r s') s1.
Proof.
  intros Hmv Hc Hp. destruct payload as [|x [|y p]]; [done| |rewrite !zlen_cons in Hp; pose proof (zlen_nonneg p); lia].
  unfold cmd_select. wp_call (serial_remove_spec x [] 0 s1 Hc). intros v s2 (_ & _ & Hc2 & Hs2).
  apply execute_pins; try done.
  - etransitivity; [exact Hmv|exact (same_rest_moved _ _ Hs2)].
  - runs_go.
  - wp_run; done.
Qed.

Lemma execute_usart payload s s1 :
  moved s s1 -> collecting payload 0 s1 ->
  wp_ False (serial_removes (length payload) (Serial_SendByte fuel) ;; mret true)
    (fun r s' => executed SERIAL_USART_DATA payload s r s') s1.
Proof.
  intros Hmv Hc.
  wp_call (executed_output SERIAL_USART_DATA payload UDR1 (fun _ => True) (Serial_SendByte fuel) s s1 Hmv Hc
    (Serial_SendByte_outputs k fuel Husart Hk) I (fun _ _ _ _ => I) (fun _ => eq_refl) ltac:(done)
    (or_intror (conj eq_refl (conj eq_refl eq_refl)))).
  intros [] s2 He. by apply wp_ret.
Qed.

(** The commands that switch the SPI on and off. *)
Lemma execute_use_usart payload s s1 :
  moved s s1 -> collecting [] 0 s1 ->
  wp_ False cmd_use_usart (fun r s' => executed SERIAL_USE_USART payload s r s') s1.
Proof.
  intros Hmv Hc. apply executed_control; [done..|apply use_usart_runs|].
  unfold cmd_use_usart, SPI_Disable. destruct s1 as [h1 g1]. abs_run.
  cbn [hist]. split; [|done]. unfold spi_mode. latch_chain. reflexivity.
Qed.

Lemma execute_use_spi payload s s1 :
  moved s s1 -> collecting [] 0 s1 ->
  wp_ False (xilinxInit ;; mret true) (fun r s' => executed SERIAL_USE_SPI payload s r s') s1.
Proof.
  intros Hmv Hc. apply executed_control; [done..|apply (runs_bind _ _ _ init_runs); intros; apply (runs_ret _)|].
  unfold xilinxInit, SPI_Init. destruct s1 as [h1 g1]. abs_run.
  all: cbn [hist]; split; [|done]; unfold spi_mode; latch_chain; done.
Qed.

Lemma wp_always {A} (m : M G A) (Q : A -> Prop) s :
  Total m -> (forall a, Q a) -> wp_ False m (fun a _ => Q a) s.
Proof. intros HT HQ. unfold wp_. destruct (HT s) as [[a s'] ->]. apply HQ. Qed.

(** Every command of the protocol, on every branch. *)
Lemma serialProcess_frame cmd payload s :
  collecting (packet cmd payload) 0 s -> 0 <= cmd < SERIAL_END_COMMANDS ->
  payload_ok cmd payload = true -> (spi_cmd cmd = true -> spi_mode (hist s) = true) ->
  wp_ False (serialProcess fuel) (fun r s' => executed cmd payload s r s') s.
Proof.
  intros Hc Hcmd Hp Hon. apply (header_removed cmd payload s _ _ Hc). clear Hc.
  intros s1 Hmv Hc. unfold SERIAL_END_COMMANDS in Hcmd.
  assert (Hcases : cmd = 0 \/ cmd = 1 \/ cmd = 2 \/ cmd = 3 \/ cmd = 4 \/ cmd = 5 \/ cmd = 6
            \/ cmd = 7 \/ cmd = 8 \/ cmd = 9) by lia.
  assert (Hempty : zlen payload = 0 -> collecting [] 0 s1).
  { intros Hz. destruct payload; [done|]. rewrite zlen_cons in Hz. pose proof (zlen_nonneg payload). lia. }
  destruct Hcases as [-> | [-> | [-> | [-> | [-> | [-> | [-> | [-> | [-> | ->]]]]]]]]].
  all: cbn [Z.eqb Pos.eqb SERIAL_START_CONFIG SERIAL_DOWNLOAD_DATA SERIAL_SPI_DATA SERIAL_SPI_SELECT
            SERIAL_USART_DATA SERIAL_USE_USART SERIAL_USE_SPI SERIAL_FPGA_RESET SERIAL_FPGA_START].
  all: try (apply Z.eqb_eq in Hp; try specialize (Hempty Hp)).
  - rewrite zlen_nat. by apply execute_unknown.
  - apply execute_pins; [done..|apply setup_runs|]. by apply (wp_always _ _ s1 setup_total).
  - apply (execute_spi 2 LEDS_LED1 payload s s1);
      [done|done|by apply Hon|done|apply download_end| |intros s2; by unfold isSetDone, isSetInitB; wp_run].
    unfold isSetDone, isSetInitB. total_go.
  - apply (execute_spi 3 LEDS_LED2 payload s s1);
      [done|done|by apply Hon|done|apply (runs_ret _)|apply total_ret|intros s2; by apply wp_ret].
  - by apply execute_select.
  - rewrite zlen_nat. by apply execute_usart.
  - by apply execute_use_usart.
  - by apply execute_use_spi.
  - apply execute_pins; [done..|runs_go|]. unfold pulse. by wp_run.
  - apply execute_pins; [done..|runs_go|]. unfold pulse. by wp_run.
Qed.

(** C30. Execution: a complete frame of the protocol (any command byte, a
    payload its command consumes, the SPI on when the payload goes there) is
    executed to the end on any hardware whose transfers complete: the payload
    leaves on the SPI or the USART, whole and in order, and nothing else does;
    the SPI is on or off as the command says; only a download, a configuration
    or an unknown command can fail, and the unknown one always does; and the
    buffer is empty again, ready for the next frame. *)
Theorem packet_executed cmd payload s :
  collecting (packet cmd payload) 0 s -> 0 <= cmd < SERIAL_END_COMMANDS ->
  payload_ok cmd payload = true -> (spi_cmd cmd = true -> spi_mode (hist s) = true) ->
  wp_ False (serialProcess fuel) (fun r s' => executed cmd payload s r s') s.
Proof. exact (serialProcess_frame cmd payload s). Qed.
End execute.

(** ** Frames the parser does not survive *)

Section faults.
Context {G : Type} `{Hardware} `{Has SerialState G}.

Lemma serial_remove_run (s : st G) :
  serial_remove s = Some (fst (RingBuffer_Remove (buffer_ (proj (glob s)))),
    St (hist s) (inj (set_buffer (snd (RingBuffer_Remove (buffer_ (proj (glob s))))) (proj (glob s))) (glob s))).
Proof. by destruct s. Qed.

(** A byte added when the count has wrapped below zero. *)
Lemma wrapped_completes x (s : st G) :
  rb_Count (buffer_ (proj (glob s))) = 2 ^ 16 - 1 -> frame_size_ (proj (glob s)) = 0 ->
  wp_ False (serialAddByte x) (fun r _ => r = true) s.
Proof.
  intros Hc Hf. unfold serialAddByte. do 2 wp_step. cbv zeta. unfold RingBuffer_GetCount at 1 2 3.
  rewrite Hc. cbn [Z.eqb Z.sub Z.pow Z.pow_pos Pos.iter andb negb Z.mul Pos.mul Z.add Z.opp Z.pos_sub Pos.pred_double when Pos.eqb].
  apply wp_bind, wp_ret. unfold serial_insert. do 4 wp_step. rewrite proj_inj.
  cbn [set_buffer buffer_ frame_size_]. unfold RingBuffer_GetCount. cbn [RingBuffer_Insert rb_Count].
  rewrite Hc, Hf. change (u16 (2 ^ 16 - 1 + 1) =? 0) with true. by wp_run.
Qed.

(** A select command without its operand, the frame [04 00], takes a byte
    from the empty buffer: the count becomes 65535, and from then on any byte
    at all is taken for a complete frame. *)
Theorem select_underflow fuel s :
  collecting [] 0 s ->
  wp_ False (add_bytes (packet SERIAL_SPI_SELECT [])) (fun rs s1 => rs = [false; true]
    /\ wp_ False (serialProcess fuel) (fun _ s2 =>
         RingBuffer_GetCount (buffer_ (proj (glob s2))) = 65535
         /\ forall x, wp_ False (serialAddByte x) (fun r _ => r = true) s2) s1) s.
Proof.
  intros Hc.
  wp_spec (add_bytes_spec (packet SERIAL_SPI_SELECT []) [] 0 s Hc ltac:(vm_compute; congruence)
    ltac:(repeat constructor; vm_compute; congruence)).
  intros rs s1 (-> & Hc1 & _). split; [done|]. change (collecting (packet SERIAL_SPI_SELECT []) 0 s1) in Hc1.
  apply (header_removed SERIAL_SPI_SELECT [] s1 _ _ Hc1). intros s2 _ Hc2.
  cbn [Z.eqb Pos.eqb SERIAL_START_CONFIG SERIAL_DOWNLOAD_DATA SERIAL_SPI_DATA SERIAL_SPI_SELECT
       SERIAL_USE_SPI]. unfold cmd_select.
  apply wp_bind. eapply wp_eq; [apply serial_remove_run|].
  assert (Hcnt : rb_Count (buffer_ (proj (glob s2))) = 0) by (exact (count_of _ _ _ Hc2)).
  assert (Hfin : forall s3 : st G, proj (glob s3) = set_buffer (snd (RingBuffer_Remove (buffer_ (proj (glob s2))))) (proj (glob s2)) ->
    RingBuffer_GetCount (buffer_ (proj (glob s3))) = 65535
    /\ forall x, wp_ False (serialAddByte x) (fun r _ => r = true) s3).
  { intros s3 H3.
    assert (H4 : rb_Count (buffer_ (proj (glob s3))) = 2 ^ 16 - 1).
    { rewrite H3. cbn [set_buffer buffer_ RingBuffer_Remove snd rb_Count]. by rewrite Hcnt. }
    split; [exact H4|]. intros x. apply wrapped_completes; [exact H4|]. rewrite H3. apply Hc2. }
  clear Hcnt. destruct (negb _); wp_run; apply Hfin; cbn [glob]; by rewrite proj_inj.
Qed.

(** A busy-wait that never ends, as a run without result. *)
Lemma wp_never {A} (m : M G A) s : wp_ True m (fun _ _ => False) s -> m s = None.
Proof. unfold wp_. by destruct (m s) as [[a s']|]. Qed.

Lemma SPI_SendByte_hangs fuel x (s : st G) :
  spi_silent -> spi_mode (hist s) = false -> wp_ True (SPI_SendByte fuel x) (fun _ _ => False) s.
Proof.
  intros Hsil Hoff. unfold SPI_SendByte, spi_wait. do 2 wp_step.
  apply (wp_loop _ (fun _ s' => spi_mode (hist s') = false)).
  - cbn [hist]. unfold spi_mode in *. by rewrite latch_wr_ne.
  - intros [] s1 H1. do 3 wp_step. rewrite (Hsil _ H1). exact H1.
Qed.

(** After the USART has been selected, which turns the SPI off, a command
    with data for the SPI never ends: no bound on the polls makes
    [serialProcess] return, and with it the main loop stops. *)
Theorem spi_data_hangs fuel x payload s :
  spi_silent -> spi_mode (hist s) = false ->
  collecting (packet SERIAL_SPI_DATA (x :: payload)) 0 s ->
  serialProcess fuel s = None.
Proof.
  intros Hsil Hoff Hc. apply wp_never. unfold serialProcess.
  assert (Hrm : forall (y : Z) l (s0 : st G) (m : Z -> M G bool), collecting (y :: l) 0 s0 ->
    (forall s1, collecting l 0 s1 -> same_rest s0 s1 -> wp_ True (m y) (fun _ _ => False) s1) ->
    wp_ True (v ← serial_remove; m v) (fun _ _ => False) s0).
  { intros y l s0 m Hc0 Hm. apply wp_bind.
    refine (wp_conseq False True _ _ _ _ (serial_remove_spec y l 0 s0 Hc0) (fun x => match x with end) _).
    intros v s1 (-> & _ & Hc1 & Hs1). by apply Hm. }
  apply (Hrm _ _ _ _ Hc). intros s1 Hc1 [Hh1 _]. apply (Hrm _ _ _ _ Hc1). intros s2 Hc2 [Hh2 _].
  cbn [Z.eqb Pos.eqb SERIAL_START_CONFIG SERIAL_DOWNLOAD_DATA SERIAL_SPI_DATA SERIAL_USE_SPI].
  apply wp_bind. rewrite zlen_nat. cbn [length serial_removes].
  refine (wp_conseq False True _ _ _ _
    (wp_total_runs (Machine.frame bus_regs (@eq G)) (LEDs_ToggleLEDs LEDS_LED2) s2) (fun x => match x with end) _).
  - unfold LEDs_ToggleLEDs. total_go.
  - unfold LEDs_ToggleLEDs. runs_go.
  - intros [] s3 HF. apply wp_bind.
    assert (Hc3 : collecting (x :: payload) 0 s3) by (exact (collecting_eq _ _ s2 s3 (eq_sym (proj2 HF)) Hc2)).
    apply wp_bind. refine (wp_conseq False True _ _ _ _ (serial_remove_spec x payload 0 s3 Hc3) (fun x => match x with end) _).
    intros v s4 (-> & _ & _ & Hh4 & _). apply wp_bind.
    refine (wp_conseq True True _ _ _ _ (SPI_SendByte_hangs fuel x s4 Hsil _) (fun x => x) (fun _ _ Hf => match Hf with end)).
    rewrite Hh4, (moved_mode s2 s3 (quiet_moved _ _ HF)), Hh2, Hh1. exact Hoff.
Qed.
End faults.

(** ** Examples *)

(** A board on which the SPI completes a transfer at once when it is on, and
    never when it is off, and the USART is always free. *)
Definition programmer_hardware : Hardware := fun h r =>
  match r with
  | SPSR => if Z.testbit (default 0 (last_wr SPCR h)) SPE then 0x80 else 0
  | UCSR1A => 0x20
  | _ => default 0 (last_wr r h)
  end.

Lemma programmer_mode h :
  Z.testbit (@latch_value programmer_hardware SPCR h) SPE
  = Z.testbit (default 0 (last_wr SPCR h)) SPE.
Proof.
  unfold latch_value. rewrite reg_testbit; [|reflexivity|unfold SPE; lia].
  by destruct (last_wr SPCR h).
Qed.

Lemma programmer_spi : @spi_responsive programmer_hardware 0.
Proof. intros h. rewrite programmer_mode. cbn [hw_value programmer_hardware]. by intros ->. Qed.
Lemma programmer_usart : @usart_responsive programmer_hardware 0.
Proof. by intros h. Qed.
Lemma programmer_silent : @spi_silent programmer_hardware.
Proof. intros h. rewrite programmer_mode. cbn [hw_value programmer_hardware]. by intros ->. Qed.

(** The parser with [l] collected. *)
Definition collected (l : list Z) : SerialState :=
  mkSerial (fifo_puts (RingBuffer_InitBuffer 0 (repeat 0 128) 128) l) 0.

Lemma collected_ok h l :
  zlen l <= 128 -> Forall is_u8 l -> collecting l 0 (St h (collected l)).
Proof.
  intros Hlen HB.
  destruct (rb_init_ok 0 (repeat 0 128) 128) as [Hok Hc]; [lia|done| |].
  { apply List.Forall_forall. intros x Hx%repeat_spec. by subst x. }
  destruct (fifo_puts_spec l (RingBuffer_InitBuffer 0 (repeat 0 128) 128)) as (Hok' & Hl & Hs); [exact Hok| |].
  { cbn [fifo_list fifo_cap RingBuffer_Fifo]. rewrite Hc. cbn [rb_Size RingBuffer_InitBuffer].
    change (zlen []) with 0. lia. }
  cbn [fifo_list fifo_cap fifo_ok RingBuffer_Fifo] in *. rewrite Hc in Hl.
  split; [exact Hok'| |exact Hs|done].
  change (rb_contents (buffer_ (proj (glob (St h (collected l)))))) with
    (rb_contents (fifo_puts (RingBuffer_InitBuffer 0 (repeat 0 128) 128) l)).
  rewrite Hl. rewrite <- (map_id l) at 2. apply map_ext_in. intros x Hx. apply u8_id.
  by apply (proj1 (List.Forall_forall _ _) HB).
Qed.

Lemma frame_recognised_witness :
  let s := St [] (collected []) in
  wp_ False (add_bytes ([0xFF; 0x41] ++ packet SERIAL_SPI_DATA [1; 2])) (fun rs s' =>
    rs = [false; false; false; false; false; true]
    /\ collecting (packet SERIAL_SPI_DATA [1; 2]) 0 s' /\ same_rest s s') s.
Proof.
  refine (frame_recognised [0xFF; 0x41] SERIAL_SPI_DATA [1; 2] (St [] (collected [])) _ _ _ _ _).
  - apply collected_ok; [by vm_compute|constructor].
  - repeat constructor; by vm_compute.
  - split; by vm_compute.
  - by vm_compute.
  - repeat constructor; by vm_compute.
Defined.

Lemma packet_executed_witness :
  let s := St [Wr SPCR 0x51] (collected (packet SERIAL_SPI_DATA [1; 2])) in
  wp_ False (@serialProcess SerialState programmer_hardware _ 1)
    (fun r s' => @executed _ programmer_hardware _ SERIAL_SPI_DATA [1; 2] s r s') s.
Proof.
  refine (@packet_executed SerialState programmer_hardware _ 0 1 programmer_spi programmer_usart _
    SERIAL_SPI_DATA [1; 2] (St [Wr SPCR 0x51] (collected (packet SERIAL_SPI_DATA [1; 2]))) _ _ _ _).
  - lia.
  - apply collected_ok; [by vm_compute|repeat constructor; by vm_compute].
  - split; by vm_compute.
  - reflexivity.
  - reflexivity.
Defined.

Lemma select_underflow_witness :
  let s := St [] (collected []) in
  wp_ False (add_bytes (packet SERIAL_SPI_SELECT [])) (fun rs s1 => rs = [false; true]
    /\ wp_ False (@serialProcess SerialState programmer_hardware _ 1) (fun _ s2 =>
         RingBuffer_GetCount (buffer_ (glob s2)) = 65535
         /\ forall x, wp_ False (serialAddByte x) (fun r _ => r = true) s2) s1) s.
Proof.
  refine (@select_underflow SerialState programmer_hardware _ 1 (St [] (collected [])) _).
  apply collected_ok; [by vm_compute|constructor].
Defined.

Lemma spi_data_hangs_witness :
  @serialProcess SerialState programmer_hardware _ 1000
    (St [Wr SPCR 0] (collected (packet SERIAL_SPI_DATA [1; 2]))) = None.
Proof.
  refine (@spi_data_hangs SerialState programmer_hardware _ 1000 1 [2] _ programmer_silent _ _).
  - reflexivity.
  - apply collected_ok; [by vm_compute|repeat constructor; by vm_compute].
Defined.
