(* ===== verification/XilinxApp.v ===== *)
(** * XilinxFpgaProg/application.[ch]

    The programmer above its command frames: bytes from the host go to the
    frame parser and every frame is answered, bytes from the FPGA's USART are
    collected and sent to the host as a frame once the line has been silent. *)

From S2P Require Import Prelude Machine RingBuffer Timer Endpoint EndpointStream Cdc CdcTraffic Peripherals XilinxBoard Frame.

Record Application := mkApp {
  USARTtoUSB_Buffer : RingBuffer_t;
  serial_timeout : Timer;
  serial_rx_buffer : RingBuffer_t;
}.
Definition set_out b a := mkApp b (serial_timeout a) (serial_rx_buffer a).
Definition set_timeout t a := mkApp (USARTtoUSB_Buffer a) t (serial_rx_buffer a).
Definition set_rx b a := mkApp (USARTtoUSB_Buffer a) (serial_timeout a) b.

(** The globals of the program. *)
Record Globals := mkGlobals {
  g_clock : ClockState;
  g_usb : UsbState;
  g_cdc : USB_ClassInfo_CDC_Device_t;
  g_serial : SerialState;
  g_app : Application;
}.
Definition set_clock c g := mkGlobals c (g_usb g) (g_cdc g) (g_serial g) (g_app g).
Definition set_usb u g := mkGlobals (g_clock g) u (g_cdc g) (g_serial g) (g_app g).
Definition set_cdc c g := mkGlobals (g_clock g) (g_usb g) c (g_serial g) (g_app g).
Definition set_serial p g := mkGlobals (g_clock g) (g_usb g) (g_cdc g) p (g_app g).
Definition set_app a g := mkGlobals (g_clock g) (g_usb g) (g_cdc g) (g_serial g) a.

#[export, refine] Instance Has_clock : Has ClockState Globals := {| proj := g_clock; inj := set_clock |}.
Proof. all: by intros; destruct g. Defined.
#[export, refine] Instance Has_usb : Has UsbState Globals := {| proj := g_usb; inj := set_usb |}.
Proof. all: by intros; destruct g. Defined.
#[export, refine] Instance Has_cdc : Has USB_ClassInfo_CDC_Device_t Globals := {| proj := g_cdc; inj := set_cdc |}.
Proof. all: by intros; destruct g. Defined.
#[export, refine] Instance Has_serial : Has SerialState Globals := {| proj := g_serial; inj := set_serial |}.
Proof. all: by intros; destruct g. Defined.
#[export, refine] Instance Has_app : Has Application Globals := {| proj := g_app; inj := set_app |}.
Proof. all: by intros; destruct g. Defined.

Section app.
Context `{Hardware}.

(** [RingBuffer_Insert(&app->USARTtoUSB_Buffer, b)] *)
Definition out_insert (b : Z) : M Globals unit :=
  modc (fun a => set_out (RingBuffer_Insert (USARTtoUSB_Buffer a) b) a).

(** [app->serial_timeout] handed to the timer functions. *)
Definition timeout_set (intv : Z) : M Globals unit :=
  t ← getc serial_timeout; t' ← timerSet t intv; modc (set_timeout t').
Definition timeout_restart : M Globals unit :=
  t ← getc serial_timeout; t' ← timerRestart t; modc (set_timeout t').
Definition timeout_expired : M Globals bool :=
  t ← getc serial_timeout; r ← timerExpired t; modc (set_timeout (snd r)) ;; mret (fst r).

Definition appInit (p_out p_rx : Z) : M Globals unit :=
  modc (fun a => set_out (RingBuffer_InitBuffer p_out (rb_data (USARTtoUSB_Buffer a)) 128) a) ;;
  modc (fun a => set_rx (RingBuffer_InitBuffer p_rx (rb_data (serial_rx_buffer a)) 64) a) ;;
  timeout_set 100.

(** [RingBuffer_Insert(&app->USARTtoUSB_Buffer, RingBuffer_Remove(&app->serial_rx_buffer));] *)
Definition forward_byte : M Globals unit :=
  b ← getc serial_rx_buffer;
  modc (set_rx (snd (RingBuffer_Remove b))) ;;
  out_insert (fst (RingBuffer_Remove b)).

(** The loop over [count]. *)
Fixpoint forward (n : nat) : M Globals unit :=
  match n with
  | O => mret tt
  | S n' => forward_byte ;; forward n'
  end.

Definition appService : M Globals unit :=
  e ← timeout_expired;
  when e (
    b ← getc serial_rx_buffer;
    let count := u8 (RingBuffer_GetCount b) in
    when (0 <? count) (
      out_insert SERIAL_USART_DATA ;;
      out_insert count ;;
      forward (Z.to_nat count)) ;;
    timeout_restart).

Definition appSerialDataReceived (data : Z) : M Globals unit :=
  modc (fun a => set_rx (RingBuffer_Insert (serial_rx_buffer a) data) a) ;;
  timeout_restart.

(** The body of [appUsbDataReceived]'s loop. *)
Definition usb_byte (fuel : nat) (received_byte : Z) : M Globals unit :=
  complete ← serialAddByte (u8 received_byte);
  when complete (
    ok ← serialProcess fuel;
    out_insert (if (ok : bool) then SERIAL_ACK else SERIAL_NAK) ;;
    out_insert 0).

Definition appUsbDataReceived (fuel : nat) : M Globals unit :=
  loop fuel (fun _ : unit =>
    received_byte ← CDC_Device_ReceiveByte;
    if 0 <=? received_byte then usb_byte fuel received_byte ;; mret (inl tt)
    else mret (inr tt)) tt.
End app.

(** ** A stream of frames *)

(** A frame is a command and its payload; the replies to frames. *)
Definition frame_bytes (f : Z * list Z) : list Z := packet (fst f) (snd f).
Definition stream (fs : list (Z * list Z)) : list Z := concat (map frame_bytes fs).
Definition reply (r : bool) : list Z := [if r then SERIAL_ACK else SERIAL_NAK; 0].
Definition replies (rs : list bool) : list Z := concat (map reply rs).

(** What the frames send on the SPI and on the USART, and the SPI's mode after them. *)
Definition spi_data (fs : list (Z * list Z)) : list Z :=
  concat (map (fun f => if spi_cmd (fst f) then snd f else []) fs).
Definition usart_data (fs : list (Z * list Z)) : list Z :=
  concat (map (fun f => if fst f =? SERIAL_USART_DATA then snd f else []) fs).
Definition mode_of (on : bool) (fs : list (Z * list Z)) : bool :=
  fold_left (fun b f => mode_after (fst f) b) fs on.

(** A frame the programmer executes to the end when the SPI is in mode [on]. *)
Definition frame_ok (on : bool) (f : Z * list Z) : Prop :=
  0 <= fst f < SERIAL_END_COMMANDS /\ zlen (snd f) <= 126
  /\ payload_ok (fst f) (snd f) = true /\ (spi_cmd (fst f) = true -> on = true).
Fixpoint frames_ok (on : bool) (fs : list (Z * list Z)) : Prop :=
  match fs with
  | [] => True
  | f :: fs' => frame_ok on f /\ frames_ok (mode_after (fst f) on) fs'
  end.

Lemma frames_ok_app on fs1 fs2 :
  frames_ok on (fs1 ++ fs2) -> frames_ok (mode_of on fs1) fs2.
Proof. revert on. induction fs1 as [|f fs1 IH]; intros on; [done|]. cbn. intros [_ Hf]. by apply IH. Qed.

Lemma stream_app fs1 fs2 : stream (fs1 ++ fs2) = stream fs1 ++ stream fs2.
Proof. unfold stream. by rewrite map_app, concat_app. Qed.
Lemma replies_app rs1 rs2 : replies (rs1 ++ rs2) = replies rs1 ++ replies rs2.
Proof. unfold replies. by rewrite map_app, concat_app. Qed.
Lemma spi_data_app fs1 fs2 : spi_data (fs1 ++ fs2) = spi_data fs1 ++ spi_data fs2.
Proof. unfold spi_data. by rewrite map_app, concat_app. Qed.
Lemma usart_data_app fs1 fs2 : usart_data (fs1 ++ fs2) = usart_data fs1 ++ usart_data fs2.
Proof. unfold usart_data. by rewrite map_app, concat_app. Qed.
Lemma mode_of_app on fs1 fs2 : mode_of on (fs1 ++ fs2) = mode_of (mode_of on fs1) fs2.
Proof. apply fold_left_app. Qed.

(** The frame size the parser holds inside a frame of payload [p]. *)
Definition expected (l p : list Z) : Z := if zlen l <=? 1 then 0 else zlen p + 2.

(** One byte of a frame, in the parser's abstract machine. *)
Lemma add_spec_frame cmd p l x r :
  packet cmd p = l ++ x :: r -> 0 <= cmd < SERIAL_END_COMMANDS -> zlen p <= 126 ->
  add_spec l (expected l p) x =
    match r with [] => (packet cmd p, 0, true) | _ => (l ++ [x], expected (l ++ [x]) p, false) end.
Proof.
  intros Hp Hcmd Hlen. pose proof (zlen_nonneg p). unfold packet in *.
  destruct l as [|c [|n q]]; cbn [app] in Hp.
  - injection Hp as -> Hp. cbn [add_spec]. rewrite (proj2 (Z.leb_gt _ _)) by lia. subst r. done.
  - injection Hp as -> <- ->. cbn [add_spec app]. change (zlen [c] =? 1) with true. cbv match.
    rewrite u8_id by (unfold is_u8; lia). change (zlen [c; zlen r]) with 2.
    destruct r as [|y r]; [done|].
    rewrite (proj2 (Z.eqb_neq _ _)) by (rewrite zlen_cons; pose proof (zlen_nonneg r); lia).
    unfold expected. by change (zlen [c; _] <=? 1) with false.
  - injection Hp as -> <- ->. cbn [add_spec app].
    assert (Hz : forall a b, zlen (a :: b :: q ++ [x]) = zlen q + 3)
      by (intros; rewrite !zlen_cons, zlen_app; change (zlen [x]) with 1; lia).
    pose proof (zlen_nonneg q).
    rewrite (proj2 (Z.eqb_neq (zlen (c :: _ :: q)) 1)) by (rewrite !zlen_cons; lia). rewrite Hz.
    unfold expected at 1 2. rewrite (proj2 (Z.leb_gt (zlen (c :: _ :: q)) 1)) by (rewrite !zlen_cons; lia).
    assert (Hr : zlen (q ++ x :: r) = zlen q + 1 + zlen r) by (rewrite zlen_app, zlen_cons; lia).
    rewrite Hr. destruct r as [|y r].
    + change (zlen []) with 0. by rewrite (proj2 (Z.eqb_eq _ _)) by lia.
    + rewrite zlen_cons. pose proof (zlen_nonneg r).
      rewrite (proj2 (Z.eqb_neq _ _)) by lia. unfold expected. rewrite Hz.
      by rewrite (proj2 (Z.leb_gt (zlen q + 3) 1)), Hr, zlen_cons by lia.
Qed.

(** ** Executing a frame does not touch the packet *)

Definition keeps_packet : relation (st Globals) := fun s s' =>
  taken (hist s') = taken (hist s) /\ g_cdc (glob s') = g_cdc (glob s).
#[export] Instance keeps_packet_preorder : PreOrder keeps_packet.
Proof.
  split; [by intros s|]. intros s1 s2 s3 [H1 G1] [H2 G2]. split; congruence.
Qed.

Section keeps.
Context `{Hardware}.

Lemma keeps_rd r : r <> UEDATX -> Runs keeps_packet (rd r).
Proof.
  intros Hr s v s' [= <- <-]. split; [|done]. unfold taken. cbn [hist reads].
  by rewrite decide_False by congruence.
Qed.
Lemma keeps_wr r v : Runs keeps_packet (wr r v).
Proof. by intros s a s' [= <- <-]. Qed.
Lemma keeps_delay n : Runs keeps_packet (delay_us n).
Proof. by intros s a s' [= <- <-]. Qed.
Lemma keeps_getc {F} `{Has F Globals} {A} (f : F -> A) : Runs keeps_packet (getc f).
Proof. by intros s a s' [= <- <-]. Qed.
Lemma keeps_serial (f : SerialState -> SerialState) : Runs keeps_packet (modc f).
Proof. by intros s a s' [= <- <-]. Qed.
Lemma keeps_app (f : Application -> Application) : Runs keeps_packet (modc f).
Proof. by intros s a s' [= <- <-]. Qed.
End keeps.

Ltac keeps_step :=
  lazymatch goal with
  | |- Runs _ (mret _) => apply (runs_ret _)
  | |- Runs _ (_ ≫= _) => apply (runs_bind _); [|intros]
  | |- Runs _ (rd _) => apply keeps_rd; discriminate
  | |- Runs _ (wr _ _) => apply keeps_wr
  | |- Runs _ (delay_us _) => apply keeps_delay
  | |- Runs _ (getc _) => apply keeps_getc
  | |- Runs _ (modc _) => first [apply keeps_serial | apply keeps_app]
  | |- Runs _ (loop _ _ _) => apply (runs_loop _); intros
  | |- Runs _ (reg_or _ _) => unfold reg_or
  | |- Runs _ (reg_clr _ _) => unfold reg_clr
  | |- Runs _ (when _ _) => unfold when
  | |- Runs _ (match ?x with _ => _ end) => destruct x
  | |- Runs _ (let _ := _ in _) => cbv zeta
  end.
Ltac keeps_go := repeat first [keeps_step | apply _].

Section keeps_frames.
Context `{Hardware}.

#[export] Instance keeps_removes n f : (forall x, Runs keeps_packet (f x)) -> Runs keeps_packet (serial_removes n f).
Proof.
  intros Hf. induction n as [|n IH]; cbn [serial_removes]; unfold serial_remove; keeps_go.
Qed.
#[export] Instance keeps_spi fuel x : Runs keeps_packet (SPI_SendByte fuel x).
Proof. unfold SPI_SendByte, spi_wait. keeps_go. Qed.
#[export] Instance keeps_usart fuel x : Runs keeps_packet (Serial_SendByte fuel x).
Proof. unfold Serial_SendByte, usart_wait. keeps_go. Qed.
#[export] Instance keeps_init_wait n : Runs keeps_packet (init_wait n).
Proof. induction n as [|n IH]; cbn [init_wait]; unfold isSetInitB; keeps_go. Qed.
#[export] Instance keeps_toggle m : Runs keeps_packet (LEDs_ToggleLEDs m).
Proof. unfold LEDs_ToggleLEDs. keeps_go. Qed.

#[export] Instance keeps_process fuel : Runs keeps_packet (serialProcess fuel).
Proof.
  unfold serialProcess, serial_remove, xilinxSetupConfiguration, clearProgramB, setProgramB,
    cmd_download, isSetDone, isSetInitB, xilinxInit, SPI_Init, cmd_select, serial_remove,
    cmd_use_usart, SPI_Disable, pulse. keeps_go.
  all: apply keeps_removes; intros; unfold xilinxSend; keeps_go.
Qed.
End keeps_frames.

(** ** Serving the stream *)

Section serve.
Context `{Hardware} (k fuel : nat).
Context (Hspi : spi_responsive k) (Husart : usart_responsive k) (Hk : (k < fuel)%nat).

(** Since [s0], when the parser was empty, the bytes [p] of the stream of the
    frames [fs] have come: some frames are complete, [l] has been collected of
    the next. *)
Record served (fs : list (Z * list Z)) (s0 : st Globals) (p : list Z)
    (done : list (Z * list Z)) (l : list Z) (rs : list bool) (s : st Globals) : Prop := {
  sv_bytes : p = stream done ++ l;
  sv_frames : exists todo, fs = done ++ todo /\
    match todo with
    | [] => l = []
    | f :: _ => collecting l (expected l (snd f)) s /\ exists y r, frame_bytes f = l ++ y :: r
    end;
  sv_empty : l = [] -> collecting [] 0 s;
  sv_replies : Forall2 (fun f r => (r = false -> may_fail (fst f) = true) /\ (fst f = 0 -> r = false)) done rs;
  sv_out_ok : rb_ok (USARTtoUSB_Buffer (g_app (glob s)));
  sv_out : rb_contents (USARTtoUSB_Buffer (g_app (glob s)))
    = rb_contents (USARTtoUSB_Buffer (g_app (glob s0))) ++ replies rs;
  sv_size : rb_Size (USARTtoUSB_Buffer (g_app (glob s))) = rb_Size (USARTtoUSB_Buffer (g_app (glob s0)));
  sv_mode : spi_mode (hist s) = mode_of (spi_mode (hist s0)) done;
  sv_data : exists tr, hist s = tr ++ hist s0
    /\ rev (writes SPDR tr) = spi_data done /\ rev (writes UDR1 tr) = usart_data done;
}.

Definition serving fs s0 p s : Prop := exists done l rs, served fs s0 p done l rs s.

(** The state of the parser and the queue, and the data registers, alone
    decide it. *)
Lemma served_moved fs s0 p done l rs (s s' : st Globals) :
  served fs s0 p done l rs s ->
  g_serial (glob s') = g_serial (glob s) -> g_app (glob s') = g_app (glob s) ->
  (exists tr, hist s' = tr ++ hist s /\ forall r, bus_regs r = true -> writes r tr = []) ->
  served fs s0 p done l rs s'.
Proof.
  intros [Hb Hfr He Hr Hok Ho Hs Hm (t0 & Ht0 & Hd1 & Hd2)] Hg Ha (tr & Ht & Hw).
  assert (Hcol : forall l n, collecting l n s -> collecting l n s').
  { intros l' n []. split; change (proj (glob s')) with (g_serial (glob s')); by rewrite Hg. }
  split; try (rewrite Ha; done); try done.
  - destruct Hfr as (todo & Hfs & Htodo). exists todo. split; [done|]. destruct todo as [|f todo]; [done|].
    destruct Htodo as [Hc Hx]. split; [by apply Hcol|done].
  - intros Hl. by apply Hcol, He.
  - rewrite <- Hm. unfold spi_mode. by rewrite Ht, latch_untouched by (by apply Hw).
  - exists (tr ++ t0). rewrite Ht, Ht0, app_assoc. split; [done|].
    by rewrite !writes_app, !Hw by done.
Qed.

#[export] Instance keeps_usb_byte x : Runs keeps_packet (usb_byte fuel x).
Proof. unfold usb_byte, serialAddByte, serial_insert, out_insert. keeps_go. Qed.

(** The frame that is being collected. *)
Lemma current_frame fs s0 p done l rs s x r :
  served fs s0 p done l rs s -> stream fs = p ++ x :: r ->
  exists f todo q, fs = done ++ f :: todo /\ frame_bytes f = l ++ x :: q
    /\ collecting l (expected l (snd f)) s.
Proof.
  intros Hs Hstream. pose proof (sv_bytes _ _ _ _ _ _ _ Hs) as Hp.
  destruct (sv_frames _ _ _ _ _ _ _ Hs) as ([|f todo] & Hfs & Htodo).
  - exfalso. rewrite app_nil_r in Hfs. subst fs l. rewrite app_nil_r in Hp. subst p.
    apply (f_equal (@length Z)) in Hstream. rewrite length_app in Hstream. cbn [length] in Hstream. lia.
  - destruct Htodo as [Hc (y & q & Hf)]. exists f, todo, q. split; [done|]. split; [|done].
    rewrite Hfs, stream_app, Hp, <- app_assoc in Hstream. apply app_inv_head in Hstream.
    unfold stream in Hstream. cbn [map concat] in Hstream. rewrite Hf, <- app_assoc in Hstream.
    apply app_inv_head in Hstream. by injection Hstream as ->.
Qed.

(** A byte inside a frame. *)
Lemma served_inside fs s0 p done l rs (s s' : st Globals) x f todo y q :
  served fs s0 p done l rs s -> fs = done ++ f :: todo -> frame_bytes f = l ++ x :: y :: q ->
  collecting (l ++ [x]) (expected (l ++ [x]) (snd f)) s' -> same_rest s s' ->
  served fs s0 (p ++ [x]) done (l ++ [x]) rs s'.
Proof.
  intros Hs Hfs Hf Hc [Hh [g Hg]].
  pose proof (served_moved _ _ _ _ _ _ s (St (hist s') (set_serial (g_serial (glob s)) (glob s'))) Hs
    eq_refl ltac:(cbn [glob]; by rewrite Hg) ltac:(exists []; by rewrite Hh)) as [Hb _ _ Hr Hok Ho Hsz Hm Hd].
  split; try done.
  - by rewrite Hb, <- app_assoc.
  - exists (f :: todo). split; [done|]. split; [done|]. exists y, q. by rewrite Hf, <- app_assoc.
  - by destruct l.
Qed.

(** The reply of a frame that has been executed. *)
Lemma served_complete fs s0 p done l rs (s s1 s2 : st Globals) x f todo r :
  served fs s0 p done l rs s -> fs = done ++ f :: todo -> frame_bytes f = l ++ [x] ->
  zlen (rb_contents (USARTtoUSB_Buffer (g_app (glob s0)))) + 2 * zlen fs
    <= rb_Size (USARTtoUSB_Buffer (g_app (glob s0))) ->
  same_rest s s1 -> executed (fst f) (snd f) s1 r s2 ->
  wp_ False (out_insert (if (r : bool) then SERIAL_ACK else SERIAL_NAK) ;; out_insert 0)
    (fun _ s' => serving fs s0 (p ++ [x]) s') s2.
Proof.
  intros Hs Hfs Hf Hroom [Hh1 [g1 Hg1]] [Hcol [g2 Hg2] Hmode Hfail Hunk (tr & Htr & Hd1 & Hd2)].
  destruct Hs as [Hb _ _ Hr Hok Ho Hsz Hm (t0 & Ht0 & Hw1 & Hw2)].
  assert (Ha : g_app (glob s2) = g_app (glob s)) by (by rewrite Hg2, Hg1).
  set (b := USARTtoUSB_Buffer (g_app (glob s))) in *.
  assert (Hlen : zlen (replies rs) = 2 * zlen done /\ zlen fs = zlen done + 1 + zlen todo).
  { split; [|rewrite Hfs, zlen_app, zlen_cons; lia]. apply Forall2_length in Hr. unfold zlen. rewrite Hr.
    unfold replies. clear. induction rs as [|r rs IH]; [done|]. cbn [map concat]. rewrite length_app.
    cbn [length reply]. lia. }
  destruct (fifo_puts_spec (reply r) b) as (Hok' & Hl' & Hc'); [exact Hok| |].
  { cbn [fifo_list fifo_cap RingBuffer_Fifo]. rewrite Ho, Hsz, zlen_app. change (zlen (reply r)) with 2.
    pose proof (zlen_nonneg todo). lia. }
  cbn [fifo_ok fifo_list fifo_cap RingBuffer_Fifo] in *.
  unfold out_insert. do 3 wp_step. cbn [glob]. rewrite inj_inj, proj_inj.
  change (proj (glob s2)) with (g_app (glob s2)). rewrite Ha.
  set (s' := St _ _). exists (done ++ [f]), [], (rs ++ [r]).
  assert (Happ : g_app (glob s') = set_out (fifo_puts b (reply r)) (g_app (glob s))) by done.
  assert (Hcol' : collecting [] 0 s') by (destruct Hcol; split; done).
  split.
  - by rewrite Hb, stream_app, app_nil_r, <- !app_assoc; unfold stream; cbn [map concat]; rewrite Hf, app_nil_r.
  - exists todo. rewrite <- app_assoc. split; [done|]. destruct todo as [|f' todo']; [done|].
    split; [exact Hcol'|]. by eexists _, _.
  - done.
  - apply Forall2_app; [done|]. by repeat constructor.
  - by rewrite Happ.
  - rewrite Happ. cbn [set_out USARTtoUSB_Buffer]. rewrite Hl', Ho, replies_app, <- app_assoc.
    f_equal. f_equal. by destruct r.
  - rewrite Happ. cbn [set_out USARTtoUSB_Buffer]. by rewrite Hc', Hsz.
  - rewrite mode_of_app. cbn [mode_of fold_left]. rewrite <- Hm, <- Hh1. exact Hmode.
  - exists (tr ++ t0). change (hist s') with (hist s2). rewrite Htr, Hh1, Ht0, app_assoc. split; [done|].
    rewrite !writes_app, !rev_app_distr, Hd1, Hd2, Hw1, Hw2, spi_data_app, usart_data_app.
    unfold spi_data, usart_data. cbn [map concat]. by rewrite !app_nil_r.
Qed.

(** A frame in progress is one the programmer executes. *)
Lemma current_ok fs (s0 s : st Globals) p done l rs f todo :
  served fs s0 p done l rs s -> frames_ok (spi_mode (hist s0)) fs -> fs = done ++ f :: todo ->
  frame_ok (spi_mode (hist s)) f.
Proof.
  intros Hs Hok ->. apply frames_ok_app in Hok. rewrite (sv_mode _ _ _ _ _ _ _ Hs). apply Hok.
Qed.

(** One byte of the stream. *)
Lemma usb_byte_serves fs s0 p x r (s : st Globals) :
  frames_ok (spi_mode (hist s0)) fs -> stream fs = p ++ x :: r -> is_u8 x ->
  zlen (rb_contents (USARTtoUSB_Buffer (g_app (glob s0)))) + 2 * zlen fs
    <= rb_Size (USARTtoUSB_Buffer (g_app (glob s0))) ->
  serving fs s0 p s ->
  wp_ False (usb_byte fuel x) (fun _ s' => serving fs s0 (p ++ [x]) s') s.
Proof.
  intros Hok Hstream Hx Hroom (done & l & rs & Hs).
  destruct (current_frame fs s0 p done l rs s x r Hs Hstream) as (f & todo & q & Hfs & Hf & Hc).
  destruct (current_ok fs s0 s p done l rs f todo Hs Hok Hfs) as (Hcmd & Hlen & Hpay & Hon).
  unfold usb_byte. rewrite u8_id by done.
  assert (Hl : zlen l < 128).
  { apply (f_equal zlen) in Hf. unfold frame_bytes, packet in Hf.
    rewrite zlen_app, !zlen_cons in Hf. pose proof (zlen_nonneg q). lia. }
  wp_call (serialAddByte_spec l (expected l (snd f)) x s Hc Hl Hx).
  rewrite (add_spec_frame (fst f) (snd f) l x q Hf Hcmd Hlen).
  destruct q as [|y q]; intros b s1 (-> & Hc1 & Hs1); cbn [when].
  - assert (Hm1 : spi_mode (hist s1) = spi_mode (hist s)) by (by rewrite (proj1 Hs1)).
    wp_call (serialProcess_frame k fuel Hspi Husart Hk (fst f) (snd f) s1 Hc1 Hcmd Hpay
      ltac:(intros He; rewrite Hm1; by apply Hon)).
    intros ok s2 He. by apply (served_complete fs s0 p done l rs s s1 s2 x f todo ok).
  - apply wp_ret. exists done, (l ++ [x]), rs.
    by apply (served_inside fs s0 p done l rs s s1 x f todo y q).
Qed.

(** C7. The programmer serves its host whatever the packets: while a stream
    of frames of its protocol comes in, cut into USB packets anywhere, each
    packet is taken to its last byte on any hardware whose transfers complete,
    and afterwards every complete frame has been executed, in order, and
    answered by an acknowledgement or a refusal, which only commands that can
    fail receive; the payloads have gone out on the SPI and on the USART,
    whole, in order and nothing else, and the bytes of the frame in progress
    are collected. *)
Theorem packets_served fs s0 p bs r n0 (s : st Globals) :
  frames_ok (spi_mode (hist s0)) fs -> stream fs = p ++ bs ++ r ->
  zlen (rb_contents (USARTtoUSB_Buffer (g_app (glob s0)))) + 2 * zlen fs
    <= rb_Size (USARTtoUSB_Buffer (g_app (glob s0))) ->
  receiving n0 bs bs s -> (length bs < fuel)%nat ->
  serving fs s0 p s ->
  wp_ False (appUsbDataReceived fuel) (fun _ s' => serving fs s0 (p ++ bs) s') s.
Proof.
  intros Hok Hstream Hroom Hr Hfuel Hs. unfold appUsbDataReceived.
  eapply wp_conseq;
    [apply (receive_all n0 bs _ (fun rest s1 => exists pre, bs = pre ++ rest /\ serving fs s0 (p ++ pre) s1)
       fuel s bs); [| |exact Hr| |exact Hfuel]|exact (fun x => x)|].
  - intros l s1 s2 (pre & Hpre & done & l' & rs & Hsv) [(tr & Ht & Hw) Hg]. exists pre. split; [done|].
    exists done, l', rs. apply (served_moved _ _ _ _ _ _ s1 s2 Hsv); [by rewrite Hg|by rewrite Hg|].
    exists tr. split; [done|]. intros r' Hr'. apply Hw. by destruct r'.
  - intros x l s1 Hx (pre & Hpre & Hsv).
    wp_spec (wp_frame False keeps_packet (usb_byte fuel x) _ s1
      (usb_byte_serves fs s0 (p ++ pre) x (l ++ r) s1 Hok
        ltac:(rewrite Hstream, Hpre, <- !app_assoc; done) Hx Hroom Hsv)).
    intros [] s2 [Hsv2 [Ht Hg]]. split; [|split; [done|exact Hg]].
    exists (pre ++ [x]). rewrite Hpre, <- !app_assoc. split; [done|]. by rewrite <- app_assoc in Hsv2.
  - exists []. by rewrite app_nil_r.
  - intros [] s' (pre & Hpre & Hsv). rewrite app_nil_r in Hpre. by subst pre.
Qed.
End serve.

(** ** Bytes of the FPGA *)

Section usart.
Context `{Hardware}.

(** Both queues in order. *)
Record queues_ok (a : Application) : Prop := {
  qo_out : rb_ok (USARTtoUSB_Buffer a);
  qo_rx : rb_ok (serial_rx_buffer a);
}.

(** The application as a function of what [appService] finds in the queue. *)
Definition after_forward (a a' : Application) (n : nat) : Prop :=
  queues_ok a' /\ rb_contents (serial_rx_buffer a') = drop n (rb_contents (serial_rx_buffer a))
  /\ rb_contents (USARTtoUSB_Buffer a')
     = rb_contents (USARTtoUSB_Buffer a) ++ take n (rb_contents (serial_rx_buffer a))
  /\ rb_Size (USARTtoUSB_Buffer a') = rb_Size (USARTtoUSB_Buffer a)
  /\ serial_timeout a' = serial_timeout a.

Lemma forward_spec n : forall s : st Globals,
  let a := g_app (glob s) in
  queues_ok a -> (n <= length (rb_contents (serial_rx_buffer a)))%nat ->
  zlen (rb_contents (USARTtoUSB_Buffer a)) + Z.of_nat n <= rb_Size (USARTtoUSB_Buffer a) ->
  wp_ False (forward n) (fun _ s' =>
    hist s' = hist s /\ after_forward a (g_app (glob s')) n
    /\ glob s' = set_app (g_app (glob s')) (glob s)) s.
Proof.
  induction n as [|n IH]; intros s a Hok Hn Hroom; cbn [forward].
  { apply wp_ret. split; [done|]. split; [|by destruct (glob s)]. unfold after_forward. cbn [drop take].
    by rewrite app_nil_r. }
  destruct Hok as [Ho Hrx]. pose proof (rb_contents_length _ Hrx) as Hlen. unfold zlen in Hlen.
  pose proof (rb_remove_contents _ Hrx ltac:(lia)) as Hc.
  assert (Hx : is_u8 (fst (RingBuffer_Remove (serial_rx_buffer a)))).
  { pose proof (rb_contents_bytes _ Hrx) as HB. rewrite Hc in HB. by inversion_clear HB. }
  assert (Hfull : rb_Count (USARTtoUSB_Buffer a) < rb_Size (USARTtoUSB_Buffer a))
    by (rewrite <- rb_contents_length by done; lia).
  unfold forward_byte, out_insert. do 6 wp_step. cbn [glob]. rewrite inj_inj, proj_inj.
  change (proj (glob s)) with a. set (s1 := St _ _).
  pose proof (rb_insert_contents (USARTtoUSB_Buffer a) (fst (RingBuffer_Remove (serial_rx_buffer a))) Ho Hfull) as Hi.
  rewrite u8_id in Hi by done.
  assert (Hrx1 : (n <= length (rb_contents (snd (RingBuffer_Remove (serial_rx_buffer a)))))%nat)
    by (rewrite Hc in Hn; cbn [length] in Hn; lia).
  wp_spec (IH s1 ltac:(split; [by apply rb_insert_ok|apply rb_remove_ok; [done|lia]]) Hrx1
    ltac:(unfold s1; cbn [glob g_app inj Has_app set_app set_out set_rx USARTtoUSB_Buffer];
          rewrite Hi, zlen_app; change (zlen [_]) with 1; cbn [RingBuffer_Insert rb_Size]; lia)).
  intros [] s2 (Hh & (Hok2 & Hrx2 & Ho2 & Hsz2 & Ht2) & Hg2). split; [exact Hh|].
  split; [|rewrite Hg2; by destruct (glob s)].
  unfold s1 in Hrx2, Ho2, Hsz2, Ht2.
  cbn [glob g_app inj Has_app set_app set_out set_rx USARTtoUSB_Buffer serial_rx_buffer serial_timeout] in *.
  split; [exact Hok2|]. rewrite Hrx2, Ho2, Hc, Hi, <- app_assoc. split; [done|]. split; [done|].
  split; [exact Hsz2|exact Ht2].
Qed.

(** The state with another application record and history. *)
Definition with_app (a : Application) (s s' : st Globals) : Prop := glob s' = set_app a (glob s).

Lemma timeout_restart_run (s : st Globals) :
  timeout_restart s = Some (tt, St (atomic_hist (hist s))
    (set_app (set_timeout (mkTimer 1 (time_ (g_clock (glob s))) (interval (serial_timeout (g_app (glob s)))))
       (g_app (glob s))) (glob s))).
Proof. by destruct s. Qed.

Lemma serial_data_run x (s : st Globals) :
  let a := g_app (glob s) in
  appSerialDataReceived x s = Some (tt, St (atomic_hist (hist s))
    (set_app (mkApp (USARTtoUSB_Buffer a)
       (mkTimer 1 (time_ (g_clock (glob s))) (interval (serial_timeout a)))
       (RingBuffer_Insert (serial_rx_buffer a) x)) (glob s))).
Proof. by destruct s. Qed.

(** Bytes from the USART, one interrupt each. *)
Lemma serial_data_spec ds : forall s : st Globals,
  let a := g_app (glob s) in let rx := serial_rx_buffer a in
  rb_ok rx -> ds <> [] -> zlen (rb_contents rx) + zlen ds <= rb_Size rx ->
  wp_ False (for_each ds appSerialDataReceived) (fun _ s' => exists b,
    with_app (mkApp (USARTtoUSB_Buffer a)
      (mkTimer 1 (time_ (g_clock (glob s))) (interval (serial_timeout a))) b) s s'
    /\ rb_ok b /\ rb_contents b = rb_contents rx ++ map u8 ds /\ rb_Size b = rb_Size rx) s.
Proof.
  induction ds as [|x ds IH]; intros s a rx Hok Hne Hroom; [done|]. clear Hne.
  rewrite zlen_cons in Hroom. pose proof (zlen_nonneg ds).
  assert (Hfull : rb_Count rx < rb_Size rx) by (rewrite <- rb_contents_length by done; lia).
  pose proof (rb_insert_ok rx x Hok Hfull) as Hok1. pose proof (rb_insert_contents rx x Hok Hfull) as Hc1.
  cbn [for_each]. wp_step. eapply wp_eq; [apply serial_data_run|]. fold a rx. set (s1 := St _ _).
  destruct ds as [|y ds].
  - apply wp_ret. exists (RingBuffer_Insert rx x). split; [|split; [done|split; [exact Hc1|done]]].
    unfold with_app, s1. cbn [glob]. by destruct (glob s).
  - wp_spec (IH s1 Hok1 ltac:(done)
      ltac:(unfold s1; cbn [glob g_app set_app serial_rx_buffer]; rewrite Hc1, zlen_app; change (zlen [_]) with 1; cbn [RingBuffer_Insert rb_Size]; lia)).
    intros [] s2 (b & Hg & Hb & Hcb & Hsz). exists b. split; [|split; [done|split; [|exact Hsz]]].
    + unfold with_app in *. rewrite Hg. unfold s1. by destruct (glob s).
    + rewrite Hcb. unfold s1. cbn [glob g_app set_app serial_rx_buffer]. by rewrite Hc1, <- app_assoc.
Qed.

(** The clock's interrupt leaves the application alone. *)
Lemma ticks_app d (s : st Globals) :
  match ticks d s with Some (_, s') => g_app (glob s') = g_app (glob s) | None => True end.
Proof.
  induction d as [|d IH]; [done|]. cbn [ticks]. unfold mbind, M_bind.
  destruct (ticks d s) as [[[] s1]|]; [|done]. cbn. by rewrite <- IH.
Qed.

(** What the service routine leaves when the time-out has fired at [now]:
    [o] has been queued for the host. *)
Definition serviced (a : Application) (now : Z) (o : list Z) (a' : Application) : Prop :=
  queues_ok a' /\ rb_contents (USARTtoUSB_Buffer a') = rb_contents (USARTtoUSB_Buffer a) ++ o
  /\ rb_contents (serial_rx_buffer a') = []
  /\ serial_timeout a' = mkTimer 1 now (interval (serial_timeout a)).

Definition usart_frame (l : list Z) : list Z :=
  match l with [] => [] | _ => SERIAL_USART_DATA :: zlen l :: l end.

Lemma restart_serviced a now o (s : st Globals) :
  let a1 := g_app (glob s) in
  queues_ok a1 -> rb_contents (USARTtoUSB_Buffer a1) = rb_contents (USARTtoUSB_Buffer a) ++ o ->
  rb_contents (serial_rx_buffer a1) = [] ->
  interval (serial_timeout a1) = interval (serial_timeout a) -> time_ (g_clock (glob s)) = now ->
  wp_ False timeout_restart (fun _ s' => serviced a now o (g_app (glob s'))) s.
Proof.
  intros a1 [Ho Hrx] Hout Hin Hi <-. eapply wp_eq; [apply timeout_restart_run|].
  unfold serviced.
  cbn [glob g_app set_app set_timeout USARTtoUSB_Buffer serial_rx_buffer serial_timeout].
  fold a1. by rewrite Hi.
Qed.

(** The bytes that wait, as a frame. *)
Lemma flush_spec (s : st Globals) :
  let a := g_app (glob s) in let l := rb_contents (serial_rx_buffer a) in
  queues_ok a -> l <> [] -> zlen l < 256 ->
  zlen (rb_contents (USARTtoUSB_Buffer a)) + zlen l + 2 <= rb_Size (USARTtoUSB_Buffer a) ->
  wp_ False ((out_insert SERIAL_USART_DATA ;; out_insert (zlen l) ;; forward (Z.to_nat (zlen l))) ;;
             timeout_restart)
    (fun _ s' => serviced a (time_ (g_clock (glob s))) (usart_frame l) (g_app (glob s'))) s.
Proof.
  intros a l [Ho Hrx] Hne Hsz Hroom. pose proof (zlen_nonneg l).
  destruct (fifo_puts_spec [SERIAL_USART_DATA; zlen l] (USARTtoUSB_Buffer a)) as (Hok2 & Hl2 & Hc2);
    [exact Ho|change (zlen [SERIAL_USART_DATA; zlen l]) with 2; cbn [fifo_list fifo_cap RingBuffer_Fifo]; lia|].
  cbn [fifo_ok fifo_list fifo_cap RingBuffer_Fifo map] in Hok2, Hl2, Hc2.
  rewrite !u8_id in Hl2 by (unfold is_u8, SERIAL_USART_DATA; lia).
  unfold out_insert. do 5 wp_step. cbn [glob]. rewrite inj_inj, proj_inj.
  change (proj (glob s)) with a. set (s2 := St _ _). set (b2 := fifo_puts _ _) in *.
  assert (Ha2 : g_app (glob s2) = set_out b2 a) by done.
  assert (Hz : Z.to_nat (zlen l) = length l) by (unfold zlen; lia). rewrite Hz.
  wp_spec (forward_spec (length l) s2 ltac:(rewrite Ha2; by split) ltac:(by rewrite Ha2)
    ltac:(rewrite Ha2; cbn [set_out USARTtoUSB_Buffer]; rewrite Hl2, Hc2, zlen_app;
          change (zlen [_; _]) with 2; unfold zlen in *; lia)).
  rewrite Ha2. intros [] s3 (_ & (Hok3 & Hrx3 & Ho3 & _ & Ht3) & Hg3).
  cbn [set_out serial_rx_buffer USARTtoUSB_Buffer serial_timeout] in *. fold l in Hrx3, Ho3.
  apply restart_serviced; [done| | |by rewrite Ht3|by rewrite Hg3].
  - rewrite Ho3, Hl2, take_ge, <- app_assoc by done. cbn [app]. by destruct l.
  - by rewrite Hrx3, drop_ge.
Qed.

(** The service routine, on both outcomes of the time-out. *)
Lemma appService_spec (s : st Globals) :
  let a := g_app (glob s) in let l := rb_contents (serial_rx_buffer a) in
  let fired := fst (timer_check (time_ (g_clock (glob s))) (serial_timeout a)) in
  queues_ok a -> rb_Size (serial_rx_buffer a) < 256 ->
  zlen (rb_contents (USARTtoUSB_Buffer a)) + zlen l + 2 <= rb_Size (USARTtoUSB_Buffer a) ->
  wp_ False appService (fun _ s' => if fired
    then serviced a (time_ (g_clock (glob s))) (usart_frame l) (g_app (glob s'))
    else g_app (glob s') = a) s.
Proof.
  intros a l fired Hok Hsz Hroom. unfold appService, timeout_expired, timerExpired. do 5 wp_step.
  eapply wp_eq; [apply clockGetTime_run|]. do 3 wp_step. apply wp_ret. cbn [hist glob fst].
  change (@proj Application _ _ (glob s)) with a. change (@proj ClockState _ _ (glob s)) with (g_clock (glob s)).
  fold fired. set (t := timer_check _ _) in *.
  assert (Hiv : interval (snd t) = interval (serial_timeout a))
    by (unfold t, timer_check; bool_cases; done).
  destruct fired eqn:Ef; cbn [when].
  2:{ apply wp_ret. cbn [glob g_app inj Has_app set_app].
      unfold t. rewrite timer_one_shot_idle by done. by destruct a. }
  set (s1 := St _ _). assert (Ha1 : g_app (glob s1) = set_timeout (snd t) a) by done.
  do 2 wp_step. change (serial_rx_buffer (proj (glob s1))) with (serial_rx_buffer a). cbv zeta.
  pose proof Hok as [Ho Hrx]. pose proof (rb_contents_length _ Hrx) as Hlen. fold l in Hlen.
  pose proof (rb_ok_count _ Hrx) as Hcr. pose proof (zlen_nonneg l).
  unfold RingBuffer_GetCount. rewrite <- Hlen, u8_id by (unfold is_u8; lia).
  assert (Hs : forall o a', serviced (set_timeout (snd t) a) (time_ (g_clock (glob s))) o a' ->
    serviced a (time_ (g_clock (glob s))) o a').
  { intros o a' (? & ? & ? & Ht). split; [done|]. split; [done|]. split; [done|]. by rewrite Ht, <- Hiv. }
  destruct (Z.ltb_spec 0 (zlen l)) as [Hpos|Hz]; cbn [when].
  - assert (Hne : l <> []) by (by intros ->).
    wp_spec (flush_spec s1 ltac:(rewrite Ha1; by destruct Hok) ltac:(by rewrite Ha1) ltac:(rewrite Ha1; cbn [set_timeout serial_rx_buffer]; fold l; lia)
      ltac:(by rewrite Ha1)).
    rewrite Ha1. intros [] s2 Hs2. by apply Hs.
  - assert (Hnil : l = []) by (apply nil_length_inv; unfold zlen in *; lia).
    apply wp_bind, wp_ret. rewrite Hnil.
    apply restart_serviced; [by destruct Hok|by rewrite app_nil_r|exact Hnil|exact Hiv|done].
Qed.

(** C10. Bytes of the FPGA reach the host as one frame once the line has been
    silent: bytes [ds] that arrive on the USART within one tick, and as many
    as fit the buffer, are queued for the host as the frame
    [SERIAL_USART_DATA], their number and the bytes in order by the first
    [appService] that runs more than 100 ticks later, and the collecting
    buffer is empty again; before that nothing is queued and they all wait. *)
Theorem usart_forwarded ds d (s : st Globals) :
  let a := g_app (glob s) in let t0 := time_ (g_clock (glob s)) in
  queues_ok a -> rb_contents (serial_rx_buffer a) = [] -> rb_Size (serial_rx_buffer a) < 256 ->
  interval (serial_timeout a) = 100 -> is_u32 t0 -> Z.of_nat d < 2 ^ 32 ->
  ds <> [] -> Forall is_u8 ds -> zlen ds <= rb_Size (serial_rx_buffer a) ->
  zlen (rb_contents (USARTtoUSB_Buffer a)) + zlen ds + 2 <= rb_Size (USARTtoUSB_Buffer a) ->
  wp_ False (for_each ds appSerialDataReceived ;; ticks d ;; appService) (fun _ s' =>
    let a' := g_app (glob s') in
    let silent := (100 <? Z.of_nat d) || ((Z.of_nat d =? 100) && (2 ^ 32 <=? t0 + Z.of_nat d)) in
    queues_ok a'
    /\ rb_contents (USARTtoUSB_Buffer a') = rb_contents (USARTtoUSB_Buffer a)
         ++ (if silent then SERIAL_USART_DATA :: zlen ds :: ds else [])
    /\ rb_contents (serial_rx_buffer a') = (if silent then [] else ds)) s.
Proof.
  intros a t0 [Ho Hrx] Hnil Hsz Hiv Ht0 Hd Hne HB Hfit Hroom.
  wp_call (serial_data_spec ds s Hrx Hne ltac:(fold a; rewrite Hnil; change (zlen []) with 0; lia)).
  intros [] s1 (b & Hg1 & Hb & Hcb & Hszb). fold a in Hg1, Hcb, Hszb.
  assert (Hids : map u8 ds = ds).
  { rewrite <- (map_id ds) at 2. apply map_ext_in. intros x Hx. apply u8_id.
    by apply (proj1 (List.Forall_forall _ _) HB). }
  rewrite Hnil, Hids in Hcb. cbn [app] in Hcb.
  destruct (ticks_run d s1 ltac:(by rewrite Hg1)) as (g2 & Hrun & Ht2).
  pose proof (ticks_app d s1) as Ha2. rewrite Hrun in Ha2. cbn [glob] in Ha2.
  apply wp_bind. eapply wp_eq; [exact Hrun|]. set (s2 := St _ g2).
  assert (Happ : g_app (glob s2) = mkApp (USARTtoUSB_Buffer a) (mkTimer 1 t0 100) b)
    by (unfold s2; cbn [glob]; by rewrite Ha2, Hg1, <- Hiv).
  assert (Hclk : time_ (g_clock (glob s2)) = u32 (t0 + Z.of_nat d)).
  { change (time_ (g_clock (glob s2))) with (time_ (proj (glob (St (hist s1) g2)))). cbn [glob]. rewrite Ht2, Hg1. done. }
  wp_spec (appService_spec s2 ltac:(rewrite Happ; by split) ltac:(rewrite Happ; cbn [serial_rx_buffer]; lia)
    ltac:(rewrite Happ; cbn [USARTtoUSB_Buffer serial_rx_buffer]; by rewrite Hcb)).
  rewrite Happ, Hclk. cbn [USARTtoUSB_Buffer serial_rx_buffer serial_timeout]. rewrite Hcb.
  rewrite timer_check_deadline by (done || lia).
  assert (E : (100 <? Z.of_nat d) || ((Z.of_nat d =? 100) && ((Z.of_nat d =? 0) || (2 ^ 32 <=? t0 + Z.of_nat d)))
    = (100 <? Z.of_nat d) || ((Z.of_nat d =? 100) && (2 ^ 32 <=? t0 + Z.of_nat d))).
  { destruct (Z.eqb_spec (Z.of_nat d) 100) as [->|]; done. }
  rewrite E. intros [] s3. cbv zeta. clear E.
  destruct ((100 <? Z.of_nat d) || ((Z.of_nat d =? 100) && (2 ^ 32 <=? t0 + Z.of_nat d))).
  - intros (Hok3 & Hout3 & Hrx3 & _). split; [done|]. split; [|done].
    rewrite Hout3. by destruct ds.
  - intros ->. cbn [USARTtoUSB_Buffer serial_rx_buffer]. split; [by split|]. by rewrite app_nil_r.
Qed.
End usart.

(** ** Examples *)

(** The board of [programmer_hardware] on a host that has sent a packet. *)
Definition programmer_host (bs : list Z) : Hardware := fun h r =>
  match r with
  | SPSR | UCSR1A => programmer_hardware h r
  | _ => packet_host bs h r
  end.

Lemma programmer_host_sends bs Address :
  Forall is_u8 bs -> zlen bs < 256 -> @out_packet (programmer_host bs) 0 Address bs.
Proof.
  intros HB Hlen. destruct (packet_host_sends bs Address HB Hlen) as [H1 H2 H3].
  split; [exact H1|exact H2|exact H3].
Qed.

Definition witness_app : Application :=
  mkApp (RingBuffer_InitBuffer 0 (repeat 0 128) 128) (mkTimer 1 0 100)
    (RingBuffer_InitBuffer 0 (repeat 0 64) 64).
Definition witness_globals : Globals :=
  mkGlobals (mkClock 0) (mkUsb (mkRequest 0 0 0 0 0) 1 false false true) open_port (collected []) witness_app.

Lemma zeros_ok p n : 0 < n < 2 ^ 16 -> rb_ok (RingBuffer_InitBuffer p (repeat 0 (Z.to_nat n)) n).
Proof.
  intros Hn. apply rb_init_ok; [done|unfold zlen; rewrite repeat_length; lia|].
  apply List.Forall_forall. intros x Hx%repeat_spec. by subst x.
Qed.

Lemma served_nothing fs (s : st Globals) `{Hardware} :
  collecting [] 0 s -> rb_ok (USARTtoUSB_Buffer (g_app (glob s))) -> serving fs s [] s.
Proof.
  intros Hc Hok. exists [], [], []. split; try done.
  - exists fs. split; [done|]. destruct fs as [|f fs]; [done|]. split; [exact Hc|]. by eexists _, _.
  - by rewrite app_nil_r.
  - by exists [].
Qed.

(** A packet that ends within its second frame. *)
Lemma packets_served_witness :
  let fs := [(SERIAL_SPI_DATA, [1; 2]); (SERIAL_USE_USART, [])] in
  let bs := [3; 2; 1; 2; 6] in
  let s := St [Wr SPCR 0x51] witness_globals in
  wp_ False (@appUsbDataReceived (programmer_host bs) 6)
    (fun _ s' => @serving (programmer_host bs) fs s bs s') s.
Proof.
  intros fs bs s.
  refine (@packets_served (programmer_host bs) 0 6 programmer_spi programmer_usart _
    fs s [] bs [0] 0 s _ _ _ _ _ _).
  - apply Nat.lt_0_succ.
  - repeat split; (discriminate || reflexivity).
  - reflexivity.
  - vm_compute. discriminate.
  - split; [vm_compute; discriminate| |apply Nat.le_0_l|reflexivity].
    apply (programmer_host_sends bs); [repeat constructor; vm_compute; congruence|reflexivity].
  - apply Nat.lt_succ_diag_r.
  - apply served_nothing; [|exact (zeros_ok 0 128 ltac:(lia))].
    pose proof (collected_ok [] [] ltac:(by vm_compute) ltac:(constructor)) as [H1 H2 H3 H4]. by split.
Defined.

Lemma usart_forwarded_witness :
  let s := St [] witness_globals in
  wp_ False (for_each [0x41; 0x42] (@appSerialDataReceived plain_hardware) ;; ticks 101 ;; @appService plain_hardware)
    (fun _ s' => rb_contents (USARTtoUSB_Buffer (g_app (glob s'))) = [SERIAL_USART_DATA; 2; 0x41; 0x42]) s.
Proof.
  intros s.
  refine (wp_conseq False False _ _ _ s (@usart_forwarded plain_hardware [0x41; 0x42] 101 s _ _ _ _ _ _ _ _ _ _)
    (fun x => x) _).
  - split; [exact (zeros_ok 0 128 ltac:(lia))|exact (zeros_ok 0 64 ltac:(lia))].
  - reflexivity.
  - reflexivity.
  - reflexivity.
  - vm_compute. split; [discriminate|reflexivity].
  - lia.
  - discriminate.
  - repeat constructor; vm_compute; congruence.
  - vm_compute. discriminate.
  - vm_compute. discriminate.
  - intros [] s' (_ & Hout & _). rewrite Hout. reflexivity.
Defined.
