(* ===== verification/App.v ===== *)
(** * AvalonBTC/application.c, application.h

    The miner's firmware above the drivers: the command interpreter, the
    service routine that reports nonces, and the USB receive path, with the
    program's globals as one record. *)

From S2P Require Import Prelude Machine RingBuffer Timer Avalon Precalc Endpoint EndpointStream Cdc Leds.

(** application.h *)
Definition DEFAULT_HASHCLOCK : Z := 256.
Definition CLOCK_LOW_CHG : Z := 0x00030007.
Definition CLOCK_HIGH_CFG : Z := 0x00000172.
Definition STATE_WORKING : Z := 0x57.   (* 'W' *)
Definition STATE_RESET : Z := 0x52.     (* 'R' *)

Record Identity := mkIdentity {
  version : Z;
  product : list Z;     (* char product[8] *)
  serial : Z;
}.

Record WorkUnit := mkWorkUnit {
  midstate : list Z;    (* uint32_t[8] *)
  data : list Z;        (* uint32_t[3] *)
  precalc : list Z;     (* uint32_t[6] *)
}.

Record State := mkState {
  state : Z;
  nonce_valid : Z;
  nonce : Z;
}.

Record Application := mkApp {
  USARTtoUSB_Buffer : RingBuffer_t;
  buffer_ : RingBuffer_t;
  worktask : WorkUnit;
  app_state : State;
  work_timer : Timer;
}.

(** The globals of the program. *)
Record Globals := mkGlobals {
  g_avalon : AvalonState;
  g_clock : ClockState;
  g_usb : UsbState;
  g_cdc : USB_ClassInfo_CDC_Device_t;
  g_app : Application;
}.

Definition set_avalon a g := mkGlobals a (g_clock g) (g_usb g) (g_cdc g) (g_app g).
Definition set_clock c g := mkGlobals (g_avalon g) c (g_usb g) (g_cdc g) (g_app g).
Definition set_usb u g := mkGlobals (g_avalon g) (g_clock g) u (g_cdc g) (g_app g).
Definition set_cdc c g := mkGlobals (g_avalon g) (g_clock g) (g_usb g) c (g_app g).
Definition set_app a g := mkGlobals (g_avalon g) (g_clock g) (g_usb g) (g_cdc g) a.

#[export, refine] Instance Has_avalon : Has AvalonState Globals :=
  {| proj := g_avalon; inj := set_avalon |}.
Proof. all: by intros; destruct g. Defined.
#[export, refine] Instance Has_clock : Has ClockState Globals :=
  {| proj := g_clock; inj := set_clock |}.
Proof. all: by intros; destruct g. Defined.
#[export, refine] Instance Has_usb : Has UsbState Globals :=
  {| proj := g_usb; inj := set_usb |}.
Proof. all: by intros; destruct g. Defined.
#[export, refine] Instance Has_cdc : Has USB_ClassInfo_CDC_Device_t Globals :=
  {| proj := g_cdc; inj := set_cdc |}.
Proof. all: by intros; destruct g. Defined.
#[export, refine] Instance Has_app : Has Application Globals :=
  {| proj := g_app; inj := set_app |}.
Proof. all: by intros; destruct g. Defined.

(** Field updates of the application record. *)
Definition set_out b a := mkApp b (buffer_ a) (worktask a) (app_state a) (work_timer a).
Definition set_in b a := mkApp (USARTtoUSB_Buffer a) b (worktask a) (app_state a) (work_timer a).
Definition set_work w a := mkApp (USARTtoUSB_Buffer a) (buffer_ a) w (app_state a) (work_timer a).
Definition set_state s a := mkApp (USARTtoUSB_Buffer a) (buffer_ a) (worktask a) s (work_timer a).
Definition set_timer t a := mkApp (USARTtoUSB_Buffer a) (buffer_ a) (worktask a) (app_state a) t.

(** The constants of application.c; a struct is the bytes it occupies. *)
Definition ID : Identity := mkIdentity 1 [0x4D; 0x69; 0x6E; 0x69; 0x4F; 0x6E; 0x65; 0] 0x20130712.
Definition identity_bytes (i : Identity) : list Z := version i :: product i ++ le_bytes 4 (serial i).
Definition state_bytes (s : State) : list Z := [state s; nonce_valid s] ++ le_bytes 4 (nonce s).

Definition GOOD_WORK : WorkUnit :=
  mkWorkUnit
    [0x5fddb5bc; 0x00bdafd2; 0x144684c7; 0x19c68fa2; 0x27d0a8e3; 0x34ad84b2; 0xa92c66be; 0x3e99a4fd]
    [0xf64684bb; 0x51bc1508; 0x1a011337] [0; 0; 0; 0; 0; 0].

Definition CLOCK_CONFIG : list Z :=
  [Z.lor (u32 (Z.shiftl DEFAULT_HASHCLOCK 18)) CLOCK_LOW_CHG; CLOCK_HIGH_CFG].

(** The array of words over [n] bytes written through a byte pointer. *)
Fixpoint bytes_words (n : nat) (bs : list Z) : list Z :=
  match n with
  | O => []
  | S n' => le_value (take 4 bs) :: bytes_words n' (drop 4 bs)
  end.

Section app.
Context `{Hardware}.

Definition usbWrite (bytes : list Z) : M Globals unit :=
  for_each bytes (fun b =>
    modc (fun a => set_out (RingBuffer_Insert (USARTtoUSB_Buffer a) b) a)).

Definition sendCmdReply (cmd : Z) (bytes : list Z) : M Globals unit :=
  usbWrite [cmd] ;; usbWrite bytes.

Definition pushWork (work : WorkUnit) : M Globals unit :=
  asicSend CLOCK_CONFIG 2 ;;
  asicSend (data work) 3 ;;
  asicSend (drop 1 (precalc work)) 5 ;;
  asicSend (midstate work) 8 ;;
  asicSend (precalc work) 1 ;;
  asicSend [0] 1 ;;
  asicIdle.

(** [RingBuffer_Remove(&app->buffer_)] *)
Definition buffer_remove : M Globals Z :=
  b ← getc buffer_;
  modc (set_in (snd (RingBuffer_Remove b))) ;;
  mret (fst (RingBuffer_Remove b)).

Fixpoint buffer_removes (n : nat) : M Globals (list Z) :=
  match n with
  | O => mret []
  | S n' => x ← buffer_remove; l ← buffer_removes n'; mret (x :: l)
  end.

(** [app->work_timer] handed to the timer functions. *)
Definition app_timerSet (intv : Z) : M Globals unit :=
  t ← getc work_timer; t' ← timerSet t intv; modc (set_timer t').
Definition app_timerStop : M Globals unit :=
  t ← getc work_timer; t' ← timerStop t; modc (set_timer t').
Definition app_timerExpired : M Globals bool :=
  t ← getc work_timer; r ← timerExpired t;
  modc (set_timer (snd r)) ;; mret (fst r).

(** [app->state.state = v;] *)
Definition app_setState (v : Z) : M Globals unit :=
  modc (fun a => set_state (mkState v (nonce_valid (app_state a)) (nonce (app_state a))) a).
Definition app_setNonce (valid v : Z) : M Globals unit :=
  modc (fun a => set_state (mkState (state (app_state a)) valid v) a).

Definition reply_state (cmd : Z) : M Globals unit :=
  s ← getc app_state; sendCmdReply cmd (state_bytes s).

(** The [case 'W'] of the interpreter: from the reset of the ASIC on, and whole. *)
Definition work_tail (cmd : Z) : M Globals unit :=
  asicReset ;;
  asicResetSpi ;;
  w ← getc worktask;
  pushWork w ;;
  app_timerSet 16000 ;;
  reply_state cmd.

Definition cmd_work (cmd : Z) : M Globals unit :=
  buffer_remove ;;
  ms ← buffer_removes 32;
  ds ← buffer_removes 12;
  modc (fun a => set_work (mkWorkUnit (bytes_words 8 ms) (bytes_words 3 ds) (precalc (worktask a))) a) ;;
  modc (fun a => let w := worktask a in
    set_work (mkWorkUnit (midstate w) (data w) (asicPrecalc (midstate w) (data w) (precalc w))) a) ;;
  app_setState STATE_WORKING ;;
  app_setNonce 0 0 ;;
  work_tail cmd.

Definition serialProcess : M Globals bool :=
  b ← getc buffer_;
  let count := RingBuffer_GetCount b in
  if count =? 0 then mret true else
  let cmd := RingBuffer_Peek b in
  (if cmd =? 0x4C (* 'L' *) then
     buffer_remove ;; LEDs_ToggleLEDs LEDS_LED1
   else if cmd =? 0x52 (* 'R' *) then
     buffer_remove ;; asicReset ;; asicResetSpi ;; app_setState STATE_RESET ;; reply_state cmd
   else if cmd =? 0x49 (* 'I' *) then
     buffer_remove ;; sendCmdReply cmd (identity_bytes ID)
   else if cmd =? 0x41 (* 'A' *) then
     buffer_remove ;; app_setState STATE_RESET ;; asicStop ;; reply_state cmd
   else if cmd =? 0x53 (* 'S' *) then
     buffer_remove ;; reply_state cmd
   else if cmd =? 0x57 (* 'W' *) then
     when (44 <? count) (cmd_work cmd)
   else
     buffer_remove ;; mret tt) ;;
  mret true.

(** [appInit]; the buffers' storage is the arrays of the [Application],
    [p_out] and [p_in] their addresses, whose bytes are kept. *)
Definition appInit (p_out p_in : Z) : M Globals unit :=
  modc (fun a => set_out (RingBuffer_InitBuffer p_out (rb_data (USARTtoUSB_Buffer a)) 256) a) ;;
  modc (fun a => set_in (RingBuffer_InitBuffer p_in (rb_data (buffer_ a)) 128) a) ;;
  app_setState STATE_RESET ;;
  asicInit ;;
  asicStop.

(** The byte reversal of [appService], statement by statement. *)
Definition reverse_nonce (n : Z) : Z :=
  let r := Z.lor 0 (Z.land n 0xFF) in
  let n := Z.shiftr n 8 in
  let r := Z.lor (u32 (Z.shiftl r 8)) (Z.land n 0xFF) in
  let n := Z.shiftr n 8 in
  let r := Z.lor (u32 (Z.shiftl r 8)) (Z.land n 0xFF) in
  let n := Z.shiftr n 8 in
  Z.lor (u32 (Z.shiftl r 8)) (Z.land n 0xFF).

Definition service_report : M Globals unit :=
  n ← asicGetNonce;
  app_timerStop ;;
  asicStop ;;
  asicResetSpi ;;
  app_setState STATE_RESET ;;
  reg_or SPCR (BV SPIE) ;;
  app_setNonce 1 (u32 (reverse_nonce n - 0xC0)) ;;
  reply_state 0x53.

Definition service_timeout : M Globals unit :=
  asicStop ;;
  asicResetSpi ;;
  app_setState STATE_RESET ;;
  app_setNonce 0 0 ;;
  reply_state 0x53.

Definition appService : M Globals unit :=
  v ← asicReportValid;
  when (negb (v =? 0)) service_report ;;
  e ← app_timerExpired;
  when e service_timeout.

Definition appUsbDataReceived (fuel : nat) : M Globals unit :=
  loop fuel (fun _ : unit =>
    received_byte ← CDC_Device_ReceiveByte;
    if 0 <=? received_byte then
      modc (fun a => set_in (RingBuffer_Insert (buffer_ a) received_byte) a) ;;
      mret (inl tt)
    else mret (inr tt)) tt ;;
  serialProcess ;; mret tt.
End app.

(** ** The command interpreter refines a protocol *)

(** What a command does to the queues and the reported state: how many input
    bytes it consumes, the reply it queues and the new state.  ['W'] waits for
    its 44 bytes of work; unknown bytes are skipped. *)
Definition cmd_spec (inp : list Z) (st : State) : nat * list Z * State :=
  match inp with
  | [] => (O, [], st)
  | c :: _ =>
      if (c =? 0x52) || (c =? 0x41) then
        let st' := mkState STATE_RESET (nonce_valid st) (nonce st) in
        (1%nat, c :: state_bytes st', st')
      else if c =? 0x49 then (1%nat, c :: identity_bytes ID, st)
      else if c =? 0x53 then (1%nat, c :: state_bytes st, st)
      else if c =? 0x57 then
        if 44 <? zlen inp then
          let st' := mkState STATE_WORKING 0 0 in (45%nat, c :: state_bytes st', st')
        else (O, [], st)
      else (1%nat, [], st)
  end.

(** Only the ASIC driver's variables change. *)
Definition only_avalon : relation Globals := fun g g' => exists a, g' = set_avalon a g.
#[export] Instance only_avalon_preorder : PreOrder only_avalon.
Proof.
  split.
  - intros g. exists (g_avalon g). by destruct g.
  - intros g1 g2 g3 [a1 ->] [a2 ->]. by exists a2.
Qed.

Lemma only_avalon_inj g (f : AvalonState -> AvalonState) : only_avalon g (inj (f (proj g)) g).
Proof. by eexists. Qed.

#[export] Instance asicReset_app `{Hardware} : Runs (frame control_regs only_avalon) asicReset :=
  asicReset_runs _ _ only_avalon_inj eq_refl.
#[export] Instance asicResetSpi_app `{Hardware} : Runs (frame control_regs only_avalon) asicResetSpi :=
  asicResetSpi_runs _ _ only_avalon_inj eq_refl.
#[export] Instance asicStop_app `{Hardware} : Runs (frame control_regs only_avalon) asicStop :=
  asicStop_runs _ _ only_avalon_inj eq_refl.
#[export] Instance asicSend_app `{Hardware} ws n :
  Runs (frame sender_regs only_avalon) (asicSend ws n) := asicSend_runs _ _ eq_refl ws n.
#[export] Instance asicIdle_app `{Hardware} : Runs (frame sender_regs only_avalon) asicIdle :=
  asicIdle_runs _ _ eq_refl.

Section app_facts.
Context `{Hardware}.

#[export] Instance pushWork_total w : Total (pushWork w).
Proof. unfold pushWork. total_go. Qed.
#[export] Instance pushWork_runs w : Runs (frame sender_regs only_avalon) (pushWork w).
Proof. unfold pushWork. runs_go. Qed.

(** Queue operations as equations. *)
Lemma usbWrite_run l s :
  usbWrite l s = Some (tt, St (hist s) (set_app (set_out
    (fifo_puts (USARTtoUSB_Buffer (g_app (glob s))) l) (g_app (glob s))) (glob s))).
Proof.
  unfold usbWrite. revert s. induction l as [|b l IH]; intros [h g]; cbn [for_each].
  { destruct g as [? ? ? ? []]. done. }
  unfold mbind, M_bind, modc, modify. rewrite IH. reflexivity.
Qed.

Lemma buffer_remove_run s :
  buffer_remove s = Some (fst (RingBuffer_Remove (buffer_ (g_app (glob s)))),
    St (hist s) (set_app (set_in (snd (RingBuffer_Remove (buffer_ (g_app (glob s)))))
                    (g_app (glob s))) (glob s))).
Proof. by destruct s. Qed.

Lemma buffer_removes_run n s :
  buffer_removes n s = Some (fst (fifo_takes n (buffer_ (g_app (glob s)))),
    St (hist s) (set_app (set_in (snd (fifo_takes n (buffer_ (g_app (glob s)))))
                    (g_app (glob s))) (glob s))).
Proof.
  revert s. induction n as [|n IH]; intros [h g]; cbn [buffer_removes fifo_takes].
  { destruct g as [? ? ? ? []]. done. }
  unfold mbind, M_bind. rewrite buffer_remove_run.
  rewrite IH. cbn [glob proj inj Has_app hist g_app set_app set_in buffer_].
  cbn [fifo_take RingBuffer_Fifo].
  destruct (RingBuffer_Remove (buffer_ (g_app g))) as [x b]. cbn [fst snd].
  by destruct (fifo_takes n b) as [l b'].
Qed.

(** The two queues of a good state, with room for the longest reply. *)
Record app_ok (a : Application) : Prop := {
  ao_out : rb_ok (USARTtoUSB_Buffer a);
  ao_in : rb_ok (buffer_ a);
  ao_state : is_u8 (state (app_state a)) /\ is_u8 (nonce_valid (app_state a));
}.
Definition room (n : Z) (a : Application) : Prop :=
  zlen (rb_contents (USARTtoUSB_Buffer a)) + n <= rb_Size (USARTtoUSB_Buffer a).

(** From [s]: [n] input bytes consumed, [o] queued for output, state [st]. *)
Definition effect (a : Application) (n : nat) (o : list Z) (st : State) (a' : Application) : Prop :=
  app_ok a' /\ rb_contents (buffer_ a') = drop n (rb_contents (buffer_ a))
  /\ rb_contents (USARTtoUSB_Buffer a') = rb_contents (USARTtoUSB_Buffer a) ++ o
  /\ rb_Size (USARTtoUSB_Buffer a') = rb_Size (USARTtoUSB_Buffer a)
  /\ app_state a' = st.

Lemma state_bytes_u8 st :
  is_u8 (state st) -> is_u8 (nonce_valid st) -> map u8 (state_bytes st) = state_bytes st.
Proof.
  intros Hs Hn. unfold state_bytes. cbn [map app]. rewrite !u8_id by done.
  do 2 f_equal. rewrite <- (map_id (le_bytes 4 (nonce st))) at 2.
  apply map_ext_in. intros x Hx. apply u8_id.
  by apply (proj1 (List.Forall_forall _ _) (le_bytes_range 4 (nonce st))).
Qed.

Lemma sendCmdReply_run cmd l s :
  sendCmdReply cmd l s = Some (tt, St (hist s) (set_app (set_out
    (fifo_puts (USARTtoUSB_Buffer (g_app (glob s))) (cmd :: l)) (g_app (glob s))) (glob s))).
Proof.
  unfold sendCmdReply, mbind, M_bind. rewrite usbWrite_run, usbWrite_run. by destruct s as [h []].
Qed.

Lemma zlen_state_bytes st : zlen (state_bytes st) = 6.
Proof. done. Qed.

(** Queueing a reply after [n] bytes were consumed. *)
Lemma effect_reply a n st a1 cmd l :
  effect a n [] st a1 -> room (1 + zlen l) a -> is_u8 cmd -> map u8 l = l ->
  effect a n (cmd :: l) st
    (set_out (fifo_puts (USARTtoUSB_Buffer a1) (cmd :: l)) a1).
Proof.
  intros (Hok & Hin & Hout & Hsz & Hst) Hroom Hc Hl. unfold room in Hroom.
  rewrite app_nil_r in Hout.
  destruct (fifo_puts_spec (cmd :: l) (USARTtoUSB_Buffer a1)) as (Hok' & Hl' & Hc').
  { apply Hok. }
  { cbn [fifo_list fifo_cap RingBuffer_Fifo]. rewrite Hout, zlen_cons, Hsz. lia. }
  cbn [fifo_list fifo_cap fifo_ok RingBuffer_Fifo] in *.
  unfold effect. cbn [set_out buffer_ USARTtoUSB_Buffer app_state].
  split_and!; try done.
  - destruct Hok. by split.
  - rewrite Hl', Hout. cbn [map]. by rewrite Hl, (u8_id cmd).
  - by rewrite Hc'.
Qed.

Lemma effect_refl a : app_ok a -> effect a 0 [] (app_state a) a.
Proof. intros Hok. unfold effect. by rewrite app_nil_r. Qed.

Lemma effect_trans a n st a1 n' o' st' a2 :
  effect a n [] st a1 -> effect a1 n' o' st' a2 -> effect a (n + n') o' st' a2.
Proof.
  intros (Hok & Hin & Hout & Hsz & Hst) (Hok' & Hin' & Hout' & Hsz' & Hst').
  unfold effect. rewrite Hin', Hin, drop_drop, Hout', Hout, app_nil_r, Hsz'. by split_and!.
Qed.

Lemma effect_takes a n :
  app_ok a -> (n <= length (rb_contents (buffer_ a)))%nat ->
  effect a n [] (app_state a) (set_in (snd (fifo_takes n (buffer_ a))) a)
  /\ fst (fifo_takes n (buffer_ a)) = take n (rb_contents (buffer_ a)).
Proof.
  intros Hok Hn. pose proof Hok as [Ho Hi Hs].
  destruct (fifo_takes_spec (take n (rb_contents (buffer_ a))) (buffer_ a)
    (drop n (rb_contents (buffer_ a)))) as (Hl & Hok' & Hr & Hc); [done|by rewrite take_drop|].
  rewrite length_take, Nat.min_l in * by lia. split; [|done].
  unfold effect. cbn [set_in buffer_ USARTtoUSB_Buffer app_state]. rewrite app_nil_r.
  split_and!; try done.
Qed.

Lemma effect_take1 a :
  app_ok a -> rb_contents (buffer_ a) <> [] ->
  effect a 1 [] (app_state a) (set_in (snd (RingBuffer_Remove (buffer_ a))) a).
Proof.
  intros Hok Hne. destruct (effect_takes a 1 Hok) as [He _].
  { destruct (rb_contents (buffer_ a)); cbn; [done|lia]. }
  cbn [fifo_takes fifo_take RingBuffer_Fifo] in He.
  by destruct (RingBuffer_Remove (buffer_ a)).
Qed.

(** Updates of the parts [effect] does not constrain. *)
Lemma effect_set_state a n o st st' a1 :
  effect a n o st a1 -> is_u8 (state st') -> is_u8 (nonce_valid st') ->
  effect a n o st' (set_state st' a1).
Proof. intros ([] & Hin & Hout & Hsz & Hst) Hs Hn. unfold effect. by split_and!. Qed.
Lemma effect_set_work a n o st w a1 : effect a n o st a1 -> effect a n o st (set_work w a1).
Proof. intros ([] & Hin & Hout & Hsz & Hst). unfold effect. by split_and!. Qed.
Lemma effect_set_timer a n o st t a1 : effect a n o st a1 -> effect a n o st (set_timer t a1).
Proof. intros ([] & Hin & Hout & Hsz & Hst). unfold effect. by split_and!. Qed.
End app_facts.

(** ** Work for the ASIC *)

(** The words a work unit is sent as: the clock configuration, the data, the
    precomputed words 1 to 5, the midstate, precomputed word 0 and a zero. *)
Definition work_words (w : WorkUnit) : list Z :=
  CLOCK_CONFIG ++ data w ++ drop 1 (precalc w) ++ midstate w ++ take 1 (precalc w) ++ [0].

Record work_wf (w : WorkUnit) : Prop := {
  wf_midstate : length (midstate w) = 8%nat /\ Forall is_u32 (midstate w);
  wf_data : length (data w) = 3%nat /\ Forall is_u32 (data w);
  wf_precalc : length (precalc w) = 6%nat /\ Forall is_u32 (precalc w);
}.

(** Between two histories, exactly these words went over the wire, and then
    both lines were raised. *)
Definition pushed (tr : history) (ws : list Z) : Prop :=
  exists wire idle bits, rev (writes PORTB tr) = wire ++ [idle]
    /\ wire_bits wire = Some bits /\ bits_words (length ws) bits = ws
    /\ line_P idle = true /\ line_N idle = true.

Lemma work_words_wf w :
  work_wf w -> length (work_words w) = 20%nat /\ Forall is_u32 (work_words w).
Proof.
  intros [[Hm Hm'] [Hd Hd'] [Hp Hp']]. unfold work_words. split.
  - rewrite !length_app, length_drop, length_take, Hm, Hd, Hp. reflexivity.
  - rewrite !Forall_app. split_and!; auto using Forall_drop, Forall_take.
    all: repeat constructor; vm_compute; congruence.
Qed.

Section push.
Context `{Hardware} `{!Latch PORTB}.

Lemma asicSend_bind ws n (m : M Globals unit) bits h0 s Q :
  wire_run h0 (hist s) bits ->
  (forall s', wire_run h0 (hist s') (bits ++ concat (map (word_bits 32) (take n ws))) ->
     glob s' = glob s -> wp_ False m Q s') ->
  wp_ False (asicSend ws n ;; m) Q s.
Proof.
  intros Hr Hm. apply wp_bind. eapply wp_conseq; [apply asicSend_wire|done|].
  intros [] s' [Hr' Hg]. apply Hm; [by eapply wire_run_trans|done].
Qed.

Lemma pushWork_wire w s :
  work_wf w ->
  wp_ False (pushWork w) (fun _ s' =>
    exists tr, hist s' = tr ++ hist s /\ pushed tr (work_words w)) s.
Proof.
  intros Hwf. pose proof (work_words_wf w Hwf) as [Hlen Hu].
  pose proof Hwf as [[Hm _] [Hd _] [Hp _]]. unfold pushWork.
  pose proof (wire_run_refl (hist s)) as H0.
  apply (asicSend_bind _ _ _ _ _ _ _ H0). clear H0. intros s1 H1 _.
  apply (asicSend_bind _ _ _ _ _ _ _ H1). clear H1. intros s2 H2 _.
  apply (asicSend_bind _ _ _ _ _ _ _ H2). clear H2. intros s3 H3 _.
  apply (asicSend_bind _ _ _ _ _ _ _ H3). clear H3. intros s4 H4 _.
  apply (asicSend_bind _ _ _ _ _ _ _ H4). clear H4. intros s5 H5 _.
  apply (asicSend_bind _ _ _ _ _ _ _ H5). clear H5. intros s6 H6 _.
  rewrite app_nil_l, (take_ge CLOCK_CONFIG), (take_ge (data w)), (take_ge (drop 1 (precalc w))),
    (take_ge (midstate w)), (take_ge [0]), <- !concat_app, <- !map_app, <- !app_assoc in H6
    by (rewrite ?length_drop, ?Hm, ?Hd, ?Hp; cbn; lia).
  fold (work_words w) in H6.
  destruct H6 as (tr & Hh & Hb & _ & _).
  unfold asicIdle, reg_or. do 3 wp_step. latch_simpl.
  set (v := latch_value PORTB (hist s6)).
  eexists (Wr PORTB _ :: Rd PORTB _ :: tr). rewrite Hh. split; [reflexivity|].
  eexists _, _, _. cbn [writes]. rewrite decide_True by done. cbn [rev].
  split; [reflexivity|]. split; [exact Hb|]. split; [by apply bits_words_concat|].
  change (reg_trunc PORTB ?x) with (u8 x). unfold line_P, line_N.
  unfold DATA_N, DATA_P, PB4, PB5. autorewrite with bits. cbn [Z.ltb Z.eqb Z.compare].
  split; cbn; by rewrite ?orb_true_r.
Qed.
End push.

Lemma bytes_words_wf n bs :
  length bs = (4 * n)%nat -> Forall is_u8 bs ->
  length (bytes_words n bs) = n /\ Forall is_u32 (bytes_words n bs).
Proof.
  revert bs. induction n as [|n IH]; intros bs Hlen HB; [by split|].
  destruct (IH (drop 4 bs)) as [Hl Hu]; [rewrite length_drop; lia|by apply Forall_drop|].
  cbn [bytes_words length]. rewrite Hl. split; [done|]. constructor; [|done].
  pose proof (le_value_range (take 4 bs) ltac:(by apply Forall_take)) as Hv.
  rewrite length_take, Nat.min_l in Hv by lia. exact Hv.
Qed.

Lemma u8_working : is_u8 STATE_WORKING.
Proof. unfold is_u8, STATE_WORKING. lia. Qed.
Lemma u8_reset : is_u8 STATE_RESET.
Proof. unfold is_u8, STATE_RESET. lia. Qed.
Lemma u8_zero : is_u8 0.
Proof. unfold is_u8. lia. Qed.

(** The work unit made of the bytes of a ['W'] command. *)
Definition work_of (ms ds p : list Z) : WorkUnit :=
  mkWorkUnit (bytes_words 8 ms) (bytes_words 3 ds)
    (asicPrecalc (bytes_words 8 ms) (bytes_words 3 ds) p).

Section work.
Context `{Hardware}.

Lemma wp_removes n s :
  let a := g_app (glob s) in
  app_ok a -> (n <= length (rb_contents (buffer_ a)))%nat ->
  wp_ False (buffer_removes n) (fun l s' =>
    l = take n (rb_contents (buffer_ a)) /\ hist s' = hist s
    /\ exists a', glob s' = set_app a' (glob s) /\ effect a n [] (app_state a) a'
       /\ worktask a' = worktask a) s.
Proof.
  intros a Hok Hn. eapply wp_eq; [apply buffer_removes_run|].
  destruct (effect_takes a n Hok Hn) as [He Hl]. split; [done|]. split; [done|].
  eexists. split; [reflexivity|]. split; [exact He|done].
Qed.

(** The control part of the command: reset, and what it leaves alone. *)
Lemma wp_control (m : M Globals unit) `{!Total m} `{!Runs (frame control_regs only_avalon) m} s :
  wp_ False m (fun _ s' => (exists tr, hist s' = tr ++ hist s /\ writes PORTB tr = [])
    /\ exists a, glob s' = set_avalon a (glob s)) s.
Proof.
  eapply wp_conseq; [by apply (wp_total_runs (frame control_regs only_avalon))|done|].
  intros [] s' [(tr & Hh & Hq) HS].
  split; [|exact HS]. exists tr. split; [done|]. by apply Hq.
Qed.

Lemma wp_pushWork w s :
  work_wf w ->
  wp_ False (pushWork w) (fun _ s' =>
    (exists tr, hist s' = tr ++ hist s /\ (Latch PORTB -> pushed tr (work_words w)))
    /\ exists a, glob s' = set_avalon a (glob s)) s.
Proof.
  intros Hwf. eapply wp_conseq; [apply wp_and|done|].
  - refine (wp_total_runs (frame sender_regs only_avalon) _ _).
  - exact (wp_under (Latch PORTB) _ _ _ (fun HL => pushWork_wire w s Hwf)).
  - intros [] s' [[(tr & Hh & _) HS] HL]. split; [|exact HS]. exists tr. split; [done|].
    intros Hlatch. destruct (HL Hlatch) as (tr' & Hh' & Hp). rewrite Hh in Hh'.
    by apply app_inv_tail in Hh' as ->.
Qed.

(** The input of a work command: the command byte, 32 bytes of midstate, 12
    of data, and whatever follows. *)
Definition work_input (ms ds rest : list Z) (a : Application) : Prop :=
  rb_contents (buffer_ a) = [STATE_WORKING] ++ ms ++ ds ++ rest
  /\ length ms = 32%nat /\ length ds = 12%nat /\ length (precalc (worktask a)) = 6%nat.

Lemma work_of_wf ms ds p :
  length ms = 32%nat -> length ds = 12%nat -> Forall is_u8 ms -> Forall is_u8 ds ->
  length p = 6%nat -> work_wf (work_of ms ds p).
Proof.
  intros Hms Hds Bms Bds Hp.
  destruct (bytes_words_wf 8 ms ltac:(lia) Bms) as [Hm Um].
  destruct (bytes_words_wf 3 ds ltac:(lia) Bds) as [Hd Ud].
  split; cbn [work_of midstate data precalc]; [done|done|].
  by apply asicPrecalc_wf.
Qed.

(** Reading the command and its work. *)
Lemma read_work_effect ms ds rest a :
  app_ok a -> work_input ms ds rest a ->
  let a1 := set_in (snd (RingBuffer_Remove (buffer_ a))) a in
  effect a 1 [] (app_state a) a1 /\ rb_contents (buffer_ a1) = ms ++ ds ++ rest
  /\ worktask a1 = worktask a.
Proof.
  intros Hok (Hc & _) a1.
  assert (He : effect a 1 [] (app_state a) a1) by (apply effect_take1; [done|by rewrite Hc]).
  split; [done|]. split; [|done]. destruct He as (_ & Hin & _). by rewrite Hin, Hc.
Qed.

Lemma input_u8 a : app_ok a -> Forall is_u8 (rb_contents (buffer_ a)).
Proof. intros [_ Hi _]. by apply rb_contents_bytes. Qed.

Lemma timerSet_run n s :
  app_timerSet n s =
    Some (tt, St (atomic_hist (hist s))
      (set_app (set_timer (mkTimer 1 (time_ (g_clock (glob s))) (u32 n)) (g_app (glob s)))
         (glob s))).
Proof. done. Qed.

Lemma work_tail_spec cmd a n s :
  let a1 := g_app (glob s) in
  let st := app_state a1 in
  work_wf (worktask a1) -> effect a n [] st a1 -> room 7 a -> is_u8 cmd ->
  is_u8 (state st) -> is_u8 (nonce_valid st) ->
  wp_ False (work_tail cmd) (fun _ s' =>
    let a' := g_app (glob s') in
    effect a n (cmd :: state_bytes st) st a'
    /\ worktask a' = worktask a1
    /\ work_timer a' = mkTimer 1 (time_ (g_clock (glob s))) 16000
    /\ exists tr, hist s' = tr ++ hist s
         /\ (Latch PORTB -> pushed tr (work_words (worktask a1)))) s.
Proof.
  intros a1 st Hwf He Hroom Hcmd Hs Hn. unfold work_tail.
  wp_call (wp_control asicReset s). intros [] s1 [(t1 & H1 & Q1) [x1 G1]].
  wp_call (wp_control asicResetSpi s1). intros [] s2 [(t2 & H2 & Q2) [x2 G2]].
  rewrite G1 in G2. do 2 wp_step. rewrite G2.
  wp_call (wp_pushWork (worktask a1) s2 Hwf). intros [] s3 [(t3 & H3 & Q3) [x3 G3]].
  rewrite G2 in G3. apply wp_bind. apply (wp_eq _ _ _ _ _ _ (timerSet_run 16000 s3)).
  unfold reply_state. wp_run. cbn [glob hist]. rewrite G3.
  destruct (atomic_hist_app (hist s3)) as (t4 & H4 & Q4). eapply wp_eq; [apply sendCmdReply_run|].
  cbn [hist glob set_app set_avalon g_app g_clock proj inj Has_app Has_clock set_timer set_out
       worktask work_timer USARTtoUSB_Buffer].
  split; [|split; [done|split; [done|]]].
  - apply (effect_reply a n st (set_timer (mkTimer 1 (time_ (g_clock (glob s))) 16000) a1));
      [by apply effect_set_timer|done|done|by apply state_bytes_u8].
  - exists (t4 ++ t3 ++ t2 ++ t1). rewrite H4, H3, H2, H1, <- !app_assoc. split; [done|].
    intros HL. destruct (Q3 HL) as (wire & idle & bits & Hw & Hp).
    exists wire, idle, bits. rewrite !writes_app, Q1, Q2, Q4, !app_nil_r by done. by split.
Qed.

Lemma cmd_work_spec cmd ms ds rest s :
  let a := g_app (glob s) in
  let st' := mkState STATE_WORKING 0 0 in
  let w' := work_of ms ds (precalc (worktask a)) in
  app_ok a -> work_input ms ds rest a -> room 7 a -> is_u8 cmd ->
  wp_ False (cmd_work cmd) (fun _ s' =>
    let a' := g_app (glob s') in
    effect a 45 (cmd :: state_bytes st') st' a'
    /\ worktask a' = w'
    /\ work_timer a' = mkTimer 1 (time_ (g_clock (glob s))) 16000
    /\ exists tr, hist s' = tr ++ hist s /\ (Latch PORTB -> pushed tr (work_words w'))) s.
Proof.
  intros a st' w' Hok Hw Hroom Hcmd.
  destruct (read_work_effect ms ds rest a Hok Hw) as (He1 & Hc1 & Hw1).
  destruct Hw as (Hc & Lms & Lds & Lp).
  pose proof (input_u8 a Hok) as Hu. rewrite Hc, !Forall_app in Hu. destruct Hu as (_ & Ums & Uds & _).
  unfold cmd_work. apply wp_bind. eapply wp_eq; [apply buffer_remove_run|]. fold a.
  set (a1 := set_in _ a) in *.
  wp_call (wp_removes 32 (St (hist s) (set_app a1 (glob s))) (proj1 He1)
    ltac:(cbn [glob set_app g_app]; rewrite Hc1, length_app; lia)).
  cbn [glob set_app g_app hist]. intros l s2 (-> & Hh2 & a2 & Hg2 & He2 & Hw2).
  assert (Hc2 : rb_contents (buffer_ a2) = ds ++ rest).
  { destruct He2 as (_ & -> & _). by rewrite Hc1, drop_app_length'. }
  wp_call (wp_removes 12 s2 ltac:(rewrite Hg2; apply He2)
    ltac:(rewrite Hg2; cbn [set_app g_app]; rewrite Hc2, length_app; lia)).
  rewrite Hg2. cbn [set_app g_app]. intros l s3 (-> & Hh3 & a3 & Hg3 & He3 & Hw3).
  rewrite Hc1, take_app_length', Hc2, take_app_length' by done.
  pose proof (effect_trans _ _ _ _ _ _ _ _ He1 (effect_trans _ _ _ _ _ _ _ _ He2 He3)) as He.
  unfold app_setState, app_setNonce. do 8 wp_step.
  match goal with |- wp_ _ _ _ ?x => remember x as s4 eqn:E4 end.
  assert (Ha4 : g_app (glob s4) = set_state st' (set_work w' a3)).
  { rewrite E4, Hg3. unfold w', work_of. rewrite <- Hw1, <- Hw2, <- Hw3. reflexivity. }
  assert (Hck4 : g_clock (glob s4) = g_clock (glob s) /\ hist s4 = hist s).
  { rewrite E4, Hg3, <- Hh2, <- Hh3. done. }
  clear E4. destruct Hck4 as [Hck4 Hh4].
  assert (Hwf : work_wf w') by (by apply work_of_wf). clearbody w'.
  pose proof (work_tail_spec cmd a 45 s4) as Ht. cbv zeta in Ht.
  rewrite Ha4, Hck4, Hh4 in Ht. cbn [set_state set_work app_state worktask] in Ht.
  refine (Ht Hwf _ Hroom Hcmd u8_working u8_zero). clear Ht.
  eapply effect_set_state; [|exact u8_working|exact u8_zero]. apply effect_set_work. exact He.
Qed.

(** *** The interpreter *)

(** A reply to a one-byte command, from a state that consumed it. *)
Lemma reply_spec cmd a n st s :
  effect a n [] st (g_app (glob s)) -> room 7 a -> is_u8 cmd ->
  is_u8 (state st) -> is_u8 (nonce_valid st) ->
  wp_ False (reply_state cmd)
    (fun _ s' => effect a n (cmd :: state_bytes st) st (g_app (glob s'))) s.
Proof.
  intros He Hroom Hc Hs Hn. unfold reply_state. do 2 wp_step.
  eapply wp_eq; [apply sendCmdReply_run|]. cbn [glob set_app g_app].
  pose proof He as (_ & _ & _ & _ & Hst). change (proj (glob s)) with (g_app (glob s)). rewrite Hst.
  apply effect_reply; [done|exact Hroom|done|by apply state_bytes_u8].
Qed.

Lemma room_le n m a : n <= m -> room m a -> room n a.
Proof. unfold room. lia. Qed.

(** A control function between consuming a command and replying to it. *)
Lemma control_keeps (m : M Globals unit) `{!Total m} `{!Runs (frame control_regs only_avalon) m}
    (P : Application -> Prop) s :
  P (g_app (glob s)) -> wp_ False m (fun _ s' => P (g_app (glob s'))) s.
Proof.
  intros HP. refine (wp_conseq False _ _ _ _ _ (wp_control m s) (fun x => x) _).
  intros [] s' [_ [x ->]]. exact HP.
Qed.

Lemma command_reply cmd a n st s (m : M Globals unit) Q :
  effect a n [] st (g_app (glob s)) -> room 7 a -> is_u8 cmd ->
  is_u8 (state st) -> is_u8 (nonce_valid st) ->
  (forall s', effect a n (cmd :: state_bytes st) st (g_app (glob s')) -> wp_ False m Q s') ->
  wp_ False (reply_state cmd ;; m) Q s.
Proof.
  intros He Hroom Hc Hs Hn Hm. wp_call (reply_spec cmd a n st s He Hroom Hc Hs Hn).
  intros [] s'. apply Hm.
Qed.

Lemma set_state_effect a n st v s (m : M Globals unit) Q :
  effect a n [] st (g_app (glob s)) -> is_u8 v -> is_u8 (nonce_valid st) ->
  (forall s', effect a n [] (mkState v (nonce_valid st) (nonce st)) (g_app (glob s')) ->
     wp_ False m Q s') ->
  wp_ False (app_setState v ;; m) Q s.
Proof.
  intros He Hv Hn Hm. apply wp_bind. unfold app_setState. apply wp_modc. apply Hm.
  change (proj (glob s)) with (g_app (glob s)).
  cbn [glob inj Has_app set_app g_app]. pose proof He as (_ & _ & _ & _ & Hst). rewrite Hst.
  by eapply effect_set_state.
Qed.
End work.

Section interpreter.
Context `{Hardware}.

(** The handlers of the one-byte commands, from the state [s1] in which the
    byte has been removed. *)
Lemma handle_reset a s1 :
  effect a 1 [] (app_state a) (g_app (glob s1)) -> room 7 a -> is_u8 (nonce_valid (app_state a)) ->
  let st' := mkState STATE_RESET (nonce_valid (app_state a)) (nonce (app_state a)) in
  wp_ False (asicReset ;; asicResetSpi ;; app_setState STATE_RESET ;; reply_state 0x52)
    (fun _ s' => effect a 1 (0x52 :: state_bytes st') st' (g_app (glob s'))) s1.
Proof.
  intros He Hroom Hn st'.
  wp_call (control_keeps asicReset (effect a 1 [] (app_state a)) s1 He). intros [] s2 He2.
  wp_call (control_keeps asicResetSpi (effect a 1 [] (app_state a)) s2 He2). intros [] s3 He3.
  apply (set_state_effect a 1 (app_state a)); [done|exact u8_reset|done|]. intros s4 He4.
  apply reply_spec; [done|done|unfold is_u8; lia|exact u8_reset|done].
Qed.

Lemma handle_abort a s1 :
  effect a 1 [] (app_state a) (g_app (glob s1)) -> room 7 a -> is_u8 (nonce_valid (app_state a)) ->
  let st' := mkState STATE_RESET (nonce_valid (app_state a)) (nonce (app_state a)) in
  wp_ False (app_setState STATE_RESET ;; asicStop ;; reply_state 0x41)
    (fun _ s' => effect a 1 (0x41 :: state_bytes st') st' (g_app (glob s'))) s1.
Proof.
  intros He Hroom Hn st'.
  apply (set_state_effect a 1 (app_state a)); [done|exact u8_reset|done|]. intros s2 He2.
  wp_call (control_keeps asicStop (effect a 1 [] st') s2 He2). intros [] s3 He3.
  apply reply_spec; [done|done|unfold is_u8; lia|exact u8_reset|done].
Qed.

Lemma handle_identify a nst s1 :
  effect a 1 [] nst (g_app (glob s1)) -> room 14 a ->
  wp_ False (sendCmdReply 0x49 (identity_bytes ID))
    (fun _ s' => effect a 1 (0x49 :: identity_bytes ID) nst (g_app (glob s'))) s1.
Proof.
  intros He Hroom. eapply wp_eq; [apply sendCmdReply_run|]. cbn [glob set_app g_app].
  apply effect_reply; [done|exact Hroom|unfold is_u8; lia|reflexivity].
Qed.

Lemma handle_led a nst s1 :
  effect a 1 [] nst (g_app (glob s1)) ->
  wp_ False (LEDs_ToggleLEDs LEDS_LED1) (fun _ s' => effect a 1 [] nst (g_app (glob s'))) s1.
Proof. intros He. unfold LEDs_ToggleLEDs. wp_run. exact He. Qed.

Lemma handle_work a rest s :
  g_app (glob s) = a ->
  app_ok a -> room 14 a -> length (precalc (worktask a)) = 6%nat ->
  rb_contents (buffer_ a) = 0x57 :: rest ->
  wp_ False (when (44 <? zlen (0x57 :: rest)) (cmd_work 0x57)) (fun _ s' =>
    let '(n, o, nst) := cmd_spec (0x57 :: rest) (app_state a) in
    effect a n o nst (g_app (glob s'))) s.
Proof.
  intros Ha Hok Hroom Hp Hc. unfold cmd_spec. cbn [Z.eqb Pos.eqb orb].
  destruct (Z.ltb_spec 44 (zlen (0x57 :: rest))) as [Hlen|Hlen]; cbn [when].
  - rewrite zlen_cons in Hlen. unfold zlen in Hlen.
    assert (Hin : work_input (take 32 rest) (take 12 (drop 32 rest)) (drop 44 rest) a).
    { split_and!; [|rewrite ?length_take, ?length_drop; lia..|done].
      rewrite Hc. f_equal. rewrite <- (take_drop 32 rest) at 1. f_equal.
      rewrite <- (take_drop 12 (drop 32 rest)) at 1. by rewrite drop_drop. }
    subst a. refine (wp_conseq False _ _ _ _ _ (cmd_work_spec 0x57 _ _ _ s Hok Hin
      (room_le 7 14 _ ltac:(lia) Hroom) u8_working) (fun x => x) _).
    intros [] s' [He _]. exact He.
  - apply wp_ret. rewrite Ha. by apply effect_refl.
Qed.

(** What the interpreter sees of a queue that starts with [cmd]. *)
Lemma head_command a cmd rest :
  app_ok a -> rb_contents (buffer_ a) = cmd :: rest ->
  RingBuffer_GetCount (buffer_ a) = zlen (cmd :: rest) /\ RingBuffer_Peek (buffer_ a) = cmd.
Proof.
  intros [_ Hi _] Hc.
  assert (Hcnt : RingBuffer_GetCount (buffer_ a) = zlen (cmd :: rest)).
  { unfold RingBuffer_GetCount. by rewrite <- rb_contents_length, Hc. }
  split; [done|]. unfold RingBuffer_GetCount in Hcnt. rewrite zlen_cons in Hcnt.
  pose proof (zlen_nonneg rest). pose proof (rb_remove_contents _ Hi ltac:(lia)) as Hr.
  rewrite Hc in Hr. injection Hr as Hr _. exact (eq_sym Hr).
Qed.

Lemma serialProcess_dispatch cmd rest s :
  let a := g_app (glob s) in
  app_ok a -> room 14 a -> length (precalc (worktask a)) = 6%nat ->
  rb_contents (buffer_ a) = cmd :: rest ->
  wp_ False serialProcess (fun r s' => r = true /\
    let '(n, o, st) := cmd_spec (cmd :: rest) (app_state a) in
    effect a n o st (g_app (glob s'))) s.
Proof.
  intros a Hok Hroom Hp Hc. pose proof Hok as [Ho Hi [Hs Hn]].
  destruct (head_command a cmd rest Hok Hc) as [Hcnt Hpk].
  assert (Hcmd : is_u8 cmd).
  { pose proof (input_u8 a Hok) as Hu. rewrite Hc in Hu. by inversion Hu. }
  assert (He : effect a 1 [] (app_state a) (set_in (snd (RingBuffer_Remove (buffer_ a))) a))
    by (apply effect_take1; [done|by rewrite Hc]).
  pose proof (room_le 7 14 a ltac:(lia) Hroom) as Hroom7.
  unfold serialProcess. do 2 wp_step. change (proj (glob s)) with a. cbv zeta.
  rewrite Hcnt, Hpk.
  rewrite (proj2 (Z.eqb_neq (zlen (cmd :: rest)) 0)) by (rewrite zlen_cons; pose proof (zlen_nonneg rest); lia).
  pose (s1 := St (hist s) (set_app (set_in (snd (RingBuffer_Remove (buffer_ a))) a) (glob s))).
  assert (Hrm : forall (m : M Globals unit) Q, wp_ False m Q s1 -> wp_ False (buffer_remove ;; m) Q s)
    by (intros m Q Hm; apply wp_bind; eapply wp_eq; [apply buffer_remove_run|exact Hm]).
  assert (Hfin : forall (m : M Globals unit) n o nst,
    wp_ False m (fun _ s' => effect a n o nst (g_app (glob s'))) s ->
    wp_ False (m ;; mret true)
      (fun r s' => r = true /\ effect a n o nst (g_app (glob s'))) s).
  { intros m n o nst Hm. apply wp_bind.
    refine (wp_conseq False _ _ _ _ _ Hm (fun x => x) _). intros [] s' HE. by apply wp_ret. }
  unfold cmd_spec.
  destruct (Z.eqb_spec cmd 0x4C) as [->|N1]; [apply Hfin, Hrm; by apply handle_led|].
  destruct (Z.eqb_spec cmd 0x52) as [->|N2]; [apply Hfin, Hrm; by apply handle_reset|].
  destruct (Z.eqb_spec cmd 0x49) as [->|N3]; [apply Hfin, Hrm; by apply handle_identify|].
  destruct (Z.eqb_spec cmd 0x41) as [->|N4]; [apply Hfin, Hrm; by apply handle_abort|].
  destruct (Z.eqb_spec cmd 0x53) as [->|N5].
  { apply Hfin, Hrm. by apply reply_spec. }
  destruct (Z.eqb_spec cmd 0x57) as [->|N6].
  { pose proof (handle_work a rest s eq_refl Hok Hroom Hp Hc) as Hwk. unfold cmd_spec in Hwk.
    cbn [Z.eqb Pos.eqb orb] in *. by destruct (44 <? zlen (0x57 :: rest)); apply Hfin. }
  apply Hfin, Hrm. by apply wp_ret.
Qed.

(** The interpreter on any input. *)
Lemma serialProcess_spec s :
  let a := g_app (glob s) in
  app_ok a -> room 14 a -> length (precalc (worktask a)) = 6%nat ->
  wp_ False serialProcess (fun r s' => r = true /\
    let '(n, o, nst) := cmd_spec (rb_contents (buffer_ a)) (app_state a) in
    effect a n o nst (g_app (glob s'))) s.
Proof.
  intros a Hok Hroom Hp. destruct (rb_contents (buffer_ a)) as [|cmd rest] eqn:Hc.
  - unfold serialProcess. do 2 wp_step. change (proj (glob s)) with a. cbv zeta.
    rewrite (proj2 (rb_empty_iff _ (ao_in _ Hok))) by done. apply wp_ret. split; [done|].
    by apply effect_refl.
  - by apply serialProcess_dispatch.
Qed.

(** C1. The command interpreter refines its protocol: from any state whose
    queues are well formed and whose output queue has room for the longest
    reply, and on any hardware, [serialProcess] terminates returning true,
    consumes exactly the bytes, queues exactly the reply and enters exactly
    the state the protocol [cmd_spec] names, for every command and every
    input, incomplete work commands and unknown bytes included. *)
Theorem serialProcess_refines s :
  let a := g_app (glob s) in
  app_ok a -> room 14 a -> length (precalc (worktask a)) = 6%nat ->
  wp_ False serialProcess (fun r s' => r = true /\
    let '(n, o, nst) := cmd_spec (rb_contents (buffer_ a)) (app_state a) in
    effect a n o nst (g_app (glob s'))) s.
Proof. exact (serialProcess_spec s). Qed.
End interpreter.

(** ** Reporting a nonce *)

Lemma be_value_le bs : Forall is_u8 bs -> (length bs <= 4)%nat -> be_value bs = le_value bs.
Proof.
  induction 1 as [|b bs Hb Hbs IH]; [done|]. cbn [length be_value le_value]. intros Hl.
  rewrite IH by lia. rewrite Z.lor_comm. f_equal. apply u32_id.
  pose proof (le_value_range bs Hbs) as Hv.
  rewrite Z.shiftl_mul_pow2 by lia. unfold is_u32.
  pose proof (Z.pow_le_mono_r 2 (8 * Z.of_nat (length bs)) 24 ltac:(lia) ltac:(lia)). lia.
Qed.

(** One step of the reversal: the low byte of [n] goes below [r]. *)
Lemma reverse_step r b :
  0 <= r < 2 ^ 24 -> is_u8 b -> Z.lor (u32 (Z.shiftl r 8)) b = b + 2 ^ 8 * r.
Proof.
  intros Hr Hb. rewrite u32_id by (rewrite Z.shiftl_mul_pow2 by lia; unfold is_u32; lia).
  by rewrite Z.lor_comm, le_value_split.
Qed.

Lemma reverse_nonce_bytes x0 x1 x2 x3 :
  Forall is_u8 [x0; x1; x2; x3] ->
  reverse_nonce (le_value [x0; x1; x2; x3]) = le_value [x3; x2; x1; x0].
Proof.
  intros HB. inversion_clear HB as [|? ? H0 HB1]. inversion_clear HB1 as [|? ? H1 HB2].
  inversion_clear HB2 as [|? ? H2 HB3]. inversion_clear HB3 as [|? ? H3 _].
  assert (Hlow : forall b z, is_u8 b -> Z.land (Z.lor b (Z.shiftl z 8)) 0xFF = b
                     /\ Z.shiftr (Z.lor b (Z.shiftl z 8)) 8 = z).
  { intros b z Hb. rewrite le_value_split by done. split.
    - change 0xFF with (Z.ones 8). rewrite Z.land_ones, (Z.mul_comm (2 ^ 8)), Z.mod_add by lia.
      by apply Z.mod_small.
    - rewrite Z.shiftr_div_pow2, (Z.mul_comm (2 ^ 8)), Z.div_add by lia.
      rewrite Z.div_small by done. lia. }
  assert (Hl0 : x3 = Z.lor x3 (Z.shiftl 0 8)) by (by rewrite Z.shiftl_0_l, Z.lor_0_r).
  unfold reverse_nonce. cbn [le_value].
  rewrite !(proj1 (Hlow _ _ H0)), !(proj2 (Hlow _ _ H0)),
    !(proj1 (Hlow _ _ H1)), !(proj2 (Hlow _ _ H1)), !(proj1 (Hlow _ _ H2)), !(proj2 (Hlow _ _ H2)),
    !(proj1 (Hlow _ _ H3)), Z.lor_0_l.
  unfold is_u8 in *. rewrite (reverse_step x0), (reverse_step (x1 + 2 ^ 8 * x0)),
    (reverse_step (x2 + 2 ^ 8 * (x1 + 2 ^ 8 * x0))) by (done || lia).
  rewrite !le_value_split by done. lia.
Qed.

Section service.
Context `{Hardware}.

(** The report complete and valid: its bytes in the order of reception. *)
Definition report_of (bs : list Z) (a : AvalonState) : Prop :=
  report_ a = be_value (rev bs) /\ u8 (report_valid_ a) <> 0.

Lemma service_report_spec bs s :
  let a := g_app (glob s) in
  let n := u32 (le_value bs - 0xC0) in
  let st' := mkState STATE_RESET 1 n in
  app_ok a -> room 7 a -> length bs = 4%nat -> Forall is_u8 bs ->
  report_of bs (g_avalon (glob s)) ->
  wp_ False service_report (fun _ s' =>
    effect a 0 (0x53 :: state_bytes st') st' (g_app (glob s'))
    /\ active (work_timer (g_app (glob s'))) = 0
    /\ report_valid_ (g_avalon (glob s')) = 0
    /\ Z.testbit (latch_value SPCR (hist s')) SPIE = true) s.
Proof.
  intros a n st' Hok Hroom Hlen HB [Hrep Hval].
  assert (Hrev : reverse_nonce (report_ (g_avalon (glob s))) = le_value bs).
  { destruct bs as [|b0 [|b1 [|b2 [|b3 [|]]]]]; try done. rewrite Hrep.
    rewrite be_value_le; [|by apply Forall_rev|done]. cbn [rev app].
    rewrite reverse_nonce_bytes; [done|]. by apply (Forall_rev HB). }
  unfold service_report, asicGetNonce, app_timerStop, timerStop, asicStop, asicResetSpi,
    asicDisableSpi, asicEnableSpi, clear_report, app_setState, app_setNonce, reply_state.
  wp_run. eapply wp_eq; [apply sendCmdReply_run|].
  cbn [hist glob proj inj Has_app Has_avalon set_app set_avalon g_app g_avalon set_state set_timer
       set_out app_state work_timer state nonce_valid nonce active report_ report_valid_
       USARTtoUSB_Buffer].
  rewrite Hrev. fold n st'. change (g_app (glob s)) with a.
  split; [|split; [done|split; [done|]]].
  - apply (effect_reply a 0 st' (set_state st' (set_timer _ a))); try done; [|by apply state_bytes_u8].
    eapply effect_set_state; [apply effect_set_timer; by apply effect_refl|exact u8_reset|unfold is_u8; cbn; lia].
  - rewrite latch_wr, reg_trunc_trunc. change (reg_trunc SPCR ?x) with (u8 x).
    by rewrite u8_testbit, setbits_testbit, BV_testbit, orb_true_r.
Qed.

(** Testing the work timer. *)
Lemma expired_run s :
  let t := work_timer (g_app (glob s)) in
  let r := timer_check (time_ (g_clock (glob s))) t in
  app_timerExpired s =
    Some (fst r, St (atomic_hist (hist s)) (set_app (set_timer (snd r) (g_app (glob s))) (glob s))).
Proof. by destruct s. Qed.

(** [appService] with a report held. *)
Lemma appService_report_spec bs s :
  let a := g_app (glob s) in
  let st' := mkState STATE_RESET 1 (u32 (le_value bs - 0xC0)) in
  app_ok a -> room 7 a -> length bs = 4%nat -> Forall is_u8 bs ->
  report_of bs (g_avalon (glob s)) ->
  wp_ False appService (fun _ s' =>
    effect a 0 (0x53 :: state_bytes st') st' (g_app (glob s'))
    /\ active (work_timer (g_app (glob s'))) = 0
    /\ report_valid_ (g_avalon (glob s')) = 0
    /\ Z.testbit (latch_value SPCR (hist s')) SPIE = true) s.
Proof.
  intros a st' Hok Hroom Hlen HB Hrep. pose proof Hrep as [_ Hv].
  unfold appService, asicReportValid. do 4 wp_step.
  change (report_valid_ (proj (glob s))) with (report_valid_ (g_avalon (glob s))).
  rewrite (proj2 (Z.eqb_neq _ _) Hv). cbn [negb when].
  wp_call (service_report_spec bs s Hok Hroom Hlen HB Hrep).
  intros [] s1 (He & Ht & Hr & Hsp). apply wp_bind. eapply wp_eq; [apply expired_run|].
  rewrite timer_check_inactive by done. apply wp_ret.
  cbn [glob set_app g_app set_timer work_timer g_avalon hist snd].
  split; [by apply effect_set_timer|done].
Qed.

(** C2. A nonce found by the ASIC is reported faithfully: when the interrupt
    has stored a report, received as the bytes [b0 b1 b2 b3], [appService]
    terminates, queues ['S'] with the state ['R'], nonce_valid 1 and the nonce
    [b0 + 256 b1 + 65536 b2 + 2^24 b3 - 0xC0] modulo [2^32], consumes no
    input, stops the work timer, clears the report and re-enables the SPI
    interrupt. *)
Theorem service_reports_nonce bs s :
  let a := g_app (glob s) in
  let st' := mkState STATE_RESET 1 (u32 (le_value bs - 0xC0)) in
  app_ok a -> room 7 a -> length bs = 4%nat -> Forall is_u8 bs ->
  report_of bs (g_avalon (glob s)) ->
  wp_ False appService (fun _ s' =>
    effect a 0 (0x53 :: state_bytes st') st' (g_app (glob s'))
    /\ active (work_timer (g_app (glob s'))) = 0
    /\ report_valid_ (g_avalon (glob s')) = 0
    /\ Z.testbit (latch_value SPCR (hist s')) SPIE = true) s.
Proof. exact (appService_report_spec bs s). Qed.

(** Without a report, [appService] only watches the work timer: when it
    has expired the device resets, reports ['S'] with nonce_valid 0 exactly
    once and the timer is off; otherwise nothing at all is consumed, queued
    or changed in the reported state, and the only accesses to registers are
    the interrupt flag's around the reading of the clock. *)
Theorem service_without_report s :
  let a := g_app (glob s) in
  let st' := mkState STATE_RESET 0 0 in
  app_ok a -> room 7 a -> u8 (report_valid_ (g_avalon (glob s))) = 0 ->
  wp_ False appService (fun _ s' =>
    if fst (timer_check (time_ (g_clock (glob s))) (work_timer a))
    then effect a 0 (0x53 :: state_bytes st') st' (g_app (glob s'))
         /\ active (work_timer (g_app (glob s'))) = 0
    else effect a 0 [] (app_state a) (g_app (glob s'))
         /\ work_timer (g_app (glob s')) = work_timer a
         /\ hist s' = atomic_hist (hist s)) s.
Proof.
  intros a st' Hok Hroom Hv. unfold appService, asicReportValid. do 4 wp_step.
  change (report_valid_ (proj (glob s))) with (report_valid_ (g_avalon (glob s))).
  rewrite Hv. cbn [Z.eqb negb when]. apply wp_bind, wp_ret, wp_bind.
  eapply wp_eq; [apply expired_run|]. fold a. set (r := timer_check _ _) in *.
  pose proof (timer_check_stop (time_ (g_clock (glob s))) (work_timer a)) as Hstop. fold r in Hstop.
  pose proof (timer_one_shot_idle (time_ (g_clock (glob s))) (work_timer a)) as Hidle. fold r in Hidle.
  destruct (fst r); cbn [when].
  - set (s1 := St _ _). unfold service_timeout, app_setState, app_setNonce.
    assert (He1 : effect a 0 [] (app_state a) (g_app (glob s1))
                  /\ active (work_timer (g_app (glob s1))) = 0)
      by (split; [by apply effect_set_timer, effect_refl|by apply Hstop]).
    wp_call (control_keeps asicStop (fun b => effect a 0 [] (app_state a) b /\ active (work_timer b) = 0)
               s1 He1). intros [] s2 He2.
    wp_call (control_keeps asicResetSpi (fun b => effect a 0 [] (app_state a) b /\ active (work_timer b) = 0)
               s2 He2). intros [] s3 [He3 Ht3]. do 4 wp_step.
    unfold reply_state. do 2 wp_step. eapply wp_eq; [apply sendCmdReply_run|].
    split; [|exact Ht3]. apply (effect_reply a 0 st' (set_state st' (g_app (glob s3))));
      [|exact Hroom|unfold is_u8; lia|by apply state_bytes_u8; [exact u8_reset|exact u8_zero]].
    eapply effect_set_state; [exact He3|exact u8_reset|exact u8_zero].
  - apply wp_ret. rewrite Hidle by done. cbn [glob set_app g_app set_timer work_timer hist].
    split; [by apply effect_set_timer, effect_refl|done].
Qed.
End service.

Section work_command.
Context `{Hardware}.

(** A complete ['W'] command. *)
Lemma serialProcess_work_spec ms ds rest (s : st Globals) :
  let a := g_app (glob s) in
  let st' := mkState STATE_WORKING 0 0 in
  let w' := work_of ms ds (precalc (worktask a)) in
  app_ok a -> room 7 a -> work_input ms ds rest a ->
  wp_ False serialProcess (fun _ s' =>
    let a' := g_app (glob s') in
    effect a 45 (STATE_WORKING :: state_bytes st') st' a'
    /\ worktask a' = w'
    /\ work_timer a' = mkTimer 1 (time_ (g_clock (glob s))) 16000
    /\ exists tr, hist s' = tr ++ hist s /\ (Latch PORTB -> pushed tr (work_words w'))) s.
Proof.
  intros a st' w' Hok Hroom Hw. pose proof Hok as [_ Hi _]. pose proof Hw as (Hc & Lms & Lds & _).
  pose proof (cmd_work_spec STATE_WORKING ms ds rest s Hok Hw Hroom u8_working) as Hwork.
  cbv zeta in Hwork. fold a st' in Hwork. fold w' in Hwork. clearbody w'.
  assert (Hcnt : RingBuffer_GetCount (buffer_ a) = 45 + zlen rest).
  { unfold RingBuffer_GetCount. rewrite <- rb_contents_length, Hc by done. unfold zlen.
    rewrite !length_app, Lms, Lds. cbn [length]. lia. }
  pose proof (zlen_nonneg rest).
  assert (Hpk : RingBuffer_Peek (buffer_ a) = 0x57).
  { pose proof (rb_remove_contents _ Hi) as Hr. rewrite Hc in Hr.
    unfold RingBuffer_GetCount in Hcnt. specialize (Hr ltac:(lia)).
    injection Hr as Hr _. exact (eq_sym Hr). }
  unfold serialProcess. do 2 wp_step. change (proj (glob s)) with a. cbv zeta. rewrite Hcnt, Hpk.
  rewrite (proj2 (Z.eqb_neq _ 0)), (proj2 (Z.ltb_lt 44 _)) by lia.
  cbn [Z.eqb Pos.eqb when]. apply wp_bind.
  refine (wp_conseq False _ _ _ _ _ Hwork (fun x => x) _). intros [] s' (He & Hwk & Ht & tr & Hh & Hp).
  apply wp_ret. split; [exact He|]. split; [exact Hwk|]. split; [exact Ht|]. exists tr. split; [exact Hh|exact Hp].
Qed.

(** C3. A complete ['W'] command reaches the ASIC intact: [serialProcess]
    consumes its 45 bytes, stores the midstate and data read as little-endian
    words with the precomputed SHA-256 words, puts on the two-wire bus
    exactly the 20 words the ASIC expects (clock configuration, data,
    precomputed 1..5, midstate, precomputed 0, start nonce 0) followed by the
    idle level, starts the 16 s timer, and replies ['W'] with state ['W'] and
    no nonce. *)
Theorem work_command_sent `{!Latch PORTB} ms ds rest (s : st Globals) :
  let a := g_app (glob s) in
  let st' := mkState STATE_WORKING 0 0 in
  let w' := work_of ms ds (precalc (worktask a)) in
  app_ok a -> room 7 a -> work_input ms ds rest a ->
  wp_ False serialProcess (fun _ s' =>
    let a' := g_app (glob s') in
    effect a 45 (STATE_WORKING :: state_bytes st') st' a'
    /\ worktask a' = w'
    /\ work_timer a' = mkTimer 1 (time_ (g_clock (glob s))) 16000
    /\ exists tr, hist s' = tr ++ hist s /\ pushed tr (work_words w')) s.
Proof.
  intros a st' w' Hok Hroom Hw.
  refine (wp_conseq False _ _ _ _ _ (serialProcess_work_spec ms ds rest s Hok Hroom Hw) (fun x => x) _).
  intros _ s' (He & Hk & Ht & tr & Hh & Hp). split; [exact He|]. split; [exact Hk|].
  split; [exact Ht|]. exists tr. split; [exact Hh|apply Hp; exact _].
Qed.
End work_command.

(** ** Witnesses: a firmware whose input queue holds [inp] *)

Definition witness_app (inp : list Z) : Application :=
  mkApp (RingBuffer_InitBuffer 0x100 (repeat 0 256) 256)
    (fifo_puts (RingBuffer_InitBuffer 0x200 (repeat 0 128) 128) inp)
    (mkWorkUnit [] [] (repeat 0 6)) (mkState STATE_RESET 0 0) (mkTimer 0 0 0).

Definition witness_globals (av : AvalonState) (inp : list Z) : Globals :=
  mkGlobals av (mkClock 1000) witness_usb witness_cdc (witness_app inp).

Lemma zeros_u8 n : Forall is_u8 (repeat 0 n).
Proof. induction n; cbn; constructor; [exact u8_zero|done]. Qed.

Lemma witness_app_ok inp :
  zlen inp <= 128 -> Forall is_u8 inp ->
  app_ok (witness_app inp) /\ room 14 (witness_app inp)
  /\ rb_contents (buffer_ (witness_app inp)) = inp.
Proof.
  intros Hlen HB.
  destruct (rb_init_ok 0x100 (repeat 0 256) 256) as [Ho Hco]; [lia|reflexivity|apply zeros_u8|].
  destruct (rb_init_ok 0x200 (repeat 0 128) 128) as [Hi Hci]; [lia|reflexivity|apply zeros_u8|].
  destruct (fifo_puts_spec inp (RingBuffer_InitBuffer 0x200 (repeat 0 128) 128)) as (Hi' & Hl & _).
  { exact Hi. }
  { cbn [fifo_list fifo_cap RingBuffer_Fifo]. rewrite Hci. exact Hlen. }
  cbn [fifo_list fifo_ok RingBuffer_Fifo] in *. rewrite Hci in Hl. split_and!.
  - split; [exact Ho|exact Hi'|split; [exact u8_reset|exact u8_zero]].
  - unfold room. cbn [witness_app USARTtoUSB_Buffer]. rewrite Hco. done.
  - cbn [witness_app buffer_]. rewrite Hl. rewrite <- (map_id inp) at 2.
    apply map_ext_in. intros x Hx. apply u8_id. by apply (proj1 (List.Forall_forall _ _) HB).
Qed.

Lemma serialProcess_refines_witness :
  let s := St [] (witness_globals (mkAvalon 0 0 0 0) [0x49; 0x52]) in
  wp_ False (@serialProcess plain_hardware) (fun r s' => r = true
    /\ effect (witness_app [0x49; 0x52]) 1 (0x49 :: identity_bytes ID) (mkState STATE_RESET 0 0)
         (g_app (glob s'))) s.
Proof.
  destruct (witness_app_ok [0x49; 0x52]) as (Hok & Hroom & Hc);
    [vm_compute; discriminate|repeat constructor; vm_compute; congruence|].
  intros s.
  pose proof (@serialProcess_refines plain_hardware s Hok Hroom eq_refl) as Hr.
  change (g_app (glob s)) with (witness_app [0x49; 0x52]) in Hr. rewrite Hc in Hr. exact Hr.
Defined.

Lemma service_reports_nonce_witness :
  let s := St [] (witness_globals (mkAvalon 0x01020304 1 4 0) []) in
  wp_ False (@appService plain_hardware) (fun _ s' =>
    effect (witness_app []) 0 (0x53 :: state_bytes (mkState STATE_RESET 1 (0x04030201 - 0xC0)))
      (mkState STATE_RESET 1 (0x04030201 - 0xC0)) (g_app (glob s'))) s.
Proof.
  destruct (witness_app_ok []) as (Hok & Hroom & _); [vm_compute; discriminate|constructor|].
  intros s.
  refine (wp_conseq False _ _ _ _ _
    (@service_reports_nonce plain_hardware [1; 2; 3; 4] s Hok (room_le 7 14 _ ltac:(lia) Hroom)
       eq_refl _ _) (fun x => x) _).
  - repeat constructor; vm_compute; congruence.
  - split; [reflexivity|vm_compute; discriminate].
  - intros [] s' [He _]. exact He.
Defined.

Lemma service_without_report_witness :
  let s := St [] (witness_globals (mkAvalon 0 0 0 0) []) in
  wp_ False (@appService plain_hardware) (fun _ s' =>
    effect (witness_app []) 0 [] (mkState STATE_RESET 0 0) (g_app (glob s'))
    /\ work_timer (g_app (glob s')) = mkTimer 0 0 0
    /\ hist s' = @atomic_hist plain_hardware []) s.
Proof.
  destruct (witness_app_ok []) as (Hok & Hroom & _); [vm_compute; discriminate|constructor|].
  intros s.
  exact (@service_without_report plain_hardware s Hok (room_le 7 14 _ ltac:(lia) Hroom) eq_refl).
Defined.

Lemma work_command_sent_witness :
  let inp := STATE_WORKING :: seqZ 1 44 in
  let s := St [] (witness_globals (mkAvalon 0 0 0 0) inp) in
  let w := work_of (seqZ 1 32) (seqZ 33 12) (repeat 0 6) in
  wp_ False (@serialProcess plain_hardware) (fun _ s' =>
    worktask (g_app (glob s')) = w
    /\ exists tr, hist s' = tr ++ [] /\ pushed tr (work_words w)) s.
Proof.
  intros inp s w.
  destruct (witness_app_ok inp) as (Hok & Hroom & Hc);
    [vm_compute; discriminate|repeat constructor; vm_compute; congruence|].
  refine (wp_conseq False _ _ _ _ _
    (@work_command_sent plain_hardware (plain_latch PORTB) (seqZ 1 32) (seqZ 33 12) [] s Hok
       (room_le 7 14 _ ltac:(lia) Hroom) _) (fun x => x) _).
  - split_and!; [|reflexivity..]. transitivity inp; [exact Hc|vm_compute; reflexivity].
  - intros r s' (_ & Hw & _ & Hp). exact (conj Hw Hp).
Defined.
