(* ===== verification/Protocol.v ===== *)
(** * The driver and the firmware together

    What bfgminer-driver/driver-miniminer1.c sends is what
    AvalonBTC/application.c understands, and back: the bytes one side queues
    are the bytes the other side decodes.  The serial line is the list of
    replies its reads deliver. *)

From S2P Require Import Prelude Machine RingBuffer Timer Avalon Precalc Endpoint EndpointStream Cdc Leds App Driver.

(** ** Replies as the driver reads them *)

(** The bytes the firmware has queued for the host, and those it has
    received. *)
Definition sent (a : Application) : list Z := rb_contents (USARTtoUSB_Buffer a).
Definition received (a : Application) : list Z := rb_contents (buffer_ a).

(** A whole reply delivered by one read. *)
Definition delivered (r : list Z) : answer := (zlen r, r).

Lemma report_verdict c st :
  is_u32 (nonce st) ->
  verdict_of (delivered (c :: state_bytes st)) =
    if nonce_valid st =? 1 then Nonce (nonce st)
    else if state st =? STATE_RESET then GaveUp else NoReport.
Proof.
  intros Hn. unfold verdict_of, delivered, parse_state. cbn [fst snd].
  change (slice 3 4 (c :: state_bytes st)) with (le_bytes 4 (nonce st)).
  rewrite le_value_bytes. change (_ mod _) with (u32 (nonce st)). rewrite u32_id by done.
  reflexivity.
Qed.

(** ** Work as the firmware reads it *)

Record job_ok (w : work) : Prop := {
  job_midstate : length (work_midstate w) = 32%nat;
  job_data : (76 <= length (work_data w))%nat;
}.

(** The work unit the miner makes of the driver's command. *)
Definition unit_of (w : work) (p : list Z) : WorkUnit :=
  work_of (work_midstate w) (slice 64 12 (work_data w)) p.

Lemma hash_command_input w a rest :
  job_ok w -> length (precalc (worktask a)) = 6%nat ->
  received a = hash_command w ++ rest ->
  work_input (work_midstate w) (slice 64 12 (work_data w)) rest a.
Proof.
  intros [Hm Hd] Hp Hr. unfold received in Hr.
  assert (Hs : slice 0 32 (work_midstate w) = work_midstate w)
    by (unfold slice; cbn [drop]; apply take_ge; lia).
  split; [|split; [done|split; [|done]]].
  - rewrite Hr. unfold hash_command. rewrite Hs. cbn [app]. by rewrite <- app_assoc.
  - unfold slice. rewrite length_take, length_drop. lia.
Qed.

(** ** A serial line that delivers [replies], one per read *)

Fixpoint nreads (h : list event) : nat :=
  match h with
  | [] => O
  | (SerialRead _ _, _) :: h' => S (nreads h')
  | _ :: h' => nreads h'
  end.

Section line.
Context `{Host}.

(** No restart is requested, and the reads after [h0] deliver [replies] and
    then nothing. *)
Record patient (replies : list (list Z)) (h0 : list event) : Prop := {
  patient_restart : forall h, fst (host_answer h WorkRestart) = 0;
  patient_wait : forall h ms, fst (host_answer h (RestartWait ms)) <> 0;
  patient_read : forall h fd,
    host_answer h (SerialRead fd 7) = delivered (nth (nreads h - nreads h0) replies []);
}.

Context (replies : list (list Z)) (h0 : list event) (HP : patient replies h0).

(** One round of the driver's loop on such a line. *)
Lemma patient_step fuel fd w s :
  match verdict_of (delivered (nth (nreads (trace s) - nreads h0) replies [])) with
  | NoReport => exists e, nreads (trace (after s e)) = S (nreads (trace s))
      /\ submissions (trace (after s e)) = submissions (trace s)
      /\ scan_loop (S fuel) fd w s = scan_loop fuel fd w (after s e)
  | Nonce n => exists e, submissions (trace (after s e)) = (w, n) :: submissions (trace s)
      /\ scan_loop (S fuel) fd w s = Some (Ret n, after s e)
  | GaveUp => exists e, submissions (trace (after s e)) = submissions (trace s)
      /\ scan_loop (S fuel) fd w s = Some (Ret 0xFFFFFFFF, after s e)
  end.
Proof.
  destruct HP as [HR HW HD].
  destruct (scan_step fuel fd w s) as [(e & n & Hl & Ha & Hr)|(e & Hi & Ha & Hr)].
  - destruct Hl as [a Ea|a b Ea Eb|a b r n c Ea Eb Ev|a b r Ea Eb Ev|a b r c Ea Eb Ev Ec].
    all: cbn [answered] in Ha.
    + destruct Ha as [-> _]. by rewrite HR in Ea.
    + destruct Ha as (_ & -> & _). by apply HW in Eb.
    + destruct Ha as (_ & _ & -> & _). rewrite HD in Ev, Hr. cbn [nreads] in Ev. rewrite Ev.
      eexists. split; [|exact Hr]. reflexivity.
    + destruct Ha as (_ & _ & -> & _). rewrite HD in Ev, Hr. cbn [nreads] in Ev. rewrite Ev.
      eexists. split; [|exact Hr]. reflexivity.
    + destruct Ha as (_ & _ & _ & -> & _). by rewrite HR in Ec.
  - destruct Hi as [a b r c Ea Eb Ev Ec]. cbn [answered] in Ha.
    destruct Ha as (_ & _ & -> & _). rewrite HD in Ev, Hr. cbn [nreads] in Ev. rewrite Ev.
    eexists. split; [|split; [|exact Hr]]; reflexivity.
Qed.
End line.

(** [mmo_scanhash] up to its loop. *)
Lemma scanhash_loop `{Host} fuel board c w s n s' :
  boards s !! board = Some c ->
  let e := (SerialWrite (device_fd c) (hash_command w),
            host_answer (trace s) (SerialWrite (device_fd c) (hash_command w))) in
  scan_loop fuel (device_fd c) w (after s [e]) = Some (Ret n, s') ->
  mmo_scanhash fuel board w s = Some (Ret (n, mkWork (work_midstate w) (work_data w) 0xFFFFFFFF), s').
Proof.
  intros Hb e Hl. unfold mmo_scanhash, deref, call_, ask, mbind, D_bind, mret, D_ret. rewrite Hb.
  lazymatch goal with |- context [scan_loop ?f ?d ?v ?x] =>
    replace (scan_loop f d v x) with (Some (Ret n, s')) by exact (eq_sym Hl) end.
  done.
Qed.

Section roundtrips.
Context `{Hardware}.

(** Identification: when the miner has received the driver's ['I'], the
    reply it queues is the 14 bytes the driver waits for, the driver decodes
    it to the miner's identity, and prints "MiniOne 20130712". *)
Theorem identify_roundtrip s :
  let a := g_app (glob s) in
  app_ok a -> room 14 a -> length (precalc (worktask a)) = 6%nat ->
  received a = [0x49] -> sent a = [] ->
  wp_ False serialProcess (fun _ s' =>
    let r := sent (g_app (glob s')) in
    zlen r = sizeof_MMOIdentity + 1
    /\ parse_identity r = mkMMOIdentity (version ID) (product ID) (serial ID)
    /\ forall baud, option_map cstring (statline_before (Some (mkMMOInfo baud (parse_identity r))))
         = Some [0x4D; 0x69; 0x6E; 0x69; 0x4F; 0x6E; 0x65; 0x20; 0x32; 0x30; 0x31; 0x33; 0x30; 0x37; 0x31; 0x32]) s.
Proof.
  intros a Hok Hroom Hp Hin Hout.
  refine (wp_conseq False _ _ _ _ _ (serialProcess_spec s Hok Hroom Hp) (fun x => x) _).
  fold a. change (rb_contents (buffer_ a)) with (received a). rewrite Hin.
  intros _ s' [_ (_ & _ & Hq & _)]. change (rb_contents (USARTtoUSB_Buffer a)) with (sent a) in Hq.
  rewrite Hout in Hq. unfold sent. rewrite Hq. by split_and!.
Qed.

(** C17. A mining session: the driver's work command, once received, is
    consumed by the miner, which stores exactly the driver's midstate and
    header bytes 64 to 75 as the words it precomputes and sends to the ASIC,
    and replies; when later the ASIC delivers the report bytes [bs], the
    miner queues a report; and a driver to whom the line delivers these two
    replies submits exactly the nonce [le_value bs - 0xC0] modulo [2^32] for
    that work, once, and returns it. *)
Theorem mining_session `{!Latch PORTB} w s :
  let a := g_app (glob s) in
  app_ok a -> room 14 a -> length (precalc (worktask a)) = 6%nat -> job_ok w ->
  received a = hash_command w -> sent a = [] ->
  wp_ False serialProcess (fun _ s1 =>
    let r1 := sent (g_app (glob s1)) in
    received (g_app (glob s1)) = []
    /\ worktask (g_app (glob s1)) = unit_of w (precalc (worktask a))
    /\ (exists tr, hist s1 = tr ++ hist s /\ pushed tr (work_words (worktask (g_app (glob s1)))))
    /\ forall s2 bs, app_ok (g_app (glob s2)) -> room 7 (g_app (glob s2)) -> sent (g_app (glob s2)) = [] ->
         length bs = 4%nat -> Forall is_u8 bs -> report_of bs (g_avalon (glob s2)) ->
         wp_ False appService (fun _ s3 =>
           let r2 := sent (g_app (glob s3)) in
           let n := u32 (le_value bs - 0xC0) in
           forall (HH : Host) fuel board c hs, patient [r1; r2] (trace hs) ->
             boards hs !! board = Some c -> (2 <= fuel)%nat ->
             exists hs', mmo_scanhash fuel board w hs =
                 Some (Ret (n, mkWork (work_midstate w) (work_data w) 0xFFFFFFFF), hs')
               /\ submissions (trace hs') = (w, n) :: submissions (trace hs)) s2) s.
Proof.
  intros a Hok Hroom Hp Hj Hin Hout.
  assert (Hw : work_input (work_midstate w) (slice 64 12 (work_data w)) [] a)
    by (apply hash_command_input; [done|done|by rewrite app_nil_r]).
  refine (wp_conseq False _ _ _ _ _
    (serialProcess_work_spec _ _ [] s Hok (room_le 7 14 _ ltac:(lia) Hroom) Hw) (fun x => x) _).
  intros _ s1 ((_ & Hi1 & Ho1 & _) & Hwk & _ & tr & Hh & Hpush). fold a in Hi1, Ho1, Hwk.
  change (rb_contents (buffer_ a)) with (received a) in Hi1.
  change (rb_contents (USARTtoUSB_Buffer a)) with (sent a) in Ho1. rewrite Hout in Ho1.
  specialize (Hpush _).
  split; [|split; [exact Hwk|split; [exists tr; by rewrite Hwk|]]].
  { unfold received at 1. rewrite Hi1, Hin. destruct Hw as (Hc & L1 & L2 & _).
    unfold received in Hin. rewrite Hin in Hc. rewrite Hc, drop_ge; [done|].
    rewrite !length_app, L1, L2. cbn. lia. }
  intros s2 bs Hok2 Hroom2 Hout2 Hlen HB Hrep.
  refine (wp_conseq False _ _ _ _ _ (appService_report_spec bs s2 Hok2 Hroom2 Hlen HB Hrep) (fun x => x) _).
  intros _ s3 ((_ & _ & Ho3 & _) & _).
  change (rb_contents (USARTtoUSB_Buffer (g_app (glob s2)))) with (sent (g_app (glob s2))) in Ho3.
  rewrite Hout2 in Ho3. cbv zeta. intros HH fuel board c hs HP Hb Hf. unfold sent in HP.
  rewrite Ho1, Ho3 in HP. cbn [app] in HP. clear Ho1 Ho3.
  destruct fuel as [|[|fuel]]; [lia|lia|].
  set (n := u32 (le_value bs - 0xC0)) in *.
  set (e0 := (SerialWrite (device_fd c) (hash_command w),
              host_answer (trace hs) (SerialWrite (device_fd c) (hash_command w)))).
  pose proof (patient_step _ _ HP (S fuel) (device_fd c) w (after hs [e0])) as H1.
  change (nreads (trace (after hs [e0]))) with (nreads (trace hs)) in H1.
  rewrite Nat.sub_diag in H1. cbn [nth] in H1.
  rewrite report_verdict in H1 by (unfold is_u32; cbn; lia). cbn [nonce_valid state Z.eqb] in H1.
  change (STATE_WORKING =? STATE_RESET) with false in H1. cbv match in H1.
  destruct H1 as (e1 & Hn1 & Hs1 & Hl1).
  pose proof (patient_step _ _ HP fuel (device_fd c) w (after (after hs [e0]) e1)) as H2.
  rewrite Hn1 in H2. change (nreads (trace (after hs [e0]))) with (nreads (trace hs)) in H2.
  replace (S (nreads (trace hs)) - nreads (trace hs))%nat with 1%nat in H2 by lia. cbn [nth] in H2.
  rewrite report_verdict in H2 by (apply u32_range). cbn [nonce_valid nonce] in H2.
  destruct H2 as (e2 & Hs2 & Hl2). eexists. split.
  - apply (scanhash_loop _ _ _ _ _ _ _ Hb). fold e0. rewrite Hl1. exact Hl2.
  - rewrite Hs2, Hs1. reflexivity.
Qed.

(** C20. Reports do not say which work they are for: when the report for an
    earlier work, with nonce [m], still waits in the miner's output queue
    while the command for the work [w] is processed, the driver, which reads
    that report first, submits [m] as the nonce of [w] and stops searching. *)
Theorem stale_report_submitted w m s :
  let a := g_app (glob s) in
  app_ok a -> room 14 a -> length (precalc (worktask a)) = 6%nat -> job_ok w -> is_u32 m ->
  received a = hash_command w -> sent a = 0x53 :: state_bytes (mkState STATE_RESET 1 m) ->
  wp_ False serialProcess (fun _ s1 =>
    let r := sent (g_app (glob s1)) in
    worktask (g_app (glob s1)) = unit_of w (precalc (worktask a))
    /\ forall (HH : Host) fuel board c hs, patient [take 7 r; drop 7 r] (trace hs) ->
         boards hs !! board = Some c -> (1 <= fuel)%nat ->
         exists hs', mmo_scanhash fuel board w hs =
             Some (Ret (m, mkWork (work_midstate w) (work_data w) 0xFFFFFFFF), hs')
           /\ submissions (trace hs') = (w, m) :: submissions (trace hs)) s.
Proof.
  intros a Hok Hroom Hp Hj Hm Hin Hout.
  assert (Hw : work_input (work_midstate w) (slice 64 12 (work_data w)) [] a)
    by (apply hash_command_input; [done|done|by rewrite app_nil_r]).
  refine (wp_conseq False _ _ _ _ _
    (serialProcess_work_spec _ _ [] s Hok (room_le 7 14 _ ltac:(lia) Hroom) Hw) (fun x => x) _).
  intros _ s1 ((_ & _ & Ho1 & _) & Hwk & _). fold a in Ho1, Hwk.
  change (rb_contents (USARTtoUSB_Buffer a)) with (sent a) in Ho1. rewrite Hout in Ho1.
  split; [exact Hwk|]. intros HH fuel board c hs HP Hb Hf. unfold sent in HP. rewrite Ho1 in HP.
  change (take 7 _) with (0x53 :: state_bytes (mkState STATE_RESET 1 m)) in HP.
  destruct fuel as [|fuel]; [lia|].
  set (e0 := (SerialWrite (device_fd c) (hash_command w),
              host_answer (trace hs) (SerialWrite (device_fd c) (hash_command w)))).
  pose proof (patient_step _ _ HP fuel (device_fd c) w (after hs [e0])) as H1.
  change (nreads (trace (after hs [e0]))) with (nreads (trace hs)) in H1.
  rewrite Nat.sub_diag in H1. cbn [nth] in H1. rewrite report_verdict in H1 by exact Hm.
  cbn [nonce_valid nonce] in H1. destruct H1 as (e1 & Hs1 & Hl1). eexists. split.
  - apply (scanhash_loop _ _ _ _ _ _ _ Hb). fold e0. exact Hl1.
  - exact Hs1.
Qed.
End roundtrips.

(** ** Witnesses *)

Definition line_host (replies : list (list Z)) : Host := fun h c =>
  match c with
  | RestartWait _ => (1, [])
  | SerialRead _ 7 => delivered (nth (nreads h) replies [])
  | _ => (0, [])
  end.

Lemma line_host_patient replies s :
  nreads (trace s) = 0%nat -> @patient (line_host replies) replies (trace s).
Proof. intros H0. split; [done|done|]. intros h fd. by rewrite H0, Nat.sub_0_r. Qed.

Lemma witness_job : job_ok witness_work.
Proof. split; cbn; lia. Qed.

Lemma identify_roundtrip_witness :
  wp_ False (@serialProcess plain_hardware) (fun _ s' =>
    parse_identity (sent (g_app (glob s'))) = mkMMOIdentity (version ID) (product ID) (serial ID))
    (St [] (witness_globals (mkAvalon 0 0 0 0) [0x49])).
Proof.
  destruct (witness_app_ok [0x49]) as (Hok & Hroom & Hc);
    [vm_compute; discriminate|repeat constructor; vm_compute; congruence|].
  refine (wp_conseq False _ _ _ _ _
    (@identify_roundtrip plain_hardware (St [] (witness_globals (mkAvalon 0 0 0 0) [0x49]))
       Hok Hroom eq_refl Hc eq_refl) (fun x => x) _).
  intros _ s' (_ & H & _). exact H.
Defined.

Lemma witness_firmware : let a := witness_app (hash_command witness_work) in
  app_ok a /\ room 14 a /\ received a = hash_command witness_work.
Proof.
  apply witness_app_ok; [vm_compute; discriminate|].
  repeat constructor; vm_compute; congruence.
Qed.

Lemma mining_session_witness :
  let s := St [] (witness_globals (mkAvalon 0 0 0 0) (hash_command witness_work)) in
  let s2 := St [] (witness_globals (mkAvalon 0x01020304 1 4 0) []) in
  let hs := mkHost [] [witness_board] in
  wp_ False (@serialProcess plain_hardware) (fun _ s1 =>
    wp_ False (@appService plain_hardware) (fun _ s3 =>
      exists hs', @mmo_scanhash (line_host [sent (g_app (glob s1)); sent (g_app (glob s3))]) 2 0 witness_work hs
        = Some (Ret (0x04030201 - 0xC0, mkWork (repeat 1 32) (repeat 2 128) 0xFFFFFFFF), hs')) s2) s.
Proof.
  destruct witness_firmware as (Hok & Hroom & Hc).
  destruct (witness_app_ok []) as (Hok2 & Hroom2 & _); [vm_compute; discriminate|constructor|].
  intros s s2 hs.
  refine (wp_conseq False _ _ _ _ _
    (@mining_session plain_hardware (plain_latch PORTB) witness_work s Hok Hroom eq_refl witness_job Hc eq_refl)
    (fun x => x) _).
  intros _ s1 (_ & _ & _ & Hnext).
  refine (wp_conseq False _ _ _ _ _
    (Hnext s2 [1; 2; 3; 4] Hok2 (room_le 7 14 _ ltac:(lia) Hroom2) eq_refl eq_refl _ _) (fun x => x) _).
  - repeat constructor; vm_compute; congruence.
  - split; [reflexivity|vm_compute; discriminate].
  - intros _ s3 Hs. destruct (Hs (line_host _) 2%nat 0%nat witness_board hs
      (line_host_patient _ hs eq_refl) eq_refl (le_n 2)) as (hs' & He & _). exists hs'. exact He.
Defined.

Lemma set_out_ok b a : app_ok a -> rb_ok b -> app_ok (set_out b a).
Proof. intros [Ho Hi Hs] Hb. by split. Qed.

(** A miner with [out] queued for the host and [inp] received. *)
Definition queued_app (out inp : list Z) : Application :=
  set_out (fifo_puts (USARTtoUSB_Buffer (witness_app [])) out) (witness_app inp).

Lemma queued_app_ok out inp :
  zlen out <= 242 -> zlen inp <= 128 -> Forall is_u8 out -> Forall is_u8 inp ->
  app_ok (queued_app out inp) /\ room 14 (queued_app out inp)
  /\ sent (queued_app out inp) = out /\ received (queued_app out inp) = inp.
Proof.
  intros Hlo Hli Ho Hi. destruct (witness_app_ok inp Hli Hi) as (Hw & _ & Hc).
  destruct (rb_init_ok 0x100 (repeat 0 256) 256) as [Hb Hco]; [lia|reflexivity|apply zeros_u8|].
  destruct (fifo_puts_spec out (RingBuffer_InitBuffer 0x100 (repeat 0 256) 256)) as (Hok & Hl & Hcap).
  { exact Hb. }
  { cbn [fifo_list fifo_cap RingBuffer_Fifo]. rewrite Hco. cbn [rb_Size RingBuffer_InitBuffer]. change (zlen (@nil Z)) with 0. lia. }
  cbn [fifo_list fifo_ok fifo_cap RingBuffer_Fifo] in *.
  assert (Hs : rb_contents (fifo_puts (RingBuffer_InitBuffer 0x100 (repeat 0 256) 256) out) = out).
  { rewrite Hl, Hco. cbn [app]. rewrite <- (map_id out) at 2.
    apply map_ext_in. intros x Hx. apply u8_id. by apply (proj1 (List.Forall_forall _ _) Ho). }
  split; [by apply set_out_ok|]. split; [|split; [exact Hs|exact Hc]].
  unfold room, queued_app. cbn [set_out USARTtoUSB_Buffer witness_app]. rewrite Hs, Hcap.
  cbn [rb_Size RingBuffer_InitBuffer]. lia.
Qed.

Lemma stale_report_submitted_witness :
  let s := St [] (set_app (queued_app (0x53 :: state_bytes (mkState STATE_RESET 1 7)) (hash_command witness_work))
                   (witness_globals (mkAvalon 0 0 0 0) [])) in
  let hs := mkHost [] [witness_board] in
  wp_ False (@serialProcess plain_hardware) (fun _ s1 =>
    exists hs', @mmo_scanhash (line_host [take 7 (sent (g_app (glob s1))); drop 7 (sent (g_app (glob s1)))])
      1 0 witness_work hs = Some (Ret (7, mkWork (repeat 1 32) (repeat 2 128) 0xFFFFFFFF), hs')) s.
Proof.
  destruct (queued_app_ok (0x53 :: state_bytes (mkState STATE_RESET 1 7)) (hash_command witness_work))
    as (Hok & Hroom & Hs & Hc);
    [vm_compute; discriminate..|repeat constructor; vm_compute; congruence|
     repeat constructor; vm_compute; congruence|].
  intros s hs.
  refine (wp_conseq False _ _ _ _ _
    (@stale_report_submitted plain_hardware witness_work 7 s Hok Hroom eq_refl witness_job
       ltac:(unfold is_u32; lia) Hc Hs) (fun x => x) _).
  intros _ s1 (_ & Hn). destruct (Hn (line_host _) 1%nat 0%nat witness_board hs
    (line_host_patient _ hs eq_refl) eq_refl (le_n 1)) as (hs' & He & _). exists hs'. exact He.
Defined.
