(* ===== verification/UsbController.v ===== *)
(** * LUFA/Drivers/USB/Core/AVR8/USBController_AVR8.[ch], USBInterrupt_AVR8.h,
      Device_AVR8.[ch]

    The USB controller: regulator, PLL, clock, attach and detach, the
    individual interrupt sources, the device address and serial number, and
    the initialisation of the device-mode interface.  The build is the
    makefile's: [USB_DEVICE_ONLY], [USE_STATIC_OPTIONS = 0],
    [F_USB = 16 MHz]. *)

From S2P Require Import Prelude Machine Endpoint EndpointStream Cdc.

(** Bit numbers of [<avr/iom32u2.h>]. *)
Definition USBE : Z := 7.
Definition FRZCLK : Z := 5.
Definition REGDIS : Z := 0.
Definition PLLP0 : Z := 2.
Definition PLLE : Z := 1.
Definition PLOCK : Z := 0.
Definition DETACH : Z := 0.
Definition RMWKUP : Z := 1.
Definition ADDEN : Z := 7.
Definition WAKEUPE : Z := 4.
Definition EORSTE : Z := 3.
Definition SOFE : Z := 2.
Definition SUSPE : Z := 0.
Definition RXSTPE : Z := 3.
Definition WAKEUPI : Z := 4.
Definition EORSTI : Z := 3.
Definition SOFI : Z := 2.
Definition SUSPI : Z := 0.

Definition USB_OPT_REG_DISABLED : Z := Z.shiftl 1 1.
Definition USB_OPT_MANUAL_PLL : Z := Z.shiftl 1 2.
Definition USB_PLL_PSC : Z := BV PLLP0.

(** [USE_STATIC_OPTIONS] of the makefile: regulator and PLL managed by the library. *)
Definition USB_Options : Z := 0.

(** USBInterrupt_AVR8.h: the interrupt sources of a device-only build. *)
Inductive USB_Interrupts_t :=
  | USB_INT_WAKEUPI
  | USB_INT_SUSPI
  | USB_INT_EORSTI
  | USB_INT_SOFI
  | USB_INT_RXSTPI.

Definition set_ConfigurationNumber (v : Z) (u : UsbState) : UsbState :=
  mkUsb (USB_ControlRequest u) v (USB_Device_CurrentlySelfPowered u)
    (USB_Device_RemoteWakeupEnabled u) (USB_IsInitialized u).
Definition set_RemoteWakeup (v : bool) (u : UsbState) : UsbState :=
  mkUsb (USB_ControlRequest u) (USB_Device_ConfigurationNumber u)
    (USB_Device_CurrentlySelfPowered u) v (USB_IsInitialized u).
Definition set_SelfPowered (v : bool) (u : UsbState) : UsbState :=
  mkUsb (USB_ControlRequest u) (USB_Device_ConfigurationNumber u) v
    (USB_Device_RemoteWakeupEnabled u) (USB_IsInitialized u).
Definition set_IsInitialized (v : bool) (u : UsbState) : UsbState :=
  mkUsb (USB_ControlRequest u) (USB_Device_ConfigurationNumber u)
    (USB_Device_CurrentlySelfPowered u) (USB_Device_RemoteWakeupEnabled u) v.
Definition set_ControlRequest (r : USB_Request_Header_t) (u : UsbState) : UsbState :=
  mkUsb r (USB_Device_ConfigurationNumber u) (USB_Device_CurrentlySelfPowered u)
    (USB_Device_RemoteWakeupEnabled u) (USB_IsInitialized u).

Definition INTERNAL_SERIAL_LENGTH_BITS : Z := 80.
Definition INTERNAL_SERIAL_START_ADDRESS : Z := 0x0E.

Section controller.
Context {G : Type} `{Hardware}.

Definition USB_PLL_On : M G unit :=
  wr PLLCSR USB_PLL_PSC ;; wr PLLCSR (Z.lor USB_PLL_PSC (BV PLLE)).
Definition USB_PLL_Off : M G unit := wr PLLCSR 0.
Definition USB_PLL_IsReady : M G bool := v ← rd PLLCSR; mret (anybit v (BV PLOCK)).

Definition USB_REG_On : M G unit := reg_clr REGCR (BV REGDIS).
Definition USB_REG_Off : M G unit := reg_or REGCR (BV REGDIS).

Definition USB_CLK_Freeze : M G unit := reg_or USBCON (BV FRZCLK).
Definition USB_CLK_Unfreeze : M G unit := reg_clr USBCON (BV FRZCLK).

Definition USB_Controller_Enable : M G unit := reg_or USBCON (BV USBE).
Definition USB_Controller_Disable : M G unit := reg_clr USBCON (BV USBE).
Definition USB_Controller_Reset : M G unit :=
  reg_clr USBCON (BV USBE) ;; reg_or USBCON (BV USBE).

Definition USB_Detach : M G unit := reg_or UDCON (BV DETACH).
Definition USB_Attach : M G unit := reg_clr UDCON (BV DETACH).

(** [USB_PLL_On(); while (!(USB_PLL_IsReady()));] *)
Definition pll_start (fuel : nat) : M G unit :=
  USB_PLL_On ;; busy_wait fuel USB_PLL_IsReady.

(** ** Interrupt sources *)

Definition USB_INT_Enable (Interrupt : USB_Interrupts_t) : M G unit :=
  match Interrupt with
  | USB_INT_WAKEUPI => reg_or UDIEN (BV WAKEUPE)
  | USB_INT_SUSPI => reg_or UDIEN (BV SUSPE)
  | USB_INT_EORSTI => reg_or UDIEN (BV EORSTE)
  | USB_INT_SOFI => reg_or UDIEN (BV SOFE)
  | USB_INT_RXSTPI => reg_or UEIENX (BV RXSTPE)
  end.

Definition USB_INT_Disable (Interrupt : USB_Interrupts_t) : M G unit :=
  match Interrupt with
  | USB_INT_WAKEUPI => reg_clr UDIEN (BV WAKEUPE)
  | USB_INT_SUSPI => reg_clr UDIEN (BV SUSPE)
  | USB_INT_EORSTI => reg_clr UDIEN (BV EORSTE)
  | USB_INT_SOFI => reg_clr UDIEN (BV SOFE)
  | USB_INT_RXSTPI => reg_clr UEIENX (BV RXSTPE)
  end.

Definition USB_INT_Clear (Interrupt : USB_Interrupts_t) : M G unit :=
  match Interrupt with
  | USB_INT_WAKEUPI => reg_clr UDINT (BV WAKEUPI)
  | USB_INT_SUSPI => reg_clr UDINT (BV SUSPI)
  | USB_INT_EORSTI => reg_clr UDINT (BV EORSTI)
  | USB_INT_SOFI => reg_clr UDINT (BV SOFI)
  | USB_INT_RXSTPI => reg_clr UEINTX (BV RXSTPI)
  end.

Definition int_flag (r : reg) (b : Z) : M G bool := v ← rd r; mret (anybit v (BV b)).

Definition USB_INT_IsEnabled (Interrupt : USB_Interrupts_t) : M G bool :=
  match Interrupt with
  | USB_INT_WAKEUPI => int_flag UDIEN WAKEUPE
  | USB_INT_SUSPI => int_flag UDIEN SUSPE
  | USB_INT_EORSTI => int_flag UDIEN EORSTE
  | USB_INT_SOFI => int_flag UDIEN SOFE
  | USB_INT_RXSTPI => int_flag UEIENX RXSTPE
  end.

Definition USB_INT_HasOccurred (Interrupt : USB_Interrupts_t) : M G bool :=
  match Interrupt with
  | USB_INT_WAKEUPI => int_flag UDINT WAKEUPI
  | USB_INT_SUSPI => int_flag UDINT SUSPI
  | USB_INT_EORSTI => int_flag UDINT EORSTI
  | USB_INT_SOFI => int_flag UDINT SOFI
  | USB_INT_RXSTPI => int_flag UEINTX RXSTPI
  end.

Definition USB_INT_DisableAllInterrupts : M G unit := wr UDIEN 0.
Definition USB_INT_ClearAllInterrupts : M G unit := wr UDINT 0.

(** ** Device_AVR8 *)

Definition USB_Device_SendRemoteWakeup (fuel : nat) : M G unit :=
  when (negb (anybit USB_Options USB_OPT_MANUAL_PLL)) (pll_start fuel) ;;
  USB_CLK_Unfreeze ;;
  reg_or UDCON (BV RMWKUP) ;;
  loop fuel (fun _ : unit =>
    v ← rd UDCON; mret (if anybit v (BV RMWKUP) then inl tt else inr tt)) tt.

Definition USB_Device_EnableSOFEvents : M G unit := USB_INT_Enable USB_INT_SOFI.
Definition USB_Device_DisableSOFEvents : M G unit := USB_INT_Disable USB_INT_SOFI.

Definition USB_Device_SetDeviceAddress (Address : Z) : M G unit :=
  v ← rd UDADDR;
  let Temp := Z.lor (Z.land v (BV ADDEN)) (Z.land Address 0x7F) in
  wr UDADDR Temp ;;
  wr UDADDR (Z.lor Temp (BV ADDEN)).

Definition USB_Device_IsAddressSet : M G bool := v ← rd UDADDR; mret (anybit v (BV ADDEN)).

(** The UTF-16 code of a hexadecimal digit. *)
Definition serial_char (SerialByte : Z) : Z :=
  if 10 <=? SerialByte then 0x41 - 10 + SerialByte else 0x30 + SerialByte.

Fixpoint serial_chars (n : nat) (SerialCharNum SigReadAddress : Z) : M G (list Z) :=
  match n with
  | O => mret []
  | S n' =>
      b ← rd (SIGROW SigReadAddress);
      let odd := anybit SerialCharNum 0x01 in
      let SerialByte := Z.land (if odd then Z.shiftr b 4 else b) 0x0F in
      l ← serial_chars n' (u8 (SerialCharNum + 1))
            (if odd then u8 (SigReadAddress + 1) else SigReadAddress);
      mret (serial_char SerialByte :: l)
  end.

Definition USB_Device_GetSerialString : M G (list Z) :=
  CurrentGlobalInt ← GetGlobalInterruptMask;
  cli ;;
  UnicodeString ← serial_chars (Z.to_nat (INTERNAL_SERIAL_LENGTH_BITS / 4)) 0
                    INTERNAL_SERIAL_START_ADDRESS;
  SetGlobalInterruptMask CurrentGlobalInt ;;
  mret UnicodeString.

(** ** Initialisation *)

Context `{Has UsbState G}.

Definition USB_Init_Device (fuel : nat) : M G unit :=
  set_DeviceState DEVICE_STATE_Unattached ;;
  modc (set_ConfigurationNumber 0) ;;
  modc (set_RemoteWakeup false) ;;
  modc (set_SelfPowered false) ;;
  Endpoint_ConfigureEndpoint fuel ENDPOINT_CONTROLEP EP_TYPE_CONTROL
    USB_Device_ControlEndpointSize 1 ;;
  USB_INT_Clear USB_INT_SUSPI ;;
  USB_INT_Enable USB_INT_SUSPI ;;
  USB_INT_Enable USB_INT_EORSTI ;;
  USB_Attach.

(** [USB_CurrentMode] is the constant [USB_MODE_Device]. *)
Definition USB_ResetInterface (fuel : nat) : M G unit :=
  USB_INT_DisableAllInterrupts ;;
  USB_INT_ClearAllInterrupts ;;
  USB_Controller_Reset ;;
  USB_CLK_Unfreeze ;;
  when (negb (anybit USB_Options USB_OPT_MANUAL_PLL)) (pll_start fuel) ;;
  USB_Init_Device fuel.

Definition USB_Init (fuel : nat) : M G unit :=
  (if negb (anybit USB_Options USB_OPT_REG_DISABLED) then USB_REG_On else USB_REG_Off) ;;
  modc (set_IsInitialized true) ;;
  USB_ResetInterface fuel.

Definition USB_Disable : M G unit :=
  USB_INT_DisableAllInterrupts ;;
  USB_INT_ClearAllInterrupts ;;
  USB_Detach ;;
  USB_Controller_Disable ;;
  when (negb (anybit USB_Options USB_OPT_MANUAL_PLL)) USB_PLL_Off ;;
  USB_REG_Off ;;
  modc (set_IsInitialized false).
End controller.

(** ** Waiting for the PLL *)

(** How often [r] has been read since it was last written. *)
Fixpoint polls_of (r : reg) (h : history) : nat :=
  match h with
  | [] => O
  | Rd r' _ :: h' => if decide (r = r') then S (polls_of r h') else polls_of r h'
  | Wr r' _ :: h' => if decide (r = r') then O else polls_of r h'
  | DelayUs _ :: h' => polls_of r h'
  end.

(** A PLL that has been enabled is locked by its [k]th poll. *)
Definition pll_locks `{Hardware} (k : nat) : Prop := forall h,
  last_wr PLLCSR h = Some (Z.lor USB_PLL_PSC (BV PLLE)) -> (k <= polls_of PLLCSR h)%nat ->
  anybit (reg_trunc PLLCSR (hw_value h PLLCSR)) (BV PLOCK) = true.

Definition not_pll (r : reg) : bool := match r with PLLCSR => false | _ => true end.

Section pll.
Context {G : Type} `{Hardware} (S : relation G) `{!PreOrder S}.
Context (k fuel : nat) (Hpll : pll_locks k) (Hfuel : (k < fuel)%nat).

#[local] Instance pll_start_runs : Runs (frame not_pll S) (pll_start fuel).
Proof. unfold pll_start, USB_PLL_On, busy_wait, USB_PLL_IsReady. runs_go. Qed.

Lemma pll_start_total s : wp_ False (pll_start fuel) (fun _ s' => frame not_pll S s s') s.
Proof.
  refine (wp_conseq False False (pll_start fuel) (fun _ s' => True /\ frame not_pll S s s')
            (fun _ s' => frame not_pll S s s') s _ (fun x => x) (fun _ _ H => proj2 H)).
  apply wp_frame; [apply _|]. unfold pll_start, USB_PLL_On. wp_run.
  unfold busy_wait.
  apply (wp_loop_total _
    (fun _ s' => last_wr PLLCSR (hist s') = Some (Z.lor USB_PLL_PSC (BV PLLE)))
    (fun _ s' => (k - polls_of PLLCSR (hist s'))%nat)); [reflexivity|cbn; lia|].
  intros [] s' Hl. unfold USB_PLL_IsReady. apply wp_bind, wp_flag. cbv zeta.
  pose proof (Hpll (hist s') Hl) as Hp. destruct (anybit _ (BV PLOCK)); apply wp_ret; [done|].
  split; [done|]. cbn [hist polls_of]. rewrite decide_True by done.
  destruct (decide (k <= polls_of PLLCSR (hist s'))%nat); [|lia]. discriminate Hp. done.
Qed.
End pll.

(** ** The interface after initialisation *)

Section init.
Context {G : Type} `{Hardware} `{Has UsbState G}.
Context `{!Latch UDIEN} `{!Latch UDCON} `{!Latch USBCON} `{!Latch REGCR}.
Context (k fuel : nat) (Hpll : pll_locks k) (Hfuel : (k < fuel)%nat) (Hf13 : (13 < fuel)%nat).

(** What the bus sees of an initialised device: powered from the regulator,
    clocked, attached, and listening for bus reset and suspend only. *)
Record usb_ready (s : st G) : Prop := {
  ur_reg : Z.testbit (latch_value REGCR (hist s)) REGDIS = false;
  ur_enabled : Z.testbit (latch_value USBCON (hist s)) USBE = true;
  ur_clock : Z.testbit (latch_value USBCON (hist s)) FRZCLK = false;
  ur_attached : Z.testbit (latch_value UDCON (hist s)) DETACH = false;
  ur_sources : latch_value UDIEN (hist s) = Z.lor (BV SUSPE) (BV EORSTE);
  ur_state : last_wr GPIOR0 (hist s) = Some DEVICE_STATE_Unattached;
}.

Lemma USB_Init_spec (s : st G) :
  wp_ False (USB_Init fuel) (fun _ s' =>
    usb_ready s'
    /\ glob s' = inj (mkUsb (USB_ControlRequest (proj (glob s))) 0 false false true) (glob s)) s.
Proof.
  unfold USB_Init, USB_ResetInterface, USB_Init_Device, USB_REG_On,
    USB_INT_DisableAllInterrupts, USB_INT_ClearAllInterrupts, USB_Controller_Reset,
    USB_CLK_Unfreeze, set_DeviceState, USB_INT_Clear, USB_INT_Enable, USB_Attach.
  change (negb (anybit USB_Options USB_OPT_REG_DISABLED)) with true.
  change (negb (anybit USB_Options USB_OPT_MANUAL_PLL)) with true. cbn iota.
  destruct s as [h g]. abs_run; [|done].
  wp_spec (pll_start_total eq k fuel Hpll Hfuel (St h'4 (inj (set_IsInitialized true (proj g)) g))).
  intros [] [hp gp] HFp. pose proof HFp as [_ Hg]. cbn [glob] in Hg. subst gp. abs_run.
  eapply wp_conseq; [apply (ConfigureEndpoint_total eq);
    [by vm_compute|exact Hf13]|exact (fun x : False => x)|].
  intros ok [he ge] HFe. pose proof HFe as [_ Hg]. cbn [glob] in Hg. subst ge. abs_run.
  cbn [glob]. split; [|by rewrite !inj_inj, !proj_inj].
  split; cbn [hist]; latch_chain; try reflexivity; reg_bits.
  all: reflexivity.
Qed.

(** [USB_Init] terminates on any hardware whose PLL locks, whatever the
    registers held before and whatever the endpoint hardware answers, and
    leaves the interface ready: regulator on, controller enabled, clock
    running, attached to the bus, exactly the suspend and bus-reset
    interrupts enabled, unattached state, configuration 0, remote wakeup off,
    not self-powered, and the last request untouched. *)
Theorem USB_Init_ready (s : st G) :
  wp_ False (USB_Init fuel) (fun _ s' =>
    usb_ready s'
    /\ glob s' = inj (mkUsb (USB_ControlRequest (proj (glob s))) 0 false false true) (glob s)) s.
Proof. exact (USB_Init_spec s). Qed.
End init.

(** A PLL that is always locked; every other register a latch. *)
Definition locked_pll : Hardware := fun h r =>
  match r with PLLCSR => 3 | _ => default 0 (last_wr r h) end.

Lemma locked_pll_latch r : r <> PLLCSR -> @Latch locked_pll r.
Proof.
  intros Hr h. unfold latch_value, hw_value, locked_pll. destruct r; try done; cbn;
    by destruct (last_wr _ h).
Qed.

Lemma USB_Init_ready_witness :
  wp_ False (@USB_Init UsbState locked_pll _ 20) (fun _ s' =>
    usb_ready (H := locked_pll) s' /\ USB_Device_ConfigurationNumber (glob s') = 0)
    (St [] (mkUsb (mkRequest 0 0 0 0 0) 1 true true false)).
Proof.
  refine (wp_conseq False _ _ _ _ _
    (@USB_Init_ready UsbState locked_pll _ (locked_pll_latch UDIEN ltac:(discriminate))
      (locked_pll_latch UDCON ltac:(discriminate)) (locked_pll_latch USBCON ltac:(discriminate))
      (locked_pll_latch REGCR ltac:(discriminate)) 0 20 _ _ _ _) (fun x => x) _).
  - intros h _ _. reflexivity.
  - lia.
  - lia.
  - intros [] s' [Hr Hg]. rewrite Hg. split; [exact Hr|reflexivity].
Defined.

(** ** The serial number *)

Definition is_hex_digit (c : Z) : Prop := 0x30 <= c <= 0x39 \/ 0x41 <= c <= 0x46.
Definition hex_value (c : Z) : Z := if c <? 0x41 then c - 0x30 else c - 0x41 + 10.

(** Two hexadecimal digits a byte, low half first. *)
Fixpoint unhex (l : list Z) : list Z :=
  match l with
  | lo :: hi :: l' => hex_value lo + 16 * hex_value hi :: unhex l'
  | _ => []
  end.

Lemma serial_char_hex b :
  0 <= b < 16 -> is_hex_digit (serial_char b) /\ hex_value (serial_char b) = b.
Proof.
  intros Hb. unfold is_hex_digit, hex_value, serial_char. destruct (Z.leb_spec 10 b).
  - rewrite (proj2 (Z.ltb_ge _ _)) by lia. lia.
  - rewrite (proj2 (Z.ltb_lt _ _)) by lia. lia.
Qed.

Section serial.
Context {G : Type} `{Hardware} (sig : Z -> Z).
Context (Hsig : forall h a, reg_trunc (SIGROW a) (hw_value h (SIGROW a)) = sig a).

Lemma sig_u8 a : is_u8 (sig a).
Proof. rewrite <- (Hsig [] a). apply Z.mod_pos_bound. reflexivity. Qed.

Lemma nibbles v :
  is_u8 v -> 0 <= Z.land v 0x0F < 16 /\ 0 <= Z.land (Z.shiftr v 4) 0x0F < 16
  /\ Z.land v 0x0F + 16 * Z.land (Z.shiftr v 4) 0x0F = v.
Proof.
  intros Hv. unfold is_u8 in Hv. change 0x0F with (Z.ones 4).
  rewrite !Z.land_ones, Z.shiftr_div_pow2 by lia. change (2 ^ 4) with 16.
  pose proof (Z.mod_pos_bound v 16 ltac:(lia)). pose proof (Z.div_mod v 16 ltac:(lia)).
  rewrite (Z.mod_small (v / 16)) by lia. lia.
Qed.

Definition sig_bytes (a : Z) (m : nat) : list Z := map (fun j => sig (a + Z.of_nat j)) (seq 0 m).

Lemma sig_bytes_S a m : sig_bytes a (S m) = sig a :: sig_bytes (a + 1) m.
Proof.
  unfold sig_bytes. cbn [seq map]. rewrite Z.add_0_r. f_equal.
  rewrite <- seq_shift, map_map. apply map_ext. intros j. f_equal. lia.
Qed.

(** Two rounds of the loop make the two digits of a byte. *)
Lemma serial_chars_spec m c a (s : st G) :
  0 <= c -> Z.testbit c 0 = false -> c + 2 * Z.of_nat m <= 256 -> 0 <= a ->
  a + Z.of_nat m <= 256 ->
  wp_ False (serial_chars (2 * m) c a) (fun l s' =>
    unhex l = sig_bytes a m /\ length l = (2 * m)%nat /\ Forall is_hex_digit l
    /\ frame (fun _ => true) eq s s') s.
Proof.
  revert c a s. induction m as [|m IH]; intros c a s Hc Hev Hcm Ha Ham.
  { apply wp_ret. split_and!; [done|done|constructor|reflexivity]. }
  replace (2 * S m)%nat with (S (S (2 * m))) by lia. cbn [serial_chars].
  do 2 wp_step. rewrite (Hsig _ a). do 3 wp_step. rewrite (u8_id (c + 1)) by (unfold is_u8; lia).
  assert (Hodd : anybit (c + 1) 1 = true).
  { change 1 with (BV 0) at 2. rewrite anybit_BV, Z.bit0_odd in * by lia.
    by rewrite Z.add_1_r, Z.odd_succ, <- Z.negb_odd, Hev. }
  assert (Hev' : anybit c 1 = false) by (change 1 with (BV 0); by rewrite anybit_BV).
  rewrite Hodd, Hev', (Hsig _ a). wp_step.
  replace (u8 (c + 1 + 1)) with (u8 (c + 2)) by (f_equal; lia).
  destruct (nibbles (sig a) (sig_u8 a)) as (Hlo & Hhi & Hv).
  destruct (serial_char_hex _ Hlo) as [Dlo Vlo], (serial_char_hex _ Hhi) as [Dhi Vhi].
  assert (HF : frame (fun _ => true) eq s
    (St (Rd (SIGROW a) (sig a) :: Rd (SIGROW a) (sig a) :: hist s) (glob s))).
  { split; [exists [Rd (SIGROW a) (sig a); Rd (SIGROW a) (sig a)]; by split|done]. }
  destruct m as [|m].
  { apply wp_ret, wp_ret, wp_ret. cbn [unhex]. rewrite Vlo, Vhi, Hv, sig_bytes_S.
    split_and!; [done|done|by constructor; [|constructor]|exact HF]. }
  rewrite !u8_id by (unfold is_u8; lia).
  eapply wp_conseq; [apply (IH (c + 2) (a + 1)); try lia|exact (fun x : False => x)|].
  - rewrite Z.bit0_odd in *. by rewrite Z.odd_add, Hev.
  - intros l s' (Hu & Hl & Hd & HF'). apply wp_ret, wp_ret. cbn [unhex length].
    rewrite Vlo, Vhi, Hv, Hu, (sig_bytes_S a), Hl.
    split_and!; [done|lia|by constructor; [|constructor]|by etransitivity].
Qed.

(** The serial number descriptor spells the unique identifier of the
    chip: the string has 20 characters, all upper-case hexadecimal digits,
    and they decode (two to a byte, low half first) to the ten signature-row
    bytes from address 0x0E, so different chips have different serial
    numbers; the interrupt flag is as it was before. *)
Theorem GetSerialString_hex (s : st G) :
  wp_ False USB_Device_GetSerialString (fun l s' =>
    unhex l = sig_bytes 0x0E 10 /\ length l = 20%nat /\ Forall is_hex_digit l
    /\ last_wr SREG (hist s') = Some (reg_trunc SREG (hw_value (hist s) SREG))
    /\ glob s' = glob s) s.
Proof.
  unfold USB_Device_GetSerialString. wp_run.
  change (Z.to_nat (INTERNAL_SERIAL_LENGTH_BITS / 4)) with (2 * 10)%nat.
  eapply wp_conseq; [apply (serial_chars_spec 10); try done|exact (fun x : False => x)|].
  intros l s' (Hu & Hl & Hd & [_ Hg]). wp_run. cbn [hist glob] in *.
  rewrite last_wr_cons_eq, reg_trunc_trunc. by rewrite <- Hg.
Qed.
End serial.

(** A chip whose signature row holds its own addresses. *)
Definition signed_chip : Hardware := fun h r => match r with SIGROW a => a | _ => 0 end.

Lemma GetSerialString_hex_witness :
  wp_ False (@USB_Device_GetSerialString unit signed_chip) (fun l _ =>
    unhex l = [0x0E; 0x0F; 0x10; 0x11; 0x12; 0x13; 0x14; 0x15; 0x16; 0x17]) (St [] tt).
Proof.
  refine (wp_conseq False _ _ _ _ _
    (@GetSerialString_hex unit signed_chip (fun a => a mod 256) _ (St [] tt)) (fun x => x) _).
  - intros h a. reflexivity.
  - intros l s' [Hu _]. rewrite Hu. reflexivity.
Defined.
