(* ===== verification/StdReq.v ===== *)
(** * LUFA/Drivers/USB/Core/DeviceStandardReq.c and USBTask.c

    The standard control requests of a USB device, and the task that polls
    for them.  What the application supplies (its descriptors, its own control
    requests, its reaction to a configuration) is an interface,
    [UsbDevice]; Firmware.v gives the miner's instance.  The build has
    [FIXED_NUM_CONFIGURATIONS = 1], [USE_FLASH_DESCRIPTORS] and the internal
    serial number. *)

From S2P Require Import Prelude Machine Endpoint EndpointStream Cdc UsbController.

(** StdRequestType.h and StdDescriptors.h constants. *)
Definition REQTYPE_STANDARD : Z := 0x00.
Definition REQREC_DEVICE : Z := 0.
Definition REQREC_ENDPOINT : Z := 2.
Definition CONTROL_REQTYPE_RECIPIENT : Z := 0x1F.
Definition REQ_GetStatus : Z := 0.
Definition REQ_ClearFeature : Z := 1.
Definition REQ_SetFeature : Z := 3.
Definition REQ_SetAddress : Z := 5.
Definition REQ_GetDescriptor : Z := 6.
Definition REQ_GetConfiguration : Z := 8.
Definition REQ_SetConfiguration : Z := 9.
Definition FEATURE_SEL_EndpointHalt : Z := 0x00.
Definition FEATURE_SEL_DeviceRemoteWakeup : Z := 0x01.
Definition FEATURE_SELFPOWERED_ENABLED : Z := BV 0.
Definition FEATURE_REMOTE_WAKEUP_ENABLED : Z := BV 1.
Definition DTYPE_Device : Z := 0x01.
Definition DTYPE_Configuration : Z := 0x02.
Definition DTYPE_String : Z := 0x03.
Definition NO_DESCRIPTOR : Z := 0.
Definition USE_INTERNAL_SERIAL : Z := 0xDC.
Definition FIXED_NUM_CONFIGURATIONS : Z := 1.

(** [USB_STRING_LEN]: the size of a string descriptor of [n] characters. *)
Definition USB_STRING_LEN (n : Z) : Z := 2 + Z.shiftl n 1.

(** What a USB application supplies.  [CALLBACK_USB_GetDescriptor] returns
    the size of the descriptor, [NO_DESCRIPTOR] for none, and the memory its
    address points to. *)
Class UsbDevice (G : Type) := {
  EVENT_USB_Device_ControlRequest : nat -> M G unit;
  EVENT_USB_Device_ConfigurationChanged : nat -> M G unit;
  CALLBACK_USB_GetDescriptor : Z -> Z -> Z * list Z;
}.

(** The eight bytes of a SETUP packet as the struct they are stored into. *)
Definition request_of (b : list Z) : USB_Request_Header_t :=
  match b with
  | [b0; b1; b2; b3; b4; b5; b6; b7] =>
      mkRequest b0 b1 (le_value [b2; b3]) (le_value [b4; b5]) (le_value [b6; b7])
  | _ => mkRequest 0 0 0 0 0
  end.

Section stdreq.
Context {G : Type} `{Hardware} `{Has UsbState G} `{UsbDevice G}.

(** [for (...) *(RequestHeader++) = Endpoint_Read_8();] *)
Fixpoint read_bytes (n : nat) : M G (list Z) :=
  match n with
  | O => mret []
  | S n' => b ← Endpoint_Read_8; l ← read_bytes n'; mret (b :: l)
  end.

Definition request : M G USB_Request_Header_t := getc USB_ControlRequest.

Definition USB_Device_SetAddress (fuel : nat) : M G unit :=
  r ← request;
  let DeviceAddress := Z.land (wValue r) 0x7F in
  CurrentGlobalInt ← GetGlobalInterruptMask;
  cli ;;
  Endpoint_ClearSETUP ;;
  Endpoint_ClearStatusStage fuel ;;
  busy_wait fuel Endpoint_IsINReady ;;
  USB_Device_SetDeviceAddress DeviceAddress ;;
  set_DeviceState (if negb (DeviceAddress =? 0) then DEVICE_STATE_Addressed
                   else DEVICE_STATE_Default) ;;
  SetGlobalInterruptMask CurrentGlobalInt.

(** [USB_DeviceState = (USB_Device_IsAddressSet()) ? DEVICE_STATE_Configured
    : DEVICE_STATE_Powered], when no configuration is selected. *)
Definition state_by_configuration : M G unit :=
  c ← getc USB_Device_ConfigurationNumber;
  if negb (c =? 0) then set_DeviceState DEVICE_STATE_Configured else
  a ← USB_Device_IsAddressSet;
  set_DeviceState (if (a : bool) then DEVICE_STATE_Configured else DEVICE_STATE_Powered).

Definition USB_Device_SetConfiguration (fuel : nat) : M G unit :=
  r ← request;
  if FIXED_NUM_CONFIGURATIONS <? u8 (wValue r) then mret tt else
  Endpoint_ClearSETUP ;;
  modc (set_ConfigurationNumber (u8 (wValue r))) ;;
  Endpoint_ClearStatusStage fuel ;;
  state_by_configuration ;;
  EVENT_USB_Device_ConfigurationChanged fuel.

Definition USB_Device_GetConfiguration (fuel : nat) : M G unit :=
  Endpoint_ClearSETUP ;;
  c ← getc USB_Device_ConfigurationNumber;
  Endpoint_Write_8 c ;;
  Endpoint_ClearIN ;;
  Endpoint_ClearStatusStage fuel.

(** [SignatureDescriptor] as it lies in memory. *)
Definition signature_descriptor (UnicodeString : list Z) : list Z :=
  [USB_STRING_LEN (INTERNAL_SERIAL_LENGTH_BITS / 4); DTYPE_String]
    ++ concat (map (le_bytes 2) UnicodeString).

Definition USB_Device_GetInternalSerialDescriptor (fuel : nat) : M G unit :=
  UnicodeString ← USB_Device_GetSerialString;
  Endpoint_ClearSETUP ;;
  Endpoint_Write_Control_Stream_LE fuel (signature_descriptor UnicodeString)
    (2 + 2 * (INTERNAL_SERIAL_LENGTH_BITS / 4)) ;;
  Endpoint_ClearOUT.

Definition USB_Device_GetDescriptor (fuel : nat) : M G unit :=
  r ← request;
  if wValue r =? Z.lor (Z.shiftl DTYPE_String 8) USE_INTERNAL_SERIAL
  then USB_Device_GetInternalSerialDescriptor fuel else
  let '(DescriptorSize, DescriptorPointer) :=
    CALLBACK_USB_GetDescriptor (wValue r) (u8 (wIndex r)) in
  if DescriptorSize =? NO_DESCRIPTOR then mret tt else
  Endpoint_ClearSETUP ;;
  Endpoint_Write_Control_PStream_LE fuel DescriptorPointer DescriptorSize ;;
  Endpoint_ClearOUT.

(** [CurrentStatus], or [None] where the function returns at once. *)
Definition current_status : M G (option Z) :=
  r ← request;
  if bmRequestType r =? Z.lor (Z.lor REQDIR_DEVICETOHOST REQTYPE_STANDARD) REQREC_DEVICE then
    p ← getc USB_Device_CurrentlySelfPowered;
    w ← getc USB_Device_RemoteWakeupEnabled;
    mret (Some (Z.lor (if (p : bool) then FEATURE_SELFPOWERED_ENABLED else 0)
                      (if (w : bool) then FEATURE_REMOTE_WAKEUP_ENABLED else 0)))
  else if bmRequestType r =? Z.lor (Z.lor REQDIR_DEVICETOHOST REQTYPE_STANDARD) REQREC_ENDPOINT then
    Endpoint_SelectEndpoint (Z.land (u8 (wIndex r)) ENDPOINT_EPNUM_MASK) ;;
    s ← Endpoint_IsStalled;
    Endpoint_SelectEndpoint ENDPOINT_CONTROLEP ;;
    mret (Some (if (s : bool) then 1 else 0))
  else mret None.

Definition USB_Device_GetStatus (fuel : nat) : M G unit :=
  CurrentStatus ← current_status;
  match CurrentStatus with
  | None => mret tt
  | Some v =>
      Endpoint_ClearSETUP ;;
      Endpoint_Write_16_LE v ;;
      Endpoint_ClearIN ;;
      Endpoint_ClearStatusStage fuel
  end.

(** The switch of [USB_Device_ClearSetFeature]: [false] where it returns. *)
Definition change_feature : M G bool :=
  r ← request;
  let recipient := Z.land (bmRequestType r) CONTROL_REQTYPE_RECIPIENT in
  let set := bRequest r =? REQ_SetFeature in
  if recipient =? REQREC_DEVICE then
    if u8 (wValue r) =? FEATURE_SEL_DeviceRemoteWakeup
    then modc (set_RemoteWakeup set) ;; mret true
    else mret false
  else if recipient =? REQREC_ENDPOINT then
    if negb (u8 (wValue r) =? FEATURE_SEL_EndpointHalt) then mret true else
    let EndpointIndex := Z.land (u8 (wIndex r)) ENDPOINT_EPNUM_MASK in
    if EndpointIndex =? ENDPOINT_CONTROLEP then mret false else
    Endpoint_SelectEndpoint EndpointIndex ;;
    e ← Endpoint_IsEnabled;
    when e (if set then Endpoint_StallTransaction
            else Endpoint_ClearStall ;;
                 Endpoint_ResetEndpoint EndpointIndex ;;
                 Endpoint_ResetDataToggle) ;;
    mret true
  else mret false.

Definition USB_Device_ClearSetFeature (fuel : nat) : M G unit :=
  ok ← change_feature;
  if negb ok then mret tt else
  Endpoint_SelectEndpoint ENDPOINT_CONTROLEP ;;
  Endpoint_ClearSETUP ;;
  Endpoint_ClearStatusStage fuel.

(** The [switch] of [USB_Device_ProcessControlRequest]. *)
Definition standard_request (fuel : nat) : M G unit :=
  r ← request;
  let t := bmRequestType r in
  let out := Z.lor REQDIR_HOSTTODEVICE REQTYPE_STANDARD in
  let inn := Z.lor REQDIR_DEVICETOHOST REQTYPE_STANDARD in
  let b := bRequest r in
  if b =? REQ_GetStatus then
    when ((t =? Z.lor inn REQREC_DEVICE) || (t =? Z.lor inn REQREC_ENDPOINT))
      (USB_Device_GetStatus fuel)
  else if (b =? REQ_ClearFeature) || (b =? REQ_SetFeature) then
    when ((t =? Z.lor out REQREC_DEVICE) || (t =? Z.lor out REQREC_ENDPOINT))
      (USB_Device_ClearSetFeature fuel)
  else if b =? REQ_SetAddress then
    when (t =? Z.lor out REQREC_DEVICE) (USB_Device_SetAddress fuel)
  else if b =? REQ_GetDescriptor then
    when ((t =? Z.lor inn REQREC_DEVICE) || (t =? Z.lor inn REQREC_INTERFACE))
      (USB_Device_GetDescriptor fuel)
  else if b =? REQ_GetConfiguration then
    when (t =? Z.lor inn REQREC_DEVICE) (USB_Device_GetConfiguration fuel)
  else if b =? REQ_SetConfiguration then
    when (t =? Z.lor out REQREC_DEVICE) (USB_Device_SetConfiguration fuel)
  else mret tt.

Definition USB_Device_ProcessControlRequest (fuel : nat) : M G unit :=
  header ← read_bytes 8;
  modc (set_ControlRequest (request_of header)) ;;
  EVENT_USB_Device_ControlRequest fuel ;;
  setup ← Endpoint_IsSETUPReceived;
  when setup (standard_request fuel) ;;
  setup ← Endpoint_IsSETUPReceived;
  when setup (Endpoint_StallTransaction ;; Endpoint_ClearSETUP).

(** USBTask.c *)
Definition USB_DeviceTask (fuel : nat) : M G unit :=
  d ← get_DeviceState;
  if d =? DEVICE_STATE_Unattached then mret tt else
  PrevEndpoint ← Endpoint_GetCurrentEndpoint;
  Endpoint_SelectEndpoint ENDPOINT_CONTROLEP ;;
  setup ← Endpoint_IsSETUPReceived;
  when setup (USB_Device_ProcessControlRequest fuel) ;;
  Endpoint_SelectEndpoint PrevEndpoint.

Definition USB_USBTask (fuel : nat) : M G unit := USB_DeviceTask fuel.

(** USBInterrupt_AVR8.c: the control endpoint's interrupt
    ([INTERRUPT_CONTROL_ENDPOINT]). *)
Definition USB_COM_vect (fuel : nat) : M G unit :=
  PrevSelectedEndpoint ← Endpoint_GetCurrentEndpoint;
  Endpoint_SelectEndpoint ENDPOINT_CONTROLEP ;;
  USB_INT_Disable USB_INT_RXSTPI ;;
  sei ;;
  USB_Device_ProcessControlRequest fuel ;;
  Endpoint_SelectEndpoint ENDPOINT_CONTROLEP ;;
  USB_INT_Enable USB_INT_RXSTPI ;;
  Endpoint_SelectEndpoint PrevSelectedEndpoint.
End stdreq.

(** ** A SETUP packet on the bus *)

(** The SETUP packet is pending until UEINTX is written with RXSTPI clear. *)
Definition setup_pending (tr : history) : bool :=
  forallb (fun v => anybit v (BV RXSTPI)) (writes UEINTX tr).

(** From history [h0] on the control endpoint holds the SETUP packet [hdr],
    and no other one comes while it is processed. *)
Record setup_packet `{Hardware} (hdr : list Z) (h0 : history) : Prop := {
  sp_len : length hdr = 8%nat;
  sp_byte : forall tr i b, (forall r, writes r tr = []) -> length (reads UEDATX tr) = i ->
    hdr !! i = Some b -> reg_trunc UEDATX (hw_value (tr ++ h0) UEDATX) = b;
  sp_flag : forall tr,
    anybit (reg_trunc UEINTX (hw_value (tr ++ h0) UEINTX)) (BV RXSTPI) = setup_pending tr;
}.

(** The history has only grown by reads. *)
Definition only_reads (h h' : history) : Prop :=
  exists tr, h' = tr ++ h /\ forall r, writes r tr = [].

#[export] Instance only_reads_preorder : PreOrder only_reads.
Proof.
  split.
  - intros h. by exists [].
  - intros h1 h2 h3 (t1 & -> & W1) (t2 & -> & W2). exists (t2 ++ t1).
    split; [by rewrite <- app_assoc|]. intros r. by rewrite writes_app, W1, W2.
Qed.

Lemma only_reads_rd r v h h' : only_reads h h' -> only_reads h (Rd r v :: h').
Proof. intros (tr & -> & Hw). exists (Rd r v :: tr). by split. Qed.

Lemma setup_pending_reads tr : writes UEINTX tr = [] -> setup_pending tr = true.
Proof. intros Hw. unfold setup_pending. by rewrite Hw. Qed.

(** The standard requests the device answers, by type and code. *)
Definition supported `{UsbDevice G} (r : USB_Request_Header_t) : bool :=
  let v := u8 (wValue r) in
  let ep := Z.land (u8 (wIndex r)) ENDPOINT_EPNUM_MASK in
  match bRequest r, bmRequestType r with
  | 0, 0x80 | 0, 0x82 => true
  | 1, 0x00 | 3, 0x00 => v =? FEATURE_SEL_DeviceRemoteWakeup
  | 1, 0x02 | 3, 0x02 => negb ((v =? FEATURE_SEL_EndpointHalt) && (ep =? ENDPOINT_CONTROLEP))
  | 5, 0x00 => true
  | 6, 0x80 | 6, 0x81 =>
      (wValue r =? 0x3DC)
      || negb (fst (CALLBACK_USB_GetDescriptor (wValue r) (u8 (wIndex r))) =? NO_DESCRIPTOR)
  | 8, 0x80 => true
  | 9, 0x00 => v <=? FIXED_NUM_CONFIGURATIONS
  | _, _ => false
  end.

Section setup.
Context {G : Type} `{Hardware} `{Has UsbState G} `{UsbDevice G}.

(** The application's handler leaves a request it does not know alone. *)
Definition event_ignores (fuel : nat) (r : USB_Request_Header_t) : Prop :=
  forall s, USB_ControlRequest (proj (glob s)) = r ->
    wp_ False (EVENT_USB_Device_ControlRequest fuel)
      (fun _ s' => only_reads (hist s) (hist s') /\ glob s' = glob s) s.

Lemma read_bytes_spec hdr h0 n pre post tr (g : G) :
  setup_packet hdr h0 -> (forall r, writes r tr = []) -> rev (reads UEDATX tr) = pre ->
  hdr = pre ++ post -> length post = n ->
  wp_ False (read_bytes n) (fun l s' =>
    l = post /\ only_reads (tr ++ h0) (hist s') /\ glob s' = g) (St (tr ++ h0) g).
Proof.
  intros Hs. revert pre post tr. induction n as [|n IH]; intros pre post tr Hw Hr Hh Hl.
  - apply wp_ret. destruct post; [|done]. done.
  - destruct post as [|b post]; [done|]. cbn [read_bytes]. unfold Endpoint_Read_8. do 2 wp_step.
    assert (Hb : reg_trunc UEDATX (hw_value (tr ++ h0) UEDATX) = b).
    { apply (sp_byte _ _ Hs tr (length pre)); [done|by rewrite <- Hr, length_rev|].
      by rewrite Hh, list_lookup_middle. }
    rewrite Hb. wp_step.
    eapply wp_conseq; [apply (IH (pre ++ [b]) post (Rd UEDATX b :: tr))|exact (fun x : False => x)|].
    + done.
    + cbn [reads]. rewrite decide_True by done. cbn [rev]. by rewrite Hr.
    + by rewrite Hh, <- app_assoc.
    + by injection Hl.
    + intros l s' (-> & Ho & Hg). apply wp_ret. split; [done|]. split; [|done].
      etransitivity; [|exact Ho]. by apply only_reads_rd.
Qed.

(** Reading the header and offering it to the application. *)
Lemma setup_stage hdr fuel (s : st G) (m k : M G unit) Q :
  setup_packet hdr (hist s) -> event_ignores fuel (request_of hdr) ->
  (forall h', only_reads (hist s) h' ->
     wp_ False (m ;; k) Q (St h' (inj (set_ControlRequest (request_of hdr) (proj (glob s))) (glob s)))) ->
  wp_ False
    (header ← read_bytes 8;
     modc (set_ControlRequest (request_of header)) ;;
     EVENT_USB_Device_ControlRequest fuel ;;
     setup ← Endpoint_IsSETUPReceived;
     when setup m ;; k) Q s.
Proof.
  intros Hs He Hm. destruct s as [h g]. cbn [hist glob] in *. apply wp_bind.
  eapply wp_conseq; [apply (read_bytes_spec hdr h 8 [] hdr [] g Hs)|exact (fun x : False => x)|];
    try done. { apply (sp_len _ _ Hs). }
  intros l [h1 g1] (-> & Hr & Hg). cbn [hist glob app] in *. subst g1. do 2 wp_step. wp_step.
  eapply wp_conseq; [apply He; cbn [glob]; by rewrite proj_inj|exact (fun x : False => x)|].
  intros [] [h2 g2] [Hr2 Hg2]. cbn [hist glob] in *. subst g2.
  assert (Hr' : only_reads h h2) by (by etransitivity).
  destruct Hr' as (tr & -> & Hw). apply wp_bind, wp_flag. cbv zeta. cbn [hist glob].
  rewrite (sp_flag _ _ Hs tr), setup_pending_reads by done. cbn [when].
  apply Hm. apply only_reads_rd. by exists tr.
Qed.

Lemma feature_refused r (s : st G) :
  USB_ControlRequest (proj (glob s)) = r -> supported r = false ->
  bRequest r = 1 \/ bRequest r = 3 -> bmRequestType r = 0 \/ bmRequestType r = 2 ->
  change_feature s = Some (false, s).
Proof.
  intros Hr Hn Hb Ht. unfold change_feature, request, mbind, M_bind, getc, gets. rewrite Hr.
  unfold supported in Hn.
  assert (Hc : match bmRequestType r with
    | 0 => u8 (wValue r) =? FEATURE_SEL_DeviceRemoteWakeup
    | _ => negb ((u8 (wValue r) =? FEATURE_SEL_EndpointHalt) &&
                 (Z.land (u8 (wIndex r)) ENDPOINT_EPNUM_MASK =? ENDPOINT_CONTROLEP))
    end = false) by (destruct Hb as [E|E], Ht as [E'|E']; by rewrite E, E' in *).
  clear Hn Hb. destruct Ht as [E | E]; rewrite E in *.
  - change (Z.land 0 CONTROL_REQTYPE_RECIPIENT =? REQREC_DEVICE) with true. by rewrite Hc.
  - change (Z.land 2 CONTROL_REQTYPE_RECIPIENT =? REQREC_DEVICE) with false.
    change (Z.land 2 CONTROL_REQTYPE_RECIPIENT =? REQREC_ENDPOINT) with true.
    apply negb_false_iff, andb_prop in Hc as [-> ->]. done.
Qed.

Lemma descriptor_refused fuel r (s : st G) :
  USB_ControlRequest (proj (glob s)) = r -> supported r = false ->
  bRequest r = 6 -> bmRequestType r = 0x80 \/ bmRequestType r = 0x81 ->
  USB_Device_GetDescriptor fuel s = Some (tt, s).
Proof.
  intros Hr Hn Hb Ht. unfold USB_Device_GetDescriptor, request, mbind, M_bind, getc, gets.
  rewrite Hr. unfold supported in Hn. rewrite Hb in Hn.
  assert (Hc : (wValue r =? 0x3DC) || negb
    (fst (CALLBACK_USB_GetDescriptor (wValue r) (u8 (wIndex r))) =? NO_DESCRIPTOR) = false)
    by (destruct Ht as [E|E]; by rewrite E in Hn).
  apply orb_false_elim in Hc as [Hc Hd%negb_false_iff].
  change (Z.lor (Z.shiftl DTYPE_String 8) USE_INTERNAL_SERIAL) with 0x3DC. rewrite Hc.
  destruct (CALLBACK_USB_GetDescriptor _ _) as [z p]. cbn [fst] in Hd. by rewrite Hd.
Qed.

Lemma unsupported_ignored fuel r (s : st G) :
  USB_ControlRequest (proj (glob s)) = r -> supported r = false ->
  standard_request fuel s = Some (tt, s).
Proof.
  intros Hr Hn. pose proof (feature_refused r s Hr Hn) as Hfeat.
  pose proof (descriptor_refused fuel r s Hr Hn) as Hdesc.
  unfold standard_request, request. unfold mbind at 1, M_bind, getc, gets. rewrite Hr.
  unfold supported in Hn. destruct r as [t b v i n].
  cbn [bmRequestType bRequest wValue wIndex] in *.
  change (Z.lor (Z.lor REQDIR_DEVICETOHOST REQTYPE_STANDARD) REQREC_DEVICE) with 0x80.
  change (Z.lor (Z.lor REQDIR_DEVICETOHOST REQTYPE_STANDARD) REQREC_INTERFACE) with 0x81.
  change (Z.lor (Z.lor REQDIR_DEVICETOHOST REQTYPE_STANDARD) REQREC_ENDPOINT) with 0x82.
  change (Z.lor (Z.lor REQDIR_HOSTTODEVICE REQTYPE_STANDARD) REQREC_DEVICE) with 0x00.
  change (Z.lor (Z.lor REQDIR_HOSTTODEVICE REQTYPE_STANDARD) REQREC_ENDPOINT) with 0x02.
  unfold REQ_GetStatus, REQ_ClearFeature, REQ_SetFeature, REQ_SetAddress, REQ_GetDescriptor,
    REQ_GetConfiguration, REQ_SetConfiguration.
  repeat match goal with
  | |- context [?x =? ?y] =>
      is_var x; destruct (Z.eqb_spec x y) as [->|]; cbn [Z.eqb Pos.eqb orb when]
  end; try done.
  all: try (apply Hdesc; auto).
  all: try (unfold USB_Device_ClearSetFeature, mbind, M_bind; rewrite Hfeat by auto; reflexivity).
  unfold USB_Device_SetConfiguration, request, mbind, M_bind, getc, gets. rewrite Hr.
  cbn [wValue]. by rewrite Z.ltb_antisym, Hn.
Qed.
End setup.

Section unsupported.
Context {G : Type} `{Hardware} `{Has UsbState G} `{UsbDevice G}.

(** A request the device does not support is refused and nothing else
    happens: whatever SETUP packet comes that neither the application nor the
    table of standard requests knows (a wrong direction or recipient, an
    unknown code, a missing descriptor, a configuration above 1, a feature
    selector the recipient does not have, a halt of the control endpoint),
    [USB_Device_ProcessControlRequest] terminates with the control endpoint
    stalled and the SETUP flag cleared, records the request, and writes no
    other register and no other variable. *)
Theorem unsupported_request_stalled hdr fuel (s : st G) :
  setup_packet hdr (hist s) -> event_ignores fuel (request_of hdr) ->
  supported (request_of hdr) = false ->
  wp_ False (USB_Device_ProcessControlRequest fuel) (fun _ s' =>
    glob s' = inj (set_ControlRequest (request_of hdr) (proj (glob s))) (glob s)
    /\ exists tr v w, hist s' = tr ++ hist s
      /\ writes UECONX tr = [v] /\ Z.testbit v STALLRQ = true
      /\ writes UEINTX tr = [w] /\ Z.testbit w RXSTPI = false
      /\ forall r, r <> UECONX -> r <> UEINTX -> writes r tr = []) s.
Proof.
  intros Hs He Hn. unfold USB_Device_ProcessControlRequest.
  apply (setup_stage hdr); [done|done|]. intros h' (tr & -> & Hw). apply wp_bind.
  eapply wp_eq; [apply (unsupported_ignored fuel (request_of hdr)); [|done];
    cbn [glob]; by rewrite proj_inj|].
  apply wp_bind, wp_flag. cbv zeta. cbn [hist glob].
  rewrite (sp_flag _ _ Hs tr), setup_pending_reads by done. cbn [when].
  unfold Endpoint_StallTransaction, Endpoint_ClearSETUP. wp_run. split; [done|].
  rewrite !app_comm_cons. eexists _, _, _. split; [reflexivity|].
  cbn [writes]. reg_decide. rewrite !Hw.
  split_and!; [reflexivity|by reg_bits|reflexivity|by reg_bits|].
  intros r H2 H3. cbn [writes]. reg_decide. apply Hw.
Qed.
End unsupported.

(** ** GET_DESCRIPTOR *)

(** The SETUP packet has just been acknowledged. *)
Definition acknowledged (tr : history) : Prop :=
  exists w tr', tr = Wr UEINTX w :: tr' /\ writes UEINTX tr' = []
    /\ Z.testbit w RXSTPI = false.

(** What the host has seen of a data stage of [N] bytes answered with [data]:
    the packets [sent], the acknowledgement of its status packet, and no stall. *)
Definition data_stage_done (N : Z) (data : list Z) (h0 h' : history) : Prop :=
  exists tr tr0 v w, acknowledged tr0 /\ only_reads (Wr UEINTX w :: Rd UEINTX v :: tr ++ tr0 ++ h0) h'
    /\ concat (sent tr) = data /\ Forall full (removelast (sent tr)) /\ data_done N tr
    /\ Z.testbit w RXOUTI = false /\ writes UECONX tr = [].

(** The data stage before the acknowledgement of the status packet. *)
Definition data_written (N : Z) (data : list Z) (h0 h' : history) : Prop :=
  exists tr tr0, acknowledged tr0 /\ h' = tr ++ tr0 ++ h0
    /\ concat (sent tr) = data /\ Forall full (removelast (sent tr)) /\ data_done N tr
    /\ writes UECONX tr = [].

Section data_stage.
Context {G : Type} `{Hardware} `{Has UsbState G}.

Lemma data_stage_write k fuel mem size tr0 h (g : G) :
  let N := wLength (USB_ControlRequest (proj g)) in
  let L := Z.min size N in
  acknowledged tr0 -> control_reader k N (tr0 ++ h) ->
  Forall is_u8 mem -> is_u16 size -> is_u16 N -> size <= zlen mem ->
  ((2 * Z.to_nat L + 1) * S k + k < fuel)%nat ->
  wp_ False (Endpoint_Write_Control_Stream_LE fuel mem size) (fun _ s' =>
    data_written N (take (Z.to_nat L) mem) h (hist s') /\ glob s' = g) (St (tr0 ++ h) g).
Proof.
  intros N L Hack Hhost Hm Hsz HN Hzl Hf. eapply wp_conseq; [|exact (fun x : False => x)|].
  { apply (wp_frame False (frame not_fifo eq)); [exact _|].
    by apply (control_write_spec k fuel mem size (St (tr0 ++ h) g)). }
  intros e [h1 g1] [[_ (tr & Hh & Hc & Hfull & Hd)] [(tr' & Hh' & Hw) Hg]].
  cbn [hist glob] in *. subst g1. rewrite Hh' in Hh. apply app_inv_tail in Hh as ->.
  split; [|done]. exists tr, tr0. split_and!; try done. by apply Hw.
Qed.

Lemma data_stage_close N data h0 h1 (g : G) :
  data_written N data h0 h1 ->
  wp_ False Endpoint_ClearOUT (fun _ s' => data_stage_done N data h0 (hist s') /\ glob s' = g) (St h1 g).
Proof.
  intros (tr & tr0 & Hack & -> & Hc & Hfull & Hd & Hw). unfold Endpoint_ClearOUT. wp_run. cbn [hist glob].
  split; [|done]. eexists tr, tr0, _, _. split_and!; [done|reflexivity|done|done|done|by reg_bits|done].
Qed.
End data_stage.

Section get_descriptor.
Context {G : Type} `{Hardware} `{Has UsbState G} `{UsbDevice G}.

Lemma get_descriptor_dispatch fuel r (s : st G) :
  USB_ControlRequest (proj (glob s)) = r -> bRequest r = REQ_GetDescriptor ->
  bmRequestType r = 0x80 \/ bmRequestType r = 0x81 ->
  standard_request fuel s = USB_Device_GetDescriptor fuel s.
Proof.
  intros Hr Hb Ht. unfold standard_request, request. unfold mbind at 1, M_bind, getc, gets.
  rewrite Hr, Hb. by destruct Ht as [-> | ->].
Qed.

(** The data stage of a descriptor in memory [mem]. *)
Lemma descriptor_data_stage k fuel mem size (s : st G) :
  let N := wLength (USB_ControlRequest (proj (glob s))) in
  let L := Z.min size N in
  (forall tr, acknowledged tr -> control_reader k N (tr ++ hist s)) ->
  Forall is_u8 mem -> is_u16 size -> is_u16 N -> size <= zlen mem ->
  ((2 * Z.to_nat L + 1) * S k + k < fuel)%nat ->
  wp_ False (Endpoint_ClearSETUP ;;
             Endpoint_Write_Control_PStream_LE fuel mem size ;;
             Endpoint_ClearOUT) (fun _ s' =>
    data_stage_done N (take (Z.to_nat L) mem) (hist s) (hist s') /\ glob s' = glob s) s.
Proof.
  intros N L Hhost Hm Hsz HN Hzl Hf. unfold Endpoint_ClearSETUP at 1. apply wp_bind. do 4 wp_step.
  set (v0 := reg_trunc UEINTX (hw_value (hist s) UEINTX)).
  set (w0 := reg_trunc UEINTX (clrbits v0 (BV RXSTPI))).
  assert (Hack : acknowledged [Wr UEINTX w0; Rd UEINTX v0]).
  { exists w0, [Rd UEINTX v0]. split_and!; [done|done|]. unfold w0. by reg_bits. }
  change (St (_ :: _ :: hist s) (glob s)) with (St ([Wr UEINTX w0; Rd UEINTX v0] ++ hist s) (glob s)).
  wp_call (data_stage_write k fuel mem size _ (hist s) (glob s) Hack (Hhost _ Hack) Hm Hsz HN Hzl Hf).
  intros e [h1 g1] [Hd Hg]. cbn [hist glob] in *. subst g1. by apply data_stage_close.
Qed.

Lemma acknowledged_pending tr tr0 : acknowledged tr0 -> setup_pending (tr ++ tr0) = false.
Proof.
  intros (w & tr' & -> & Hw & Hb). unfold setup_pending. rewrite writes_app, forallb_app.
  cbn [writes]. reg_decide. cbn [forallb]. rewrite anybit_BV, Hb by done. cbn [andb].
  by rewrite andb_false_r.
Qed.

(** Once a handler has acknowledged the SETUP packet nothing more is done. *)
Lemma setup_done hdr h0 h' (g : G) (Q : unit -> st G -> Prop) tr tr0 :
  setup_packet hdr h0 -> acknowledged tr0 -> h' = tr ++ tr0 ++ h0 ->
  (forall h'', only_reads h' h'' -> Q tt (St h'' g)) ->
  wp_ False (setup ← Endpoint_IsSETUPReceived;
             when setup (Endpoint_StallTransaction ;; Endpoint_ClearSETUP)) Q (St h' g).
Proof.
  intros Hs Ha -> HQ. apply wp_bind, wp_flag. cbv zeta. cbn [hist glob].
  rewrite app_assoc, (sp_flag _ _ Hs (tr ++ tr0)), acknowledged_pending by done.
  apply wp_ret, HQ. apply only_reads_rd. by rewrite <- app_assoc.
Qed.

Lemma get_descriptor_spec k fuel hdr mem size (s : st G) :
  let r := request_of hdr in
  let L := Z.min size (wLength r) in
  setup_packet hdr (hist s) -> event_ignores fuel r ->
  bRequest r = REQ_GetDescriptor -> bmRequestType r = 0x80 \/ bmRequestType r = 0x81 ->
  wValue r <> 0x3DC -> CALLBACK_USB_GetDescriptor (wValue r) (u8 (wIndex r)) = (size, mem) ->
  size <> NO_DESCRIPTOR ->
  (forall tr, acknowledged tr -> control_reader k (wLength r) (tr ++ hist s)) ->
  Forall is_u8 mem -> is_u16 size -> is_u16 (wLength r) -> size <= zlen mem ->
  ((2 * Z.to_nat L + 1) * S k + k < fuel)%nat ->
  wp_ False (USB_Device_ProcessControlRequest fuel) (fun _ s' =>
    data_stage_done (wLength r) (take (Z.to_nat L) mem) (hist s) (hist s')
    /\ glob s' = inj (set_ControlRequest r (proj (glob s))) (glob s)) s.
Proof.
  intros r L Hs He Hb Ht Hser Hcb Hnz Hhost Hm Hsz HN Hzl Hf.
  unfold USB_Device_ProcessControlRequest. apply (setup_stage hdr); [done|done|].
  intros h1 (t1 & -> & W1). fold r. set (g1 := inj _ _).
  assert (Hr : USB_ControlRequest (proj g1) = r) by (unfold g1; by rewrite proj_inj).
  apply wp_bind. unfold wp_ at 1. rewrite (get_descriptor_dispatch fuel r) by done.
  fold (wp_ False (USB_Device_GetDescriptor fuel) (fun a s' => wp_ False (setup ← Endpoint_IsSETUPReceived;
    when setup (Endpoint_StallTransaction ;; Endpoint_ClearSETUP))
      (fun _ s' => data_stage_done (wLength r) (take (Z.to_nat L) mem) (hist s) (hist s')
        /\ glob s' = g1) s') (St (t1 ++ hist s) g1)).
  unfold USB_Device_GetDescriptor, request. do 2 wp_step. cbn [glob]. rewrite Hr.
  change (Z.lor (Z.shiftl DTYPE_String 8) USE_INTERNAL_SERIAL) with 0x3DC.
  rewrite (proj2 (Z.eqb_neq _ _) Hser), Hcb. rewrite (proj2 (Z.eqb_neq _ _) Hnz).
  eapply wp_conseq; [apply (descriptor_data_stage k); cbn [glob hist]; rewrite ?Hr; try done|
                     exact (fun x : False => x)|].
  - intros tr (w & tr' & -> & Hw & Hbw). rewrite app_assoc. apply Hhost.
    exists w, (tr' ++ t1). split; [done|]. by rewrite writes_app, Hw, W1.
  - cbn [glob hist]. rewrite Hr. intros [] [h2 g2] [(tr & tr0 & v & w & Ha & Ho & Hd) Hg].
    cbn [hist glob] in *. subst g2.
    assert (Ha' : acknowledged (tr0 ++ t1)).
    { destruct Ha as (w' & tr' & -> & Hw & Hbw). exists w', (tr' ++ t1). split; [done|].
      by rewrite writes_app, Hw, W1. }
    rewrite (app_assoc tr0) in Ho. destruct Ho as (tr2 & -> & W2).
    eapply (setup_done hdr (hist s) _ _ _ (tr2 ++ Wr UEINTX w :: Rd UEINTX v :: tr) (tr0 ++ t1) Hs Ha').
    { rewrite <- ?app_assoc. cbn [app]. by rewrite <- ?app_assoc. }
    intros h3 Ho3. cbn [hist glob]. split; [|done].
    exists tr, (tr0 ++ t1), v, w. split; [done|]. split; [|done].
    etransitivity; [|exact Ho3]. by exists tr2.
Qed.

(** C21. A descriptor the device has is delivered: for any SETUP packet that
    asks for it, whatever the requested length, the device records the
    request, acknowledges the SETUP packet, sends exactly the first
    [min wLength size] bytes of the descriptor in 8-byte packets ended so that
    the host recognises the end, acknowledges the status stage, never stalls,
    and changes no other variable. *)
Theorem get_descriptor_served k fuel hdr mem size (s : st G) :
  let r := request_of hdr in
  let L := Z.min size (wLength r) in
  setup_packet hdr (hist s) -> event_ignores fuel r ->
  bRequest r = REQ_GetDescriptor -> bmRequestType r = 0x80 \/ bmRequestType r = 0x81 ->
  wValue r <> 0x3DC -> CALLBACK_USB_GetDescriptor (wValue r) (u8 (wIndex r)) = (size, mem) ->
  size <> NO_DESCRIPTOR ->
  (forall tr, acknowledged tr -> control_reader k (wLength r) (tr ++ hist s)) ->
  Forall is_u8 mem -> is_u16 size -> is_u16 (wLength r) -> size <= zlen mem ->
  ((2 * Z.to_nat L + 1) * S k + k < fuel)%nat ->
  wp_ False (USB_Device_ProcessControlRequest fuel) (fun _ s' =>
    data_stage_done (wLength r) (take (Z.to_nat L) mem) (hist s) (hist s')
    /\ glob s' = inj (set_ControlRequest r (proj (glob s))) (glob s)) s.
Proof. exact (get_descriptor_spec k fuel hdr mem size s). Qed.
End get_descriptor.

(** A prompt host that sends the SETUP packet [hdr], reads [N] bytes and takes
    each packet at the first poll. *)
Fixpoint after_ack (h : history) : option history :=
  match h with
  | [] => None
  | e :: h' =>
      match after_ack h' with
      | Some t => Some (e :: t)
      | None =>
          match e with
          | Wr UEINTX w => if anybit w (BV RXSTPI) then None else Some []
          | _ => None
          end
      end
  end.

Definition setup_host (hdr : list Z) (N : Z) : Hardware := fun h r =>
  match r with
  | UEDATX => default 0 (hdr !! length (reads UEDATX h))
  | GPIOR0 => DEVICE_STATE_Addressed
  | UEBCLX => zlen (bank (default [] (after_ack h)))
  | UEINTX =>
      match after_ack h with
      | None => BV RXSTPI
      | Some tr => if data_done_b N tr then BV RXOUTI else BV TXINI
      end
  | _ => 0
  end.

Lemma after_ack_pending h :
  setup_pending h = match after_ack h with None => true | Some _ => false end.
Proof.
  induction h as [|e h IH]; [done|]. cbn [after_ack]. unfold setup_pending in *.
  destruct e as [r v|r v|n]; cbn [writes].
  - rewrite IH. by destruct (after_ack h).
  - destruct (decide (UEINTX = r)) as [<-|Hr]; cbn [forallb].
    + rewrite IH. destruct (after_ack h); [by rewrite andb_false_r|].
      by destruct (anybit v (BV RXSTPI)).
    + rewrite IH. destruct (after_ack h); [done|]. by destruct r.
  - rewrite IH. by destruct (after_ack h).
Qed.

Lemma after_ack_app tr tr' :
  acknowledged tr -> after_ack (tr' ++ tr) = Some tr'.
Proof.
  intros (w & t & -> & Hw & Hb). induction tr' as [|e tr' IH]; cbn [app after_ack]; [|by rewrite IH].
  assert (after_ack t = None) as ->.
  { pose proof (after_ack_pending t) as Hp. rewrite setup_pending_reads in Hp by done.
    by destruct (after_ack t). }
  by rewrite anybit_BV, Hb.
Qed.

Lemma setup_host_packet hdr N :
  length hdr = 8%nat -> Forall is_u8 hdr -> @setup_packet (setup_host hdr N) hdr [].
Proof.
  intros Hl Hu. split; [done| |].
  - intros tr i b Hw Hi Hb. rewrite app_nil_r. unfold hw_value, setup_host. rewrite Hi, Hb.
    apply reg_trunc_u8; [done|]. exact (Forall_lookup_1 _ _ _ _ Hu Hb).
  - intros tr. rewrite app_nil_r, after_ack_pending. unfold hw_value, setup_host.
    destruct (after_ack tr) as [t|]; [|done]. by destruct (data_done_b N t).
Qed.

Lemma setup_host_reader hdr N tr :
  acknowledged tr -> @control_reader (setup_host hdr N) 0 N (tr ++ []).
Proof.
  intros Ha. rewrite app_nil_r.
  assert (Hd : forall tr, data_done_b N tr = true \/ data_done_b N tr = false /\ ~ data_done N tr).
  { intros t. rewrite <- data_done_b_spec. destruct (data_done_b N t); auto. }
  split; intros t; unfold hw_value, setup_host; rewrite ?(after_ack_app tr t Ha);
    cbn -[data_done_b].
  - done.
  - by destruct (data_done_b N t).
  - done.
  - intros _ Hn. destruct (Hd t) as [Ht|[-> _]]; [|done]. by apply data_done_b_spec in Ht.
  - destruct (Hd t) as [Ht|[-> _]]; [|done]. by apply data_done_b_spec in Ht.
  - intros _ Hdn. apply data_done_b_spec in Hdn. by rewrite Hdn.
Qed.

(** An application without requests of its own, whose only descriptor is an
    18-byte device descriptor. *)
#[local] Instance witness_device : UsbDevice UsbState := {
  EVENT_USB_Device_ControlRequest := fun _ => mret tt;
  EVENT_USB_Device_ConfigurationChanged := fun _ => mret tt;
  CALLBACK_USB_GetDescriptor := fun v _ => if v =? 0x100 then (18, seqZ 0 18) else (0, []);
}.

Lemma witness_ignores fuel r : @event_ignores UsbState _ witness_device fuel r.
Proof. intros s _. apply wp_ret. split; [reflexivity|done]. Qed.

(** GET_DESCRIPTOR(device) for 64 bytes: the 18 bytes in three packets. *)
Lemma get_descriptor_served_witness :
  let hdr := [0x80; 6; 0; 1; 0; 0; 64; 0] in
  wp_ False (@USB_Device_ProcessControlRequest UsbState (setup_host hdr 64) _ witness_device 100)
    (fun _ s' => data_stage_done 64 (seqZ 0 18) [] (hist s')) (St [] witness_usb).
Proof.
  intros hdr. refine (wp_conseq False _ _ _ _ _ (@get_descriptor_served UsbState (setup_host hdr 64) _
    witness_device 0 100 hdr (seqZ 0 18) 18 (St [] witness_usb)
    _ _ _ _ _ _ _ _ _ _ _ _ _) (fun x => x) _).
  - apply setup_host_packet; [done|]. apply (bool_decide_unpack _). vm_compute. exact I.
  - apply witness_ignores.
  - reflexivity.
  - left. reflexivity.
  - vm_compute. discriminate.
  - reflexivity.
  - discriminate.
  - intros tr Ha. apply (setup_host_reader hdr 64). exact Ha.
  - apply (bool_decide_unpack _). vm_compute. exact I.
  - apply (bool_decide_unpack _). vm_compute. exact I.
  - apply (bool_decide_unpack _). vm_compute. exact I.
  - vm_compute. discriminate.
  - vm_compute. lia.
  - intros [] s' [Hd _]. exact Hd.
Defined.

(** GET_DESCRIPTOR of a configuration this device does not have. *)
Lemma unsupported_request_stalled_witness :
  let hdr := [0x80; 6; 0; 2; 0; 0; 9; 0] in
  wp_ False (@USB_Device_ProcessControlRequest UsbState (setup_host hdr 9) _ witness_device 100)
    (fun _ s' => exists tr v, hist s' = tr ++ [] /\ writes UECONX tr = [v]
       /\ Z.testbit v STALLRQ = true) (St [] witness_usb).
Proof.
  intros hdr. refine (wp_conseq False _ _ _ _ _ (@unsupported_request_stalled UsbState
    (setup_host hdr 9) _ witness_device hdr 100 (St [] witness_usb) _ _ _) (fun x => x) _).
  - apply setup_host_packet; [done|]. apply (bool_decide_unpack _). vm_compute. exact I.
  - apply witness_ignores.
  - reflexivity.
  - intros [] s' [_ (tr & v & w & Hh & Hv & Hb & _)]. exists tr, v. split; [exact Hh|].
    split; [exact Hv|exact Hb].
Defined.

(** ** SET_ADDRESS and SET_CONFIGURATION *)

(** The status packet of an OUT request: the device has handed it over (a
    write of UEINTX with TXINI clear) and then seen the bank come back. *)
Definition status_sent (tr : history) : Prop :=
  exists v t1 w t0, tr = Rd UEINTX v :: t1 ++ Wr UEINTX w :: t0
    /\ anybit v (BV TXINI) = true /\ (forall r, writes r t1 = []) /\ Z.testbit w TXINI = false.

Section assign.
Context {G : Type} `{Hardware} `{Has UsbState G} `{UsbDevice G}.
Context (k fuel : nat) (Hr : responsive k) (Hfuel : (k < fuel)%nat).

(** The status stage of an OUT request. *)
Lemma status_in_spec (s : st G) :
  anybit (bmRequestType (USB_ControlRequest (proj (glob s)))) REQDIR_DEVICETOHOST = false ->
  wp_ False (Endpoint_ClearStatusStage fuel) (fun _ s' =>
    (exists w tr, hist s' = Wr UEINTX w :: tr ++ hist s /\ (forall r, writes r tr = [])
       /\ Z.testbit w TXINI = false) /\ glob s' = glob s) s.
Proof.
  intros Hd. unfold Endpoint_ClearStatusStage. do 2 wp_step. rewrite Hd.
  apply (wait_attached_total k fuel Hr Hfuel TXINI); [by left|].
  intros s' [(v & tr & Hh & Hw & _ & _) Hg]. unfold Endpoint_ClearIN. wp_run. cbn [hist glob].
  split; [|done]. eexists _, (Rd UEINTX _ :: Rd UEINTX v :: tr). rewrite Hh.
  split; [reflexivity|]. split; [done|]. by reg_bits.
Qed.

Lemma address_bits v a : Z.lor (Z.lor (Z.land v (BV ADDEN)) a) (BV ADDEN) = Z.lor (BV ADDEN) a.
Proof.
  apply Z.bits_inj'. intros i Hi. rewrite !Z.lor_spec, Z.land_spec.
  by destruct (Z.testbit v i), (Z.testbit (BV ADDEN) i), (Z.testbit a i).
Qed.

Lemma set_address_spec `{!Latch UDADDR} (s : st G) :
  let r := USB_ControlRequest (proj (glob s)) in
  let a := Z.land (wValue r) 0x7F in
  anybit (bmRequestType r) REQDIR_DEVICETOHOST = false ->
  wp_ False (USB_Device_SetAddress fuel) (fun _ s' =>
    glob s' = glob s
    /\ latch_value UDADDR (hist s') = Z.lor (BV ADDEN) a
    /\ last_wr GPIOR0 (hist s') =
         Some (if a =? 0 then DEVICE_STATE_Default else DEVICE_STATE_Addressed)
    /\ last_wr SREG (hist s') = Some (reg_trunc SREG (hw_value (hist s) SREG))
    /\ exists t1 t0 ta, hist s' = t1 ++ t0 ++ ta ++ hist s
         /\ acknowledged ta /\ status_sent t0 /\ writes UDADDR (t0 ++ ta) = []) s.
Proof.
  intros r a Hd. unfold USB_Device_SetAddress, request, Endpoint_ClearSETUP. wp_run.
  fold r. fold a. set (sr := reg_trunc SREG (hw_value (hist s) SREG)).
  match goal with |- wp_ _ _ _ (St (Wr UEINTX ?w0 :: ?x :: ?y :: ?z :: ?u :: hist s) _) =>
    set (w := w0); set (ta := [Wr UEINTX w; x; y; z; u]) end.
  assert (Ha : acknowledged ta).
  { eexists w, _. split; [reflexivity|]. split; [done|]. unfold w. by reg_bits. }
  assert (Hta : writes UDADDR ta = []) by done.
  eapply wp_conseq; [by apply status_in_spec|exact (fun x : False => x)|].
  intros [] [h1 g1] [(w1 & tr1 & Hh1 & W1 & Hb1) Hg1]. cbn [hist glob] in *. subst g1.
  apply wp_bind. eapply wp_conseq;
    [apply (busy_wait_total k fuel Hr Hfuel TXINI); by left|exact (fun x : False => x)|].
  intros [] [h2 g2] [(v2 & tr2 & Hh2 & W2 & _ & Hv2) Hg2]. cbn [hist glob] in *. subst g2.
  unfold USB_Device_SetDeviceAddress, set_DeviceState. wp_run. cbn [hist glob].
  fold sr. split; [done|].
  assert (Ha7 : is_u8 a).
  { unfold a, is_u8. change 0x7F with (Z.ones 7). rewrite Z.land_ones by lia.
    pose proof (Z.mod_pos_bound (wValue r) (2 ^ 7) ltac:(lia)). lia. }
  split; [|split; [|split; [|]]].
  - repeat first [rewrite latch_wr | rewrite latch_wr_ne by discriminate].
    assert (Haa : Z.land a 0x7F = a) by (unfold a; by rewrite <- Z.land_assoc).
    rewrite Haa, address_bits, reg_trunc_trunc. apply reg_trunc_u8; [done|].
    by apply u8_lor.
  - rewrite last_wr_cons_ne, last_wr_cons_eq by discriminate. by destruct (a =? 0).
  - rewrite last_wr_cons_eq. f_equal. apply reg_trunc_trunc.
  - eexists [_; _; _; _; _], (Rd UEINTX v2 :: tr2 ++ Wr UEINTX w1 :: tr1), ta.
    split; [|split; [done|split]].
    + rewrite Hh2, Hh1. cbn [app]. rewrite <- app_assoc. cbn [app]. by rewrite <- ?app_assoc.
    + exists v2, tr2, w1, tr1. done.
    + rewrite writes_app, Hta. cbn [writes]. reg_decide. rewrite writes_app, W2. cbn [writes app].
      reg_decide. by rewrite W1.
Qed.

(** The state in which the application is told of a new configuration. *)
Record configured (c : Z) (s s' : st G) : Prop := {
  cf_glob : glob s' = inj (set_ConfigurationNumber c (proj (glob s))) (glob s);
  cf_state : last_wr GPIOR0 (hist s') =
    Some (if negb (c =? 0) then DEVICE_STATE_Configured
          else if Z.testbit (latch_value UDADDR (hist s)) ADDEN then DEVICE_STATE_Configured
          else DEVICE_STATE_Powered);
  cf_hist : exists t1 ta, hist s' = t1 ++ ta ++ hist s /\ acknowledged ta
    /\ (exists w, In w (writes UEINTX t1) /\ Z.testbit w TXINI = false)
    /\ (forall r, r <> UEINTX -> r <> GPIOR0 -> writes r (t1 ++ ta) = []);
}.

Lemma set_configuration_spec `{!Latch UDADDR} (s : st G) Q :
  let r := USB_ControlRequest (proj (glob s)) in
  let c := u8 (wValue r) in
  c <= FIXED_NUM_CONFIGURATIONS ->
  anybit (bmRequestType r) REQDIR_DEVICETOHOST = false ->
  (forall s', configured c s s' -> wp_ False (EVENT_USB_Device_ConfigurationChanged fuel) Q s') ->
  wp_ False (USB_Device_SetConfiguration fuel) Q s.
Proof.
  intros r c Hc Hd HQ. unfold USB_Device_SetConfiguration, request, Endpoint_ClearSETUP.
  do 2 wp_step. fold r. fold c. rewrite (proj2 (Z.ltb_ge _ _)) by exact Hc. wp_run.
  match goal with |- wp_ _ _ _ (St (Wr UEINTX ?w0 :: ?x :: hist s) _) =>
    set (w := w0); set (ta := [Wr UEINTX w; x]) end.
  assert (Ha : acknowledged ta).
  { eexists w, _. split; [reflexivity|]. split; [done|]. unfold w. by reg_bits. }
  assert (Hta : forall x, x <> UEINTX -> writes x ta = []).
  { intros x Hx. unfold ta. cbn [writes]. by reg_decide. }
  eapply wp_conseq; [apply status_in_spec; cbn [glob]; by rewrite proj_inj|exact (fun x : False => x)|].
  intros [] [h1 g1] [(w1 & tr1 & Hh1 & W1 & Hb1) Hg1]. cbn [hist glob] in *. subst g1.
  unfold state_by_configuration, set_DeviceState. do 3 wp_step. cbn [glob]. rewrite proj_inj.
  cbn [set_ConfigurationNumber USB_Device_ConfigurationNumber].
  assert (Hw : forall x, x <> UEINTX -> writes x ((Wr UEINTX w1 :: tr1) ++ ta) = []).
  { intros x Hx. cbn [app writes]. reg_decide. by rewrite writes_app, W1, Hta. }
  assert (Hh : h1 = (Wr UEINTX w1 :: tr1) ++ ta ++ hist s) by (by rewrite Hh1).
  destruct (negb (c =? 0)) eqn:Hz.
  - wp_run. apply HQ. split; cbn [hist glob].
    + done.
    + by rewrite last_wr_cons_eq, Hz.
    + eexists (_ :: Wr UEINTX w1 :: tr1), ta. rewrite Hh. split; [reflexivity|]. split; [done|].
      split; [exists w1; split; [by left|done]|].
      intros x Hx Hx'. cbn [app writes]. reg_decide. by rewrite writes_app, W1, Hta.
  - unfold USB_Device_IsAddressSet. apply wp_bind, wp_bind, wp_flag. cbv zeta. cbn [hist glob].
    rewrite (latch_read (r := UDADDR)), anybit_BV by done.
    assert (Hl : latch_value UDADDR h1 = latch_value UDADDR (hist s)).
    { unfold latch_value. rewrite !last_wr_writes, Hh, app_assoc, writes_app.
      by rewrite (Hw UDADDR). }
    rewrite Hl. wp_run. apply HQ. split; cbn [hist glob].
    + done.
    + rewrite last_wr_cons_eq, Hz. by destruct (Z.testbit _ ADDEN).
    + eexists (_ :: _ :: Wr UEINTX w1 :: tr1), ta. rewrite Hh. split; [reflexivity|]. split; [done|].
      split; [exists w1; split; [by left|done]|].
      intros x Hx Hx'. cbn [app writes]. reg_decide. by rewrite writes_app, W1, Hta.
Qed.
End assign.

Section set_address.
Context {G : Type} `{Hardware} `{Has UsbState G} `{UsbDevice G}.

(** SET_ADDRESS takes effect, and not too early: with a host that takes
    its packets, the request terminates with the new address (and only it)
    enabled in the address register, the state Addressed (Default for address
    0), the interrupt flag restored, and the address register untouched until
    the status packet has been handed over and taken. *)
Theorem set_address_applied k fuel hdr `{!Latch UDADDR} (s : st G) :
  let r := request_of hdr in
  let a := Z.land (wValue r) 0x7F in
  responsive k -> (k < fuel)%nat ->
  setup_packet hdr (hist s) -> event_ignores fuel r ->
  bRequest r = REQ_SetAddress -> bmRequestType r = 0x00 ->
  wp_ False (USB_Device_ProcessControlRequest fuel) (fun _ s' =>
    glob s' = inj (set_ControlRequest r (proj (glob s))) (glob s)
    /\ latch_value UDADDR (hist s') = Z.lor (BV ADDEN) a
    /\ last_wr GPIOR0 (hist s') =
         Some (if a =? 0 then DEVICE_STATE_Default else DEVICE_STATE_Addressed)
    /\ exists t1 t0 ta, hist s' = t1 ++ t0 ++ ta ++ hist s
         /\ status_sent t0 /\ writes UDADDR (t0 ++ ta) = []) s.
Proof.
  intros r a Hr Hf Hs He Hb Ht. unfold USB_Device_ProcessControlRequest.
  apply (setup_stage hdr); [done|done|]. intros h1 (t1 & -> & W1). fold r. set (g1 := inj _ _).
  assert (Hreq : USB_ControlRequest (proj g1) = r) by (unfold g1; by rewrite proj_inj).
  apply wp_bind. unfold standard_request, request. do 2 wp_step. cbn [glob]. rewrite Hreq, Hb, Ht.
  cbn -[USB_Device_SetAddress wp_].
  eapply wp_conseq; [apply (set_address_spec k fuel Hr Hf); cbn [glob]; by rewrite Hreq, Ht|
                     exact (fun x : False => x)|].
  intros [] [h2 g2] (Hg & Ha & Hst & _ & t2 & t0 & ta & Hh & Hack & Hsent & Hu).
  cbn [hist glob] in *. subst g2. rewrite Hreq in *.
  assert (Hack' : acknowledged (ta ++ t1)).
  { destruct Hack as (w & tr' & -> & Hw & Hbw). exists w, (tr' ++ t1). split; [done|].
    by rewrite writes_app, Hw, W1. }
  apply (setup_done hdr (hist s) h2 g1 _ (t2 ++ t0) (ta ++ t1) Hs Hack').
  { rewrite Hh. by rewrite <- !app_assoc. }
  intros h3 (t3 & -> & W3). cbn [hist glob]. split; [done|].
  unfold latch_value in *. rewrite !last_wr_writes, !writes_app, !W3 in *. cbn [app].
  split; [exact Ha|split; [exact Hst|]].
  - exists (t3 ++ t2), t0, (ta ++ t1). split; [rewrite Hh; by rewrite <- !app_assoc|].
    split; [done|]. by rewrite !writes_app, app_assoc, Hu, W1.
Qed.
End set_address.

(** A host whose flags are always up, after the SETUP packet [hdr]. *)
Definition ready_host (hdr : list Z) : Hardware := fun h r =>
  match r with
  | UEDATX => default 0 (hdr !! length (reads UEDATX h))
  | GPIOR0 => DEVICE_STATE_Default
  | UEINTX => if setup_pending h then 13 else 5
  | _ => default 0 (last_wr r h)
  end.

Lemma ready_host_packet hdr :
  length hdr = 8%nat -> Forall is_u8 hdr -> @setup_packet (ready_host hdr) hdr [].
Proof.
  intros Hl Hu. split; [done| |].
  - intros tr i b Hw Hi Hb. rewrite app_nil_r. unfold hw_value, ready_host. rewrite Hi, Hb.
    apply reg_trunc_u8; [done|]. exact (Forall_lookup_1 _ _ _ _ Hu Hb).
  - intros tr. rewrite app_nil_r. unfold hw_value, ready_host. by destruct (setup_pending tr).
Qed.

Lemma ready_host_responsive hdr : @responsive (ready_host hdr) 0.
Proof.
  split; [|done]. intros h _. unfold hw_value, ready_host. by destruct (setup_pending h).
Qed.

Lemma ready_host_latch hdr r :
  r <> UEDATX -> r <> GPIOR0 -> r <> UEINTX -> @Latch (ready_host hdr) r.
Proof.
  intros H1 H2 H3 h. unfold latch_value, hw_value, ready_host.
  destruct r; try done; by destruct (last_wr _ h).
Qed.

Lemma set_address_applied_witness :
  let hdr := [0x00; 5; 42; 0; 0; 0; 0; 0] in
  wp_ False (@USB_Device_ProcessControlRequest UsbState (ready_host hdr) _ witness_device 10)
    (fun _ s' => latch_value (H := ready_host hdr) UDADDR (hist s') = 0x80 + 42
       /\ last_wr GPIOR0 (hist s') = Some DEVICE_STATE_Addressed) (St [] witness_usb).
Proof.
  intros hdr. refine (wp_conseq False _ _ _ _ _ (@set_address_applied UsbState (ready_host hdr) _
    witness_device 0 10 hdr (ready_host_latch hdr UDADDR _ _ _) (St [] witness_usb)
    (ready_host_responsive hdr) _ (ready_host_packet hdr _ _) (witness_ignores 10 _) _ _)
    (fun x => x) _).
  - discriminate.
  - discriminate.
  - discriminate.
  - lia.
  - reflexivity.
  - apply (bool_decide_unpack _). vm_compute. exact I.
  - reflexivity.
  - reflexivity.
  - intros [] s' (_ & Ha & Hs & _). split; [rewrite Ha; reflexivity|exact Hs].
Defined.
