(* ===== verification/ControlPackets.v ===== *)
(** * Control-OUT data stages, packet by packet

    A host that sends the data stage of a control request, and the accesses a
    program reads it with that does not use the stream functions. *)

From S2P Require Import Prelude Machine Endpoint EndpointStream ControlRead Cdc StdReq.

(** ** The SETUP packet *)

Lemma acknowledged_app tr tr' : writes UEINTX tr' = [] -> acknowledged tr -> acknowledged (tr ++ tr').
Proof.
  intros He (w & t & -> & Hw & Hb). exists w, (t ++ tr'). split; [done|]. by rewrite writes_app, Hw, He.
Qed.
Lemma acknowledged_after tr e : writes UEINTX [e] = [] -> acknowledged tr -> acknowledged (tr ++ [e]).
Proof. apply acknowledged_app. Qed.

(** Acknowledging the SETUP packet. *)
Lemma clear_setup_ack `{Hardware} {G} (h : history) (g : G) (Q : unit -> st G -> Prop) :
  (forall tr, acknowledged tr -> Q tt (St (tr ++ h) g)) -> wp_ False Endpoint_ClearSETUP Q (St h g).
Proof.
  intros HQ. unfold Endpoint_ClearSETUP, reg_clr. do 3 wp_step.
  set (v := reg_trunc UEINTX (hw_value h UEINTX)).
  apply (HQ [Wr UEINTX (reg_trunc UEINTX (clrbits v (BV RXSTPI))); Rd UEINTX v]).
  eexists _, [_]. split_and!; [reflexivity|done|]. by reg_bits.
Qed.

(** A prompt host that sends a command in the packets [ps]. *)
Definition command_host (ps : list (list Z)) : Hardware := fun h r =>
  let tr := default [] (after_ack h) in
  let p := default [] (ps !! released tr) in
  match r with
  | GPIOR0 => DEVICE_STATE_Configured
  | UEBCLX => zlen (drop (got tr) p)
  | UEDATX => default 0 (p !! got tr)
  | UEINTX =>
      match after_ack h with
      | None => BV RXSTPI
      | Some tr => if (released tr <? length ps)%nat then BV RXOUTI else BV TXINI
      end
  | _ => 0
  end.

Lemma command_host_writer `{Hardware} ps tr :
  Forall (Forall is_u8) ps -> Forall (fun p => length p < 256)%nat ps -> acknowledged tr ->
  (forall t r, hw_value (t ++ tr) r = command_host ps (t ++ tr) r) -> control_writer 0 ps tr.
Proof.
  intros H8 Hl Ha Hv.
  assert (Hdrop : forall (p : list Z) j, (length p < 256)%nat -> is_u8 (zlen (drop j p))).
  { intros p j Hp. unfold is_u8, zlen. rewrite length_drop. lia. }
  split; intros t; rewrite Hv; unfold command_host; rewrite ?(after_ack_app tr t Ha);
    change (default [] (Some t)) with t.
  - done.
  - by destruct (_ <? _)%nat.
  - intros p Hp. rewrite Hp. apply reg_trunc_u8; [done|].
    apply Hdrop. exact (Forall_lookup_1 _ _ _ _ Hl Hp).
  - intros p x Hp Hx. rewrite Hp. change (default [] (Some p)) with p. rewrite Hx. apply reg_trunc_u8; [done|].
    exact (Forall_lookup_1 _ _ _ _ (Forall_lookup_1 _ _ _ _ H8 Hp) Hx).
  - intros _ Hr. by rewrite (proj2 (Nat.ltb_lt _ _) Hr).
  - destruct (Nat.ltb_spec (released t) (length ps)); done.
  - intros _ Hr. by rewrite (proj2 (Nat.ltb_ge _ _) Hr).
Qed.

(** A data stage served to the end: every packet of it has been given back
    and then, with the bank for the status packet free, that packet handed
    over. *)
Definition stage_served (ps : list (list Z)) (h0 h' : history) : Prop :=
  exists w v f t, h' = Wr UEINTX w :: Rd UEINTX v :: Rd UEINTX f :: t ++ h0
    /\ released t = length ps /\ anybit f (BV TXINI) = true /\ Z.testbit w TXINI = false.

(** A control-OUT request acknowledged: its SETUP packet, and its stages. *)
Definition request_served (ps : list (list Z)) (h h' : history) : Prop :=
  exists tr, acknowledged tr /\ stage_served ps (tr ++ h) h'.

(** ** The cursor *)

Section cursor.
Context {G : Type} `{Hardware} (k fuel : nat) (ps : list (list Z)) (h0 : history).
Context (Hhost : control_writer k ps h0) (Hfuel : (k < fuel)%nat).

(** What is left of the packet in the bank. *)
Definition in_hand (tr : history) : list Z := drop (got tr) (default [] (ps !! released tr)).
(** [bs] is what is still to come, of this packet and the next. *)
Definition upcoming (bs : list Z) (tr : history) : Prop :=
  (released tr < length ps)%nat /\ bs = in_hand tr ++ concat (drop (S (released tr)) ps).

(** Accesses that do not move it. *)
Lemma cursor_eq tr tr' bs :
  released tr' = released tr -> got tr' = got tr -> upcoming bs tr -> upcoming bs tr' /\ in_hand tr' = in_hand tr.
Proof using. intros Hr Hg [Hl Hb]. unfold upcoming, in_hand. by rewrite Hr, Hg. Qed.

(** At the start, all of the first packet is in hand. *)
Lemma upcoming_start q tr :
  ps !! 0%nat = Some q -> released tr = O -> got tr = O -> upcoming (concat ps) tr /\ in_hand tr = q.
Proof using.
  intros Hq Hr Hg. unfold upcoming, in_hand. rewrite Hr, Hg, Hq. split; [split|done].
  - by apply lookup_lt_Some in Hq.
  - rewrite <- (drop_0 ps) at 1. by rewrite (drop_S ps q 0 Hq).
Qed.

Lemma upcoming_next tr bs :
  upcoming bs tr -> in_hand tr = [] -> bs <> [] -> (S (released tr) < length ps)%nat.
Proof using Hfuel.
  intros [Hl ->] Hh Hb. rewrite Hh in Hb. destruct (decide (S (released tr) < length ps)%nat); [done|].
  by rewrite drop_ge in Hb by lia.
Qed.

(** A wait for a flag that comes up while the cursor stays. *)
Lemma await_spec n (g : G) tr (Q : bool -> st G -> Prop) :
  (forall tr', released tr' = released tr -> (k <= polls tr')%nat ->
     anybit (reg_trunc UEINTX (hw_value (tr' ++ h0) UEINTX)) (BV n) = true) ->
  (forall v tr', released tr' = released tr -> got tr' = got tr -> anybit v (BV n) = true ->
     Q true (St (Rd UEINTX v :: tr' ++ h0) g)) ->
  wp_ False (until_ready fuel (v ← rd UEINTX; mret (anybit v (BV n)))) Q (St (tr ++ h0) g).
Proof using Hhost Hfuel.
  intros Hup HQ. unfold until_ready. apply (wp_loop_total _
    (fun _ s' => exists tr', s' = St (tr' ++ h0) g /\ released tr' = released tr /\ got tr' = got tr)
    (fun _ s' => (k - polls (take (length (hist s') - length h0) (hist s')))%nat)); [by exists tr|lia|].
  intros [] s' (tr' & -> & Hr' & Hg'). cbn [hist]. rewrite length_app, Nat.add_sub, take_app_length.
  apply wp_bind, wp_flag. cbv zeta. cbn [hist glob].
  pose proof (Hup tr' Hr') as Hout. set (v := reg_trunc UEINTX _) in *. clearbody v.
  destruct (anybit v (BV n)) eqn:Ev.
  - apply wp_ret. by apply HQ.
  - unfold get_DeviceState. do 2 wp_step. pose proof (hw_attached _ _ _ Hhost (Rd UEINTX v :: tr')) as [Hd _].
    cbn [app] in Hd. set (d := reg_trunc GPIOR0 _) in *. clearbody d. rewrite (proj2 (Z.eqb_neq _ _) Hd).
    apply wp_ret. split; [by exists (Rd GPIOR0 d :: Rd UEINTX v :: tr')|].
    cbn [hist]. rewrite !app_comm_cons, length_app, Nat.add_sub, take_app_length. cbn [polls].
    destruct (decide (k <= polls tr')%nat); [|lia]. by discriminate Hout.
Qed.

(** The next packet, and the status packet. *)
Lemma await_out_spec (g : G) tr (Q : bool -> st G -> Prop) :
  (released tr < length ps)%nat ->
  (forall tr', released tr' = released tr -> got tr' = got tr -> Q true (St (tr' ++ h0) g)) ->
  wp_ False (until_ready fuel Endpoint_IsOUTReceived) Q (St (tr ++ h0) g).
Proof using Hhost Hfuel.
  intros Hr HQ. apply await_spec; [|intros v tr' Hr' Hg' _; by apply (HQ (Rd UEINTX v :: tr'))].
  intros tr' Hr' Hk. apply (hw_out _ _ _ Hhost tr' Hk). by rewrite Hr'.
Qed.
Lemma await_in_spec (g : G) tr (Q : bool -> st G -> Prop) :
  (length ps <= released tr)%nat ->
  (forall v tr', released tr' = released tr -> anybit v (BV TXINI) = true -> Q true (St (Rd UEINTX v :: tr' ++ h0) g)) ->
  wp_ False (until_ready fuel Endpoint_IsINReady) Q (St (tr ++ h0) g).
Proof using Hhost Hfuel.
  intros Hr HQ. apply await_spec; [|intros v tr' Hr' _; by apply HQ].
  intros tr' Hr' Hk. apply (hw_status _ _ _ Hhost tr' Hk). by rewrite Hr'.
Qed.

(** The same, by a loop that does not look at the state of the device. *)
Lemma busy_out_spec (g : G) tr (Q : unit -> st G -> Prop) :
  (released tr < length ps)%nat ->
  (forall tr', released tr' = released tr -> got tr' = got tr -> Q tt (St (tr' ++ h0) g)) ->
  wp_ False (busy_wait fuel Endpoint_IsOUTReceived) Q (St (tr ++ h0) g).
Proof using Hhost Hfuel.
  intros Hr HQ. unfold busy_wait. apply (wp_loop_total _
    (fun _ s' => exists tr', s' = St (tr' ++ h0) g /\ released tr' = released tr /\ got tr' = got tr)
    (fun _ s' => (k - polls (take (length (hist s') - length h0) (hist s')))%nat)); [by exists tr|lia|].
  intros [] s' (tr' & -> & Hr' & Hg'). cbn [hist]. rewrite length_app, Nat.add_sub, take_app_length.
  unfold Endpoint_IsOUTReceived. apply wp_bind, wp_flag. cbv zeta. cbn [hist glob].
  pose proof (hw_out _ _ _ Hhost tr') as Hout. set (v := reg_trunc UEINTX _) in *. clearbody v.
  destruct (anybit v (BV RXOUTI)); apply wp_ret; [by apply (HQ (Rd UEINTX v :: tr'))|].
  split; [by exists (Rd UEINTX v :: tr')|].
  cbn [hist]. rewrite !app_comm_cons, length_app, Nat.add_sub, take_app_length. cbn [polls].
  destruct (decide (k <= polls tr')%nat); [|lia]. rewrite Hr' in Hout. by discriminate Hout.
Qed.

Lemma bytes_in_spec (g : G) tr bs (Q : Z -> st G -> Prop) :
  upcoming bs tr ->
  (forall tr', released tr' = released tr -> got tr' = got tr -> Q (zlen (in_hand tr)) (St (tr' ++ h0) g)) ->
  wp_ False Endpoint_BytesInEndpoint Q (St (tr ++ h0) g).
Proof using Hhost.
  intros [Hl _] HQ. unfold Endpoint_BytesInEndpoint. apply wp_rd. cbv zeta. cbn [hist glob].
  destruct (lookup_lt_is_Some_2 ps _ Hl) as [p Hp]. rewrite (hw_count _ _ _ Hhost tr p Hp).
  unfold in_hand in HQ. rewrite Hp in HQ. by apply (HQ (Rd UEBCLX _ :: tr)).
Qed.

Lemma clear_out_cursor (g : G) tr (Q : unit -> st G -> Prop) :
  (forall tr', released tr' = S (released tr) -> got tr' = O -> Q tt (St (tr' ++ h0) g)) ->
  wp_ False Endpoint_ClearOUT Q (St (tr ++ h0) g).
Proof using.
  intros HQ. unfold Endpoint_ClearOUT, reg_clr. do 3 wp_step. set (v := reg_trunc UEINTX (hw_value _ _)).
  assert (Hv : is_u8 v) by (unfold v, reg_trunc; apply u8_range).
  pose proof (release_out v (BV FIFOCON) Hv) as Hw.
  apply (HQ (Wr UEINTX _ :: Rd UEINTX v :: tr)); cbn [released got]; by rewrite Hw.
Qed.

(** The first byte of the next packet is next. *)
Lemma next_in_hand tr tr' bs :
  upcoming bs tr -> in_hand tr = [] -> bs <> [] -> released tr' = S (released tr) -> got tr' = O ->
  upcoming bs tr' /\ ps !! released tr' = Some (in_hand tr').
Proof using Hfuel.
  intros Hu Hh Hb Hr Hg. pose proof (upcoming_next _ _ Hu Hh Hb) as Hn. destruct Hu as [_ Hbs]. rewrite Hh in Hbs.
  destruct (lookup_lt_is_Some_2 ps _ Hn) as [p Hp]. rewrite <- Hr in Hp.
  assert (Hp2 : in_hand tr' = p) by (unfold in_hand; by rewrite Hp, Hg). rewrite Hp2. split; [|done].
  split; [lia|]. rewrite Hp2, Hbs, <- Hr. cbn [app]. by rewrite (drop_S ps p _ Hp).
Qed.

(** [Endpoint_ClearOUT], then the wait: the next packet is in the bank. *)
Lemma turn_page (g : G) tr bs (Q : bool -> st G -> Prop) :
  upcoming bs tr -> in_hand tr = [] -> bs <> [] ->
  (forall tr', released tr' = S (released tr) -> upcoming bs tr' -> ps !! released tr' = Some (in_hand tr') ->
    Q true (St (tr' ++ h0) g)) ->
  wp_ False (Endpoint_ClearOUT ;; until_ready fuel Endpoint_IsOUTReceived) Q (St (tr ++ h0) g).
Proof using Hhost Hfuel.
  intros Hu Hh Hb HQ. pose proof (upcoming_next _ _ Hu Hh Hb) as Hn.
  apply wp_bind, clear_out_cursor. intros tr1 Hr1 Hg1. apply await_out_spec; [lia|]. intros tr2 Hr2 Hg2.
  destruct (next_in_hand tr tr2 bs) as [Hu2 Hp2]; [done|done|done|congruence|congruence|]. apply HQ; [congruence|done|done].
Qed.
Lemma turn_page_busy (g : G) tr bs (Q : unit -> st G -> Prop) :
  upcoming bs tr -> in_hand tr = [] -> bs <> [] ->
  (forall tr', upcoming bs tr' -> ps !! released tr' = Some (in_hand tr') -> Q tt (St (tr' ++ h0) g)) ->
  wp_ False (Endpoint_ClearOUT ;; busy_wait fuel Endpoint_IsOUTReceived) Q (St (tr ++ h0) g).
Proof using Hhost Hfuel.
  intros Hu Hh Hb HQ. pose proof (upcoming_next _ _ Hu Hh Hb) as Hn.
  apply wp_bind, clear_out_cursor. intros tr1 Hr1 Hg1. apply busy_out_spec; [lia|]. intros tr2 Hr2 Hg2.
  destruct (next_in_hand tr tr2 bs) as [Hu2 Hp2]; [done|done|done|congruence|congruence|]. by apply HQ.
Qed.

(** A byte of the packet in hand. *)
Lemma read_byte_spec (g : G) tr x q (Q : Z -> st G -> Prop) :
  in_hand tr = x :: q -> (released tr < length ps)%nat ->
  (forall tr', released tr' = released tr -> in_hand tr' = q -> Q x (St (tr' ++ h0) g)) ->
  wp_ False (rd UEDATX) Q (St (tr ++ h0) g).
Proof using Hhost.
  intros Hh Hl HQ. apply wp_rd. cbv zeta. cbn [hist glob].
  destruct (lookup_lt_is_Some_2 ps _ Hl) as [p Hp]. unfold in_hand in *. rewrite Hp in Hh. change (default [] (Some p)) with p in Hh.
  assert (Hx : p !! got tr = Some x) by (rewrite <- (Nat.add_0_r (got tr)), <- lookup_drop; by rewrite Hh).
  rewrite (hw_data _ _ _ Hhost tr p x Hp Hx). apply (HQ (Rd UEDATX x :: tr)); [done|].
  cbn [released got]. rewrite Hp. change (default [] (Some p)) with p.
  rewrite <- (Nat.add_1_r (got tr)), <- drop_drop, Hh. done.
Qed.

Lemma upcoming_read tr tr' x q bs :
  upcoming bs tr -> in_hand tr = x :: q -> released tr' = released tr -> in_hand tr' = q -> upcoming (tl bs) tr'.
Proof using. intros [Hl ->] Hh Hr Hq. split; [by rewrite Hr|]. by rewrite Hh, Hr, Hq. Qed.
(** A word, when the packet in hand has an even number of bytes left. *)
Lemma read_word_spec (g : G) tr lo hi bs (Q : Z -> st G -> Prop) :
  upcoming (lo :: hi :: bs) tr -> in_hand tr <> [] -> Nat.Even (length (in_hand tr)) -> is_u8 lo ->
  (forall tr', upcoming bs tr' -> released tr' = released tr -> Nat.Even (length (in_hand tr')) ->
     Q (lo + 2 ^ 8 * hi) (St (tr' ++ h0) g)) ->
  wp_ False Endpoint_Read_16_LE Q (St (tr ++ h0) g).
Proof using Hhost Hfuel.
  intros [Hl Hbs] Hn He Hlo HQ. destruct (in_hand tr) as [|x1 [|x2 q]] eqn:Hq; [done|by destruct He as [r Hr]; cbn in Hr; lia|].
  cbn [app] in Hbs. injection Hbs as <- <- Hbs. unfold Endpoint_Read_16_LE.
  apply wp_bind, (read_byte_spec g tr lo (hi :: q)); [done|done|]. intros tr1 Hr1 Hq1.
  apply wp_bind, (read_byte_spec g tr1 hi q); [done|by rewrite Hr1|]. intros tr2 Hr2 Hq2. apply wp_ret.
  assert (Hw : le_value [lo; hi] = lo + 2 ^ 8 * hi).
  { cbn [le_value]. rewrite Z.shiftl_0_l, Z.lor_0_r. by apply le_value_split. }
  rewrite Hw. apply HQ; [|congruence|rewrite Hq2; destruct He as [r Hr]; cbn [length] in Hr; exists (r - 1)%nat; lia].
  split; [by rewrite Hr2, Hr1|]. by rewrite Hq2, Hr2, Hr1.
Qed.
(** The last packet is given back, and the status stage follows. *)
Lemma release_status `{Has UsbState G} (g : G) tr (Q : unit -> st G -> Prop) :
  S (released tr) = length ps -> anybit (bmRequestType (USB_ControlRequest (proj g))) REQDIR_DEVICETOHOST = false ->
  (forall h', stage_served ps h0 h' -> Q tt (St h' g)) ->
  wp_ False (Endpoint_ClearOUT ;; Endpoint_ClearStatusStage fuel) Q (St (tr ++ h0) g).
Proof using Hhost Hfuel.
  intros Hr Hty HQ. apply wp_bind, clear_out_cursor. intros t1 Hr1 _.
  unfold Endpoint_ClearStatusStage, wait_attached. apply wp_bind, wp_getc.
  cbn [hist glob]. rewrite Hty. apply wp_bind, await_in_spec; [lia|]. intros f t2 Hr2 Hf. rewrite when_true.
  unfold Endpoint_ClearIN, reg_clr. wp_run. apply HQ. eexists _, _, f, t2. split_and!; [reflexivity|congruence|done|].
  by reg_bits.
Qed.
End cursor.
