(* ===== verification/RndisTraffic.v ===== *)
(** * RNDIS on the bus

    The control channel from end to end: a message in a control request, the
    reply in a later one; and network packets over the data endpoints. *)

From S2P Require Import Prelude Machine Flat Endpoint EndpointStream ControlRead BulkTraffic Cdc StdReq ControlPackets Rndis RndisMessages.

(** ** The control channel *)

(** The request [r] is pending in the setup bank. *)
Definition pending `{Hardware} (h : history) : Prop :=
  anybit (reg_trunc UEINTX (hw_value h UEINTX)) (BV RXSTPI) = true.

Definition is_command (c : USB_ClassInfo_RNDIS_Device_t) (r : USB_Request_Header_t) (n : Z) : Prop :=
  bmRequestType r = 0x21 /\ bRequest r = RNDIS_REQ_SendEncapsulatedCommand
  /\ wIndex r = ControlInterfaceNumber c /\ wLength r = n.
Definition is_response (c : USB_ClassInfo_RNDIS_Device_t) (r : USB_Request_Header_t) : Prop :=
  bmRequestType r = 0xA1 /\ bRequest r = RNDIS_REQ_GetEncapsulatedResponse
  /\ wIndex r = ControlInterfaceNumber c.

(** A message written into the buffer is there, and the rest of [State] is as it was. *)
Lemma message_stored c a msg :
  represents c a -> message_ok msg ->
  let c' := set_State (store 0 (message_bytes msg) (State c)) c in
  represents c' a /\ holds msg c' /\ same_config c c'.
Proof.
  intros [[Hl Hm] Hp Hf] (Hw & Hi & Hlen & _) c'. unfold zlen, RNDIS_MESSAGE_BUFFER_SIZE in Hlen.
  rndis_layout. split; [|split; [|done]].
  - split; cbn [c' State set_State].
    + apply is_state_store; [|done]. apply Forall_app. split; [apply words_range|done].
    + rewrite <- Hp. unfold CurrRNDISState. cbn [c' State set_State]. apply load8_store_ne; rndis_layout; lia.
    + rewrite <- Hf. unfold CurrPacketFilter. cbn [c' State set_State]. apply load32_store_ne; rndis_layout; lia.
  - unfold holds. cbn [c' State set_State]. apply load_store_eq; [done|lia].
Qed.

Section control.
Context {G : Type} `{Hardware} `{Has UsbState G} `{Has USB_ClassInfo_RNDIS_Device_t G}.

(** A command reaches the handler whole; what the handler makes of it stays. *)
Lemma command_spec k fuel ps msg a (P : USB_ClassInfo_RNDIS_Device_t -> Prop) (s : st G) :
  let c := proj (glob s) in
  pending (hist s) -> is_command c (USB_ControlRequest (proj (glob s))) (zlen (message_bytes msg)) ->
  represents c a -> message_ok msg -> concat ps = message_bytes msg ->
  (forall tr, acknowledged tr -> control_writer k ps (tr ++ hist s)) ->
  Forall (fun p => p <> []) ps -> Forall (fun p => length p < fuel)%nat ps ->
  (length ps * S k + k + 1 < fuel)%nat ->
  (forall c1, represents c1 a -> holds msg c1 -> same_config c c1 ->
     exists c2, RNDIS_Device_ProcessRNDISControlMessage c1 = Some c2 /\ P c2) ->
  wp_ False (RNDIS_Device_ProcessControlRequest fuel) (fun _ s' => P (proj (glob s'))) s.
Proof.
  destruct s as [h g]. cbn [hist glob]. set (c := proj g : USB_ClassInfo_RNDIS_Device_t).
  intros Hset (Ht & Hb & Hi & Hl) Hc Hok Hcat Hhost Hne Hpf Hfuel HP.
  assert (Hlen : zlen (message_bytes msg) <= 128) by apply Hok.
  assert (Hm : zlen (State c) = 134) by (unfold zlen; rewrite (proj1 (rp_state _ _ Hc)); done).
  unfold RNDIS_Device_ProcessControlRequest, Endpoint_IsSETUPReceived.
  apply wp_bind, wp_flag. cbv zeta. cbn [hist glob]. rewrite Hset. cbn [negb]. set (v0 := reg_trunc UEINTX _).
  do 4 wp_step. set (r := USB_ControlRequest _) in *. fold c. rewrite Hi, Z.eqb_refl. cbn [negb].
  rewrite Hb, Ht. rewrite Z.eqb_refl.
  change (0x21 =? _) with true. rewrite when_true. apply wp_bind, clear_setup_ack. intros tr Htr.
  assert (Htr' : acknowledged (tr ++ [Rd UEINTX v0])) by (by apply acknowledged_after).
  do 2 wp_step. fold c. apply wp_bind. unfold defined. rewrite Hl, (proj2 (Z.leb_le _ _)) by lia.
  apply wp_ret. rewrite <- Hcat.
  change (tr ++ Rd UEINTX v0 :: h) with (tr ++ [Rd UEINTX v0] ++ h). rewrite app_assoc.
  wp_call (control_read_complete k fuel ps (State c) (St ((tr ++ [Rd UEINTX v0]) ++ h) g) (Hhost _ Htr') Hne
    ltac:(rewrite Hcat; lia) Hpf Hfuel).
  intros e [h1 g1] (-> & Hg & _). cbn [glob] in Hg. subst g1. cbn [snd]. unfold modify_State.
  do 2 wp_step. cbn [hist glob]. fold c. rewrite Hcat.
  destruct (message_stored c a msg Hc Hok) as (Hc1 & Hh1 & Hs1).
  destruct (HP _ Hc1 Hh1 Hs1) as (c2 & Hrun & H2). unfold Endpoint_ClearIN, reg_clr. do 6 wp_step.
  rewrite proj_inj. apply wp_bind, (wp_defined _ _ _ _ _ Hrun). wp_step. by rewrite proj_inj.
Qed.

(** A reply that is waiting is what the host reads, and then it is gone. *)
Lemma response_spec k fuel bs (s : st G) :
  let c := proj (glob s) in
  let r := USB_ControlRequest (proj (glob s)) in
  pending (hist s) -> is_response c r -> is_state (State c) -> is_u16 (wLength r) ->
  load 0 (length bs) (State c) = bs -> load32 Header_MessageLength (State c) = zlen bs ->
  0 < zlen bs <= RNDIS_MESSAGE_BUFFER_SIZE ->
  (forall tr, acknowledged tr -> control_reader k (wLength r) (tr ++ hist s)) ->
  ((2 * Z.to_nat (Z.min (zlen bs) (wLength r)) + 1) * S k + k < fuel)%nat ->
  wp_ False (RNDIS_Device_ProcessControlRequest fuel) (fun _ s' =>
    data_stage_done (wLength r) (take (Z.to_nat (wLength r)) bs) (hist s) (hist s')
    /\ load32 Header_MessageLength (State (proj (glob s'))) = 0) s.
Proof.
  destruct s as [h g]. cbn [hist glob]. set (c := proj g : USB_ClassInfo_RNDIS_Device_t).
  set (r := USB_ControlRequest _). intros Hset (Ht & Hb & Hi) Hst HN Hbs Hlen [Hpos Hle] Hhost Hfuel.
  unfold RNDIS_MESSAGE_BUFFER_SIZE in Hle.
  assert (Hm : zlen (State c) = 134) by (unfold zlen; rewrite (proj1 Hst); done).
  unfold RNDIS_Device_ProcessControlRequest, Endpoint_IsSETUPReceived.
  apply wp_bind, wp_flag. cbv zeta. cbn [hist glob]. rewrite Hset. cbn [negb]. set (v0 := reg_trunc UEINTX _).
  do 4 wp_step. fold r c. rewrite Hi, Z.eqb_refl. cbn [negb].
  rewrite Hb, Ht. change (RNDIS_REQ_GetEncapsulatedResponse =? _) with false at 1. cbv match.
  rewrite Z.eqb_refl. change (0xA1 =? _) with true. rewrite when_true. do 2 wp_step. fold c.
  rewrite Hlen, (proj2 (Z.eqb_neq (zlen bs) 0)), when_false by lia. apply wp_bind, wp_ret.
  apply wp_bind, clear_setup_ack. intros tr Htr. do 2 wp_step. fold c.
  rewrite Hlen, (u16_id (zlen bs)) by (unfold is_u16; lia).
  apply wp_bind, (wp_defined _ _ tt); [by rewrite (proj2 (Z.leb_le _ _)) by lia|].
  change (tr ++ Rd UEINTX v0 :: h) with (tr ++ [Rd UEINTX v0] ++ h). rewrite app_assoc.
  assert (Htr' : acknowledged (tr ++ [Rd UEINTX v0])) by (by apply acknowledged_after).
  wp_call (data_stage_write k fuel (State c) (zlen bs) _ h g Htr' (Hhost _ Htr') (proj2 Hst)
    ltac:(unfold is_u16; lia) HN ltac:(lia) Hfuel).
  intros e [h1 g1] [Hd Hg]. cbn [hist glob] in *. subst g1. fold r in Hd.
  wp_call (data_stage_close _ _ _ _ g Hd). intros [] [h2 g2] [Hd2 Hg]. cbn [hist glob] in *. subst g2.
  unfold modify_State. wp_step. fold c. rewrite proj_inj. cbn [State set_State]. split.
  - replace (take (Z.to_nat (wLength r)) bs) with (take (Z.to_nat (Z.min (zlen bs) (wLength r))) (State c)); [done|].
    rewrite <- Hbs at 2. unfold load, is_u16 in *. rewrite drop_0, take_take. f_equal. unfold zlen. lia.
  - rndis_layout. rewrite load32_store32_eq by (destruct Hst; rndis_layout; lia). done.
Qed.

(** The handler on a buffer that holds the message. *)
Lemma command_handled c c1 a msg :
  represents c a -> config_ok c -> message_ok msg ->
  (forall id info, msg <> Query id OID_GEN_SUPPORTED_LIST info) ->
  represents c1 a -> holds msg c1 -> same_config c c1 ->
  let next := adapter_step (query_answer c) a msg in
  exists c2, RNDIS_Device_ProcessRNDISControlMessage c1 = Some c2
    /\ represents c2 (fst next) /\ offers c2 (option_map reply_bytes (snd next)).
Proof.
  intros Hc Hcfg Hok Hlist Hc1 Hh1 Hs1.
  assert (Hcfg1 : config_ok c1) by (unfold same_config in Hs1; rewrite Hs1; destruct Hcfg; by split).
  destruct (adapter_implemented c1 a msg Hc1 Hcfg1 Hok Hh1 Hlist) as (c2 & Hrun & _ & Hr2 & Ho2).
  exists c2. split; [done|]. assert (Hq : forall oid, query_answer c1 oid = query_answer c oid).
  { intros oid. rewrite Hs1. apply query_answer_ext.
    pose proof (rp_filter _ _ Hc1) as Hf1. pose proof (rp_filter _ _ Hc) as Hf. unfold CurrPacketFilter in *.
    congruence. }
  destruct msg; cbn [adapter_step] in *; rewrite ?Hq in *; done.
Qed.

Lemma reply_not_empty answer a msg bs :
  option_map reply_bytes (snd (adapter_step answer a msg)) = Some bs -> 0 < zlen bs.
Proof.
  intros Hbs. assert (Hw : exists w ws info, bs = words (w :: ws) ++ info).
  { assert (Hsome : forall x, Some x = Some bs -> bs = x) by congruence.
    destruct msg; cbn [adapter_step snd option_map] in Hbs; try discriminate;
      try destruct (answer _); apply Hsome in Hbs as ->; by eexists _, _, _. }
  destruct Hw as (w & ws & info & ->). rewrite words_cons, <- app_assoc. unfold zlen.
  rewrite length_app, le_bytes_length. lia.
Qed.

(** C32. The control channel is the adapter.  A well-formed message of at most
    128 bytes, other than the query for the list of supported identifiers
    (whose reply overruns the message buffer), that the host sends with
    SEND_ENCAPSULATED_COMMAND, in whatever packets, makes the driver enter the
    state the adapter enters; and when the adapter replies, any later
    GET_ENCAPSULATED_RESPONSE that finds the buffer as it was left is answered
    by exactly the reply, cut to the length the host asked for, and empties
    the buffer.  Both requests terminate on a bus that answers. *)
Theorem command_answered k fuel ps msg a (s : st G) :
  let c := proj (glob s) in
  let next := adapter_step (query_answer c) a msg in
  pending (hist s) -> is_command c (USB_ControlRequest (proj (glob s))) (zlen (message_bytes msg)) ->
  represents c a -> config_ok c -> message_ok msg -> concat ps = message_bytes msg ->
  (forall id info, msg <> Query id OID_GEN_SUPPORTED_LIST info) ->
  (forall tr, acknowledged tr -> control_writer k ps (tr ++ hist s)) ->
  Forall (fun p => p <> []) ps -> Forall (fun p => length p < fuel)%nat ps ->
  (length ps * S k + k + 1 < fuel)%nat ->
  wp_ False (RNDIS_Device_ProcessControlRequest fuel) (fun _ s1 =>
    represents (proj (glob s1)) (fst next)
    /\ match option_map reply_bytes (snd next) with
       | None => ResponseReady (proj (glob s1)) = false
       | Some bs =>
           ResponseReady (proj (glob s1)) = true
           /\ forall s2 : st G,
             let c2 := proj (glob s2) in
             let r := USB_ControlRequest (proj (glob s2)) in
             is_state (State c2) -> load 0 128 (State c2) = load 0 128 (State (proj (glob s1))) ->
             pending (hist s2) -> is_response c2 r -> is_u16 (wLength r) ->
             (forall tr, acknowledged tr -> control_reader k (wLength r) (tr ++ hist s2)) ->
             ((2 * Z.to_nat (Z.min (zlen bs) (wLength r)) + 1) * S k + k < fuel)%nat ->
             wp_ False (RNDIS_Device_ProcessControlRequest fuel) (fun _ s3 =>
               data_stage_done (wLength r) (take (Z.to_nat (wLength r)) bs) (hist s2) (hist s3)
               /\ load32 Header_MessageLength (State (proj (glob s3))) = 0) s2
       end) s.
Proof.
  intros c next Hset Hcmd Hc Hcfg Hok Hcat Hlist Hhost Hne Hpf Hfuel.
  wp_spec (command_spec k fuel ps msg a (fun c2 => represents c2 (fst next)
    /\ offers c2 (option_map reply_bytes (snd next))) s Hset Hcmd Hc Hok Hcat Hhost Hne Hpf Hfuel
    ltac:(intros c1 Hc1 Hh1 Hs1; by apply (command_handled c c1 a msg))).
  intros [] s1 [Hr1 Ho1]. split; [done|]. destruct (option_map reply_bytes (snd next)) as [bs|] eqn:Hbs; [|apply Ho1].
  destruct Ho1 as (Hrdy & Hload & Hlen & Hle). split; [done|].
  pose proof (reply_not_empty _ _ _ _ Hbs) as Hpos. unfold RNDIS_MESSAGE_BUFFER_SIZE in Hle.
  intros s2 c2 r Hst Hsame Hset2 Hresp HN Hread Hfuel2. apply response_spec with (k := k); try done; fold c2.
  - rewrite <- (load_load 0 (length bs) 128), Hsame, load_load by (unfold zlen in Hle; lia). exact Hload.
  - rewrite <- (load32_load _ 128), Hsame, load32_load by (rndis_layout; lia). exact Hlen.
Qed.
End control.

(** ** Packets *)

Section packets.
Context {G : Type} `{Hardware} `{Has USB_ClassInfo_RNDIS_Device_t G} (Hconf : bus_configured).

Lemma data_ready_passes h (g : G) (Q : bool -> st G -> Prop) :
  CurrRNDISState (proj g) = RNDIS_Data_Initialized ->
  (forall v, Q true (St (Rd GPIOR0 v :: h) g)) -> wp_ False data_ready Q (St h g).
Proof using Hconf.
  intros Hs HQ. unfold data_ready, get_DeviceState. do 2 wp_step. rewrite Hconf.
  change (negb (_ =? DEVICE_STATE_Configured)) with false. cbv match. do 3 wp_step. rewrite Hs. apply HQ.
Qed.

(** A packet goes out whole, behind its header, and no byte of it stays in the bank. *)
Lemma send_packet_spec size fuel Buffer PacketLength (s : st G) :
  let c := proj (glob s) : USB_ClassInfo_RNDIS_Device_t in
  let n := ep_num (et_Address (DataINEndpoint c)) in
  bulk_in n size -> CurrRNDISState c = RNDIS_Data_Initialized ->
  Forall is_u8 Buffer -> 0 <= PacketLength <= zlen Buffer -> PacketLength < 2 ^ 16 ->
  (2 * Z.to_nat PacketLength + 90 < fuel)%nat ->
  wp_ False (RNDIS_Device_SendPacket fuel Buffer PacketLength) (fun r s' =>
    r = ENDPOINT_RWSTREAM_NoError /\ glob s' = glob s
    /\ out_bytes n (hist s') = out_bytes n (hist s) ++ packet_header PacketLength
         ++ take (Z.to_nat PacketLength) Buffer
    /\ snd (in_bank n (hist s')) = []) s.
Proof using Hconf.
  destruct s as [h g]. cbn [hist glob]. set (c := proj g : USB_ClassInfo_RNDIS_Device_t).
  set (n := ep_num _). intros Hin Hst HB HL HL2 Hf. unfold RNDIS_Device_SendPacket.
  apply wp_bind, data_ready_passes; [exact Hst|]. intros v0. cbn [negb]. do 2 wp_step. fold c.
  apply wp_bind, wp_select. fold n. intros h1 Hs1 Hb1.
  assert (Hh : length (packet_header PacketLength) = 44%nat) by (unfold packet_header; by autorewrite with flat).
  assert (Hh8 : Forall is_u8 (packet_header PacketLength)).
  { unfold packet_header, store32. repeat (apply Forall_store; [apply le_bytes_range|]).
    apply List.Forall_forall. by intros x ->%List.repeat_spec. }
  apply wp_bind, (wait_in n size Hin); [done|lia|]. intros h2 Hs2 Hb2 Hap2.
  change (ENDPOINT_READYWAIT_NoError =? ENDPOINT_READYWAIT_NoError) with true. cbn [negb].
  set (hdr := packet_header PacketLength) in *. clearbody hdr.
  wp_call (write_stream_spec n size Hin 0 44 None hdr h2 g fuel ltac:(lia) (or_introl eq_refl) ltac:(lia) Hh8
    ltac:(unfold zlen; lia) Hs2 ltac:(done) ltac:(lia)).
  intros r1 s1 (p1 & h3 & -> & (Hp1 & Hs3 & Hap3 & Ho3) & [[-> _]|(_ & _ & ? & _)]); [|done].
  wp_call (write_stream_spec n size Hin 0 PacketLength None Buffer h3 g fuel ltac:(lia) (or_introl eq_refl)
    ltac:(lia) HB ltac:(lia) Hs3 ltac:(done) ltac:(lia)).
  intros r2 s2 (p2 & h4 & -> & (Hp2 & Hs4 & Hap4 & Ho4) & [[-> _]|(_ & _ & ? & _)]); [|done].
  apply wp_bind, (clear_in n h4); [done|]. intros h5 Hs5 Hap5 Hb5. apply wp_ret.
  assert (Hsent : out_bytes n h5 = out_bytes n h4) by (by apply out_bytes_sent).
  split_and!; [done|done| |cbn [hist]; by rewrite Hb5].
  cbn [hist]. rewrite Hsent, Ho4, Ho3. unfold out_bytes at 1. rewrite Hb2, (proj2 (Hb1 n)).
  rewrite !Z.sub_0_r, !drop_0. fold (out_bytes n h). cbn [hist]. rewrite <- app_assoc. f_equal.
  by rewrite (take_ge hdr) by lia.
Qed.

(** A packet that starts with a valid header is taken, its frame delivered. *)
Lemma read_packet_spec ps fuel header0 Buffer PacketLength frame rest (s : st G) :
  let c := proj (glob s) : USB_ClassInfo_RNDIS_Device_t in
  let n := ep_num (et_Address (DataOUTEndpoint c)) in
  bulk_out n ps -> CurrRNDISState c = RNDIS_Data_Initialized -> length header0 = 44%nat ->
  zlen frame <= ETHERNET_FRAME_SIZE_MAX ->
  arriving n ps (packet_header (zlen frame) ++ frame ++ rest) (hist s) ->
  (length frame + length ps + 44 < fuel)%nat ->
  wp_ False (RNDIS_Device_ReadPacket fuel header0 Buffer PacketLength) (fun r s' =>
    r = (ENDPOINT_RWSTREAM_NoError, zlen frame, list_inserts 0 frame Buffer) /\ glob s' = glob s
    /\ snd (out_bank n (hist s')) = 0%nat) s.
Proof using Hconf.
  destruct s as [h g]. cbn [hist glob]. set (c := proj g : USB_ClassInfo_RNDIS_Device_t).
  set (n := ep_num _). intros Hout Hst Hl0 HL Harr Hf. unfold RNDIS_Device_ReadPacket.
  unfold ETHERNET_FRAME_SIZE_MAX in HL. pose proof (zlen_nonneg frame) as Hnn.
  apply wp_bind, data_ready_passes; [exact Hst|]. intros v0. cbn [negb]. do 2 wp_step. fold c.
  apply wp_bind, wp_select. fold n. intros h1 Hs1 Hb1.
  assert (Hin : incoming n ps (packet_header (zlen frame) ++ frame ++ rest) h1).
  { split; [done|]. unfold arriving. by rewrite (proj1 (Hb1 n)). }
  unfold Endpoint_IsOUTReceived. apply wp_bind, wp_flag. cbv zeta. cbn [hist glob].
  pose proof Hin as [_ (r & j & p & Hbk & Hp & _)].
  rewrite (proj1 (bo_flags _ _ Hout h1 r j p Hs1 Hbk Hp)). cbn [negb].
  set (v := reg_trunc UEINTX _). apply (incoming_rd _ _ _ UEINTX v) in Hin; [|done].
  assert (Hh : length (packet_header (zlen frame)) = 44%nat) by (unfold packet_header; by autorewrite with flat).
  assert (Hd : load32 Packet_DataLength (packet_header (zlen frame)) = zlen frame).
  { unfold packet_header, Packet_DataLength. rewrite load32_store32_eq by (autorewrite with flat; by apply Nat.leb_le).
    apply u32_id. unfold is_u32. lia. }
  set (hdr := packet_header (zlen frame)) in *. clearbody hdr.
  assert (Hz : zlen hdr = 44) by (unfold zlen; lia).
  replace sizeof_RNDIS_Packet_Message_t with (0 + zlen hdr) by (by rewrite Hz).
  wp_call (read_stream_spec n ps Hout 0 None hdr (frame ++ rest) header0 (Rd UEINTX v :: h1) g fuel
    ltac:(lia) (or_introl eq_refl) ltac:(lia) Hin ltac:(done) ltac:(lia)).
  intros r1 s1 (b0 & b1 & h2 & -> & (Heq & Hin2 & _) & [[-> ->]|(_ & _ & ? & _)]); [|done].
  rewrite app_nil_r in Heq. subst b0. cbn [snd].
  assert (Hw : list_inserts (Z.to_nat 0) hdr header0 = hdr).
  { rewrite <- (app_nil_r hdr) at 2. rewrite <- (app_nil_r header0). by apply list_inserts_0_r; rewrite Hh. }
  rewrite Hw, Hd. unfold ETHERNET_FRAME_SIZE_MAX. rewrite (proj2 (Z.ltb_ge 1500 (zlen frame))) by lia.
  rewrite (u16_id (zlen frame)) by (unfold is_u16; lia).
  wp_call (read_stream_spec n ps Hout 0 None frame rest Buffer h2 g fuel
    ltac:(lia) (or_introl eq_refl) ltac:(lia) Hin2 ltac:(done) ltac:(lia)).
  intros r2 s2 (b0 & b1 & h3 & -> & (Heq & [Hs3 (r3 & j3 & p3 & Hb3 & _)] & _) & [[-> ->]|(_ & _ & ? & _)]); [|done].
  rewrite app_nil_r in Heq. subst b0.
  apply wp_bind, (clear_out n h3 g _ r3 j3); [done|done|]. intros h4 _ Hb4 _. apply wp_ret.
  split_and!; [done|done|]. cbn [hist]. by rewrite Hb4.
Qed.
End packets.

(** C33. A frame survives the wire.  When an initialised adapter sends a frame
    of at most 1500 bytes, it puts exactly the header and the frame on its IN
    endpoint, nothing is left in the bank, and an initialised adapter that is
    sent these bytes, in whatever packets and whatever follows, reads NoError,
    the length and the frame at the start of its caller's buffer; both calls
    terminate. *)
Theorem packet_roundtrip {G G' : Type} (HS HR : Hardware) `{Has USB_ClassInfo_RNDIS_Device_t G}
    `{Has USB_ClassInfo_RNDIS_Device_t G'} size fuel Frame PacketLength (s : st G) :
  let c := proj (glob s) : USB_ClassInfo_RNDIS_Device_t in
  let n := ep_num (et_Address (DataINEndpoint c)) in
  @bus_configured HS -> @bus_configured HR ->
  @bulk_in HS n size -> CurrRNDISState c = RNDIS_Data_Initialized ->
  Forall is_u8 Frame -> 0 <= PacketLength <= zlen Frame -> PacketLength <= ETHERNET_FRAME_SIZE_MAX ->
  (2 * Z.to_nat PacketLength + 90 < fuel)%nat ->
  wp_ False (@RNDIS_Device_SendPacket G HS _ fuel Frame PacketLength) (fun r s1 =>
    r = ENDPOINT_RWSTREAM_NoError /\ snd (in_bank n (hist s1)) = []
    /\ let bs := packet_header PacketLength ++ take (Z.to_nat PacketLength) Frame in
    out_bytes n (hist s1) = out_bytes n (hist s) ++ bs
    /\ forall ps rest header0 Buffer Length0 (t : st G'),
      let c' := proj (glob t) : USB_ClassInfo_RNDIS_Device_t in
      let m := ep_num (et_Address (DataOUTEndpoint c')) in
      @bulk_out HR m ps -> CurrRNDISState c' = RNDIS_Data_Initialized -> length header0 = 44%nat ->
      arriving m ps (bs ++ rest) (hist t) ->
      (Z.to_nat PacketLength + length ps + 44 < fuel)%nat ->
      wp_ False (@RNDIS_Device_ReadPacket G' HR _ fuel header0 Buffer Length0) (fun r' _ =>
        r' = (ENDPOINT_RWSTREAM_NoError, PacketLength,
              list_inserts 0 (take (Z.to_nat PacketLength) Frame) Buffer)) t) s.
Proof.
  intros c n HcS HcR Hin Hst HF HL HM Hf. unfold ETHERNET_FRAME_SIZE_MAX in HM.
  wp_spec (@send_packet_spec G HS _ HcS size fuel Frame PacketLength s Hin Hst HF HL ltac:(lia) Hf).
  intros r s1 (-> & _ & Ho & Hb). split; [done|]. split; [exact Hb|]. intros bs. split; [exact Ho|].
  intros ps rest header0 Buffer Length0 t c' m Hout Hst' Hl0 Harr Hf'.
  set (frame := take (Z.to_nat PacketLength) Frame) in *.
  assert (Hz : PacketLength = zlen frame) by (unfold frame, zlen in *; rewrite length_take; lia).
  unfold bs in Harr. rewrite <- app_assoc in Harr. rewrite Hz in Harr |- *.
  wp_spec (@read_packet_spec G' HR _ HcR ps fuel header0 Buffer Length0 frame rest t Hout Hst' Hl0
    ltac:(unfold ETHERNET_FRAME_SIZE_MAX; lia) Harr ltac:(unfold zlen in Hz; lia)).
  by intros r s2 [-> _].
Qed.

(** ** Examples *)

(** Ready to exchange packets. *)
Definition rndis_up : USB_ClassInfo_RNDIS_Device_t :=
  rndis_ready (store8 State_CurrRNDISState RNDIS_Data_Initialized (repeat 0 134)).

(** A frame of three bytes, taken by a host with banks of 8 bytes. *)
Lemma packet_roundtrip_witness :
  let ps := [take 40 (packet_header 3); drop 40 (packet_header 3) ++ [10]; [20; 30]] in
  wp_ False (@RNDIS_Device_SendPacket _ (taker 1 8) (Has_refl _) 200 [10; 20; 30] 3) (fun _ s1 =>
    out_bytes 1 (hist s1) = concat ps /\
    wp_ False (@RNDIS_Device_ReadPacket _ (sender 2 ps) (Has_refl _) 200 (repeat 0 44) [1; 2; 3; 4] 0)
      (fun r' _ => r' = (0, 3, [10; 20; 30; 4])) (St [] rndis_up)) (St [] rndis_up).
Proof.
  intros ps. refine (wp_conseq False _ _ _ _ _ (@packet_roundtrip _ _ (taker 1 8) (sender 2 ps) (Has_refl _) (Has_refl _) 8 200
    [10; 20; 30] 3 (St [] rndis_up) _ _ _ _ _ _ _ _) (fun x => x) _).
  - done.
  - apply sender_configured.
  - apply (taker_bulk 1 8). lia.
  - reflexivity.
  - by repeat constructor.
  - done.
  - done.
  - vm_compute. lia.
  - intros r s1 (_ & _ & Ho & Hread). split; [exact Ho|].
    refine (Hread ps [] (repeat 0 44) [1; 2; 3; 4] 0 (St [] rndis_up) _ eq_refl eq_refl _ _).
    + apply (sender_bulk 2 ps). apply (bool_decide_unpack _). vm_compute. exact I.
    + exists 0%nat, 0%nat, (take 40 (packet_header 3)). split_and!; [done|done|lia|].
      rewrite app_nil_r. reflexivity.
    + vm_compute. lia.
Defined.

(** A host that sends a command and, when the program has looked at its state
    before, asks for a reply of at most [N] bytes. *)
Definition rndis_host (ps : list (list Z)) (N : Z) : Hardware := fun h r =>
  match list.last h with
  | Some (Rd GPIOR0 _) => setup_host [] N h r
  | _ => command_host ps h r
  end.

Lemma rndis_host_command ps N tr :
  Forall (Forall is_u8) ps -> Forall (fun p => length p < 256)%nat ps -> acknowledged tr ->
  @control_writer (rndis_host ps N) 0 ps (tr ++ [Wr UENUM 0]).
Proof.
  intros H8 Hl Ha. apply command_host_writer; [done|done|by apply acknowledged_after|].
  intros t r. unfold hw_value, rndis_host. by rewrite app_assoc, last_snoc.
Qed.

Lemma rndis_host_reply ps N tr :
  acknowledged tr -> @control_reader (rndis_host ps N) 0 N (tr ++ [Rd GPIOR0 4]).
Proof.
  intros Ha. set (t0 := tr ++ [Rd GPIOR0 4]).
  assert (Hr : @control_reader (setup_host [] N) 0 N (t0 ++ [])).
  { apply setup_host_reader. by apply acknowledged_after. }
  rewrite app_nil_r in Hr. destruct Hr.
  assert (Hv : forall t r, @hw_value (rndis_host ps N) (t ++ t0) r = @hw_value (setup_host [] N) (t ++ t0) r).
  { intros t r. unfold hw_value, rndis_host, t0. by rewrite app_assoc, last_snoc. }
  split; intros t; rewrite Hv; auto.
Qed.

(** The host initialises the adapter, in two packets; then it reads the reply. *)
Definition init_message : message := Initialize 1 1 0 0x4000.
Definition init_packets : list (list Z) := [take 8 (message_bytes init_message); drop 8 (message_bytes init_message)].
Definition rndis_command : st (UsbState * USB_ClassInfo_RNDIS_Device_t) :=
  St [Wr UENUM 0] (mkUsb (mkRequest 0x21 0 0 0 24) 4 false false true, rndis_ready (repeat 0 134)).


Lemma command_answered_witness :
  wp_ False (@RNDIS_Device_ProcessControlRequest _ (rndis_host init_packets 128) (Has_fst _ _) (Has_snd _ _) 100)
    (fun _ s1 => represents (snd (glob s1)) (mkAdapter Initialized 0) /\ ResponseReady (snd (glob s1)) = true)
    rndis_command.
Proof.
  refine (wp_conseq False _ _ _ _ _ (@command_answered _ (rndis_host init_packets 128) (Has_fst _ _) (Has_snd _ _)
    0 100 init_packets init_message (mkAdapter Uninitialized 0) rndis_command
    _ _ _ _ _ _ _ _ _ _ _) (fun x => x) _).
  - reflexivity.
  - by split_and!.
  - split; [|done|done]. split; [done|]. apply (bool_decide_unpack _). vm_compute. exact I.
  - apply rndis_ready_ok.
  - split_and!; try done; apply (bool_decide_unpack _); vm_compute; exact I.
  - reflexivity.
  - done.
  - intros tr Ha. apply rndis_host_command; [..|exact Ha]; apply (bool_decide_unpack _); vm_compute; exact I.
  - by repeat constructor.
  - apply (bool_decide_unpack _). vm_compute. exact I.
  - vm_compute. lia.
  - intros r s1 (Hr & Hready & _). done.
Defined.

(** What the second request needs can be had after the first. *)
Lemma reply_can_be_read c1 :
  is_state (State c1) ->
  let s2 : st (UsbState * USB_ClassInfo_RNDIS_Device_t) :=
    St [Rd GPIOR0 4] (mkUsb (mkRequest 0xA1 1 0 0 128) 4 false false true, rndis_ready (State c1)) in
  let r := USB_ControlRequest (proj (glob s2)) in
  @pending (rndis_host init_packets 128) (hist s2) /\ is_response (proj (glob s2)) r /\ is_u16 (wLength r)
  /\ (forall tr, acknowledged tr -> @control_reader (rndis_host init_packets 128) 0 (wLength r) (tr ++ hist s2)).
Proof. intros Hs s2 r. split_and!; try done. apply rndis_host_reply. Qed.
