(* ===== verification/MassStorage.v ===== *)
(** * LUFA/Drivers/USB/Class/Device/MassStorageClassDevice.[ch]

    The mass storage (bulk-only transport) class driver: it takes a command
    block wrapper from the OUT endpoint, lets the application execute the
    SCSI command, and returns a status wrapper on the IN endpoint.  The
    wrappers are filled byte by byte by the stream functions and read as
    structs, so both are bytes here ([Flat]). *)

From S2P Require Import Prelude Machine Flat Endpoint EndpointStream Cdc.

(** ** MassStorageClassCommon.h *)

Definition MS_CBW_SIGNATURE : Z := 0x43425355.
Definition MS_CSW_SIGNATURE : Z := 0x53425355.
Definition MS_COMMAND_DIR_DATA_IN : Z := Z.shiftl 1 7.
Definition MS_REQ_GetMaxLUN : Z := 0xFE.
Definition MS_REQ_MassStorageReset : Z := 0xFF.
Definition MS_SCSI_COMMAND_Pass : Z := 0.
Definition MS_SCSI_COMMAND_Fail : Z := 1.

(** Offsets of the fields of the two wrappers, and their sizes. *)
Definition CBW_Signature : nat := 0.
Definition CBW_Tag : nat := 4.
Definition CBW_DataTransferLength : nat := 8.
Definition CBW_Flags : nat := 12.
Definition CBW_LUN : nat := 13.
Definition CBW_SCSICommandLength : nat := 14.
Definition CBW_SCSICommandData : nat := 15.
Definition sizeof_MS_CommandBlockWrapper_t : Z := 31.
Definition CSW_Signature : nat := 0.
Definition CSW_Tag : nat := 4.
Definition CSW_DataTransferResidue : nat := 8.
Definition CSW_Status : nat := 12.
Definition sizeof_MS_CommandStatusWrapper_t : Z := 13.

(** ** MassStorageClassDevice.h *)

Record USB_ClassInfo_MS_Device_t := mkMS {
  InterfaceNumber : Z;
  DataINEndpoint : USB_Endpoint_Table_t;
  DataOUTEndpoint : USB_Endpoint_Table_t;
  TotalLUNs : Z;
  CommandBlock : list Z;
  CommandStatus : list Z;
  IsMassStoreReset : bool;
}.

Definition set_CommandBlock (b : list Z) (c : USB_ClassInfo_MS_Device_t) : USB_ClassInfo_MS_Device_t :=
  mkMS (InterfaceNumber c) (DataINEndpoint c) (DataOUTEndpoint c) (TotalLUNs c) b (CommandStatus c)
    (IsMassStoreReset c).
Definition set_CommandStatus (b : list Z) (c : USB_ClassInfo_MS_Device_t) : USB_ClassInfo_MS_Device_t :=
  mkMS (InterfaceNumber c) (DataINEndpoint c) (DataOUTEndpoint c) (TotalLUNs c) (CommandBlock c) b
    (IsMassStoreReset c).
Definition set_IsMassStoreReset (b : bool) (c : USB_ClassInfo_MS_Device_t) : USB_ClassInfo_MS_Device_t :=
  mkMS (InterfaceNumber c) (DataINEndpoint c) (DataOUTEndpoint c) (TotalLUNs c) (CommandBlock c)
    (CommandStatus c) b.

(** What the application supplies: its handler of SCSI commands; and the
    interrupts that are served while the driver waits (the control endpoint is
    served by one, which is how the flag [IsMassStoreReset] comes to be set
    inside these waits).  They are taken where the flag is tested. *)
Class MsDevice (G : Type) := {
  CALLBACK_MS_Device_SCSICommandReceived : M G bool;
  interrupts : M G unit;
}.

(** ** MassStorageClassDevice.c *)

(** [memset(&State, 0, ..)] and the endpoint types. *)
Definition ms_reset (c : USB_ClassInfo_MS_Device_t) : USB_ClassInfo_MS_Device_t :=
  mkMS (InterfaceNumber c) (set_type EP_TYPE_BULK (DataINEndpoint c)) (set_type EP_TYPE_BULK (DataOUTEndpoint c))
    (TotalLUNs c) (repeat 0 (Z.to_nat sizeof_MS_CommandBlockWrapper_t))
    (repeat 0 (Z.to_nat sizeof_MS_CommandStatusWrapper_t)) false.

(** The test for an invalid command block. *)
Definition invalid_block (luns : Z) (b : list Z) : bool :=
  negb (load32 CBW_Signature b =? MS_CBW_SIGNATURE)
  || (luns <=? load8 CBW_LUN b)
  || anybit (load8 CBW_Flags b) 0x1F
  || (load8 CBW_SCSICommandLength b =? 0)
  || (16 <? load8 CBW_SCSICommandLength b).

(** The status for the command in the block [b], in the wrapper [m]. *)
Definition status_for (ok : bool) (b m : list Z) : list Z :=
  let m := store8 CSW_Status (if ok then MS_SCSI_COMMAND_Pass else MS_SCSI_COMMAND_Fail) m in
  let m := store32 CSW_Signature MS_CSW_SIGNATURE m in
  let m := store32 CSW_Tag (load32 CBW_Tag b) m in
  store32 CSW_DataTransferResidue (load32 CBW_DataTransferLength b) m.

Section ms.
Context {G : Type} `{Hardware} `{Has UsbState G} `{Has USB_ClassInfo_MS_Device_t G} `{MsDevice G}.

Definition MS_Device_ProcessControlRequest (fuel : nat) : M G unit :=
  setup ← Endpoint_IsSETUPReceived;
  if negb (setup : bool) then mret tt else
  r ← getc USB_ControlRequest;
  n ← getc InterfaceNumber;
  if negb (wIndex r =? n) then mret tt else
  if bRequest r =? MS_REQ_MassStorageReset then
    when (bmRequestType r =? Z.lor (Z.lor REQDIR_HOSTTODEVICE REQTYPE_CLASS) REQREC_INTERFACE) (
      Endpoint_ClearSETUP ;;
      Endpoint_ClearStatusStage fuel ;;
      modc (set_IsMassStoreReset true))
  else if bRequest r =? MS_REQ_GetMaxLUN then
    when (bmRequestType r =? Z.lor (Z.lor REQDIR_DEVICETOHOST REQTYPE_CLASS) REQREC_INTERFACE) (
      Endpoint_ClearSETUP ;;
      busy_wait fuel Endpoint_IsINReady ;;
      luns ← getc TotalLUNs;
      Endpoint_Write_8 (luns - 1) ;;
      Endpoint_ClearIN ;;
      Endpoint_ClearStatusStage fuel)
  else mret tt.

Definition MS_Device_ConfigureEndpoints (fuel : nat) : M G bool :=
  modc ms_reset ;;
  e1 ← getc DataINEndpoint;
  ok ← Endpoint_ConfigureEndpointTable fuel [e1];
  if negb ok then mret false else
  e2 ← getc DataOUTEndpoint;
  ok ← Endpoint_ConfigureEndpointTable fuel [e2];
  if negb ok then mret false else mret true.

(** [IsMassStoreReset], which is volatile, after the interrupts. *)
Definition reset_requested : M G bool := interrupts ;; getc IsMassStoreReset.

(** The loops that read [Length] bytes of the command block from its byte
    [Start] on; [false] when a reset cuts them short. *)
Definition read_block_step (fuel : nat) (Start : nat) (Length : Z) (BytesProcessed : Z) : M G (Z + bool) :=
  b ← getc CommandBlock;
  r ← Endpoint_Read_Stream_LE fuel (drop Start b) Length (Some BytesProcessed);
  modc (set_CommandBlock (take Start b ++ snd r)) ;;
  if fst (fst r) =? ENDPOINT_RWSTREAM_IncompleteTransfer then
    reset ← reset_requested;
    mret (if reset : bool then inr false else inl (default 0 (snd (fst r))))
  else mret (inr true).
Definition read_block (fuel : nat) (Start : nat) (Length : Z) : M G bool :=
  loop fuel (read_block_step fuel Start Length) 0.

Definition MS_Device_ReadInCommandBlock (fuel : nat) : M G bool :=
  e ← getc DataOUTEndpoint;
  Endpoint_SelectEndpoint (et_Address e) ;;
  ok ← read_block fuel CBW_Signature (sizeof_MS_CommandBlockWrapper_t - 16);
  if negb (ok : bool) then mret false else
  luns ← getc TotalLUNs;
  b ← getc CommandBlock;
  if invalid_block luns b then
    Endpoint_StallTransaction ;;
    e ← getc DataINEndpoint;
    Endpoint_SelectEndpoint (et_Address e) ;;
    Endpoint_StallTransaction ;;
    mret false
  else
  ok ← read_block fuel CBW_SCSICommandData (load8 CBW_SCSICommandLength b);
  if negb (ok : bool) then mret false else
  Endpoint_ClearOUT ;;
  mret true.

(** [while (Endpoint_IsStalled())]; [false] when a reset cuts it short. *)
Definition wait_stalled (fuel : nat) : M G bool :=
  loop fuel (fun _ : unit =>
    stalled ← Endpoint_IsStalled;
    if negb (stalled : bool) then mret (inr true) else
    reset ← reset_requested;
    mret (if reset : bool then inr false else inl tt)) tt.

Definition write_status (fuel : nat) : M G bool :=
  loop fuel (fun BytesProcessed =>
    m ← getc CommandStatus;
    r ← Endpoint_Write_Stream_LE fuel m sizeof_MS_CommandStatusWrapper_t (Some BytesProcessed);
    if fst (fst r) =? ENDPOINT_RWSTREAM_IncompleteTransfer then
      reset ← reset_requested;
      mret (if reset : bool then inr false else inl (default 0 (snd (fst r))))
    else mret (inr true)) 0.

Definition MS_Device_ReturnCommandStatus (fuel : nat) : M G unit :=
  e ← getc DataOUTEndpoint;
  Endpoint_SelectEndpoint (et_Address e) ;;
  ok ← wait_stalled fuel;
  if negb (ok : bool) then mret tt else
  e ← getc DataINEndpoint;
  Endpoint_SelectEndpoint (et_Address e) ;;
  ok ← wait_stalled fuel;
  if negb (ok : bool) then mret tt else
  ok ← write_status fuel;
  if negb (ok : bool) then mret tt else
  Endpoint_ClearIN.

(** The command is executed and its status returned. *)
Definition execute_command (fuel : nat) : M G unit :=
  b ← getc CommandBlock;
  when (anybit (load8 CBW_Flags b) MS_COMMAND_DIR_DATA_IN) (
    e ← getc DataINEndpoint;
    Endpoint_SelectEndpoint (et_Address e)) ;;
  SCSICommandResult ← CALLBACK_MS_Device_SCSICommandReceived;
  modc (fun c => set_CommandStatus (status_for SCSICommandResult (CommandBlock c) (CommandStatus c)) c) ;;
  m ← getc CommandStatus;
  when (negb (SCSICommandResult : bool) && negb (load32 CSW_DataTransferResidue m =? 0))
    Endpoint_StallTransaction ;;
  MS_Device_ReturnCommandStatus fuel.

Definition MS_Device_USBTask (fuel : nat) : M G unit :=
  d ← get_DeviceState;
  if negb (d =? DEVICE_STATE_Configured) then mret tt else
  e ← getc DataOUTEndpoint;
  Endpoint_SelectEndpoint (et_Address e) ;;
  out ← Endpoint_IsOUTReceived;
  when (out : bool) (
    ok ← MS_Device_ReadInCommandBlock fuel;
    when (ok : bool) (execute_command fuel)) ;;
  reset ← getc IsMassStoreReset;
  when (reset : bool) (
    eo ← getc DataOUTEndpoint;
    ei ← getc DataINEndpoint;
    Endpoint_ResetEndpoint (et_Address eo) ;;
    Endpoint_ResetEndpoint (et_Address ei) ;;
    Endpoint_SelectEndpoint (et_Address eo) ;;
    Endpoint_ClearStall ;;
    Endpoint_ResetDataToggle ;;
    Endpoint_SelectEndpoint (et_Address ei) ;;
    Endpoint_ClearStall ;;
    Endpoint_ResetDataToggle ;;
    modc (set_IsMassStoreReset false)).
End ms.
