(* ===== verification/MassStorageTraffic.v ===== *)
(** * Mass storage on the bus

    One command from end to end: the command block in whatever packets, the
    application's handler, the status wrapper; what an invalid block does; and
    the command that is executed twice. *)

From S2P Require Import Prelude Machine Flat Endpoint EndpointStream BulkTraffic Cdc MassStorage.

(** A host that ends a stall: at most [k] looks at it find the endpoint
    stalled.  STALLRQC always reads as 0. *)
Record unstalls `{Hardware} (k : nat) : Prop := {
  us_ends h : (k <= stall_polls h)%nat ->
    anybit (reg_trunc UECONX (hw_value h UECONX)) (BV STALLRQ) = false;
  us_bit h : anybit (reg_trunc UECONX (hw_value h UECONX)) (BV STALLRQC) = false;
}.

(** The interrupts leave the driver and its endpoints alone. *)
Definition quiet_interrupts {G} `{Has USB_ClassInfo_MS_Device_t G} `{MsDevice G} : Prop :=
  forall s : st G, wp_ False interrupts (fun _ s' =>
    untouched (fun _ => True) (hist s) (hist s')
    /\ proj (glob s') = (proj (glob s) : USB_ClassInfo_MS_Device_t)) s.

(** No reset is under way, and the wrappers have their sizes. *)
Record in_service (nO nI luns : Z) (c : USB_ClassInfo_MS_Device_t) : Prop := {
  sv_out : ep_num (et_Address (DataOUTEndpoint c)) = nO;
  sv_in : ep_num (et_Address (DataINEndpoint c)) = nI;
  sv_luns : TotalLUNs c = luns;
  sv_reset : IsMassStoreReset c = false;
  sv_block : length (CommandBlock c) = 31%nat;
  sv_bytes : Forall is_u8 (CommandBlock c);
  sv_status : length (CommandStatus c) = 13%nat /\ Forall is_u8 (CommandStatus c);
}.

(** The status wrapper as the host reads it. *)
Definition csw_bytes (ok : bool) (tag residue : Z) : list Z :=
  words [MS_CSW_SIGNATURE; tag; residue] ++ [if ok then 0 else 1].

Lemma status_for_bytes ok b m :
  length m = 13%nat ->
  status_for ok b m = csw_bytes ok (load32 CBW_Tag b) (load32 CBW_DataTransferLength b).
Proof.
  intros Hm. do 13 (destruct m as [|? m]; [done|]). destruct m; [|done]. by destruct ok.
Qed.

(** The test looks at the first 15 bytes only. *)
Lemma invalid_block_app luns hdr x : length hdr = 15%nat -> invalid_block luns (hdr ++ x) = invalid_block luns hdr.
Proof.
  intros Hl. unfold invalid_block, load32, load8, CBW_Signature, CBW_LUN, CBW_Flags, CBW_SCSICommandLength.
  by rewrite !lookup_app_l, load_app_l by lia.
Qed.

Lemma in_service_block nO nI luns b c :
  in_service nO nI luns c -> length b = 31%nat -> Forall is_u8 b ->
  in_service nO nI luns (set_CommandBlock b c).
Proof. by intros []. Qed.

Section ms.
Context {G : Type} `{Hardware} `{Has USB_ClassInfo_MS_Device_t G} `{MsDevice G}.
Context (nO nI luns : Z) (Hne : nO <> nI) (Hquiet : quiet_interrupts (G := G)).
Abbreviation ms s := (proj (glob s) : USB_ClassInfo_MS_Device_t).

Lemma reset_requested_no (s : st G) (Q : bool -> st G -> Prop) :
  IsMassStoreReset (ms s) = false ->
  (forall s', untouched (fun _ => True) (hist s) (hist s') -> ms s' = ms s -> Q false s') ->
  wp_ False reset_requested Q s.
Proof using Hquiet.
  intros Hr HQ. unfold reset_requested. wp_call (Hquiet s). intros [] s' [Hu Hc].
  apply wp_getc. rewrite Hc, Hr. by apply HQ.
Qed.

(** Stalling the selected endpoint. *)
Lemma stall_spec k (s : st G) (Q : unit -> st G -> Prop) :
  unstalls k ->
  (forall h', last_wr UENUM h' = last_wr UENUM (hist s) ->
     (forall m, in_bank m h' = in_bank m (hist s) /\ out_bank m h' = out_bank m (hist s)) ->
     stalls h' = stalls (hist s) ++ [last_wr UENUM (hist s)] -> Q tt (St h' (glob s))) ->
  wp_ False Endpoint_StallTransaction Q s.
Proof using.
  intros Hu HQ. destruct s as [h g]. unfold Endpoint_StallTransaction. do 3 wp_step.
  set (v := reg_trunc UECONX (hw_value h UECONX)).
  set (w := reg_trunc UECONX (setbits v (BV STALLRQ))).
  assert (Hw : is_stall w = true).
  { pose proof (us_bit _ Hu h) as Hb. fold v in Hb. unfold is_stall, w.
    rewrite !anybit_BV in * by done. reg_bits. rewrite Hb. done. }
  apply HQ; [done..|]. cbn [stalls hist].
  change (stalls h ++ (if is_stall w then [last_wr UENUM h] else []) = stalls h ++ [last_wr UENUM h]).
  by rewrite Hw.
Qed.

(** ** Reading a part of the command block *)

Section read.
Context (ps : list (list Z)) (Hout : bulk_out nO ps).

Lemma read_block_spec fuel Start bs1 bs2 (s : st G) :
  let b := CommandBlock (ms s) in
  incoming nO ps (bs1 ++ bs2) (hist s) -> in_service nO nI luns (ms s) ->
  (Start <= 31)%nat -> zlen bs1 < 2 ^ 16 -> (length bs1 + length ps < fuel)%nat ->
  wp_ False (read_block fuel Start (zlen bs1)) (fun ok s' =>
    ok = true /\ incoming nO ps bs2 (hist s') /\ apart nO (hist s) (hist s')
    /\ ms s' = set_CommandBlock (take Start b ++ list_inserts 0 bs1 (drop Start b)) (ms s)) s.
Proof using Hquiet Hout.
  intros b Hin Hsv HS Hlen Hfuel. unfold read_block.
  apply (wp_loop_total _
    (fun n s' => exists b0 b1, bs1 = b0 ++ b1 /\ n = zlen b0
       /\ incoming nO ps (b1 ++ bs2) (hist s') /\ apart nO (hist s) (hist s')
       /\ ms s' = set_CommandBlock (take Start b ++ list_inserts 0 b0 (drop Start b)) (ms s))
    (fun _ s' => length ps - fst (out_bank nO (hist s')))%nat).
  - exists [], bs1. split_and!; [done|done|done|done|]. cbn [list_inserts]. rewrite take_drop.
    subst b. by destruct (ms s).
  - lia.
  - intros n s1 (b0 & b1 & Heq & -> & Hin1 & Hap & Hc1). destruct s1 as [h1 g1]. cbn [hist glob] in *.
    unfold read_block_step. wp_step. wp_step. rewrite Hc1. cbn [CommandBlock set_CommandBlock].
    assert (Hl : length (take Start b) = Start) by (rewrite length_take, (sv_block _ _ _ _ Hsv : length b = 31%nat); lia).
    rewrite drop_app_length', take_app_length' by done.
    assert (Hz : zlen bs1 = zlen b0 + zlen b1) by (by rewrite Heq, zlen_app). pose proof (zlen_nonneg b0).
    rewrite Hz.
    wp_call (read_stream_spec nO ps Hout (zlen b0) (Some (zlen b0)) b1 bs2 (list_inserts 0 b0 (drop Start b)) h1 g1 fuel
      ltac:(lia) (or_intror eq_refl) ltac:(lia) Hin1 ltac:(done) ltac:(unfold zlen in *; lia)).
    intros r s2 (c0 & c1 & h2 & -> & (Heq1 & Hin2 & Hap2 & Hmon) & Hr).
    assert (Hins : list_inserts (Z.to_nat (zlen b0)) c0 (list_inserts 0 b0 (drop Start b))
      = list_inserts 0 (b0 ++ c0) (drop Start b)).
    { rewrite list_inserts_app_l. f_equal. unfold zlen. lia. }
    rewrite Hins in Hr.
    assert (Hset : forall x, set_CommandBlock (take Start b ++ x) (set_CommandBlock
      (take Start b ++ list_inserts 0 b0 (drop Start b)) (ms s)) = set_CommandBlock (take Start b ++ x) (ms s)) by done.
    wp_step. wp_step. cbn [hist glob]. rewrite Hc1.
    destruct Hr as [[-> ->]|(Hc1ne & Hlt & _ & ->)]; cbn [fst snd].
    + change (ENDPOINT_RWSTREAM_NoError =? _) with false. apply wp_ret. cbn [hist glob]. rewrite proj_inj.
      rewrite app_nil_r in Heq1. subst c0. rewrite Hset, <- Heq.
      split_and!; [done|done|by transitivity h1|done].
    + change (ENDPOINT_RWSTREAM_IncompleteTransfer =? _) with true. cbv match.
      apply wp_bind, reset_requested_no; cbn [hist glob]; rewrite proj_inj; [apply Hsv|].
      intros s3 Hu Hc3. apply wp_ret. destruct Hin1 as [_ (r1 & j1 & p1 & Hb1 & Hp1 & _)].
      pose proof (lookup_lt_Some _ _ _ Hp1) as Hp1'. split.
      * exists (b0 ++ c0), c1. rewrite Hc3, Hset. split_and!; [by rewrite <- app_assoc, <- Heq1| |..].
        -- rewrite zlen_app. done.
        -- by apply (untouched_incoming _ _ _ h2).
        -- transitivity h1; [done|]. transitivity h2; [done|]. by apply untouched_all.
        -- done.
      * rewrite (proj2 (un_bank _ _ _ Hu nO I)). rewrite Hb1 in Hlt |- *. cbn [fst] in *. lia.
Qed.
End read.

(** ** Waiting for a stall to end, and writing the status *)

Lemma wait_stalled_spec k fuel (s : st G) (Q : bool -> st G -> Prop) :
  unstalls k -> IsMassStoreReset (ms s) = false -> (k < fuel)%nat ->
  (forall s', untouched (fun _ => True) (hist s) (hist s') -> ms s' = ms s -> Q true s') ->
  wp_ False (wait_stalled fuel) Q s.
Proof using Hquiet.
  intros Hu Hr Hf HQ. unfold wait_stalled.
  apply (wp_loop_total _ (fun _ s' => untouched (fun _ => True) (hist s) (hist s') /\ ms s' = ms s)
    (fun _ s' => k - stall_polls (hist s'))%nat); [done|lia|].
  intros [] s1 [Hu1 Hc1]. unfold Endpoint_IsStalled. apply wp_bind, wp_flag. cbv zeta.
  set (v := reg_trunc UECONX _). assert (Hrd := untouched_rd UECONX v (hist s1) ltac:(done)).
  destruct (anybit v (BV STALLRQ)) eqn:E; cbn [negb].
  - apply wp_bind, reset_requested_no; cbn [hist glob]; [by rewrite Hc1|]. intros s2 Hu2 Hc2. apply wp_ret.
    destruct (decide (k <= stall_polls (hist s1))%nat) as [Hk|Hk];
      [by pose proof (us_ends _ Hu (hist s1) Hk) as Hno; fold v in Hno; congruence|].
    split; [split|].
    + transitivity (hist s1); [done|]. by transitivity (Rd UECONX v :: hist s1).
    + congruence.
    + pose proof (un_polls _ _ _ Hu2) as Hp. cbn [stall_polls hist] in Hp. lia.
  - apply wp_ret, HQ; [by transitivity (hist s1)|done].
Qed.

Section write.
Context (size : nat) (Hin : bulk_in nI size).

Lemma write_status_spec fuel (s : st G) :
  let m := CommandStatus (ms s) in
  sel nI (hist s) = true -> in_service nO nI luns (ms s) -> (28 < fuel)%nat ->
  wp_ False (write_status fuel) (fun ok s' =>
    ok = true /\ sel nI (hist s') = true /\ apart nI (hist s) (hist s') /\ ms s' = ms s
    /\ out_bytes nI (hist s') = out_bytes nI (hist s) ++ m) s.
Proof using Hquiet Hin.
  intros m Hs Hsv Hfuel. destruct (sv_status _ _ _ _ Hsv : length m = _ /\ _) as [Hm Hm8]. unfold write_status.
  assert (Hz : zlen m = 13) by (unfold zlen; lia).
  apply (wp_loop_total _
    (fun n s' => 0 <= n <= 13 /\ sel nI (hist s') = true /\ apart nI (hist s) (hist s') /\ ms s' = ms s
       /\ out_bytes nI (hist s') = out_bytes nI (hist s) ++ take (Z.to_nat n) m)
    (fun n s' => 2 * Z.to_nat (13 - n) + (if length (snd (in_bank nI (hist s'))) <? size then 0 else 1))%nat).
  - split_and!; try done. by rewrite app_nil_r.
  - destruct (_ <? size)%nat; lia.
  - intros n s1 (Hn & Hs1 & Hap & Hc1 & Hout). destruct s1 as [h1 g1]. cbn [hist glob] in *.
    wp_step. wp_step. rewrite Hc1. fold m.
    wp_call (write_stream_spec nI size Hin n 13 (Some n) m h1 g1 fuel ltac:(lia) (or_intror eq_refl) ltac:(lia)
      Hm8 ltac:(lia) Hs1 ltac:(done) ltac:(lia)).
    intros r s2 (p & h2 & -> & (Hp & Hs2 & Hap2 & Hout2) & Hr).
    assert (Hout3 : out_bytes nI h2 = out_bytes nI (hist s) ++ take (Z.to_nat p) m).
    { rewrite Hout2, Hout, <- app_assoc. f_equal. replace (Z.to_nat p) with (Z.to_nat n + Z.to_nat (p - n))%nat by lia.
      by rewrite <- take_take_drop. }
    assert (Hap3 : apart nI (hist s) h2) by by transitivity h1.
    destruct Hr as [[-> ->]|(Hlt & Hempty & _ & Hroom & ->)]; cbn [fst snd].
    + change (ENDPOINT_RWSTREAM_NoError =? _) with false. apply wp_ret. cbn [hist glob].
      split_and!; try done. rewrite Hout3. f_equal. apply take_ge. lia.
    + change (ENDPOINT_RWSTREAM_IncompleteTransfer =? _) with true. cbv match.
      apply wp_bind, reset_requested_no; cbn [hist glob]; [rewrite Hc1; apply Hsv|].
      intros s3 Hu Hc3. apply wp_ret. cbn [hist glob] in *. change (default 0 (Some p)) with p.
      rewrite (proj1 (un_bank _ _ _ Hu nI I)).
      unfold out_bytes at 1. rewrite (proj1 (un_bank _ _ _ Hu nI I)). fold (out_bytes nI h2). split.
      * split_and!; try lia; [|transitivity h2; [done|by apply untouched_all]|congruence|done].
        by rewrite (untouched_sel _ _ _ _ Hu).
      * rewrite Hempty. cbn [length]. pose proof (bi_size _ _ Hin) as Hpos.
        rewrite (proj2 (Nat.ltb_lt 0 size)) by lia.
        destruct (Nat.ltb_spec (length (snd (in_bank nI h1))) size) as [Hlt1|_]; [specialize (Hroom Hlt1)|]; lia.
Qed.

(** ** Returning the status *)

Lemma return_status_spec k fuel (s : st G) :
  let m := CommandStatus (ms s) in
  unstalls k -> in_service nO nI luns (ms s) -> (k + 28 < fuel)%nat ->
  wp_ False (MS_Device_ReturnCommandStatus fuel) (fun _ s' =>
    ms s' = ms s /\ snd (in_bank nI (hist s')) = [] /\ stalls (hist s') = stalls (hist s)
    /\ out_bytes nI (hist s') = out_bytes nI (hist s) ++ m
    /\ out_bank nO (hist s') = out_bank nO (hist s)) s.
Proof using Hne Hquiet Hin.
  intros m Hu Hsv Hfuel. destruct s as [h g]. cbn [hist glob] in *. unfold MS_Device_ReturnCommandStatus.
  do 2 wp_step. apply wp_bind, wp_select. rewrite (sv_out _ _ _ _ Hsv). intros h1 _ Hb1.
  apply wp_bind, (wait_stalled_spec k); [done|apply Hsv|lia|]. intros s2 Hu2 Hc2. cbn [negb hist glob] in *.
  destruct s2 as [h2 g2]. do 2 wp_step. cbn [hist glob] in *. rewrite Hc2.
  apply wp_bind, wp_select. rewrite (sv_in _ _ _ _ Hsv). intros h3 Hs3 Hb3.
  apply wp_bind, (wait_stalled_spec k); [done|cbn [glob]; rewrite Hc2; apply Hsv|lia|].
  intros s4 Hu4 Hc4. cbn [negb hist glob] in *.
  assert (Hs4 : sel nI (hist s4) = true) by (by rewrite (untouched_sel _ _ _ _ Hu4)).
  wp_call (write_status_spec fuel s4 Hs4 ltac:(rewrite Hc4, Hc2; exact Hsv) ltac:(lia)).
  intros ok s5 (-> & Hs5 & Hap5 & Hc5 & Hout5). cbn [negb]. destruct s5 as [h5 g5]. cbn [hist glob] in *.
  apply (clear_in nI h5); [done|]. intros h6 Hs6 Hap6 Hb6. cbn [hist glob].
  assert (Hbank : forall x, in_bank x (hist s4) = in_bank x h /\ out_bank x (hist s4) = out_bank x h).
  { intros x. destruct (un_bank _ _ _ Hu4 x I) as [-> ->]. destruct (Hb3 x) as [-> ->].
    destruct (un_bank _ _ _ Hu2 x I) as [-> ->]. by destruct (Hb1 x) as [-> ->]. }
  split_and!.
  - congruence.
  - by rewrite Hb6.
  - rewrite (un_stalls _ _ _ Hap6), (un_stalls _ _ _ Hap5), (un_stalls _ _ _ Hu4).
    change (stalls h3) with (stalls h2). by rewrite (un_stalls _ _ _ Hu2).
  - rewrite (out_bytes_sent nI h5 h6 Hb6), Hout5. unfold out_bytes. rewrite (proj1 (Hbank nI)).
    by rewrite Hc4, Hc2.
  - rewrite (proj2 (un_bank _ _ _ Hap6 nO Hne)), (proj2 (un_bank _ _ _ Hap5 nO Hne)). apply Hbank.
Qed.
End write.

(** ** Taking a command *)

(** A command is in the block, its endpoint is selected, and the packet it
    came in has been given back. *)
Definition received (hdr cdb : list Z) (s s1 : st G) : Prop :=
  ms s1 = set_CommandBlock (hdr ++ cdb ++ drop (15 + length cdb) (CommandBlock (ms s))) (ms s)
  /\ sel (if anybit (load8 CBW_Flags hdr) MS_COMMAND_DIR_DATA_IN then nI else nO) (hist s1) = true
  /\ snd (out_bank nO (hist s1)) = 0%nat
  /\ stalls (hist s1) = stalls (hist s) /\ in_bank nI (hist s1) = in_bank nI (hist s).

(** The handler has run once, on that command, with [P] between its states;
    then the status it returned has gone out, for the tag and the residue it
    left in the block, and the endpoint it had selected has been stalled
    first if it failed with data outstanding. *)
Definition transaction (hdr cdb : list Z) (P : st G -> bool -> st G -> Prop) (s s' : st G) : Prop :=
  exists s1 ok s2, received hdr cdb s s1 /\ P s1 ok s2
  /\ let b := CommandBlock (ms s2) in
     let residue := load32 CBW_DataTransferLength b in
     out_bytes nI (hist s') = out_bytes nI (hist s2) ++ csw_bytes ok (load32 CBW_Tag b) residue
     /\ snd (in_bank nI (hist s')) = []
     /\ stalls (hist s') = stalls (hist s2)
          ++ (if negb ok && negb (residue =? 0) then [last_wr UENUM (hist s2)] else [])
     /\ ms s' = set_CommandStatus (csw_bytes ok (load32 CBW_Tag b) residue) (ms s2)
     /\ in_service nO nI luns (ms s2).

Section take.
Context (ps : list (list Z)) (Hout : bulk_out nO ps).

Lemma select_command {B} fuel hdr bs (k : bool -> M G B) Q (s : st G) :
  arriving nO ps (hdr ++ bs) (hist s) -> in_service nO nI luns (ms s) -> length hdr = 15%nat ->
  (15 + length ps < fuel)%nat ->
  (forall s', incoming nO ps bs (hist s') ->
     (forall m, m <> nO -> in_bank m (hist s') = in_bank m (hist s)) -> stalls (hist s') = stalls (hist s) ->
     ms s' = set_CommandBlock (hdr ++ drop 15 (CommandBlock (ms s))) (ms s) -> wp_ False (k true) Q s') ->
  wp_ False (e ← getc DataOUTEndpoint; Endpoint_SelectEndpoint (et_Address e) ;;
             ok ← read_block fuel CBW_Signature (sizeof_MS_CommandBlockWrapper_t - 16); k ok) Q s.
Proof using Hquiet Hout.
  intros Harr Hsv Hl Hfuel HQ. destruct s as [h g]. cbn [hist glob] in *. do 2 wp_step.
  apply wp_bind, wp_select. rewrite (sv_out _ _ _ _ Hsv). intros h1 Hs1 Hb1.
  assert (Hin : incoming nO ps (hdr ++ bs) h1) by (split; [done|]; unfold arriving; by rewrite (proj1 (Hb1 nO))).
  replace (sizeof_MS_CommandBlockWrapper_t - 16) with (zlen hdr) by (unfold zlen; by rewrite Hl).
  wp_call (read_block_spec ps Hout fuel CBW_Signature hdr bs (St h1 g) Hin Hsv ltac:(unfold CBW_Signature; lia)
    ltac:(unfold zlen; lia) ltac:(lia)).
  intros ok s2 (-> & Hin2 & Hap & Hc2). cbn [hist glob] in *. apply HQ; [done| | |].
  - intros m Hm. rewrite (proj1 (un_bank _ _ _ Hap m Hm)). apply (proj2 (Hb1 m)).
  - by rewrite (un_stalls _ _ _ Hap).
  - rewrite Hc2. f_equal. unfold CBW_Signature. rewrite drop_0, take_0, app_nil_l.
    rewrite <- (take_drop 15 (CommandBlock (proj g))) at 1.
    apply list_inserts_0_r. rewrite length_take, (sv_block _ _ _ _ Hsv). lia.
Qed.

Lemma command_taken fuel hdr cdb rest (s : st G) :
  arriving nO ps (hdr ++ cdb ++ rest) (hist s) -> in_service nO nI luns (ms s) -> length hdr = 15%nat ->
  Forall is_u8 hdr -> invalid_block luns hdr = false -> load8 CBW_SCSICommandLength hdr = zlen cdb ->
  (31 + length ps < fuel)%nat ->
  wp_ False (MS_Device_ReadInCommandBlock fuel) (fun ok s' =>
    ok = true /\ sel nO (hist s') = true
    /\ ms s' = set_CommandBlock (hdr ++ cdb ++ drop (15 + length cdb) (CommandBlock (ms s))) (ms s)
    /\ snd (out_bank nO (hist s')) = 0%nat
    /\ stalls (hist s') = stalls (hist s) /\ in_bank nI (hist s') = in_bank nI (hist s)) s.
Proof using Hne Hquiet Hout.
  intros Harr Hsv Hl H8 Hval Hcdb Hfuel. unfold MS_Device_ReadInCommandBlock.
  eapply select_command; [done|done|done|lia|]. intros s1 Hin1 Hb1 Hst1 Hc1. cbn [negb]. do 4 wp_step.
  rewrite Hc1. cbn [TotalLUNs CommandBlock set_CommandBlock].
  rewrite invalid_block_app, (sv_luns _ _ _ _ Hsv), Hval by done.
  assert (HL : load8 CBW_SCSICommandLength (hdr ++ drop 15 (CommandBlock (ms s))) = zlen cdb).
  { rewrite <- Hcdb. unfold load8, CBW_SCSICommandLength. by rewrite lookup_app_l by lia. }
  assert (H16 : zlen cdb <= 16).
  { unfold invalid_block in Hval. rewrite Hcdb in Hval. apply orb_false_iff in Hval as [_ Hval%Z.ltb_ge]. done. }
  rewrite HL.
  wp_call (read_block_spec ps Hout fuel CBW_SCSICommandData cdb rest s1 Hin1 ltac:(rewrite Hc1; apply in_service_block; [done| |];
      [rewrite length_app, length_drop, (sv_block _ _ _ _ Hsv); lia|
       apply Forall_app; split; [done|apply Forall_drop, Hsv]])
    ltac:(unfold CBW_SCSICommandData; lia) ltac:(lia) ltac:(unfold zlen in *; lia)).
  intros ok s2 (-> & [Hs2 (r & j & p & Hb2 & _)] & Hap2 & Hc2). cbn [negb]. destruct s2 as [h2 g2]. cbn [hist glob] in *.
  apply wp_bind, (clear_out nO h2 g2 _ r j); [done|done|]. intros h3 Hs3 Hb3 Hap3. apply wp_ret.
  cbn [hist glob]. assert (HI : nI <> nO) by congruence. split_and!; [done|done| |by rewrite Hb3| |].
  - rewrite Hc2, Hc1. cbn [CommandBlock set_CommandBlock]. unfold CBW_SCSICommandData.
    rewrite drop_app_length', take_app_length' by done. rewrite app_assoc, <- app_assoc.
    assert (Hins : list_inserts 0 cdb (drop 15 (CommandBlock (ms s)))
      = cdb ++ drop (15 + length cdb) (CommandBlock (ms s))).
    { rewrite <- (take_drop (length cdb) (drop 15 (CommandBlock (ms s)))) at 1. rewrite drop_drop.
      apply list_inserts_0_r. rewrite length_take, length_drop, (sv_block _ _ _ _ Hsv). unfold zlen in H16. lia. }
    by rewrite Hins.
  - rewrite (un_stalls _ _ _ Hap3), (un_stalls _ _ _ Hap2). done.
  - rewrite (proj1 (un_bank _ _ _ Hap3 nI HI)), (proj1 (un_bank _ _ _ Hap2 nI HI)). by apply Hb1.
Qed.

Lemma command_rejected k fuel hdr rest (s : st G) :
  unstalls k -> arriving nO ps (hdr ++ rest) (hist s) -> in_service nO nI luns (ms s) -> length hdr = 15%nat ->
  invalid_block luns hdr = true -> (31 + length ps < fuel)%nat ->
  wp_ False (MS_Device_ReadInCommandBlock fuel) (fun ok s' =>
    ok = false /\ ms s' = set_CommandBlock (hdr ++ drop 15 (CommandBlock (ms s))) (ms s)
    /\ stalls (hist s') = stalls (hist s) ++ [Some nO; Some nI]
    /\ in_bank nI (hist s') = in_bank nI (hist s)) s.
Proof using Hne Hquiet Hout.
  intros Hu Harr Hsv Hl Hval Hfuel. unfold MS_Device_ReadInCommandBlock.
  eapply select_command; [done|done|done|lia|]. intros s1 [Hs1 _] Hb1 Hst1 Hc1. cbn [negb]. do 4 wp_step.
  rewrite Hc1. cbn [TotalLUNs CommandBlock set_CommandBlock].
  rewrite invalid_block_app, (sv_luns _ _ _ _ Hsv), Hval by done.
  apply wp_bind, (stall_spec k); [done|]. intros h2 Hs2 Hb2 Hst2.
  do 2 wp_step. rewrite Hc1. cbn [DataINEndpoint set_CommandBlock]. apply wp_bind, wp_select.
  rewrite (sv_in _ _ _ _ Hsv). intros h3 Hs3 Hb3.
  apply wp_bind, (stall_spec k); [done|]. intros h4 Hs4 Hb4 Hst4. apply wp_ret. cbn [hist glob] in *.
  split_and!; [done|done| |].
  - rewrite Hst4. change (stalls h3) with (stalls h2). rewrite Hst2, Hst1, <- app_assoc.
    apply bool_decide_eq_true in Hs1, Hs3. by rewrite Hs1, Hs3.
  - rewrite (proj1 (Hb4 nI)), (proj2 (Hb3 nI)), (proj1 (Hb2 nI)). apply Hb1. congruence.
Qed.

(** The task finds a packet on the OUT endpoint. *)
Lemma task_enter fuel bs Q (s : st G) :
  bus_configured -> arriving nO ps bs (hist s) -> in_service nO nI luns (ms s) ->
  (forall s', glob s' = glob s ->
     (forall m, in_bank m (hist s') = in_bank m (hist s) /\ out_bank m (hist s') = out_bank m (hist s)) ->
     stalls (hist s') = stalls (hist s) ->
     wp_ False (ok ← MS_Device_ReadInCommandBlock fuel; when (ok : bool) (execute_command fuel)) (fun _ s1 =>
       IsMassStoreReset (ms s1) = false /\ Q tt s1) s') ->
  wp_ False (MS_Device_USBTask fuel) Q s.
Proof using Hout.
  intros Hcf Harr Hsv HQ. destruct s as [h g]. cbn [hist glob] in *. unfold MS_Device_USBTask, get_DeviceState.
  do 2 wp_step. rewrite Hcf. change (negb (_ =? DEVICE_STATE_Configured)) with false. cbv match. do 2 wp_step.
  apply wp_bind, wp_select. rewrite (sv_out _ _ _ _ Hsv). intros h1 Hs1 Hb1.
  unfold Endpoint_IsOUTReceived. apply wp_bind, wp_flag. cbv zeta. cbn [hist glob].
  destruct Harr as (r & j & p & Hbk0 & Hp & _).
  assert (Hbk : out_bank nO h1 = (r, j)) by (rewrite (proj1 (Hb1 nO)); exact Hbk0).
  rewrite (proj1 (bo_flags _ _ Hout h1 r j p Hs1 Hbk Hp)), when_true. set (v := reg_trunc UEINTX _).
  apply wp_bind. wp_spec (HQ (St (Rd UEINTX v :: h1) g) eq_refl ltac:(intros m; destruct (Hb1 m); by split) eq_refl).
  intros [] s1 [Hr HQ1]. do 2 wp_step. rewrite Hr. by apply wp_ret.
Qed.

Lemma select_data_endpoint hdr cdb (s s1 : st G) :
  in_service nO nI luns (ms s) -> length hdr = 15%nat ->
  sel nO (hist s1) = true ->
  ms s1 = set_CommandBlock (hdr ++ cdb ++ drop (15 + length cdb) (CommandBlock (ms s))) (ms s) ->
  snd (out_bank nO (hist s1)) = 0%nat ->
  stalls (hist s1) = stalls (hist s) -> in_bank nI (hist s1) = in_bank nI (hist s) ->
  wp_ False (when (anybit (load8 CBW_Flags (CommandBlock (ms s1))) MS_COMMAND_DIR_DATA_IN) (
    e ← getc DataINEndpoint; Endpoint_SelectEndpoint (et_Address e))) (fun _ s2 => received hdr cdb s s2) s1.
Proof using.
  intros Hsv Hl Hs1 Hc1 Ho1 Hst1 Hb1. destruct s1 as [h1 g1]. cbn [hist glob] in *. unfold received.
  assert (Hfl : load8 CBW_Flags (CommandBlock (proj g1 : USB_ClassInfo_MS_Device_t)) = load8 CBW_Flags hdr).
  { rewrite Hc1. cbn [CommandBlock set_CommandBlock]. unfold load8, CBW_Flags. by rewrite lookup_app_l by lia. }
  rewrite Hfl. destruct (anybit (load8 CBW_Flags hdr) MS_COMMAND_DIR_DATA_IN); [rewrite when_true|rewrite when_false].
  - do 2 wp_step. rewrite Hc1. cbn [DataINEndpoint set_CommandBlock]. apply wp_select.
    rewrite (sv_in _ _ _ _ Hsv). intros h2 Hs2 Hb2. cbn [hist glob].
    split_and!; [done|done|by rewrite (proj1 (Hb2 nO))|done|by rewrite (proj2 (Hb2 nI))].
  - by apply wp_ret.
Qed.

Lemma received_execute size k fuel hdr cdb (P : st G -> bool -> st G -> Prop) (s s1 : st G) :
  unstalls k -> bulk_in nI size -> in_service nO nI luns (ms s) -> length hdr = 15%nat ->
  sel nO (hist s1) = true ->
  ms s1 = set_CommandBlock (hdr ++ cdb ++ drop (15 + length cdb) (CommandBlock (ms s))) (ms s) ->
  snd (out_bank nO (hist s1)) = 0%nat ->
  stalls (hist s1) = stalls (hist s) -> in_bank nI (hist s1) = in_bank nI (hist s) ->
  (forall s1, received hdr cdb s s1 -> wp_ False CALLBACK_MS_Device_SCSICommandReceived (fun ok s2 =>
     P s1 ok s2 /\ in_service nO nI luns (ms s2)) s1) ->
  (k + 28 < fuel)%nat ->
  wp_ False (execute_command fuel) (fun _ s' => transaction hdr cdb P s s') s1.
Proof using Hne Hquiet.
  intros Hu Hin Hsv Hl Hs1 Hc1 Ho1 Hst1 Hb1 Hcb Hfuel. unfold execute_command. do 2 wp_step.
  wp_call (select_data_endpoint hdr cdb s s1 Hsv Hl Hs1 Hc1 Ho1 Hst1 Hb1). intros [] s2 Hrec.
  wp_call (Hcb s2 Hrec). intros ok s3 [HP Hsv3].
  assert (Hcsw := status_for_bytes ok (CommandBlock (ms s3)) (CommandStatus (ms s3)) (proj1 (sv_status _ _ _ _ Hsv3))).
  set (b := CommandBlock (ms s3)) in *. set (csw := csw_bytes ok _ _) in *.
  do 2 wp_step. cbv beta. fold b. rewrite Hcsw. do 2 wp_step. rewrite proj_inj. cbn [CommandStatus set_CommandStatus].
  assert (Hres : load32 CSW_DataTransferResidue csw = load32 CBW_DataTransferLength b).
  { unfold csw, csw_bytes, CSW_DataTransferResidue.
    rewrite (load32_words 2 _ [_; _; _] _ eq_refl). apply u32_id, load32_range, Hsv3. }
  rewrite Hres. set (residue := load32 CBW_DataTransferLength b) in *.
  assert (Hcsw8 : length csw = 13%nat /\ Forall is_u8 csw).
  { split; [by destruct ok|]. apply Forall_app. split; [apply words_range|]. by repeat constructor; destruct ok. }
  assert (Hsv4 : in_service nO nI luns (set_CommandStatus csw (ms s3))) by by destruct Hsv3.
  assert (Hrest : forall s4 : st G, ms s4 = set_CommandStatus csw (ms s3) ->
    (forall m, in_bank m (hist s4) = in_bank m (hist s3) /\ out_bank m (hist s4) = out_bank m (hist s3)) ->
    stalls (hist s4) = stalls (hist s3)
      ++ (if negb ok && negb (residue =? 0) then [last_wr UENUM (hist s3)] else []) ->
    wp_ False (MS_Device_ReturnCommandStatus fuel) (fun _ s' => transaction hdr cdb P s s') s4).
  { intros s4 Hc4 Hb4 Hst4.
    wp_spec (return_status_spec size Hin k fuel s4 Hu ltac:(by rewrite Hc4) ltac:(lia)).
    intros [] s5 (Hc5 & Hb5 & Hst5 & Ho5 & _). rewrite Hc4 in Hc5, Ho5. cbn [CommandStatus set_CommandStatus] in Ho5.
    exists s2, ok, s3. split; [done|]. split; [done|]. cbv zeta. fold b residue csw. split_and!; [|done|congruence|done|done].
    rewrite Ho5. unfold out_bytes. by rewrite (proj1 (Hb4 nI)). }
  destruct (negb ok && negb (residue =? 0)) eqn:Ef; [rewrite when_true|rewrite when_false].
  - apply wp_bind, (stall_spec k); [done|]. cbn [hist glob]. intros h4 _ Hb4 Hst4.
    apply Hrest; cbn [hist glob]; [apply proj_inj|done|done].
  - apply wp_bind, wp_ret, Hrest; cbn [hist glob]; [apply proj_inj|done|by rewrite app_nil_r].
Qed.

(** C34. One command, end to end.  A valid command block that arrives on the OUT
    endpoint, in whatever packets, makes the task run the application's
    handler once, with exactly that command in the block, the packet given
    back and the data endpoint of the command's direction selected; then the
    host receives on the IN endpoint the 13 bytes of the status wrapper, with
    the signature, the tag and residue of the block as the handler left it and
    the handler's verdict, and nothing stays in the bank; the endpoint is
    stalled first exactly when the handler failed with data outstanding.  The
    task terminates on a host that ends stalls, whatever interrupts do
    elsewhere. *)
Theorem command_transaction size k fuel hdr cdb rest (P : st G -> bool -> st G -> Prop) (s : st G) :
  bus_configured -> unstalls k -> bulk_in nI size -> in_service nO nI luns (ms s) ->
  arriving nO ps (hdr ++ cdb ++ rest) (hist s) ->
  length hdr = 15%nat -> Forall is_u8 hdr -> invalid_block luns hdr = false ->
  load8 CBW_SCSICommandLength hdr = zlen cdb ->
  (forall s1, received hdr cdb s s1 -> wp_ False CALLBACK_MS_Device_SCSICommandReceived (fun ok s2 =>
     P s1 ok s2 /\ in_service nO nI luns (ms s2)) s1) ->
  (k + length ps + 31 < fuel)%nat ->
  wp_ False (MS_Device_USBTask fuel) (fun _ s' => transaction hdr cdb P s s') s.
Proof using Hne Hquiet Hout.
  intros Hcf Hu Hin Hsv Harr Hl H8 Hval Hcdb Hcb Hfuel.
  eapply task_enter; [done|exact Harr|done|]. intros s1 Hg1 Hb1 Hst1.
  wp_call (command_taken fuel hdr cdb rest s1 ltac:(unfold arriving; by rewrite (proj2 (Hb1 nO)))
    ltac:(by rewrite Hg1) Hl H8 Hval Hcdb ltac:(lia)).
  intros ok s2 (-> & Hs2 & Hc2 & Ho2 & Hst2 & Hb2). rewrite when_true. rewrite Hg1 in Hc2.
  wp_spec (received_execute size k fuel hdr cdb P s s2 Hu Hin Hsv Hl Hs2 Hc2 Ho2 ltac:(congruence)
    ltac:(rewrite Hb2; apply Hb1) Hcb ltac:(lia)).
  intros [] s3 Ht. split; [|done]. destruct Ht as (? & ? & ? & _ & _ & _ & _ & _ & -> & Hsv3). apply Hsv3.
Qed.

(** An invalid command block (a wrong signature, a unit that does not exist,
    reserved flags, a command of no or more than 16 bytes) stalls both data
    endpoints; the handler is not run, no status is sent and nothing else of
    the driver's state changes. *)
Theorem invalid_command_stalled k fuel hdr rest (s : st G) :
  bus_configured -> unstalls k -> in_service nO nI luns (ms s) ->
  arriving nO ps (hdr ++ rest) (hist s) -> length hdr = 15%nat -> invalid_block luns hdr = true ->
  (length ps + 31 < fuel)%nat ->
  wp_ False (MS_Device_USBTask fuel) (fun _ s' =>
    ms s' = set_CommandBlock (hdr ++ drop 15 (CommandBlock (ms s))) (ms s)
    /\ stalls (hist s') = stalls (hist s) ++ [Some nO; Some nI]
    /\ in_bank nI (hist s') = in_bank nI (hist s)) s.
Proof using Hne Hquiet Hout.
  intros Hcf Hu Hsv Harr Hl Hval Hfuel.
  eapply task_enter; [done|exact Harr|done|]. intros s1 Hg1 Hb1 Hst1.
  wp_call (command_rejected k fuel hdr rest s1 Hu ltac:(unfold arriving; by rewrite (proj2 (Hb1 nO)))
    ltac:(by rewrite Hg1) Hl Hval ltac:(lia)).
  intros ok s2 (-> & Hc2 & Hst2 & Hb2). rewrite when_false. apply wp_ret. rewrite Hg1 in Hc2. split_and!.
  - rewrite Hc2. apply Hsv.
  - done.
  - congruence.
  - rewrite Hb2. apply Hb1.
Qed.
End take.

(** ** An empty packet *)

(** The host sends no packet to the endpoint after [ps], and does not stall it;
    the frame number goes on. *)
Record silent_after (kf : nat) (ps : list (list Z)) : Prop := {
  sa_out h r j : sel nO h = true -> out_bank nO h = (r, j) -> (length ps <= r)%nat ->
    anybit (reg_trunc UEINTX (hw_value h UEINTX)) (BV RXOUTI) = false;
  sa_stall h : anybit (reg_trunc UECONX (hw_value h UECONX)) (BV STALLRQ) = false;
  sa_frames : frame_progress kf;
}.

Section stale.
Context (kf : nat) (ps : list (list Z)) (Hout : bulk_out nO ps) (Hsil : silent_after kf ps).
Context (Hcf : bus_configured) (fuel : nat) (Hfuel : (101 * S kf < fuel)%nat).

(** Waiting for a packet that does not come. *)
Lemma wait_silent h (g : G) :
  sel nO h = true -> (length ps <= fst (out_bank nO h))%nat ->
  wp_ False (Endpoint_WaitUntilReady fuel) (fun r s' =>
    r = ENDPOINT_READYWAIT_Timeout /\ glob s' = g /\ untouched (fun _ => True) h (hist s')) (St h g).
Proof using Hout Hsil Hcf Hfuel.
  intros Hs Hr. apply wp_partial.
  { eapply wp_some; [exact id|]. exact (WaitUntilReady_returns kf fuel (St h g) (sa_frames _ _ Hsil) Hfuel). }
  unfold Endpoint_WaitUntilReady, USB_Device_GetFrameNumber. do 2 wp_step.
  apply (wp_loop _ (fun _ s' => glob s' = g /\ untouched (fun _ => True) h (hist s'))).
  { split; [done|]. by apply untouched_rd. }
  intros [T P] [h1 g1] [Hg Hu]. cbn [glob hist] in *. subst g1.
  assert (Hs1 : sel nO h1 = true) by (by rewrite (untouched_sel _ _ _ _ Hu)).
  unfold wait_ready_step, Endpoint_GetEndpointDirection, Endpoint_IsOUTReceived, get_DeviceState,
    Endpoint_IsStalled, USB_Device_GetFrameNumber.
  do 3 wp_step. rewrite (bo_dir _ _ Hout) by exact Hs1. apply wp_ret.
  change (ENDPOINT_DIR_OUT =? ENDPOINT_DIR_IN) with false. cbv match.
  apply wp_bind, wp_flag. cbv zeta. cbn [hist glob]. set (h2 := Rd UECFG0X _ :: h1).
  destruct (out_bank nO h2) as [r j] eqn:Hb.
  assert (Hr2 : (length ps <= r)%nat).
  { assert (Hb' : out_bank nO h2 = out_bank nO h) by exact (proj2 (un_bank _ _ _ Hu nO I)).
    rewrite Hb' in Hb. rewrite Hb in Hr. exact Hr. }
  rewrite (sa_out _ _ Hsil h2 r j Hs1 Hb Hr2). do 2 wp_step. rewrite Hcf.
  change (DEVICE_STATE_Configured =? DEVICE_STATE_Unattached) with false.
  change (DEVICE_STATE_Configured =? DEVICE_STATE_Suspended) with false. cbv match.
  apply wp_bind, wp_flag. cbv zeta. rewrite (sa_stall _ _ Hsil). do 2 wp_step. cbn [hist glob].
  set (h5 := Rd UDFNUM _ :: _).
  assert (Hu5 : untouched (fun _ => True) h h5).
  { transitivity h1; [done|]. unfold h5, h2. repeat (etransitivity; [|by apply untouched_rd]). done. }
  destruct (_ =? P); [|destruct (T =? 0)]; apply wp_ret; by split_and?.
Qed.

(** Nothing to read: the loop takes the time-out for success. *)
Lemma read_step_silent Start Length n (s : st G) :
  sel nO (hist s) = true -> (length ps <= fst (out_bank nO (hist s)))%nat ->
  wp_ False (read_block_step fuel Start Length n) (fun r s' =>
    r = inr true /\ ms s' = ms s /\ untouched (fun _ => True) (hist s) (hist s')) s.
Proof using Hout Hsil Hcf Hfuel.
  intros Hs Hr. destruct s as [h g]. cbn [hist glob] in *. unfold read_block_step. do 2 wp_step.
  unfold Endpoint_Read_Stream_LE, read_stream, Template_Endpoint_RW. apply wp_bind.
  wp_call (wait_silent h g Hs Hr). intros r [h1 g1] (-> & Hg & Hu). cbn [hist glob] in Hg, Hu. subst g1.
  change (negb (ENDPOINT_READYWAIT_Timeout =? 0)) with true. cbv match. apply wp_ret. do 2 wp_step. cbn [fst snd].
  change (ENDPOINT_READYWAIT_Timeout =? ENDPOINT_RWSTREAM_IncompleteTransfer) with false. apply wp_ret.
  cbn [hist glob]. rewrite proj_inj, take_drop. split_and!; [done|by destruct (proj g : USB_ClassInfo_MS_Device_t)|done].
Qed.

Lemma read_block_silent Start Length (s : st G) :
  sel nO (hist s) = true -> (length ps <= fst (out_bank nO (hist s)))%nat ->
  wp_ False (read_block fuel Start Length) (fun ok s' =>
    ok = true /\ ms s' = ms s /\ untouched (fun _ => True) (hist s) (hist s')) s.
Proof using Hout Hsil Hcf Hfuel.
  intros Hs Hr. unfold read_block. assert (exists n, fuel = S n) as [n En] by (exists (fuel - 1)%nat; lia).
  rewrite En at 1. cbn [loop]. wp_call (read_step_silent Start Length 0 s Hs Hr).
  intros r s1 (-> & Hc & Hu). by apply wp_ret.
Qed.

(** The empty packet itself: the first call gives it back. *)
Lemma read_step_empty r Start Length (s : st G) :
  sel nO (hist s) = true -> out_bank nO (hist s) = (r, 0%nat) -> ps !! r = Some [] -> length ps = S r ->
  IsMassStoreReset (ms s) = false -> 0 < Length < 2 ^ 16 ->
  wp_ False (read_block_step fuel Start Length 0) (fun x s' =>
    x = inl 0 /\ ms s' = ms s /\ sel nO (hist s') = true /\ (length ps <= fst (out_bank nO (hist s')))%nat
    /\ apart nO (hist s) (hist s')) s.
Proof using Hquiet Hout Hsil Hcf Hfuel.
  intros Hs Hb Hp Hl Hr HL. destruct s as [h g]. cbn [hist glob] in *. unfold read_block_step. do 2 wp_step.
  unfold Endpoint_Read_Stream_LE, read_stream, Template_Endpoint_RW at 1. apply wp_bind.
  assert (Hin : incoming nO ps [] h).
  { split; [done|]. exists r, 0%nat, []. split_and!; [done|done|done|]. by rewrite (drop_ge ps) by lia. }
  apply wp_bind, (wait_out nO ps Hout []); [done|lia|]. intros h1 [Hs1 _] Hb1 Hap1. rewrite Hb in Hb1.
  change (negb (ENDPOINT_READYWAIT_NoError =? 0)) with false. cbv match.
  assert (exists n, fuel = S n) as [n En] by (exists (fuel - 1)%nat; lia).
  rewrite En at 1. cbn [loop]. apply wp_bind. cbn [rw_step].
  rewrite Z.sub_0_r, u16_id by (unfold is_u16; lia). rewrite (proj2 (Z.eqb_neq Length 0)) by lia.
  unfold Endpoint_IsReadWriteAllowed. apply wp_bind, wp_flag. cbv zeta. cbn [hist glob].
  rewrite (proj2 (bo_flags _ _ Hout h1 r 0%nat [] Hs1 Hb1 Hp)). set (v := reg_trunc UEINTX _). cbn [negb].
  apply wp_bind, (clear_out nO (Rd UEINTX v :: h1) g _ r 0%nat); [exact Hs1|exact Hb1|]. intros h2 Hs2 Hb2 Hap2.
  do 2 apply wp_ret. do 2 wp_step. cbn [fst snd hist glob].
  change (ENDPOINT_RWSTREAM_IncompleteTransfer =? _) with true. cbv match.
  apply wp_bind, reset_requested_no; cbn [hist glob]; rewrite proj_inj; [exact Hr|]. intros s3 Hu Hc. apply wp_ret.
  rewrite Hc, take_drop. split_and!; [done|by destruct (proj g : USB_ClassInfo_MS_Device_t)| | |].
  - by rewrite (untouched_sel _ _ _ _ Hu).
  - rewrite (proj2 (un_bank _ _ _ Hu nO I)), Hb2. cbn [fst]. lia.
  - transitivity h1; [done|]. transitivity (Rd UEINTX v :: h1); [by apply apart_rd|].
    transitivity h2; [done|]. by apply untouched_all.
Qed.

(** The block that was taken last. *)
Lemma command_taken_again r (s : st G) :
  out_bank nO (hist s) = (r, 0%nat) -> ps !! r = Some [] -> length ps = S r ->
  in_service nO nI luns (ms s) -> invalid_block luns (CommandBlock (ms s)) = false ->
  wp_ False (MS_Device_ReadInCommandBlock fuel) (fun ok s' =>
    ok = true /\ sel nO (hist s') = true /\ ms s' = ms s /\ snd (out_bank nO (hist s')) = 0%nat
    /\ stalls (hist s') = stalls (hist s) /\ in_bank nI (hist s') = in_bank nI (hist s)) s.
Proof using Hne Hquiet Hout Hsil Hcf Hfuel.
  intros Hb Hp Hl Hsv Hval. destruct s as [h g]. cbn [hist glob] in *. unfold MS_Device_ReadInCommandBlock.
  do 2 wp_step. apply wp_bind, wp_select. rewrite (sv_out _ _ _ _ Hsv). intros h1 Hs1 Hb1.
  assert (exists n, fuel = S (S n)) as [n En] by (exists (fuel - 2)%nat; lia).
  apply wp_bind. unfold read_block at 1. rewrite En at 1. cbn [loop].
  wp_call (read_step_empty r CBW_Signature (sizeof_MS_CommandBlockWrapper_t - 16) (St h1 g) Hs1
    ltac:(cbn [hist]; by rewrite (proj1 (Hb1 nO))) Hp Hl ltac:(apply Hsv) ltac:(done)).
  intros x s2 (-> & Hc2 & Hs2 & Hr2 & Hap2). cbn [hist glob] in *.
  wp_call (read_step_silent CBW_Signature (sizeof_MS_CommandBlockWrapper_t - 16) 0 s2 Hs2 Hr2).
  intros x s3 (-> & Hc3 & Hu3). apply wp_ret. cbn [negb]. do 4 wp_step. rewrite Hc3, Hc2, (sv_luns _ _ _ _ Hsv), Hval.
  assert (Hs3 : sel nO (hist s3) = true) by (by rewrite (untouched_sel _ _ _ _ Hu3)).
  assert (Hr3 : (length ps <= fst (out_bank nO (hist s3)))%nat) by (by rewrite (proj2 (un_bank _ _ _ Hu3 nO I))).
  wp_call (read_block_silent CBW_SCSICommandData (load8 CBW_SCSICommandLength (CommandBlock (proj g))) s3 Hs3 Hr3).
  intros ok s4 (-> & Hc4 & Hu4). cbn [negb]. destruct s4 as [h4 g4]. cbn [hist glob] in *.
  destruct (out_bank nO h4) as [r4 j4] eqn:Hb4.
  apply wp_bind, (clear_out nO h4 g4 _ r4 j4); [by rewrite (untouched_sel _ _ _ _ Hu4)|done|].
  intros h5 Hs5 Hb5 Hap5. apply wp_ret. cbn [hist glob]. assert (HI : nI <> nO) by congruence.
  split_and!; [done|done|congruence|by rewrite Hb5| |].
  - rewrite (un_stalls _ _ _ Hap5), (un_stalls _ _ _ Hu4), (un_stalls _ _ _ Hu3), (un_stalls _ _ _ Hap2). done.
  - rewrite (proj1 (un_bank _ _ _ Hap5 nI HI)), (proj1 (un_bank _ _ _ Hu4 nI I)), (proj1 (un_bank _ _ _ Hu3 nI I)),
      (proj1 (un_bank _ _ _ Hap2 nI HI)). apply (proj2 (Hb1 nI)).
Qed.

(** C35. An empty packet executes the last command again.  The driver takes any
    result of the stream function but "incomplete" for success.  After an
    empty packet that no other follows within the time-out, it looks at the
    block it has taken before, finds it valid, runs the handler on it once
    more, and sends a status for it that the host has not asked for. *)
Theorem stale_command_replayed size k r (P : st G -> bool -> st G -> Prop) (s : st G) :
  let b := CommandBlock (ms s) in
  let hdr := take 15 b in
  let cdb := load 15 (Z.to_nat (load8 CBW_SCSICommandLength b)) b in
  unstalls k -> bulk_in nI size -> in_service nO nI luns (ms s) -> invalid_block luns b = false ->
  out_bank nO (hist s) = (r, 0%nat) -> ps !! r = Some [] -> length ps = S r ->
  (forall s1, received hdr cdb s s1 -> wp_ False CALLBACK_MS_Device_SCSICommandReceived (fun ok s2 =>
     P s1 ok s2 /\ in_service nO nI luns (ms s2)) s1) ->
  (k + 28 < fuel)%nat ->
  wp_ False (MS_Device_USBTask fuel) (fun _ s' => transaction hdr cdb P s s') s.
Proof using Hne Hquiet Hout Hsil Hcf Hfuel.
  intros b hdr cdb Hu Hin Hsv Hval Hb Hp Hl Hcb Hk. pose proof (sv_block _ _ _ _ Hsv : length b = 31%nat) as Hb31.
  assert (Harr : arriving nO ps [] (hist s)).
  { exists r, 0%nat, []. split_and!; [done|done|done|]. by rewrite (drop_ge ps) by lia. }
  eapply task_enter; [done|done|exact Harr|done|]. intros s1 Hg1 Hb1 Hst1.
  wp_call (command_taken_again r s1 ltac:(by rewrite (proj2 (Hb1 nO))) Hp Hl ltac:(by rewrite Hg1) ltac:(by rewrite Hg1)).
  intros ok s2 (-> & Hs2 & Hc2 & Ho2 & Hst2 & Hb2). rewrite when_true. rewrite Hg1 in Hc2.
  assert (Hblock : ms s2 = set_CommandBlock (hdr ++ cdb ++ drop (15 + length cdb) b) (ms s)).
  { rewrite Hc2. assert (Hsplit : b = hdr ++ cdb ++ drop (15 + length cdb) b).
    { rewrite <- (take_drop 15 b) at 1. unfold hdr. f_equal. rewrite <- drop_drop.
      rewrite <- (take_drop (length cdb) (drop 15 b)) at 1. f_equal. unfold cdb, load.
      rewrite length_take. symmetry. rewrite <- take_take. by rewrite firstn_all. }
    rewrite <- Hsplit. by destruct (ms s). }
  wp_spec (received_execute size k fuel hdr cdb P s s2 Hu Hin Hsv ltac:(unfold hdr; rewrite length_take; lia) Hs2 Hblock Ho2
    ltac:(congruence) ltac:(rewrite Hb2; apply Hb1) Hcb ltac:(lia)).
  intros [] s3 Ht. split; [|done]. destruct Ht as (? & ? & ? & _ & _ & _ & _ & _ & -> & Hsv3). apply Hsv3.
Qed.
End stale.
End ms.

(** ** Examples *)

(** A host that sends the packets [ps] to endpoint 2 and takes those of endpoint 1. *)
Definition ms_host (ps : list (list Z)) : Hardware := fun h r =>
  match r with
  | GPIOR0 | UDFNUM => idle_bus h r
  | UECONX => 0
  | _ => if sel 2 h then sender 2 ps h r else taker 1 64 h r
  end.

Lemma ms_host_out ps : Forall (Forall is_u8) ps -> @bulk_out (ms_host ps) 2 ps.
Proof.
  intros H8. destruct (sender_bulk 2 ps H8) as [Hd Hf Hx].
  split; unfold hw_value, ms_host in *.
  - intros h Hs. rewrite Hs. by apply Hd.
  - intros h r j p Hs. rewrite Hs. by apply Hf.
  - intros h r j p x Hs. rewrite Hs. by apply Hx.
Qed.
Lemma ms_host_in ps : @bulk_in (ms_host ps) 1 64.
Proof.
  destruct (taker_bulk 1 64 ltac:(lia)) as [_ Hd Hf].
  split; [lia|..]; unfold hw_value, ms_host in *; intros h Hs; rewrite (sel_ne 1 2 h Hs) by done.
  - by apply Hd.
  - by apply Hf.
Qed.
Lemma ms_host_silent ps : @silent_after (ms_host ps) 2 1 ps.
Proof.
  split; [|done|exact idle_bus_progress]. intros h r j Hs Hb Hr. unfold hw_value, ms_host, sender.
  by rewrite Hs, Hb, (proj2 (Nat.ltb_ge _ _)) by lia.
Qed.

(** A unit that is always ready. *)
#[local] Instance ready_unit : MsDevice USB_ClassInfo_MS_Device_t := {
  CALLBACK_MS_Device_SCSICommandReceived := mret true;
  interrupts := mret tt;
}.
Definition ready_P (s1 : st USB_ClassInfo_MS_Device_t) (ok : bool) (s2 : st USB_ClassInfo_MS_Device_t) : Prop :=
  ok = true /\ s2 = s1.

Lemma ready_quiet : @quiet_interrupts _ (Has_refl _) ready_unit.
Proof. intros s. by apply wp_ret. Qed.

(** TEST UNIT READY, and a driver that has just been configured. *)
Definition test_unit_ready : list Z := words [MS_CBW_SIGNATURE; 7; 0] ++ [0; 0; 6].
Definition fresh_ms : USB_ClassInfo_MS_Device_t :=
  mkMS 0 (mkEndpointTable 0x81 64 2 1) (mkEndpointTable 2 64 2 1) 1 (repeat 0 31) (repeat 0 13) false.
(** The same driver after the command. *)
Definition used_ms : USB_ClassInfo_MS_Device_t :=
  set_CommandBlock (test_unit_ready ++ repeat 0 16) fresh_ms.

Lemma ms_in_service c : c = fresh_ms \/ c = used_ms -> in_service 2 1 1 c.
Proof. intros [-> | ->]; split; try done; try split; try done; apply (bool_decide_unpack _); vm_compute; exact I. Qed.

Lemma command_transaction_witness :
  let ps := [test_unit_ready ++ repeat 0 16] in
  wp_ False (@MS_Device_USBTask _ (ms_host ps) (Has_refl _) ready_unit 100)
    (fun _ s' => out_bytes 1 (hist s') = csw_bytes true 7 0) (St [] fresh_ms).
Proof.
  intros ps. refine (wp_conseq False _ _ _ _ _ (@command_transaction _ (ms_host ps) (Has_refl _) ready_unit 2 1 1
    _ ready_quiet ps _ 64 0 100 test_unit_ready (repeat 0 6) (repeat 0 10) ready_P (St [] fresh_ms)
    _ _ _ _ _ _ _ _ _ _ _) (fun x => x) _).
  - done.
  - apply ms_host_out. apply (bool_decide_unpack _). vm_compute. exact I.
  - done.
  - done.
  - apply ms_host_in.
  - apply ms_in_service. by left.
  - exists 0%nat, 0%nat, (test_unit_ready ++ repeat 0 16). split_and!; [done|done|lia|]. by rewrite app_nil_r.
  - done.
  - apply (bool_decide_unpack _). vm_compute. exact I.
  - done.
  - done.
  - intros s1 (Hc & _). apply wp_ret. split; [done|]. apply ms_in_service. by right.
  - vm_compute. lia.
  - intros [] s' (s1 & ok & s2 & (Hc & _ & _ & _ & Hb) & [-> ->] & Ho & _). rewrite Ho.
    unfold out_bytes. rewrite Hb. cbn [hist in_bank concat fst snd app]. 
    rewrite Hc. vm_compute. reflexivity.
Defined.

(** A command for a unit that does not exist. *)
Definition wrong_unit : list Z := words [MS_CBW_SIGNATURE; 7; 0] ++ [0; 9; 6].

Lemma invalid_command_stalled_witness :
  let ps := [wrong_unit ++ repeat 0 16] in
  wp_ False (@MS_Device_USBTask _ (ms_host ps) (Has_refl _) ready_unit 100)
    (fun _ s' => stalls (hist s') = [Some 2; Some 1]) (St [] fresh_ms).
Proof.
  intros ps. refine (wp_conseq False _ _ _ _ _ (@invalid_command_stalled _ (ms_host ps) (Has_refl _) ready_unit 2 1 1
    _ ready_quiet ps _ 0 100 wrong_unit (repeat 0 16) (St [] fresh_ms) _ _ _ _ _ _ _) (fun x => x) _).
  - done.
  - apply ms_host_out. apply (bool_decide_unpack _). vm_compute. exact I.
  - done.
  - done.
  - apply ms_in_service. by left.
  - exists 0%nat, 0%nat, (wrong_unit ++ repeat 0 16). split_and!; [done|done|lia|]. by rewrite app_nil_r.
  - done.
  - done.
  - vm_compute. lia.
  - intros [] s' (_ & Hst & _). exact Hst.
Defined.

(** The driver has executed a command; an empty packet comes. *)
Lemma stale_command_replayed_witness :
  wp_ False (@MS_Device_USBTask _ (ms_host [[]]) (Has_refl _) ready_unit 300)
    (fun _ s' => out_bytes 1 (hist s') = csw_bytes true 7 0) (St [] used_ms).
Proof.
  refine (wp_conseq False _ _ _ _ _ (@stale_command_replayed _ (ms_host [[]]) (Has_refl _) ready_unit 2 1 1
    _ ready_quiet 1 [[]] _ (ms_host_silent [[]]) _ 300 _ 64 0 0 ready_P (St [] used_ms)
    _ _ _ _ _ _ _ _ _) (fun x => x) _).
  - done.
  - apply ms_host_out. by repeat constructor.
  - done.
  - lia.
  - done.
  - apply ms_host_in.
  - apply ms_in_service. by right.
  - done.
  - done.
  - done.
  - done.
  - intros s1 (Hc & _). apply wp_ret. split; [done|]. apply ms_in_service. by right.
  - lia.
  - intros [] s' (s1 & ok & s2 & (Hc & _ & _ & _ & Hb) & [-> ->] & Ho & _). rewrite Ho.
    unfold out_bytes. rewrite Hb. cbn [hist in_bank concat fst snd app].
    rewrite Hc. vm_compute. reflexivity.
Defined.
