(* ===== verification/HidDevice.v ===== *)
(** * LUFA/Drivers/USB/Class/Device/HIDClassDevice.[ch]

    The HID class driver: reports on request and on the interrupt endpoint,
    sent when they change, when the application insists and when the idle
    period of the host has passed. *)

From S2P Require Import Prelude Machine Flat Endpoint EndpointStream Cdc.

(** ** HIDClassCommon.h *)

Definition HID_REQ_GetReport : Z := 0x01.
Definition HID_REQ_GetIdle : Z := 0x02.
Definition HID_REQ_GetProtocol : Z := 0x03.
Definition HID_REQ_SetReport : Z := 0x09.
Definition HID_REQ_SetIdle : Z := 0x0A.
Definition HID_REQ_SetProtocol : Z := 0x0B.
Definition HID_REPORT_ITEM_In : Z := 0.

(** ** HIDClassDevice.h *)

(** [PrevReportINBuffer] is [None] for NULL, and otherwise the
    [PrevReportINBufferSize] bytes it points to. *)
Record USB_ClassInfo_HID_Device_t := mkHID {
  InterfaceNumber : Z;
  ReportINEndpoint : USB_Endpoint_Table_t;
  PrevReportINBuffer : option (list Z);
  PrevReportINBufferSize : Z;
  UsingReportProtocol : bool;
  PrevFrameNum : Z;
  IdleCount : Z;
  IdleMSRemaining : Z;
}.

Definition set_PrevReportINBuffer (b : option (list Z)) (c : USB_ClassInfo_HID_Device_t) : USB_ClassInfo_HID_Device_t :=
  mkHID (InterfaceNumber c) (ReportINEndpoint c) b (PrevReportINBufferSize c) (UsingReportProtocol c)
    (PrevFrameNum c) (IdleCount c) (IdleMSRemaining c).
Definition set_UsingReportProtocol (b : bool) (c : USB_ClassInfo_HID_Device_t) : USB_ClassInfo_HID_Device_t :=
  mkHID (InterfaceNumber c) (ReportINEndpoint c) (PrevReportINBuffer c) (PrevReportINBufferSize c) b
    (PrevFrameNum c) (IdleCount c) (IdleMSRemaining c).
Definition set_PrevFrameNum (n : Z) (c : USB_ClassInfo_HID_Device_t) : USB_ClassInfo_HID_Device_t :=
  mkHID (InterfaceNumber c) (ReportINEndpoint c) (PrevReportINBuffer c) (PrevReportINBufferSize c)
    (UsingReportProtocol c) n (IdleCount c) (IdleMSRemaining c).
Definition set_IdleCount (n : Z) (c : USB_ClassInfo_HID_Device_t) : USB_ClassInfo_HID_Device_t :=
  mkHID (InterfaceNumber c) (ReportINEndpoint c) (PrevReportINBuffer c) (PrevReportINBufferSize c)
    (UsingReportProtocol c) (PrevFrameNum c) n (IdleMSRemaining c).
Definition set_IdleMSRemaining (n : Z) (c : USB_ClassInfo_HID_Device_t) : USB_ClassInfo_HID_Device_t :=
  mkHID (InterfaceNumber c) (ReportINEndpoint c) (PrevReportINBuffer c) (PrevReportINBufferSize c)
    (UsingReportProtocol c) (PrevFrameNum c) (IdleCount c) n.

(** A report as the application's callback leaves it: whether to send it at
    once, its identifier, the buffer and the size. *)
Record created := mkCreated {
  ForceSend : bool;
  ReportID : Z;
  ReportData : list Z;
  ReportSize : Z;
}.

(** The application: the report of a type, into a buffer; and a report the
    host has sent (identifier, type, data, size). *)
Class HidApplication (G : Type) := {
  CALLBACK_HID_Device_CreateHIDReport : Z -> Z -> list Z -> M G created;
  CALLBACK_HID_Device_ProcessHIDReport : Z -> Z -> list Z -> Z -> M G unit;
}.

(** ** HIDClassDevice.c *)

(** [memset(&State, 0, ..)], the defaults and the endpoint type. *)
Definition hid_reset (c : USB_ClassInfo_HID_Device_t) : USB_ClassInfo_HID_Device_t :=
  mkHID (InterfaceNumber c) (set_type EP_TYPE_INTERRUPT (ReportINEndpoint c)) (PrevReportINBuffer c)
    (PrevReportINBufferSize c) true 0 500 0.

Section hid.
Context {G : Type} `{Hardware} `{Has UsbState G} `{Has USB_ClassInfo_HID_Device_t G} `{HidApplication G}.

(** [memcpy(PrevReportINBuffer, ReportData, PrevReportINBufferSize)] unless it is NULL. *)
Definition keep_report (data : list Z) : M G unit :=
  modc (fun c => set_PrevReportINBuffer (option_map (fun _ => data) (PrevReportINBuffer c)) c).

(** [Endpoint_Write_8] as the whole data stage. *)
Definition answer_byte (fuel : nat) (v : USB_ClassInfo_HID_Device_t -> Z) : M G unit :=
  Endpoint_ClearSETUP ;;
  busy_wait fuel Endpoint_IsINReady ;;
  x ← getc v;
  Endpoint_Write_8 x ;;
  Endpoint_ClearIN ;;
  Endpoint_ClearStatusStage fuel.

(** [stack n] is what an array of [n] bytes holds that has just been
    allocated.  A report that claims to be larger than its buffer has no
    result. *)
Definition HID_Device_ProcessControlRequest (fuel : nat) (stack : nat -> list Z) : M G unit :=
  setup ← Endpoint_IsSETUPReceived;
  if negb (setup : bool) then mret tt else
  r ← getc USB_ControlRequest;
  n ← getc InterfaceNumber;
  if negb (wIndex r =? n) then mret tt else
  let out := Z.lor (Z.lor REQDIR_HOSTTODEVICE REQTYPE_CLASS) REQREC_INTERFACE in
  let inn := Z.lor (Z.lor REQDIR_DEVICETOHOST REQTYPE_CLASS) REQREC_INTERFACE in
  let ReportID0 := Z.land (wValue r) 0xFF in
  let ReportType := u8 (Z.shiftr (wValue r) 8 - 1) in
  if bRequest r =? HID_REQ_GetReport then
    when (bmRequestType r =? inn) (
      size ← getc PrevReportINBufferSize;
      x ← CALLBACK_HID_Device_CreateHIDReport ReportID0 ReportType (repeat 0 (Z.to_nat size));
      keep_report (ReportData x) ;;
      Endpoint_SelectEndpoint ENDPOINT_CONTROLEP ;;
      Endpoint_ClearSETUP ;;
      defined (if Z.min (ReportSize x) (wLength r) <=? zlen (ReportData x) then Some tt else None) ;;
      Endpoint_Write_Control_Stream_LE fuel (ReportData x) (ReportSize x) ;;
      Endpoint_ClearOUT)
  else if bRequest r =? HID_REQ_SetReport then
    when (bmRequestType r =? out) (
      Endpoint_ClearSETUP ;;
      e ← Endpoint_Read_Control_Stream_LE fuel (stack (Z.to_nat (wLength r))) (wLength r);
      Endpoint_ClearIN ;;
      let skip := if ReportID0 =? 0 then 0 else 1 in
      CALLBACK_HID_Device_ProcessHIDReport ReportID0 ReportType (drop (Z.to_nat skip) (snd e))
        (u16 (wLength r - skip)))
  else if bRequest r =? HID_REQ_GetProtocol then
    when (bmRequestType r =? inn) (answer_byte fuel (fun c => if UsingReportProtocol c then 1 else 0))
  else if bRequest r =? HID_REQ_SetProtocol then
    when (bmRequestType r =? out) (
      Endpoint_ClearSETUP ;;
      Endpoint_ClearStatusStage fuel ;;
      modc (set_UsingReportProtocol (negb (Z.land (wValue r) 0xFF =? 0))))
  else if bRequest r =? HID_REQ_SetIdle then
    when (bmRequestType r =? out) (
      Endpoint_ClearSETUP ;;
      Endpoint_ClearStatusStage fuel ;;
      modc (set_IdleCount (Z.shiftr (Z.land (wValue r) 0xFF00) 6)))
  else if bRequest r =? HID_REQ_GetIdle then
    when (bmRequestType r =? inn) (answer_byte fuel (fun c => Z.shiftr (IdleCount c) 2))
  else mret tt.

Definition HID_Device_ConfigureEndpoints (fuel : nat) : M G bool :=
  modc hid_reset ;;
  e ← getc ReportINEndpoint;
  ok ← Endpoint_ConfigureEndpointTable fuel [e];
  if negb ok then mret false else mret true.

(** The report goes out. *)
Definition send_report (fuel : nat) (x : created) : M G unit :=
  modc (fun c => set_IdleMSRemaining (IdleCount c) c) ;;
  e ← getc ReportINEndpoint;
  Endpoint_SelectEndpoint (et_Address e) ;;
  when (negb (ReportID x =? 0)) (Endpoint_Write_8 (ReportID x)) ;;
  Endpoint_Write_Stream_LE fuel (ReportData x) (ReportSize x) None ;;
  Endpoint_ClearIN.

(** Whether it does: it differs from the last one, or the idle period is over. *)
Definition report_due (x : created) (c : USB_ClassInfo_HID_Device_t) : bool :=
  let StatesChanged :=
    match PrevReportINBuffer c with
    | None => false
    | Some b => negb (bool_decide (take (Z.to_nat (ReportSize x)) (ReportData x) = take (Z.to_nat (ReportSize x)) b))
    end in
  let IdlePeriodElapsed := negb (IdleCount c =? 0) && (IdleMSRemaining c =? 0) in
  negb (ReportSize x =? 0) && (ForceSend x || StatesChanged || IdlePeriodElapsed).

Definition HID_Device_USBTask (fuel : nat) : M G unit :=
  d ← get_DeviceState;
  if negb (d =? DEVICE_STATE_Configured) then mret tt else
  prev ← getc PrevFrameNum;
  frame ← USB_Device_GetFrameNumber;
  if prev =? frame then mret tt else
  e ← getc ReportINEndpoint;
  Endpoint_SelectEndpoint (et_Address e) ;;
  ready ← Endpoint_IsReadWriteAllowed;
  when (ready : bool) (
    size ← getc PrevReportINBufferSize;
    x ← CALLBACK_HID_Device_CreateHIDReport 0 HID_REPORT_ITEM_In (repeat 0 (Z.to_nat size));
    defined (if ReportSize x <=? zlen (ReportData x) then Some tt else None) ;;
    c ← getc id;
    keep_report (ReportData x) ;;
    when (report_due x c) (send_report fuel x) ;;
    frame ← USB_Device_GetFrameNumber;
    modc (set_PrevFrameNum frame)).

Definition HID_Device_MillisecondElapsed : M G unit :=
  n ← getc IdleMSRemaining;
  when (negb (n =? 0)) (modc (set_IdleMSRemaining (n - 1))).
End hid.
