(* ===== verification/HidReports.v ===== *)
(** * HID reports

    When the driver sends a report, and how often: what one call of the task
    does at an opportunity, and the idle rate over many milliseconds. *)

From S2P Require Import Prelude Machine Endpoint EndpointStream BulkTraffic Cdc HidDevice.

(** The frame counter of a bus whose frames are the milliseconds that pass. *)
Definition frame_of (h : history) : Z := Z.of_nat (delays h) mod 2048.
Definition counts_frames `{Hardware} : Prop := forall h, reg_trunc UDFNUM (hw_value h UDFNUM) = frame_of h.

(** The bytes of a report on the bus. *)
Definition report_bytes (x : created) : list Z :=
  (if ReportID x =? 0 then [] else [ReportID x]) ++ take (Z.to_nat (ReportSize x)) (ReportData x).

Record report_ok (x : created) : Prop := {
  ro_id : is_u8 (ReportID x);
  ro_data : Forall is_u8 (ReportData x);
  ro_size : 0 <= ReportSize x <= zlen (ReportData x);
  ro_u16 : ReportSize x < 2 ^ 16;
}.

(** What is left of the period [m] milliseconds after a report. *)
Definition left_after (c : Z) (m : nat) : Z := if c =? 0 then 0 else c - Z.of_nat (m mod Z.to_nat c).

Lemma left_after_step c m :
  0 <= c ->
  let r := left_after c m in
  let r1 := if r =? 0 then 0 else r - 1 in
  let sent := negb (c =? 0) && (r1 =? 0) in
  0 <= r <= c /\ left_after c (S m) = (if sent then c else r1)
  /\ (S m / Z.to_nat c = m / Z.to_nat c + if sent then 1 else 0)%nat.
Proof.
  intros Hc0. unfold left_after. destruct (Z.eqb_spec c 0) as [->|Hc]; [split_and!; done|]. cbn [negb andb].
  set (k := Z.to_nat c). assert (Hk : Z.of_nat k = c) by lia. clearbody k. pose proof (Nat.mod_upper_bound m k ltac:(lia)).
  rewrite (proj2 (Z.eqb_neq (c - Z.of_nat (m mod k)) 0)) by lia.
  pose proof (Nat.div_mod_eq m k). pose proof (Nat.div_mod_eq (S m) k).
  pose proof (Nat.mod_upper_bound (S m) k ltac:(lia)).
  assert (Hcase : (S (m mod k) = k /\ S m mod k = 0 /\ S m / k = S (m / k)
    \/ S (m mod k) < k /\ S m mod k = S (m mod k) /\ S m / k = m / k)%nat).
  { destruct (decide (S (m mod k) = k)) as [E|E]; [left|right].
    - assert (Hq : (S (m / k) = S m / k)%nat) by (apply (Nat.div_unique _ _ _ 0); rewrite ?Nat.mul_succ_r; lia).
      rewrite <- Hq, Nat.mul_succ_r in *. lia.
    - assert (Hq : (m / k = S m / k)%nat) by (apply (Nat.div_unique _ _ _ (S (m mod k))); lia).
      rewrite <- Hq in *. lia. }
  destruct Hcase as [(E1 & -> & ->)|(E1 & -> & ->)].
  - rewrite (proj2 (Z.eqb_eq _ 0)) by lia. lia.
  - rewrite (proj2 (Z.eqb_neq _ 0)) by lia. lia.
Qed.

(** One millisecond of the program. *)
Definition millisecond {G} `{Hardware} `{Has USB_ClassInfo_HID_Device_t G} `{HidApplication G} (fuel : nat) : M G unit :=
  delay_us 1000 ;; HID_Device_MillisecondElapsed ;; HID_Device_USBTask fuel.
Fixpoint milliseconds {G} `{Hardware} `{Has USB_ClassInfo_HID_Device_t G} `{HidApplication G} (fuel m : nat) : M G unit :=
  match m with
  | O => mret tt
  | S m => milliseconds fuel m ;; millisecond fuel
  end.

Section hid.
Context {G : Type} `{Hardware} `{Has USB_ClassInfo_HID_Device_t G} `{HidApplication G}.
Context (n : Z) (size : nat) (Hin : bulk_in n size) (Hcf : bus_configured) (Hframes : counts_frames).
Abbreviation hid s := (proj (glob s) : USB_ClassInfo_HID_Device_t).

Lemma send_report_spec fuel x (s : st G) :
  ep_num (et_Address (ReportINEndpoint (hid s))) = n -> report_ok x -> (2 * Z.to_nat (ReportSize x) + 1 < fuel)%nat ->
  wp_ False (send_report fuel x) (fun _ s' =>
    hid s' = set_IdleMSRemaining (IdleCount (hid s)) (hid s)
    /\ out_bytes n (hist s') = out_bytes n (hist s) ++ report_bytes x /\ snd (in_bank n (hist s')) = []
    /\ delays (hist s') = delays (hist s)) s.
Proof using Hin.
  intros Hn [Hid H8 Hsz Hu16] Hfuel. destruct s as [h g]. cbn [hist glob] in *. unfold send_report.
  do 4 wp_step. cbn [hist glob]. rewrite proj_inj. cbn [ReportINEndpoint set_IdleMSRemaining].
  set (g1 := inj _ g). apply wp_bind, wp_select. rewrite Hn. intros h1 Hs1 Hb1. apply wp_bind.
  assert (Hbyte : wp_ False (when (negb (ReportID x =? 0)) (Endpoint_Write_8 (ReportID x))) (fun _ s' =>
    glob s' = g1 /\ sel n (hist s') = true /\ delays (hist s') = delays h1
    /\ out_bytes n (hist s') = out_bytes n h1 ++ (if ReportID x =? 0 then [] else [ReportID x])) (St h1 g1)).
  { destruct (ReportID x =? 0); cbn [negb]; [rewrite when_false|rewrite when_true].
    - apply wp_ret. by rewrite app_nil_r.
    - unfold Endpoint_Write_8. apply wp_wr. cbn [hist glob]. rewrite reg_trunc_u8 by done. split_and!; [done|exact Hs1|done|].
      unfold out_bytes. cbn [in_bank]. rewrite Hs1. destruct (in_bank n h1) as [q b]. cbn [fst snd]. by rewrite app_assoc. }
  wp_spec Hbyte. clear Hbyte. intros [] [h2 g2] (Hg2 & Hs2 & Hd2 & Ho2). cbn [hist glob] in *. subst g2.
  wp_call (write_stream_spec n size Hin 0 (ReportSize x) None (ReportData x) h2 g1 fuel ltac:(lia) (or_introl eq_refl)
    Hu16 H8 ltac:(lia) Hs2 ltac:(done) ltac:(lia)).
  intros r s3 (p & h3 & -> & (Hp & Hs3 & Hap3 & Ho3) & [[-> _]|(_ & _ & ? & _)]); [|done].
  apply (clear_in n h3); [done|]. intros h4 Hs4 Hap4 Hb4. cbn [hist glob]. split_and!.
  - unfold g1. apply proj_inj.
  - rewrite (out_bytes_sent n h3 h4 Hb4), Ho3, Ho2, Z.sub_0_r, drop_0, <- app_assoc.
    unfold out_bytes at 1. by rewrite (proj2 (Hb1 n)).
  - by rewrite Hb4.
  - by rewrite (un_delays _ _ _ Hap4), (un_delays _ _ _ Hap3), Hd2.
Qed.

(** What the interface is after an opportunity in frame [f]. *)
Definition after_report (x : created) (f : Z) (c : USB_ClassInfo_HID_Device_t) : USB_ClassInfo_HID_Device_t :=
  let c1 := set_PrevReportINBuffer (option_map (fun _ => ReportData x) (PrevReportINBuffer c)) c in
  set_PrevFrameNum f (if report_due x c then set_IdleMSRemaining (IdleCount c) c1 else c1).

Lemma after_report_fields x f c :
  let c' := after_report x f c in
  ReportINEndpoint c' = ReportINEndpoint c /\ IdleCount c' = IdleCount c
  /\ IdleMSRemaining c' = (if report_due x c then IdleCount c else IdleMSRemaining c)
  /\ PrevReportINBuffer c' = option_map (fun _ => ReportData x) (PrevReportINBuffer c) /\ PrevFrameNum c' = f.
Proof using. unfold after_report. by destruct (report_due x c). Qed.

(** One opportunity: the report goes out, whole, exactly when it is due. *)
Lemma task_spec fuel x (s : st G) :
  let c := hid s in
  (forall b s, CALLBACK_HID_Device_CreateHIDReport 0 HID_REPORT_ITEM_In b s = Some (x, s)) ->
  ep_num (et_Address (ReportINEndpoint c)) = n -> report_ok x -> (2 * Z.to_nat (ReportSize x) + 1 < fuel)%nat ->
  PrevFrameNum c <> frame_of (hist s) -> (length (snd (in_bank n (hist s))) < size)%nat ->
  wp_ False (HID_Device_USBTask fuel) (fun _ s' =>
    hid s' = after_report x (frame_of (hist s)) c
    /\ out_bytes n (hist s') = out_bytes n (hist s) ++ (if report_due x c then report_bytes x else [])
    /\ (snd (in_bank n (hist s')) = if report_due x c then [] else snd (in_bank n (hist s)))
    /\ delays (hist s') = delays (hist s)) s.
Proof using Hin Hcf Hframes.
  intros c Hcb Hn Hok Hfuel Hf Hroom. destruct s as [h g]. cbn [hist glob] in *. unfold HID_Device_USBTask, get_DeviceState,
    USB_Device_GetFrameNumber.
  do 2 wp_step. rewrite Hcf. change (negb (_ =? DEVICE_STATE_Configured)) with false. cbv match.
  do 4 wp_step. rewrite Hframes. fold c.
  change (frame_of (Rd GPIOR0 DEVICE_STATE_Configured :: h)) with (frame_of h).
  rewrite (proj2 (Z.eqb_neq _ _) Hf). do 2 wp_step. fold c. apply wp_bind, wp_select. rewrite Hn. intros h1 Hs1 Hb1.
  unfold Endpoint_IsReadWriteAllowed. apply wp_bind, wp_flag. cbv zeta. cbn [hist glob].
  rewrite (proj2 (bi_flags _ _ Hin h1 Hs1)), (proj2 (Hb1 n)). set (v := reg_trunc UEINTX _).
  change (in_bank n (Rd UDFNUM _ :: _)) with (in_bank n h). rewrite (proj2 (Nat.ltb_lt _ _) Hroom), when_true.
  do 2 wp_step. apply wp_bind. unfold wp_ at 1. rewrite Hcb. cbv beta iota.
  apply wp_bind, (wp_defined _ _ tt); [by rewrite (proj2 (Z.leb_le _ _) (proj2 (ro_size _ Hok)))|]. do 2 wp_step.
  unfold keep_report. do 2 wp_step. cbn [hist glob id]. fold c.
  set (c1 := set_PrevReportINBuffer _ c). set (s1 := St (Rd UEINTX v :: h1) (inj c1 g)).
  assert (Hb : out_bytes n (hist s1) = out_bytes n h) by (unfold out_bytes, s1; cbn [hist in_bank]; by rewrite (proj2 (Hb1 n))).
  assert (Hsend : wp_ False (when (report_due x c) (send_report fuel x)) (fun _ s' =>
    hid s' = (if report_due x c then set_IdleMSRemaining (IdleCount c) c1 else c1)
    /\ out_bytes n (hist s') = out_bytes n h ++ (if report_due x c then report_bytes x else [])
    /\ (snd (in_bank n (hist s')) = if report_due x c then [] else snd (in_bank n h))
    /\ delays (hist s') = delays h) s1).
  { assert (Hc1 : hid s1 = c1) by apply proj_inj.
    destruct (report_due x c); [rewrite when_true|rewrite when_false].
    - wp_spec (send_report_spec fuel x s1 ltac:(by rewrite Hc1) Hok Hfuel).
      intros [] s2 (Hc2 & Ho2 & Hb2 & Hd2). rewrite Hc1 in Hc2. split_and!; [done|by rewrite Ho2, Hb|done|done].
    - apply wp_ret. rewrite Hb, app_nil_r. split_and!; [done|done| |done].
      unfold s1. cbn [hist in_bank]. by rewrite (proj2 (Hb1 n)). }
  apply wp_bind. wp_spec Hsend. intros [] [h2 g2] (Hc2 & Ho2 & Hb2 & Hd2). cbn [hist glob] in *. do 3 wp_step.
  rewrite Hframes. cbn [hist glob]. rewrite proj_inj. unfold after_report. fold c1.
  split_and!; [|done|done|done]. rewrite Hc2. unfold frame_of. by rewrite Hd2.
Qed.

(** ** A report that does not change *)

Section steady.
Context (x : created) (Hcb : forall b s, CALLBACK_HID_Device_CreateHIDReport 0 HID_REPORT_ITEM_In b s = Some (x, s)).
Context (Hok : report_ok x) (Hquiet : ForceSend x = false) (Hne : ReportSize x <> 0).
Context (fuel : nat) (Hfuel : (2 * Z.to_nat (ReportSize x) + 1 < fuel)%nat) (c : Z) (Hc0 : 0 <= c).

(** The last report was the same, [r] of its [c] milliseconds are left, and
    this frame's opportunity is over. *)
Record steady (r : Z) (s : st G) : Prop := {
  sd_ep : ep_num (et_Address (ReportINEndpoint (hid s))) = n;
  sd_prev : forall b, PrevReportINBuffer (hid s) = Some b ->
    take (Z.to_nat (ReportSize x)) (ReportData x) = take (Z.to_nat (ReportSize x)) b;
  sd_count : IdleCount (hid s) = c;
  sd_left : IdleMSRemaining (hid s) = r;
  sd_frame : PrevFrameNum (hid s) = frame_of (hist s);
  sd_bank : snd (in_bank n (hist s)) = [];
}.

(** A millisecond sends it when the last one of a period has passed. *)
Lemma millisecond_spec r (s : st G) :
  steady r s -> 0 <= r <= c ->
  let r1 := if r =? 0 then 0 else r - 1 in
  let sent := negb (c =? 0) && (r1 =? 0) in
  wp_ False (millisecond fuel) (fun _ s' =>
    steady (if sent then c else r1) s'
    /\ out_bytes n (hist s') = out_bytes n (hist s) ++ (if sent then report_bytes x else [])) s.
Proof using Hin Hcf Hframes Hcb Hok Hquiet Hne Hfuel.
  intros [Hep Hprev Hcnt Hleft Hfr Hbk] Hr r1 sent. destruct s as [h g]. cbn [hist glob] in *. unfold millisecond.
  do 2 wp_step. apply wp_bind.
  assert (Hel : wp_ False HID_Device_MillisecondElapsed (fun _ s' =>
    hist s' = DelayUs 1000 :: h /\ hid s' = set_IdleMSRemaining r1 (proj g)) (St (DelayUs 1000 :: h) g)).
  { unfold HID_Device_MillisecondElapsed. do 2 wp_step. rewrite Hleft. unfold r1.
    destruct (Z.eqb_spec r 0) as [->|Hr0]; cbn [negb]; [rewrite when_false|rewrite when_true].
    - apply wp_ret. cbn [hist glob]. split; [done|]. rewrite <- Hleft. by destruct (proj g : USB_ClassInfo_HID_Device_t).
    - wp_step. cbn [hist glob]. split; [done|]. apply proj_inj. }
  wp_spec Hel. clear Hel. intros [] [h1 g1] [Hh1 Hg1]. cbn [hist glob] in Hh1, Hg1. subst h1.
  assert (Hdue : report_due x (proj g1) = sent).
  { unfold report_due, sent. rewrite Hg1, Hquiet. cbn [PrevReportINBuffer IdleCount IdleMSRemaining set_IdleMSRemaining].
    rewrite Hcnt, (proj2 (Z.eqb_neq _ _) Hne). cbn [negb andb orb].
    destruct (PrevReportINBuffer (proj g)) as [b|] eqn:Eb; [|done].
    rewrite bool_decide_eq_true_2 by by apply Hprev. done. }
  assert (Hnew : PrevFrameNum (proj g1 : USB_ClassInfo_HID_Device_t) <> frame_of (DelayUs 1000 :: h)).
  { rewrite Hg1. cbn [PrevFrameNum set_IdleMSRemaining]. rewrite Hfr. unfold frame_of. cbn [delays].
    pose proof (Z.mod_pos_bound (Z.of_nat (delays h)) 2048 ltac:(lia)).
    pose proof (Z.div_mod (Z.of_nat (delays h)) 2048 ltac:(lia)).
    pose proof (Z.div_mod (Z.of_nat (S (delays h))) 2048 ltac:(lia)). lia. }
  wp_spec (task_spec fuel x (St (DelayUs 1000 :: h) g1) Hcb ltac:(cbn [glob]; by rewrite Hg1) Hok Hfuel Hnew
    ltac:(cbn [hist in_bank]; rewrite Hbk; apply (bi_size _ _ Hin))).
  intros [] s2 (Hc2 & Ho2 & Hb2 & Hd2). cbn [hist glob] in *. rewrite Hdue in *. split; [|exact Ho2].
  destruct (after_report_fields x (frame_of (DelayUs 1000 :: h)) (proj g1)) as (Fep & Fcnt & Fleft & Fprev & Ffr).
  rewrite <- Hc2, Hdue, Hg1 in *. cbn [ReportINEndpoint IdleCount IdleMSRemaining PrevReportINBuffer set_IdleMSRemaining] in *.
  split; [by rewrite Fep| |congruence|rewrite Fleft; by destruct sent|rewrite Ffr; unfold frame_of; by rewrite Hd2|].
  - rewrite Fprev. intros b. destruct (PrevReportINBuffer (proj g)); cbn [option_map]; [|done]. by intros [= <-].
  - rewrite Hb2. destruct sent; [done|]. exact Hbk.
Qed.

Lemma milliseconds_spec m (s : st G) :
  steady c s ->
  wp_ False (milliseconds fuel m) (fun _ s' =>
    steady (left_after c m) s'
    /\ out_bytes n (hist s') = out_bytes n (hist s) ++ concat (repeat (report_bytes x) (m / Z.to_nat c))) s.
Proof using Hin Hcf Hframes Hcb Hok Hquiet Hne Hfuel Hc0.
  intros Hs. induction m as [|m IH]; cbn [milliseconds].
  - apply wp_ret. split.
    + unfold left_after. destruct (Z.eqb_spec c 0) as [E|E]; [by rewrite <- E|].
      rewrite Nat.Div0.mod_0_l, Z.sub_0_r. exact Hs.
    + by rewrite Nat.Div0.div_0_l, app_nil_r.
  - wp_call IH. intros [] s1 [Hs1 Ho1]. destruct (left_after_step c m Hc0) as (Hr & Hnext & Hdiv).
    wp_spec (millisecond_spec (left_after c m) s1 Hs1 Hr). intros [] s2 [Hs2 Ho2]. cbv zeta in Hnext.
    rewrite Hnext. split; [exact Hs2|]. rewrite Ho2, Ho1, Hdiv, repeat_app, concat_app, <- app_assoc. do 2 f_equal.
    destruct (negb (c =? 0) && _); cbn [repeat concat]; by rewrite ?app_nil_r.
Qed.
End steady.

(** The idle rate.  While the application's report does not change and it
    does not insist, in [m] milliseconds after a report the host receives
    exactly [m / c] copies of it, where [c] is the idle period the host has
    set, and none at all when that is 0; and every copy is whole, its
    identifier first. *)
Theorem idle_rate (x : created) fuel c m (s : st G) :
  (forall b s, CALLBACK_HID_Device_CreateHIDReport 0 HID_REPORT_ITEM_In b s = Some (x, s)) ->
  report_ok x -> ForceSend x = false -> ReportSize x <> 0 -> (2 * Z.to_nat (ReportSize x) + 1 < fuel)%nat ->
  0 <= c -> steady x c c s ->
  wp_ False (milliseconds fuel m) (fun _ s' =>
    out_bytes n (hist s') = out_bytes n (hist s) ++ concat (repeat (report_bytes x) (m / Z.to_nat c))) s.
Proof using Hin Hcf Hframes.
  intros Hcb Hok Hq Hne Hfuel Hc Hs.
  wp_spec (milliseconds_spec x Hcb Hok Hq Hne fuel Hfuel c Hc m s Hs). by intros [] s' [_ Ho].
Qed.
End hid.

(** ** Examples *)

(** A bus that counts the milliseconds and takes the packets of endpoint 1. *)
Definition hid_host : Hardware := fun h r =>
  match r with UDFNUM => frame_of h | _ => taker 1 8 h r end.

(** A keyboard on which no key changes. *)
Definition no_key : created := mkCreated false 0 (repeat 0 8) 8.
#[local] Instance idle_keyboard : HidApplication USB_ClassInfo_HID_Device_t := {
  CALLBACK_HID_Device_CreateHIDReport := fun _ _ _ => mret no_key;
  CALLBACK_HID_Device_ProcessHIDReport := fun _ _ _ _ => mret tt;
}.
Definition keyboard : USB_ClassInfo_HID_Device_t :=
  mkHID 0 (mkEndpointTable 0x81 8 3 1) (Some (repeat 0 8)) 8 true 0 500 500.

(** Two reports in 1.2 seconds at the default rate. *)
Lemma idle_rate_witness :
  wp_ False (@milliseconds _ hid_host (Has_refl _) idle_keyboard 100 1200)
    (fun _ s' => out_bytes 1 (hist s') = repeat 0 16) (St [] keyboard).
Proof.
  refine (wp_conseq False _ _ _ _ _ (@idle_rate _ hid_host (Has_refl _) idle_keyboard 1 8 _ _ _ no_key 100 500 1200
    (St [] keyboard) _ _ _ _ _ _ _) (fun x => x) _).
  - split; [lia|..].
    + exact (@bi_dir (taker 1 8) _ _ (taker_bulk 1 8 ltac:(lia))).
    + exact (@bi_flags (taker 1 8) _ _ (taker_bulk 1 8 ltac:(lia))).
  - done.
  - intros h. unfold hw_value, hid_host, reg_trunc, frame_of. apply Z.mod_small.
    pose proof (Z.mod_pos_bound (Z.of_nat (delays h)) 2048 ltac:(lia)). cbn. lia.
  - done.
  - split; [done|apply (bool_decide_unpack _); vm_compute; exact I|done|done].
  - done.
  - done.
  - vm_compute. lia.
  - lia.
  - split; try done. by intros b [= <-].
  - intros [] s' Ho. rewrite Ho. reflexivity.
Defined.
