(* ===== verification/Midi.v ===== *)
(** * LUFA/Drivers/USB/Class/Device/MIDIClassDevice.[ch]

    The MIDI class driver: event packets of four bytes over two bulk
    endpoints, packed into the banks.  The build has no
    [NO_CLASS_DRIVER_AUTOFLUSH]. *)

From S2P Require Import Prelude Machine Endpoint EndpointStream BulkTraffic Cdc.

(** ** MIDIClassCommon.h *)

Record MIDI_EventPacket_t := mkEvent {
  Event : Z;
  Data1 : Z;
  Data2 : Z;
  Data3 : Z;
}.

(** The packet as it lies in memory, and what four bytes of memory mean. *)
Definition event_bytes (e : MIDI_EventPacket_t) : list Z := [Event e; Data1 e; Data2 e; Data3 e].
Definition event_of (b : list Z) : MIDI_EventPacket_t :=
  mkEvent (byte_at b 0) (byte_at b 1) (byte_at b 2) (byte_at b 3).

Lemma event_of_bytes e : event_of (event_bytes e) = e.
Proof. by destruct e. Qed.

(** ** MIDIClassDevice.h *)

Record USB_ClassInfo_MIDI_Device_t := mkMIDI {
  StreamingInterfaceNumber : Z;
  DataINEndpoint : USB_Endpoint_Table_t;
  DataOUTEndpoint : USB_Endpoint_Table_t;
  RESERVED : Z;
}.

(** [memset(&State, 0, ..)] and the endpoint types. *)
Definition midi_reset (c : USB_ClassInfo_MIDI_Device_t) : USB_ClassInfo_MIDI_Device_t :=
  mkMIDI (StreamingInterfaceNumber c) (set_type EP_TYPE_BULK (DataINEndpoint c))
    (set_type EP_TYPE_BULK (DataOUTEndpoint c)) 0.

(** ** MIDIClassDevice.c *)

Section midi.
Context {G : Type} `{Hardware} `{Has USB_ClassInfo_MIDI_Device_t G}.

Definition MIDI_Device_ProcessControlRequest : M G unit := mret tt.

Definition MIDI_Device_ConfigureEndpoints (fuel : nat) : M G bool :=
  modc midi_reset ;;
  e1 ← getc DataINEndpoint;
  ok ← Endpoint_ConfigureEndpointTable fuel [e1];
  if negb ok then mret false else
  e2 ← getc DataOUTEndpoint;
  ok ← Endpoint_ConfigureEndpointTable fuel [e2];
  if negb ok then mret false else mret true.

Definition MIDI_Device_SendEventPacket (fuel : nat) (Ev : MIDI_EventPacket_t) : M G Z :=
  d ← get_DeviceState;
  if negb (d =? DEVICE_STATE_Configured) then mret ENDPOINT_RWSTREAM_DeviceDisconnected else
  e ← getc DataINEndpoint;
  Endpoint_SelectEndpoint (et_Address e) ;;
  r ← Endpoint_Write_Stream_LE fuel (event_bytes Ev) 4 None;
  let ErrorCode := fst (fst r) in
  if negb (ErrorCode =? ENDPOINT_RWSTREAM_NoError) then mret ErrorCode else
  rw ← Endpoint_IsReadWriteAllowed;
  when (negb (rw : bool)) Endpoint_ClearIN ;;
  mret ENDPOINT_RWSTREAM_NoError.

Definition MIDI_Device_Flush (fuel : nat) : M G Z :=
  d ← get_DeviceState;
  if negb (d =? DEVICE_STATE_Configured) then mret ENDPOINT_RWSTREAM_DeviceDisconnected else
  e ← getc DataINEndpoint;
  Endpoint_SelectEndpoint (et_Address e) ;;
  n ← Endpoint_BytesInEndpoint;
  if negb (n =? 0) then
    Endpoint_ClearIN ;;
    ErrorCode ← Endpoint_WaitUntilReady fuel;
    if negb (ErrorCode =? ENDPOINT_READYWAIT_NoError) then mret ErrorCode
    else mret ENDPOINT_READYWAIT_NoError
  else mret ENDPOINT_READYWAIT_NoError.

Definition MIDI_Device_USBTask (fuel : nat) : M G unit :=
  d ← get_DeviceState;
  if negb (d =? DEVICE_STATE_Configured) then mret tt else
  MIDI_Device_Flush fuel ;; mret tt.

(** The result, and the caller's packet afterwards. *)
Definition MIDI_Device_ReceiveEventPacket (fuel : nat) (Ev : MIDI_EventPacket_t)
    : M G (bool * MIDI_EventPacket_t) :=
  d ← get_DeviceState;
  if negb (d =? DEVICE_STATE_Configured) then mret (false, Ev) else
  e ← getc DataOUTEndpoint;
  Endpoint_SelectEndpoint (et_Address e) ;;
  rw ← Endpoint_IsReadWriteAllowed;
  if negb (rw : bool) then mret (false, Ev) else
  r ← Endpoint_Read_Stream_LE fuel (event_bytes Ev) 4 None;
  rw ← Endpoint_IsReadWriteAllowed;
  when (negb (rw : bool)) Endpoint_ClearOUT ;;
  mret (true, event_of (snd r)).

(** ** Applications *)

(** Sending the events of a list, and taking [k] of them. *)
Fixpoint send_events (fuel : nat) (es : list MIDI_EventPacket_t) : M G (list Z) :=
  match es with
  | [] => mret []
  | e :: es' => r ← MIDI_Device_SendEventPacket fuel e; rs ← send_events fuel es'; mret (r :: rs)
  end.
Fixpoint receive_events (fuel k : nat) (Ev : MIDI_EventPacket_t) : M G (list (bool * MIDI_EventPacket_t)) :=
  match k with
  | O => mret []
  | S k' => r ← MIDI_Device_ReceiveEventPacket fuel Ev; rs ← receive_events fuel k' (snd r); mret (r :: rs)
  end.
End midi.

(** ** Sending *)

Definition event_ok (e : MIDI_EventPacket_t) : Prop := Forall is_u8 (event_bytes e).

Section send.
Context {G : Type} `{Hardware} `{Has USB_ClassInfo_MIDI_Device_t G} (Hconf : bus_configured).

(** The guard of the data functions, and the selection of the endpoint. *)
Lemma configured_select {A} (get : USB_ClassInfo_MIDI_Device_t -> USB_Endpoint_Table_t) (no : A)
    (k : M G A) h (g : G) (Q : A -> st G -> Prop) :
  let n := ep_num (et_Address (get (proj g))) in
  (forall h', sel n h' = true -> out_bank n h' = out_bank n h -> in_bank n h' = in_bank n h ->
     wp_ False k Q (St h' g)) ->
  wp_ False (d ← get_DeviceState;
    if negb (d =? DEVICE_STATE_Configured) then mret no else
    e ← getc get; Endpoint_SelectEndpoint (et_Address e) ;; k) Q (St h g).
Proof using Hconf.
  intros n HQ. unfold get_DeviceState. do 2 wp_step. rewrite Hconf.
  change (negb (_ =? DEVICE_STATE_Configured)) with false. cbv match. do 2 wp_step.
  apply wp_bind, wp_select. intros h' Hs Hb. apply HQ; [exact Hs|apply (Hb n)|apply (Hb n)].
Qed.

(** An event goes into the bank, which never stays full. *)
Lemma send_event_spec size fuel e (s : st G) :
  let n := ep_num (et_Address (DataINEndpoint (proj (glob s)))) in
  bulk_in n size -> event_ok e -> (9 < fuel)%nat ->
  wp_ False (MIDI_Device_SendEventPacket fuel e) (fun r s' =>
    r = ENDPOINT_RWSTREAM_NoError /\ glob s' = glob s
    /\ out_bytes n (hist s') = out_bytes n (hist s) ++ event_bytes e
    /\ (length (snd (in_bank n (hist s'))) < size)%nat) s.
Proof using Hconf.
  destruct s as [h g]. intros n Hin He Hf. cbn [hist glob] in *. unfold MIDI_Device_SendEventPacket.
  apply configured_select. fold n. intros h1 Hs1 _ Hb1.
  wp_call (write_stream_spec n size Hin 0 4 None (event_bytes e) h1 g fuel ltac:(lia) (or_introl eq_refl)
    ltac:(lia) He ltac:(done) Hs1 ltac:(done) ltac:(lia)).
  intros r1 s1 (p1 & h2 & -> & (Hp1 & Hs2 & Hap2 & Ho2) & [[-> ->]|(_ & _ & ? & _)]); [|done].
  cbn [fst]. change (negb (_ =? ENDPOINT_RWSTREAM_NoError)) with false. cbv match.
  unfold Endpoint_IsReadWriteAllowed. apply wp_bind, wp_flag. cbv zeta. cbn [hist glob].
  rewrite (proj2 (bi_flags _ _ Hin h2 Hs2)). set (v := reg_trunc UEINTX _).
  assert (Hout : out_bytes n h2 = out_bytes n h ++ event_bytes e) by (by rewrite Ho2; unfold out_bytes; rewrite Hb1).
  assert (Hrd : in_bank n (Rd UEINTX v :: h2) = in_bank n h2) by apply in_bank_rd.
  apply wp_bind. destruct (Nat.ltb_spec (length (snd (in_bank n h2))) size) as [Hl|Hl]; cbn [negb].
  - rewrite when_false. do 2 apply wp_ret. split_and!; [done|done|exact Hout|]. cbn [hist]. by rewrite Hrd.
  - rewrite when_true. apply (clear_in n (Rd UEINTX v :: h2)); [exact Hs2|]. intros h3 _ _ Hb3. apply wp_ret.
    split_and!; [done|done| |].
    + cbn [hist]. rewrite <- Hout. rewrite (out_bytes_sent _ _ _ Hb3). unfold out_bytes. by rewrite Hrd.
    + cbn [hist]. rewrite Hb3. apply Hin.
Qed.

Lemma send_events_spec size fuel es (s : st G) :
  let n := ep_num (et_Address (DataINEndpoint (proj (glob s)))) in
  bulk_in n size -> Forall event_ok es -> (9 < fuel)%nat ->
  (length (snd (in_bank n (hist s))) <= size)%nat ->
  wp_ False (send_events fuel es) (fun rs s' =>
    rs = repeat ENDPOINT_RWSTREAM_NoError (length es) /\ glob s' = glob s
    /\ out_bytes n (hist s') = out_bytes n (hist s) ++ concat (map event_bytes es)
    /\ (length (snd (in_bank n (hist s'))) <= size)%nat) s.
Proof using Hconf.
  intros n Hin He Hf. revert s n Hin. induction He as [|e es He _ IH]; intros s n Hin Hl; cbn [send_events].
  - apply wp_ret. cbn [map concat]. by rewrite app_nil_r.
  - wp_call (send_event_spec size fuel e s Hin He Hf). fold n. intros r s1 (-> & Hg & Ho & Hl1).
    unfold n in *. rewrite <- Hg in *. wp_call (IH s1 Hin ltac:(lia)).
    intros rs s2 (-> & Hg2 & Ho2 & Hl2). apply wp_ret. split_and!; [done|congruence| |done].
    rewrite Ho2, Ho. cbn [map concat]. by rewrite <- app_assoc.
Qed.

(** Flushing empties the bank. *)
Lemma midi_flush_spec size fuel (s : st G) :
  let n := ep_num (et_Address (DataINEndpoint (proj (glob s)))) in
  bulk_in n size -> bank_counted n -> (size < 256)%nat -> (0 < fuel)%nat ->
  (length (snd (in_bank n (hist s))) <= size)%nat ->
  wp_ False (MIDI_Device_Flush fuel) (fun r s' =>
    r = ENDPOINT_READYWAIT_NoError /\ glob s' = glob s
    /\ out_bytes n (hist s') = out_bytes n (hist s) /\ snd (in_bank n (hist s')) = []) s.
Proof using Hconf.
  destruct s as [h g]. intros n Hin Hcnt Hsz Hf Hl. cbn [hist glob] in *. unfold MIDI_Device_Flush.
  apply configured_select. fold n. intros h1 Hs1 _ Hb1. rewrite <- Hb1 in Hl.
  unfold Endpoint_BytesInEndpoint. do 2 wp_step. rewrite (Hcnt h1 Hs1) by lia.
  set (v := zlen _). assert (Hrd : in_bank n (Rd UEBCLX v :: h1) = in_bank n h) by (by rewrite in_bank_rd).
  destruct (Z.eqb_spec v 0) as [Hz|Hz]; cbn [negb].
  - apply wp_ret. split_and!; [done|done| |].
    + cbn [hist]. unfold out_bytes. by rewrite Hrd.
    + cbn [hist]. rewrite Hrd, <- Hb1. apply nil_length_inv. unfold v, zlen in Hz. lia.
  - apply wp_bind, (clear_in n (Rd UEBCLX v :: h1)); [exact Hs1|]. intros h2 Hs2 _ Hb2.
    apply wp_bind, (wait_in n size Hin); [done|done|]. intros h3 _ Hb3 _.
    change (negb (_ =? ENDPOINT_READYWAIT_NoError)) with false. apply wp_ret.
    split_and!; [done|done| |cbn [hist]; by rewrite Hb3, Hb2].
    cbn [hist]. transitivity (out_bytes n h2); [unfold out_bytes; by rewrite Hb3|].
    rewrite (out_bytes_sent _ _ _ Hb2). unfold out_bytes. by rewrite Hrd.
Qed.
End send.

(** ** Receiving *)

Section receive.
Context {G : Type} `{Hardware} `{Has USB_ClassInfo_MIDI_Device_t G} (Hconf : bus_configured).
Context (ps : list (list Z)) (Hne : Forall (fun p => p <> []) ps).

(** An event is taken, and a packet that is used up given back. *)
Lemma receive_event_spec fuel Ev e rest (s : st G) :
  let n := ep_num (et_Address (DataOUTEndpoint (proj (glob s)))) in
  bulk_out n ps -> queued n ps (event_bytes e ++ rest) (hist s) -> (4 + length ps < fuel)%nat ->
  wp_ False (MIDI_Device_ReceiveEventPacket fuel Ev) (fun r s' =>
    r = (true, e) /\ glob s' = glob s /\ queued n ps rest (hist s')) s.
Proof using Hconf Hne.
  destruct s as [h g]. intros n Hout Hq Hf. cbn [hist glob] in *. unfold MIDI_Device_ReceiveEventPacket.
  apply configured_select; [exact Hconf|]. fold n. intros h1 Hs1 Hb1 _.
  destruct Hq as (r & j & Hbk & Hp). destruct (ps !! r) as [p|] eqn:Ep; [|by destruct Hp as (_ & _ & ?)].
  destruct Hp as [Hj Hbs]. rewrite <- Hb1 in Hbk.
  unfold Endpoint_IsReadWriteAllowed. apply wp_bind, wp_flag. cbv zeta. cbn [hist glob].
  rewrite (proj2 (bo_flags _ _ Hout h1 r j p Hs1 Hbk Ep)), (proj2 (Nat.ltb_lt _ _) Hj). cbn [negb].
  set (v := reg_trunc UEINTX _).
  assert (Hin : incoming n ps (event_bytes e ++ rest) (Rd UEINTX v :: h1)).
  { apply incoming_rd; [done|]. split; [done|]. exists r, j, p. split_and!; [done|done|lia|done]. }
  wp_call (read_stream_spec n ps Hout 0 None (event_bytes e) rest (event_bytes Ev) (Rd UEINTX v :: h1) g fuel
    ltac:(lia) (or_introl eq_refl) ltac:(done) Hin ltac:(done) ltac:(cbn [event_bytes length]; lia)).
  intros r1 s1 (b0 & b1 & h2 & -> & (Heq & Hin2 & _) & [[-> ->]|(_ & _ & ? & _)]); [|done].
  rewrite app_nil_r in Heq. subst b0. destruct Hin2 as [Hs2 (r2 & j2 & p2 & Hb2 & Hp2 & Hj2 & Hrest)].
  cbn [app snd] in *. apply wp_bind, wp_flag. cbv zeta. cbn [hist glob].
  rewrite (proj2 (bo_flags _ _ Hout h2 r2 j2 p2 Hs2 Hb2 Hp2)). set (v2 := reg_trunc UEINTX _).
  assert (Hev : event_of (list_inserts (Z.to_nat 0) (event_bytes e) (event_bytes Ev)) = e).
  { rewrite <- (event_of_bytes e) at 2. f_equal. }
  rewrite Hev. apply wp_bind. destruct (Nat.ltb_spec j2 (length p2)) as [Hl|Hl]; cbn [negb].
  - rewrite when_false. do 2 apply wp_ret. split_and!; [done|done|]. exists r2, j2. by rewrite Hp2.
  - rewrite when_true. apply (clear_out n (Rd UEINTX v2 :: h2) g _ r2 j2); [exact Hs2|done|].
    intros h3 _ Hb3 _. apply wp_ret. split_and!; [done|done|].
    rewrite drop_ge in Hrest by done. cbn [app hist] in *. subst rest. apply queued_next; [done|done|].
    by apply lookup_lt_Some in Hp2.
Qed.

Lemma receive_events_spec fuel es rest Ev (s : st G) :
  let n := ep_num (et_Address (DataOUTEndpoint (proj (glob s)))) in
  bulk_out n ps -> queued n ps (concat (map event_bytes es) ++ rest) (hist s) -> (4 + length ps < fuel)%nat ->
  wp_ False (receive_events fuel (length es) Ev) (fun r s' =>
    r = map (pair true) es /\ glob s' = glob s /\ queued n ps rest (hist s')) s.
Proof using Hconf Hne.
  intros n Hout Hq Hf. revert Ev s n Hout Hq. induction es as [|e es IH]; intros Ev s n Hout Hq; cbn [receive_events length].
  - by apply wp_ret.
  - cbn [map concat] in Hq. rewrite <- app_assoc in Hq.
    wp_call (receive_event_spec fuel Ev e _ s Hout Hq Hf). intros r s1 (-> & Hg & Hq1).
    unfold n in *. rewrite <- Hg in *. wp_call (IH (snd (true, e)) s1 Hout Hq1).
    intros rs s2 (-> & Hg2 & Hq2). apply wp_ret. split_and!; [done|congruence|done].
Qed.
End receive.

(** ** Properties *)

(** Events survive the wire.  Sending any events puts exactly their bytes
    on the IN endpoint, in order and each with NoError, and a flush sends what
    is left in the bank; and a device that is sent these bytes, in whatever
    packets that are not empty and whatever follows, takes the same events,
    one a call.  All the calls terminate. *)
Theorem events_roundtrip {G G' : Type} (HS HR : Hardware) `{Has USB_ClassInfo_MIDI_Device_t G}
    `{Has USB_ClassInfo_MIDI_Device_t G'} size fuel es (s : st G) :
  let n := ep_num (et_Address (DataINEndpoint (proj (glob s)))) in
  @bus_configured HS -> @bus_configured HR ->
  @bulk_in HS n size -> @bank_counted HS n -> (size < 256)%nat ->
  (length (snd (in_bank n (hist s))) <= size)%nat -> Forall event_ok es -> (9 < fuel)%nat ->
  let bs := concat (map event_bytes es) in
  wp_ False (@send_events G HS _ fuel es) (fun rs s1 =>
    rs = repeat ENDPOINT_RWSTREAM_NoError (length es)
    /\ out_bytes n (hist s1) = out_bytes n (hist s) ++ bs
    /\ wp_ False (@MIDI_Device_Flush G HS _ fuel) (fun r s2 =>
         r = ENDPOINT_READYWAIT_NoError
         /\ concat (fst (in_bank n (hist s2))) = out_bytes n (hist s) ++ bs
         /\ snd (in_bank n (hist s2)) = []) s1
    /\ forall ps rest Ev (t : st G'),
         let m := ep_num (et_Address (DataOUTEndpoint (proj (glob t)))) in
         Forall (fun p => p <> []) ps -> @bulk_out HR m ps -> queued m ps (bs ++ rest) (hist t) ->
         (4 + length ps < fuel)%nat ->
         wp_ False (@receive_events G' HR _ fuel (length es) Ev) (fun r t' =>
           r = map (pair true) es /\ queued m ps rest (hist t')) t) s.
Proof.
  intros n HcS HcR Hin Hcnt Hsz Hl Hes Hf bs.
  wp_spec (@send_events_spec G HS _ HcS size fuel es s Hin Hes Hf Hl). fold n bs.
  intros rs s1 (-> & Hg & Ho & Hl1). split; [done|]. split; [exact Ho|]. split.
  - unfold n in *. rewrite <- Hg in *.
    wp_spec (@midi_flush_spec G HS _ HcS size fuel s1 Hin Hcnt Hsz ltac:(lia) Hl1).
    intros r s2 (-> & _ & Ho2 & Hb2). split; [done|]. split; [|done].
    rewrite <- Ho, <- Ho2. unfold out_bytes. by rewrite Hb2, app_nil_r.
  - intros ps rest Ev t m Hne Hout Hq Hf'.
    wp_spec (@receive_events_spec G' HR _ HcR ps Hne fuel es rest Ev t Hout Hq Hf').
    by intros r t' (-> & _ & Hq').
Qed.

(** An empty packet blocks the endpoint: while one is in the bank the driver
    takes no event and never gives the packet back, however often it is
    called. *)
Theorem empty_packet_blocks {G} `{Hardware} `{Has USB_ClassInfo_MIDI_Device_t G} ps fuel k r Ev (s : st G) :
  let n := ep_num (et_Address (DataOUTEndpoint (proj (glob s)))) in
  bus_configured -> bulk_out n ps -> out_bank n (hist s) = (r, O) -> ps !! r = Some [] ->
  wp_ False (receive_events fuel k Ev) (fun rs s' =>
    rs = repeat (false, Ev) k /\ out_bank n (hist s') = (r, O)) s.
Proof.
  intros n Hconf Hout Hb Hp. enough (Hg : wp_ False (receive_events fuel k Ev) (fun rs s' =>
    rs = repeat (false, Ev) k /\ out_bank n (hist s') = (r, O) /\ glob s' = glob s) s).
  { wp_spec Hg. by intros rs s' (-> & Hb' & _). }
  revert s n Hout Hb. induction k as [|k IH]; intros s n Hout Hb; cbn [receive_events repeat]; [by apply wp_ret|].
  destruct s as [h g]. cbn [hist glob] in *. apply wp_bind. unfold MIDI_Device_ReceiveEventPacket.
  apply configured_select; [exact Hconf|]. fold n. intros h1 Hs1 Hb1 _. rewrite <- Hb1 in Hb.
  unfold Endpoint_IsReadWriteAllowed. apply wp_bind, wp_flag. cbv zeta. cbn [hist glob].
  rewrite (proj2 (bo_flags _ _ Hout h1 r O [] Hs1 Hb Hp)). cbn [negb Nat.ltb length Nat.leb]. apply wp_ret.
  set (v := reg_trunc UEINTX _).
  wp_call (IH (St (Rd UEINTX v :: h1) g) Hout ltac:(cbn [hist]; by rewrite out_bank_rd)).
  intros rs s2 (-> & Hb2 & Hg2). by apply wp_ret.
Qed.

(** ** Examples *)

Definition midi_device : USB_ClassInfo_MIDI_Device_t :=
  mkMIDI 0 (mkEndpointTable 0x81 8 EP_TYPE_BULK 1) (mkEndpointTable 0x02 8 EP_TYPE_BULK 1) 0.

(** Note on and off: three events into banks of eight bytes, and back in
    packets of any size. *)
Lemma events_roundtrip_witness :
  let es := [mkEvent 9 0x90 60 64; mkEvent 8 0x80 60 64; mkEvent 9 0x90 62 64] in
  wp_ False (@send_events _ (taker 1 8) (Has_refl _) 20 es) (fun rs s1 =>
    rs = [0; 0; 0] /\ snd (in_bank 1 (hist s1)) = [9; 0x90; 62; 64] /\
    wp_ False (@receive_events _ (sender 2 [[9]; [0x90; 60; 64; 8; 0x80; 60]; [64; 9; 0x90; 62; 64]]) (Has_refl _)
      20 3 (mkEvent 0 0 0 0)) (fun r _ => r = map (pair true) es) (St [] midi_device)) (St [] midi_device).
Proof.
  intros es. set (ps := [[9]; [0x90; 60; 64; 8; 0x80; 60]; [64; 9; 0x90; 62; 64]]).
  refine (wp_conseq False _ _ _ _ _ (wp_and _ _ _ _ (@events_roundtrip _ _ (taker 1 8) (sender 2 ps) (Has_refl _)
    (Has_refl _) 8 20 es (St [] midi_device) _ _ _ _ _ _ _ _)
    (_ : wp_ False (@send_events _ (taker 1 8) (Has_refl _) 20 es) (fun _ s1 =>
       snd (in_bank 1 (hist s1)) = [9; 0x90; 62; 64]) (St [] midi_device))) (fun x => x) _).
  - done.
  - apply sender_configured.
  - apply (taker_bulk 1 8). lia.
  - apply taker_counted.
  - lia.
  - cbn. lia.
  - unfold event_ok. apply (bool_decide_unpack _). vm_compute. exact I.
  - lia.
  - vm_compute. reflexivity.
  - intros rs s1 [(-> & _ & _ & Hread) Hbank]. split; [done|]. split; [exact Hbank|].
    refine (wp_conseq False _ _ _ _ _ (Hread ps [] (mkEvent 0 0 0 0) (St [] midi_device) _ _ _ _) (fun x => x) _).
    + by repeat constructor.
    + apply (sender_bulk 2 ps). apply (bool_decide_unpack _). vm_compute. exact I.
    + rewrite app_nil_r. by apply (queued_next 2 ps 0); [repeat constructor|reflexivity|lia].
    + vm_compute. lia.
    + by intros r t' [-> _].
Defined.

Lemma empty_packet_blocks_witness :
  wp_ False (@receive_events _ (sender 2 [[]; [9; 0x90; 60; 64]]) (Has_refl _) 20 100 (mkEvent 0 0 0 0))
    (fun rs s' => rs = repeat (false, mkEvent 0 0 0 0) 100 /\ out_bank 2 (hist s') = (O, O)) (St [] midi_device).
Proof.
  refine (@empty_packet_blocks _ (sender 2 [[]; [9; 0x90; 60; 64]]) (Has_refl _) [[]; [9; 0x90; 60; 64]] 20 100 0
    (mkEvent 0 0 0 0) (St [] midi_device) _ _ _ _).
  - apply sender_configured.
  - apply (sender_bulk 2). apply (bool_decide_unpack _). vm_compute. exact I.
  - reflexivity.
  - reflexivity.
Defined.
