(* ===== verification/Audio.v ===== *)
(** * LUFA/Drivers/USB/Class/Device/AudioClassDevice.[ch]

    The Audio class driver: properties of endpoints and entities over control
    requests, and samples of 8, 16 and 24 bits over two streaming endpoints. *)

From S2P Require Import Prelude Machine Endpoint EndpointStream BulkTraffic Cdc StdReq.

(** ** AudioClassCommon.h, USBController.h, StdRequestType.h *)

Definition AUDIO_REQ_SetCurrent : Z := 0x01.
Definition AUDIO_REQ_SetMinimum : Z := 0x02.
Definition AUDIO_REQ_SetMaximum : Z := 0x03.
Definition AUDIO_REQ_SetResolution : Z := 0x04.
Definition AUDIO_REQ_GetCurrent : Z := 0x81.
Definition AUDIO_REQ_GetMinimum : Z := 0x82.
Definition AUDIO_REQ_GetMaximum : Z := 0x83.
Definition AUDIO_REQ_GetResolution : Z := 0x84.
Definition AUDIO_REQ_GetStatus : Z := 0xFF.
Definition EP_TYPE_ISOCHRONOUS : Z := 0x01.
Definition REQ_SetInterface : Z := 11.

(** ** AudioClassDevice.h *)

Record USB_ClassInfo_Audio_Device_t := mkAudio {
  ControlInterfaceNumber : Z;
  StreamingInterfaceNumber : Z;
  DataINEndpoint : USB_Endpoint_Table_t;
  DataOUTEndpoint : USB_Endpoint_Table_t;
  InterfaceEnabled : bool;
}.

Definition set_InterfaceEnabled (b : bool) (c : USB_ClassInfo_Audio_Device_t) : USB_ClassInfo_Audio_Device_t :=
  mkAudio (ControlInterfaceNumber c) (StreamingInterfaceNumber c) (DataINEndpoint c) (DataOUTEndpoint c) b.

(** [memset(&State, 0, ..)] and the endpoint types. *)
Definition audio_reset (c : USB_ClassInfo_Audio_Device_t) : USB_ClassInfo_Audio_Device_t :=
  mkAudio (ControlInterfaceNumber c) (StreamingInterfaceNumber c)
    (set_type EP_TYPE_ISOCHRONOUS (DataINEndpoint c)) (set_type EP_TYPE_ISOCHRONOUS (DataOUTEndpoint c)) false.

(** The application.  Its two callbacks take [DataLength] and [Data] ([None]
    for NULL) and return whether they agree, and what [*DataLength] and the
    [Data] buffer become. *)
Class AudioApplication (G : Type) := {
  CALLBACK_Audio_Device_GetSetEndpointProperty :
    Z -> Z -> Z -> option (Z * list Z) -> M G (bool * Z * list Z);
  CALLBACK_Audio_Device_GetSetInterfaceProperty :
    Z -> Z -> Z -> option (Z * list Z) -> M G (bool * Z * list Z);
  EVENT_Audio_Device_StreamStartStop : M G unit;
}.

(** What the event runs in an application that does not hook it. *)
Definition Audio_Device_Event_Stub {G} : M G unit := mret tt.

Section audio.
Context {G : Type} `{Hardware} `{Has UsbState G} `{Has USB_ClassInfo_Audio_Device_t G} `{AudioApplication G}.

(** ** AudioClassDevice.c *)

(** The requests that set a property: the application is asked whether it
    has it, and then given its value.  [property] is the callback with the
    parameters of the request, [stack n] what a new array of [n] bytes holds. *)
Definition set_property (fuel : nat) (stack : nat -> list Z) (r : USB_Request_Header_t)
    (property : option (Z * list Z) -> M G (bool * Z * list Z)) : M G unit :=
  ok ← property None;
  when (fst (fst ok)) (
    let ValueLength := wLength r in
    Endpoint_ClearSETUP ;;
    e ← Endpoint_Read_Control_Stream_LE fuel (stack (Z.to_nat ValueLength)) ValueLength;
    Endpoint_ClearIN ;;
    property (Some (ValueLength, snd e)) ;;
    mret tt).

(** The requests that get one.  A value that is longer than the data in the
    buffer has no result; no more than the host asked for is sent. *)
Definition get_property (fuel : nat) (stack : nat -> list Z) (r : USB_Request_Header_t)
    (property : option (Z * list Z) -> M G (bool * Z * list Z)) : M G unit :=
  x ← property (Some (wLength r, stack (Z.to_nat (wLength r))));
  let '(ok, ValueLength, Value) := x : bool * Z * list Z in
  when ok (
    Endpoint_ClearSETUP ;;
    defined (if Z.min ValueLength (wLength r) <=? zlen Value then Some tt else None) ;;
    Endpoint_Write_Control_Stream_LE fuel Value ValueLength ;;
    Endpoint_ClearOUT).

(** The two ways a request addresses a property. *)
Definition by_recipient (r : USB_Request_Header_t)
    (run : (option (Z * list Z) -> M G (bool * Z * list Z)) -> M G unit) : M G unit :=
  let recipient := Z.land (bmRequestType r) CONTROL_REQTYPE_RECIPIENT in
  if recipient =? REQREC_ENDPOINT then
    let EndpointAddress := u8 (wIndex r) in
    let EndpointControl := Z.shiftr (wValue r) 8 in
    run (CALLBACK_Audio_Device_GetSetEndpointProperty (bRequest r) EndpointAddress EndpointControl)
  else if recipient =? REQREC_INTERFACE then
    let Entity := Z.shiftr (wIndex r) 8 in
    let Param := wValue r in
    run (CALLBACK_Audio_Device_GetSetInterfaceProperty (bRequest r) Entity Param)
  else mret tt.

(** The first tests: a request for some other interface or endpoint. *)
Definition not_ours (r : USB_Request_Header_t) (c : USB_ClassInfo_Audio_Device_t) : bool :=
  let recipient := Z.land (bmRequestType r) CONTROL_REQTYPE_RECIPIENT in
  let index := Z.land (wIndex r) 0xFF in
  if recipient =? REQREC_INTERFACE then
    negb (index =? ControlInterfaceNumber c) && negb (index =? StreamingInterfaceNumber c)
  else if recipient =? REQREC_ENDPOINT then
    negb (index =? et_Address (DataINEndpoint c)) && negb (index =? et_Address (DataOUTEndpoint c))
  else false.

Definition Audio_Device_ProcessControlRequest (fuel : nat) (stack : nat -> list Z) : M G unit :=
  setup ← Endpoint_IsSETUPReceived;
  if negb (setup : bool) then mret tt else
  r ← getc USB_ControlRequest;
  other ← getc (not_ours r);
  if (other : bool) then mret tt else
  if bRequest r =? REQ_SetInterface then
    when (bmRequestType r =? Z.lor (Z.lor REQDIR_HOSTTODEVICE REQTYPE_STANDARD) REQREC_INTERFACE) (
      Endpoint_ClearSETUP ;;
      Endpoint_ClearStatusStage fuel ;;
      modc (set_InterfaceEnabled (negb (Z.land (wValue r) 0xFF =? 0))) ;;
      EVENT_Audio_Device_StreamStartStop)
  else if bRequest r =? AUDIO_REQ_GetStatus then
    when ((bmRequestType r =? Z.lor (Z.lor REQDIR_HOSTTODEVICE REQTYPE_CLASS) REQREC_INTERFACE)
          || (bmRequestType r =? Z.lor (Z.lor REQDIR_HOSTTODEVICE REQTYPE_CLASS) REQREC_ENDPOINT)) (
      Endpoint_ClearSETUP ;;
      Endpoint_ClearStatusStage fuel)
  else if (bRequest r =? AUDIO_REQ_SetCurrent) || (bRequest r =? AUDIO_REQ_SetMinimum)
          || (bRequest r =? AUDIO_REQ_SetMaximum) || (bRequest r =? AUDIO_REQ_SetResolution) then
    by_recipient r (set_property fuel stack r)
  else if (bRequest r =? AUDIO_REQ_GetCurrent) || (bRequest r =? AUDIO_REQ_GetMinimum)
          || (bRequest r =? AUDIO_REQ_GetMaximum) || (bRequest r =? AUDIO_REQ_GetResolution) then
    by_recipient r (get_property fuel stack r)
  else mret tt.

Definition Audio_Device_ConfigureEndpoints (fuel : nat) : M G bool :=
  modc audio_reset ;;
  e1 ← getc DataINEndpoint;
  ok ← Endpoint_ConfigureEndpointTable fuel [e1];
  if negb ok then mret false else
  e2 ← getc DataOUTEndpoint;
  ok ← Endpoint_ConfigureEndpointTable fuel [e2];
  if negb ok then mret false else mret true.

Definition Audio_Device_USBTask : M G unit := mret tt.
End audio.

(** ** AudioClassDevice.h: samples *)

Section samples.
Context {G : Type} `{Hardware} `{Has USB_ClassInfo_Audio_Device_t G}.

Definition stream_ready (get : USB_ClassInfo_Audio_Device_t -> USB_Endpoint_Table_t) (ready : M G bool) : M G bool :=
  d ← get_DeviceState;
  if negb (d =? DEVICE_STATE_Configured) then mret false else
  on ← getc InterfaceEnabled;
  if negb (on : bool) then mret false else
  e ← getc get;
  Endpoint_SelectEndpoint (et_Address e) ;;
  ready.

Definition Audio_Device_IsSampleReceived : M G bool := stream_ready DataOUTEndpoint Endpoint_IsOUTReceived.
Definition Audio_Device_IsReadyForNextSample : M G bool := stream_ready DataINEndpoint Endpoint_IsINReady.

(** [if (!(Endpoint_BytesInEndpoint())) Endpoint_ClearOUT();] *)
Definition release_empty : M G unit :=
  n ← Endpoint_BytesInEndpoint; when (n =? 0) Endpoint_ClearOUT.
(** [if (Endpoint_BytesInEndpoint() == DataINEndpoint.Size) Endpoint_ClearIN();] *)
Definition send_full : M G unit :=
  n ← Endpoint_BytesInEndpoint; e ← getc DataINEndpoint; when (n =? et_Size e) Endpoint_ClearIN.

Definition Audio_Device_ReadSample8 : M G Z :=
  Sample ← Endpoint_Read_8; release_empty ;; mret (signed 8 Sample).
Definition Audio_Device_ReadSample16 : M G Z :=
  Sample ← Endpoint_Read_16_LE; release_empty ;; mret (signed 16 Sample).

(** [((uint32_t)Endpoint_Read_8() << 16) | Endpoint_Read_16_LE()]: C leaves
    open which operand is evaluated first; [high_first] is the compiler's choice. *)
Definition Audio_Device_ReadSample24 (high_first : bool) : M G Z :=
  Sample ← (if high_first
            then b ← Endpoint_Read_8; w ← Endpoint_Read_16_LE; mret (Z.lor (Z.shiftl b 16) w)
            else w ← Endpoint_Read_16_LE; b ← Endpoint_Read_8; mret (Z.lor (Z.shiftl b 16) w));
  release_empty ;;
  mret Sample.

Definition Audio_Device_WriteSample8 (Sample : Z) : M G unit :=
  Endpoint_Write_8 (u8 Sample) ;; send_full.
Definition Audio_Device_WriteSample16 (Sample : Z) : M G unit :=
  Endpoint_Write_16_LE (u16 Sample) ;; send_full.
Definition Audio_Device_WriteSample24 (Sample : Z) : M G unit :=
  Endpoint_Write_16_LE (u16 Sample) ;; Endpoint_Write_8 (u8 (Z.shiftr Sample 16)) ;; send_full.
End samples.
