(* ===== verification/AudioSamples.v ===== *)
(** * Audio streams

    What the sample functions put on the bus and what they read from it, for
    samples of 8, 16 and 24 bits. *)

From S2P Require Import Prelude Machine Endpoint EndpointStream BulkTraffic Cdc StdReq Audio.

(** ** Applications *)

Inductive width := W8 | W16 | W24.
Definition sample_bytes (w : width) : nat := match w with W8 => 1 | W16 => 2 | W24 => 3 end.

Section programs.
Context {G : Type} `{Hardware} `{Has USB_ClassInfo_Audio_Device_t G}.

Definition write_sample (w : width) (x : Z) : M G unit :=
  match w with
  | W8 => Audio_Device_WriteSample8 x
  | W16 => Audio_Device_WriteSample16 x
  | W24 => Audio_Device_WriteSample24 x
  end.
Definition read_sample (w : width) (high_first : bool) : M G Z :=
  match w with
  | W8 => Audio_Device_ReadSample8
  | W16 => Audio_Device_ReadSample16
  | W24 => Audio_Device_ReadSample24 high_first
  end.

(** Samples written as the driver's manual says, and [k] samples read so. *)
Fixpoint play (w : width) (xs : list Z) : M G (list bool) :=
  match xs with
  | [] => mret []
  | x :: xs' =>
      ok ← Audio_Device_IsReadyForNextSample;
      when ok (write_sample w x) ;;
      oks ← play w xs';
      mret (ok :: oks)
  end.
Fixpoint record_samples (w : width) (high_first : bool) (k : nat) : M G (list (option Z)) :=
  match k with
  | O => mret []
  | S k' =>
      ok ← Audio_Device_IsSampleReceived;
      x ← (if ok : bool then x ← read_sample w high_first; mret (Some x) else mret None);
      xs ← record_samples w high_first k';
      mret (x :: xs)
  end.
End programs.

(** ** The bytes of a sample *)

(** What is read where [x] was written: the number itself modulo its width,
    taken as signed up to 16 bits; with 24 bits never negative and, when the
    compiler evaluates the high byte first, with the bytes rotated. *)
Definition received (w : width) (high_first : bool) (x : Z) : Z :=
  match w with
  | W8 => signed 8 (x mod 2 ^ 8)
  | W16 => signed 16 (x mod 2 ^ 16)
  | W24 => if high_first then x mod 2 ^ 8 * 2 ^ 16 + x / 2 ^ 8 mod 2 ^ 16 else x mod 2 ^ 24
  end.

Lemma u8_low x : reg_trunc UEDATX (Z.land (u16 x) 0xFF) = u8 x.
Proof.
  unfold reg_trunc, u16, u8. cbn [reg_width]. change 0xFF with (Z.ones 8).
  apply Z.bits_inj'. intros i Hi. destruct (Z.lt_ge_cases i 8).
  - rewrite !Z.mod_pow2_bits_low, Z.land_spec, Z.mod_pow2_bits_low, Z.ones_spec_low by lia. apply andb_true_r.
  - by rewrite !Z.mod_pow2_bits_high by lia.
Qed.
Lemma u8_mid x : reg_trunc UEDATX (Z.shiftr (u16 x) 8) = u8 (Z.shiftr x 8).
Proof.
  unfold reg_trunc, u16, u8. cbn [reg_width].
  apply Z.bits_inj'. intros i Hi. destruct (Z.lt_ge_cases i 8).
  - rewrite !Z.mod_pow2_bits_low, !Z.shiftr_spec, Z.mod_pow2_bits_low by lia. done.
  - by rewrite !Z.mod_pow2_bits_high by lia.
Qed.
Lemma reg_u8 x : reg_trunc UEDATX (u8 x) = u8 x.
Proof. apply u8_u8. Qed.

(** The high byte above a 16-bit value. *)
Lemma high_byte c a b : Z.lor (Z.shiftl c 16) (le_value [a; b]) = le_value [a; b; c].
Proof.
  cbn [le_value]. rewrite !Z.shiftl_0_l, !Z.lor_0_r, Z.shiftl_lor, Z.shiftl_shiftl by lia.
  change (8 + 8) with 16. symmetry. rewrite Z.lor_assoc. apply Z.lor_comm.
Qed.

Lemma le_value3 a b c : is_u8 a -> is_u8 b -> is_u8 c -> le_value [a; b; c] = a + 2 ^ 8 * b + 2 ^ 16 * c.
Proof.
  intros Ha Hb Hc. cbn [le_value]. rewrite !le_value_split by done. lia.
Qed.

(** The bytes on the bus, and what the three readers make of them. *)
Lemma le_bytes3 x : le_bytes 3 x = [u8 x; u8 (Z.shiftr x 8); u8 (Z.shiftr x 16)].
Proof. cbn [le_bytes]. by rewrite Z.shiftr_shiftr by lia. Qed.

Lemma received_24 hf x :
  received W24 hf x = (if hf then le_value [u8 (Z.shiftr x 8); u8 (Z.shiftr x 16); u8 x]
                       else le_value (le_bytes 3 x)).
Proof.
  destruct hf; cbn [received]; [|by rewrite le_value_bytes].
  rewrite le_value3 by auto with width. rewrite !Z.shiftr_div_pow2 by lia. unfold u8.
  change (2 ^ 16) with (2 ^ 8 * 2 ^ 8) at 2. rewrite Z.rem_mul_r by lia.
  rewrite Z.div_div by lia. change (2 ^ 8 * 2 ^ 8) with (2 ^ 16). lia.
Qed.

Lemma received_signed w hf x :
  w <> W24 -> - 2 ^ (8 * Z.of_nat (sample_bytes w) - 1) <= x < 2 ^ (8 * Z.of_nat (sample_bytes w) - 1) ->
  received w hf x = x.
Proof. intros Hw Hx. destruct w; cbn [received]; [by apply signed_mod|by apply signed_mod|done]. Qed.
Lemma received_unsigned hf x : 0 <= received W24 hf x.
Proof.
  cbn [received]. destruct hf; [|apply Z.mod_pos_bound; lia].
  pose proof (Z.mod_pos_bound x (2 ^ 8) ltac:(lia)). pose proof (Z.mod_pos_bound (x / 2 ^ 8) (2 ^ 16) ltac:(lia)). lia.
Qed.

(** ** Writing *)

Section writing.
Context {G : Type} `{Hardware} `{Has USB_ClassInfo_Audio_Device_t G} (Hconf : bus_configured).
Context (n : Z) (size : nat) (Hin : bulk_in n size) (Hcnt : bank_counted n) (Hsz : (size < 256)%nat).

(** A byte goes into the bank. *)
Lemma put_byte v h (g : G) (Q : unit -> st G -> Prop) q b :
  sel n h = true -> in_bank n h = (q, b) ->
  (forall h', sel n h' = true -> in_bank n h' = (q, b ++ [reg_trunc UEDATX v]) -> Q tt (St h' g)) ->
  wp_ False (wr UEDATX v) Q (St h g).
Proof using. intros Hs Hb HQ. apply wp_wr, HQ; [exact Hs|]. cbn [in_bank hist]. by rewrite Hb, Hs. Qed.

(** The bank is sent when it is full. *)
Lemma send_full_spec h (g : G) (Q : unit -> st G -> Prop) q b :
  sel n h = true -> in_bank n h = (q, b) -> (length b <= size)%nat ->
  et_Size (DataINEndpoint (proj g)) = Z.of_nat size ->
  (forall h', in_bank n h' = (if (length b =? size)%nat then (q ++ [b], []) else (q, b)) -> Q tt (St h' g)) ->
  wp_ False send_full Q (St h g).
Proof using Hcnt Hsz.
  intros Hs Hb Hl HS HQ. unfold send_full, Endpoint_BytesInEndpoint. do 4 wp_step.
  rewrite (Hcnt h Hs) by (rewrite Hb; cbn [snd]; lia). rewrite Hb, HS. cbn [snd]. set (v := zlen b).
  assert (Hv : (v =? Z.of_nat size) = (length b =? size)%nat)
    by (unfold v, zlen; destruct (Z.eqb_spec (Z.of_nat (length b)) (Z.of_nat size)), (Nat.eqb_spec (length b) size); lia).
  rewrite Hv. destruct (length b =? size)%nat eqn:E.
  - rewrite when_true. apply (clear_in n (Rd UEBCLX v :: h)); [exact Hs|]. intros h2 _ _ Hb2. apply HQ.
    by rewrite Hb2, in_bank_rd, Hb.
  - rewrite when_false. apply wp_ret, HQ. by rewrite in_bank_rd.
Qed.

Lemma write_sample_spec w x h (g : G) (Q : unit -> st G -> Prop) q b :
  sel n h = true -> in_bank n h = (q, b) -> (length b + sample_bytes w <= size)%nat ->
  et_Size (DataINEndpoint (proj g)) = Z.of_nat size ->
  (forall h', in_bank n h' = (let b' := b ++ le_bytes (sample_bytes w) x in
      if (length b' =? size)%nat then (q ++ [b'], []) else (q, b')) -> Q tt (St h' g)) ->
  wp_ False (write_sample w x) Q (St h g).
Proof using Hcnt Hsz.
  intros Hs Hb Hl HS HQ.
  assert (Hend : forall h', sel n h' = true -> in_bank n h' = (q, b ++ le_bytes (sample_bytes w) x) ->
    wp_ False send_full Q (St h' g)).
  { intros h' Hs' Hb'. eapply send_full_spec; [done|done| |done|exact HQ].
    rewrite length_app, le_bytes_length. lia. }
  destruct w; cbn [write_sample sample_bytes] in *.
  - apply wp_bind, (put_byte _ h g _ q b Hs Hb). intros h1 Hs1 Hb1. rewrite reg_u8 in Hb1. by apply Hend.
  - apply wp_bind. unfold Endpoint_Write_16_LE.
    apply wp_bind, (put_byte _ h g _ q b Hs Hb). intros h1 Hs1 Hb1.
    apply (put_byte _ h1 g _ _ _ Hs1 Hb1). intros h2 Hs2 Hb2. apply Hend; [done|].
    by rewrite Hb2, u8_low, u8_mid, <- app_assoc.
  - apply wp_bind. unfold Endpoint_Write_16_LE.
    apply wp_bind, (put_byte _ h g _ q b Hs Hb). intros h1 Hs1 Hb1.
    apply (put_byte _ h1 g _ _ _ Hs1 Hb1). intros h2 Hs2 Hb2.
    apply wp_bind, (put_byte _ h2 g _ _ _ Hs2 Hb2). intros h3 Hs3 Hb3. apply Hend; [done|].
    by rewrite Hb3, u8_low, u8_mid, reg_u8, le_bytes3, <- !app_assoc.
Qed.
End writing.

(** The guard of both streams. *)
Lemma stream_ready_spec {G} `{Hardware} `{Has USB_ClassInfo_Audio_Device_t G} get ready h (g : G) (Q : bool -> st G -> Prop) :
  let n := ep_num (et_Address (get (proj g))) in
  bus_configured -> InterfaceEnabled (proj g) = true ->
  (forall h', sel n h' = true -> out_bank n h' = out_bank n h -> in_bank n h' = in_bank n h ->
     wp_ False ready Q (St h' g)) ->
  wp_ False (stream_ready get ready) Q (St h g).
Proof.
  intros n Hconf Hon HQ. unfold stream_ready, get_DeviceState. do 2 wp_step. rewrite Hconf.
  change (negb (_ =? DEVICE_STATE_Configured)) with false. cbv match. do 2 wp_step. rewrite Hon. cbn [negb].
  do 2 wp_step. apply wp_bind, wp_select. intros h' Hs Hb. apply HQ; [exact Hs|apply (Hb n)|apply (Hb n)].
Qed.

(** Since [q0] was sent the bytes [bs] have been written: packets of [size]
    bytes and what is in the bank, whole samples of [k] bytes. *)
Definition packed (n : Z) (size k : nat) (q0 : list (list Z)) (bs : list Z) (h : history) : Prop :=
  exists ps b m, in_bank n h = (q0 ++ ps, b) /\ concat ps ++ b = bs
    /\ Forall (fun p => length p = size) ps /\ (length b < size)%nat /\ length b = (k * m)%nat.

Lemma packed_next n size k q0 bs h h' x m :
  (0 < k)%nat -> size = (k * m)%nat -> length x = k -> packed n size k q0 bs h ->
  (forall q b, in_bank n h = (q, b) ->
     in_bank n h' = (if (length (b ++ x) =? size)%nat then (q ++ [b ++ x], []) else (q, b ++ x))) ->
  packed n size k q0 (bs ++ x) h'.
Proof.
  intros Hk Hm Hx (ps & b & j & Hb & Hbs & Hps & Hl & Hj) Hn. specialize (Hn _ _ Hb).
  pose proof (length_app b x) as Hlen. assert (j < m)%nat by nia.
  destruct (Nat.eqb_spec (length (b ++ x)) size) as [E|E].
  - exists (ps ++ [b ++ x]), [], 0%nat. split; [by rewrite Hn, app_assoc|]. split.
    + rewrite concat_app. cbn [concat]. by rewrite !app_nil_r, app_assoc, Hbs.
    + split; [by apply Forall_app; repeat constructor|]. cbn [length]. nia.
  - exists ps, (b ++ x), (S j). split_and!; [done|by rewrite app_assoc, Hbs|done| |]; nia.
Qed.

Section playing.
Context {G : Type} `{Hardware} `{Has USB_ClassInfo_Audio_Device_t G} (Hconf : bus_configured).
Context (n : Z) (size m : nat) (w : width) (Hin : bulk_in n size) (Hcnt : bank_counted n) (Hsz : (size < 256)%nat).
Context (Hm : size = (sample_bytes w * m)%nat) (q0 : list (list Z)) (g : G).
Context (Hon : InterfaceEnabled (proj g) = true) (Hn : ep_num (et_Address (DataINEndpoint (proj g))) = n).
Context (HS : et_Size (DataINEndpoint (proj g)) = Z.of_nat size).

Lemma play_spec xs bs h :
  packed n size (sample_bytes w) q0 bs h ->
  wp_ False (play w xs) (fun oks s' => oks = repeat true (length xs) /\ glob s' = g
    /\ packed n size (sample_bytes w) q0 (bs ++ concat (map (le_bytes (sample_bytes w)) xs)) (hist s')) (St h g).
Proof using Hconf Hin Hcnt Hsz Hm Hon Hn HS.
  revert bs h. induction xs as [|x xs IH]; intros bs h Hp; cbn [play].
  { apply wp_ret. cbn [map concat]. by rewrite app_nil_r. }
  apply wp_bind. unfold Audio_Device_IsReadyForNextSample. apply stream_ready_spec; [done|done|].
  rewrite Hn. intros h1 Hs1 _ Hb1. unfold Endpoint_IsINReady. apply wp_flag. cbv zeta. cbn [hist glob].
  rewrite (proj1 (bi_flags _ _ Hin h1 Hs1)), when_true. set (v := reg_trunc UEINTX _).
  pose proof Hp as (ps & b & j & Hb & _ & _ & Hl & Hj).
  assert (Hk : (0 < sample_bytes w)%nat) by (destruct w; cbn; lia). assert (j < m)%nat by nia.
  apply wp_bind, (write_sample_spec n size Hcnt Hsz w x (Rd UEINTX v :: h1) g _ (q0 ++ ps) b);
    [exact Hs1|by rewrite in_bank_rd, Hb1|nia|exact HS|].
  intros h2 Hb2. cbv zeta in Hb2. assert (Hp2 : packed n size (sample_bytes w) q0 (bs ++ le_bytes (sample_bytes w) x) h2).
  { apply (packed_next n size (sample_bytes w) q0 bs h h2 _ m); [done|done|apply le_bytes_length|done|].
    intros q' b' Hq. rewrite Hb in Hq. by injection Hq as <- <-. }
  wp_call (IH _ h2 Hp2). intros oks s3 (-> & Hg & Hp3). apply wp_ret. split; [done|]. split; [done|].
  cbn [map concat]. by rewrite app_assoc.
Qed.
End playing.

(** ** Reading *)

Section reading.
Context {G : Type} `{Hardware} `{Has USB_ClassInfo_Audio_Device_t G} (Hconf : bus_configured).
Context (n : Z) (ps : list (list Z)) (Hout : bulk_out n ps) (Hcnt : out_counted n ps).
Context (Hps : Forall (fun p => p <> [] /\ (length p < 256)%nat) ps).

Lemma get_byte h (g : G) (Q : Z -> st G -> Prop) r j p x q :
  sel n h = true -> out_bank n h = (r, j) -> ps !! r = Some p -> drop j p = x :: q ->
  (forall h', sel n h' = true -> out_bank n h' = (r, S j) -> drop (S j) p = q -> Q x (St h' g)) ->
  wp_ False (rd UEDATX) Q (St h g).
Proof using Hout.
  intros Hs Hb Hp Hd HQ. apply wp_rd. cbv zeta. cbn [hist glob].
  assert (Hx : p !! j = Some x) by (rewrite <- (Nat.add_0_r j), <- lookup_drop, Hd; done).
  rewrite (bo_data _ _ Hout h r j p x Hs Hb Hp Hx). apply HQ; [exact Hs| |].
  - cbn [out_bank]. by rewrite Hb, Hs.
  - rewrite (drop_S p x j Hx) in Hd. by injection Hd.
Qed.

(** A packet that is used up is given back. *)
Lemma release_empty_spec h (g : G) (Q : unit -> st G -> Prop) r j p :
  sel n h = true -> out_bank n h = (r, j) -> ps !! r = Some p -> (j <= length p)%nat ->
  (forall h', queued n ps (drop j p ++ concat (drop (S r) ps)) h' ->
     snd (out_bank n h') = (if (j <? length p)%nat then j else O) -> Q tt (St h' g)) ->
  wp_ False release_empty Q (St h g).
Proof using Hcnt Hps.
  intros Hs Hb Hp Hj HQ. pose proof (Forall_lookup_1 _ _ _ _ Hps Hp) as [_ Hl].
  unfold release_empty, Endpoint_BytesInEndpoint. do 2 wp_step.
  rewrite (Hcnt h r j p Hs Hb Hp Hj Hl). set (v := Z.of_nat (length p - j)).
  assert (Hv : (v =? 0) = negb (j <? length p)%nat)
    by (unfold v; destruct (Z.eqb_spec (Z.of_nat (length p - j)) 0), (Nat.ltb_spec j (length p)); cbn; lia).
  rewrite Hv. destruct (Nat.ltb_spec j (length p)) as [Hlt|Hge]; cbn [negb].
  - rewrite when_false. apply wp_ret, HQ; [|by rewrite out_bank_rd, Hb].
    exists r, j. rewrite out_bank_rd, Hp by done. done.
  - rewrite when_true. apply (clear_out n (Rd UEBCLX v :: h) g _ r j); [exact Hs|by rewrite out_bank_rd|].
    intros h2 _ Hb2 _. rewrite (drop_ge p j) in HQ by done. apply HQ; [|by rewrite Hb2].
    apply queued_next; [by eapply List.Forall_impl; [|exact Hps]; intros ? []|done|by apply lookup_lt_Some in Hp].
Qed.

Lemma read_sample_spec w hf x h (g : G) (Q : Z -> st G -> Prop) r j p q :
  sel n h = true -> out_bank n h = (r, j) -> ps !! r = Some p -> (j <= length p)%nat ->
  drop j p = le_bytes (sample_bytes w) x ++ q ->
  (forall h', queued n ps (q ++ concat (drop (S r) ps)) h' ->
     snd (out_bank n h') = (if (j + sample_bytes w <? length p)%nat then j + sample_bytes w else O)%nat ->
     Q (received w hf x) (St h' g)) ->
  wp_ False (read_sample w hf) Q (St h g).
Proof using Hout Hcnt Hps.
  intros Hs Hb Hp Hj Hd HQ.
  assert (Hend : forall v h', sel n h' = true -> out_bank n h' = (r, j + sample_bytes w)%nat ->
    drop (j + sample_bytes w) p = q -> v = received w hf x ->
    wp_ False (release_empty ;; mret v) Q (St h' g)).
  { intros v h' Hs' Hb' Hd' ->. apply wp_bind. eapply release_empty_spec; [done|done|done| |].
    - apply (f_equal length) in Hd. rewrite length_drop, length_app, le_bytes_length in Hd. lia.
    - rewrite Hd'. intros h2 Hq2 Hb2. by apply wp_ret, HQ. }
  destruct w; cbn [read_sample sample_bytes] in *;
    rewrite ?(Nat.add_comm j), ?Nat.add_succ_l, ?Nat.add_0_l in Hend.
  - apply wp_bind, (get_byte h g _ r j p _ _ Hs Hb Hp Hd). intros h1 Hs1 Hb1 Hd1. by apply Hend.
  - cbn [le_bytes app] in Hd.
    apply wp_bind, wp_bind, (get_byte h g _ r j p _ _ Hs Hb Hp Hd). intros h1 Hs1 Hb1 Hd1.
    apply wp_bind, (get_byte h1 g _ r _ p _ _ Hs1 Hb1 Hp Hd1). intros h2 Hs2 Hb2 Hd2. apply wp_ret, Hend; [done..|].
    cbn [received]. by rewrite <- (le_value_bytes 2).
  - rewrite received_24 in Hend. rewrite le_bytes3 in Hd, Hend. cbn [app] in Hd. apply wp_bind.
    destruct hf; apply wp_bind; unfold Endpoint_Read_16_LE.
    + apply (get_byte h g _ r j p _ _ Hs Hb Hp Hd). intros h1 Hs1 Hb1 Hd1.
      apply wp_bind, wp_bind, (get_byte h1 g _ r _ p _ _ Hs1 Hb1 Hp Hd1). intros h2 Hs2 Hb2 Hd2.
      apply wp_bind, (get_byte h2 g _ r _ p _ _ Hs2 Hb2 Hp Hd2). intros h3 Hs3 Hb3 Hd3.
      apply wp_ret, wp_ret, Hend; [done..|]. apply high_byte.
    + apply wp_bind, (get_byte h g _ r j p _ _ Hs Hb Hp Hd). intros h1 Hs1 Hb1 Hd1.
      apply wp_bind, (get_byte h1 g _ r _ p _ _ Hs1 Hb1 Hp Hd1). intros h2 Hs2 Hb2 Hd2.
      apply wp_ret, wp_bind, (get_byte h2 g _ r _ p _ _ Hs2 Hb2 Hp Hd2). intros h3 Hs3 Hb3 Hd3.
      apply wp_ret, Hend; [done..|]. apply high_byte.
Qed.

(** The packets and the place in the current one are whole samples. *)
Context (w : width) (hf : bool) (Hwhole : Forall (fun p => exists i, length p = (sample_bytes w * i)%nat) ps).

Definition at_sample (bs : list Z) (h : history) : Prop :=
  queued n ps bs h /\ exists i, snd (out_bank n h) = (sample_bytes w * i)%nat.

Lemma next_sample x bs h :
  at_sample (le_bytes (sample_bytes w) x ++ bs) h ->
  exists r j p q, out_bank n h = (r, j) /\ ps !! r = Some p /\ (j <= length p)%nat
    /\ drop j p = le_bytes (sample_bytes w) x ++ q /\ bs = q ++ concat (drop (S r) ps)
    /\ exists i, j = (sample_bytes w * i)%nat.
Proof using Hwhole.
  assert (Hk : (0 < sample_bytes w)%nat) by (destruct w; cbn; lia).
  intros [(r & j & Hb & Hp) [i Hi]]. rewrite Hb in Hi. cbn [snd] in Hi.
  destruct (ps !! r) as [p|] eqn:Ep.
  - destruct Hp as [Hj Hbs]. destruct (Forall_lookup_1 _ _ _ _ Hwhole Ep) as [m Hm].
    assert (i < m)%nat by nia. symmetry in Hbs.
    apply app_eq_inv in Hbs as [(q & Hd & Hbs)|(q & Hd & Hbs)].
    + exists r, j, p, q. split_and!; [done|done|lia|done|done|by exists i].
    + apply (f_equal length) in Hd as Hl. rewrite length_app, le_bytes_length, length_drop in Hl.
      assert (length q = 0)%nat as ->%nil_length_inv by nia. rewrite app_nil_r in Hd. cbn [app] in Hbs.
      exists r, j, p, []. rewrite app_nil_r. split_and!; [done|done|lia|done|done|by exists i].
  - destruct Hp as (_ & _ & Hbs). apply (f_equal length) in Hbs. rewrite length_app, le_bytes_length in Hbs.
    cbn [length] in Hbs. lia.
Qed.

Lemma record_spec xs rest h (g : G) :
  InterfaceEnabled (proj g) = true -> ep_num (et_Address (DataOUTEndpoint (proj g))) = n ->
  at_sample (concat (map (le_bytes (sample_bytes w)) xs) ++ rest) h ->
  wp_ False (record_samples w hf (length xs)) (fun r s' =>
    r = map (fun x => Some (received w hf x)) xs /\ glob s' = g /\ at_sample rest (hist s')) (St h g).
Proof using Hconf Hout Hcnt Hps Hwhole.
  intros Hon Hn. revert h. induction xs as [|x xs IH]; intros h Hat; cbn [record_samples length].
  { by apply wp_ret. }
  cbn [map concat] in Hat. rewrite <- app_assoc in Hat.
  destruct (next_sample _ _ _ Hat) as (r & j & p & q & Hb & Hp & Hj & Hd & Hbs & i & Hi).
  apply wp_bind. unfold Audio_Device_IsSampleReceived. apply stream_ready_spec; [done|done|].
  rewrite Hn. intros h1 Hs1 Hb1 _. rewrite Hb in Hb1.
  unfold Endpoint_IsOUTReceived. apply wp_flag. cbv zeta. cbn [hist glob].
  rewrite (proj1 (bo_flags _ _ Hout h1 r j p Hs1 Hb1 Hp)). set (v := reg_trunc UEINTX _).
  apply wp_bind, wp_bind, (read_sample_spec w hf x (Rd UEINTX v :: h1) g _ r j p q);
    [exact Hs1|by rewrite out_bank_rd|done|done|done|].
  intros h2 Hq2 Hj2. apply wp_ret. rewrite <- Hbs in Hq2.
  assert (Hat2 : at_sample (concat (map (le_bytes (sample_bytes w)) xs) ++ rest) h2).
  { split; [done|]. rewrite Hj2. clear Hj2. destruct (_ <? _)%nat; [exists (S i)|exists O]; lia. }
  wp_call (IH h2 Hat2). intros rs s3 (-> & Hg & Hat3). by apply wp_ret.
Qed.
End reading.

(** ** Properties *)

(** C36. Samples survive the wire, but not the sign of 24-bit ones.  Samples
    played to a host that takes its packets, through an enabled interface and
    an endpoint that starts empty and whose size, below 256 bytes, is a whole
    number of samples, are sent whole, in order and in
    packets of exactly the endpoint's size, the last ones waiting in the bank;
    and where these bytes arrive, in packets of whole samples, exactly the
    samples are recorded if they are signed numbers of 8 or 16 bits, while one
    of 24 bits is never read as a negative number, whichever operand of the
    reader's [|] the compiler evaluates first.  All the calls terminate. *)
Theorem samples_roundtrip {G G' : Type} (HS HR : Hardware) `{Has USB_ClassInfo_Audio_Device_t G}
    `{Has USB_ClassInfo_Audio_Device_t G'} size m w hf xs (s : st G) :
  let c := proj (glob s) in
  let n := ep_num (et_Address (DataINEndpoint c)) in
  let k := sample_bytes w in
  let bs := concat (map (le_bytes k) xs) in
  @bus_configured HS -> @bus_configured HR -> @bulk_in HS n size -> @bank_counted HS n ->
  (size < 256)%nat -> size = (k * m)%nat -> et_Size (DataINEndpoint c) = Z.of_nat size ->
  InterfaceEnabled c = true -> snd (in_bank n (hist s)) = [] ->
  wp_ False (@play G HS _ w xs) (fun oks s1 =>
    oks = repeat true (length xs)
    /\ (exists ps b, in_bank n (hist s1) = (fst (in_bank n (hist s)) ++ ps, b) /\ concat ps ++ b = bs
          /\ Forall (fun p => length p = size) ps /\ (length b < size)%nat)
    /\ forall ps rest (t : st G'),
         let c' := proj (glob t) in
         let n' := ep_num (et_Address (DataOUTEndpoint c')) in
         @bulk_out HR n' ps -> @out_counted HR n' ps ->
         Forall (fun p => p <> [] /\ (length p < 256)%nat) ps ->
         Forall (fun p => exists i, length p = (k * i)%nat) ps ->
         InterfaceEnabled c' = true -> snd (out_bank n' (hist t)) = O -> queued n' ps (bs ++ rest) (hist t) ->
         wp_ False (@record_samples G' HR _ w hf (length xs)) (fun r _ =>
           r = map (fun x => Some (received w hf x)) xs
           /\ Forall (fun x => w <> W24 -> - 2 ^ (8 * Z.of_nat k - 1) <= x < 2 ^ (8 * Z.of_nat k - 1) ->
                received w hf x = x) xs
           /\ (w = W24 -> Forall (fun x => 0 <= received w hf x) xs)) t) s.
Proof.
  destruct s as [h g]. intros c n k bs HcS HcR Hin Hcnt Hsz Hm HS' Hon Hb0.
  pose proof (bi_size _ _ Hin) as Hpos.
  assert (Hp0 : packed n size k (fst (in_bank n h)) [] h).
  { exists [], [], 0%nat. rewrite app_nil_r. split_and!; [|done|done|cbn; lia|cbn; lia].
    cbn [hist] in Hb0. revert Hb0. destruct (in_bank n h). cbn [fst snd]. by intros ->. }
  wp_spec (@play_spec G HS _ HcS n size m w Hin Hcnt Hsz Hm (fst (in_bank n h)) g Hon eq_refl HS' xs [] h Hp0).
  intros oks s1 (-> & _ & ps1 & b1 & m1 & Hb1 & Hbs1 & Hps1 & Hl1 & _). split; [done|].
  split; [by exists ps1, b1|]. intros ps rest [h' g'] c' n' Hout Hocnt Hps Hwhole Hon' Hj0 Hq.
  wp_spec (@record_spec G' HR _ HcR n' ps Hout Hocnt Hps w hf Hwhole xs rest h' g' Hon' eq_refl
    (conj Hq (ex_intro _ O (eq_trans Hj0 (eq_sym (Nat.mul_0_r _)))))).
  intros r t' (-> & _ & _). split; [done|]. split.
  - apply List.Forall_forall. intros x _. apply received_signed.
  - intros ->. apply List.Forall_forall. intros x _. apply received_unsigned.
Qed.

(** ** Examples *)

Definition audio_device : USB_ClassInfo_Audio_Device_t :=
  mkAudio 0 1 (mkEndpointTable 0x81 6 EP_TYPE_ISOCHRONOUS 2) (mkEndpointTable 0x02 6 EP_TYPE_ISOCHRONOUS 2) true.

(** Three samples of 24 bits, the first one -1, in packets of two. *)
Lemma samples_roundtrip_witness :
  let ps := [[255; 255; 255; 1; 2; 3]; [0; 0; 128]] in
  wp_ False (@play _ (taker 1 6) (Has_refl _) W24 [-1; 0x030201; 0x800000]) (fun oks s1 =>
    oks = [true; true; true] /\
    wp_ False (@record_samples _ (sender 2 ps) (Has_refl _) W24 true 3) (fun r _ =>
      r = [Some 0xFFFFFF; Some 0x010302; Some 0x008000]) (St [] audio_device)) (St [] audio_device).
Proof.
  intros ps. set (xs := [-1; 0x030201; 0x800000]).
  refine (wp_conseq False _ _ _ _ _ (@samples_roundtrip _ _ (taker 1 6) (sender 2 ps) (Has_refl _) (Has_refl _)
    6 2 W24 true xs (St [] audio_device) _ _ _ _ _ _ _ _ _) (fun x => x) _).
  - done.
  - apply sender_configured.
  - apply (taker_bulk 1 6). lia.
  - apply taker_counted.
  - lia.
  - done.
  - done.
  - done.
  - done.
  - intros oks s1 (-> & _ & Hread). split; [done|].
    refine (wp_conseq False _ _ _ _ _ (Hread ps [] (St [] audio_device) _ _ _ _ _ _ _) (fun x => x) _).
    + apply (sender_bulk 2 ps). apply (bool_decide_unpack _). vm_compute. exact I.
    + apply sender_counted.
    + repeat constructor; done || (cbn; lia).
    + repeat constructor; [by exists 2%nat|by exists 1%nat].
    + done.
    + done.
    + rewrite app_nil_r. apply (queued_next 2 ps 0); [by repeat constructor|reflexivity|lia].
    + intros r t' [-> _]. vm_compute. reflexivity.
Defined.
