(* ===== verification/Descriptors.v ===== *)
(** * AvalonBTC/Descriptors.[ch], StdDescriptors.h, CDCClassCommon.h

    The descriptors of the miner: the packed structs as records, their bytes
    as they lie in flash (little-endian), the constants of Descriptors.c, and
    the callback that hands them out. *)

From Stdlib Require Import Ascii String.
From S2P Require Import Prelude Machine Endpoint EndpointStream Cdc UsbController StdReq.

Definition DTYPE_Interface : Z := 0x04.
Definition DTYPE_Endpoint : Z := 0x05.
Definition DTYPE_CSInterface : Z := 0x24.
Definition USB_CONFIG_ATTR_RESERVED : Z := 0x80.
Definition USB_CONFIG_ATTR_SELFPOWERED : Z := 0x40.
Definition USB_CONFIG_POWER_MA (mA : Z) : Z := Z.shiftr mA 1.
Definition ENDPOINT_ATTR_NO_SYNC : Z := 0.
Definition ENDPOINT_USAGE_DATA : Z := 0.
Definition LANGUAGE_ID_ENG : Z := 0x0409.
Definition FIXED_CONTROL_ENDPOINT_SIZE : Z := 8.
Definition CDC_CSCP_CDCClass : Z := 0x02.
Definition CDC_CSCP_NoSpecificSubclass : Z := 0x00.
Definition CDC_CSCP_ACMSubclass : Z := 0x02.
Definition CDC_CSCP_ATCommandProtocol : Z := 0x01.
Definition CDC_CSCP_NoSpecificProtocol : Z := 0x00.
Definition CDC_CSCP_CDCDataClass : Z := 0x0A.
Definition CDC_CSCP_NoDataSubclass : Z := 0x00.
Definition CDC_CSCP_NoDataProtocol : Z := 0x00.
Definition CDC_DSUBTYPE_CSInterface_Header : Z := 0x00.
Definition CDC_DSUBTYPE_CSInterface_ACM : Z := 0x02.
Definition CDC_DSUBTYPE_CSInterface_Union : Z := 0x06.
Definition CDC_NOTIFICATION_EPADDR : Z := Z.lor ENDPOINT_DIR_IN 2.
Definition CDC_TX_EPADDR : Z := Z.lor ENDPOINT_DIR_IN 3.
Definition CDC_RX_EPADDR : Z := Z.lor ENDPOINT_DIR_OUT 4.
Definition CDC_NOTIFICATION_EPSIZE : Z := 8.
Definition CDC_TXRX_EPSIZE : Z := 16.

(** [VERSION_BCD(x)], with [x] in hundredths. *)
Definition VERSION_BCD (x : Z) : Z :=
  Z.lor (Z.lor (Z.shiftl (x / 1000) 12) (Z.shiftl (x / 100 mod 10) 8))
        (Z.lor (Z.shiftl (x / 10 mod 10) 4) (x mod 10)).

(** ** The structs *)

Record USB_Descriptor_Header_t := mkHeader { hdr_Size : Z; hdr_Type : Z }.

Record USB_Descriptor_Device_t := mkDevice {
  dd_Header : USB_Descriptor_Header_t;
  dd_USBSpecification : Z;
  dd_Class : Z;
  dd_SubClass : Z;
  dd_Protocol : Z;
  dd_Endpoint0Size : Z;
  dd_VendorID : Z;
  dd_ProductID : Z;
  dd_ReleaseNumber : Z;
  dd_ManufacturerStrIndex : Z;
  dd_ProductStrIndex : Z;
  dd_SerialNumStrIndex : Z;
  dd_NumberOfConfigurations : Z;
}.

Record USB_Descriptor_Configuration_Header_t := mkConfigHeader {
  ch_Header : USB_Descriptor_Header_t;
  ch_TotalConfigurationSize : Z;
  ch_TotalInterfaces : Z;
  ch_ConfigurationNumber : Z;
  ch_ConfigurationStrIndex : Z;
  ch_ConfigAttributes : Z;
  ch_MaxPowerConsumption : Z;
}.

Record USB_Descriptor_Interface_t := mkInterface {
  if_Header : USB_Descriptor_Header_t;
  if_InterfaceNumber : Z;
  if_AlternateSetting : Z;
  if_TotalEndpoints : Z;
  if_Class : Z;
  if_SubClass : Z;
  if_Protocol : Z;
  if_InterfaceStrIndex : Z;
}.

Record USB_Descriptor_Endpoint_t := mkEndpoint {
  ed_Header : USB_Descriptor_Header_t;
  ed_EndpointAddress : Z;
  ed_Attributes : Z;
  ed_EndpointSize : Z;
  ed_PollingIntervalMS : Z;
}.

Record USB_CDC_Descriptor_FunctionalHeader_t := mkFunctionalHeader {
  fh_Header : USB_Descriptor_Header_t;
  fh_Subtype : Z;
  fh_CDCSpecification : Z;
}.

Record USB_CDC_Descriptor_FunctionalACM_t := mkFunctionalACM {
  fa_Header : USB_Descriptor_Header_t;
  fa_Subtype : Z;
  fa_Capabilities : Z;
}.

Record USB_CDC_Descriptor_FunctionalUnion_t := mkFunctionalUnion {
  fu_Header : USB_Descriptor_Header_t;
  fu_Subtype : Z;
  fu_MasterInterfaceNumber : Z;
  fu_SlaveInterfaceNumber : Z;
}.

(** The flexible array is initialised with the literal, NUL included. *)
Record USB_Descriptor_String_t := mkString {
  sd_Header : USB_Descriptor_Header_t;
  sd_UnicodeString : list Z;
}.

Record USB_Descriptor_Configuration_t := mkConfiguration {
  cd_Config : USB_Descriptor_Configuration_Header_t;
  CDC_CCI_Interface : USB_Descriptor_Interface_t;
  CDC_Functional_Header : USB_CDC_Descriptor_FunctionalHeader_t;
  CDC_Functional_ACM : USB_CDC_Descriptor_FunctionalACM_t;
  CDC_Functional_Union : USB_CDC_Descriptor_FunctionalUnion_t;
  CDC_NotificationEndpoint : USB_Descriptor_Endpoint_t;
  CDC_DCI_Interface : USB_Descriptor_Interface_t;
  CDC_DataOutEndpoint : USB_Descriptor_Endpoint_t;
  CDC_DataInEndpoint : USB_Descriptor_Endpoint_t;
}.

(** ** Their bytes *)

Definition header_bytes (h : USB_Descriptor_Header_t) : list Z := [hdr_Size h; hdr_Type h].

Definition device_bytes (d : USB_Descriptor_Device_t) : list Z :=
  header_bytes (dd_Header d) ++ le_bytes 2 (dd_USBSpecification d)
  ++ [dd_Class d; dd_SubClass d; dd_Protocol d; dd_Endpoint0Size d]
  ++ le_bytes 2 (dd_VendorID d) ++ le_bytes 2 (dd_ProductID d) ++ le_bytes 2 (dd_ReleaseNumber d)
  ++ [dd_ManufacturerStrIndex d; dd_ProductStrIndex d; dd_SerialNumStrIndex d;
      dd_NumberOfConfigurations d].

Definition config_header_bytes (c : USB_Descriptor_Configuration_Header_t) : list Z :=
  header_bytes (ch_Header c) ++ le_bytes 2 (ch_TotalConfigurationSize c)
  ++ [ch_TotalInterfaces c; ch_ConfigurationNumber c; ch_ConfigurationStrIndex c;
      ch_ConfigAttributes c; ch_MaxPowerConsumption c].

Definition interface_bytes (i : USB_Descriptor_Interface_t) : list Z :=
  header_bytes (if_Header i)
  ++ [if_InterfaceNumber i; if_AlternateSetting i; if_TotalEndpoints i; if_Class i;
      if_SubClass i; if_Protocol i; if_InterfaceStrIndex i].

Definition endpoint_bytes (e : USB_Descriptor_Endpoint_t) : list Z :=
  header_bytes (ed_Header e) ++ [ed_EndpointAddress e; ed_Attributes e]
  ++ le_bytes 2 (ed_EndpointSize e) ++ [ed_PollingIntervalMS e].

Definition functional_header_bytes (f : USB_CDC_Descriptor_FunctionalHeader_t) : list Z :=
  header_bytes (fh_Header f) ++ [fh_Subtype f] ++ le_bytes 2 (fh_CDCSpecification f).
Definition functional_acm_bytes (f : USB_CDC_Descriptor_FunctionalACM_t) : list Z :=
  header_bytes (fa_Header f) ++ [fa_Subtype f; fa_Capabilities f].
Definition functional_union_bytes (f : USB_CDC_Descriptor_FunctionalUnion_t) : list Z :=
  header_bytes (fu_Header f)
  ++ [fu_Subtype f; fu_MasterInterfaceNumber f; fu_SlaveInterfaceNumber f].

Definition string_bytes (s : USB_Descriptor_String_t) : list Z :=
  header_bytes (sd_Header s) ++ concat (map (le_bytes 2) (sd_UnicodeString s)).

(** The descriptors of a configuration, in order. *)
Definition configuration_parts (c : USB_Descriptor_Configuration_t) : list (list Z) :=
  [ config_header_bytes (cd_Config c);
    interface_bytes (CDC_CCI_Interface c);
    functional_header_bytes (CDC_Functional_Header c);
    functional_acm_bytes (CDC_Functional_ACM c);
    functional_union_bytes (CDC_Functional_Union c);
    endpoint_bytes (CDC_NotificationEndpoint c);
    interface_bytes (CDC_DCI_Interface c);
    endpoint_bytes (CDC_DataOutEndpoint c);
    endpoint_bytes (CDC_DataInEndpoint c) ].

Definition configuration_bytes (c : USB_Descriptor_Configuration_t) : list Z :=
  concat (configuration_parts c).

(** [sizeof] the packed structs. *)
Definition sizeof_Device : Z := 18.
Definition sizeof_Configuration_Header : Z := 9.
Definition sizeof_Interface : Z := 9.
Definition sizeof_Endpoint : Z := 7.
Definition sizeof_FunctionalHeader : Z := 5.
Definition sizeof_FunctionalACM : Z := 4.
Definition sizeof_FunctionalUnion : Z := 5.
Definition sizeof_Configuration : Z :=
  sizeof_Configuration_Header + 2 * sizeof_Interface + sizeof_FunctionalHeader
  + sizeof_FunctionalACM + sizeof_FunctionalUnion + 3 * sizeof_Endpoint.

(** ** Descriptors.c *)

Definition DeviceDescriptor : USB_Descriptor_Device_t := {|
  dd_Header := mkHeader sizeof_Device DTYPE_Device;
  dd_USBSpecification := VERSION_BCD 110;
  dd_Class := CDC_CSCP_CDCClass;
  dd_SubClass := CDC_CSCP_NoSpecificSubclass;
  dd_Protocol := CDC_CSCP_NoSpecificProtocol;
  dd_Endpoint0Size := FIXED_CONTROL_ENDPOINT_SIZE;
  dd_VendorID := 0x03EB;
  dd_ProductID := 0x204B;
  dd_ReleaseNumber := VERSION_BCD 1;
  dd_ManufacturerStrIndex := 0x01;
  dd_ProductStrIndex := 0x02;
  dd_SerialNumStrIndex := USE_INTERNAL_SERIAL;
  dd_NumberOfConfigurations := FIXED_NUM_CONFIGURATIONS;
|}.

Definition ConfigurationDescriptor : USB_Descriptor_Configuration_t := {|
  cd_Config := {|
    ch_Header := mkHeader sizeof_Configuration_Header DTYPE_Configuration;
    ch_TotalConfigurationSize := sizeof_Configuration;
    ch_TotalInterfaces := 2;
    ch_ConfigurationNumber := 1;
    ch_ConfigurationStrIndex := NO_DESCRIPTOR;
    ch_ConfigAttributes := Z.lor USB_CONFIG_ATTR_RESERVED USB_CONFIG_ATTR_SELFPOWERED;
    ch_MaxPowerConsumption := USB_CONFIG_POWER_MA 100;
  |};
  CDC_CCI_Interface := {|
    if_Header := mkHeader sizeof_Interface DTYPE_Interface;
    if_InterfaceNumber := 0;
    if_AlternateSetting := 0;
    if_TotalEndpoints := 1;
    if_Class := CDC_CSCP_CDCClass;
    if_SubClass := CDC_CSCP_ACMSubclass;
    if_Protocol := CDC_CSCP_ATCommandProtocol;
    if_InterfaceStrIndex := NO_DESCRIPTOR;
  |};
  CDC_Functional_Header := {|
    fh_Header := mkHeader sizeof_FunctionalHeader DTYPE_CSInterface;
    fh_Subtype := CDC_DSUBTYPE_CSInterface_Header;
    fh_CDCSpecification := VERSION_BCD 110;
  |};
  CDC_Functional_ACM := {|
    fa_Header := mkHeader sizeof_FunctionalACM DTYPE_CSInterface;
    fa_Subtype := CDC_DSUBTYPE_CSInterface_ACM;
    fa_Capabilities := 0x06;
  |};
  CDC_Functional_Union := {|
    fu_Header := mkHeader sizeof_FunctionalUnion DTYPE_CSInterface;
    fu_Subtype := CDC_DSUBTYPE_CSInterface_Union;
    fu_MasterInterfaceNumber := 0;
    fu_SlaveInterfaceNumber := 1;
  |};
  CDC_NotificationEndpoint := {|
    ed_Header := mkHeader sizeof_Endpoint DTYPE_Endpoint;
    ed_EndpointAddress := CDC_NOTIFICATION_EPADDR;
    ed_Attributes := Z.lor (Z.lor EP_TYPE_INTERRUPT ENDPOINT_ATTR_NO_SYNC) ENDPOINT_USAGE_DATA;
    ed_EndpointSize := CDC_NOTIFICATION_EPSIZE;
    ed_PollingIntervalMS := 0xFF;
  |};
  CDC_DCI_Interface := {|
    if_Header := mkHeader sizeof_Interface DTYPE_Interface;
    if_InterfaceNumber := 1;
    if_AlternateSetting := 0;
    if_TotalEndpoints := 2;
    if_Class := CDC_CSCP_CDCDataClass;
    if_SubClass := CDC_CSCP_NoDataSubclass;
    if_Protocol := CDC_CSCP_NoDataProtocol;
    if_InterfaceStrIndex := NO_DESCRIPTOR;
  |};
  CDC_DataOutEndpoint := {|
    ed_Header := mkHeader sizeof_Endpoint DTYPE_Endpoint;
    ed_EndpointAddress := CDC_RX_EPADDR;
    ed_Attributes := Z.lor (Z.lor EP_TYPE_BULK ENDPOINT_ATTR_NO_SYNC) ENDPOINT_USAGE_DATA;
    ed_EndpointSize := CDC_TXRX_EPSIZE;
    ed_PollingIntervalMS := 0x05;
  |};
  CDC_DataInEndpoint := {|
    ed_Header := mkHeader sizeof_Endpoint DTYPE_Endpoint;
    ed_EndpointAddress := CDC_TX_EPADDR;
    ed_Attributes := Z.lor (Z.lor EP_TYPE_BULK ENDPOINT_ATTR_NO_SYNC) ENDPOINT_USAGE_DATA;
    ed_EndpointSize := CDC_TXRX_EPSIZE;
    ed_PollingIntervalMS := 0x05;
  |};
|}.

(** The characters of a literal. *)
Definition chars (s : String.string) : list Z :=
  map (fun c => Z.of_N (Ascii.N_of_ascii c)) (String.list_ascii_of_string s).

Definition LanguageString : USB_Descriptor_String_t :=
  mkString (mkHeader (USB_STRING_LEN 1) DTYPE_String) [LANGUAGE_ID_ENG].
Definition ManufacturerString : USB_Descriptor_String_t :=
  mkString (mkHeader (USB_STRING_LEN 11) DTYPE_String) (chars "Dean Camera"%string ++ [0]).
Definition ProductString : USB_Descriptor_String_t :=
  mkString (mkHeader (USB_STRING_LEN 23) DTYPE_String) (chars "LUFA USB-RS232 Adapter"%string ++ [0]).

(** The size and the memory at [*DescriptorAddress]. *)
Definition GetDescriptor (wValue wIndex : Z) : Z * list Z :=
  let DescriptorType := u8 (Z.shiftr wValue 8) in
  let DescriptorNumber := u8 (Z.land wValue 0xFF) in
  if DescriptorType =? DTYPE_Device then
    (sizeof_Device, device_bytes DeviceDescriptor)
  else if DescriptorType =? DTYPE_Configuration then
    (sizeof_Configuration, configuration_bytes ConfigurationDescriptor)
  else if DescriptorType =? DTYPE_String then
    if DescriptorNumber =? 0x00 then
      (hdr_Size (sd_Header LanguageString), string_bytes LanguageString)
    else if DescriptorNumber =? 0x01 then
      (hdr_Size (sd_Header ManufacturerString), string_bytes ManufacturerString)
    else if DescriptorNumber =? 0x02 then
      (hdr_Size (sd_Header ProductString), string_bytes ProductString)
    else (NO_DESCRIPTOR, [])
  else (NO_DESCRIPTOR, []).

(** ** What a host makes of them *)

(** Cut a configuration into descriptors by their length bytes. *)
Fixpoint walk (n : nat) (l : list Z) : option (list (list Z)) :=
  match n, l with
  | _, [] => Some []
  | O, _ => None
  | S n', b :: _ =>
      if (b <? 2) || (zlen l <? b) then None
      else match walk n' (drop (Z.to_nat b) l) with
           | Some ds => Some (take (Z.to_nat b) l :: ds)
           | None => None
           end
  end.

Definition desc_type (d : list Z) : Z := nth 1 d 0.
Definition of_type (t : Z) (ds : list (list Z)) : list (list Z) :=
  filter (fun d => desc_type d = t) ds.

(** The endpoints that belong to the first interface of [ds]. *)
Fixpoint endpoints_of (ds : list (list Z)) : Z :=
  match ds with
  | [] => 0
  | d :: ds' =>
      if desc_type d =? DTYPE_Interface then 0
      else (if desc_type d =? DTYPE_Endpoint then 1 else 0) + endpoints_of ds'
  end.

(** Every interface announces as many endpoints as follow it. *)
Fixpoint endpoint_counts (ds : list (list Z)) : bool :=
  match ds with
  | [] => true
  | d :: ds' =>
      (negb (desc_type d =? DTYPE_Interface) || (nth 4 d 0 =? endpoints_of ds'))
      && endpoint_counts ds'
  end.

(** The checks of chapter 9 of the USB specification on a configuration. *)
Definition config_valid (l : list Z) : bool :=
  match walk (length l) l with
  | None => false
  | Some ds =>
      let ifs := of_type DTYPE_Interface ds in
      let eps := of_type DTYPE_Endpoint ds in
      match ds with
      | [] => false
      | c :: _ =>
          (desc_type c =? DTYPE_Configuration) && (zlen c =? 9)
          && (le_value [nth 2 c 0; nth 3 c 0] =? zlen l)
          && (nth 4 c 0 =? zlen ifs) && bool_decide (NoDup (map (fun d => nth 2 d 0) ifs))
          && negb (nth 5 c 0 =? 0) && endpoint_counts ds
          && bool_decide (NoDup (map (fun d => nth 2 d 0) eps))
          && forallb (fun d => (zlen d =? 7)
               && negb (Z.land (nth 2 d 0) ENDPOINT_EPNUM_MASK =? 0)
               && (Z.land (nth 2 d 0) ENDPOINT_EPNUM_MASK <? ENDPOINT_TOTAL_ENDPOINTS)) eps
      end
  end.

(** What [GetDescriptor] promises about a descriptor it has. *)
Record descriptor_ok (t : Z) (size : Z) (mem : list Z) : Prop := {
  do_size : size <= zlen mem;
  do_range : 2 <= size <= 255;
  do_bytes : Forall is_u8 mem;
  do_type : desc_type mem = t;
  do_length : if t =? DTYPE_Configuration
              then le_value [nth 2 mem 0; nth 3 mem 0] = size else nth 0 mem 0 = size;
}.

Definition descriptor_ok_b (t size : Z) (mem : list Z) : bool :=
  (size <=? zlen mem) && (2 <=? size) && (size <=? 255) && bool_decide (Forall is_u8 mem)
  && (desc_type mem =? t)
  && (if t =? DTYPE_Configuration
      then le_value [nth 2 mem 0; nth 3 mem 0] =? size else nth 0 mem 0 =? size).

Lemma descriptor_ok_b_spec t size mem : descriptor_ok_b t size mem = true -> descriptor_ok t size mem.
Proof.
  unfold descriptor_ok_b. rewrite !andb_true_iff, !Z.eqb_eq, !Z.leb_le, bool_decide_eq_true.
  intros [[[[[H1 H2] H3] H4] H5] H6]. split; auto. by destruct (t =? _); apply Z.eqb_eq.
Qed.

Lemma GetDescriptor_spec wValue wIndex :
  let r := GetDescriptor wValue wIndex in
  let t := u8 (Z.shiftr wValue 8) in
  (r = (NO_DESCRIPTOR, []) /\ (t = DTYPE_Device \/ t = DTYPE_Configuration -> False)
   /\ (t = DTYPE_String -> 3 <= u8 (Z.land wValue 0xFF)))
  \/ descriptor_ok t (fst r) (snd r).
Proof.
  cbv zeta. unfold GetDescriptor. set (t := u8 (Z.shiftr wValue 8)).
  set (n := u8 (Z.land wValue 0xFF)).
  pose proof (u8_range (Z.land wValue 0xFF)) as Hn. fold n in Hn. unfold is_u8 in Hn. clearbody t n.
  destruct (Z.eqb_spec t DTYPE_Device) as [->|].
  { right. apply descriptor_ok_b_spec. vm_compute. done. }
  destruct (Z.eqb_spec t DTYPE_Configuration) as [->|].
  { right. apply descriptor_ok_b_spec. vm_compute. done. }
  destruct (Z.eqb_spec t DTYPE_String) as [->|].
  2:{ left. split; [done|]. split; [by intros []|done]. }
  destruct (Z.eqb_spec n 0) as [->|]; [right; apply descriptor_ok_b_spec; vm_compute; done|].
  destruct (Z.eqb_spec n 1) as [->|]; [right; apply descriptor_ok_b_spec; vm_compute; done|].
  destruct (Z.eqb_spec n 2) as [->|]; [right; apply descriptor_ok_b_spec; vm_compute; done|].
  left. split; [done|]. split; [by intros []|lia].
Qed.

(** The characters a string descriptor of the device carries. *)
Definition string_chars (r : Z * list Z) : list Z :=
  let l := drop 2 (take (Z.to_nat (fst r)) (snd r)) in
  map (fun i => le_value [nth (2 * i) l 0; nth (2 * i + 1) l 0]) (seq 0 (Nat.div2 (length l))).

(** The strings a host reads: the manufacturer's name exactly, the product
    name with a NUL character too many. *)
Lemma string_descriptors_chars wIndex :
  string_chars (GetDescriptor 0x301 wIndex) = chars "Dean Camera"%string
  /\ string_chars (GetDescriptor 0x302 wIndex) = chars "LUFA USB-RS232 Adapter"%string ++ [0].
Proof. split; vm_compute; reflexivity. Qed.

(** Every descriptor the callback returns is well-formed, and exactly the
    ones that exist are returned: for any [wValue] and [wIndex] the result is
    either "none" (never for a device or configuration request, for a string
    only above index 2) or a size between 2 and 255 that the memory behind it
    covers, of bytes, with the requested type in its second byte, and the size
    in the place its type keeps it (total length of a configuration, first
    byte of the others). *)
Theorem GetDescriptor_wf wValue wIndex :
  let r := GetDescriptor wValue wIndex in
  let t := u8 (Z.shiftr wValue 8) in
  (r = (NO_DESCRIPTOR, []) /\ (t = DTYPE_Device \/ t = DTYPE_Configuration -> False)
   /\ (t = DTYPE_String -> 3 <= u8 (Z.land wValue 0xFF)))
  \/ descriptor_ok t (fst r) (snd r).
Proof. exact (GetDescriptor_spec wValue wIndex). Qed.
