(* ===== verification/ConfigDescriptors.v ===== *)
(** * LUFA/Drivers/USB/Core/ConfigDescriptors.[ch]

    Walking a configuration descriptor in memory.  [mem] is the byte at each
    address; a search takes and returns the bytes that remain and the current
    location.  Fuel bounds the number of descriptors visited. *)

From S2P Require Import Prelude Machine.

Definition DESCRIPTOR_SEARCH_Found : Z := 0.
Definition DESCRIPTOR_SEARCH_Fail : Z := 1.
Definition DESCRIPTOR_SEARCH_NotFound : Z := 2.
Definition DESCRIPTOR_SEARCH_COMP_EndOfDescriptor : Z := 2.

Section search.
Context (mem : Z -> Z).

Definition DESCRIPTOR_SIZE (p : Z) : Z := mem p.
Definition DESCRIPTOR_TYPE (p : Z) : Z := mem (p + 1).

Definition USB_GetNextDescriptor (x : Z * Z) : Z * Z :=
  let '(BytesRem, CurrConfigLoc) := x in
  let CurrDescriptorSize := DESCRIPTOR_SIZE CurrConfigLoc in
  let CurrDescriptorSize :=
    if BytesRem <? CurrDescriptorSize then BytesRem else CurrDescriptorSize in
  (u16 (BytesRem - CurrDescriptorSize), CurrConfigLoc + CurrDescriptorSize).

Fixpoint USB_GetNextDescriptorOfType (fuel : nat) (Type_ : Z) (x : Z * Z) : option (Z * Z) :=
  match fuel with
  | O => None
  | S n =>
      if fst x =? 0 then Some x else
      let x' := USB_GetNextDescriptor x in
      if DESCRIPTOR_TYPE (snd x') =? Type_ then Some x'
      else USB_GetNextDescriptorOfType n Type_ x'
  end.

Fixpoint USB_GetNextDescriptorOfTypeBefore (fuel : nat) (Type_ BeforeType : Z) (x : Z * Z)
    : option (Z * Z) :=
  match fuel with
  | O => None
  | S n =>
      if fst x =? 0 then Some x else
      let x' := USB_GetNextDescriptor x in
      if DESCRIPTOR_TYPE (snd x') =? Type_ then Some x'
      else if DESCRIPTOR_TYPE (snd x') =? BeforeType then Some (0, snd x')
      else USB_GetNextDescriptorOfTypeBefore n Type_ BeforeType x'
  end.

Definition USB_GetNextDescriptorOfTypeAfter (fuel : nat) (Type_ AfterType : Z) (x : Z * Z)
    : option (Z * Z) :=
  match USB_GetNextDescriptorOfType fuel AfterType x with
  | None => None
  | Some x' => if fst x' =? 0 then Some x' else USB_GetNextDescriptorOfType fuel Type_ x'
  end.

(** The result is the error code, with the remaining bytes and the location. *)
Fixpoint USB_GetNextDescriptorComp (fuel : nat) (ComparatorRoutine : Z -> Z) (x : Z * Z)
    : option (Z * (Z * Z)) :=
  match fuel with
  | O => None
  | S n =>
      if fst x =? 0 then Some (DESCRIPTOR_SEARCH_COMP_EndOfDescriptor, x) else
      let x' := USB_GetNextDescriptor x in
      let ErrorCode := ComparatorRoutine (snd x') in
      if negb (ErrorCode =? DESCRIPTOR_SEARCH_NotFound) then
        Some (ErrorCode, if ErrorCode =? DESCRIPTOR_SEARCH_Fail then x else x')
      else USB_GetNextDescriptorComp n ComparatorRoutine x'
  end.

(** ** Searches on well-formed memory *)

(** The descriptors [ds] lie at [p] one after the other, each with its length
    in its first byte. *)
Fixpoint laid_out (p : Z) (ds : list (Z * Z)) : Prop :=
  match ds with
  | [] => True
  | (z, t) :: ds' => DESCRIPTOR_SIZE p = z /\ DESCRIPTOR_TYPE p = t /\ 2 <= z <= 255
      /\ laid_out (p + z) ds'
  end.

Fixpoint total (ds : list (Z * Z)) : Z :=
  match ds with [] => 0 | d :: ds' => fst d + total ds' end.

Lemma total_nonneg p ds : laid_out p ds -> 0 <= total ds.
Proof.
  revert p. induction ds as [|[z t] ds IH]; intros p; cbn; [lia|].
  intros (_ & _ & Hz & Hl). specialize (IH _ Hl). lia.
Qed.

Lemma next_laid_out p z t ds :
  laid_out p ((z, t) :: ds) -> total ((z, t) :: ds) < 2 ^ 16 ->
  USB_GetNextDescriptor (total ((z, t) :: ds), p) = (total ds, p + z).
Proof.
  intros (Hs & _ & Hz & Hl) Hn. pose proof (total_nonneg _ _ Hl). cbn [total fst] in *.
  unfold USB_GetNextDescriptor. rewrite Hs.
  rewrite (proj2 (Z.ltb_ge _ _)) by lia. rewrite u16_id by (unfold is_u16; lia).
  f_equal. lia.
Qed.

(** What a search for [t] after the current descriptor finds. *)
Fixpoint first_of (t p : Z) (ds : list (Z * Z)) : Z * Z :=
  match ds with
  | [] => (0, p)
  | (z, t') :: ds' => if t' =? t then (total ds, p) else first_of t (p + z) ds'
  end.

Lemma search_spec fuel t p z t0 ds :
  laid_out p ((z, t0) :: ds) -> total ((z, t0) :: ds) < 2 ^ 16 ->
  (length ds + 2 <= fuel)%nat ->
  USB_GetNextDescriptorOfType fuel t (total ((z, t0) :: ds), p) = Some (first_of t (p + z) ds).
Proof.
  revert fuel p z t0. induction ds as [|[z1 t1] ds IH]; intros fuel p z t0 Hl Hn Hf.
  - destruct fuel as [|[|n]]; [cbn in Hf; lia..|]. cbn [USB_GetNextDescriptorOfType].
    rewrite next_laid_out by done. destruct Hl as (_ & _ & Hz & _). cbn [total fst].
    rewrite (proj2 (Z.eqb_neq _ _)) by lia. cbn [fst snd first_of].
    by destruct (DESCRIPTOR_TYPE _ =? t).
  - destruct fuel as [|n]; [cbn in Hf; lia|]. cbn [USB_GetNextDescriptorOfType fst].
    rewrite next_laid_out by done. pose proof Hl as (_ & _ & Hz & Hl'). cbn [snd].
    pose proof (total_nonneg _ _ Hl'). cbn [total fst] in Hn.
    rewrite (proj2 (Z.eqb_neq _ _)) by (cbn [total fst] in *; lia).
    pose proof Hl' as (_ & -> & Hz1 & _). cbn [first_of].
    destruct (t1 =? t); [done|]. apply IH; [done|cbn [total fst] in *; lia|cbn in Hf; lia].
Qed.
End search.

(** Searching a configuration for a descriptor type terminates with the
    right answer: in memory that holds well-formed descriptors one after the
    other, [USB_GetNextDescriptorOfType] returns within one step per
    descriptor, at the first descriptor of the type strictly after the current
    one with the exact number of bytes from there to the end, or with no bytes
    left when there is none. *)
Theorem next_of_type_finds mem fuel t p z t0 ds :
  laid_out mem p ((z, t0) :: ds) -> total ((z, t0) :: ds) < 2 ^ 16 ->
  (length ds + 2 <= fuel)%nat ->
  USB_GetNextDescriptorOfType mem fuel t (total ((z, t0) :: ds), p) = Some (first_of t (p + z) ds).
Proof. exact (search_spec mem fuel t p z t0 ds). Qed.

(** A configuration header, an interface and two endpoints. *)
Definition witness_mem (p : Z) : Z :=
  nth (Z.to_nat p) ([9; 2; 32; 0; 1; 1; 0; 0; 50] ++ [9; 4; 0; 0; 2; 10; 0; 0; 0]
    ++ [7; 5; 4; 2; 16; 0; 5] ++ [7; 5; 131; 2; 16; 0; 5]) 0.

Lemma next_of_type_finds_witness :
  USB_GetNextDescriptorOfType witness_mem 5 5 (32, 0) = Some (14, 18).
Proof.
  refine (next_of_type_finds witness_mem 5 5 0 9 2 [(9, 4); (7, 5); (7, 5)] _ _ _).
  - vm_compute. repeat split; discriminate.
  - vm_compute. reflexivity.
  - cbn. lia.
Defined.

(** A descriptor of length 0 (with bytes still to go, and not itself of
    the type sought) makes the search diverge: it returns with no amount of
    fuel, so a configuration received from a device can hang the caller. *)
Theorem next_of_type_zero_diverges mem p rem t fuel :
  0 < rem < 2 ^ 16 -> DESCRIPTOR_SIZE mem p = 0 -> DESCRIPTOR_TYPE mem p <> t ->
  USB_GetNextDescriptorOfType mem fuel t (rem, p) = None.
Proof.
  intros Hr Hz Ht. induction fuel as [|n IH]; [done|]. cbn [USB_GetNextDescriptorOfType fst].
  rewrite (proj2 (Z.eqb_neq rem 0)) by lia.
  assert (USB_GetNextDescriptor mem (rem, p) = (rem, p)) as ->.
  { unfold USB_GetNextDescriptor. rewrite Hz, (proj2 (Z.ltb_ge _ _)) by lia.
    rewrite Z.sub_0_r, Z.add_0_r, u16_id by (unfold is_u16; lia). done. }
  cbn [snd]. by rewrite (proj2 (Z.eqb_neq _ _) Ht).
Qed.

Lemma next_of_type_zero_diverges_witness :
  USB_GetNextDescriptorOfType (fun _ => 0) 1000 5 (32, 0) = None.
Proof. apply next_of_type_zero_diverges; [lia|reflexivity|discriminate]. Defined.
