(* ===== verification/UsbInterrupt.v ===== *)
(** * LUFA/Drivers/USB/Core/AVR8/USBInterrupt_AVR8.c: the general USB interrupt

    Start of frame, suspend, resume and bus reset of a device-only build for
    the ATmega32U2 without [NO_LIMITED_CONTROLLER_CONNECT]: a chip without
    VBUS sensing, so suspend and resume stand for disconnection and
    connection.  The application's events are an interface, [UsbEvents], and
    what the interrupt relies on of them is [quiet_events]. *)

From S2P Require Import Prelude Machine Endpoint EndpointStream Cdc UsbController StdReq.

Class UsbEvents (G : Type) := {
  EVENT_USB_Device_StartOfFrame : M G unit;
  EVENT_USB_Device_Connect : M G unit;
  EVENT_USB_Device_Disconnect : M G unit;
  EVENT_USB_Device_Reset : M G unit;
}.

(** Events.c: what an event the application does not handle runs. *)
Definition USB_Event_Stub {G} : M G unit := mret tt.

Section isr.
Context {G : Type} `{Hardware} `{Has UsbState G} `{UsbEvents G}.

(** [if (USB_INT_HasOccurred(i) && USB_INT_IsEnabled(i)) { body }] *)
Definition on_interrupt (i : USB_Interrupts_t) (body : M G unit) : M G unit :=
  o ← USB_INT_HasOccurred i;
  e ← (if (o : bool) then USB_INT_IsEnabled i else mret false);
  when e body.

Definition isr_start_of_frame : M G unit :=
  USB_INT_Clear USB_INT_SOFI ;;
  EVENT_USB_Device_StartOfFrame.

Definition isr_suspend : M G unit :=
  USB_INT_Disable USB_INT_SUSPI ;;
  USB_INT_Enable USB_INT_WAKEUPI ;;
  USB_CLK_Freeze ;;
  when (negb (anybit USB_Options USB_OPT_MANUAL_PLL)) USB_PLL_Off ;;
  set_DeviceState DEVICE_STATE_Unattached ;;
  EVENT_USB_Device_Disconnect.

Definition isr_wakeup (fuel : nat) : M G unit :=
  when (negb (anybit USB_Options USB_OPT_MANUAL_PLL)) (pll_start fuel) ;;
  USB_CLK_Unfreeze ;;
  USB_INT_Clear USB_INT_WAKEUPI ;;
  USB_INT_Disable USB_INT_WAKEUPI ;;
  USB_INT_Enable USB_INT_SUSPI ;;
  state_by_configuration ;;
  EVENT_USB_Device_Connect.

Definition isr_reset (fuel : nat) : M G unit :=
  USB_INT_Clear USB_INT_EORSTI ;;
  set_DeviceState DEVICE_STATE_Default ;;
  modc (set_ConfigurationNumber 0) ;;
  USB_INT_Clear USB_INT_SUSPI ;;
  USB_INT_Disable USB_INT_SUSPI ;;
  USB_INT_Enable USB_INT_WAKEUPI ;;
  Endpoint_ConfigureEndpoint fuel ENDPOINT_CONTROLEP EP_TYPE_CONTROL
    USB_Device_ControlEndpointSize 1 ;;
  USB_INT_Enable USB_INT_RXSTPI ;;
  EVENT_USB_Device_Reset.

Definition USB_GEN_vect (fuel : nat) : M G unit :=
  on_interrupt USB_INT_SOFI isr_start_of_frame ;;
  on_interrupt USB_INT_SUSPI isr_suspend ;;
  on_interrupt USB_INT_WAKEUPI (isr_wakeup fuel) ;;
  on_interrupt USB_INT_EORSTI (isr_reset fuel).
End isr.

(** ** The bus stays under observation *)

(** The registers that decide what the device hears of the bus. *)
Definition bus_regs (r : reg) : bool :=
  match r with UDIEN | UDCON | USBCON | REGCR => true | _ => false end.

(** The device can always hear the bus: attached, powered and enabled,
    listening for reset, and for exactly one of suspend and resume; the clock
    is only stopped while it listens for resume. *)
Record listening `{Hardware} (h : history) : Prop := {
  li_reset : Z.testbit (latch_value UDIEN h) EORSTE = true;
  li_power : Z.testbit (latch_value UDIEN h) SUSPE = negb (Z.testbit (latch_value UDIEN h) WAKEUPE);
  li_clock : Z.testbit (latch_value USBCON h) FRZCLK = true ->
             Z.testbit (latch_value UDIEN h) WAKEUPE = true;
  li_enabled : Z.testbit (latch_value USBCON h) USBE = true;
  li_attached : Z.testbit (latch_value UDCON h) DETACH = false;
  li_regulator : Z.testbit (latch_value REGCR h) REGDIS = false;
}.

Definition anything {G} : relation G := fun _ _ => True.
#[export] Instance anything_preorder {G} : PreOrder (@anything G).
Proof. done. Qed.

(** Events that return and leave the bus registers alone. *)
Class quiet_event {G} (m : M G unit) : Prop := {
  qe_total : Total m;
  qe_runs : Runs (frame bus_regs anything) m;
}.
#[export] Existing Instances qe_total qe_runs.

Lemma listening_frame {G} `{Hardware} (S : relation G) K s s' :
  (forall r, bus_regs r = true -> K r = true) ->
  frame K S s s' -> listening (hist s) -> listening (hist s').
Proof.
  intros HK HF [H1 H2 H3 H4 H5 H6].
  split; rewrite ?(frame_latch K S s s' UDIEN HF (HK UDIEN eq_refl)),
    ?(frame_latch K S s s' USBCON HF (HK USBCON eq_refl)),
    ?(frame_latch K S s s' UDCON HF (HK UDCON eq_refl)),
    ?(frame_latch K S s s' REGCR HF (HK REGCR eq_refl)); done.
Qed.

Section listening.
Context {G : Type} `{Hardware} `{Has UsbState G} `{UsbEvents G}.
Context `{!Latch UDIEN} `{!Latch USBCON}.
Context `{!quiet_event EVENT_USB_Device_StartOfFrame} `{!quiet_event EVENT_USB_Device_Connect}
  `{!quiet_event EVENT_USB_Device_Disconnect} `{!quiet_event EVENT_USB_Device_Reset}.
Context (k fuel : nat) (Hpll : pll_locks k) (Hfuel : (k < fuel)%nat) (Hf13 : (13 < fuel)%nat).

Definition keeps_listening (m : M G unit) : Prop := forall s,
  listening (hist s) -> wp_ False m (fun _ s' => listening (hist s')) s.

Lemma keeps_seq m1 m2 : keeps_listening m1 -> keeps_listening m2 -> keeps_listening (m1 ;; m2).
Proof.
  intros H1' H2' s Hs. apply wp_bind.
  eapply wp_conseq; [by apply H1'|exact (fun x : False => x)|]. intros [] s' Hs'. by apply H2'.
Qed.

Lemma keeps_quiet m `{!quiet_event m} : keeps_listening m.
Proof.
  intros s Hs. wp_spec (wp_total_runs (frame bus_regs anything) m s). intros [] s' HF. by apply (listening_frame anything bus_regs s s').
Qed.

#[local] Instance int_flag_total r b : Total (G:=G) (int_flag r b).
Proof. unfold int_flag. total_go. Qed.
#[local] Instance int_flag_runs r b : Runs (G:=G) (frame bus_regs anything) (int_flag r b).
Proof. unfold int_flag. runs_go. Qed.

Lemma keeps_on_interrupt i m : keeps_listening m -> keeps_listening (on_interrupt i m).
Proof.
  intros Hm s Hs. unfold on_interrupt. apply wp_bind.
  set (occ := USB_INT_HasOccurred i).
  assert (Ho : Total occ /\ Runs (frame bus_regs anything) occ)
    by (unfold occ; destruct i; cbn [USB_INT_HasOccurred]; split; apply _).
  destruct Ho as [Ho1 Ho2].
  wp_spec (wp_total_runs (frame bus_regs anything) occ s). intros o s1 HF1. apply wp_bind.
  set (en := if o then _ else _).
  assert (He : Total en /\ Runs (frame bus_regs anything) en).
  { unfold en. destruct o; [destruct i; cbn [USB_INT_IsEnabled]|]; split; try apply _;
      [apply total_ret|apply (runs_ret _)]. }
  destruct He as [He1 He2].
  wp_spec (wp_total_runs (frame bus_regs anything) en s1). intros e s2 HF2. assert (Hl : listening (hist s2)).
  { apply (listening_frame anything bus_regs s s2); [done|by etransitivity|done]. }
  destruct e; [by apply Hm|by apply wp_ret].
Qed.

(** A piece of code that ends with an event. *)
Lemma event_end (m : M G unit) h g :
  quiet_event m -> listening h -> wp_ False m (fun _ s' => listening (hist s')) (St h g).
Proof. intros Hq Hl. by apply (keeps_quiet m (St h g)). Qed.

Ltac listening_bits :=
  split; latch_chain; try assumption; reg_bits; cbn; try done.

Lemma suspend_keeps : keeps_listening isr_suspend.
Proof.
  intros [h g] [Hr Hp Hc He Ha Hg]. cbn [hist] in *.
  unfold isr_suspend, USB_INT_Disable, USB_INT_Enable, USB_CLK_Freeze, USB_PLL_Off,
    set_DeviceState. change (negb (anybit USB_Options USB_OPT_MANUAL_PLL)) with true.
  cbn [when]. abs_run. apply event_end; [apply _|].
  listening_bits.
Qed.

Lemma sof_keeps : keeps_listening isr_start_of_frame.
Proof.
  intros [h g] [Hr Hp Hc He Ha Hg]. cbn [hist] in *. unfold isr_start_of_frame, USB_INT_Clear.
  abs_run. apply event_end; [apply _|]. listening_bits.
Qed.

Lemma wakeup_keeps : keeps_listening (isr_wakeup fuel).
Proof.
  intros [h g] Hl. cbn [hist] in *. unfold isr_wakeup.
  change (negb (anybit USB_Options USB_OPT_MANUAL_PLL)) with true. cbn [when]. apply wp_bind.
  wp_spec (pll_start_total anything k fuel Hpll Hfuel (St h g)). intros [] [h1 g1] HF.
  pose proof (listening_frame anything not_pll _ _ ltac:(by intros []) HF Hl) as Hl1.
  destruct Hl1 as [Hr Hp Hc He Ha Hg]. cbn [hist] in *. clear HF Hl h g.
  unfold USB_CLK_Unfreeze, USB_INT_Clear, USB_INT_Disable, USB_INT_Enable,
    state_by_configuration, USB_Device_IsAddressSet, set_DeviceState. abs_run.
  all: apply event_end; [apply _|]; listening_bits.
Qed.

Lemma reset_keeps : keeps_listening (isr_reset fuel).
Proof.
  intros [h g] [Hr Hp Hc He Ha Hg]. cbn [hist] in *. unfold isr_reset, USB_INT_Clear,
    USB_INT_Disable, USB_INT_Enable, set_DeviceState. abs_run.
  eapply wp_conseq; [apply (ConfigureEndpoint_total anything);
    [by vm_compute|exact Hf13]|exact (fun x : False => x)|].
  intros ok [h1 g1] HF. abs_run. apply event_end; [apply _|]. listening_bits.
Qed.

(** The device never goes deaf: whatever combination of bus events is
    pending and whatever the other registers hold, the general USB interrupt
    terminates (the PLL locking within [k] polls) and preserves that the
    device is attached, powered and enabled, hears bus resets, hears exactly
    one of suspend and resume, and has its clock stopped only while it waits
    for a resume. *)
Theorem USB_GEN_vect_listening (s : st G) :
  listening (hist s) -> wp_ False (USB_GEN_vect fuel) (fun _ s' => listening (hist s')) s.
Proof.
  revert s. change (keeps_listening (USB_GEN_vect fuel)). unfold USB_GEN_vect.
  repeat apply keeps_seq; apply keeps_on_interrupt;
    [apply sof_keeps|apply suspend_keeps|apply wakeup_keeps|apply reset_keeps].
Qed.
End listening.

(** The events of an application that hooks none of them. *)
#[local] Instance stub_usb_events : UsbEvents UsbState := {
  EVENT_USB_Device_StartOfFrame := USB_Event_Stub;
  EVENT_USB_Device_Connect := USB_Event_Stub;
  EVENT_USB_Device_Disconnect := USB_Event_Stub;
  EVENT_USB_Device_Reset := USB_Event_Stub;
}.

Lemma stub_quiet : quiet_event (G:=UsbState) USB_Event_Stub.
Proof. split; [apply total_ret|apply (runs_ret _)]. Qed.

(** Suspend and reset pending at once on a freshly initialised device. *)
Lemma USB_GEN_vect_listening_witness :
  let s := St [Wr UDINT 9; Wr UDIEN 9; Wr USBCON 0x80] witness_usb in
  wp_ False (@USB_GEN_vect UsbState locked_pll _ stub_usb_events 20)
    (fun _ s' => listening (H := locked_pll) (hist s')) s.
Proof.
  refine (@USB_GEN_vect_listening UsbState locked_pll _ stub_usb_events
    (locked_pll_latch UDIEN ltac:(discriminate)) (locked_pll_latch USBCON ltac:(discriminate))
    stub_quiet stub_quiet stub_quiet stub_quiet 0 20 _ _ _ _ _).
  - intros h _ _. reflexivity.
  - lia.
  - lia.
  - split; try reflexivity. discriminate.
Defined.
