(* ===== verification/HidParser.v ===== *)
(** * LUFA/Drivers/USB/Class/Common/HIDParser.c

    The parser of HID report descriptors, which lays the items out in their
    reports, and the functions that read and write an item's value in a
    report.  What C leaves undefined (reading past the descriptor or past an
    array, an overlapping [memcpy]) is the outcome [Undef]; memory that C
    leaves uninitialised is a parameter. *)

From S2P Require Import Prelude.

(** ** HIDReportData.h and HIDClassCommon.h *)

Definition HID_RI_DATA_SIZE_MASK : Z := 0x03.
Definition HID_RI_TYPE_MASK : Z := 0x0C.
Definition HID_RI_TAG_MASK : Z := 0xF0.
Definition HID_RI_TYPE_MAIN : Z := 0x00.
Definition HID_RI_TYPE_GLOBAL : Z := 0x04.
Definition HID_RI_TYPE_LOCAL : Z := 0x08.
Definition HID_RI_DATA_BITS_8 : Z := 0x01.
Definition HID_RI_DATA_BITS_16 : Z := 0x02.
Definition HID_RI_DATA_BITS_32 : Z := 0x03.
Definition HID_IOF_CONSTANT : Z := Z.shiftl 1 0.

(** The items with no data bytes: type and tag. *)
Definition HID_RI_INPUT : Z := Z.lor HID_RI_TYPE_MAIN 0x80.
Definition HID_RI_OUTPUT : Z := Z.lor HID_RI_TYPE_MAIN 0x90.
Definition HID_RI_COLLECTION : Z := Z.lor HID_RI_TYPE_MAIN 0xA0.
Definition HID_RI_FEATURE : Z := Z.lor HID_RI_TYPE_MAIN 0xB0.
Definition HID_RI_END_COLLECTION : Z := Z.lor HID_RI_TYPE_MAIN 0xC0.
Definition HID_RI_USAGE_PAGE : Z := Z.lor HID_RI_TYPE_GLOBAL 0x00.
Definition HID_RI_LOGICAL_MINIMUM : Z := Z.lor HID_RI_TYPE_GLOBAL 0x10.
Definition HID_RI_LOGICAL_MAXIMUM : Z := Z.lor HID_RI_TYPE_GLOBAL 0x20.
Definition HID_RI_PHYSICAL_MINIMUM : Z := Z.lor HID_RI_TYPE_GLOBAL 0x30.
Definition HID_RI_PHYSICAL_MAXIMUM : Z := Z.lor HID_RI_TYPE_GLOBAL 0x40.
Definition HID_RI_UNIT_EXPONENT : Z := Z.lor HID_RI_TYPE_GLOBAL 0x50.
Definition HID_RI_UNIT : Z := Z.lor HID_RI_TYPE_GLOBAL 0x60.
Definition HID_RI_REPORT_SIZE : Z := Z.lor HID_RI_TYPE_GLOBAL 0x70.
Definition HID_RI_REPORT_ID : Z := Z.lor HID_RI_TYPE_GLOBAL 0x80.
Definition HID_RI_REPORT_COUNT : Z := Z.lor HID_RI_TYPE_GLOBAL 0x90.
Definition HID_RI_PUSH : Z := Z.lor HID_RI_TYPE_GLOBAL 0xA0.
Definition HID_RI_POP : Z := Z.lor HID_RI_TYPE_GLOBAL 0xB0.
Definition HID_RI_USAGE : Z := Z.lor HID_RI_TYPE_LOCAL 0x00.
Definition HID_RI_USAGE_MINIMUM : Z := Z.lor HID_RI_TYPE_LOCAL 0x10.
Definition HID_RI_USAGE_MAXIMUM : Z := Z.lor HID_RI_TYPE_LOCAL 0x20.

Definition HID_REPORT_ITEM_In : Z := 0.
Definition HID_REPORT_ITEM_Out : Z := 1.
Definition HID_REPORT_ITEM_Feature : Z := 2.

(** ** HIDParser.h *)

Definition HID_STATETABLE_STACK_DEPTH : nat := 2.
Definition HID_USAGE_STACK_DEPTH : Z := 8.
Definition HID_MAX_COLLECTIONS : nat := 10.
Definition HID_MAX_REPORTITEMS : nat := 20.
Definition HID_MAX_REPORT_IDS : nat := 10.

Inductive HID_Parse_ErrorCodes_t :=
  | HID_PARSE_Successful
  | HID_PARSE_HIDStackOverflow
  | HID_PARSE_HIDStackUnderflow
  | HID_PARSE_InsufficientReportItems
  | HID_PARSE_UnexpectedEndCollection
  | HID_PARSE_InsufficientCollectionPaths
  | HID_PARSE_UsageListOverflow
  | HID_PARSE_InsufficientReportIDItems
  | HID_PARSE_NoUnfilteredReportItems.

Record HID_MinMax_t := mkMinMax { Minimum : Z; Maximum : Z }.
Record HID_Unit_t := mkUnit { Unit_Type : Z; Exponent : Z }.
Record HID_Usage_t := mkUsage { Page : Z; Usage_Usage : Z }.

(** [Parent] is a position in [CollectionPaths]. *)
Record HID_CollectionPath_t := mkPath {
  Path_Type : Z;
  Path_Usage : HID_Usage_t;
  Parent : option nat;
}.

Record HID_ReportItem_Attributes_t := mkAttributes {
  BitSize : Z;
  Usage : HID_Usage_t;
  Unit : HID_Unit_t;
  Logical : HID_MinMax_t;
  Physical : HID_MinMax_t;
}.

Record HID_ReportItem_t := mkItem {
  BitOffset : Z;
  ItemType : Z;
  ItemFlags : Z;
  Item_ReportID : Z;
  CollectionPath : option nat;
  Attributes : HID_ReportItem_Attributes_t;
  Value : Z;
  PreviousValue : Z;
}.

Record HID_ReportSizeInfo_t := mkSizeInfo {
  Size_ReportID : Z;
  ReportSizeBits : list Z;     (* [3], by item type *)
}.

(** Arrays of the sizes above. *)
Record HID_ReportInfo_t := mkInfo {
  TotalReportItems : Z;
  ReportItems : list HID_ReportItem_t;
  CollectionPaths : list HID_CollectionPath_t;
  TotalDeviceReports : Z;
  ReportIDSizes : list HID_ReportSizeInfo_t;
  LargestReportSizeBits : Z;
  UsingReportIDs : bool;
}.

Record HID_StateTable_t := mkState {
  State_Attributes : HID_ReportItem_Attributes_t;
  ReportCount : Z;
  State_ReportID : Z;
}.

(** Sizes in bytes; the AVR has no padding, pointers are two bytes. *)
Definition sizeof_HID_ReportItem_Attributes_t : Z := 1 + 4 + 5 + 8 + 8.
Definition sizeof_HID_ReportItem_t : Z := 2 + 1 + 2 + 1 + 2 + sizeof_HID_ReportItem_Attributes_t + 4 + 4.
Definition sizeof_HID_StateTable_t : Z := sizeof_HID_ReportItem_Attributes_t + 1 + 1.

(** What [memset(.., 0, ..)] leaves. *)
Definition zero_Attributes : HID_ReportItem_Attributes_t :=
  mkAttributes 0 (mkUsage 0 0) (mkUnit 0 0) (mkMinMax 0 0) (mkMinMax 0 0).
Definition zero_Item : HID_ReportItem_t := mkItem 0 0 0 0 None zero_Attributes 0 0.
Definition zero_Path : HID_CollectionPath_t := mkPath 0 (mkUsage 0 0) None.
Definition zero_SizeInfo : HID_ReportSizeInfo_t := mkSizeInfo 0 [0; 0; 0].
Definition zero_State : HID_StateTable_t := mkState zero_Attributes 0 0.
Definition zero_Info : HID_ReportInfo_t :=
  mkInfo 0 (repeat zero_Item HID_MAX_REPORTITEMS) (repeat zero_Path HID_MAX_COLLECTIONS) 0
    (repeat zero_SizeInfo HID_MAX_REPORT_IDS) 0 false.

(** ** The parser's locals *)

Record parser := mkParser {
  ParserData : HID_ReportInfo_t;
  StateTable : list HID_StateTable_t;
  CurrStateTable : nat;              (* position in [StateTable] *)
  CurrCollectionPath : option nat;   (* position in [CollectionPaths] *)
  CurrReportIDInfo : nat;            (* position in [ReportIDSizes] *)
  UsageList : list Z;
  UsageListSize : Z;
  UsageMinMax : HID_MinMax_t;
}.

(** A statement goes on, returns from the parser, or is undefined. *)
Inductive outcome (A : Type) :=
  | Next (a : A)
  | Return (code : HID_Parse_ErrorCodes_t) (info : HID_ReportInfo_t)
  | Undef.
Arguments Next {A} a.
Arguments Return {A} code info.
Arguments Undef {A}.

#[export] Instance outcome_ret : MRet outcome := fun A a => Next a.
#[export] Instance outcome_bind : MBind outcome := fun A B f o =>
  match o with Next a => f a | Return c i => Return c i | Undef => Undef end.

(** An access to an array. *)
Definition at_ {A} (l : list A) (i : nat) : outcome A :=
  match l !! i with Some x => Next x | None => Undef end.

(** Field updates. *)
Definition set_info i p := mkParser i (StateTable p) (CurrStateTable p) (CurrCollectionPath p)
  (CurrReportIDInfo p) (UsageList p) (UsageListSize p) (UsageMinMax p).
Definition set_table t p := mkParser (ParserData p) t (CurrStateTable p) (CurrCollectionPath p)
  (CurrReportIDInfo p) (UsageList p) (UsageListSize p) (UsageMinMax p).
Definition set_curr c p := mkParser (ParserData p) (StateTable p) c (CurrCollectionPath p)
  (CurrReportIDInfo p) (UsageList p) (UsageListSize p) (UsageMinMax p).
Definition set_path c p := mkParser (ParserData p) (StateTable p) (CurrStateTable p) c
  (CurrReportIDInfo p) (UsageList p) (UsageListSize p) (UsageMinMax p).
Definition set_rid r p := mkParser (ParserData p) (StateTable p) (CurrStateTable p)
  (CurrCollectionPath p) r (UsageList p) (UsageListSize p) (UsageMinMax p).
Definition set_usages l n p := mkParser (ParserData p) (StateTable p) (CurrStateTable p)
  (CurrCollectionPath p) (CurrReportIDInfo p) l n (UsageMinMax p).
Definition set_minmax m p := mkParser (ParserData p) (StateTable p) (CurrStateTable p)
  (CurrCollectionPath p) (CurrReportIDInfo p) (UsageList p) (UsageListSize p) m.

Definition set_items n l i := mkInfo n l (CollectionPaths i) (TotalDeviceReports i)
  (ReportIDSizes i) (LargestReportSizeBits i) (UsingReportIDs i).
Definition set_paths l i := mkInfo (TotalReportItems i) (ReportItems i) l (TotalDeviceReports i)
  (ReportIDSizes i) (LargestReportSizeBits i) (UsingReportIDs i).
Definition set_sizes n l i := mkInfo (TotalReportItems i) (ReportItems i) (CollectionPaths i) n l
  (LargestReportSizeBits i) (UsingReportIDs i).
Definition set_largest n i := mkInfo (TotalReportItems i) (ReportItems i) (CollectionPaths i)
  (TotalDeviceReports i) (ReportIDSizes i) n (UsingReportIDs i).
Definition set_using b i := mkInfo (TotalReportItems i) (ReportItems i) (CollectionPaths i)
  (TotalDeviceReports i) (ReportIDSizes i) (LargestReportSizeBits i) b.
Definition set_size_id v z := mkSizeInfo v (ReportSizeBits z).
Definition set_size_bits l z := mkSizeInfo (Size_ReportID z) l.

(** ** The parser *)

Section parse.

(** What the array of usages and the value fields of a new item hold before
    they are written, and the application's filter. *)
Context (UsageList0 : list Z) (Value0 PreviousValue0 : Z).
Context (CALLBACK_HIDParser_FilterHIDReportItem : HID_ReportItem_t -> bool).

(** [*CurrStateTable] *)
Definition curr_state (p : parser) : outcome HID_StateTable_t := at_ (StateTable p) (CurrStateTable p).
Definition set_state (f : HID_StateTable_t -> HID_StateTable_t) (p : parser) : outcome parser :=
  s ← curr_state p; mret (set_table (<[CurrStateTable p := f s]> (StateTable p)) p).
Definition set_attr (f : HID_ReportItem_Attributes_t -> HID_ReportItem_Attributes_t) : parser -> outcome parser :=
  set_state (fun s => mkState (f (State_Attributes s)) (ReportCount s) (State_ReportID s)).

(** [memcpy] of [n] bytes inside an array of [size]: both ranges must be in the
    array and apart. *)
Definition memcpy_defined (dst src n size : Z) : bool :=
  (dst + n <=? size) && (src + n <=? size) && ((src + n <=? dst) || (dst + n <=? src)).

Definition item_push (p : parser) : outcome parser :=
  if Nat.eqb (CurrStateTable p) (HID_STATETABLE_STACK_DEPTH - 1) then
    Return HID_PARSE_HIDStackOverflow (ParserData p)
  else
  let at_byte i := Z.of_nat i * sizeof_HID_StateTable_t in
  if negb (memcpy_defined (at_byte (CurrStateTable p + 1)%nat) (at_byte (CurrStateTable p))
             sizeof_HID_ReportItem_t (at_byte HID_STATETABLE_STACK_DEPTH)) then Undef else
  s ← curr_state p;
  mret (set_curr (CurrStateTable p + 1) (set_table (<[(CurrStateTable p + 1)%nat := s]> (StateTable p)) p)).

Definition item_pop (p : parser) : outcome parser :=
  if Nat.eqb (CurrStateTable p) 0 then Return HID_PARSE_HIDStackUnderflow (ParserData p)
  else mret (set_curr (CurrStateTable p - 1) p).

(** [for (i = 0; i < TotalDeviceReports; i++) if (ReportIDSizes[i].ReportID == ..)] *)
Fixpoint find_id (i n : nat) (sizes : list HID_ReportSizeInfo_t) (id : Z) : outcome (option nat) :=
  match n with
  | O => mret None
  | S n' => z ← at_ sizes i; if Size_ReportID z =? id then mret (Some i) else find_id (S i) n' sizes id
  end.

Definition item_report_id (d : Z) (p : parser) : outcome parser :=
  p ← set_state (fun s => mkState (State_Attributes s) (ReportCount s) (u8 d)) p;
  s ← curr_state p;
  let id := State_ReportID s in
  p ← (if UsingReportIDs (ParserData p) then
         let info := ParserData p in
         f ← find_id 0 (Z.to_nat (TotalDeviceReports info)) (ReportIDSizes info) id;
         match f with
         | Some k => mret (set_rid k p)
         | None =>
             if TotalDeviceReports info =? Z.of_nat HID_MAX_REPORT_IDS then
               Return HID_PARSE_InsufficientReportIDItems info
             else
             let k := Z.to_nat (TotalDeviceReports info) in
             at_ (ReportIDSizes info) k ;;
             mret (set_rid k (set_info (set_sizes (u8 (TotalDeviceReports info + 1))
                     (<[k := zero_SizeInfo]> (ReportIDSizes info)) info) p))
         end
       else mret p);
  let info := ParserData p in
  z ← at_ (ReportIDSizes info) (CurrReportIDInfo p);
  mret (set_info (set_using true (set_sizes (TotalDeviceReports info)
          (<[CurrReportIDInfo p := set_size_id id z]> (ReportIDSizes info)) info)) p).

Definition item_usage (d : Z) (p : parser) : outcome parser :=
  if UsageListSize p =? HID_USAGE_STACK_DEPTH then Return HID_PARSE_UsageListOverflow (ParserData p)
  else
  at_ (UsageList p) (Z.to_nat (UsageListSize p)) ;;
  mret (set_usages (<[Z.to_nat (UsageListSize p) := u16 d]> (UsageList p)) (u8 (UsageListSize p + 1)) p).

(** [for (i = 0; i < UsageListSize; i++) UsageList[i] = UsageList[i + 1];] *)
Fixpoint shift_usages (i n : nat) (l : list Z) : outcome (list Z) :=
  match n with
  | O => mret l
  | S n' => v ← at_ l (S i); at_ l i ;; shift_usages (S i) n' (<[i := v]> l)
  end.

(** The usage of the next item or collection: from the list, else from the
    range; [None] when there is none and the field is left alone. *)
Definition next_usage (p : parser) : outcome (option Z * parser) :=
  if negb (UsageListSize p =? 0) then
    u ← at_ (UsageList p) 0;
    l ← shift_usages 0 (Z.to_nat (UsageListSize p)) (UsageList p);
    mret (Some u, set_usages l (u8 (UsageListSize p - 1)) p)
  else if Minimum (UsageMinMax p) <=? Maximum (UsageMinMax p) then
    mret (Some (u16 (Minimum (UsageMinMax p))),
          set_minmax (mkMinMax (u32 (Minimum (UsageMinMax p) + 1)) (Maximum (UsageMinMax p))) p)
  else mret (None, p).

(** [while (CurrCollectionPath->Parent != NULL)], from slot [i]; [n] slots are
    left after it. *)
Fixpoint free_path (i n : nat) (paths : list HID_CollectionPath_t) : outcome (option nat) :=
  c ← at_ paths i;
  match Parent c with
  | None => mret (Some i)
  | Some _ => match n with O => mret None | S n' => free_path (S i) n' paths end
  end.

(** The slot of a new collection; a nested one has its parent set. *)
Definition open_path (p : parser) : outcome parser :=
  match CurrCollectionPath p with
  | None => mret (set_path (Some 0%nat) p)
  | Some parent =>
      let info := ParserData p in
      f ← free_path 1 (HID_MAX_COLLECTIONS - 2) (CollectionPaths info);
      match f with
      | None => Return HID_PARSE_InsufficientCollectionPaths info
      | Some k =>
          c ← at_ (CollectionPaths info) k;
          mret (set_path (Some k) (set_info (set_paths
            (<[k := mkPath (Path_Type c) (Path_Usage c) (Some parent)]> (CollectionPaths info)) info) p))
      end
  end.

Definition item_collection (d : Z) (p : parser) : outcome parser :=
  p ← open_path p;
  match CurrCollectionPath p with
  | None => Undef
  | Some k =>
      s ← curr_state p;
      c ← at_ (CollectionPaths (ParserData p)) k;
      r ← next_usage p;
      let '(u, p) := r in
      let usage := mkUsage (Page (Usage (State_Attributes s))) (default (Usage_Usage (Path_Usage c)) u) in
      let info := ParserData p in
      mret (set_info (set_paths (<[k := mkPath (u8 d) usage (Parent c)]> (CollectionPaths info)) info) p)
  end.

Definition item_end_collection (p : parser) : outcome parser :=
  match CurrCollectionPath p with
  | None => Return HID_PARSE_UnexpectedEndCollection (ParserData p)
  | Some k => c ← at_ (CollectionPaths (ParserData p)) k; mret (set_path (Parent c) p)
  end.

Definition item_type (HIDReportItem : Z) : Z :=
  let ItemTypeTag := Z.land HIDReportItem (Z.lor HID_RI_TYPE_MASK HID_RI_TAG_MASK) in
  if ItemTypeTag =? HID_RI_INPUT then HID_REPORT_ITEM_In
  else if ItemTypeTag =? HID_RI_OUTPUT then HID_REPORT_ITEM_Out
  else HID_REPORT_ITEM_Feature.

(** One round of the loop over [ReportCount]. *)
Definition add_item (HIDReportItem d : Z) (p : parser) : outcome parser :=
  s ← curr_state p;
  r ← next_usage p;
  let '(u, p) := r in
  let a := State_Attributes s in
  let ty := item_type HIDReportItem in
  let info := ParserData p in
  z ← at_ (ReportIDSizes info) (CurrReportIDInfo p);
  bits ← at_ (ReportSizeBits z) (Z.to_nat ty);
  let NewReportItem := mkItem bits ty (u16 d) (State_ReportID s) (CurrCollectionPath p)
    (mkAttributes (BitSize a) (mkUsage (Page (Usage a)) (default (Usage_Usage (Usage a)) u)) (Unit a)
       (Logical a) (Physical a)) Value0 PreviousValue0 in
  let bits' := u16 (bits + BitSize a) in
  let info := set_sizes (TotalDeviceReports info) (<[CurrReportIDInfo p :=
    set_size_bits (<[Z.to_nat ty := bits']> (ReportSizeBits z)) z]> (ReportIDSizes info)) info in
  let info := set_largest (Z.max (LargestReportSizeBits info) bits') info in
  if TotalReportItems info =? Z.of_nat HID_MAX_REPORTITEMS then
    Return HID_PARSE_InsufficientReportItems info
  else
  at_ (ReportItems info) (Z.to_nat (TotalReportItems info)) ;;
  let items := <[Z.to_nat (TotalReportItems info) := NewReportItem]> (ReportItems info) in
  let total := if negb (anybit d HID_IOF_CONSTANT) && CALLBACK_HIDParser_FilterHIDReportItem NewReportItem
               then u8 (TotalReportItems info + 1) else TotalReportItems info in
  mret (set_info (set_items total items info) p).

Fixpoint add_items (n : nat) (HIDReportItem d : Z) (p : parser) : outcome parser :=
  match n with
  | O => mret p
  | S n' => p ← add_item HIDReportItem d p; add_items n' HIDReportItem d p
  end.

(** [switch (HIDReportItem & (HID_RI_TYPE_MASK | HID_RI_TAG_MASK))] *)
Definition item_switch (HIDReportItem d : Z) (p : parser) : outcome parser :=
  let tag := Z.land HIDReportItem (Z.lor HID_RI_TYPE_MASK HID_RI_TAG_MASK) in
  if tag =? HID_RI_PUSH then item_push p
  else if tag =? HID_RI_POP then item_pop p
  else if tag =? HID_RI_USAGE_PAGE then
    p ← (if Z.land HIDReportItem HID_RI_DATA_SIZE_MASK =? HID_RI_DATA_BITS_32 then
           set_attr (fun a => mkAttributes (BitSize a)
             (mkUsage (u16 (Z.shiftr d 16)) (Usage_Usage (Usage a))) (Unit a) (Logical a) (Physical a)) p
         else mret p);
    set_attr (fun a => mkAttributes (BitSize a) (mkUsage (u16 d) (Usage_Usage (Usage a)))
      (Unit a) (Logical a) (Physical a)) p
  else if tag =? HID_RI_LOGICAL_MINIMUM then
    set_attr (fun a => mkAttributes (BitSize a) (Usage a) (Unit a) (mkMinMax d (Maximum (Logical a))) (Physical a)) p
  else if tag =? HID_RI_LOGICAL_MAXIMUM then
    set_attr (fun a => mkAttributes (BitSize a) (Usage a) (Unit a) (mkMinMax (Minimum (Logical a)) d) (Physical a)) p
  else if tag =? HID_RI_PHYSICAL_MINIMUM then
    set_attr (fun a => mkAttributes (BitSize a) (Usage a) (Unit a) (Logical a) (mkMinMax d (Maximum (Physical a)))) p
  else if tag =? HID_RI_PHYSICAL_MAXIMUM then
    set_attr (fun a => mkAttributes (BitSize a) (Usage a) (Unit a) (Logical a) (mkMinMax (Minimum (Physical a)) d)) p
  else if tag =? HID_RI_UNIT_EXPONENT then
    set_attr (fun a => mkAttributes (BitSize a) (Usage a) (mkUnit (Unit_Type (Unit a)) (u8 d)) (Logical a) (Physical a)) p
  else if tag =? HID_RI_UNIT then
    set_attr (fun a => mkAttributes (BitSize a) (Usage a) (mkUnit d (Exponent (Unit a))) (Logical a) (Physical a)) p
  else if tag =? HID_RI_REPORT_SIZE then
    set_attr (fun a => mkAttributes (u8 d) (Usage a) (Unit a) (Logical a) (Physical a)) p
  else if tag =? HID_RI_REPORT_COUNT then
    set_state (fun s => mkState (State_Attributes s) (u8 d) (State_ReportID s)) p
  else if tag =? HID_RI_REPORT_ID then item_report_id d p
  else if tag =? HID_RI_USAGE then item_usage d p
  else if tag =? HID_RI_USAGE_MINIMUM then mret (set_minmax (mkMinMax d (Maximum (UsageMinMax p))) p)
  else if tag =? HID_RI_USAGE_MAXIMUM then mret (set_minmax (mkMinMax (Minimum (UsageMinMax p)) d) p)
  else if tag =? HID_RI_COLLECTION then item_collection d p
  else if tag =? HID_RI_END_COLLECTION then item_end_collection p
  else if (tag =? HID_RI_INPUT) || (tag =? HID_RI_OUTPUT) || (tag =? HID_RI_FEATURE) then
    s ← curr_state p; add_items (Z.to_nat (ReportCount s)) HIDReportItem d p
  else mret p.

(** One item: the switch, and the reset of the local items after a main one. *)
Definition hid_item (HIDReportItem d : Z) (p : parser) : outcome parser :=
  p ← item_switch HIDReportItem d p;
  mret (if Z.land HIDReportItem HID_RI_TYPE_MASK =? HID_RI_TYPE_MAIN
        then set_usages (UsageList p) 0 (set_minmax (mkMinMax 0 0) p) else p).

(** [while (ReportSize)]; [ReportData] is the memory from the pointer on. *)
Fixpoint parse_loop (ReportData : list Z) (ReportSize : Z) (p : parser) : outcome parser :=
  if ReportSize =? 0 then mret p else
  match ReportData with
  | [] => Undef
  | HIDReportItem :: ReportData =>
      let ReportSize := u16 (ReportSize - 1) in
      let size := Z.land HIDReportItem HID_RI_DATA_SIZE_MASK in
      if size =? HID_RI_DATA_BITS_32 then
        match ReportData with
        | b0 :: b1 :: b2 :: b3 :: ReportData =>
            p ← hid_item HIDReportItem (le_value [b0; b1; b2; b3]) p;
            parse_loop ReportData (u16 (ReportSize - 4)) p
        | _ => Undef
        end
      else if size =? HID_RI_DATA_BITS_16 then
        match ReportData with
        | b0 :: b1 :: ReportData =>
            p ← hid_item HIDReportItem (le_value [b0; b1]) p;
            parse_loop ReportData (u16 (ReportSize - 2)) p
        | _ => Undef
        end
      else if size =? HID_RI_DATA_BITS_8 then
        match ReportData with
        | b0 :: ReportData =>
            p ← hid_item HIDReportItem b0 p;
            parse_loop ReportData (u16 (ReportSize - 1)) p
        | _ => Undef
        end
      else p ← hid_item HIDReportItem 0 p; parse_loop ReportData ReportSize p
  end.

Definition parser0 : parser :=
  mkParser (set_sizes 1 (ReportIDSizes zero_Info) zero_Info)
    (repeat zero_State HID_STATETABLE_STACK_DEPTH) 0 None 0 UsageList0 0 (mkMinMax 0 0).

Definition USB_ProcessHIDReport (ReportData : list Z) (ReportSize : Z) :
    option (HID_Parse_ErrorCodes_t * HID_ReportInfo_t) :=
  match parse_loop ReportData ReportSize parser0 with
  | Next p =>
      Some (if TotalReportItems (ParserData p) =? 0 then HID_PARSE_NoUnfilteredReportItems
            else HID_PARSE_Successful, ParserData p)
  | Return code info => Some (code, info)
  | Undef => None
  end.
End parse.

(** ** Values of items in a report *)

(** [while (DataBitsRem--)] of the reader: the report's bytes, a bit position,
    the bit mask and the value so far; [None] past the report. *)
Fixpoint get_bits (n : nat) (ReportData : list Z) (CurrentBit BitMask value : Z) : option Z :=
  match n with
  | O => Some value
  | S n' =>
      b ← ReportData !! Z.to_nat (CurrentBit `div` 8);
      get_bits n' ReportData (u16 (CurrentBit + 1)) (u32 (Z.shiftl BitMask 1))
        (if anybit b (Z.shiftl 1 (CurrentBit `mod` 8)) then Z.lor value BitMask else value)
  end.

(** The report after its identifier; [false] when it is another report. *)
Definition item_report (ReportData : list Z) (it : HID_ReportItem_t) : option (bool * list Z) :=
  if Item_ReportID it =? 0 then Some (true, ReportData) else
  match ReportData with
  | [] => None
  | id :: body => Some (Item_ReportID it =? id, body)
  end.

Definition set_value v pv it := mkItem (BitOffset it) (ItemType it) (ItemFlags it) (Item_ReportID it)
  (CollectionPath it) (Attributes it) v pv.

(** The result and the item; [None]: a read past the report. *)
Definition USB_GetHIDReportItemInfo (ReportData : list Z) (it : HID_ReportItem_t) :
    option (bool * HID_ReportItem_t) :=
  r ← item_report ReportData it;
  if negb (fst r) then Some (false, it) else
  v ← get_bits (Z.to_nat (BitSize (Attributes it))) (snd r) (BitOffset it) 1 0;
  Some (true, set_value v (Value it) it).

Fixpoint put_bits (n : nat) (ReportData : list Z) (CurrentBit BitMask value : Z) : option (list Z) :=
  match n with
  | O => Some ReportData
  | S n' =>
      let i := Z.to_nat (CurrentBit `div` 8) in
      b ← ReportData !! i;
      put_bits n'
        (if anybit value (Z.shiftl 1 (CurrentBit `mod` 8)) then <[i := u8 (Z.lor b BitMask)]> ReportData
         else ReportData)
        (u16 (CurrentBit + 1)) (u32 (Z.shiftl BitMask 1)) value
  end.

(** The report and the item; [None]: an access past the report. *)
Definition USB_SetHIDReportItemInfo (ReportData : list Z) (it : HID_ReportItem_t) :
    option (list Z * HID_ReportItem_t) :=
  r ← (if Item_ReportID it =? 0 then Some ([], ReportData) else
       match ReportData with [] => None | _ :: body => Some ([Item_ReportID it], body) end);
  body ← put_bits (Z.to_nat (BitSize (Attributes it))) (snd r) (BitOffset it) 1 (Value it);
  Some (fst r ++ body, set_value (Value it) (Value it) it).

(** [for (i = 0; i < HID_MAX_REPORT_IDS; i++)]: the first entry with the identifier. *)
Fixpoint report_size (sizes : list HID_ReportSizeInfo_t) (ReportID ReportType : Z) : Z :=
  match sizes with
  | [] => 0
  | z :: sizes' =>
      let bits := ReportSizeBits z !!! Z.to_nat ReportType in
      if Size_ReportID z =? ReportID then bits `div` 8 + (if negb (bits `mod` 8 =? 0) then 1 else 0)
      else report_size sizes' ReportID ReportType
  end.
Definition USB_GetHIDReportSize (info : HID_ReportInfo_t) (ReportID ReportType : Z) : Z :=
  report_size (ReportIDSizes info) ReportID ReportType.
