(* ===== verification/HidLayout.v ===== *)
(** * What the HID parser computes

    The invariant of the parser of [HidParser] over the items of a descriptor:
    its tables stay in bounds, the collections form a tree, and the items of a
    report lie one after the other within the report's size. *)

From S2P Require Import Prelude HidParser.

(** ** What a descriptor declares *)

(** The items of a descriptor with their data; [None]: the last one is cut off. *)
Fixpoint decode (bs : list Z) : option (list (Z * Z)) :=
  match bs with
  | [] => Some []
  | it :: bs =>
      let size := Z.land it HID_RI_DATA_SIZE_MASK in
      if size =? HID_RI_DATA_BITS_32 then
        match bs with
        | b0 :: b1 :: b2 :: b3 :: bs => l ← decode bs; Some ((it, le_value [b0; b1; b2; b3]) :: l)
        | _ => None
        end
      else if size =? HID_RI_DATA_BITS_16 then
        match bs with b0 :: b1 :: bs => l ← decode bs; Some ((it, le_value [b0; b1]) :: l) | _ => None end
      else if size =? HID_RI_DATA_BITS_8 then
        match bs with b0 :: bs => l ← decode bs; Some ((it, b0) :: l) | _ => None end
      else l ← decode bs; Some ((it, 0) :: l)
  end.

Definition tag_of (it : Z) : Z := Z.land it (Z.lor HID_RI_TYPE_MASK HID_RI_TAG_MASK).
Definition is_data (it : Z) : bool :=
  (tag_of it =? HID_RI_INPUT) || (tag_of it =? HID_RI_OUTPUT) || (tag_of it =? HID_RI_FEATURE).

(** The bits of all reports together, by the last report size and count. *)
Fixpoint declared_bits (size count : Z) (its : list (Z * Z)) : Z :=
  match its with
  | [] => 0
  | (it, d) :: its =>
      if tag_of it =? HID_RI_REPORT_SIZE then declared_bits (u8 d) count its
      else if tag_of it =? HID_RI_REPORT_COUNT then declared_bits size (u8 d) its
      else (if is_data it then count * size else 0) + declared_bits size count its
  end.

(** Report identifiers are not zero, which the HID specification reserves. *)
Definition ids_nonzero (its : list (Z * Z)) : Prop :=
  Forall (fun x => tag_of (fst x) = HID_RI_REPORT_ID -> u8 (snd x) <> 0) its.

(** No PUSH, and fewer than [HID_USAGE_STACK_DEPTH] usages wait when a main
    item takes them. *)
Fixpoint tame (usages : Z) (its : list (Z * Z)) : bool :=
  match its with
  | [] => true
  | (it, _) :: its =>
      negb (tag_of it =? HID_RI_PUSH) &&
      if tag_of it =? HID_RI_USAGE then tame (usages + 1) its
      else if Z.land it HID_RI_TYPE_MASK =? HID_RI_TYPE_MAIN then
        (usages <? HID_USAGE_STACK_DEPTH) && tame 0 its
      else tame usages its
  end.

(** ** Outcomes *)

Definition oc {A} (U : Prop) (Q : A -> Prop) (o : outcome A) : Prop :=
  match o with Next a => Q a | Return c _ => c <> HID_PARSE_Successful | Undef => U end.

Lemma oc_bind {A B} U (o : outcome A) (f : A -> outcome B) (Q : B -> Prop) :
  oc U (fun a => oc U Q (f a)) o -> oc U Q (o ≫= f).
Proof. by destruct o. Qed.
Lemma oc_mono {A} (U U' : Prop) (o : outcome A) (Q Q' : A -> Prop) :
  oc U Q o -> (U -> U') -> (forall a, Q a -> Q' a) -> oc U' Q' o.
Proof. destruct o; cbn; auto. Qed.
Lemma oc_at {A} U (l : list A) i (Q : A -> Prop) :
  (i < length l)%nat -> (forall x, l !! i = Some x -> Q x) -> oc U Q (at_ l i).
Proof.
  intros Hi HQ. unfold at_. destruct (lookup_lt_is_Some_2 _ _ Hi) as [x Hx]. rewrite Hx. by apply HQ.
Qed.

(** ** The layout of the items *)

Definition owner (i : HID_ReportInfo_t) (id : Z) (k : nat) : Prop :=
  (id = 0 /\ k = 0%nat)
  \/ (id <> 0 /\ (k < Z.to_nat (TotalDeviceReports i))%nat
      /\ exists z, ReportIDSizes i !! k = Some z /\ Size_ReportID z = id).

(** The item lies in its report. *)
Definition fits (i : HID_ReportInfo_t) (it : HID_ReportItem_t) : Prop :=
  exists k z b, owner i (Item_ReportID it) k
    /\ ReportIDSizes i !! k = Some z /\ ReportSizeBits z !! Z.to_nat (ItemType it) = Some b
    /\ BitOffset it + BitSize (Attributes it) <= b.

Definition cur (p : parser) : HID_StateTable_t := default zero_State (StateTable p !! 0%nat).

Record info_ok (D : Z) (i : HID_ReportInfo_t) : Prop := {
  io_items : length (ReportItems i) = 20%nat /\ 0 <= TotalReportItems i <= 20;
  io_sizes : length (ReportIDSizes i) = 10%nat /\ 1 <= TotalDeviceReports i <= 10;
  io_bits k z : ReportIDSizes i !! k = Some z ->
    length (ReportSizeBits z) = 3%nat /\ Forall (fun b => 0 <= b <= D) (ReportSizeBits z);
  io_ids k1 k2 z1 z2 : (k1 < Z.to_nat (TotalDeviceReports i))%nat ->
    (k2 < Z.to_nat (TotalDeviceReports i))%nat ->
    ReportIDSizes i !! k1 = Some z1 -> ReportIDSizes i !! k2 = Some z2 ->
    Size_ReportID z1 = Size_ReportID z2 -> k1 = k2;
  io_single : UsingReportIDs i = false -> TotalDeviceReports i = 1
    /\ forall z, ReportIDSizes i !! 0%nat = Some z -> Size_ReportID z = 0;
  io_fits n it : Z.of_nat n < TotalReportItems i -> ReportItems i !! n = Some it ->
    0 <= BitOffset it /\ 0 <= BitSize (Attributes it) < 256 /\ 0 <= ItemType it < 3 /\ fits i it;
  io_apart n m it1 it2 : (n < m)%nat -> Z.of_nat m < TotalReportItems i ->
    ReportItems i !! n = Some it1 -> ReportItems i !! m = Some it2 ->
    Item_ReportID it1 = Item_ReportID it2 -> ItemType it1 = ItemType it2 ->
    BitOffset it1 + BitSize (Attributes it1) <= BitOffset it2;
}.

(** The tree of collections: a parent comes before its children, and the slots
    in use are the first ones. *)
Record paths_ok (l : list HID_CollectionPath_t) (c : option nat) : Prop := {
  pa_length : length l = 10%nat;
  pa_parent k x j : l !! k = Some x -> Parent x = Some j -> (j < k)%nat;
  pa_first k x j y : l !! k = Some x -> Parent x <> None -> (1 <= j < k)%nat ->
    l !! j = Some y -> Parent y <> None;
  pa_current k : c = Some k -> k = 0%nat \/ exists x, l !! k = Some x /\ Parent x <> None;
}.

Record parser_ok (D : Z) (p : parser) : Prop := {
  po_info : info_ok D (ParserData p);
  po_paths : paths_ok (CollectionPaths (ParserData p)) (CurrCollectionPath p);
  po_table : length (StateTable p) = 2%nat /\ CurrStateTable p = 0%nat;
  po_state : 0 <= BitSize (State_Attributes (cur p)) < 256 /\ 0 <= ReportCount (cur p) < 256;
  po_rid : (CurrReportIDInfo p < Z.to_nat (TotalDeviceReports (ParserData p)))%nat;
  po_id : owner (ParserData p) (State_ReportID (cur p)) (CurrReportIDInfo p)
    /\ (UsingReportIDs (ParserData p) = false -> State_ReportID (cur p) = 0);
  po_usages : length (UsageList p) = 8%nat /\ 0 <= UsageListSize p <= 8;
}.

Lemma curr_state_eq D p : parser_ok D p -> curr_state p = Next (cur p).
Proof.
  intros Hp. destruct (po_table D p Hp) as [Hl Hc]. unfold curr_state, cur, at_. rewrite Hc.
  by destruct (StateTable p) as [|s t].
Qed.

Lemma set_usages_ok D p l n :
  parser_ok D p -> length l = 8%nat -> 0 <= n <= 8 -> parser_ok D (set_usages l n p).
Proof. intros [] Hl Hn. by split. Qed.
Lemma set_minmax_ok D p m : parser_ok D p -> parser_ok D (set_minmax m p).
Proof. intros []. by split. Qed.

(** A change of the item state that keeps the identifier. *)
Lemma set_state_ok U D p f (Q : parser -> Prop) :
  parser_ok D p ->
  (0 <= BitSize (State_Attributes (f (cur p))) < 256 /\ 0 <= ReportCount (f (cur p)) < 256) ->
  State_ReportID (f (cur p)) = State_ReportID (cur p) ->
  (forall p', parser_ok D p' -> cur p' = f (cur p) -> UsageListSize p' = UsageListSize p -> Q p') ->
  oc U Q (set_state f p).
Proof.
  intros Hp Hf Hid HQ. unfold set_state. rewrite (curr_state_eq D p Hp). cbn.
  destruct (po_table D p Hp) as [Hl Hc]. rewrite Hc.
  set (p' := set_table _ p).
  assert (Hcur : cur p' = f (cur p)).
  { unfold cur, p', set_table. cbn [StateTable]. by rewrite list_lookup_insert_eq by lia. }
  apply HQ; [|done..]. destruct Hp. split; rewrite ?Hcur, ?Hid; try done.
  unfold p'. cbn [set_table StateTable CurrStateTable]. by rewrite length_insert.
Qed.

Lemma set_attr_ok U D p f (Q : parser -> Prop) :
  parser_ok D p -> 0 <= BitSize (f (State_Attributes (cur p))) < 256 ->
  (forall p', parser_ok D p' ->
     cur p' = mkState (f (State_Attributes (cur p))) (ReportCount (cur p)) (State_ReportID (cur p)) ->
     UsageListSize p' = UsageListSize p -> Q p') ->
  oc U Q (set_attr f p).
Proof.
  intros Hp Hf HQ. apply (set_state_ok U D); [done| |done|exact HQ]. split; [exact Hf|].
  apply (po_state D p Hp).
Qed.

(** ** Usages *)

Lemma shift_usages_ok n : forall i l,
  (i + n < length l)%nat -> exists l', shift_usages i n l = Next l' /\ length l' = length l.
Proof.
  induction n as [|n IH]; intros i l Hi; cbn [shift_usages]; [by exists l|].
  unfold at_. destruct (lookup_lt_is_Some_2 l (S i)) as [v Hv]; [lia|]. rewrite Hv. cbn.
  destruct (lookup_lt_is_Some_2 l i) as [w Hw]; [lia|]. rewrite Hw. cbn.
  destruct (IH (S i) (<[i:=v]> l)) as (l' & -> & Hl'); [rewrite length_insert; lia|].
  exists l'. by rewrite Hl', length_insert.
Qed.

(** Taking a usage reads past the array exactly when the list is full. *)
Lemma next_usage_ok D p (Q : option Z * parser -> Prop) :
  parser_ok D p ->
  (forall u p', parser_ok D p' -> ParserData p' = ParserData p -> cur p' = cur p ->
     CurrCollectionPath p' = CurrCollectionPath p -> CurrReportIDInfo p' = CurrReportIDInfo p ->
     UsageListSize p' <= UsageListSize p -> Q (u, p')) ->
  oc (UsageListSize p = HID_USAGE_STACK_DEPTH) Q (next_usage p).
Proof.
  intros Hp HQ. destruct (po_usages D p Hp) as [Hl Hn]. unfold next_usage.
  destruct (Z.eqb_spec (UsageListSize p) 0) as [H0|H0]; cbn [negb].
  - destruct (_ <=? _); cbn; apply HQ; try done. by apply set_minmax_ok.
  - apply oc_bind, oc_at; [lia|]. intros u _.
    destruct (decide (UsageListSize p = 8)) as [H8|H8].
    + unfold HID_USAGE_STACK_DEPTH. destruct (shift_usages _ _ _) eqn:E; cbn; try done.
      all: exfalso; revert E; rewrite H8; destruct (UsageList p) as [|? [|? [|? [|? [|? [|? [|? [|? [|]]]]]]]]];
        discriminate.
    + destruct (shift_usages_ok (Z.to_nat (UsageListSize p)) 0 (UsageList p)) as (l & -> & Hl'); [lia|].
      cbn. apply HQ; try done.
      * apply set_usages_ok; [done|lia|]. unfold u8. rewrite Z.mod_small by lia. lia.
      * cbn. unfold u8. rewrite Z.mod_small by lia. lia.
Qed.

Lemma item_usage_ok U D d p (Q : parser -> Prop) :
  parser_ok D p ->
  (forall p', parser_ok D p' -> cur p' = cur p -> UsageListSize p' = UsageListSize p + 1 -> Q p') ->
  oc U Q (item_usage d p).
Proof.
  intros Hp HQ. destruct (po_usages D p Hp) as [Hl Hn]. unfold item_usage, HID_USAGE_STACK_DEPTH.
  destruct (Z.eqb_spec (UsageListSize p) 8); [done|].
  apply oc_bind, oc_at; [lia|]. intros u _. cbn.
  assert (Hu : u8 (UsageListSize p + 1) = UsageListSize p + 1) by (apply Z.mod_small; lia).
  apply HQ; [|done|exact Hu]. apply set_usages_ok; [done|by rewrite length_insert|lia].
Qed.

(** ** Report identifiers *)

Lemma find_id_spec n : forall i sizes id,
  (i + n <= length sizes)%nat ->
  exists f, find_id i n sizes id = Next f
    /\ match f with
       | Some k => (i <= k < i + n)%nat /\ exists z, sizes !! k = Some z /\ Size_ReportID z = id
       | None => forall k z, (i <= k < i + n)%nat -> sizes !! k = Some z -> Size_ReportID z <> id
       end.
Proof.
  induction n as [|n IH]; intros i sizes id Hi; cbn [find_id].
  { exists None. split; [done|]. lia. }
  unfold at_. destruct (lookup_lt_is_Some_2 sizes i) as [z Hz]; [lia|]. rewrite Hz. cbn.
  destruct (Z.eqb_spec (Size_ReportID z) id) as [He|He].
  { exists (Some i). split; [done|]. split; [lia|]. by exists z. }
  destruct (IH (S i) sizes id) as (f & -> & Hf); [lia|]. exists f. split; [done|].
  destruct f as [k|].
  - destruct Hf as [Hk Hz']. split; [lia|done].
  - intros k z' Hk Hz'. destruct (decide (k = i)) as [->|Hne]; [by simplify_eq|].
    apply (Hf k); [lia|done].
Qed.

Lemma owner_unique D i id k1 k2 : info_ok D i -> owner i id k1 -> owner i id k2 -> k1 = k2.
Proof.
  intros Hi [[-> ->]|(Hn & H1 & z1 & Hz1 & He1)] [[? ->]|(? & H2 & z2 & Hz2 & He2)]; try done.
  apply (io_ids D i Hi k1 k2 z1 z2); by subst.
Qed.

(** Entries that keep their identifier and never shrink. *)
Definition grown (i i' : HID_ReportInfo_t) : Prop :=
  TotalReportItems i' = TotalReportItems i /\ ReportItems i' = ReportItems i
  /\ TotalDeviceReports i <= TotalDeviceReports i'
  /\ forall k z, (k < Z.to_nat (TotalDeviceReports i))%nat -> ReportIDSizes i !! k = Some z ->
       exists z', ReportIDSizes i' !! k = Some z'
         /\ (Size_ReportID z <> 0 -> Size_ReportID z' = Size_ReportID z)
         /\ forall t b, ReportSizeBits z !! t = Some b ->
              exists b', ReportSizeBits z' !! t = Some b' /\ b <= b'.

Lemma grown_owner i i' id k : grown i i' -> owner i id k -> owner i' id k.
Proof.
  intros (_ & _ & HT & Hz) [Hl|(Hn & Hk & z & Hzk & <-)]; [by left|].
  destruct (Hz k z Hk Hzk) as (z' & Hz' & Hid & _). right. split; [done|]. split; [lia|].
  exists z'. auto.
Qed.

Lemma grown_fits D i i' it : info_ok D i -> grown i i' -> fits i it -> fits i' it.
Proof.
  intros Hi Hg (k & z & b & Hk & Hz & Hb & Hle).
  assert (HkT : (k < Z.to_nat (TotalDeviceReports i))%nat).
  { destruct (io_sizes D i Hi). destruct Hk as [[_ ->]|(_ & ? & _)]; lia. }
  pose proof Hg as (_ & _ & _ & Hgz). destruct (Hgz k z HkT Hz) as (z' & Hz' & _ & Hbits).
  destruct (Hbits _ _ Hb) as (b' & Hb' & Hbb). exists k, z', b'.
  split_and!; [by eapply grown_owner|done|done|lia].
Qed.

(** What is left to show of a change of the entries alone. *)
Lemma grown_info_ok D D' i i' :
  info_ok D i -> grown i i' ->
  length (ReportIDSizes i') = 10%nat -> TotalDeviceReports i' <= 10 ->
  (forall k z, ReportIDSizes i' !! k = Some z ->
    length (ReportSizeBits z) = 3%nat /\ Forall (fun b => 0 <= b <= D') (ReportSizeBits z)) ->
  (forall k1 k2 z1 z2, (k1 < Z.to_nat (TotalDeviceReports i'))%nat ->
    (k2 < Z.to_nat (TotalDeviceReports i'))%nat ->
    ReportIDSizes i' !! k1 = Some z1 -> ReportIDSizes i' !! k2 = Some z2 ->
    Size_ReportID z1 = Size_ReportID z2 -> k1 = k2) ->
  (UsingReportIDs i' = false -> TotalDeviceReports i' = 1
    /\ forall z, ReportIDSizes i' !! 0%nat = Some z -> Size_ReportID z = 0) ->
  info_ok D' i'.
Proof.
  intros Hi Hg Hl HT Hb Hids Hs. pose proof Hg as (Hn & Hit & HTT & _).
  pose proof (io_items D i Hi). pose proof (io_sizes D i Hi).
  split; rewrite ?Hn, ?Hit; try done.
  - split; [done|]. lia.
  - intros n it Hlt Hin. destruct (io_fits D i Hi n it Hlt Hin) as (? & ? & ? & Hf).
    split_and!; try lia. by eapply grown_fits.
  - apply (io_apart D i Hi).
Qed.

(** Entry [k] gets the identifier [id]: one that has it or had none, or the
    next free one. *)
Lemma set_id_ok D i k T id bits :
  0 <= D -> info_ok D i -> id <> 0 ->
  TotalDeviceReports i <= T <= 10 -> (k < Z.to_nat T)%nat ->
  (if decide (k < Z.to_nat (TotalDeviceReports i))%nat
   then T = TotalDeviceReports i
        /\ exists z, ReportIDSizes i !! k = Some z /\ bits = ReportSizeBits z
             /\ (Size_ReportID z = id \/ Size_ReportID z = 0)
   else T = TotalDeviceReports i + 1 /\ bits = [0; 0; 0]) ->
  (forall j z, (j < Z.to_nat (TotalDeviceReports i))%nat -> j <> k -> ReportIDSizes i !! j = Some z ->
     Size_ReportID z <> id) ->
  let i' := set_using true (set_sizes T (<[k := mkSizeInfo id bits]> (ReportIDSizes i)) i) in
  info_ok D i' /\ owner i' id k.
Proof.
  intros HD Hi Hid HT Hk Hcase Hother i'. destruct (io_sizes D i Hi) as [Hl HT0].
  assert (Hlk : (k < length (ReportIDSizes i))%nat) by lia.
  assert (Hat : ReportIDSizes i' !! k = Some (mkSizeInfo id bits)) by by apply list_lookup_insert_eq.
  assert (Hne : forall j, j <> k -> ReportIDSizes i' !! j = ReportIDSizes i !! j)
    by (intros j Hj; by apply list_lookup_insert_ne).
  split; [|right; split_and!; [done|done|by eexists]].
  apply (grown_info_ok D D i); try done; cbn [i' set_using set_sizes TotalDeviceReports].
  - split_and!; try done; [cbn; lia|]. intros j z Hj Hz. destruct (decide (j = k)) as [->|Hjk].
    + rewrite decide_True in Hcase by done. destruct Hcase as (_ & z' & Hz' & -> & Hzid).
      rewrite Hz in Hz'. injection Hz' as <-. exists (mkSizeInfo id (ReportSizeBits z)). split; [done|]. split.
      * destruct Hzid; [done|congruence].
      * intros t b Hb. exists b. by split.
    + exists z. rewrite Hne by done. split_and!; try done. intros t b Hb. by exists b.
  - cbn. by rewrite length_insert.
  - lia.
  - intros j z Hz. destruct (decide (j = k)) as [->|Hjk]; [|apply (io_bits D i Hi j); by rewrite <- Hne].
    rewrite Hat in Hz. injection Hz as <-. cbn [ReportSizeBits]. destruct (decide _).
    + destruct Hcase as (_ & z' & Hz' & -> & _). by apply (io_bits D i Hi k).
    + destruct Hcase as [_ ->]. split; [done|]. repeat constructor; lia.
  - assert (Hold : forall j z, (j < Z.to_nat T)%nat -> j <> k -> ReportIDSizes i' !! j = Some z ->
      (j < Z.to_nat (TotalDeviceReports i))%nat /\ ReportIDSizes i !! j = Some z /\ Size_ReportID z <> id).
    { intros j z Hj Hjk Hz. rewrite Hne in Hz by done.
      assert ((j < Z.to_nat (TotalDeviceReports i))%nat) by (destruct (decide _); lia).
      split_and!; try done. by apply (Hother j). }
    intros k1 k2 z1 z2 H1 H2 Hz1 Hz2 He.
    destruct (decide (k1 = k)) as [->|N1], (decide (k2 = k)) as [->|N2]; try done.
    + rewrite Hat in Hz1. injection Hz1 as <-. by destruct (Hold k2 z2 H2 N2 Hz2) as (_ & _ & []).
    + rewrite Hat in Hz2. injection Hz2 as <-. by destruct (Hold k1 z1 H1 N1 Hz1) as (_ & _ & []).
    + destruct (Hold k1 z1 H1 N1 Hz1) as (? & ? & _), (Hold k2 z2 H2 N2 Hz2) as (? & ? & _).
      by apply (io_ids D i Hi k1 k2 z1 z2).
Qed.

Section report_id.
Context (U : Prop) (D d : Z) (p : parser) (Q : parser -> Prop).
Context (HD : 0 <= D) (Hp : parser_ok D p) (Hd : u8 d <> 0).
Context (HQ : forall p', parser_ok D p' ->
  BitSize (State_Attributes (cur p')) = BitSize (State_Attributes (cur p)) ->
  ReportCount (cur p') = ReportCount (cur p) -> UsageListSize p' = UsageListSize p -> Q p').

(** The item state and the table with the new identifier. *)
Definition id_state : HID_StateTable_t := mkState (State_Attributes (cur p)) (ReportCount (cur p)) (u8 d).
Definition id_table : list HID_StateTable_t := <[0%nat := id_state]> (StateTable p).

Lemma id_table_head : id_table !! 0%nat = Some id_state.
Proof. destruct (po_table D p Hp). apply list_lookup_insert_eq. lia. Qed.

Lemma id_parser_ok i r :
  info_ok D i -> owner i (u8 d) r -> CollectionPaths i = CollectionPaths (ParserData p) ->
  UsingReportIDs i = true -> (r < Z.to_nat (TotalDeviceReports i))%nat ->
  Q (set_info i (set_rid r (set_table id_table p))).
Proof.
  intros Hio Ho Hpa Hu Hri. set (p' := set_info _ _).
  assert (Hcur : cur p' = id_state) by (unfold cur; cbn -[id_table]; by rewrite id_table_head).
  apply HQ; rewrite ?Hcur; try done. destruct Hp. split; rewrite ?Hcur; cbn -[id_table]; try done.
  - by rewrite Hpa.
  - unfold id_table. by rewrite length_insert.
  - split; [done|]. by rewrite Hu.
Qed.

(** The last statements: entry [r] gets the identifier. *)
Lemma id_tail i r z :
  ReportIDSizes i !! r = Some z -> (r < Z.to_nat (TotalDeviceReports i))%nat ->
  CollectionPaths i = CollectionPaths (ParserData p) ->
  (let i' := set_using true (set_sizes (TotalDeviceReports i)
      (<[r := mkSizeInfo (u8 d) (ReportSizeBits z)]> (ReportIDSizes i)) i) in
   info_ok D i' /\ owner i' (u8 d) r) ->
  oc U Q (let p' := set_info i (set_rid r (set_table id_table p)) in
    z ← at_ (ReportIDSizes (ParserData p')) (CurrReportIDInfo p');
    mret (set_info (set_using true (set_sizes (TotalDeviceReports (ParserData p'))
      (<[CurrReportIDInfo p' := set_size_id (u8 d) z]> (ReportIDSizes (ParserData p'))) (ParserData p'))) p')).
Proof.
  intros Hz Hri Hpa [Hio Ho]. cbv zeta. unfold at_. cbn [ParserData CurrReportIDInfo set_info set_rid].
  rewrite Hz. by apply (id_parser_ok _ r Hio Ho).
Qed.

(** The identifier is new: the next entry. *)
Lemma id_new_entry :
  let i := ParserData p in
  let T := Z.to_nat (TotalDeviceReports i) in
  TotalDeviceReports i <> 10 ->
  (forall k z, (0 <= k < 0 + T)%nat -> ReportIDSizes i !! k = Some z -> Size_ReportID z <> u8 d) ->
  let i1 := set_sizes (TotalDeviceReports i + 1) (<[T := zero_SizeInfo]> (ReportIDSizes i)) i in
  let i' := set_using true (set_sizes (TotalDeviceReports i1)
      (<[T := mkSizeInfo (u8 d) [0; 0; 0]]> (ReportIDSizes i1)) i1) in
  info_ok D i' /\ owner i' (u8 d) T.
Proof.
  intros i T Hmax Hf i1. destruct (io_sizes D i (po_info D p Hp)) as [Hls HT].
  cbn [i1 TotalDeviceReports ReportIDSizes set_sizes]. rewrite list_insert_insert_eq.
  apply (set_id_ok D i T (TotalDeviceReports i + 1) (u8 d) [0; 0; 0]); try done; try (unfold T; lia).
  - apply (po_info D p Hp).
  - rewrite decide_False by (unfold T; lia). done.
  - intros j z Hj _ Hz. apply (Hf j z); [unfold T; lia|done].
Qed.

Lemma item_report_id_ok : oc U Q (item_report_id d p).
Proof.
  destruct (po_table D p Hp) as [Hl Hc]. pose proof (po_info D p Hp) as Hi.
  destruct (io_sizes D _ Hi) as [Hls HT]. pose proof (po_rid D p Hp) as Hr.
  unfold item_report_id, set_state. rewrite (curr_state_eq D p Hp). cbn [mbind outcome_bind mret outcome_ret].
  rewrite Hc. change (<[0%nat := _]> (StateTable p)) with id_table.
  assert (Hcs : curr_state (set_table id_table p) = Next id_state)
    by (unfold curr_state, at_; cbn [StateTable CurrStateTable set_table]; by rewrite Hc, id_table_head).
  rewrite Hcs. cbn [mbind outcome_bind State_ReportID id_state].
  change (ParserData (set_table id_table p)) with (ParserData p).
  pose proof id_new_entry as Hnew. set (i := ParserData p) in *.
  destruct (UsingReportIDs i) eqn:Eu.
  - destruct (find_id_spec (Z.to_nat (TotalDeviceReports i)) 0 (ReportIDSizes i) (u8 d)) as (f & -> & Hf); [lia|].
    cbn [mbind outcome_bind]. destruct f as [k|].
    + destruct Hf as (Hk & z & Hz & He). apply (id_tail i k z Hz); [lia|done|].
      apply set_id_ok; try done; [lia|lia|rewrite decide_True by lia; split; [done|]; eauto|].
      intros j z' Hj Hjk Hz' He'. apply Hjk. apply (io_ids D i Hi j k z' z); (done || lia || congruence).
    + destruct (Z.eqb_spec (TotalDeviceReports i) (Z.of_nat HID_MAX_REPORT_IDS)) as [|Hmax]; [done|].
      unfold HID_MAX_REPORT_IDS in Hmax. set (T := Z.to_nat (TotalDeviceReports i)) in *.
      destruct (lookup_lt_is_Some_2 (ReportIDSizes i) T) as [z0 Hz0]; [lia|].
      assert (Hat : at_ (ReportIDSizes i) T = Next z0) by (unfold at_; by rewrite Hz0).
      rewrite Hat. cbn [mbind outcome_bind mret outcome_ret].
      assert (HT1 : u8 (TotalDeviceReports i + 1) = TotalDeviceReports i + 1) by (apply Z.mod_small; lia).
      rewrite HT1. apply (id_tail (set_sizes (TotalDeviceReports i + 1) (<[T:=zero_SizeInfo]> (ReportIDSizes i)) i)
        T zero_SizeInfo); [by apply list_lookup_insert_eq; lia|cbn; lia|done|by apply Hnew].
  - destruct (io_single D i Hi Eu) as [HT1 Hz0].
    destruct (lookup_lt_is_Some_2 (ReportIDSizes i) 0) as [z Hz]; [lia|].
    assert (Hr0 : CurrReportIDInfo p = 0%nat) by lia.
    rewrite <- Hr0 in Hz. apply (id_tail i (CurrReportIDInfo p) z Hz); [lia|done|].
    apply set_id_ok; try done; try lia.
    rewrite decide_True by lia. split; [done|]. exists z. split_and!; try done. right. apply Hz0.
    by rewrite <- Hr0.
Qed.
End report_id.

(** ** Collections *)

Lemma free_path_spec n : forall i paths,
  (i + n < length paths)%nat ->
  exists f, free_path i n paths = Next f
    /\ match f with
       | Some k => (i <= k <= i + n)%nat /\ (exists x, paths !! k = Some x /\ Parent x = None)
                   /\ forall j x, (i <= j < k)%nat -> paths !! j = Some x -> Parent x <> None
       | None => True
       end.
Proof.
  induction n as [|n IH]; intros i paths Hi; cbn [free_path]; unfold at_;
    (destruct (lookup_lt_is_Some_2 paths i) as [c Hc]; [lia|]); rewrite Hc; cbn [mbind outcome_bind];
    (destruct (Parent c) eqn:Ep;
     [|exists (Some i); split; [done|]; split; [lia|]; split; [by exists c|intros; lia]]).
  { by exists None. }
  destruct (IH (S i) paths) as (f & -> & Hf); [lia|]. exists f. split; [done|].
  destruct f as [k|]; [|done]. destruct Hf as (Hk & Hx & Hj). split; [lia|]. split; [done|].
  intros j x Hji Hjx. destruct (decide (j = i)) as [->|]; [congruence|]. apply (Hj j); [lia|done].
Qed.

Lemma paths_info_ok D i l : info_ok D i -> info_ok D (set_paths l i).
Proof. intros []. by split. Qed.

Lemma set_path_ok D p l c :
  parser_ok D p -> paths_ok l c -> parser_ok D (set_path c (set_info (set_paths l (ParserData p)) p)).
Proof. intros [] Hl. split; try done. by apply paths_info_ok. Qed.

(** The tree with slot [k] given a parent, or other fields. *)
Lemma paths_open l c k k0 ty u :
  paths_ok l c -> c = Some k0 -> (1 <= k)%nat ->
  (exists x, l !! k = Some x /\ Parent x = None) ->
  (forall j x, (1 <= j < k)%nat -> l !! j = Some x -> Parent x <> None) ->
  paths_ok (<[k := mkPath ty u (Some k0)]> l) (Some k).
Proof.
  intros Hl -> Hk (x & Hx & Hpx) Hbefore. destruct Hl as [Hlen Hpar Hfirst Hcur].
  assert (Hlt : (k < length l)%nat) by (apply lookup_lt_Some in Hx; done).
  assert (Hk0 : (k0 < k)%nat).
  { destruct (Hcur k0 eq_refl) as [->|(y & Hy & Hpy)]; [lia|].
    destruct (decide (k0 < k)%nat); [done|]. exfalso.
    destruct (decide (k0 = k)) as [->|]; [congruence|].
    apply (Hfirst k0 y k x Hy Hpy); [lia|done..]. }
  split.
  - by rewrite length_insert.
  - intros j y i Hy Hi. destruct (decide (j = k)) as [->|].
    + rewrite list_lookup_insert_eq in Hy by done. injection Hy as <-. by injection Hi as <-.
    + rewrite list_lookup_insert_ne in Hy by done. by eapply Hpar.
  - intros i y j z Hy Hpy Hj Hz. destruct (decide (j = k)) as [->|].
    + rewrite list_lookup_insert_eq in Hz by done. by injection Hz as <-.
    + rewrite list_lookup_insert_ne in Hz by done. destruct (decide (i = k)) as [->|].
      * by apply (Hbefore j).
      * rewrite list_lookup_insert_ne in Hy by done. by apply (Hfirst i y j z).
  - intros i [= <-]. right. eexists. rewrite list_lookup_insert_eq by done. by split.
Qed.

Lemma paths_same l c k x ty u :
  paths_ok l c -> l !! k = Some x -> paths_ok (<[k := mkPath ty u (Parent x)]> l) c.
Proof.
  intros [Hlen Hpar Hfirst Hcur] Hx. assert (Hlt : (k < length l)%nat) by (apply lookup_lt_Some in Hx; done).
  assert (Hlook : forall j y, <[k := mkPath ty u (Parent x)]> l !! j = Some y ->
    exists y', l !! j = Some y' /\ Parent y' = Parent y).
  { intros j y Hy. destruct (decide (j = k)) as [->|].
    - rewrite list_lookup_insert_eq in Hy by done. exists x. by injection Hy as <-.
    - rewrite list_lookup_insert_ne in Hy by done. by exists y. }
  split.
  - by rewrite length_insert.
  - intros j y i Hy Hi. destruct (Hlook j y Hy) as (y' & Hy' & He). rewrite <- He in Hi. by eapply Hpar.
  - intros i y j z Hy Hpy Hj Hz. destruct (Hlook i y Hy) as (y' & Hy' & He).
    destruct (Hlook j z Hz) as (z' & Hz' & <-). apply (Hfirst i y' j z'); [done|by rewrite He|done..].
  - intros i ->. destruct (Hcur i eq_refl) as [->|(y & Hy & Hpy)]; [by left|]. right.
    destruct (decide (i = k)) as [->|].
    + eexists. rewrite list_lookup_insert_eq by done. split; [done|]. cbn. congruence.
    + exists y. by rewrite list_lookup_insert_ne.
Qed.

Lemma open_path_ok U D p (Q : parser -> Prop) :
  parser_ok D p ->
  (forall p' k, parser_ok D p' -> cur p' = cur p -> UsageListSize p' = UsageListSize p ->
     CurrCollectionPath p' = Some k -> (k < 10)%nat -> Q p') ->
  oc U Q (open_path p).
Proof.
  intros Hp HQ. pose proof (po_paths D p Hp) as Hpa. pose proof (pa_length _ _ Hpa) as Hlen. unfold open_path.
  destruct (CurrCollectionPath p) as [k0|] eqn:Ec.
  - destruct (free_path_spec (HID_MAX_COLLECTIONS - 2) 1 (CollectionPaths (ParserData p)))
      as (f & -> & Hf); [rewrite Hlen; cbn; lia|].
    cbn. destruct f as [k|]; [|done]. destruct Hf as (Hk & (x & Hx & Hpx) & Hj).
    unfold at_. rewrite Hx. cbn. eapply HQ; [|done|done|reflexivity|cbn in Hk; lia].
    apply set_path_ok; [done|]. apply (paths_open _ _ k k0 _ _ Hpa); try done; [lia|]. by exists x.
  - cbn. eapply (HQ _ 0%nat); [|done|done|reflexivity|lia].
    destruct Hp. destruct Hpa. split; try done. split; try done. intros k [= <-]. by left.
Qed.

Lemma item_collection_ok D d p (Q : parser -> Prop) :
  parser_ok D p ->
  (forall p', parser_ok D p' -> cur p' = cur p -> Q p') ->
  oc (UsageListSize p = HID_USAGE_STACK_DEPTH) Q (item_collection d p).
Proof.
  intros Hp HQ. apply oc_bind, (open_path_ok _ D p); [done|]. intros p1 k Hp1 Hc1 Hu1 Hk Hk10.
  rewrite Hk, (curr_state_eq D p1 Hp1). cbn [mbind outcome_bind].
  pose proof (po_paths D p1 Hp1) as Hpa. apply oc_bind, oc_at; [by rewrite (pa_length _ _ Hpa)|].
  intros c Hc. apply oc_bind. rewrite <- Hu1. apply (next_usage_ok D); [done|].
  intros u p2 Hp2 Hi2 Hc2 Hpt2 Hr2 _. cbn. apply HQ; [|by rewrite <- Hc1, <- Hc2].
  rewrite Hi2.
  assert (Hok : paths_ok (<[k := mkPath (u8 d) (mkUsage (Page (Usage (State_Attributes (cur p1))))
    (default (Usage_Usage (Path_Usage c)) u)) (Parent c)]> (CollectionPaths (ParserData p1))) (CurrCollectionPath p2))
    by (rewrite Hpt2; by apply paths_same).
  pose proof (set_path_ok D p2 _ _ Hp2 Hok) as H. rewrite Hi2 in H. by destruct p2.
Qed.

Lemma item_end_collection_ok U D p (Q : parser -> Prop) :
  parser_ok D p -> (forall p', parser_ok D p' -> cur p' = cur p -> Q p') ->
  oc U Q (item_end_collection p).
Proof.
  intros Hp HQ. pose proof (po_paths D p Hp) as Hpa. unfold item_end_collection.
  destruct (CurrCollectionPath p) as [k|] eqn:Ec; [|done].
  assert (Hk : (k < 10)%nat).
  { destruct (pa_current _ _ Hpa k) as [->|(x & Hx & _)]; [done|lia|].
    apply lookup_lt_Some in Hx. by rewrite (pa_length _ _ Hpa) in Hx. }
  apply oc_bind, oc_at; [by rewrite (pa_length _ _ Hpa)|]. intros c Hc. cbn. apply HQ; [|done].
  destruct Hp. destruct Hpa as [Hl Hpar Hfirst Hcur]. split; try done. split; try done.
  cbn [set_path CurrCollectionPath ParserData]. intros j Hj. destruct j as [|j]; [by left|]. right.
  pose proof (Hpar k c (S j) Hc Hj) as Hlt.
  destruct (lookup_lt_is_Some_2 (CollectionPaths (ParserData p)) (S j)) as [y Hy]; [lia|].
  exists y. split; [done|]. apply (Hfirst k c (S j) y); [done|congruence|lia|done].
Qed.

(** ** Report items *)

Lemma store_item_ok D i it (c : bool) :
  info_ok D i -> TotalReportItems i < 20 ->
  0 <= BitOffset it /\ 0 <= BitSize (Attributes it) < 256 /\ 0 <= ItemType it < 3 /\ fits i it ->
  (forall n it1, Z.of_nat n < TotalReportItems i -> ReportItems i !! n = Some it1 ->
     Item_ReportID it1 = Item_ReportID it -> ItemType it1 = ItemType it ->
     BitOffset it1 + BitSize (Attributes it1) <= BitOffset it) ->
  info_ok D (set_items (if c then u8 (TotalReportItems i + 1) else TotalReportItems i)
    (<[Z.to_nat (TotalReportItems i) := it]> (ReportItems i)) i).
Proof.
  intros Hi HT Hit Hbefore. destruct (io_items D i Hi) as [Hl H0]. set (T := TotalReportItems i) in *.
  assert (HT1 : u8 (T + 1) = T + 1) by (apply Z.mod_small; lia). rewrite HT1.
  assert (Hold : forall n x, Z.of_nat n < T -> <[Z.to_nat T := it]> (ReportItems i) !! n = Some x ->
    ReportItems i !! n = Some x) by (intros n x Hn; by rewrite list_lookup_insert_ne by lia).
  assert (Hnew : forall n x, Z.of_nat n < (if c then T + 1 else T) ->
    <[Z.to_nat T := it]> (ReportItems i) !! n = Some x -> Z.of_nat n < T \/ x = it).
  { intros n x Hn Hx. destruct (decide (Z.of_nat n < T)) as [|Hge]; [by left|]. right.
    assert (n = Z.to_nat T) as -> by (destruct c; lia).
    rewrite list_lookup_insert_eq in Hx by lia. by injection Hx. }
  destruct Hi. split; try done; cbn [set_items ReportItems TotalReportItems].
  - rewrite length_insert. split; [done|]. destruct c; lia.
  - intros n x Hn Hx. destruct (Hnew n x Hn Hx) as [Hlt| ->]; [|exact Hit].
    apply (io_fits0 n x Hlt). by apply Hold.
  - intros n m x1 x2 Hnm Hm H1 H2 Hid Hty.
    assert (Hn : Z.of_nat n < T) by (destruct c; lia).
    destruct (Hnew m x2 Hm H2) as [Hlt| ->].
    + apply (io_apart0 n m x1 x2 Hnm Hlt); auto.
    + apply (Hbefore n x1 Hn); auto.
Qed.

Lemma item_type_range it : 0 <= item_type it < 3.
Proof. unfold item_type. cbv zeta. repeat case_match; unfold HID_REPORT_ITEM_In, HID_REPORT_ITEM_Out, HID_REPORT_ITEM_Feature; lia. Qed.

(** An entry whose size grows by [s] bits. *)
Lemma grow_entry D i k z ty b s :
  info_ok D i -> (k < Z.to_nat (TotalDeviceReports i))%nat -> ReportIDSizes i !! k = Some z ->
  ReportSizeBits z !! ty = Some b -> 0 <= s ->
  let i' := set_sizes (TotalDeviceReports i)
    (<[k := set_size_bits (<[ty := b + s]> (ReportSizeBits z)) z]> (ReportIDSizes i)) i in
  info_ok (D + s) i' /\ grown i i'.
Proof.
  intros Hi Hk Hz Hb Hs i'. destruct (io_sizes D i Hi) as [Hl HT].
  assert (Hlook : forall j y, ReportIDSizes i' !! j = Some y ->
    exists y', ReportIDSizes i !! j = Some y' /\ Size_ReportID y' = Size_ReportID y
      /\ (y = y' \/ y = set_size_bits (<[ty := b + s]> (ReportSizeBits y')) y' /\ ReportSizeBits y' !! ty = Some b)).
  { intros j y Hy. destruct (decide (j = k)) as [->|].
    - cbn in Hy. rewrite list_lookup_insert_eq in Hy by lia. injection Hy as <-. exists z. auto.
    - cbn in Hy. rewrite list_lookup_insert_ne in Hy by done. exists y. auto. }
  assert (Hg : grown i i').
  { split_and!; try done. intros j y Hj Hy. destruct (decide (j = k)) as [->|].
    - rewrite Hz in Hy. injection Hy as <-. eexists. cbn. rewrite list_lookup_insert_eq by lia.
      split; [done|]. split; [done|]. intros t c Hc. destruct (decide (t = ty)) as [->|].
      + rewrite Hb in Hc. injection Hc as <-. exists (b + s). split; [|lia].
        apply list_lookup_insert_eq. by apply lookup_lt_Some in Hb.
      + exists c. cbn. by rewrite list_lookup_insert_ne.
    - exists y. cbn. rewrite list_lookup_insert_ne by done. split_and!; try done. intros t c Hc. by exists c. }
  split; [|exact Hg]. apply (grown_info_ok D _ i); try done.
  - cbn. by rewrite length_insert.
  - cbn. lia.
  - intros j y Hy. destruct (Hlook j y Hy) as (y' & Hy' & _ & Hcase).
    destruct (io_bits D i Hi j y' Hy') as [Hl3 Hf].
    assert (Hf' : Forall (fun b => 0 <= b <= D + s) (ReportSizeBits y'))
      by (refine (List.Forall_impl _ _ Hf); cbn; lia).
    destruct Hcase as [->|[-> Hb']]; [done|]. cbn. rewrite length_insert. split; [done|].
    apply Forall_insert; [done|]. pose proof (Forall_lookup_1 _ _ _ _ Hf Hb'). cbn in *. lia.
  - intros k1 k2 y1 y2 H1 H2 Hy1 Hy2 He. destruct (Hlook k1 y1 Hy1) as (y1' & Hy1' & He1 & _).
    destruct (Hlook k2 y2 Hy2) as (y2' & Hy2' & He2 & _).
    apply (io_ids D i Hi k1 k2 y1' y2'); (done || congruence).
  - intros Hu. destruct (io_single D i Hi Hu) as [? H0]. split; [done|]. intros y Hy.
    destruct (Hlook 0%nat y Hy) as (y' & Hy' & <- & _). by apply H0.
Qed.

(** A new item at the end of its report. *)
Lemma new_item_ok D i k z b new (c : bool) :
  info_ok D i -> (k < Z.to_nat (TotalDeviceReports i))%nat -> ReportIDSizes i !! k = Some z ->
  let ty := Z.to_nat (ItemType new) in
  let sz := BitSize (Attributes new) in
  ReportSizeBits z !! ty = Some b -> owner i (Item_ReportID new) k ->
  BitOffset new = b -> 0 <= sz < 256 -> 0 <= ItemType new < 3 -> TotalReportItems i < 20 ->
  let i' := set_sizes (TotalDeviceReports i)
    (<[k := set_size_bits (<[ty := b + sz]> (ReportSizeBits z)) z]> (ReportIDSizes i)) i in
  info_ok (D + sz) (set_items (if c then u8 (TotalReportItems i' + 1) else TotalReportItems i')
    (<[Z.to_nat (TotalReportItems i') := new]> (ReportItems i')) i').
Proof.
  intros Hi Hk Hz ty sz Hb Hown Hoff Hsz Hty HT i'.
  destruct (grow_entry D i k z ty b sz Hi Hk Hz Hb ltac:(lia)) as [Hi' Hg].
  destruct (io_sizes D i Hi) as [Hl HTT].
  pose proof (Forall_lookup_1 _ _ _ _ (proj2 (io_bits D i Hi k z Hz)) Hb) as Hbr. cbn in Hbr.
  apply store_item_ok; [done|done| |].
  - split_and!; try lia.
    exists k, (set_size_bits (<[ty := b + sz]> (ReportSizeBits z)) z), (b + sz).
    split_and!; [by eapply grown_owner|by apply list_lookup_insert_eq; lia| |rewrite Hoff; unfold sz; lia].
    apply list_lookup_insert_eq. by apply lookup_lt_Some in Hb.
  - intros n x Hn Hx Hid Hxt.
    destruct (io_fits D i Hi n x Hn Hx) as (_ & _ & _ & k' & z' & b' & Ho & Hz' & Hb' & Hle).
    rewrite Hid in Ho. assert (k' = k) as -> by exact (owner_unique D i _ _ _ Hi Ho Hown).
    rewrite Hz in Hz'. injection Hz' as <-. rewrite Hxt in Hb'. unfold ty in Hb. rewrite Hb in Hb'.
    injection Hb' as <-. by rewrite Hoff.
Qed.

Lemma set_largest_ok D i n : info_ok D i -> info_ok D (set_largest n i).
Proof. intros []. by split. Qed.

Lemma add_item_ok V0 PV0 filter D it d p (Q : parser -> Prop) :
  parser_ok D p -> D + BitSize (State_Attributes (cur p)) < 2 ^ 16 ->
  (forall p', parser_ok (D + BitSize (State_Attributes (cur p))) p' -> cur p' = cur p ->
     UsageListSize p' <= UsageListSize p -> Q p') ->
  oc (UsageListSize p = HID_USAGE_STACK_DEPTH) Q (add_item V0 PV0 filter it d p).
Proof.
  intros Hp HD HQ. unfold add_item. rewrite (curr_state_eq D p Hp). cbn [mbind outcome_bind].
  set (s := cur p) in *. set (sz := BitSize (State_Attributes s)) in *.
  destruct (po_state D p Hp) as [Hsz _]. fold s sz in Hsz.
  apply oc_bind, (next_usage_ok D); [done|]. intros u p1 Hp1 Hi1 Hc1 Hpt1 Hr1 Hu1.
  pose proof (po_info D p1 Hp1) as Hi. set (i := ParserData p1) in *. set (k := CurrReportIDInfo p1).
  pose proof (po_rid D p1 Hp1 : (k < Z.to_nat (TotalDeviceReports i))%nat) as Hk.
  destruct (io_sizes D i Hi) as [Hl HT]. apply oc_bind, oc_at; [lia|]. intros z Hz.
  destruct (io_bits D i Hi k z Hz) as [Hl3 Hfa]. pose proof (item_type_range it) as Hty.
  apply oc_bind, oc_at; [lia|]. intros b Hb. pose proof (Forall_lookup_1 _ _ _ _ Hfa Hb) as Hbr. cbn in Hbr.
  assert (Hwrap : u16 (b + sz) = b + sz) by (apply Z.mod_small; lia). rewrite Hwrap.
  set (i' := set_sizes _ _ i). set (new := mkItem _ _ _ _ _ _ _ _). set (c := _ && _).
  cbn [set_largest TotalReportItems ReportItems TotalDeviceReports]. destruct (io_items _ i Hi) as [Hl20 H20].
  destruct (Z.eqb_spec (TotalReportItems i') (Z.of_nat HID_MAX_REPORTITEMS)) as [|Hfull]; [done|].
  change (TotalReportItems i') with (TotalReportItems i) in *. unfold HID_MAX_REPORTITEMS in Hfull.
  apply oc_bind, oc_at; [change (ReportItems i') with (ReportItems i); lia|]. intros _ _.
  pose proof (po_id D p1 Hp1) as [Hown Hnoid]. rewrite Hc1 in Hown. fold i k s in Hown.
  pose proof (new_item_ok D i k z b new c Hi Hk Hz Hb Hown eq_refl Hsz Hty ltac:(lia)) as Hst.
  apply (set_largest_ok _ _ (Z.max (LargestReportSizeBits i') (b + sz))) in Hst.
  pose proof (po_paths D p1 Hp1) as Hpa. apply HQ; [|done|done].
  destruct (grow_entry D i k z _ b sz Hi Hk Hz Hb ltac:(lia)) as [_ Hg].
  pose proof (grown_owner _ _ _ _ Hg Hown) as Hown'. unfold s in Hown'. rewrite <- Hc1 in Hown'.
  destruct Hp1. split; try done.
Qed.

Lemma add_items_ok V0 PV0 filter it d n : forall D p (Q : parser -> Prop),
  parser_ok D p -> D + Z.of_nat n * BitSize (State_Attributes (cur p)) < 2 ^ 16 ->
  (forall p', parser_ok (D + Z.of_nat n * BitSize (State_Attributes (cur p))) p' -> cur p' = cur p -> Q p') ->
  oc (UsageListSize p >= HID_USAGE_STACK_DEPTH) Q (add_items V0 PV0 filter n it d p).
Proof.
  induction n as [|n IH]; intros D p Q Hp HD HQ; cbn [add_items].
  - apply HQ; [|done]. by rewrite Z.add_0_r.
  - set (sz := BitSize _) in *. destruct (po_state D p Hp) as [Hsz _]. fold sz in Hsz. apply oc_bind.
    eapply oc_mono; [apply (add_item_ok _ _ _ D _ _ _ (fun p' => parser_ok (D + sz) p' /\ cur p' = cur p
      /\ UsageListSize p' <= UsageListSize p)); [done|fold sz; nia|done]|lia|].
    intros p1 (Hp1 & Hc1 & Hu1). eapply oc_mono; [apply (IH (D + sz) p1 Q Hp1)| |auto].
    + rewrite Hc1. fold sz. lia.
    + intros p' Hp' Hc'. apply HQ; [|congruence]. rewrite Hc1 in Hp'. fold sz in Hp'.
      replace (D + Z.of_nat (S n) * sz) with (D + sz + Z.of_nat n * sz) by lia. done.
    + lia.
Qed.

(** ** One item of the descriptor *)

Lemma type_of_tag it : Z.land it HID_RI_TYPE_MASK = Z.land (tag_of it) HID_RI_TYPE_MASK.
Proof. unfold tag_of. by rewrite <- Z.land_assoc. Qed.

(** The size, the count and the pending usages after an item. *)
Definition size_after (it d size : Z) : Z := if tag_of it =? HID_RI_REPORT_SIZE then u8 d else size.
Definition count_after (it d count : Z) : Z := if tag_of it =? HID_RI_REPORT_COUNT then u8 d else count.
Definition usages_after (it usages : Z) : Z :=
  if Z.land it HID_RI_TYPE_MASK =? HID_RI_TYPE_MAIN then 0
  else if tag_of it =? HID_RI_USAGE then usages + 1 else usages.
Definition bits_of (it size count : Z) : Z := if is_data it then count * size else 0.

(** What holds of the parser after the switch of an item. *)
Definition switched (D it d : Z) (p p' : parser) : Prop :=
  parser_ok (D + bits_of it (BitSize (State_Attributes (cur p))) (ReportCount (cur p))) p'
  /\ BitSize (State_Attributes (cur p')) = size_after it d (BitSize (State_Attributes (cur p)))
  /\ ReportCount (cur p') = count_after it d (ReportCount (cur p))
  /\ (Z.land it HID_RI_TYPE_MASK <> HID_RI_TYPE_MAIN -> UsageListSize p' = usages_after it (UsageListSize p)).

(** A branch of the switch whose tag is known. *)
Ltac tag_simpl it Ht :=
  unfold switched, size_after, count_after, usages_after, bits_of, is_data;
  rewrite ?(type_of_tag it), ?Ht;
  repeat match goal with
    |- context [?a =? ?b] => let v := eval vm_compute in (a =? b) in change (a =? b) with v
  end; cbn [orb]; rewrite ?Z.add_0_r.

(** A tag that declares neither a size, a count, a usage nor data. *)
Definition plain_tag (t : Z) : bool :=
  negb (existsb (Z.eqb t) [HID_RI_REPORT_SIZE; HID_RI_REPORT_COUNT; HID_RI_USAGE; HID_RI_INPUT;
                           HID_RI_OUTPUT; HID_RI_FEATURE]).

Lemma plain_branch D it d p p' :
  plain_tag (tag_of it) = true ->
  parser_ok D p' -> BitSize (State_Attributes (cur p')) = BitSize (State_Attributes (cur p)) ->
  ReportCount (cur p') = ReportCount (cur p) ->
  (Z.land it HID_RI_TYPE_MASK <> HID_RI_TYPE_MAIN -> UsageListSize p' = UsageListSize p) ->
  switched D it d p p'.
Proof.
  intros Ht%negb_true_iff Hp Hs Hc Hu. unfold switched, size_after, count_after, usages_after, bits_of, is_data.
  cbn [existsb] in Ht. repeat (apply orb_false_elim in Ht as [? Ht]).
  repeat match goal with E : (tag_of it =? _) = false |- _ => rewrite E; clear E end.
  cbn [orb]. rewrite Z.add_0_r. split_and!; try done.
  intros Hm. rewrite (proj2 (Z.eqb_neq _ _) Hm). auto.
Qed.

Lemma attr_branch U D it d p f :
  plain_tag (tag_of it) = true -> parser_ok D p -> (forall a, BitSize (f a) = BitSize a) ->
  oc U (switched D it d p) (set_attr f p).
Proof.
  intros Ht Hp Hf. apply (set_attr_ok U D); [done|rewrite Hf; apply (po_state D p Hp)|].
  intros p' Hp' Hc Hu. apply plain_branch; rewrite ?Hc; cbn; auto.
Qed.

Lemma page_branch U D it d p v w :
  plain_tag (tag_of it) = true -> parser_ok D p ->
  let page v := set_attr (fun a => mkAttributes (BitSize a) (mkUsage v (Usage_Usage (Usage a)))
    (Unit a) (Logical a) (Physical a)) in
  oc U (switched D it d p) (p ← (if Z.land it HID_RI_DATA_SIZE_MASK =? HID_RI_DATA_BITS_32
                                 then page v p else mret p); page w p).
Proof.
  intros Ht Hp page. apply oc_bind. destruct (_ =? _); [|by apply attr_branch].
  apply (set_attr_ok U D); [done|apply (po_state D p Hp)|]. intros p1 Hp1 Hc1 Hu1.
  apply (set_attr_ok U D); [done|apply (po_state D p1 Hp1)|]. intros p2 Hp2 Hc2 Hu2.
  apply plain_branch; rewrite ?Hc2, ?Hc1; cbn; try done. intros _. congruence.
Qed.

(** The data items: the whole count, unless a usage is taken from a full list. *)
Lemma data_branch V0 PV0 filter D it d p :
  is_data it = true -> parser_ok D p ->
  D + bits_of it (BitSize (State_Attributes (cur p))) (ReportCount (cur p)) < 2 ^ 16 ->
  oc (Z.land it HID_RI_TYPE_MASK = HID_RI_TYPE_MAIN /\ UsageListSize p >= HID_USAGE_STACK_DEPTH)
     (switched D it d p) (s ← curr_state p; add_items V0 PV0 filter (Z.to_nat (ReportCount s)) it d p).
Proof.
  intros Hdata Hp Hb. rewrite (curr_state_eq D p Hp). cbn [mbind outcome_bind].
  destruct (po_state D p Hp) as [_ Hcnt].
  assert (Hmain : Z.land it HID_RI_TYPE_MASK = HID_RI_TYPE_MAIN
    /\ tag_of it <> HID_RI_REPORT_SIZE /\ tag_of it <> HID_RI_REPORT_COUNT).
  { rewrite type_of_tag. unfold is_data in Hdata.
    apply orb_true_iff in Hdata as [[Ht|Ht]%orb_true_iff|Ht]; apply Z.eqb_eq in Ht; by rewrite Ht. }
  destruct Hmain as (Hm & Hns & Hnc). unfold bits_of in Hb. rewrite Hdata in Hb.
  eapply oc_mono; [apply (add_items_ok V0 PV0 filter it d _ D p (switched D it d p) Hp)|done|done].
  - rewrite Z2Nat.id by lia. exact Hb.
  - intros p' Hp' Hc. rewrite Z2Nat.id in Hp' by lia. unfold switched, bits_of, size_after, count_after.
    rewrite Hdata, Hc, (proj2 (Z.eqb_neq _ _) Hns), (proj2 (Z.eqb_neq _ _) Hnc). by split_and!.
Qed.

(** PUSH copies a [HID_ReportItem_t] between two smaller [HID_StateTable_t]. *)
Lemma item_push_undef p : CurrStateTable p = 0%nat -> item_push p = Undef.
Proof. intros Hc. unfold item_push. rewrite Hc. reflexivity. Qed.

Lemma item_switch_ok V0 PV0 filter D it d p :
  parser_ok D p -> 0 <= D -> (tag_of it = HID_RI_REPORT_ID -> u8 d <> 0) ->
  D + bits_of it (BitSize (State_Attributes (cur p))) (ReportCount (cur p)) < 2 ^ 16 ->
  oc (tag_of it = HID_RI_PUSH
      \/ Z.land it HID_RI_TYPE_MASK = HID_RI_TYPE_MAIN /\ UsageListSize p >= HID_USAGE_STACK_DEPTH)
     (switched D it d p) (item_switch V0 PV0 filter it d p).
Proof.
  intros Hp HD Hid Hbits. destruct (po_state D p Hp) as [Hsz Hcnt]. pose proof (u8_range d) as Hd.
  unfold item_switch. fold (tag_of it). cbv zeta.
  repeat (lazymatch goal with |- context [if tag_of it =? ?t then _ else _] =>
    destruct (Z.eqb_spec (tag_of it) t) as [Ht|?] end; [|]).
  - rewrite item_push_undef by apply (po_table D p Hp). left. exact Ht.
  - unfold item_pop. rewrite (proj2 (po_table D p Hp)). discriminate.
  - apply (page_branch _ D it d p (u16 (Z.shiftr d 16)) (u16 d)); [by rewrite Ht|done].
  - apply attr_branch; by rewrite ?Ht.
  - apply attr_branch; by rewrite ?Ht.
  - apply attr_branch; by rewrite ?Ht.
  - apply attr_branch; by rewrite ?Ht.
  - apply attr_branch; by rewrite ?Ht.
  - apply attr_branch; by rewrite ?Ht.
  - apply (set_attr_ok _ D); [done|done|]. intros p' Hp' Hc Hu. tag_simpl it Ht. rewrite Hc. by split_and!.
  - apply (set_state_ok _ D); [done|done|done|]. intros p' Hp' Hc Hu. tag_simpl it Ht. rewrite Hc. by split_and!.
  - apply (item_report_id_ok _ D); auto. intros p' Hp' Hs Hc Hu. apply plain_branch; by rewrite ?Ht.
  - apply (item_usage_ok _ D); auto. intros p' Hp' Hc Hu. tag_simpl it Ht. rewrite Hc. by split_and!.
  - apply plain_branch; rewrite ?Ht; try done. by apply set_minmax_ok.
  - apply plain_branch; rewrite ?Ht; try done. by apply set_minmax_ok.
  - eapply oc_mono; [apply (item_collection_ok D d p (switched D it d p)); [done|]| |done].
    + intros p' Hp' Hc. apply plain_branch; rewrite ?Ht, ?Hc; try done.
      rewrite type_of_tag, Ht. by intros [].
    + intros Hu. right. rewrite type_of_tag, Ht, Hu. by split.
  - apply (item_end_collection_ok _ D); [done|]. intros p' Hp' Hc.
    apply plain_branch; rewrite ?Ht, ?Hc; try done. rewrite type_of_tag, Ht. by intros [].
  - fold (is_data it). destruct (is_data it) eqn:Ed.
    + eapply oc_mono; [apply (data_branch _ _ _ D); done|by right|done].
    + cbn. unfold switched, size_after, count_after, usages_after, bits_of. rewrite Ed, Z.add_0_r.
      rewrite !(proj2 (Z.eqb_neq _ _)) by done. split_and!; try done. intros Hm.
      by rewrite (proj2 (Z.eqb_neq _ _) Hm), (proj2 (Z.eqb_neq (tag_of it) HID_RI_USAGE)).
Qed.

Lemma hid_item_ok V0 PV0 filter D it d p :
  parser_ok D p -> 0 <= D -> (tag_of it = HID_RI_REPORT_ID -> u8 d <> 0) ->
  D + bits_of it (BitSize (State_Attributes (cur p))) (ReportCount (cur p)) < 2 ^ 16 ->
  oc (tag_of it = HID_RI_PUSH
      \/ Z.land it HID_RI_TYPE_MASK = HID_RI_TYPE_MAIN /\ UsageListSize p >= HID_USAGE_STACK_DEPTH)
     (fun p' => switched D it d p p' /\ UsageListSize p' = usages_after it (UsageListSize p))
     (hid_item V0 PV0 filter it d p).
Proof.
  intros Hp HD Hid Hb. unfold hid_item. apply oc_bind.
  eapply oc_mono; [by apply (item_switch_ok V0 PV0 filter D)|done|].
  intros p' (Hp' & Hs & Hc & Hu). cbn [mret outcome_ret oc].
  destruct (Z.eqb_spec (Z.land it HID_RI_TYPE_MASK) HID_RI_TYPE_MAIN) as [Hm|Hm].
  - split; [|unfold usages_after; by rewrite Hm]. split_and!; try done.
    apply set_usages_ok; [by apply set_minmax_ok| |lia]. apply (po_usages _ _ Hp').
  - split; [by split_and!|auto].
Qed.

(** ** The whole descriptor *)

(** The parser over decoded items. *)
Definition run_items V0 PV0 filter (its : list (Z * Z)) (p : parser) : outcome parser :=
  foldl (fun o x => p ← o; hid_item V0 PV0 filter (fst x) (snd x) p) (Next p) its.

Lemma run_items_cons V0 PV0 filter it d its p :
  run_items V0 PV0 filter ((it, d) :: its) p =
  (p ← hid_item V0 PV0 filter it d p; run_items V0 PV0 filter its p).
Proof.
  unfold run_items. cbn [foldl mbind outcome_bind fst snd].
  destruct (hid_item V0 PV0 filter it d p) as [p1|c i|]; [done|..]; cbn; by induction its.
Qed.

Lemma declared_cons it d its size count :
  declared_bits size count ((it, d) :: its) =
  bits_of it size count + declared_bits (size_after it d size) (count_after it d count) its.
Proof.
  cbn [declared_bits]. unfold bits_of, size_after, count_after, is_data.
  destruct (Z.eqb_spec (tag_of it) HID_RI_REPORT_SIZE) as [Ht|]; [by rewrite Ht|].
  destruct (Z.eqb_spec (tag_of it) HID_RI_REPORT_COUNT) as [Ht|]; [by rewrite Ht|]. done.
Qed.

Lemma tame_cons it d its usages :
  tame usages ((it, d) :: its) = true ->
  tag_of it <> HID_RI_PUSH
  /\ (Z.land it HID_RI_TYPE_MASK = HID_RI_TYPE_MAIN -> usages < HID_USAGE_STACK_DEPTH)
  /\ tame (usages_after it usages) its = true.
Proof.
  cbn [tame]. intros [Hp%negb_true_iff%Z.eqb_neq Ht]%andb_true_iff. split; [done|]. unfold usages_after.
  destruct (Z.eqb_spec (tag_of it) HID_RI_USAGE) as [E|E].
  - rewrite type_of_tag, E. split; [discriminate|exact Ht].
  - destruct (Z.eqb_spec (Z.land it HID_RI_TYPE_MASK) HID_RI_TYPE_MAIN); [|done].
    apply andb_true_iff in Ht as [Hlt%Z.ltb_lt Ht]. done.
Qed.

Lemma declared_nonneg its : forall size count, 0 <= size -> 0 <= count -> 0 <= declared_bits size count its.
Proof.
  induction its as [|[it d] its IH]; intros size count Hs Hc; [done|]. rewrite declared_cons.
  assert (0 <= bits_of it size count) by (unfold bits_of; destruct (is_data it); lia).
  assert (0 <= size_after it d size /\ 0 <= count_after it d count).
  { pose proof (u8_range d). unfold is_u8 in *. unfold size_after, count_after. repeat case_match; lia. }
  pose proof (IH (size_after it d size) (count_after it d count)). lia.
Qed.

Lemma run_items_ok V0 PV0 filter its : forall D p,
  parser_ok D p -> 0 <= D -> ids_nonzero its ->
  D + declared_bits (BitSize (State_Attributes (cur p))) (ReportCount (cur p)) its < 2 ^ 16 ->
  oc (tame (UsageListSize p) its = false) (fun p' => exists D', D' < 2 ^ 16 /\ parser_ok D' p')
    (run_items V0 PV0 filter its p).
Proof.
  induction its as [|[it d] its IH]; intros D p Hp HD Hids Hb; [exists D; split; [cbn in Hb; lia|done]|].
  rewrite run_items_cons. apply Forall_cons_iff in Hids as [Hid Hids]. rewrite declared_cons in Hb.
  destruct (po_state D p Hp) as [Hsz Hcnt]. set (sz := BitSize _) in *. set (cnt := ReportCount _) in *.
  assert (Hsc : 0 <= size_after it d sz /\ 0 <= count_after it d cnt).
  { pose proof (u8_range d). unfold is_u8 in *. unfold size_after, count_after. repeat case_match; lia. }
  pose proof (declared_nonneg its _ _ (proj1 Hsc) (proj2 Hsc)) as Hnn.
  assert (Hbits : 0 <= bits_of it sz cnt) by (unfold bits_of; destruct (is_data it); nia).
  set (t := tame (UsageListSize p) ((it, d) :: its)).
  assert (Ht : t = true -> tag_of it <> HID_RI_PUSH
    /\ (Z.land it HID_RI_TYPE_MASK = HID_RI_TYPE_MAIN -> UsageListSize p < HID_USAGE_STACK_DEPTH)
    /\ tame (usages_after it (UsageListSize p)) its = true) by apply tame_cons.
  apply oc_bind. eapply oc_mono; [apply (hid_item_ok V0 PV0 filter D it d p Hp HD Hid); fold sz cnt; lia|..].
  - intros HU. destruct t; [|done]. destruct (Ht eq_refl) as (Hpush & Husage & _).
    destruct HU as [|[Hm Hge]]; [done|]. pose proof (Husage Hm). lia.
  - intros p' ((Hp' & Hs' & Hc' & _) & Hu'). fold sz cnt in Hp', Hs', Hc'.
    eapply oc_mono; [apply (IH _ p' Hp'); [lia|exact Hids|rewrite Hs', Hc'; lia]| |auto].
    rewrite Hu'. destruct t; [|done]. destruct (Ht eq_refl) as (_ & _ & ->). done.
Qed.

Lemma le_value_1 b : le_value [b] = b.
Proof. cbn. by rewrite Z.shiftl_0_l, Z.lor_0_r. Qed.

(** The loop over the bytes is the loop over the items. *)
Lemma parse_loop_decode V0 PV0 filter its : forall bs p,
  decode bs = Some its -> zlen bs < 2 ^ 16 ->
  parse_loop V0 PV0 filter bs (zlen bs) p = run_items V0 PV0 filter its p.
Proof.
  induction its as [|[it d] its IH]; intros bs p Hdec Hlen.
  - destruct bs as [|b bs]; [done|]. exfalso. cbn [decode] in Hdec. cbv zeta in Hdec.
    repeat case_match; try discriminate; simplify_option_eq.
  - rewrite run_items_cons. destruct bs as [|b bs]; [discriminate|]. cbn [decode] in Hdec.
    cbv zeta in Hdec. cbn [parse_loop].
    assert (Hz : (zlen (b :: bs) =? 0) = false) by (apply Z.eqb_neq; rewrite zlen_cons; pose proof (zlen_nonneg bs); lia).
    rewrite Hz. cbv zeta.
    assert (H1 : u16 (zlen (b :: bs) - 1) = zlen bs).
    { rewrite zlen_cons in *. pose proof (zlen_nonneg bs). unfold u16. rewrite Z.mod_small; lia. }
    rewrite H1. clear H1 Hz.
    assert (Hrest : forall n (bs' : list Z) (e : Z * Z), zlen bs = n + zlen bs' -> 0 <= n ->
      (l ← decode bs'; Some (e :: l)) = Some ((it, d) :: its) ->
      e = (it, d) /\ forall p', parse_loop V0 PV0 filter bs' (u16 (zlen bs - n)) p' = run_items V0 PV0 filter its p').
    { intros n bs' e Hn H0 Hd. rewrite zlen_cons in Hlen. pose proof (zlen_nonneg bs').
      destruct (decode bs') as [l'|] eqn:E; [|discriminate]. cbn in Hd. injection Hd as -> ->.
      split; [done|]. intros p'. unfold u16. rewrite Z.mod_small by lia.
      replace (zlen bs - n) with (zlen bs') by lia. apply IH; [done|lia]. }
    assert (Hbind : forall e (f g : parser -> outcome parser), e = (it, d) -> (forall p', f p' = g p') ->
      (p ← hid_item V0 PV0 filter (fst e) (snd e) p; f p) = (p ← hid_item V0 PV0 filter it d p; g p)).
    { intros e f g -> Hfg. cbn [fst snd]. destruct (hid_item V0 PV0 filter it d p); cbn; auto. }
    destruct (_ =? HID_RI_DATA_BITS_32); [|destruct (_ =? HID_RI_DATA_BITS_16);
      [|destruct (_ =? HID_RI_DATA_BITS_8)]].
    + destruct bs as [|b0 [|b1 [|b2 [|b3 bs]]]]; try discriminate.
      destruct (Hrest 4 bs _ ltac:(rewrite !zlen_cons; lia) ltac:(lia) Hdec) as [He Hf]. by apply (Hbind _ _ _ He).
    + destruct bs as [|b0 [|b1 bs]]; try discriminate.
      destruct (Hrest 2 bs _ ltac:(rewrite !zlen_cons; lia) ltac:(lia) Hdec) as [He Hf]. by apply (Hbind _ _ _ He).
    + destruct bs as [|b0 bs]; try discriminate.
      destruct (Hrest 1 bs _ ltac:(rewrite !zlen_cons; lia) ltac:(lia) Hdec) as [He Hf]. by apply (Hbind _ _ _ He).
    + destruct (Hrest 0 bs _ ltac:(lia) ltac:(lia) Hdec) as [He Hf]. apply (Hbind _ _ _ He). intros p'.
      rewrite <- Hf. f_equal. unfold u16. rewrite Z.sub_0_r, Z.mod_small; [done|].
      rewrite zlen_cons in Hlen. pose proof (zlen_nonneg bs). lia.
Qed.

Lemma lookup_repeat {A} (x z : A) n : forall k, repeat x n !! k = Some z -> z = x.
Proof.
  induction n as [|n IH]; intros [|k]; cbn; try discriminate; [by intros [= <-]|apply IH].
Qed.

Lemma parser0_ok UsageList0 : length UsageList0 = 8%nat -> parser_ok 0 (parser0 UsageList0).
Proof.
  intros Hu. split; cbn; try done; try lia.
  - split; cbn; try done; try (intros; lia).
    + intros k z Hz%(lookup_repeat zero_SizeInfo z 10). subst z.
      split; [done|]. repeat constructor; lia.
    + intros _. split; [done|]. by intros z [= <-].
  - split; cbn; try done.
    + intros k x j Hx%(lookup_repeat zero_Path x 10). by subst x.
    + intros k x j y Hx%(lookup_repeat zero_Path x 10). by subst x.
  - split; [by left|done].
Qed.

(** The item's report can be told from its identifier: all items have one or
    none does. *)
Definition complete_item (info : HID_ReportInfo_t) (it : HID_ReportItem_t) : Prop :=
  UsingReportIDs info = false \/ Item_ReportID it <> 0.

Lemma report_size_at sizes id ty : forall k z,
  sizes !! k = Some z -> Size_ReportID z = id ->
  (forall j y, (j < k)%nat -> sizes !! j = Some y -> Size_ReportID y <> id) ->
  report_size sizes id ty = report_size [z] id ty.
Proof.
  induction sizes as [|y sizes IH]; intros k z Hz Hid Hbefore; [done|].
  destruct k as [|k]; [by injection Hz as ->; cbn; rewrite Hid, Z.eqb_refl|].
  cbn [report_size]. rewrite (proj2 (Z.eqb_neq (Size_ReportID y) id)); [|by apply (Hbefore 0%nat); [lia|]].
  rewrite (IH k z Hz Hid); [done|]. intros j y' Hj Hy'. apply (Hbefore (S j) y'); [lia|done].
Qed.

Lemma item_in_report D info it :
  info_ok D info -> fits info it -> complete_item info it ->
  BitOffset it + BitSize (Attributes it) <= 8 * USB_GetHIDReportSize info (Item_ReportID it) (ItemType it).
Proof.
  intros Hi (k & z & b & Hown & Hz & Hb & Hle) Hc.
  assert (Hfirst : Size_ReportID z = Item_ReportID it
    /\ forall j y, (j < k)%nat -> ReportIDSizes info !! j = Some y -> Size_ReportID y <> Item_ReportID it).
  { destruct Hown as [[H0 ->]|(Hne & Hk & z' & Hz' & Hid)].
    - destruct Hc as [Hu|]; [|done]. rewrite H0. split; [|lia]. by apply (io_single D info Hi Hu).
    - rewrite Hz in Hz'. injection Hz' as <-. split; [done|]. intros j y Hj Hy He.
      assert (j = k) by (apply (io_ids D info Hi j k y z); (lia || congruence)). lia. }
  destruct Hfirst as [Hid Hbefore]. unfold USB_GetHIDReportSize.
  rewrite (report_size_at _ _ _ k z Hz Hid Hbefore). cbn [report_size]. rewrite Hid, Z.eqb_refl.
  rewrite (list_lookup_total_correct _ _ _ Hb).
  pose proof (Z.div_mod b 8). destruct (Z.eqb_spec (b `mod` 8) 0); cbn [negb]; [lia|].
  pose proof (Z.mod_pos_bound b 8). lia.
Qed.
