(* ===== verification/HidValues.v ===== *)
(** * HID items and their values

    What the functions of [HidParser] that read and write an item's value do to
    a report, alone and after the parser has laid the items out; with the
    descriptor of a mouse as the example. *)

From S2P Require Import Prelude HidParser HidLayout.

(** ** Reading and writing values *)

(** Bit [i] of a report. *)
Definition report_bit (ReportData : list Z) (i : Z) : bool :=
  Z.testbit (default 0 (ReportData !! Z.to_nat (i `div` 8))) (i `mod` 8).

Lemma le_value_testbit bs : forall i, Forall is_u8 bs -> 0 <= i ->
  Z.testbit (le_value bs) i = report_bit bs i.
Proof.
  induction bs as [|b bs IH]; intros i Hbs Hi; cbn [le_value].
  { unfold report_bit. rewrite lookup_nil. cbn. by rewrite !Z.bits_0. }
  apply Forall_cons_iff in Hbs as [Hb Hbs]. rewrite Z.lor_spec, Z.shiftl_spec by lia.
  unfold report_bit. destruct (Z.lt_ge_cases i 8) as [Hlt|Hge].
  - rewrite Z.div_small, Z.mod_small by lia. rewrite (Z.testbit_neg_r _ (i - 8)) by lia.
    cbn. by rewrite orb_false_r.
  - rewrite (testbit_high 8 b) by (unfold is_u8 in Hb; lia). rewrite IH by (done || lia). unfold report_bit.
    replace i with (i - 8 + 1 * 8) at 3 4 by lia. rewrite Z.div_add, Z.mod_add by lia.
    rewrite Z2Nat.inj_add by (try apply Z.div_pos; lia). cbn [orb].
    replace (Z.to_nat ((i - 8) `div` 8) + Z.to_nat 1)%nat with (S (Z.to_nat ((i - 8) `div` 8))) by lia. done.
Qed.

(** The mask of round [j]: it runs out of its 32 bits. *)
Definition bit_mask (j : Z) : Z := if j <? 32 then BV j else 0.

Lemma bit_mask_next j : 0 <= j -> u32 (Z.shiftl (bit_mask j) 1) = bit_mask (j + 1).
Proof.
  intros Hj. unfold bit_mask. destruct (Z.ltb_spec j 32), (Z.ltb_spec (j + 1) 32); try lia; [| |done].
  - unfold BV. rewrite Z.shiftl_shiftl by lia. apply u32_id. unfold is_u32.
    rewrite Z.shiftl_1_l. split; [lia|]. by apply Z.pow_lt_mono_r.
  - replace j with 31 by lia. reflexivity.
Qed.

Lemma bit_mask_testbit j i : 0 <= j -> Z.testbit (bit_mask j) i = (j <? 32) && (i =? j).
Proof.
  intros Hj. unfold bit_mask. destruct (j <? 32); [by rewrite BV_testbit|by rewrite Z.bits_0].
Qed.

(** What the reader's loop collects from round [j] on. *)
Lemma get_bits_spec n : forall ReportData bit j v,
  0 <= j -> 0 <= bit -> bit + Z.of_nat n <= 8 * zlen ReportData -> bit + Z.of_nat n < 2 ^ 16 ->
  exists r, get_bits n ReportData bit (bit_mask j) v = Some r
    /\ forall i, 0 <= i -> Z.testbit r i =
         Z.testbit v i || ((j <=? i) && (i <? j + Z.of_nat n) && (i <? 32) && report_bit ReportData (bit + i - j)).
Proof.
  induction n as [|n IH]; intros rep bit j v Hj Hbit Hlen Hw; cbn [get_bits].
  { exists v. split; [done|]. intros i Hi. destruct (Z.leb_spec j i), (Z.ltb_spec i (j + Z.of_nat 0)); try lia;
      cbn; by rewrite orb_false_r. }
  destruct (lookup_lt_is_Some_2 rep (Z.to_nat (bit `div` 8))) as [b Hb].
  { pose proof (Z.div_lt_upper_bound bit 8 (zlen rep)). pose proof (Z.div_pos bit 8). unfold zlen in *. lia. }
  rewrite Hb. cbn [mbind option_bind]. rewrite bit_mask_next by done.
  assert (Hnext : u16 (bit + 1) = bit + 1) by (apply Z.mod_small; lia). rewrite Hnext.
  destruct (IH rep (bit + 1) (j + 1) (if anybit b (Z.shiftl 1 (bit `mod` 8)) then Z.lor v (bit_mask j) else v))
    as (r & -> & Hr); [lia..|]. exists r. split; [done|]. intros i Hi. rewrite (Hr i Hi).
  assert (Hanyb : anybit b (Z.shiftl 1 (bit `mod` 8)) = report_bit rep bit).
  { change (Z.shiftl 1 (bit `mod` 8)) with (BV (bit `mod` 8)). rewrite anybit_BV by (apply Z.mod_pos_bound; lia).
    unfold report_bit. by rewrite Hb. }
  rewrite Hanyb. replace (bit + 1 + i - (j + 1)) with (bit + i - j) by lia.
  destruct (Z.eqb_spec i j) as [->|Hij].
  - replace (bit + j - j) with bit by lia.
    rewrite (proj2 (Z.leb_gt (j + 1) j)), (proj2 (Z.leb_le j j)), (proj2 (Z.ltb_lt j (j + Z.of_nat (S n)))) by lia.
    cbn [andb]. rewrite orb_false_r. destruct (report_bit rep bit); rewrite ?andb_false_r, ?orb_false_r, ?andb_true_r; [|done].
    rewrite Z.lor_spec, bit_mask_testbit, Z.eqb_refl, andb_true_r by done. done.
  - assert (Hv : Z.testbit (if report_bit rep bit then Z.lor v (bit_mask j) else v) i = Z.testbit v i).
    { destruct (report_bit rep bit); [|done]. rewrite Z.lor_spec, bit_mask_testbit by done.
      rewrite (proj2 (Z.eqb_neq i j)) by done. by rewrite andb_false_r, orb_false_r. }
    rewrite Hv. f_equal. f_equal. f_equal.
    destruct (Z.leb_spec (j + 1) i), (Z.leb_spec j i), (Z.ltb_spec i (j + 1 + Z.of_nat n)),
      (Z.ltb_spec i (j + Z.of_nat (S n))); try lia; done.
Qed.

(** The field of [size] bits at [off] of a report, of which a value holds 32. *)
Definition field (body : list Z) (off size : Z) : Z :=
  Z.land (Z.shiftr (le_value body) off) (Z.ones (Z.min size 32)).

Lemma get_bits_field body off size :
  Forall is_u8 body -> 0 <= off -> 0 <= size -> off + size <= 8 * zlen body -> off + size < 2 ^ 16 ->
  get_bits (Z.to_nat size) body off 1 0 = Some (field body off size).
Proof.
  intros Hb Ho Hs Hl Hw. destruct (get_bits_spec (Z.to_nat size) body off 0 0) as (r & Hr & Hbits); [lia..|].
  change (bit_mask 0) with 1 in Hr. rewrite Hr. f_equal. apply Z.bits_inj'. intros i Hi.
  rewrite Hbits by done. unfold field. rewrite Z.land_spec, Z.shiftr_spec, Z.testbit_ones_nonneg by lia.
  rewrite Z.bits_0, le_value_testbit by (done || lia). cbn [orb].
  replace (off + i - 0) with (i + off) by lia.
  destruct (Z.leb_spec 0 i), (Z.ltb_spec i (0 + Z.of_nat (Z.to_nat size))), (Z.ltb_spec i 32),
    (Z.ltb_spec i (Z.min size 32)); try lia; cbn; rewrite ?andb_true_r, ?andb_false_r; done.
Qed.

(** ** Properties *)

Section parse_theorems.
Context (UsageList0 : list Z) (Value0 PreviousValue0 : Z) (filter : HID_ReportItem_t -> bool).
Context (Husages : length UsageList0 = 8%nat).

Lemma process_run data its :
  zlen data < 2 ^ 16 -> decode data = Some its ->
  USB_ProcessHIDReport UsageList0 Value0 PreviousValue0 filter data (zlen data) =
  match run_items Value0 PreviousValue0 filter its (parser0 UsageList0) with
  | Next p => Some (if TotalReportItems (ParserData p) =? 0 then HID_PARSE_NoUnfilteredReportItems
                    else HID_PARSE_Successful, ParserData p)
  | Return code info => Some (code, info)
  | Undef => None
  end.
Proof. intros Hl Hd. unfold USB_ProcessHIDReport. by rewrite (parse_loop_decode _ _ _ its). Qed.

Lemma success_ok data its info :
  zlen data < 2 ^ 16 -> decode data = Some its -> ids_nonzero its -> declared_bits 0 0 its < 2 ^ 16 ->
  USB_ProcessHIDReport UsageList0 Value0 PreviousValue0 filter data (zlen data)
    = Some (HID_PARSE_Successful, info) ->
  exists D c, D < 2 ^ 16 /\ info_ok D info /\ paths_ok (CollectionPaths info) c /\ TotalReportItems info <> 0.
Proof.
  intros Hl Hd Hids Hb. rewrite (process_run data its Hl Hd).
  pose proof (run_items_ok Value0 PreviousValue0 filter its 0 _ (parser0_ok UsageList0 Husages)
    ltac:(lia) Hids Hb) as Hrun.
  destruct (run_items _ _ _ _ _) as [p|c i|]; [|by intros [= -> ->]|done].
  destruct Hrun as (D & HD & Hp). intros [= Hcode <-]. exists D, (CurrCollectionPath p).
  destruct (Z.eqb_spec (TotalReportItems (ParserData p)) 0) as [|Hne]; [done|].
  split_and!; [done|apply Hp|apply Hp|done].
Qed.

(** C26. The layout the parser computes.  For every well-formed descriptor of
    fewer than 65536 bytes that declares fewer than 65536 bits and whose
    report identifiers are not the reserved zero, if the parser reports
    success then it holds 1 to 20 items; every item that has a report
    identifier, and every item when no report of the descriptor has one (the
    items [complete_item] describes, all of them in what the HID class allows),
    lies within the size [USB_GetHIDReportSize] reports for its report (an item
    declared before the first REPORT_ID of its descriptor belongs to no report
    the library keeps a size of); two items of the same
    report never share a bit, the later one starting after the earlier one
    ends; and the collections form a tree in which parents come first. *)
Theorem parsed_layout data its info :
  zlen data < 2 ^ 16 -> decode data = Some its -> ids_nonzero its -> declared_bits 0 0 its < 2 ^ 16 ->
  USB_ProcessHIDReport UsageList0 Value0 PreviousValue0 filter data (zlen data)
    = Some (HID_PARSE_Successful, info) ->
  1 <= TotalReportItems info <= 20
  /\ (forall n it, Z.of_nat n < TotalReportItems info -> ReportItems info !! n = Some it ->
       complete_item info it ->
       BitOffset it + BitSize (Attributes it)
         <= 8 * USB_GetHIDReportSize info (Item_ReportID it) (ItemType it))
  /\ (forall n m it1 it2, (n < m)%nat -> Z.of_nat m < TotalReportItems info ->
       ReportItems info !! n = Some it1 -> ReportItems info !! m = Some it2 ->
       Item_ReportID it1 = Item_ReportID it2 -> ItemType it1 = ItemType it2 ->
       BitOffset it1 + BitSize (Attributes it1) <= BitOffset it2)
  /\ (forall k x j, CollectionPaths info !! k = Some x -> Parent x = Some j -> (j < k)%nat).
Proof.
  intros Hl Hd Hids Hb Hpr. destruct (success_ok data its info Hl Hd Hids Hb Hpr) as (D & c & _ & Hi & Hpa & Hne).
  destruct (io_items D _ Hi) as [_ Hn]. split_and!; try lia.
  - intros n it Hlt Hit Hc. destruct (io_fits D _ Hi n it Hlt Hit) as (_ & _ & _ & Hf).
    by apply (item_in_report D).
  - apply (io_apart D _ Hi).
  - apply (pa_parent _ _ Hpa).
Qed.

(** C27. The parser always comes back, and touches no memory but its own: a
    well-formed descriptor without PUSH, in which fewer than eight usages
    wait whenever a main item takes them, makes it return one of its codes,
    every access being inside the descriptor and the tables (an access
    outside them would be the undefined outcome). *)
Theorem parse_returns data its :
  zlen data < 2 ^ 16 -> decode data = Some its -> ids_nonzero its -> declared_bits 0 0 its < 2 ^ 16 ->
  tame 0 its = true ->
  exists code info,
    USB_ProcessHIDReport UsageList0 Value0 PreviousValue0 filter data (zlen data) = Some (code, info).
Proof.
  intros Hl Hd Hids Hb Ht. rewrite (process_run data its Hl Hd).
  pose proof (run_items_ok Value0 PreviousValue0 filter its 0 _ (parser0_ok UsageList0 Husages)
    ltac:(lia) Hids Hb) as Hrun.
  destruct (run_items _ _ _ _ _) as [p|c i|]; [by eexists _, _..|].
  cbn [oc] in Hrun. change (UsageListSize (parser0 UsageList0)) with 0 in Hrun. congruence.
Qed.
(** C28. The items of a parsed descriptor can be read, all of them if none
    has a report identifier and otherwise those that have one
    ([complete_item]; the descriptor as in the layout's theorem): from a report with as
    many bytes as [USB_GetHIDReportSize] says, after its identifier if it has
    one, [USB_GetHIDReportItemInfo] reads without leaving the report exactly
    the item's field (of which the value holds the low 32 bits), keeps the
    old value as the previous one, and touches nothing else of the item. *)
Theorem parsed_item_read data its info n it body :
  zlen data < 2 ^ 16 -> decode data = Some its -> ids_nonzero its -> declared_bits 0 0 its < 2 ^ 16 ->
  USB_ProcessHIDReport UsageList0 Value0 PreviousValue0 filter data (zlen data)
    = Some (HID_PARSE_Successful, info) ->
  Z.of_nat n < TotalReportItems info -> ReportItems info !! n = Some it -> complete_item info it ->
  Forall is_u8 body -> zlen body = USB_GetHIDReportSize info (Item_ReportID it) (ItemType it) ->
  USB_GetHIDReportItemInfo (if Item_ReportID it =? 0 then body else Item_ReportID it :: body) it
  = Some (true, set_value (field body (BitOffset it) (BitSize (Attributes it))) (Value it) it).
Proof.
  intros Hl Hd Hids Hb Hpr Hn Hit Hc Hbody Hlen.
  destruct (success_ok data its info Hl Hd Hids Hb Hpr) as (D & c & HD & Hi & _).
  destruct (io_fits D _ Hi n it Hn Hit) as (Ho & Hs & _ & Hf).
  pose proof (item_in_report D info it Hi Hf Hc) as Hin.
  assert (Hw : BitOffset it + BitSize (Attributes it) < 2 ^ 16).
  { destruct Hf as (k & z & b & _ & Hz & Hbz & Hle).
    pose proof (Forall_lookup_1 _ _ _ _ (proj2 (io_bits D _ Hi k z Hz)) Hbz). cbn in *. lia. }
  unfold USB_GetHIDReportItemInfo, item_report.
  destruct (Z.eqb_spec (Item_ReportID it) 0); cbn [mbind option_bind fst snd negb];
    rewrite ?Z.eqb_refl; cbn [negb]; rewrite get_bits_field by (done || lia); done.
Qed.

End parse_theorems.

(** *** Writing a value

    The writer tests the bit of the value the reader would set, and sets the
    bit of the report the reader would test: right only for items of at most
    eight bits that start a byte. *)

(** C29. [USB_SetHIDReportItemInfo] loses one-bit items: an item of one bit that
    does not start a byte, a mouse button but the first for example, is not
    written at all; the report stays as it was, whatever it was, and reading
    it back from a cleared report gives 0 for a 1. *)
Theorem one_bit_item_lost ReportData it :
  BitSize (Attributes it) = 1 -> 0 <= BitOffset it < 2 ^ 16 - 1 -> BitOffset it `mod` 8 <> 0 ->
  Item_ReportID it = 0 -> Value it = 1 -> BitOffset it < 8 * zlen ReportData ->
  USB_SetHIDReportItemInfo ReportData it = Some (ReportData, set_value 1 1 it)
  /\ (Forall (fun b => b = 0) ReportData ->
      USB_GetHIDReportItemInfo ReportData (set_value 1 1 it) = Some (true, set_value 0 1 it)).
Proof.
  intros Hs Ho Hm Hid Hv Hl.
  pose proof (Z.mod_pos_bound (BitOffset it) 8 ltac:(lia)) as Hmod.
  destruct (lookup_lt_is_Some_2 ReportData (Z.to_nat (BitOffset it `div` 8))) as [b Hb].
  { pose proof (Z.div_lt_upper_bound (BitOffset it) 8 (zlen ReportData)).
    pose proof (Z.div_pos (BitOffset it) 8). unfold zlen in *. lia. }
  split.
  - unfold USB_SetHIDReportItemInfo. rewrite Hid, Hs, Hv. cbn [Z.eqb mbind option_bind snd fst].
    change (Z.to_nat 1) with 1%nat. cbn [put_bits]. rewrite Hb. cbn [mbind option_bind].
    change (Z.shiftl 1 (BitOffset it `mod` 8)) with (BV (BitOffset it `mod` 8)).
    rewrite anybit_BV by lia. change 1 with (BV 0) at 1. rewrite BV_testbit by lia.
    by rewrite (proj2 (Z.eqb_neq (BitOffset it `mod` 8) 0)).
  - intros Hz. unfold USB_GetHIDReportItemInfo, item_report, set_value.
    cbn [Item_ReportID Attributes BitOffset Value]. rewrite Hid, Hs.
    cbn [Z.eqb mbind option_bind fst snd negb]. change (Z.to_nat 1) with 1%nat. cbn [get_bits].
    rewrite Hb. cbn [mbind option_bind]. pose proof (Forall_lookup_1 _ _ _ _ Hz Hb) as ->.
    by unfold anybit.
Qed.

Lemma put_bits_spec n : forall ReportData k j v b,
  ReportData !! k = Some b -> is_u8 b -> 0 <= j -> j + Z.of_nat n <= 8 -> Z.of_nat k < 2 ^ 12 ->
  exists b', put_bits n ReportData (8 * Z.of_nat k + j) (bit_mask j) v = Some (<[k := b']> ReportData)
    /\ is_u8 b' /\ forall i, 0 <= i ->
         Z.testbit b' i = Z.testbit b i || ((j <=? i) && (i <? j + Z.of_nat n) && Z.testbit v i).
Proof.
  induction n as [|n IH]; intros rep k j v b Hb Hu Hj Hn Hk; cbn [put_bits].
  { exists b. rewrite list_insert_id by done. split; [done|]. split; [exact Hu|]. intros i Hi.
    destruct (Z.leb_spec j i), (Z.ltb_spec i (j + Z.of_nat 0)); try lia; cbn; by rewrite orb_false_r. }
  assert (Hdiv : (8 * Z.of_nat k + j) `div` 8 = Z.of_nat k /\ (8 * Z.of_nat k + j) `mod` 8 = j).
  { split; [symmetry; apply (Z.div_unique _ _ _ j)|symmetry; apply (Z.mod_unique _ _ (Z.of_nat k))]; lia. }
  destruct Hdiv as [-> ->]. rewrite Nat2Z.id, Hb. cbn [mbind option_bind]. rewrite bit_mask_next by done.
  assert (Hnext : u16 (8 * Z.of_nat k + j + 1) = 8 * Z.of_nat k + (j + 1)) by (unfold u16; rewrite Z.mod_small; lia).
  rewrite Hnext. change (Z.shiftl 1 j) with (BV j). rewrite anybit_BV by done.
  set (b1 := if Z.testbit v j then u8 (Z.lor b (bit_mask j)) else b).
  assert (Hrep : (if Z.testbit v j then <[k := u8 (Z.lor b (bit_mask j))]> rep else rep) = <[k := b1]> rep)
    by (unfold b1; destruct (Z.testbit v j); [done|by rewrite list_insert_id]).
  rewrite Hrep.
  assert (Hb1 : is_u8 b1 /\ forall i, 0 <= i -> Z.testbit b1 i = Z.testbit b i || ((i =? j) && Z.testbit v j)).
  { unfold b1. destruct (Z.testbit v j) eqn:Ev.
    - split; [apply u8_range|]. intros i Hi. rewrite u8_testbit, Z.lor_spec, bit_mask_testbit by done.
      rewrite (proj2 (Z.ltb_lt j 32)) by lia. rewrite andb_true_r. cbn [andb].
      destruct (Z.ltb_spec i 8); [done|]. rewrite (testbit_high 8 b) by (unfold is_u8 in Hu; lia).
      by rewrite (proj2 (Z.eqb_neq i j)) by lia.
    - split; [done|]. intros i Hi. by rewrite andb_false_r, orb_false_r. }
  destruct Hb1 as [Hu1 Hbit1]. apply lookup_lt_Some in Hb as Hlt.
  destruct (IH (<[k := b1]> rep) k (j + 1) v b1) as (b' & -> & Hu' & Hbit');
    [by apply list_lookup_insert_eq|done|lia..|].
  exists b'. rewrite list_insert_insert_eq. split; [done|]. split; [exact Hu'|]. intros i Hi.
  rewrite (Hbit' i Hi), (Hbit1 i Hi). destruct (Z.eqb_spec i j) as [->|Hij].
  - rewrite (proj2 (Z.leb_gt (j + 1) j)), (proj2 (Z.leb_le j j)), (proj2 (Z.ltb_lt j (j + Z.of_nat (S n)))) by lia.
    cbn [andb]. by rewrite orb_false_r.
  - cbn [andb]. rewrite orb_false_r. f_equal. f_equal.
    destruct (Z.leb_spec (j + 1) i), (Z.leb_spec j i), (Z.ltb_spec i (j + 1 + Z.of_nat n)),
      (Z.ltb_spec i (j + Z.of_nat (S n))); try lia; done.
Qed.

(** Items of up to eight bits that start a byte come back: written into a
    cleared byte and read again, the value is its low bits. *)
Theorem byte_item_roundtrip ReportData it k :
  Forall is_u8 ReportData -> ReportData !! k = Some 0 -> Z.of_nat k < 2 ^ 12 ->
  BitOffset it = 8 * Z.of_nat k -> 0 <= BitSize (Attributes it) <= 8 -> Item_ReportID it = 0 ->
  exists report, USB_SetHIDReportItemInfo ReportData it = Some (report, set_value (Value it) (Value it) it)
    /\ USB_GetHIDReportItemInfo report (set_value (Value it) (Value it) it)
       = Some (true, set_value (Value it mod 2 ^ BitSize (Attributes it)) (Value it) it).
Proof.
  intros Hrep Hb Hk Ho Hs Hid. set (sz := BitSize (Attributes it)) in *.
  apply lookup_lt_Some in Hb as Hlt.
  destruct (put_bits_spec (Z.to_nat sz) ReportData k 0 (Value it) 0 Hb ltac:(unfold is_u8; lia)
    ltac:(lia) ltac:(lia) Hk) as (b' & Hput & Hu & Hbits). rewrite Z.add_0_r in Hput. change (bit_mask 0) with 1 in Hput.
  exists (<[k := b']> ReportData). split.
  { unfold USB_SetHIDReportItemInfo. rewrite Hid. fold sz. cbn [Z.eqb mbind option_bind snd fst].
    rewrite Ho, Hput. done. }
  unfold USB_GetHIDReportItemInfo, item_report, set_value. cbn [Item_ReportID Attributes BitOffset Value].
  rewrite Hid. fold sz. cbn [Z.eqb mbind option_bind fst snd negb].
  rewrite get_bits_field; [|by apply Forall_insert|lia|lia|unfold zlen; rewrite length_insert; lia|lia].
  cbn [mbind option_bind]. unfold set_value. cbn. do 3 f_equal.
  apply Z.bits_inj'. intros i Hi. unfold field. rewrite Z.land_spec, Z.shiftr_spec, Z.testbit_ones_nonneg by lia.
  rewrite le_value_testbit by (first [by apply Forall_insert|lia]). rewrite Z.min_l by lia.
  destruct (Z.ltb_spec i sz) as [His|His].
  - rewrite Z.mod_pow2_bits_low, andb_true_r by lia. unfold report_bit. rewrite Ho.
    replace (i + 8 * Z.of_nat k) with (i + Z.of_nat k * 8) by lia. rewrite Z.div_add, Z.mod_add by lia.
    rewrite Z.div_small, Z.mod_small by lia. rewrite Z.add_0_l, Nat2Z.id, list_lookup_insert_eq by done. cbn.
    rewrite Hbits, Z.bits_0 by done. destruct (Z.leb_spec 0 i), (Z.ltb_spec i (0 + Z.of_nat (Z.to_nat sz))); try lia. done.
  - by rewrite Z.mod_pow2_bits_high, andb_false_r by lia.
Qed.

(** ** Witnesses *)

(** The descriptor of a mouse with three buttons (report identifier 2). *)
Definition mouse_descriptor : list Z :=
  [0x05; 0x01; 0x09; 0x02; 0xA1; 0x01; 0x85; 0x02; 0x09; 0x01; 0xA1; 0x00; 0x05; 0x09; 0x19; 0x01;
   0x29; 0x03; 0x15; 0x00; 0x25; 0x01; 0x95; 0x03; 0x75; 0x01; 0x81; 0x02; 0x95; 0x01; 0x75; 0x05;
   0x81; 0x01; 0x05; 0x01; 0x09; 0x30; 0x09; 0x31; 0x15; 0x81; 0x25; 0x7F; 0x75; 0x08; 0x95; 0x02;
   0x81; 0x06; 0xC0; 0xC0].

Definition mouse_items : list (Z * Z) := default [] (decode mouse_descriptor).
Definition mouse_info : HID_ReportInfo_t :=
  match USB_ProcessHIDReport (repeat 0 8) 0 0 (fun _ => true) mouse_descriptor (zlen mouse_descriptor) with
  | Some (_, info) => info
  | None => zero_Info
  end.

Lemma mouse_ids : ids_nonzero mouse_items.
Proof. repeat constructor; vm_compute; congruence. Qed.

Lemma parsed_layout_witness :
  TotalReportItems mouse_info = 5
  /\ (forall n m it1 it2, (n < m)%nat -> Z.of_nat m < TotalReportItems mouse_info ->
       ReportItems mouse_info !! n = Some it1 -> ReportItems mouse_info !! m = Some it2 ->
       Item_ReportID it1 = Item_ReportID it2 -> ItemType it1 = ItemType it2 ->
       BitOffset it1 + BitSize (Attributes it1) <= BitOffset it2).
Proof.
  split; [by vm_compute|].
  apply (parsed_layout (repeat 0 8) 0 0 (fun _ => true) eq_refl mouse_descriptor mouse_items mouse_info).
  - vm_compute. reflexivity.
  - vm_compute. reflexivity.
  - exact mouse_ids.
  - vm_compute. reflexivity.
  - vm_compute. reflexivity.
Defined.

Lemma parse_returns_witness :
  exists code info, USB_ProcessHIDReport (repeat 0 8) 0 0 (fun _ => false) mouse_descriptor
    (zlen mouse_descriptor) = Some (code, info).
Proof.
  apply (parse_returns (repeat 0 8) 0 0 (fun _ => false) eq_refl mouse_descriptor mouse_items).
  - vm_compute. reflexivity.
  - vm_compute. reflexivity.
  - exact mouse_ids.
  - vm_compute. reflexivity.
  - vm_compute. reflexivity.
Defined.

(** The vertical movement, in the third byte of report 2. *)
Definition mouse_y : HID_ReportItem_t := default zero_Item (ReportItems mouse_info !! 4%nat).

Lemma parsed_item_read_witness :
  USB_GetHIDReportItemInfo [2; 5; 0x10; 0xF0] mouse_y = Some (true, set_value 0xF0 0 mouse_y)
  /\ Item_ReportID mouse_y = 2.
Proof.
  split; [|vm_compute; reflexivity].
  assert (H : USB_GetHIDReportItemInfo (if Item_ReportID mouse_y =? 0 then [5; 0x10; 0xF0]
      else Item_ReportID mouse_y :: [5; 0x10; 0xF0]) mouse_y
    = Some (true, set_value (field [5; 0x10; 0xF0] (BitOffset mouse_y) (BitSize (Attributes mouse_y)))
        (Value mouse_y) mouse_y)).
  { apply (parsed_item_read (repeat 0 8) 0 0 (fun _ => true) eq_refl mouse_descriptor mouse_items
      mouse_info 4 mouse_y).
    - vm_compute. reflexivity.
    - vm_compute. reflexivity.
    - exact mouse_ids.
    - vm_compute. reflexivity.
    - vm_compute. reflexivity.
    - vm_compute. reflexivity.
    - vm_compute. reflexivity.
    - right. vm_compute. congruence.
    - repeat constructor; vm_compute; congruence.
    - vm_compute. reflexivity. }
  vm_compute in H. vm_compute. exact H.
Defined.

(** The second button. *)
Lemma one_bit_item_lost_witness :
  let it := mkItem 1 0 2 0 None (mkAttributes 1 (mkUsage 9 2) (mkUnit 0 0) (mkMinMax 0 1) (mkMinMax 0 0)) 1 0 in
  USB_SetHIDReportItemInfo [0; 0; 0] it = Some ([0; 0; 0], set_value 1 1 it)
  /\ USB_GetHIDReportItemInfo [0; 0; 0] (set_value 1 1 it) = Some (true, set_value 0 1 it).
Proof.
  intros it. destruct (one_bit_item_lost [0; 0; 0] it) as [Hs Hg].
  - reflexivity.
  - cbn. lia.
  - cbn. discriminate.
  - reflexivity.
  - reflexivity.
  - vm_compute. reflexivity.
  - split; [exact Hs|]. apply Hg. repeat constructor.
Defined.
