(* ===== verification/Startup.v ===== *)
(** * avr-libc at start-up

    The watchdog and clock functions of avr-libc both programs start with,
    and the register bits they set up. *)

From S2P Require Import Prelude Machine.

(** Bit numbers of [<avr/io.h>]. *)
Definition WDRF : Z := 3.
Definition WDE : Z := 3.
Definition WDCE : Z := 4.
Definition WDTO_250MS : Z := 4.
Definition COM1B0 : Z := 4.
Definition WGM12 : Z := 3.
Definition CS10 : Z := 0.
Definition CLKPCE : Z := 7.

Section startup.
Context {G : Type} `{Hardware}.

(** [wdt_disable] and [clock_prescale_set] of avr-libc. *)
Definition wdt_disable : M G unit :=
  sreg ← rd SREG;
  cli ;;
  reg_or WDTCSR (Z.lor (BV WDCE) (BV WDE)) ;;
  wr WDTCSR 0 ;;
  wr SREG sreg.
Definition clock_prescale_set (x : Z) : M G unit :=
  sreg ← rd SREG;
  cli ;;
  wr CLKPR (BV CLKPCE) ;;
  wr CLKPR x ;;
  wr SREG sreg.
(** [wdt_enable], for the periods below 4 s. *)
Definition wdt_enable (timeout : Z) : M G unit :=
  sreg ← rd SREG;
  cli ;;
  wr WDTCSR (Z.lor (BV WDCE) (BV WDE)) ;;
  wr SREG sreg ;;
  wr WDTCSR (Z.lor (BV WDE) timeout).
End startup.
