(* ===== verification/BootMemory.v ===== *)
(** * What the boot loaders share

    The memories of the processor, behind avr-libc's <avr/boot.h>,
    <avr/pgmspace.h> and <avr/eeprom.h>, are a parameter, [BootMemory], and so
    is the board's LEDs.h; with BootloaderAPI.c, the same
    file in the CDC and the DFU boot loader. *)

From S2P Require Import Prelude Machine StdReq Startup.

(** <avr/boot.h> *)
Definition GET_LOW_FUSE_BITS : Z := 0.
Definition GET_LOCK_BITS : Z := 1.
Definition GET_EXTENDED_FUSE_BITS : Z := 2.
Definition GET_HIGH_FUSE_BITS : Z := 3.

(** The memories of the processor, as the library's operations see them. *)
Class BootMemory (B : Type) := {
  SPM_PAGESIZE : Z;
  BOOT_START_ADDR : Z;
  boot_page_erase : Z -> B -> B;
  boot_page_fill : Z -> Z -> B -> B;
  boot_page_write : Z -> B -> B;
  boot_spm_busy_wait : B -> B;
  boot_rww_enable : B -> B;
  boot_lock_bits_set : Z -> B -> B;
  boot_lock_fuse_bits_get : Z -> B -> Z;
  boot_signature_byte_get : Z -> B -> Z;
  pgm_read_byte : Z -> B -> Z;
  pgm_read_word : Z -> B -> Z;
  eeprom_read_byte : Z -> B -> Z;
  eeprom_write_byte : Z -> Z -> B -> B;
}.

(** The board's LEDs. *)
Class BoardLeds (G : Type) := {
  LEDS_LED1 : Z;
  LEDS_LED2 : Z;
  LEDs_ToggleLEDs : Z -> M G unit;
}.

(** The key and the processor's signature, the same in every boot loader. *)
Definition MAGIC_BOOT_KEY : Z := 0xDC42.
Definition AVR_SIGNATURE_1 : Z := 0x1E.
Definition AVR_SIGNATURE_2 : Z := 0x95.
Definition AVR_SIGNATURE_3 : Z := 0x8A.
(** StdRequestType.h *)
Definition CONTROL_REQTYPE_TYPE : Z := 0x60.

(** Variables beside the memory. *)
Definition Has_left {F V B} `{Has F V} : Has F (V * B).
Proof.
  refine {| proj g := proj (fst g); inj f g := (inj f (fst g), snd g) |}.
  - intros f [v b]. apply proj_inj.
  - intros f f' [v b]. cbn. by rewrite inj_inj.
  - intros [v b]. cbn. by rewrite inj_proj.
Defined.

Section memory.
Context {G B : Type} `{Hardware} `{BootMemory B} `{Has B G}.

(** An operation on the memories, and a look at them. *)
Definition mem (f : B -> B) : M G unit := modc f.
Definition look {A} (f : B -> A) : M G A := getc f.

(** The addresses of the loop that erases the application. *)
Definition application_pages : list Z :=
  map (fun i => Z.of_nat i * SPM_PAGESIZE)
    (seq 0 (Z.to_nat ((BOOT_START_ADDR + SPM_PAGESIZE - 1) / SPM_PAGESIZE))).

(** The loop itself. *)
Definition erase_application : M G unit :=
  for_each application_pages (fun CurrFlashAddress =>
    mem (boot_page_erase CurrFlashAddress) ;;
    mem boot_spm_busy_wait ;;
    mem (boot_page_write CurrFlashAddress) ;;
    mem boot_spm_busy_wait).

(** ** BootloaderAPI.c

    [boot_page_erase_safe] and its like wait for an operation in progress first. *)
Definition BootloaderAPI_ErasePage (Address : Z) : M G unit :=
  mem boot_spm_busy_wait ;; mem (boot_page_erase Address) ;; mem boot_spm_busy_wait ;; mem boot_rww_enable.
Definition BootloaderAPI_WritePage (Address : Z) : M G unit :=
  mem boot_spm_busy_wait ;; mem (boot_page_write Address) ;; mem boot_spm_busy_wait ;; mem boot_rww_enable.
Definition BootloaderAPI_FillWord (Address Word : Z) : M G unit :=
  mem boot_spm_busy_wait ;; mem (boot_page_fill Address Word).
Definition BootloaderAPI_ReadSignature (Address : Z) : M G Z := look (boot_signature_byte_get Address).
Definition BootloaderAPI_ReadFuse (Address : Z) : M G Z := look (boot_lock_fuse_bits_get Address).
Definition BootloaderAPI_ReadLock : M G Z := look (boot_lock_fuse_bits_get GET_LOCK_BITS).
Definition BootloaderAPI_WriteLock (LockBits : Z) : M G unit :=
  mem boot_spm_busy_wait ;; mem (boot_lock_bits_set LockBits).
End memory.

(** ** What the memory does

    The effect of [erase_application]. *)
Definition application_erased `{BootMemory B} (m : B) : B :=
  fold_left (fun m p => boot_spm_busy_wait (boot_page_write p (boot_spm_busy_wait (boot_page_erase p m))))
    application_pages m.

(** What the data sheet says of self-programming: the application ends with a
    page; [flash] is the contents, [latch] the temporary page buffer by words,
    [idle] that no operation is in progress.  A page erase sets the page's bytes to 0xFF; a fill stores a word
    of the buffer that is erased; a page write clears the bits of the page that
    are 0 in the buffer (where a word that was not filled reads 0xFFFF) and
    erases the buffer; enabling the read-while-write section does that too,
    and lets the program read. *)
Class FlashLaws (B : Type) `{BootMemory B} := {
  flash : B -> Z -> Z;
  latch : B -> Z -> option Z;
  idle : B -> Prop;
  fl_page : exists w, SPM_PAGESIZE = 2 * w /\ 0 < w < 2 ^ 8;
  fl_start : exists c, BOOT_START_ADDR = c * SPM_PAGESIZE;
  fl_size : BOOT_START_ADDR < 2 ^ 16;
  fl_wait m : idle (boot_spm_busy_wait m) /\ (forall x, flash (boot_spm_busy_wait m) x = flash m x)
    /\ (forall i, latch (boot_spm_busy_wait m) i = latch m i);
  fl_erase m a : idle m -> 0 <= a < BOOT_START_ADDR ->
    (forall x, flash (boot_page_erase a m) x = if x / SPM_PAGESIZE =? a / SPM_PAGESIZE then 0xFF else flash m x)
    /\ (forall i, latch (boot_page_erase a m) i = latch m i);
  fl_fill m a w : idle m -> latch m (a mod SPM_PAGESIZE / 2) = None ->
    idle (boot_page_fill a w m) /\ (forall x, flash (boot_page_fill a w m) x = flash m x)
    /\ (forall i, latch (boot_page_fill a w m) i = if i =? a mod SPM_PAGESIZE / 2 then Some w else latch m i);
  fl_write m a : idle m -> 0 <= a < BOOT_START_ADDR ->
    (forall x, flash (boot_page_write a m) x =
       if x / SPM_PAGESIZE =? a / SPM_PAGESIZE then
         let w := default 0xFFFF (latch m (x mod SPM_PAGESIZE / 2)) in
         Z.land (flash m x) (if Z.even x then w mod 2 ^ 8 else w / 2 ^ 8)
       else flash m x)
    /\ (forall i, latch (boot_page_write a m) i = None);
  fl_enable m : idle m -> idle (boot_rww_enable m) /\ (forall x, flash (boot_rww_enable m) x = flash m x)
    /\ (forall i, latch (boot_rww_enable m) i = None)
    /\ (forall x, 0 <= x < BOOT_START_ADDR -> pgm_read_byte x (boot_rww_enable m) = flash m x);
}.

(** A memory with pages of 128 bytes, as the ATmega32U2's, and nothing but
    the flash. *)
Record cells := mkCells { bytes_of : Z -> Z; words_of : Z -> option Z }.

#[export] Instance cells_memory : BootMemory cells := {
  SPM_PAGESIZE := 128;
  BOOT_START_ADDR := 0x7000;
  boot_page_erase a m := mkCells (fun x => if x / 128 =? a / 128 then 0xFF else bytes_of m x) (words_of m);
  boot_page_fill a w m := mkCells (bytes_of m) (fun i => if i =? a mod 128 / 2 then Some w else words_of m i);
  boot_page_write a m := mkCells (fun x =>
      if x / 128 =? a / 128 then
        let w := default 0xFFFF (words_of m (x mod 128 / 2)) in
        Z.land (bytes_of m x) (if Z.even x then w mod 2 ^ 8 else w / 2 ^ 8)
      else bytes_of m x) (fun _ => None);
  boot_spm_busy_wait m := m;
  boot_rww_enable m := mkCells (bytes_of m) (fun _ => None);
  boot_lock_bits_set _ m := m;
  boot_lock_fuse_bits_get _ _ := 0;
  boot_signature_byte_get _ _ := 0;
  pgm_read_byte a m := bytes_of m a;
  pgm_read_word a m := bytes_of m a + 2 ^ 8 * bytes_of m (a + 1);
  eeprom_read_byte _ _ := 0;
  eeprom_write_byte _ _ m := m;
}.

#[export] Instance cells_laws : FlashLaws cells.
Proof.
  refine (Build_FlashLaws cells cells_memory bytes_of words_of (fun _ => True) _ _ _ _ _ _ _ _).
  all: repeat split; try done; first [by exists 64 | by exists 224].
Defined.
