(* ===== verification/FlashPages.v ===== *)
(** * Pages of flash memory

    What a page holds after it has been filled word by word and written, and
    after the application has been erased, from the laws of the memory. *)

From S2P Require Import Prelude Machine BootMemory.

(** Filling the page word by word; an odd last byte goes nowhere. *)
Fixpoint fill_words `{BootMemory B} (a : Z) (data : list Z) (m : B) : Z * B :=
  match data with
  | lo :: hi :: data' => fill_words (u32 (a + 2)) data' (boot_page_fill a (lo + 2 ^ 8 * hi) m)
  | _ => (a, m)
  end.

Section flash.
Context {B : Type} `{FlashLaws B}.
Abbreviation P := SPM_PAGESIZE.

(** The byte that a page holds at [j] once [data] has been written to its start. *)
Definition stored (data : list Z) (j : nat) : Z :=
  if (j <? 2 * (length data / 2))%nat then default 0 (data !! j) else 0xFF.

(** Word [i] of the data. *)
Definition data_word (data : list Z) (i : nat) : Z :=
  default 0 (data !! (2 * i)%nat) + 2 ^ 8 * default 0 (data !! (2 * i + 1)%nat).

Lemma word_of_page p k : 0 <= k < P / 2 -> (p * P + 2 * k) mod P / 2 = k.
Proof.
  intros Hk. destruct fl_page as (w & Hw & Hp). rewrite Hw in *.
  rewrite (Z.mul_comm 2 w), Z.div_mul in Hk by lia.
  rewrite Z.add_comm, Z.mod_add, Z.mod_small, (Z.mul_comm 2 k) by lia. by apply Z.div_mul.
Qed.

Lemma div2_SS n : (S (S n) / 2 = S (n / 2))%nat.
Proof. change (S (S n)) with (2 + n)%nat. rewrite <- (Nat.mul_1_l 2) at 1. by rewrite Nat.div_add_l. Qed.

Lemma fill_words_latch l data p k (m : B) :
  (length data <= l)%nat -> idle m -> 0 <= p -> 0 <= k -> 2 * k + zlen data <= P -> (p + 1) * P <= 2 ^ 16 ->
  (forall i, k <= i -> latch m i = None) ->
  let r := fill_words (p * P + 2 * k) data m in
  fst r = p * P + 2 * k + 2 * Z.of_nat (length data / 2) /\ idle (snd r)
  /\ (forall x, flash (snd r) x = flash m x)
  /\ (forall i, latch (snd r) i =
        if (k <=? i) && (i <? k + Z.of_nat (length data / 2)) then Some (data_word data (Z.to_nat (i - k)))
        else latch m i).
Proof.
  revert data k m. induction l as [|l IH]; intros [|lo [|hi data]] k m Hl Hi Hp Hk Hsz Hmax Hn;
    cbn [length] in Hl; try lia; cbn [fill_words fst snd].
  1-3: change (_ / 2)%nat with 0%nat; split_and!; [lia|done|done|]; intros i;
    destruct (Z.leb_spec k i), (Z.ltb_spec i (k + Z.of_nat 0)); cbn [andb]; done || lia.
  destruct fl_page as (w & Hw & Hw0). rewrite !zlen_cons in Hsz. pose proof (zlen_nonneg data).
  assert (Hkw : k < P / 2) by (rewrite Hw, (Z.mul_comm 2 w), Z.div_mul by lia; lia).
  pose proof (word_of_page p k ltac:(lia)) as Hpw.
  destruct (fl_fill m (p * P + 2 * k) (lo + 2 ^ 8 * hi) Hi) as (Hi1 & Hf1 & Hl1); [rewrite Hpw; apply Hn; lia|].
  rewrite Hpw in Hl1. rewrite u32_id by (unfold is_u32; nia).
  replace (p * P + 2 * k + 2) with (p * P + 2 * (k + 1)) by lia.
  destruct (IH data (k + 1) (boot_page_fill (p * P + 2 * k) (lo + 2 ^ 8 * hi) m)) as (Ha & Hi2 & Hf2 & Hl2);
    [lia|done|done|lia|lia|done| |].
  { intros i Hik. rewrite Hl1, (proj2 (Z.eqb_neq i k)) by lia. apply Hn. lia. }
  cbn [length]. rewrite div2_SS. split_and!; [rewrite Ha; lia|done|by intros x; rewrite Hf2|].
  intros i. rewrite Hl2, Hl1. rewrite Nat2Z.inj_succ. set (q := Z.of_nat (length data / 2)).
  destruct (Z.eqb_spec i k) as [->|Hik].
  - rewrite (proj2 (Z.leb_gt (k + 1) k)), (proj2 (Z.leb_le k k)), (proj2 (Z.ltb_lt k (k + Z.succ q))) by lia.
    cbn [andb]. by rewrite Z.sub_diag.
  - destruct (Z.leb_spec (k + 1) i), (Z.leb_spec k i), (Z.ltb_spec i (k + 1 + q)), (Z.ltb_spec i (k + Z.succ q));
      cbn [andb]; try done; try lia.
    f_equal. unfold data_word. replace (Z.to_nat (i - k)) with (S (Z.to_nat (i - (k + 1)))) by lia.
    set (n := Z.to_nat (i - (k + 1))). replace (2 * S n)%nat with (S (S (2 * n))) by lia. done.
Qed.

Lemma lor_low n a b : 0 <= n -> 0 <= b < 2 ^ n -> Z.lor (Z.shiftl a n) b = a * 2 ^ n + b.
Proof.
  intros Hn Hb. rewrite <- Z.shiftl_mul_pow2 by done.
  assert (Hd : Z.land (Z.shiftl a n) b = 0).
  { apply Z.bits_inj'. intros i Hi. rewrite Z.land_spec, Z.bits_0. destruct (Z.lt_ge_cases i n).
    - by rewrite Z.shiftl_spec_low.
    - rewrite (testbit_high n b) by lia. apply andb_false_r. }
  rewrite (Z.add_nocarry_lxor _ _ Hd). by rewrite Z.lxor_lor.
Qed.

Lemma land_FF b : is_u8 b -> Z.land 0xFF b = b.
Proof. intros Hb. rewrite Z.land_comm. change 0xFF with (Z.ones 8). rewrite Z.land_ones by lia. by apply u8_id. Qed.

Lemma byte_of data j : Forall is_u8 data -> is_u8 (default 0 (data !! j)).
Proof.
  intros H8. destruct (data !! j) as [b|] eqn:E; [exact (Forall_lookup_1 _ _ _ _ H8 E)|]. done.
Qed.

(** The byte at [j] of a page whose buffer holds the data. *)
Lemma word_byte data j (m : B) :
  Forall is_u8 data ->
  (forall i, latch m i = if (0 <=? i) && (i <? Z.of_nat (length data / 2)) then Some (data_word data (Z.to_nat i)) else None) ->
  let w := default 0xFFFF (latch m (Z.of_nat j / 2)) in
  Z.land 0xFF (if Z.even (Z.of_nat j) then w mod 2 ^ 8 else w / 2 ^ 8) = stored data j.
Proof.
  intros H8 Hl. cbv zeta. rewrite Hl. unfold stored. clear Hl.
  replace (Z.of_nat j / 2) with (Z.of_nat (j / 2)) by apply Nat2Z.inj_div. rewrite Nat2Z.id.
  rewrite (proj2 (Z.leb_le 0 _)) by lia. cbn [andb].
  pose proof (Nat.div_mod_eq j 2) as Hj. pose proof (Nat.mod_upper_bound j 2 ltac:(lia)).
  assert (He : Z.even (Z.of_nat j) = (j mod 2 =? 0)%nat).
  { rewrite Hj at 1. rewrite Nat2Z.inj_add, Nat2Z.inj_mul, Z.even_add, Z.even_mul.
    destruct (j mod 2)%nat as [|[|]] eqn:E; [done|done|lia]. }
  rewrite He. set (i := (j / 2)%nat) in *. set (n := (length data / 2)%nat).
  destruct (Z.ltb_spec (Z.of_nat i) (Z.of_nat n)) as [Hlt|Hge]; cbn [from_option id].
  - rewrite (proj2 (Nat.ltb_lt j (2 * n))) by lia. unfold data_word.
    pose proof (byte_of data (2 * i) H8) as Hb1. pose proof (byte_of data (2 * i + 1) H8) as Hb2.
    destruct (Nat.eqb_spec (j mod 2) 0) as [E|E].
    + rewrite (Z.mul_comm (2 ^ 8)), Z.mod_add, Z.mod_small by (unfold is_u8 in *; lia).
      rewrite land_FF by done. do 2 f_equal. lia.
    + rewrite (Z.mul_comm (2 ^ 8)), Z.div_add, Z.div_small by (unfold is_u8 in *; lia).
      rewrite Z.add_0_l, land_FF by done. do 2 f_equal. lia.
  - rewrite (proj2 (Nat.ltb_ge j (2 * n))) by lia. by destruct (_ =? 0)%nat.
Qed.

(** A page is blank. *)
Definition blank (p : Z) (m : B) : Prop := forall x, x / P = p -> flash m x = 0xFF.

Lemma page_erased p (m : B) :
  idle m -> (forall i, latch m i = None) -> 0 <= p * P < BOOT_START_ADDR ->
  let m' := boot_spm_busy_wait (boot_page_erase (p * P) m) in
  idle m' /\ (forall i, latch m' i = None) /\ blank p m' /\ forall x, x / P <> p -> flash m' x = flash m x.
Proof.
  intros Hi Hn Hp m'. destruct fl_page as (w & Hw & Hw0). destruct (fl_erase m (p * P) Hi Hp) as [He Hle].
  destruct (fl_wait (boot_page_erase (p * P) m)) as (Hi1 & Hf1 & Hl1). rewrite Z.div_mul in He by lia.
  split_and!; [done|intros i; by rewrite Hl1, Hle|..].
  - intros x Hx. by rewrite Hf1, He, Hx, Z.eqb_refl.
  - intros x Hx. by rewrite Hf1, He, (proj2 (Z.eqb_neq _ _) Hx).
Qed.

(** A blank page filled from its start and written. *)
Lemma page_flashed p data (m : B) :
  idle m -> (forall i, latch m i = None) -> blank p m ->
  0 <= p -> (p + 1) * P <= BOOT_START_ADDR -> zlen data <= P -> Forall is_u8 data ->
  let m' := boot_spm_busy_wait (boot_page_write (p * P) (snd (fill_words (p * P) data m))) in
  idle m' /\ (forall i, latch m' i = None)
  /\ forall x, flash m' x = if x / P =? p then stored data (Z.to_nat (x mod P)) else flash m x.
Proof.
  intros Hi Hn Hb Hp Hmax Hsz H8 m'. subst m'. destruct fl_page as (w & Hw & Hw0). pose proof fl_size as Hbs.
  assert (Ha0 : 0 <= p * P < BOOT_START_ADDR) by nia.
  destruct (fill_words_latch (length data) data p 0 m) as (_ & Hi2 & Hf2 & Hl2); [lia|done|done|lia|lia|lia|by intros|].
  rewrite Z.mul_0_r, Z.add_0_r in Hi2, Hf2, Hl2. set (m2 := snd (fill_words (p * P) data m)) in *.
  destruct (fl_write m2 (p * P) Hi2 Ha0) as [Hf3 Hl3].
  destruct (fl_wait (boot_page_write (p * P) m2)) as (Hi4 & Hf4 & Hl4).
  split_and!; [exact Hi4|intros i; by rewrite Hl4|]. intros x. rewrite Hf4, Hf3.
  rewrite Z.div_mul by lia. destruct (Z.eqb_spec (x / P) p) as [Hx|Hx]; [|by rewrite Hf2].
  rewrite Hf2, (Hb x Hx).
  assert (HP : 0 < P) by lia. pose proof (Z.mod_pos_bound x P HP) as Hm.
  assert (Hd : x = P * (x / P) + x mod P) by (apply Z.div_mod; lia).
  assert (Hj : Z.of_nat (Z.to_nat (x mod P)) = x mod P) by lia.
  assert (Hev : Z.even x = Z.even (x mod P)).
  { rewrite Hd at 1. rewrite Z.even_add, Z.even_mul, Hw, Z.even_mul. by destruct (Z.even (x mod (2 * w))). }
  rewrite Hev. pose proof (word_byte data (Z.to_nat (x mod P)) m2 H8) as Hwb. rewrite Hj in Hwb.
  apply Hwb. intros i. rewrite Hl2, Z.sub_0_r, Z.add_0_l. by rewrite Hn.
Qed.

(** A whole page replaced, and the memory enabled for reading. *)
Lemma page_replaced p data (m : B) :
  let start := p * P in
  let m' := boot_rww_enable (boot_spm_busy_wait (boot_page_write start
    (snd (fill_words start data (boot_spm_busy_wait (boot_page_erase start m)))))) in
  idle m -> (forall i, latch m i = None) -> 0 <= p -> (p + 1) * P <= BOOT_START_ADDR -> zlen data = P -> Forall is_u8 data ->
  (forall j b, data !! j = Some b -> pgm_read_byte (start + Z.of_nat j) m' = b)
  /\ forall x, x / P <> p -> flash m' x = flash m x.
Proof.
  intros start m' Hi Hn Hp Hmax Hlen H8. destruct fl_page as (w & Hw & Hw0). assert (Hs : 0 <= start) by (unfold start; nia).
  destruct (page_erased p m Hi Hn ltac:(fold start; lia)) as (Hi1 & Hn1 & Hb1 & Hf1).
  destruct (page_flashed p data _ Hi1 Hn1 Hb1 Hp Hmax ltac:(lia) H8) as (Hi2 & _ & Hf2). fold start in Hi2, Hf2, Hf1.
  destruct (fl_enable _ Hi2) as (_ & Hfe & _ & Hre). unfold m'. split.
  - intros j b Hj. pose proof (lookup_lt_Some _ _ _ Hj). unfold zlen in Hlen. rewrite Hre, Hf2 by (unfold start in *; lia).
    unfold start. rewrite (Z.add_comm (p * _)), Z.div_add, Z.div_small, Z.add_0_l, Z.eqb_refl, Z.mod_add, Z.mod_small, Nat2Z.id by lia.
    unfold stored. assert (Hd : length data = (2 * Z.to_nat w)%nat) by lia.
    rewrite Hd, (Nat.mul_comm 2 (Z.to_nat w)), Nat.div_mul, (proj2 (Nat.ltb_lt _ _)), Hj by lia. done.
  - intros x Hx. rewrite Hfe, Hf2, (proj2 (Z.eqb_neq _ _) Hx). by apply Hf1.
Qed.

Definition erased (b : B) : B := boot_rww_enable (application_erased b).

(** ** The application is erased *)

Lemma erase_pages l (b : B) :
  idle b -> (forall i, latch b i = None) ->
  (forall p, p ∈ l -> exists k, p = k * SPM_PAGESIZE /\ 0 <= p < BOOT_START_ADDR) ->
  let m := fold_left (fun m p => boot_spm_busy_wait (boot_page_write p (boot_spm_busy_wait (boot_page_erase p m)))) l b in
  idle m /\ (forall i, latch m i = None)
  /\ forall x, flash m x = 0xFF \/ (flash m x = flash b x /\ (x / SPM_PAGESIZE * SPM_PAGESIZE) ∉ l).
Proof.
  destruct fl_page as (w & Hw & Hw0). assert (HP : 0 < SPM_PAGESIZE) by lia. clear w Hw Hw0.
  revert b. induction l as [|p l IH]; intros b Hi Hn Hl; cbn [fold_left].
  - split_and!; [done|done|]. intros x. right. split; [done|apply not_elem_of_nil].
  - destruct (Hl p) as (k & Hk & Hp); [by left|].
    destruct (fl_erase b p Hi Hp) as [Hf1 Hl1]. destruct (fl_wait (boot_page_erase p b)) as (Hi2 & Hf2 & Hl2).
    set (b2 := boot_spm_busy_wait (boot_page_erase p b)) in *.
    destruct (fl_write b2 p Hi2 Hp) as [Hf3 Hl3]. destruct (fl_wait (boot_page_write p b2)) as (Hi4 & Hf4 & Hl4).
    set (b4 := boot_spm_busy_wait (boot_page_write p b2)) in *.
    destruct (IH b4) as (Hi5 & Hn5 & Hf5); [done|intros i; by rewrite Hl4|intros q Hq; apply Hl; by right|].
    split_and!; [done|done|]. intros x. destruct (Hf5 x) as [Hx|[Hx Hnot]]; [by left|]. cbv zeta.
    rewrite Hx, Hf4, Hf3, Hf2, Hf1, Hl2, Hl1, Hn. cbn [default from_option].
    destruct (Z.eqb_spec (x / SPM_PAGESIZE) (p / SPM_PAGESIZE)) as [E|E].
    + left. by destruct (Z.even x).
    + right. split; [done|]. apply not_elem_of_cons. split; [|done]. intros E'. apply E. rewrite <- E'.
      by rewrite Z.div_mul by lia.
Qed.

Lemma erased_blank (b : B) x :
  idle b -> (forall i, latch b i = None) -> 0 <= x < BOOT_START_ADDR -> flash (erased b) x = 0xFF.
Proof.
  intros Hi Hn Hx. unfold erased, application_erased. destruct fl_page as (w & Hw & Hw0).
  assert (HP : 0 < SPM_PAGESIZE) by lia.
  destruct (erase_pages application_pages b Hi Hn) as (Hi' & _ & Hf).
  { intros p [i [-> Hin]]%list_elem_of_fmap. exists (Z.of_nat i). split; [done|].
    apply elem_of_seq in Hin. cbn in Hin.
    pose proof (Z.mul_div_le (BOOT_START_ADDR + SPM_PAGESIZE - 1) SPM_PAGESIZE HP). nia. }
  destruct (fl_enable _ Hi') as (_ & -> & _). destruct (Hf x) as [E|[_ E]]; [exact E|]. contradict E.
  pose proof (Z.div_pos x SPM_PAGESIZE ltac:(lia) HP) as Hq. pose proof (Z.mul_div_le x SPM_PAGESIZE HP).
  apply list_elem_of_fmap. exists (Z.to_nat (x / SPM_PAGESIZE)). split; [by rewrite Z2Nat.id|].
  apply elem_of_seq. split; [lia|]. cbn. apply Z2Nat.inj_lt; [done| |].
  - apply Z.div_pos; lia.
  - apply (Z.lt_le_trans _ (x / SPM_PAGESIZE + 1)); [lia|]. apply Z.div_le_lower_bound; lia.
Qed.
End flash.
