(* ===== verification/BootloaderCDC.v ===== *)
(** * Bootloaders/CDC/BootloaderCDC.c

    LUFA's serial boot loader, which programs the flash memory over the AVR109
    protocol: its command interpreter and its control requests, as built
    for the miner's ATmega32U2 (32 KB of flash, FLASHEND = 0x7FFF; int has 16
    bits). *)

From S2P Require Import Prelude Machine Endpoint EndpointStream Cdc StdReq Startup BootMemory.

(** ** Descriptors.h, BootloaderCDC.h *)

Definition CDC_TX_EPADDR : Z := Z.lor ENDPOINT_DIR_IN 3.
Definition CDC_RX_EPADDR : Z := Z.lor ENDPOINT_DIR_OUT 4.
Definition BOOTLOADER_VERSION_MAJOR : Z := 0x01.
Definition BOOTLOADER_VERSION_MINOR : Z := 0x00.
(** "LUFACDC" *)
Definition SOFTWARE_IDENTIFIER : list Z := [0x4C; 0x55; 0x46; 0x41; 0x43; 0x44; 0x43].

Record BootState := mkBoot {
  LineEncoding : CDC_LineEncoding_t;
  CurrAddress : Z;
  RunBootloader : bool;
  MagicBootKey : Z;
}.
Definition set_LineEncoding (e : CDC_LineEncoding_t) (b : BootState) : BootState :=
  mkBoot e (CurrAddress b) (RunBootloader b) (MagicBootKey b).
Definition set_CurrAddress (a : Z) (b : BootState) : BootState :=
  mkBoot (LineEncoding b) a (RunBootloader b) (MagicBootKey b).
Definition set_RunBootloader (r : bool) (b : BootState) : BootState :=
  mkBoot (LineEncoding b) (CurrAddress b) r (MagicBootKey b).
Definition set_MagicBootKey (k : Z) (b : BootState) : BootState :=
  mkBoot (LineEncoding b) (CurrAddress b) (RunBootloader b) k.

(** The variables at start-up; [MagicBootKey] is not initialised. *)
Definition boot_start (key : Z) : BootState := mkBoot (mkLineEncoding 0 0 0 8) 0 true key.

(** A byte, promoted to [int] and shifted; and that as a [uint32_t]. *)
Definition int_shl (b n : Z) : Z := signed 16 (u16 (Z.shiftl b n)).
Definition address_high (b : Z) : Z := u32 (int_shl b 9).

(** The address an EEPROM access uses: [(uint8_t* )(intptr_t)(CurrAddress >> 1)]. *)
Definition eeprom_address (a : Z) : Z := u16 (Z.shiftr a 1).

Section boot.
Context {G B : Type} `{Hardware} `{BootMemory B} `{Has BootState G} `{Has B G}.

Definition advance : M G unit := modc (fun b => set_CurrAddress (u32 (CurrAddress b + 2)) b).

Definition FetchNextCommandByte (fuel : nat) : M G Z :=
  Endpoint_SelectEndpoint CDC_RX_EPADDR ;;
  ok ← loop fuel (fun _ : unit =>
    rw ← Endpoint_IsReadWriteAllowed;
    if (rw : bool) then mret (inr true) else
    Endpoint_ClearOUT ;;
    ok ← until_ready fuel Endpoint_IsOUTReceived;
    mret (if ok : bool then inl tt else inr false)) tt;
  if (ok : bool) then Endpoint_Read_8 else mret 0.

Definition WriteNextResponseByte (fuel : nat) (Response : Z) : M G unit :=
  Endpoint_SelectEndpoint CDC_TX_EPADDR ;;
  rw ← Endpoint_IsReadWriteAllowed;
  ok ← (if negb (rw : bool)
        then Endpoint_ClearIN ;; until_ready fuel Endpoint_IsINReady
        else mret true);
  when ok (Endpoint_Write_8 Response).

(** The loops of [ReadWriteMemoryBlock], [while (BlockSize--)]. *)
Fixpoint read_memory (fuel BlockSize : nat) (MemoryType HighByte : Z) : M G unit :=
  match BlockSize with
  | O => mret tt
  | S n =>
      a ← getc CurrAddress;
      if MemoryType =? 0x46 (* 'F' *) then
        b ← look (pgm_read_byte (Z.lor a HighByte));
        WriteNextResponseByte fuel b ;;
        when (negb (HighByte =? 0)) advance ;;
        read_memory fuel n MemoryType (1 - HighByte)
      else
        b ← look (eeprom_read_byte (eeprom_address a));
        WriteNextResponseByte fuel b ;;
        advance ;;
        read_memory fuel n MemoryType HighByte
  end.

Fixpoint write_memory (fuel BlockSize : nat) (MemoryType HighByte LowByte : Z) : M G unit :=
  match BlockSize with
  | O => mret tt
  | S n =>
      if MemoryType =? 0x46 then
        if negb (HighByte =? 0) then
          a ← getc CurrAddress;
          b ← FetchNextCommandByte fuel;
          mem (boot_page_fill a (u16 (Z.lor (int_shl b 8) LowByte))) ;;
          advance ;;
          write_memory fuel n MemoryType (1 - HighByte) LowByte
        else
          b ← FetchNextCommandByte fuel;
          write_memory fuel n MemoryType (1 - HighByte) b
      else
        a ← getc CurrAddress;
        b ← FetchNextCommandByte fuel;
        mem (eeprom_write_byte (eeprom_address a) b) ;;
        advance ;;
        write_memory fuel n MemoryType HighByte LowByte
  end.

Definition ReadWriteMemoryBlock (fuel : nat) (Command : Z) : M G unit :=
  b1 ← FetchNextCommandByte fuel;
  b0 ← FetchNextCommandByte fuel;
  let BlockSize := Z.lor (u16 (int_shl b1 8)) b0 in
  MemoryType ← FetchNextCommandByte fuel;
  if negb (MemoryType =? 0x45) && negb (MemoryType =? 0x46) then
    WriteNextResponseByte fuel 0x3F
  else if Command =? 0x67 (* 'g' *) then
    mem boot_rww_enable ;;
    read_memory fuel (Z.to_nat BlockSize) MemoryType 0
  else
    PageStartAddress ← getc CurrAddress;
    when (MemoryType =? 0x46) (
      mem (boot_page_erase PageStartAddress) ;;
      mem boot_spm_busy_wait) ;;
    write_memory fuel (Z.to_nat BlockSize) MemoryType 0 0 ;;
    when (MemoryType =? 0x46) (
      mem (boot_page_write PageStartAddress) ;;
      mem boot_spm_busy_wait) ;;
    WriteNextResponseByte fuel 0x0D.

(** The [if ... else if ...] of [CDC_Task] on the command byte. *)
Definition run_command (fuel : nat) (Command : Z) : M G unit :=
  let reply := WriteNextResponseByte fuel in
  if Command =? 0x45 (* 'E' *) then modc (set_RunBootloader false) ;; reply 0x0D
  else if Command =? 0x54 (* 'T' *) then FetchNextCommandByte fuel ;; reply 0x0D
  else if (Command =? 0x4C) || (Command =? 0x50) (* 'L', 'P' *) then reply 0x0D
  else if Command =? 0x74 (* 't' *) then reply 0x44 ;; reply 0x00
  else if Command =? 0x61 (* 'a' *) then reply 0x59
  else if Command =? 0x41 (* 'A' *) then
    hi ← FetchNextCommandByte fuel;
    modc (set_CurrAddress (address_high hi)) ;;
    lo ← FetchNextCommandByte fuel;
    modc (fun b => set_CurrAddress (Z.lor (CurrAddress b) (Z.shiftl lo 1)) b) ;;
    reply 0x0D
  else if Command =? 0x70 (* 'p' *) then reply 0x53
  else if Command =? 0x53 (* 'S' *) then for_each SOFTWARE_IDENTIFIER reply
  else if Command =? 0x56 (* 'V' *) then
    reply (0x30 + BOOTLOADER_VERSION_MAJOR) ;; reply (0x30 + BOOTLOADER_VERSION_MINOR)
  else if Command =? 0x73 (* 's' *) then
    reply AVR_SIGNATURE_3 ;; reply AVR_SIGNATURE_2 ;; reply AVR_SIGNATURE_1
  else if Command =? 0x65 (* 'e' *) then
    erase_application ;; reply 0x0D
  else if Command =? 0x6C (* 'l' *) then
    b ← FetchNextCommandByte fuel; mem (boot_lock_bits_set b) ;; reply 0x0D
  else if Command =? 0x72 (* 'r' *) then b ← look (boot_lock_fuse_bits_get GET_LOCK_BITS); reply b
  else if Command =? 0x46 (* 'F' *) then b ← look (boot_lock_fuse_bits_get GET_LOW_FUSE_BITS); reply b
  else if Command =? 0x4E (* 'N' *) then b ← look (boot_lock_fuse_bits_get GET_HIGH_FUSE_BITS); reply b
  else if Command =? 0x51 (* 'Q' *) then b ← look (boot_lock_fuse_bits_get GET_EXTENDED_FUSE_BITS); reply b
  else if Command =? 0x62 (* 'b' *) then
    reply 0x59 ;; reply (Z.shiftr SPM_PAGESIZE 8) ;; reply (Z.land SPM_PAGESIZE 0xFF)
  else if (Command =? 0x42) || (Command =? 0x67) (* 'B', 'g' *) then ReadWriteMemoryBlock fuel Command
  else if Command =? 0x43 (* 'C' *) then
    a ← getc CurrAddress; b ← FetchNextCommandByte fuel; mem (boot_page_fill a b) ;; reply 0x0D
  else if Command =? 0x63 (* 'c' *) then
    a ← getc CurrAddress; b ← FetchNextCommandByte fuel; mem (boot_page_fill (Z.lor a 1) b) ;;
    advance ;; reply 0x0D
  else if Command =? 0x6D (* 'm' *) then
    a ← getc CurrAddress; mem (boot_page_write a) ;; mem boot_spm_busy_wait ;; reply 0x0D
  else if Command =? 0x52 (* 'R' *) then
    a ← getc CurrAddress; ProgramWord ← look (pgm_read_word a);
    reply (Z.shiftr ProgramWord 8) ;; reply (Z.land ProgramWord 0xFF)
  else if Command =? 0x44 (* 'D' *) then
    a ← getc CurrAddress; b ← FetchNextCommandByte fuel; mem (eeprom_write_byte (eeprom_address a) b) ;;
    advance ;; reply 0x0D
  else if Command =? 0x64 (* 'd' *) then
    a ← getc CurrAddress; b ← look (eeprom_read_byte (eeprom_address a)); reply b ;; advance
  else when (negb (Command =? 27)) (reply 0x3F).

(** The end of [CDC_Task]: the reply is sent, then the command acknowledged. *)
Definition send_reply (fuel : nat) : M G unit :=
  Endpoint_SelectEndpoint CDC_TX_EPADDR ;;
  rw ← Endpoint_IsReadWriteAllowed;
  let IsEndpointFull := negb (rw : bool) in
  Endpoint_ClearIN ;;
  ok ← (if IsEndpointFull then
          ok ← until_ready fuel Endpoint_IsINReady;
          when ok Endpoint_ClearIN ;; mret ok
        else mret true);
  when ok (
    ok ← until_ready fuel Endpoint_IsINReady;
    when ok (
      Endpoint_SelectEndpoint CDC_RX_EPADDR ;;
      Endpoint_ClearOUT)).

Definition CDC_Task (fuel : nat) : M G unit :=
  Endpoint_SelectEndpoint CDC_RX_EPADDR ;;
  out ← Endpoint_IsOUTReceived;
  when out (
    Command ← FetchNextCommandByte fuel;
    run_command fuel Command ;;
    send_reply fuel).

(** Whether the start-up code jumps to the application. *)
Definition Application_Jump_Check : M G bool :=
  v ← rd MCUSR;
  k ← getc MagicBootKey;
  if anybit v (BV WDRF) && (k =? MAGIC_BOOT_KEY) then
    reg_clr MCUSR (BV WDRF) ;;
    wdt_disable ;;
    modc (set_MagicBootKey 0) ;;
    mret true
  else mret false.

End boot.

(** ** The control requests *)

Section control.
Context {G : Type} `{Hardware} `{Has UsbState G} `{Has BootState G} `{BoardLeds G}.

(** [EVENT_USB_Device_ControlRequest] *)
Definition on_control_request (fuel : nat) : M G unit :=
  r ← getc USB_ControlRequest;
  if negb (Z.land (bmRequestType r) (Z.lor CONTROL_REQTYPE_TYPE CONTROL_REQTYPE_RECIPIENT)
           =? Z.lor REQTYPE_CLASS REQREC_INTERFACE) then mret tt else
  LEDs_ToggleLEDs (Z.lor LEDS_LED1 LEDS_LED2) ;;
  if bRequest r =? CDC_REQ_GetLineEncoding then
    when (bmRequestType r =? Z.lor (Z.lor REQDIR_DEVICETOHOST REQTYPE_CLASS) REQREC_INTERFACE) (
      Endpoint_ClearSETUP ;;
      e ← getc LineEncoding;
      Endpoint_Write_Control_Stream_LE fuel (line_encoding_bytes e) 7 ;;
      Endpoint_ClearOUT)
  else if bRequest r =? CDC_REQ_SetLineEncoding then
    when (bmRequestType r =? Z.lor (Z.lor REQDIR_HOSTTODEVICE REQTYPE_CLASS) REQREC_INTERFACE) (
      Endpoint_ClearSETUP ;;
      e ← getc LineEncoding;
      x ← Endpoint_Read_Control_Stream_LE fuel (line_encoding_bytes e) 7;
      modc (set_LineEncoding (bytes_line_encoding (snd x))) ;;
      Endpoint_ClearIN)
  else mret tt.

(** [ISR(TIMER1_OVF_vect)] *)
Definition TIMER1_OVF_vect : M G unit := LEDs_ToggleLEDs (Z.lor LEDS_LED1 LEDS_LED2).
End control.
