(* ===== verification/BootSession.v ===== *)
(** * The boot loader as a programmer

    The AVR109 protocol as an abstract machine; the boot loader's command
    interpreter refines it, whatever the packets; and flash memory that is
    written with it is read back. *)

From S2P Require Import Prelude Machine Endpoint EndpointStream BulkTraffic Cdc StdReq BootMemory FlashPages BootloaderCDC.

(** ** The abstract machine *)

Inductive kind := Flash | Eeprom.
Definition kind_byte (k : kind) : Z := match k with Flash => 0x46 | Eeprom => 0x45 end.

Inductive command :=
  | ExitBootloader | SelectDevice (d : Z) | EnterProgramming | LeaveProgramming
  | SupportedDevice | AutoIncrement | SetAddress (hi lo : Z) | ProgrammerType
  | SoftwareIdentifier | SoftwareVersion | DeviceSignature | ChipErase
  | WriteLock (b : Z) | ReadLock | ReadLowFuse | ReadHighFuse | ReadExtendedFuse
  | BlockSupport | WriteBlock (k : kind) (data : list Z) | ReadBlock (k : kind) (n : Z)
  | BadBlock (write : bool) (n t : Z)
  | FillHigh (b : Z) | FillLow (b : Z) | WritePage | ReadWord | WriteEeprom (b : Z) | ReadEeprom
  | Sync | Unknown (b : Z).

(** The first bytes the protocol knows. *)
Definition known : list Z :=
  [0x45; 0x54; 0x4C; 0x50; 0x74; 0x61; 0x41; 0x70; 0x53; 0x56; 0x73; 0x65; 0x6C; 0x72; 0x46; 0x4E;
   0x51; 0x62; 0x42; 0x67; 0x43; 0x63; 0x6D; 0x52; 0x44; 0x64; 27].

Definition size_bytes (n : Z) : list Z := [n / 256; n mod 256].

(** What the host sends. *)
Definition encode (c : command) : list Z :=
  match c with
  | ExitBootloader => [0x45] | SelectDevice d => [0x54; d]
  | EnterProgramming => [0x50] | LeaveProgramming => [0x4C]
  | SupportedDevice => [0x74] | AutoIncrement => [0x61] | SetAddress hi lo => [0x41; hi; lo]
  | ProgrammerType => [0x70] | SoftwareIdentifier => [0x53] | SoftwareVersion => [0x56]
  | DeviceSignature => [0x73] | ChipErase => [0x65] | WriteLock b => [0x6C; b] | ReadLock => [0x72]
  | ReadLowFuse => [0x46] | ReadHighFuse => [0x4E] | ReadExtendedFuse => [0x51] | BlockSupport => [0x62]
  | WriteBlock k data => 0x42 :: size_bytes (zlen data) ++ kind_byte k :: data
  | ReadBlock k n => 0x67 :: size_bytes n ++ [kind_byte k]
  | BadBlock w n t => (if w then 0x42 else 0x67) :: size_bytes n ++ [t]
  | FillHigh b => [0x43; b] | FillLow b => [0x63; b] | WritePage => [0x6D] | ReadWord => [0x52]
  | WriteEeprom b => [0x44; b] | ReadEeprom => [0x64] | Sync => [27] | Unknown b => [b]
  end.

Definition command_ok (c : command) : Prop :=
  match c with
  | WriteBlock _ data => zlen data < 2 ^ 16 /\ Forall is_u8 data
  | ReadBlock _ n => is_u16 n
  | BadBlock _ n t => is_u16 n /\ t <> 0x45 /\ t <> 0x46
  | SetAddress hi lo => is_u8 hi /\ is_u8 lo
  | Unknown b => b ∉ known
  | _ => True
  end.

(** The address, the memories, and whether the boot loader goes on. *)
Record chip (B : Type) := mkChip { address : Z; memory : B; running : bool }.
Arguments mkChip {B} _ _ _.
Arguments address {B} _.
Arguments memory {B} _.
Arguments running {B} _.

Section spec.
Context {B : Type} `{BootMemory B}.

Fixpoint write_eeprom (a : Z) (data : list Z) (m : B) : Z * B :=
  match data with
  | b :: data' => write_eeprom (u32 (a + 2)) data' (eeprom_write_byte (eeprom_address a) b m)
  | [] => (a, m)
  end.
Fixpoint read_eeprom (a : Z) (n : nat) (m : B) : list Z :=
  match n with
  | S n' => eeprom_read_byte (eeprom_address a) m :: read_eeprom (u32 (a + 2)) n' m
  | O => []
  end.

(** The [n] bytes of the flash memory from [a]. *)
Definition flash_bytes (a : Z) (n : nat) (m : B) : list Z :=
  map (fun i => pgm_read_byte (u32 (a + Z.of_nat i)) m) (seq 0 n).

(** The replies, before they are cut to bytes, and the new state. *)
Definition answer (c : command) (s : chip B) : list Z * chip B :=
  let a := address s in
  let m := memory s in
  let ok m' := ([0x0D], mkChip a m' (running s)) in
  let at_ a' m' := ([0x0D], mkChip a' m' (running s)) in
  let say l := (l, s) in
  match c with
  | ExitBootloader => ([0x0D], mkChip a m false)
  | SelectDevice _ | EnterProgramming | LeaveProgramming => ok m
  | SupportedDevice => say [0x44; 0]
  | AutoIncrement => say [0x59]
  | SetAddress hi lo => at_ (Z.lor (address_high hi) (2 * lo)) m
  | ProgrammerType => say [0x53]
  | SoftwareIdentifier => say SOFTWARE_IDENTIFIER
  | SoftwareVersion => say [0x31; 0x30]
  | DeviceSignature => say [AVR_SIGNATURE_3; AVR_SIGNATURE_2; AVR_SIGNATURE_1]
  | ChipErase => ok (application_erased m)
  | WriteLock b => ok (boot_lock_bits_set b m)
  | ReadLock => say [boot_lock_fuse_bits_get GET_LOCK_BITS m]
  | ReadLowFuse => say [boot_lock_fuse_bits_get GET_LOW_FUSE_BITS m]
  | ReadHighFuse => say [boot_lock_fuse_bits_get GET_HIGH_FUSE_BITS m]
  | ReadExtendedFuse => say [boot_lock_fuse_bits_get GET_EXTENDED_FUSE_BITS m]
  | BlockSupport => say [0x59; Z.shiftr SPM_PAGESIZE 8; Z.land SPM_PAGESIZE 0xFF]
  | WriteBlock Flash data =>
      let r := fill_words a data (boot_spm_busy_wait (boot_page_erase a m)) in
      at_ (fst r) (boot_spm_busy_wait (boot_page_write a (snd r)))
  | WriteBlock Eeprom data => let r := write_eeprom a data m in at_ (fst r) (snd r)
  | ReadBlock Flash n =>
      let m' := boot_rww_enable m in
      (flash_bytes a (Z.to_nat n) m', mkChip (u32 (a + 2 * (n / 2))) m' (running s))
  | ReadBlock Eeprom n =>
      let m' := boot_rww_enable m in
      (read_eeprom a (Z.to_nat n) m', mkChip (u32 (a + 2 * n)) m' (running s))
  | BadBlock _ _ _ => say [0x3F]
  | FillHigh b => ok (boot_page_fill a b m)
  | FillLow b => at_ (u32 (a + 2)) (boot_page_fill (a + 1) b m)
  | WritePage => ok (boot_spm_busy_wait (boot_page_write a m))
  | ReadWord => say [Z.shiftr (pgm_read_word a m) 8; Z.land (pgm_read_word a m) 0xFF]
  | WriteEeprom b => at_ (u32 (a + 2)) (eeprom_write_byte (eeprom_address a) b m)
  | ReadEeprom => ([eeprom_read_byte (eeprom_address a) m], mkChip (u32 (a + 2)) m (running s))
  | Sync => say []
  | Unknown _ => say [0x3F]
  end.

(** The commands of a session. *)
Fixpoint session (cs : list command) (s : chip B) : list Z * chip B :=
  match cs with
  | [] => ([], s)
  | c :: cs' => let r := answer c s in let r' := session cs' (snd r) in (fst r ++ fst r', snd r')
  end.

(** Addresses are even: the host gives them in words. *)
Definition chip_ok (s : chip B) : Prop := is_u32 (address s) /\ Z.even (address s) = true.
End spec.

(** *** Addresses *)

Lemma even_lor a k : Z.even a = true -> k = 0 \/ k = 1 -> Z.lor a k = a + k.
Proof.
  intros He [-> | ->]; [by rewrite Z.lor_0_r, Z.add_0_r|].
  assert (Hd : Z.land a 1 = 0).
  { change 1 with (Z.ones 1). rewrite Z.land_ones by lia. apply Z.even_spec in He as [q ->].
    rewrite Z.mul_comm. by apply Z.mod_mul. }
  rewrite (Z.add_nocarry_lxor _ _ Hd). by rewrite Z.lxor_lor.
Qed.

Lemma even_add {B} (c : chip B) k : chip_ok c -> k = 0 \/ k = 1 -> u32 (address c + k) = address c + k.
Proof.
  intros [Hr He] Hk. apply u32_id. unfold is_u32 in *. apply Z.even_spec in He as [q Hq].
  change (2 ^ 32) with 4294967296 in *. lia.
Qed.
Lemma u32_add a b : u32 (u32 a + b) = u32 (a + b).
Proof. unfold u32. apply Zplus_mod_idemp_l. Qed.

Lemma chip_ok_next {B} (c : chip B) (m : B) r : chip_ok c -> chip_ok (mkChip (u32 (address c + 2)) m r).
Proof.
  intros [Hr He]. split; [apply u32_range|]. cbn [address]. unfold u32.
  by rewrite Z.mod_eq, Z.even_sub, Z.even_mul, Z.even_add, He by done.
Qed.

Lemma flash_bytes_S `{BootMemory B} a n m :
  flash_bytes a (S n) m = pgm_read_byte (u32 a) m :: flash_bytes (a + 1) n m.
Proof.
  unfold flash_bytes. cbn [seq map]. rewrite Z.add_0_r. f_equal. rewrite <- seq_shift, map_map.
  apply map_ext. intros i. do 2 f_equal. lia.
Qed.
Lemma flash_bytes_u32 `{BootMemory B} a n m : flash_bytes (u32 a) n m = flash_bytes a n m.
Proof. apply map_ext. intros i. by rewrite u32_add. Qed.

(** Two bytes as a word, in the processor's 16-bit arithmetic. *)
Lemma u16_signed z : u16 (signed 16 (u16 z)) = u16 z.
Proof.
  unfold signed. destruct (_ <? _); [apply u16_u16|]. unfold u16.
  replace (z mod 2 ^ 16 - 2 ^ 16) with (z mod 2 ^ 16 + (-1) * 2 ^ 16) by lia.
  rewrite Z.mod_add by lia. by apply Z.mod_mod.
Qed.
Lemma u16_lor a b : u16 (Z.lor a b) = Z.lor (u16 a) (u16 b).
Proof.
  unfold u16. rewrite <- !Z.land_ones by lia. apply Z.land_lor_distr_l.
Qed.
Lemma word_bytes hi lo : is_u8 hi -> is_u8 lo -> Z.lor (u16 (int_shl hi 8)) lo = lo + 2 ^ 8 * hi.
Proof.
  intros Hh Hl. unfold int_shl. rewrite u16_signed, Z.lor_comm, u16_id, le_value_split; [done|done|].
  unfold is_u8, is_u16 in *. rewrite Z.shiftl_mul_pow2 by lia. lia.
Qed.
Lemma fill_word hi lo : is_u8 hi -> is_u8 lo -> u16 (Z.lor (int_shl hi 8) lo) = lo + 2 ^ 8 * hi.
Proof.
  intros Hh Hl. rewrite u16_lor, (u16_id lo) by (unfold is_u8, is_u16 in *; lia). by apply word_bytes.
Qed.

Lemma size_word n : is_u16 n -> Z.lor (u16 (int_shl (n / 256) 8)) (n mod 256) = n.
Proof.
  intros Hn. unfold is_u16 in Hn. pose proof (Z.div_mod n 256 ltac:(lia)).
  pose proof (Z.mod_pos_bound n 256 ltac:(lia)).
  rewrite word_bytes by (unfold is_u8; change (2 ^ 8) with 256; lia). change (2 ^ 8) with 256. lia.
Qed.

(** ** The bytes on the bus *)

Section talk.
Context {B : Type} `{Hardware} `{BootMemory B}.
Abbreviation G := (BootState * B)%type.
Context (ps : list (list Z)) (size fuel : nat) (base : list Z).
Context (Hout : bulk_out 4 ps) (Hin : bulk_in 3 size) (Hfuel : (length ps < fuel)%nat).

(** The variables of a chip. *)
Definition holds_chip (c : chip B) (g : G) : Prop :=
  CurrAddress (fst g) = address c /\ RunBootloader (fst g) = running c /\ snd g = memory c.

(** [rest] is still to be read of the command, [out] has been replied. *)
Definition talk (rest out : list Z) (c : chip B) (s : st G) : Prop :=
  arriving 4 ps rest (hist s) /\ out_bytes 3 (hist s) = base ++ out
  /\ (length (snd (in_bank 3 (hist s))) <= size)%nat /\ holds_chip c (glob s).

Lemma talk_select h' rest out c (h : history) (g : G) :
  (forall m, out_bank m h' = out_bank m h /\ in_bank m h' = in_bank m h) ->
  talk rest out c (St h g) -> talk rest out c (St h' g).
Proof using.
  intros Hb (Ha & Ho & Hl & Hc). unfold talk, arriving, out_bytes in *. cbn [hist glob] in *.
  by rewrite (proj1 (Hb 4)), (proj2 (Hb 3)).
Qed.

(** A flag that is up is waited for once. *)
Lemma until_ready_up n bit h (g : G) (Q : bool -> st G -> Prop) :
  sel n h = true -> anybit (reg_trunc UEINTX (hw_value h UEINTX)) (BV bit) = true ->
  (forall v, Q true (St (Rd UEINTX v :: h) g)) ->
  wp_ False (until_ready fuel (v ← rd UEINTX; mret (anybit v (BV bit)))) Q (St h g).
Proof using Hfuel.
  intros Hs Hv HQ. destruct fuel as [|f]; [lia|]. unfold until_ready. cbn [loop].
  apply wp_bind, wp_bind, wp_flag. cbv zeta. cbn [hist glob]. rewrite Hv. apply wp_ret, wp_ret, HQ.
Qed.

(** The next byte of the command. *)
Lemma fetch_spec x rest out c s (Q : Z -> st G -> Prop) :
  talk (x :: rest) out c s -> (forall s', talk rest out c s' -> Q x s') ->
  wp_ False (FetchNextCommandByte fuel) Q s.
Proof using Hout Hfuel.
  destruct s as [h g]. intros Ht HQ. unfold FetchNextCommandByte. apply wp_bind, wp_select.
  change (ep_num CDC_RX_EPADDR) with 4. intros h1 Hs1 Hb1. apply (talk_select _ _ _ _ _ _ Hb1) in Ht.
  apply wp_bind. eapply wp_conseq; [apply (wp_loop_total _
    (fun _ s' => exists h', s' = St h' g /\ sel 4 h' = true /\ talk (x :: rest) out c s')
    (fun _ s' => length ps - fst (out_bank 4 (hist s')))%nat
    (fun b s' => b = true /\ exists h' r j p, s' = St h' g /\ talk (x :: rest) out c s' /\ sel 4 h' = true
       /\ out_bank 4 h' = (r, j) /\ ps !! r = Some p /\ (j < length p)%nat
       /\ x :: rest = drop j p ++ concat (drop (S r) ps)))|done|].
  - by exists h1.
  - lia.
  - clear h1 Hs1 Hb1 Ht. intros [] s1 (h1 & -> & Hs1 & Ht). pose proof Ht as ((r & j & p & Hb & Hp & Hj & Hbs) & Ho & Hl & Hc).
    cbn [hist] in Hb. unfold Endpoint_IsReadWriteAllowed. apply wp_bind, wp_flag. cbv zeta. cbn [hist glob].
    rewrite (proj2 (bo_flags _ _ Hout h1 r j p Hs1 Hb Hp)). set (v := reg_trunc UEINTX _).
    destruct (Nat.ltb_spec j (length p)) as [Hlt|Hge].
    + apply wp_ret. split; [done|]. exists (Rd UEINTX v :: h1), r, j, p. split_and!; [done| |done|done|done|done|done].
      split; [|done]. by exists r, j, p.
    + apply wp_bind, (clear_out 4 (Rd UEINTX v :: h1) g _ r j); [exact Hs1|done|]. intros h2 Hs2 Hb2 Hap2.
      assert (Hinc : incoming 4 ps (x :: rest) h2).
      { eapply (incoming_next 4 ps (x :: rest) h1 h2 r j p); [by split; [|exists r, j, p]|done|done|lia|done|done|done]. }
      pose proof Hinc as [_ (r2 & j2 & p2 & Hb2' & Hp2 & _)].
      apply wp_bind. apply (until_ready_up 4 RXOUTI); [done|exact (proj1 (bo_flags _ _ Hout h2 r2 j2 p2 Hs2 Hb2' Hp2))|].
      intros v2. apply wp_ret. cbn [hist]. rewrite out_bank_rd, Hb, Hb2 by done. cbn [fst].
      apply lookup_lt_Some in Hp. split; [|lia]. exists (Rd UEINTX v2 :: h2). split; [done|]. split; [exact Hs2|].
      destruct (un_bank _ _ _ Hap2 3 ltac:(done)) as [Hi3 _]. rewrite in_bank_rd in Hi3.
      split; [by apply incoming_rd|]. split; [|split; [|exact Hc]]; cbn [hist]; [|by rewrite in_bank_rd, Hi3].
      unfold out_bytes. by rewrite in_bank_rd, Hi3.
  - intros b s1 (-> & h2 & r & j & p & -> & (Ha & Ho & Hl & Hc) & Hs2 & Hb & Hp & Hlt & Hbs). cbv match.
    unfold Endpoint_Read_8. apply wp_rd. cbv zeta. cbn [hist glob].
    destruct (lookup_lt_is_Some_2 p j Hlt) as [y Hy]. rewrite (drop_S p y j Hy) in Hbs. injection Hbs as <- Hbs.
    rewrite (bo_data _ _ Hout h2 r j p x Hs2 Hb Hp Hy). apply HQ. split; [|done].
    exists r, (S j), p. cbn [hist out_bank]. rewrite Hb, Hs2. split_and!; [done|done|lia|done].
Qed.

(** A byte of the reply. *)
Lemma boot_reply_spec x rest out c s (Q : unit -> st G -> Prop) :
  talk rest out c s -> (forall s', talk rest (out ++ [u8 x]) c s' -> Q tt s') ->
  wp_ False (WriteNextResponseByte fuel x) Q s.
Proof using Hin Hfuel.
  destruct s as [h g]. intros Ht HQ. unfold WriteNextResponseByte. apply wp_bind, wp_select.
  change (ep_num CDC_TX_EPADDR) with 3. intros h1 Hs1 Hb1. apply (talk_select _ _ _ _ _ _ Hb1) in Ht.
  destruct Ht as (Ha & Ho & Hl & Hc). cbn [hist] in *.
  unfold Endpoint_IsReadWriteAllowed. apply wp_bind, wp_flag. cbv zeta. cbn [hist glob].
  rewrite (proj2 (bi_flags _ _ Hin h1 Hs1)). set (v := reg_trunc UEINTX _).
  assert (Hput : forall h2, sel 3 h2 = true -> out_bank 4 h2 = out_bank 4 h1 -> out_bytes 3 h2 = out_bytes 3 h1 ->
    (length (snd (in_bank 3 h2)) < size)%nat -> wp_ False (Endpoint_Write_8 x) Q (St h2 g)).
  { intros h2 Hs2 Hb2 Ho2 Hl2. unfold Endpoint_Write_8. apply wp_wr, HQ. cbn [hist glob].
    set (h3 := Wr UEDATX _ :: h2).
    assert (Hb3 : in_bank 3 h3 = (fst (in_bank 3 h2), snd (in_bank 3 h2) ++ [u8 x])).
    { unfold h3. cbn [in_bank]. rewrite Hs2. by destruct (in_bank 3 h2). }
    split; [|split; [|split; [|exact Hc]]]; cbn [hist].
    - unfold arriving in *. unfold h3. cbn [out_bank]. by rewrite Hb2.
    - unfold out_bytes at 1. rewrite Hb3. cbn [fst snd]. rewrite !app_assoc, <- Ho, <- Ho2. done.
    - rewrite Hb3. cbn [snd]. rewrite length_app. cbn [length]. lia. }
  apply wp_bind. destruct (Nat.ltb_spec (length (snd (in_bank 3 h1))) size) as [Hlt|Hge]; cbn [negb].
  - apply wp_ret. rewrite when_true. apply Hput; [exact Hs1|done|unfold out_bytes; by rewrite in_bank_rd|by rewrite in_bank_rd].
  - apply wp_bind, (clear_in 3 (Rd UEINTX v :: h1)); [exact Hs1|]. intros h2 Hs2 Hap2 Hb2.
    apply (until_ready_up 3 TXINI); [done|apply (bi_flags _ _ Hin h2 Hs2)|]. intros v2. rewrite when_true.
    destruct (un_bank _ _ _ Hap2 4 ltac:(done)) as [_ Ho4].
    apply Hput; [exact Hs2|by rewrite out_bank_rd, Ho4| |rewrite in_bank_rd, Hb2; apply (bi_size _ _ Hin)].
    transitivity (out_bytes 3 h2); [unfold out_bytes; by rewrite in_bank_rd|].
    rewrite (out_bytes_sent _ _ _ Hb2). unfold out_bytes. by rewrite in_bank_rd.
Qed.

(** *** The variables *)

Lemma mem_spec f rest out c s (Q : unit -> st G -> Prop) :
  talk rest out c s ->
  (forall s', talk rest out (mkChip (address c) (f (memory c)) (running c)) s' -> Q tt s') ->
  wp_ False (mem f) Q s.
Proof using.
  intros (Ha & Ho & Hl & H1 & H2 & H3) HQ. unfold mem. apply wp_modc, HQ.
  split; [exact Ha|]. split; [exact Ho|]. split; [exact Hl|]. cbn [glob]. split; [exact H1|]. split; [exact H2|].
  cbn. by rewrite H3.
Qed.
Lemma look_spec {A} (f : B -> A) rest out c s (Q : A -> st G -> Prop) :
  talk rest out c s -> Q (f (memory c)) s -> wp_ False (look f) Q s.
Proof using. intros (_ & _ & _ & _ & _ & H3) HQ. apply wp_getc. cbn. by rewrite H3. Qed.
Lemma addr_spec rest out c s (Q : Z -> st G -> Prop) :
  talk rest out c s -> Q (address c) s -> wp_ False (getc CurrAddress) Q s.
Proof using. intros (_ & _ & _ & H1 & _) HQ. apply wp_getc. cbn. by rewrite H1. Qed.

(** Assignments. *)
Lemma address_spec a' rest out c s f (Q : unit -> st G -> Prop) :
  (forall b, CurrAddress b = address c -> f b = set_CurrAddress a' b) ->
  talk rest out c s ->
  (forall s', talk rest out (mkChip a' (memory c) (running c)) s' -> Q tt s') ->
  wp_ False (modc f) Q s.
Proof using.
  intros Hf (Ha & Ho & Hl & H1 & H2 & H3) HQ. apply wp_modc, HQ.
  split; [exact Ha|]. split; [exact Ho|]. split; [exact Hl|]. cbn. by rewrite (Hf _ H1).
Qed.
Lemma advance_spec rest out c s (Q : unit -> st G -> Prop) :
  talk rest out c s ->
  (forall s', talk rest out (mkChip (u32 (address c + 2)) (memory c) (running c)) s' -> Q tt s') ->
  wp_ False advance Q s.
Proof using. intros Ht. eapply address_spec; [|exact Ht]. by intros b ->. Qed.
Lemma stop_spec rest out c s (Q : unit -> st G -> Prop) :
  talk rest out c s ->
  (forall s', talk rest out (mkChip (address c) (memory c) false) s' -> Q tt s') ->
  wp_ False (modc (set_RunBootloader false)) Q s.
Proof using.
  intros (Ha & Ho & Hl & H1 & H2 & H3) HQ. apply wp_modc, HQ.
  split; [exact Ha|]. split; [exact Ho|]. by split.
Qed.

(** One statement of the interpreter; the conversation is the hypothesis [Ht]. *)
Ltac boot_step :=
  lazymatch goal with
  | |- wp_ _ (_ ≫= _) _ _ => apply wp_bind
  | |- wp_ _ (mret _) _ _ => apply wp_ret
  | Ht : talk _ _ _ ?s |- wp_ _ (FetchNextCommandByte _) _ ?s =>
      eapply fetch_spec; [exact Ht|clear dependent s; intros s Ht]
  | Ht : talk _ _ _ ?s |- wp_ _ (WriteNextResponseByte _ _) _ ?s =>
      eapply boot_reply_spec; [exact Ht|clear dependent s; intros s Ht]
  | Ht : talk _ _ _ ?s |- wp_ _ (mem _) _ ?s =>
      eapply mem_spec; [exact Ht|clear dependent s; intros s Ht; cbn [address memory running] in Ht]
  | Ht : talk _ _ _ ?s |- wp_ _ advance _ ?s =>
      eapply advance_spec; [exact Ht|clear dependent s; intros s Ht; cbn [address memory running] in Ht]
  | Ht : talk _ _ _ ?s |- wp_ _ (look _) _ ?s => eapply look_spec; [exact Ht|cbn [address memory running]]
  | Ht : talk _ _ _ ?s |- wp_ _ (getc CurrAddress) _ ?s =>
      eapply addr_spec; [exact Ht|cbn [address memory running]]
  | Ht : talk _ _ _ ?s |- wp_ _ (modc (set_RunBootloader false)) _ ?s =>
      eapply stop_spec; [exact Ht|clear dependent s; intros s Ht; cbn [address memory running] in Ht]
  | |- wp_ _ (when ?b _) _ _ =>
      lazymatch b with true => rewrite when_true | false => rewrite when_false end
  end.

(** *** Blocks of memory *)

(** [n] bytes, [k] of the first word's already. *)
Lemma read_flash_spec n out c s (Q : unit -> st G -> Prop) k rest :
  talk rest out c s -> chip_ok c -> k = 0 \/ k = 1 ->
  (forall s', talk rest (out ++ map u8 (flash_bytes (address c + k) n (memory c)))
     (mkChip (u32 (address c + 2 * ((k + Z.of_nat n) / 2))) (memory c) (running c)) s' -> Q tt s') ->
  wp_ False (read_memory fuel n 0x46 k) Q s.
Proof using Hin Hfuel.
  revert out c s k. induction n as [|n IH]; intros out c s k Ht Hc Hk HQ; cbn [read_memory].
  - apply wp_ret, HQ. destruct c as [a m r]. cbn [address memory running] in *.
    unfold flash_bytes. cbn [seq map]. rewrite app_nil_r, Z.add_0_r.
    replace (k / 2) with 0 by (destruct Hk as [-> | ->]; reflexivity). rewrite Z.add_0_r, u32_id; [done|apply Hc].
  - boot_step. boot_step. change (0x46 =? 0x46) with true. cbv match. do 4 boot_step.
    rewrite (even_lor _ _ (proj2 Hc) Hk) in Ht. rewrite flash_bytes_S in HQ. cbn [map] in HQ.
    assert (Ha : u32 (address c + k) = address c + k) by (by apply even_add).
    rewrite Ha, cons_middle, app_assoc in HQ. destruct Hk as [-> | ->]; cbn [Z.eqb negb]; repeat boot_step.
    + apply (IH _ c s 1 Ht Hc (or_intror eq_refl)). intros s' Ht'. apply HQ.
      rewrite Z.add_0_r in Ht' |- *. rewrite Nat2Z.inj_succ. replace (0 + Z.succ (Z.of_nat n)) with (1 + Z.of_nat n) by lia. exact Ht'.
    + apply (IH _ _ s 0 Ht (chip_ok_next _ _ _ Hc) (or_introl eq_refl)). intros s' Ht'. apply HQ.
      cbn [address memory running] in Ht'. rewrite Z.add_0_r, flash_bytes_u32, u32_add in Ht'.
      rewrite Nat2Z.inj_succ. replace (1 + Z.succ (Z.of_nat n)) with (0 + Z.of_nat n + 1 * 2) by lia.
      rewrite Z.div_add by lia. replace (address c + 1 + 1) with (address c + 2) by lia.
      replace (address c + 2 * ((0 + Z.of_nat n) / 2 + 1)) with (address c + 2 + 2 * ((0 + Z.of_nat n) / 2)) by lia.
      exact Ht'.
Qed.

Lemma read_eeprom_spec n out c s (Q : unit -> st G -> Prop) rest :
  talk rest out c s -> is_u32 (address c) ->
  (forall s', talk rest (out ++ map u8 (read_eeprom (address c) n (memory c)))
     (mkChip (u32 (address c + 2 * Z.of_nat n)) (memory c) (running c)) s' -> Q tt s') ->
  wp_ False (read_memory fuel n 0x45 0) Q s.
Proof using Hin Hfuel.
  revert out c s. induction n as [|n IH]; intros out c s Ht Hc HQ; cbn [read_memory].
  - apply wp_ret, HQ. destruct c as [a m r]. cbn [address memory running read_eeprom map] in *.
    by rewrite app_nil_r, Z.add_0_r, u32_id.
  - boot_step. boot_step. change (0x45 =? 0x46) with false. cbv match. do 6 boot_step.
    apply (IH _ _ s Ht); [apply u32_range|]. intros s' Ht'. apply HQ. cbn [address memory running] in Ht'.
    cbn [read_eeprom map]. rewrite cons_middle, app_assoc. rewrite u32_add in Ht'.
    replace (address c + 2 * Z.of_nat (S n)) with (address c + 2 + 2 * Z.of_nat n) by lia. exact Ht'.
Qed.

Lemma write_flash_spec l data low out c s (Q : unit -> st G -> Prop) rest :
  (length data <= l)%nat -> talk (data ++ rest) out c s -> Forall is_u8 data ->
  (forall s', talk rest out (mkChip (fst (fill_words (address c) data (memory c)))
       (snd (fill_words (address c) data (memory c))) (running c)) s' -> Q tt s') ->
  wp_ False (write_memory fuel (length data) 0x46 0 low) Q s.
Proof using Hout Hfuel.
  revert data low c s. induction l as [|l IH]; intros data low c s Hl Ht H8 HQ;
    (destruct data as [|lo [|hi data]]; cbn [length] in Hl; [..|try lia]); try lia; cbn [length write_memory fill_words app] in *.
  1,2: apply wp_ret, HQ; cbn [fst snd]; by destruct c.
  - change (0x46 =? 0x46) with true. cbn [Z.eqb negb]. repeat boot_step. apply HQ. cbn [fst snd]. by destruct c.
  - apply Forall_cons_1 in H8 as [Hlo H8]. apply Forall_cons_1 in H8 as [Hhi H8].
    change (0x46 =? 0x46) with true. change (1 - 0) with 1. change (1 - 1) with 0.
    cbn [Z.eqb negb]. do 2 boot_step. change (1 =? 0) with false. cbn [negb]. repeat boot_step.
    rewrite fill_word in Ht by done. eapply (IH data lo); [lia|exact Ht|done|].
    intros s' Ht'. by apply HQ.
Qed.

Lemma write_eeprom_spec data out c s (Q : unit -> st G -> Prop) rest :
  talk (data ++ rest) out c s ->
  (forall s', talk rest out (mkChip (fst (write_eeprom (address c) data (memory c)))
       (snd (write_eeprom (address c) data (memory c))) (running c)) s' -> Q tt s') ->
  wp_ False (write_memory fuel (length data) 0x45 0 0) Q s.
Proof using Hout Hfuel.
  revert c s. induction data as [|b data IH]; intros c s Ht HQ; cbn [length write_memory write_eeprom app] in *.
  - apply wp_ret, HQ. by destruct c.
  - change (0x45 =? 0x46) with false. cbv match. repeat boot_step. by apply (IH _ s Ht).
Qed.

(** *** Commands *)

Lemma block_spec c s t (Q : unit -> st G -> Prop) rest :
  match c with WriteBlock _ _ | ReadBlock _ _ | BadBlock _ _ _ => True | _ => False end ->
  command_ok c -> chip_ok t -> talk (tl (encode c) ++ rest) [] t s ->
  (forall s', talk rest (map u8 (fst (answer c t))) (snd (answer c t)) s' -> Q tt s') ->
  wp_ False (ReadWriteMemoryBlock fuel (hd 0 (encode c))) Q s.
Proof using Hin Hout Hfuel.
  intros Hc Hok Ht Hs HQ. destruct c as [| | | | | | | | | | | | | | | | | |k data|k n|w n x| | | | | | | |]; try done;
    cbn [encode tl hd app size_bytes command_ok] in *; unfold ReadWriteMemoryBlock; repeat boot_step.
  - destruct Hok as [Hl H8]. pose proof (zlen_nonneg data).
    rewrite size_word by (unfold is_u16; lia). unfold zlen. rewrite Nat2Z.id.
    destruct k; cbn [kind_byte]; cbn [Z.eqb Pos.eqb negb andb]; repeat boot_step.
    + eapply write_flash_spec; [done|exact Hs|done|]. clear dependent s. intros s Hs. repeat boot_step. by apply HQ.
    + eapply write_eeprom_spec; [exact Hs|]. clear dependent s. intros s Hs. repeat boot_step. by apply HQ.
  - rewrite size_word by done.
    destruct k; cbn [kind_byte]; cbn [Z.eqb Pos.eqb negb andb]; repeat boot_step.
    + eapply (read_flash_spec _ _ _ _ _ 0); [exact Hs|done|by left|]. clear dependent s. intros s Hs. apply HQ.
      cbn [answer fst snd address memory running] in *. rewrite !Z.add_0_r, Z.add_0_l, Z2Nat.id in Hs by apply Hok. exact Hs.
    + eapply read_eeprom_spec; [exact Hs|apply Ht|]. clear dependent s. intros s Hs. apply HQ.
      cbn [answer fst snd address memory running] in *. rewrite Z2Nat.id in Hs by apply Hok. exact Hs.
  - destruct Hok as (_ & H1 & H2). rewrite (proj2 (Z.eqb_neq _ _) H1), (proj2 (Z.eqb_neq _ _) H2).
    cbn [negb andb]. repeat boot_step. by apply HQ.
Qed.

Lemma erase_spec l rest out c s (Q : unit -> st G -> Prop) :
  talk rest out c s ->
  (forall s', talk rest out (mkChip (address c) (fold_left (fun m p =>
       boot_spm_busy_wait (boot_page_write p (boot_spm_busy_wait (boot_page_erase p m)))) l (memory c)) (running c)) s' ->
     Q tt s') ->
  wp_ False (for_each l (fun CurrFlashAddress =>
      mem (boot_page_erase CurrFlashAddress) ;; mem boot_spm_busy_wait ;;
      mem (boot_page_write CurrFlashAddress) ;; mem boot_spm_busy_wait)) Q s.
Proof using.
  revert c s. induction l as [|p l IH]; intros c s Ht HQ; cbn [for_each fold_left] in *.
  - apply wp_ret, HQ. by destruct c.
  - apply wp_bind. repeat boot_step. by apply (IH _ s Ht).
Qed.

(** Deciding the tests of [run_command] on a known byte, and on another. *)
Ltac boot_tests := unfold run_command; cbn [Z.eqb Pos.eqb orb negb]; cbv zeta.

Lemma unknown_command b : b ∉ known ->
  run_command (G := G) fuel b = WriteNextResponseByte fuel 0x3F.
Proof using.
  intros Hb. assert (Hk : forall k, k ∈ known -> (b =? k) = false).
  { intros k Hk. apply Z.eqb_neq. intros ->. done. }
  unfold run_command. cbv zeta. unfold known in Hk.
  repeat match goal with |- context [b =? ?k] =>
    rewrite (Hk k) by (apply (bool_decide_unpack _); vm_compute; exact I) end.
  reflexivity.
Qed.

Lemma run_command_spec c s t (Q : unit -> st G -> Prop) rest :
  command_ok c -> chip_ok t -> talk (tl (encode c) ++ rest) [] t s ->
  (forall s', talk rest (map u8 (fst (answer c t))) (snd (answer c t)) s' -> Q tt s') ->
  wp_ False (run_command fuel (hd 0 (encode c))) Q s.
Proof using Hin Hout Hfuel.
  intros Hok Ht Hs HQ. destruct c.
  all: try (cbn [encode tl hd app command_ok] in *; boot_tests; repeat boot_step; by apply HQ).
  - cbn [encode tl hd app command_ok] in *; boot_tests; repeat boot_step.
    eapply (address_spec (address_high hi)); [done|exact Hs|]. clear dependent s. intros s Hs.
    cbn [address memory running] in Hs. repeat boot_step.
    eapply (address_spec (Z.lor (address_high hi) (2 * lo))); [|exact Hs|].
    { intros b Hb. cbn [address] in Hb. rewrite Hb, Z.shiftl_mul_pow2, Z.mul_comm by lia. done. }
    clear dependent s. intros s Hs. cbn [address memory running] in Hs. repeat boot_step. by apply HQ.
  - cbn [encode tl hd app] in *; boot_tests. unfold SOFTWARE_IDENTIFIER. cbn [for_each]. repeat boot_step. by apply HQ.
  - cbn [encode tl hd app] in *; boot_tests. apply wp_bind. unfold erase_application. eapply erase_spec; [exact Hs|].
    clear dependent s. intros s Hs. repeat boot_step. by apply HQ.
  - change (run_command fuel _) with (ReadWriteMemoryBlock (G := G) fuel 0x42). by eapply (block_spec (WriteBlock k data)).
  - change (run_command fuel _) with (ReadWriteMemoryBlock (G := G) fuel 0x67). by eapply (block_spec (ReadBlock k n)).
  - destruct write.
    + change (run_command fuel _) with (ReadWriteMemoryBlock (G := G) fuel 0x42). by eapply (block_spec (BadBlock true n t0)).
    + change (run_command fuel _) with (ReadWriteMemoryBlock (G := G) fuel 0x67). by eapply (block_spec (BadBlock false n t0)).
  - cbn [encode tl hd app] in *; boot_tests. repeat boot_step.
    rewrite (even_lor _ 1 (proj2 Ht) (or_intror eq_refl)) in Hs. by apply HQ.
  - cbn [encode tl hd app command_ok] in *. rewrite unknown_command by done. repeat boot_step. by apply HQ.
Qed.

(** *** One command *)

(** The last byte was in the last packet. *)
Lemma all_read h : Forall (fun p => p <> []) ps -> arriving 4 ps [] h ->
  exists r j, out_bank 4 h = (r, j) /\ S r = length ps.
Proof using Hfuel.
  intros Hne (r & j & p & Hb & Hp & _ & Hbs). exists r, j. split; [done|].
  symmetry in Hbs. apply app_eq_nil in Hbs as [_ Hbs]. apply lookup_lt_Some in Hp as Hl.
  destruct (ps !! S r) as [q|] eqn:Hq; [|apply lookup_ge_None in Hq; lia].
  rewrite (drop_S ps q _ Hq) in Hbs. cbn [concat] in Hbs. apply app_eq_nil in Hbs as [-> _].
  by destruct (Forall_lookup_1 _ _ _ _ Hne Hq).
Qed.

(** The reply has left, ended by a packet that is not full, and the packets of
    the command are given back. *)
Definition served (out : list Z) (c : chip B) (s : st G) : Prop :=
  out_bank 4 (hist s) = (length ps, O) /\ out_bytes 3 (hist s) = base ++ out
  /\ snd (in_bank 3 (hist s)) = []
  /\ (exists q p, fst (in_bank 3 (hist s)) = q ++ [p] /\ (length p < size)%nat)
  /\ holds_chip c (glob s).

Lemma end_of_reply out c h (g : G) (Q : unit -> st G -> Prop) q p :
  Forall (fun p => p <> []) ps -> talk [] out c (St h g) -> sel 3 h = true ->
  in_bank 3 h = (q ++ [p], []) -> (length p < size)%nat ->
  (forall s', served out c s' -> Q tt s') ->
  wp_ False (ok ← until_ready fuel Endpoint_IsINReady;
    when ok (Endpoint_SelectEndpoint CDC_RX_EPADDR ;; Endpoint_ClearOUT)) Q (St h g).
Proof using Hin Hfuel.
  intros Hne (Ha & Ho & _ & Hc) Hs Hb Hp HQ. apply wp_bind, (until_ready_up 3 TXINI); [done|apply (bi_flags _ _ Hin h Hs)|].
  intros v. rewrite when_true. apply wp_bind, wp_select. change (ep_num CDC_RX_EPADDR) with 4. intros h1 Hs1 Hb1.
  destruct (all_read h Hne Ha) as (r & j & Hr & Hl).
  apply (clear_out 4 h1 g _ r j); [done|by rewrite (proj1 (Hb1 4)), out_bank_rd|]. intros h2 Hs2 Hb2 Hap2.
  destruct (un_bank _ _ _ Hap2 3 ltac:(done)) as [Hi3 _]. rewrite (proj2 (Hb1 3)), in_bank_rd in Hi3.
  apply HQ. split; [|split; [|split; [|split; [|exact Hc]]]]; cbn [hist].
  - by rewrite Hb2, Hl.
  - rewrite <- Ho. unfold out_bytes. cbn [hist]. by rewrite Hi3.
  - by rewrite Hi3, Hb.
  - exists q, p. by rewrite Hi3, Hb.
Qed.

Lemma send_reply_spec out c s (Q : unit -> st G -> Prop) :
  Forall (fun p => p <> []) ps -> talk [] out c s ->
  (forall s', served out c s' -> Q tt s') -> wp_ False (send_reply fuel) Q s.
Proof using Hin Hfuel.
  destruct s as [h g]. intros Hne Ht HQ. unfold send_reply. apply wp_bind, wp_select.
  change (ep_num CDC_TX_EPADDR) with 3. intros h1 Hs1 Hb1. apply (talk_select _ _ _ _ _ _ Hb1) in Ht.
  destruct Ht as (Ha & Ho & Hl & Hc). cbn [hist] in *.
  unfold Endpoint_IsReadWriteAllowed. apply wp_bind, wp_flag. cbv zeta. cbn [hist glob].
  rewrite (proj2 (bi_flags _ _ Hin h1 Hs1)). set (v := reg_trunc UEINTX _).
  apply wp_bind, (clear_in 3 (Rd UEINTX v :: h1)); [exact Hs1|]. intros h2 Hs2 Hap2 Hb2. rewrite in_bank_rd in Hb2.
  destruct (un_bank _ _ _ Hap2 4 ltac:(done)) as [_ Ho2]. rewrite out_bank_rd in Ho2 by done.
  assert (Hob2 : out_bytes 3 h2 = base ++ out).
  { rewrite <- Ho. apply out_bytes_sent. by rewrite Hb2. }
  assert (Ht2 : forall h3, out_bank 4 h3 = out_bank 4 h2 -> out_bytes 3 h3 = base ++ out ->
    snd (in_bank 3 h3) = [] -> talk [] out c (St h3 g)).
  { intros h3 H3 H3' H3''. split; [unfold arriving in *; cbn [hist]; by rewrite H3, Ho2|].
    split; [done|]. cbn [hist]. rewrite H3''. split; [cbn; lia|done]. }
  destruct (Nat.ltb_spec (length (snd (in_bank 3 h1))) size) as [Hlt|Hge]; cbn [negb].
  - apply wp_bind, wp_ret. rewrite when_true.
    eapply end_of_reply; [done|apply Ht2; [done|done|by rewrite Hb2]|done|exact Hb2|done|exact HQ].
  - apply wp_bind, wp_bind, (until_ready_up 3 TXINI); [done|apply (bi_flags _ _ Hin h2 Hs2)|]. intros v2.
    rewrite when_true. apply wp_bind, (clear_in 3 (Rd UEINTX v2 :: h2)); [exact Hs2|]. intros h3 Hs3 Hap3 Hb3.
    rewrite in_bank_rd in Hb3. destruct (un_bank _ _ _ Hap3 4 ltac:(done)) as [_ Ho3]. rewrite out_bank_rd in Ho3 by done.
    apply wp_ret. rewrite when_true. rewrite Hb2 in Hb3. cbn [fst snd] in Hb3.
    eapply end_of_reply; [done|apply Ht2; [done| |by rewrite Hb3]|done|exact Hb3|cbn [length]; apply Hin|exact HQ].
    rewrite <- Hob2. apply out_bytes_sent. by rewrite Hb3, Hb2.
Qed.

Lemma encode_cons c : encode c = hd 0 (encode c) :: tl (encode c).
Proof using. by destruct c. Qed.

Lemma boot_task_spec c t s (Q : unit -> st G -> Prop) :
  Forall (fun p => p <> []) ps -> command_ok c -> chip_ok t -> talk (encode c) [] t s ->
  (forall s', served (map u8 (fst (answer c t))) (snd (answer c t)) s' -> Q tt s') ->
  wp_ False (CDC_Task fuel) Q s.
Proof using Hin Hout Hfuel.
  destruct s as [h g]. intros Hne Hok Hc Ht HQ. unfold CDC_Task. apply wp_bind, wp_select.
  change (ep_num CDC_RX_EPADDR) with 4. intros h1 Hs1 Hb1. apply (talk_select _ _ _ _ _ _ Hb1) in Ht.
  pose proof Ht as ((r & j & p & Hb & Hp & _) & _). cbn [hist] in Hb.
  unfold Endpoint_IsOUTReceived. apply wp_bind, wp_flag. cbv zeta. cbn [hist glob].
  rewrite (proj1 (bo_flags _ _ Hout h1 r j p Hs1 Hb Hp)), when_true. set (v := reg_trunc UEINTX _).
  assert (Hv : talk (hd 0 (encode c) :: tl (encode c) ++ []) [] t (St (Rd UEINTX v :: h1) g)).
  { rewrite app_nil_r, <- encode_cons. destruct Ht as (Ha & Ho & Hl & Hg). unfold talk, arriving, out_bytes in *.
    cbn [hist] in *. rewrite out_bank_rd, in_bank_rd by done. done. }
  apply wp_bind. eapply fetch_spec; [exact Hv|]. intros s1 Hs.
  apply wp_bind. eapply run_command_spec; [done|done|exact Hs|]. intros s2 Hs'.
  by eapply send_reply_spec.
Qed.
End talk.
