(* ===== verification/BootFlash.v ===== *)
(** * Programming sessions of the serial boot loader

    Any number of commands, in whatever packets; and what a session writes to
    the flash memory it reads back.  What the memory itself does is the
    hypothesis [FlashLaws]. *)

From S2P Require Import Prelude Machine Endpoint EndpointStream BulkTraffic Cdc StdReq BootMemory FlashPages BootloaderCDC BootSession.

(** ** Sessions *)

(** The addresses stay even. *)
Lemma even_u32 z : Z.even z = true -> Z.even (u32 z) = true.
Proof. intros He. unfold u32. by rewrite Z.mod_eq, Z.even_sub, Z.even_mul, He by done. Qed.

Section addresses.
Context {B : Type} `{BootMemory B}.

Lemma fill_words_even l data a (m : B) :
  (length data <= l)%nat -> is_u32 a -> Z.even a = true ->
  is_u32 (fst (fill_words a data m)) /\ Z.even (fst (fill_words a data m)) = true.
Proof.
  revert data a m. induction l as [|l IH]; intros [|lo [|hi data]] a m Hl Ha He; cbn [length fill_words fst] in *;
    try done; try lia.
  apply IH; [lia|apply u32_range|]. apply even_u32. by rewrite Z.even_add, He.
Qed.
Lemma write_eeprom_even data a (m : B) :
  is_u32 a -> Z.even a = true ->
  is_u32 (fst (write_eeprom a data m)) /\ Z.even (fst (write_eeprom a data m)) = true.
Proof.
  revert a m. induction data as [|b data IH]; intros a m Ha He; cbn [write_eeprom fst] in *; [done|].
  apply IH; [apply u32_range|]. apply even_u32. by rewrite Z.even_add, He.
Qed.

Lemma address_high_even hi : Z.even (address_high hi) = true.
Proof.
  unfold address_high. apply even_u32. unfold int_shl, signed.
  assert (He : Z.even (u16 (Z.shiftl hi 9)) = true).
  { unfold u16. rewrite Z.mod_eq, Z.even_sub, Z.even_mul, Z.shiftl_mul_pow2, Z.even_mul by done.
    by rewrite orb_true_r. }
  destruct (_ <? _); [done|]. by rewrite Z.even_sub, He.
Qed.

Lemma answer_ok c (t : chip B) : command_ok c -> chip_ok t -> chip_ok (snd (answer c t)).
Proof.
  intros Hok [Ha He]. assert (H2 : forall n, Z.even (u32 (address t + 2 * n)) = true).
  { intros n. apply even_u32. by rewrite Z.even_add, Z.even_mul, He. }
  pose proof (H2 1) as H2'. change (2 * 1) with 2 in H2'.
  destruct c as [| | | | | |hi lo| | | | | | | | | | | |[] data|[] n| | | | | | | | |]; cbn [answer snd]; split;
    cbn [address]; auto with width.
  - destruct Hok as [_ Hlo]. apply u32_lor; [apply u32_range|]. unfold is_u32, is_u8 in *. lia.
  - apply Z.even_spec. pose proof (address_high_even hi) as [q Hq]%Z.even_spec. exists (Z.lor q lo). rewrite Hq.
    rewrite !(Z.mul_comm 2), <- !(Z.shiftl_mul_pow2 _ 1), Z.shiftl_lor by lia. done.
  - by eapply (fill_words_even (length data)).
  - by eapply (fill_words_even (length data)).
  - by apply write_eeprom_even.
  - by apply write_eeprom_even.
Qed.
End addresses.

(** Packets that carry a command. *)
Definition carries (c : command) (qs : list (list Z)) : Prop :=
  concat qs = encode c /\ Forall (fun p => p <> []) qs.

Lemma bulk_out_prefix `{Hardware} n ps qs : bulk_out n (ps ++ qs) -> bulk_out n ps.
Proof.
  intros [Hd Hf Hx]. split; [done|..].
  - intros h r j p Hs Hb Hp. apply (Hf h r j p Hs Hb). by apply lookup_app_l_Some.
  - intros h r j p x Hs Hb Hp. apply (Hx h r j p x Hs Hb). by apply lookup_app_l_Some.
Qed.

Section tasks.
Context {B : Type} `{Hardware} `{BootMemory B}.
Abbreviation G := (BootState * B)%type.

(** The main loop's calls, [n] of them. *)
Fixpoint tasks (fuel n : nat) : M G unit :=
  match n with
  | O => mret tt
  | S n' => CDC_Task fuel ;; tasks fuel n'
  end.

(** The protocol's machine that the variables and the memory are. *)
Definition chip_of (g : G) : chip B := mkChip (CurrAddress (fst g)) (snd g) (RunBootloader (fst g)).

Lemma holds_chip_of c g : holds_chip c g <-> chip_of g = c.
Proof. unfold holds_chip, chip_of. destruct c. cbn. split; [by intros (-> & -> & ->)|by intros [= -> -> ->]]. Qed.

(** The bulk endpoints between two commands: [before] has been taken, and
    nothing waits to be sent. *)
Definition between (before : list (list Z)) (h : history) : Prop :=
  Forall (fun p => p <> []) before /\ out_bank 4 h = (length before, O) /\ snd (in_bank 3 h) = [].

Lemma carries_arrive before qs rest c h :
  carries c qs -> out_bank 4 h = (length before, O) ->
  arriving 4 (before ++ qs ++ rest) (encode c ++ concat rest) h.
Proof.
  intros [Hc Hqs] Hb. destruct qs as [|q qs]; [by destruct c|].
  exists (length before), 0%nat, q. rewrite drop_0, <- Hc. cbn [concat app].
  split_and!; [done|by rewrite lookup_app_r, Nat.sub_diag by lia|lia|].
  rewrite cons_middle, (app_assoc before), (drop_app_length' (before ++ [q])) by (rewrite length_app; cbn; lia).
  by rewrite concat_app, app_assoc.
Qed.

Lemma tasks_spec size fuel cs script before (s : st G) :
  let ps := before ++ concat script in
  bulk_out 4 ps -> bulk_in 3 size -> Forall2 carries cs script -> Forall command_ok cs ->
  chip_ok (chip_of (glob s)) -> between before (hist s) -> (length ps < fuel)%nat ->
  wp_ False (tasks fuel (length cs)) (fun _ s' =>
    out_bytes 3 (hist s') = out_bytes 3 (hist s) ++ map u8 (fst (session cs (chip_of (glob s))))
    /\ chip_of (glob s') = snd (session cs (chip_of (glob s))) /\ between ps (hist s')) s.
Proof.
  intros ps Hout Hin Hcs. subst ps. revert before s Hout.
  induction Hcs as [|c qs cs script [Hc Hqs] _ IH]; intros before s Hout Hok Ht (Hne & Hb & Hl) Hf;
    cbn [tasks length session fst snd concat] in *.
  - apply wp_ret. cbn [map]. by rewrite !app_nil_r.
  - apply Forall_cons_1 in Hok as [Hok Hoks]. rewrite app_assoc in Hout, Hf |- *. set (t := chip_of (glob s)) in *.
    assert (Hne1 : Forall (fun p => p <> []) (before ++ qs)) by (by apply Forall_app).
    rewrite length_app in Hf. apply wp_bind.
    eapply (boot_task_spec (before ++ qs) size fuel (out_bytes 3 (hist s)) _ Hin); [lia|done|done|exact Ht| |].
    + split; [|split; [by rewrite app_nil_r|]].
      * rewrite <- (app_nil_r qs), <- (app_nil_r (encode c)). by apply carries_arrive.
      * rewrite Hl. split; [cbn; lia|by apply holds_chip_of].
    + intros s1 (Hb1 & Ho1 & Hi1 & _ & Hg1). apply holds_chip_of in Hg1. cbn [snd fst].
      eapply wp_conseq; [apply (IH (before ++ qs) s1 Hout Hoks)|done|].
      * rewrite Hg1. by apply answer_ok.
      * done.
      * rewrite length_app. lia.
      * intros [] s2 (Ho2 & Hg2 & Hb2). rewrite Hg1 in Ho2, Hg2. split; [|done].
        by rewrite Ho2, Ho1, map_app, app_assoc.
  Unshelve. by apply (bulk_out_prefix _ _ (concat script)).
Qed.
End tasks.

(** ** The flash memory *)

Section flash.
Context {B : Type} `{FlashLaws B}.
Abbreviation P := SPM_PAGESIZE.

(** A block written to an erased page. *)
Lemma block_flashed p data (t : chip B) :
  let r := answer (WriteBlock Flash data) t in
  address t = p * P -> idle (memory t) -> (forall i, latch (memory t) i = None) ->
  0 <= p -> (p + 1) * P <= BOOT_START_ADDR -> zlen data <= P -> Forall is_u8 data ->
  fst r = [0x0D] /\ idle (memory (snd r))
  /\ forall x, flash (memory (snd r)) x =
       if x / P =? p then stored data (Z.to_nat (x mod P)) else flash (memory t) x.
Proof.
  intros r Ha Hi Hn Hp Hmax Hsz H8. subst r. cbn [answer fst snd address memory]. rewrite Ha.
  destruct fl_page as (w & Hw & Hw0). assert (Hpa : 0 <= p * P < BOOT_START_ADDR) by nia.
  destruct (page_erased p (memory t) Hi Hn Hpa) as (Hi1 & Hn1 & Hb & Hf1).
  destruct (page_flashed p data _ Hi1 Hn1 Hb Hp Hmax Hsz H8) as (Hi2 & _ & Hf2).
  split_and!; [done|done|]. intros x. rewrite Hf2. destruct (Z.eqb_spec (x / P) p) as [E|E]; [done|by apply Hf1].
Qed.

(** A session that writes a block, returns to its address and reads it. *)
Lemma session_roundtrip p hi lo n data (t : chip B) :
  address t = p * P -> idle (memory t) -> (forall i, latch (memory t) i = None) ->
  0 <= p -> (p + 1) * P <= BOOT_START_ADDR -> zlen data <= P -> Forall is_u8 data ->
  is_u8 lo -> 0 <= hi < 64 -> p * P = 2 ^ 9 * hi + 2 * lo -> Z.of_nat n <= P ->
  let r := session [WriteBlock Flash data; SetAddress hi lo; ReadBlock Flash (Z.of_nat n)] t in
  fst r = [0x0D; 0x0D] ++ map (stored data) (seq 0 n)
  /\ forall x, x / P <> p -> flash (memory (snd r)) x = flash (memory t) x.
Proof.
  intros Ha Hi Hn Hp Hmax Hsz H8 Hlo Hhi Haddr Hnn r. subst r. cbn [session].
  destruct (block_flashed p data t Ha Hi Hn Hp Hmax Hsz H8) as (Hr & Hi1 & Hf).
  set (r1 := answer (WriteBlock Flash data) t) in *. set (t1 := snd r1) in *. rewrite Hr.
  assert (Hset : Z.lor (address_high hi) (2 * lo) = p * P).
  { rewrite Haddr. unfold address_high, int_shl, signed. rewrite Z.shiftl_mul_pow2, u16_id by (unfold is_u16; lia).
    rewrite (proj2 (Z.ltb_lt (hi * 2 ^ 9) (2 ^ (16 - 1)))), u32_id by (unfold is_u32; lia).
    replace (hi * 2 ^ 9) with (Z.shiftl hi 9) by (rewrite Z.shiftl_mul_pow2; lia).
    rewrite (lor_low 9) by (unfold is_u8 in Hlo; lia). lia. }
  cbn [answer fst snd address memory running app]. rewrite Hset, app_nil_r, Nat2Z.id.
  destruct (fl_enable (memory t1) Hi1) as (_ & Hfe & _ & Hre). split.
  - do 2 f_equal. unfold flash_bytes. apply map_ext_in. intros j [_ Hj]%in_seq.
    pose proof fl_size as Hbs. assert (Hpp : 0 <= p * P /\ p * P + P <= BOOT_START_ADDR) by nia.
    rewrite u32_id by (unfold is_u32; lia). rewrite Hre, Hf by lia.
    rewrite Z.div_add_l, Z.div_small, Z.add_0_r, Z.eqb_refl by lia.
    rewrite Z.add_comm, Z.mod_add, Z.mod_small by lia. by rewrite Nat2Z.id.
  - intros x Hx. rewrite Hfe, Hf. by rewrite (proj2 (Z.eqb_neq _ _) Hx).
Qed.
End flash.

(** ** The boot loader at work *)

Section boot_loader.
Context {B : Type} `{Hardware} `{FlashLaws B}.
Abbreviation G := (BootState * B)%type.

(** C37. The boot loader refines the AVR109 machine: whatever the commands of a
    session and however the host cuts each of them into non-empty packets, one
    [CDC_Task] per command terminates; together they send exactly the machine's
    replies, leave the address, the memories and the request to stop as the
    machine does, give every packet back and leave no byte of a reply behind. *)
Theorem commands_served size fuel cs script before (s : st G) :
  let ps := before ++ concat script in
  let r := session cs (chip_of (glob s)) in
  bulk_out 4 ps -> bulk_in 3 size -> Forall2 carries cs script -> Forall command_ok cs ->
  chip_ok (chip_of (glob s)) -> between before (hist s) -> (length ps < fuel)%nat ->
  wp_ False (tasks fuel (length cs)) (fun _ s' =>
    out_bytes 3 (hist s') = out_bytes 3 (hist s) ++ map u8 (fst r)
    /\ chip_of (glob s') = snd r /\ between ps (hist s')) s.
Proof. exact (tasks_spec size fuel cs script before s). Qed.

Lemma stored_u8 data l : Forall is_u8 data -> map u8 (map (stored data) l) = map (stored data) l.
Proof.
  intros H8. rewrite map_map. apply map_ext. intros j. apply u8_id. unfold stored.
  destruct (_ <? _)%nat; [by apply byte_of|done].
Qed.

(** The byte address of a page, sent in words. *)
Lemma page_even p : Z.even (p * SPM_PAGESIZE) = true.
Proof. destruct fl_page as (w & -> & _). by rewrite !Z.even_mul, orb_true_r. Qed.

(** C38. What is written is read back: on a device whose page buffer is empty
    and whose address is the start of a page of the application, the host
    writes a block of at most a page, sets the address again and reads [n]
    bytes, in whatever packets; the three tasks terminate, both commands are
    acknowledged, the bytes read are the data (but for the last byte of an odd
    block, which is lost) and 0xFF after it, and no other page has changed. *)
Theorem flash_roundtrip size fuel p hi lo n data script before (s : st G) :
  let ps := before ++ concat script in
  let t := chip_of (glob s) in
  bulk_out 4 ps -> bulk_in 3 size ->
  Forall2 carries [WriteBlock Flash data; SetAddress hi lo; ReadBlock Flash (Z.of_nat n)] script ->
  address t = p * SPM_PAGESIZE -> idle (memory t) -> (forall i, latch (memory t) i = None) ->
  0 <= p -> (p + 1) * SPM_PAGESIZE <= BOOT_START_ADDR -> zlen data <= SPM_PAGESIZE -> Forall is_u8 data ->
  is_u8 lo -> 0 <= hi < 64 -> p * SPM_PAGESIZE = 2 ^ 9 * hi + 2 * lo -> Z.of_nat n <= SPM_PAGESIZE ->
  between before (hist s) -> (length ps < fuel)%nat ->
  wp_ False (tasks fuel 3) (fun _ s' =>
    out_bytes 3 (hist s') = out_bytes 3 (hist s) ++ [0x0D; 0x0D] ++ map (stored data) (seq 0 n)
    /\ forall x, x / SPM_PAGESIZE <> p -> flash (memory (chip_of (glob s'))) x = flash (memory t) x) s.
Proof.
  intros ps t Hout Hin Hcs Ha Hi Hn Hp Hmax Hsz H8 Hlo Hhi Haddr Hnn Hb Hf.
  destruct (session_roundtrip p hi lo n data t) as [Hr Hm]; try done.
  pose proof fl_size as Hbs. destruct fl_page as (w & Hw & Hw0).
  assert (Hpp : 0 <= p * SPM_PAGESIZE /\ SPM_PAGESIZE < 2 ^ 16) by nia.
  assert (Hpa : is_u32 (p * SPM_PAGESIZE)) by (unfold is_u32; nia).
  eapply wp_conseq; [apply (tasks_spec size fuel [WriteBlock Flash data; SetAddress hi lo; ReadBlock Flash (Z.of_nat n)]
    script before s); try done|done|].
  - repeat (apply Forall_cons_2 || apply Forall_nil_2); cbn [command_ok]; unfold is_u8, is_u16 in *; (split; [lia|done || lia]) || lia.
  - split; fold t; rewrite Ha; [done|apply page_even].
  - intros [] s' (Ho & Hg & _). fold t in Ho, Hg. rewrite Hr in Ho. rewrite Hg. split; [|exact Hm].
    rewrite Ho, map_app, stored_u8 by done. done.
Qed.
End boot_loader.

(** ** Examples *)

(** A host that sends the packets [ps] to endpoint 4 and takes those of endpoint 3. *)
Definition boot_host (ps : list (list Z)) : Hardware := fun h r =>
  match r with
  | GPIOR0 => DEVICE_STATE_Configured
  | _ => if sel 4 h then sender 4 ps h r else taker 3 16 h r
  end.

Lemma boot_host_out ps : Forall (Forall is_u8) ps -> @bulk_out (boot_host ps) 4 ps.
Proof.
  intros H8. destruct (sender_bulk 4 ps H8) as [Hd Hf Hx].
  split; unfold hw_value, boot_host in *.
  - intros h Hs. rewrite Hs. by apply Hd.
  - intros h r j p Hs. rewrite Hs. by apply Hf.
  - intros h r j p x Hs. rewrite Hs. by apply Hx.
Qed.
Lemma boot_host_in ps : @bulk_in (boot_host ps) 3 16.
Proof.
  destruct (taker_bulk 3 16 ltac:(lia)) as [_ Hd Hf].
  split; [lia|..]; unfold hw_value, boot_host in *; intros h Hs; rewrite (sel_ne 3 4 h Hs) by done.
  - by apply Hd.
  - by apply Hf.
Qed.

(** The second page is current, and all of the memory is 7. *)
Definition fresh_boot : BootState * cells := (set_CurrAddress 128 (boot_start 0), mkCells (fun _ => 7) (fun _ => None)).
Definition write_and_read : list (list (list Z)) :=
  [[[0x42; 0]; [3; 0x46; 1; 2]; [3]]; [[0x41; 0; 64]]; [[0x67; 0]; [4; 0x46]]].

Ltac decided := apply (bool_decide_unpack _); vm_compute; exact I.

Lemma flash_roundtrip_witness :
  wp_ False (@tasks cells (boot_host (concat write_and_read)) cells_memory 10 3) (fun _ s' =>
    out_bytes 3 (hist s') = [0x0D; 0x0D; 1; 2; 0xFF; 0xFF] /\ bytes_of (snd (glob s')) 5 = 7) (St [] fresh_boot).
Proof.
  refine (wp_conseq False _ _ _ _ _ (@flash_roundtrip cells (boot_host (concat write_and_read)) cells_memory cells_laws
    16 10 1 0 64 4 [1; 2; 3] write_and_read [] (St [] fresh_boot) _ _ _ _ _ _ _ _ _ _ _ _ _ _ _ _) (fun x => x) _).
  - apply boot_host_out. decided.
  - apply boot_host_in.
  - repeat constructor; done.
  - done.
  - done.
  - done.
  - lia.
  - cbn. lia.
  - done.
  - decided.
  - done.
  - lia.
  - done.
  - cbn. lia.
  - done.
  - cbn. lia.
  - intros [] s' [Ho Hm]. split; [exact Ho|by apply (Hm 5)].
Defined.

(** A session on the same device that ends in the application. *)
Definition commands : list command := [SoftwareIdentifier; FillLow 5; Unknown 0x21; ExitBootloader].

Lemma commands_served_witness :
  let script := [[[0x53]]; [[0x63]; [5]]; [[0x21]]; [[0x45]]] in
  wp_ False (@tasks cells (boot_host (concat script)) cells_memory 10 4) (fun _ s' =>
    out_bytes 3 (hist s') = [0x4C; 0x55; 0x46; 0x41; 0x43; 0x44; 0x43; 0x0D; 0x3F; 0x0D]
    /\ CurrAddress (fst (glob s')) = 130 /\ RunBootloader (fst (glob s')) = false) (St [] fresh_boot).
Proof.
  intros script. refine (wp_conseq False _ _ _ _ _ (@commands_served cells (boot_host (concat script)) cells_memory
    16 10 commands script [] (St [] fresh_boot) _ _ _ _ _ _ _) (fun x => x) _).
  - apply boot_host_out. decided.
  - apply boot_host_in.
  - repeat constructor; done.
  - repeat constructor; decided || done.
  - done.
  - done.
  - cbn. lia.
  - intros [] s' (Ho & Hg & _). split; [exact Ho|]. split; [exact (f_equal address Hg)|exact (f_equal running Hg)].
Defined.
