(* ===== verification/BootloaderDFU.v ===== *)
(** * Bootloaders/DFU/BootloaderDFU.c

    LUFA's DFU boot loader: a state machine behind six control requests, as
    built for the ATmega32U2 (FLASHEND = 0x7FFF).  A read of an array outside
    its bounds, which the code does not test, has no result. *)

From S2P Require Import Prelude Machine Endpoint EndpointStream Cdc StdReq Startup BootMemory.

(** ** BootloaderDFU.h *)

Definition BOOTLOADER_VERSION_MINOR : Z := 2.
Definition BOOTLOADER_VERSION_REV : Z := 0.
Definition BOOTLOADER_VERSION : Z := Z.lor (Z.shiftl BOOTLOADER_VERSION_MINOR 4) BOOTLOADER_VERSION_REV.
Definition BOOTLOADER_ID_BYTE1 : Z := 0xDC.
Definition BOOTLOADER_ID_BYTE2 : Z := 0xFB.
Definition DFU_FILE_SUFFIX_SIZE : nat := 16.
Definition DFU_FILLER_BYTES_SIZE : nat := 26.
(** Config/LUFAConfig.h *)
Definition FIXED_CONTROL_ENDPOINT_SIZE : Z := 32.

Definition DFU_REQ_DNLOAD : Z := 0x01.
Definition DFU_REQ_UPLOAD : Z := 0x02.
Definition DFU_REQ_GETSTATUS : Z := 0x03.
Definition DFU_REQ_CLRSTATUS : Z := 0x04.
Definition DFU_REQ_GETSTATE : Z := 0x05.
Definition DFU_REQ_ABORT : Z := 0x06.
Definition COMMAND_PROG_START : Z := 0x01.
Definition COMMAND_DISP_DATA : Z := 0x03.
Definition COMMAND_WRITE : Z := 0x04.
Definition COMMAND_READ : Z := 0x05.
Definition COMMAND_CHANGE_BASE_ADDR : Z := 0x06.

(** The states and status codes in use. *)
Definition dfuIDLE : Z := 2.
Definition dfuDNLOAD_IDLE : Z := 5.
Definition dfuUPLOAD_IDLE : Z := 9.
Definition dfuERROR : Z := 10.
Definition OK : Z := 0.
Definition errWRITE : Z := 3.
Definition errCHECK_ERASED : Z := 5.

(** [Data] has five bytes. *)
Record DFU_Command_t := mkCommand { Command : Z; Data : list Z; DataSize : Z }.
Definition set_Command (x : Z) (c : DFU_Command_t) : DFU_Command_t := mkCommand x (Data c) (DataSize c).
Definition set_Data (i : nat) (x : Z) (c : DFU_Command_t) : DFU_Command_t :=
  mkCommand (Command c) (<[i := x]> (Data c)) (DataSize c).
Definition set_DataSize (x : Z) (c : DFU_Command_t) : DFU_Command_t := mkCommand (Command c) (Data c) x.

(** [IS_ONEBYTE_COMMAND], [IS_TWOBYTE_COMMAND] *)
Definition data_byte (c : DFU_Command_t) (i : nat) : Z := default 0 (Data c !! i).
Definition IS_ONEBYTE_COMMAND (c : DFU_Command_t) (cb1 : Z) : bool := data_byte c 0 =? cb1.
Definition IS_TWOBYTE_COMMAND (c : DFU_Command_t) (cb1 cb2 : Z) : bool :=
  (data_byte c 0 =? cb1) && (data_byte c 1 =? cb2).

(** ** The variables *)

Record DfuState := mkDfu {
  IsSecure : bool;
  RunBootloader : bool;
  WaitForExit : bool;
  DFU_State : Z;
  DFU_Status : Z;
  SentCommand : DFU_Command_t;
  ResponseByte : Z;
  AppStartPtr : Z;
  Flash64KBPage : Z;
  StartAddr : Z;
  EndAddr : Z;
  MagicBootKey : Z;
}.
Definition set_IsSecure (x : bool) (d : DfuState) : DfuState :=
  mkDfu x (RunBootloader d) (WaitForExit d) (DFU_State d) (DFU_Status d) (SentCommand d)
    (ResponseByte d) (AppStartPtr d) (Flash64KBPage d) (StartAddr d) (EndAddr d) (MagicBootKey d).
Definition set_RunBootloader (x : bool) (d : DfuState) : DfuState :=
  mkDfu (IsSecure d) x (WaitForExit d) (DFU_State d) (DFU_Status d) (SentCommand d)
    (ResponseByte d) (AppStartPtr d) (Flash64KBPage d) (StartAddr d) (EndAddr d) (MagicBootKey d).
Definition set_WaitForExit (x : bool) (d : DfuState) : DfuState :=
  mkDfu (IsSecure d) (RunBootloader d) x (DFU_State d) (DFU_Status d) (SentCommand d)
    (ResponseByte d) (AppStartPtr d) (Flash64KBPage d) (StartAddr d) (EndAddr d) (MagicBootKey d).
Definition set_DFU_State (x : Z) (d : DfuState) : DfuState :=
  mkDfu (IsSecure d) (RunBootloader d) (WaitForExit d) x (DFU_Status d) (SentCommand d)
    (ResponseByte d) (AppStartPtr d) (Flash64KBPage d) (StartAddr d) (EndAddr d) (MagicBootKey d).
Definition set_DFU_Status (x : Z) (d : DfuState) : DfuState :=
  mkDfu (IsSecure d) (RunBootloader d) (WaitForExit d) (DFU_State d) x (SentCommand d)
    (ResponseByte d) (AppStartPtr d) (Flash64KBPage d) (StartAddr d) (EndAddr d) (MagicBootKey d).
Definition set_SentCommand (x : DFU_Command_t) (d : DfuState) : DfuState :=
  mkDfu (IsSecure d) (RunBootloader d) (WaitForExit d) (DFU_State d) (DFU_Status d) x
    (ResponseByte d) (AppStartPtr d) (Flash64KBPage d) (StartAddr d) (EndAddr d) (MagicBootKey d).
Definition set_ResponseByte (x : Z) (d : DfuState) : DfuState :=
  mkDfu (IsSecure d) (RunBootloader d) (WaitForExit d) (DFU_State d) (DFU_Status d) (SentCommand d)
    x (AppStartPtr d) (Flash64KBPage d) (StartAddr d) (EndAddr d) (MagicBootKey d).
Definition set_AppStartPtr (x : Z) (d : DfuState) : DfuState :=
  mkDfu (IsSecure d) (RunBootloader d) (WaitForExit d) (DFU_State d) (DFU_Status d) (SentCommand d)
    (ResponseByte d) x (Flash64KBPage d) (StartAddr d) (EndAddr d) (MagicBootKey d).
Definition set_Flash64KBPage (x : Z) (d : DfuState) : DfuState :=
  mkDfu (IsSecure d) (RunBootloader d) (WaitForExit d) (DFU_State d) (DFU_Status d) (SentCommand d)
    (ResponseByte d) (AppStartPtr d) x (StartAddr d) (EndAddr d) (MagicBootKey d).
Definition set_StartAddr (x : Z) (d : DfuState) : DfuState :=
  mkDfu (IsSecure d) (RunBootloader d) (WaitForExit d) (DFU_State d) (DFU_Status d) (SentCommand d)
    (ResponseByte d) (AppStartPtr d) (Flash64KBPage d) x (EndAddr d) (MagicBootKey d).
Definition set_EndAddr (x : Z) (d : DfuState) : DfuState :=
  mkDfu (IsSecure d) (RunBootloader d) (WaitForExit d) (DFU_State d) (DFU_Status d) (SentCommand d)
    (ResponseByte d) (AppStartPtr d) (Flash64KBPage d) (StartAddr d) x (MagicBootKey d).
Definition set_MagicBootKey (x : Z) (d : DfuState) : DfuState :=
  mkDfu (IsSecure d) (RunBootloader d) (WaitForExit d) (DFU_State d) (DFU_Status d) (SentCommand d)
    (ResponseByte d) (AppStartPtr d) (Flash64KBPage d) (StartAddr d) (EndAddr d) x.

Definition on_command (f : DFU_Command_t -> DFU_Command_t) (d : DfuState) : DfuState :=
  set_SentCommand (f (SentCommand d)) d.

(** The variables at start-up; [MagicBootKey] is not initialised, and
    [SECURE_MODE] is an option of the build (Config/AppConfig.h). *)
Definition dfu_start (SECURE_MODE : bool) (key : Z) : DfuState :=
  mkDfu SECURE_MODE true false dfuIDLE OK (mkCommand 0 (repeat 0 5) 0) 0 0 0 0 0 key.

(** A union of two bytes or two words, and a number. *)
Definition word_of (Bytes0 Bytes1 : Z) : Z := Bytes0 + 2 ^ 8 * Bytes1.
Definition long_of (Words0 Words1 : Z) : Z := Words0 + 2 ^ 16 * Words1.

Section dfu.
Context {G B : Type} `{Hardware} `{BootMemory B} `{Has DfuState G} `{Has B G}.

(** [if (!(Endpoint_BytesInEndpoint())) { Endpoint_ClearOUT(); ... }] *)
Definition next_packet (fuel : nat) : M G bool :=
  n ← Endpoint_BytesInEndpoint;
  if n =? 0 then Endpoint_ClearOUT ;; until_ready fuel Endpoint_IsOUTReceived else mret true.

(** Its [return] leaves this function only. *)
Fixpoint DiscardFillerBytes (fuel NumberOfBytes : nat) : M G unit :=
  match NumberOfBytes with
  | O => mret tt
  | S n' =>
      n ← Endpoint_BytesInEndpoint;
      if n =? 0 then
        Endpoint_ClearOUT ;;
        ok ← until_ready fuel Endpoint_IsOUTReceived;
        when ok (DiscardFillerBytes fuel n')
      else Endpoint_Discard_8 ;; DiscardFillerBytes fuel n'
  end.

(** ** The commands *)

Definition LoadStartEndAddresses : M G unit :=
  c ← getc SentCommand;
  modc (set_StartAddr (word_of (data_byte c 2) (data_byte c 1))) ;;
  modc (set_EndAddr (word_of (data_byte c 4) (data_byte c 3))).

Definition ProcessMemProgCommand : M G unit :=
  c ← getc SentCommand;
  when (IS_ONEBYTE_COMMAND c 0x00 || IS_ONEBYTE_COMMAND c 0x01) (
    LoadStartEndAddresses ;;
    when (IS_ONEBYTE_COMMAND c 0x00) (
      a ← getc (fun d => long_of (StartAddr d) (Flash64KBPage d));
      mem (boot_page_erase a) ;;
      mem boot_spm_busy_wait) ;;
    modc (set_DFU_State dfuDNLOAD_IDLE)).

(** The [n] bytes from [CurrFlashAddress]. *)
Fixpoint blank_check (n : nat) (CurrFlashAddress : Z) : M G unit :=
  match n with
  | O => mret tt
  | S n' =>
      b ← look (pgm_read_byte CurrFlashAddress);
      if negb (b =? 0xFF) then
        modc (set_Flash64KBPage (u8 (Z.shiftr CurrFlashAddress 16))) ;;
        modc (set_StartAddr (u16 CurrFlashAddress)) ;;
        modc (set_DFU_State dfuERROR) ;;
        modc (set_DFU_Status errCHECK_ERASED)
      else blank_check n' (CurrFlashAddress + 1)
  end.

Definition ProcessMemReadCommand : M G unit :=
  c ← getc SentCommand;
  if IS_ONEBYTE_COMMAND c 0x00 || IS_ONEBYTE_COMMAND c 0x02 then
    LoadStartEndAddresses ;;
    modc (set_DFU_State dfuUPLOAD_IDLE)
  else when (IS_ONEBYTE_COMMAND c 0x01) (blank_check (Z.to_nat BOOT_START_ADDR) 0).

Definition ProcessWriteCommand : M G unit :=
  c ← getc SentCommand;
  if IS_ONEBYTE_COMMAND c 0x03 then
    modc (set_WaitForExit true) ;;
    if negb (DataSize c =? 0) then
      when (data_byte c 1 =? 0x01) (modc (set_AppStartPtr (word_of (data_byte c 4) (data_byte c 3))))
    else if data_byte c 1 =? 0x00 then
      modc (set_MagicBootKey MAGIC_BOOT_KEY) ;;
      wdt_enable WDTO_250MS
    else modc (set_RunBootloader false)
  else when (IS_TWOBYTE_COMMAND c 0x00 0xFF) (
    erase_application ;;
    mem boot_rww_enable ;;
    modc (set_IsSecure false)).

(** [BootloaderInfo[DataIndexToRead]] and [SignatureInfo[DataIndexToRead - 0x30]]. *)
Definition array_read (l : list Z) (i : Z) : option Z := if i <? 0 then None else l !! Z.to_nat i.

Definition ProcessReadCommand : M G unit :=
  let BootloaderInfo := [BOOTLOADER_VERSION; BOOTLOADER_ID_BYTE1; BOOTLOADER_ID_BYTE2] in
  let SignatureInfo := [AVR_SIGNATURE_1; AVR_SIGNATURE_2; AVR_SIGNATURE_3] in
  c ← getc SentCommand;
  let DataIndexToRead := data_byte c 1 in
  if IS_ONEBYTE_COMMAND c 0x00 then
    b ← defined (array_read BootloaderInfo DataIndexToRead); modc (set_ResponseByte b)
  else when (IS_ONEBYTE_COMMAND c 0x01) (
    b ← defined (array_read SignatureInfo (DataIndexToRead - 0x30)); modc (set_ResponseByte b)).

(** The commands secure mode lets pass. *)
Definition secure_command (c : DFU_Command_t) : bool :=
  ((Command c =? COMMAND_WRITE) && IS_TWOBYTE_COMMAND c 0x00 0xFF) || (Command c =? COMMAND_READ).

Definition ProcessBootloaderCommand : M G unit :=
  secure ← getc IsSecure;
  c ← getc SentCommand;
  if secure && negb (secure_command c) then
    modc (set_DFU_State dfuERROR) ;;
    modc (set_DFU_Status errWRITE) ;;
    Endpoint_StallTransaction
  else if Command c =? COMMAND_PROG_START then ProcessMemProgCommand
  else if Command c =? COMMAND_DISP_DATA then ProcessMemReadCommand
  else if Command c =? COMMAND_WRITE then ProcessWriteCommand
  else if Command c =? COMMAND_READ then ProcessReadCommand
  else when (Command c =? COMMAND_CHANGE_BASE_ADDR) (
    when (IS_TWOBYTE_COMMAND c 0x03 0x00) (modc (set_Flash64KBPage (data_byte c 2)))).

(** ** DFU_REQ_DNLOAD *)

(** The command's parameters, as many as the first packet has. *)
Fixpoint load_data (l : list nat) : M G unit :=
  match l with
  | [] => mret tt
  | DataByte :: l' =>
      n ← Endpoint_BytesInEndpoint;
      if n =? 0 then mret tt else
      b ← Endpoint_Read_8;
      modc (on_command (set_Data DataByte b)) ;;
      modc (on_command (fun c => set_DataSize (u16 (DataSize c - 1)) c)) ;;
      load_data l'
  end.

Definition receive_command : M G unit :=
  b ← Endpoint_Read_8;
  modc (on_command (set_Command b)) ;;
  modc (on_command (fun c => set_DataSize (u16 (DataSize c - 1)) c)) ;;
  load_data (seq 0 5).

(** [while (WordsRemaining--)]; the host is still there. *)
Fixpoint write_words (fuel WordsRemaining : nat) (CurrFlashAddress CurrFlashPageStartAddress WordsInFlashPage : Z) :
    M G bool :=
  match WordsRemaining with
  | O => mret true
  | S WordsRemaining =>
      ok ← next_packet fuel;
      if negb ok then mret false else
      w ← Endpoint_Read_16_LE;
      mem (boot_page_fill CurrFlashAddress w) ;;
      let WordsInFlashPage := u8 (WordsInFlashPage + 1) in
      let CurrFlashAddress := u32 (CurrFlashAddress + 2) in
      if (WordsInFlashPage =? Z.shiftr SPM_PAGESIZE 1) || (WordsRemaining =? 0)%nat then
        mem (boot_page_write CurrFlashPageStartAddress) ;;
        mem boot_spm_busy_wait ;;
        if (WordsRemaining =? 0)%nat
        then write_words fuel WordsRemaining CurrFlashAddress CurrFlashPageStartAddress WordsInFlashPage
        else
          mem (boot_page_erase CurrFlashAddress) ;;
          mem boot_spm_busy_wait ;;
          write_words fuel WordsRemaining CurrFlashAddress CurrFlashAddress 0
      else write_words fuel WordsRemaining CurrFlashAddress CurrFlashPageStartAddress WordsInFlashPage
  end.

Definition next_start : M G unit := modc (fun d => set_StartAddr (u16 (StartAddr d + 1)) d).

(** [while (BytesRemaining--)], to the EEPROM. *)
Fixpoint write_bytes (fuel BytesRemaining : nat) : M G bool :=
  match BytesRemaining with
  | O => mret true
  | S BytesRemaining =>
      ok ← next_packet fuel;
      if negb ok then mret false else
      a ← getc StartAddr;
      b ← Endpoint_Read_8;
      mem (eeprom_write_byte a b) ;;
      next_start ;;
      write_bytes fuel BytesRemaining
  end.

(** The firmware in the rest of the data stage. *)
Definition download (fuel : nat) : M G bool :=
  d ← getc (fun d => d);
  if negb (DFU_State d =? dfuDNLOAD_IDLE) then mret true else
  if DataSize (SentCommand d) =? 0 then modc (set_DFU_State dfuIDLE) ;; mret true else
  DiscardFillerBytes fuel DFU_FILLER_BYTES_SIZE ;;
  DiscardFillerBytes fuel (Z.to_nat (StartAddr d mod FIXED_CONTROL_ENDPOINT_SIZE)) ;;
  let BytesRemaining := u16 (EndAddr d - StartAddr d + 1) in
  ok ← (if IS_ONEBYTE_COMMAND (SentCommand d) 0x00 then
          let CurrFlashAddress := long_of (StartAddr d) (Flash64KBPage d) in
          ok ← write_words fuel (Z.to_nat (Z.shiftr BytesRemaining 1)) CurrFlashAddress CurrFlashAddress 0;
          when ok (modc (set_StartAddr (EndAddr d)) ;; mem boot_rww_enable) ;;
          mret ok
        else write_bytes fuel (Z.to_nat BytesRemaining));
  when ok (DiscardFillerBytes fuel DFU_FILE_SUFFIX_SIZE) ;;
  mret ok.

(** ** DFU_REQ_UPLOAD *)

(** [if (Endpoint_BytesInEndpoint() == FIXED_CONTROL_ENDPOINT_SIZE) { ... }] *)
Definition next_bank (fuel : nat) : M G bool :=
  n ← Endpoint_BytesInEndpoint;
  if n =? FIXED_CONTROL_ENDPOINT_SIZE then Endpoint_ClearIN ;; until_ready fuel Endpoint_IsINReady else mret true.

Fixpoint read_words (fuel WordsRemaining : nat) (CurrFlashAddress : Z) : M G bool :=
  match WordsRemaining with
  | O => mret true
  | S WordsRemaining =>
      ok ← next_bank fuel;
      if negb ok then mret false else
      w ← look (pgm_read_word CurrFlashAddress);
      Endpoint_Write_16_LE w ;;
      read_words fuel WordsRemaining (u32 (CurrFlashAddress + 2))
  end.

Fixpoint read_bytes (fuel BytesRemaining : nat) : M G bool :=
  match BytesRemaining with
  | O => mret true
  | S BytesRemaining =>
      ok ← next_bank fuel;
      if negb ok then mret false else
      a ← getc StartAddr;
      b ← look (eeprom_read_byte a);
      Endpoint_Write_8 b ;;
      next_start ;;
      read_bytes fuel BytesRemaining
  end.

Definition upload (fuel : nat) : M G bool :=
  d ← getc (fun d => d);
  if negb (DFU_State d =? dfuUPLOAD_IDLE) then
    (if (DFU_State d =? dfuERROR) && IS_ONEBYTE_COMMAND (SentCommand d) 0x01
     then Endpoint_Write_16_LE (StartAddr d)
     else Endpoint_Write_8 (ResponseByte d)) ;;
    mret true
  else
    let BytesRemaining := u16 (EndAddr d - StartAddr d + 1) in
    ok ← (if IS_ONEBYTE_COMMAND (SentCommand d) 0x00 then
            ok ← read_words fuel (Z.to_nat (Z.shiftr BytesRemaining 1)) (long_of (StartAddr d) (Flash64KBPage d));
            when ok (modc (set_StartAddr (EndAddr d))) ;;
            mret ok
          else if IS_ONEBYTE_COMMAND (SentCommand d) 0x02 then read_bytes fuel (Z.to_nat BytesRemaining)
          else mret true);
    when ok (modc (set_DFU_State dfuIDLE)) ;;
    mret ok.

(** ** The requests *)

Context `{Has UsbState G} `{BoardLeds G}.

Definition request_dnload (fuel : nat) : M G unit :=
  Endpoint_ClearSETUP ;;
  w ← getc WaitForExit;
  when w (
    ProcessBootloaderCommand ;;
    modc (set_WaitForExit false)) ;;
  n ← getc (fun d => DataSize (SentCommand d));
  ok ← (if n =? 0 then mret true else
        ok ← until_ready fuel Endpoint_IsOUTReceived;
        when ok (
          receive_command ;;
          ProcessBootloaderCommand) ;;
        mret ok);
  when ok (
    ok ← download fuel;
    when ok (
      Endpoint_ClearOUT ;;
      Endpoint_ClearStatusStage fuel)).

Definition request_upload (fuel : nat) : M G unit :=
  Endpoint_ClearSETUP ;;
  ok ← until_ready fuel Endpoint_IsINReady;
  when ok (
    ok ← upload fuel;
    when ok (
      Endpoint_ClearIN ;;
      Endpoint_ClearStatusStage fuel)).

(** [EVENT_USB_Device_ControlRequest] *)
Definition on_control_request (fuel : nat) : M G unit :=
  r ← getc USB_ControlRequest;
  if negb (Z.land (bmRequestType r) (Z.lor CONTROL_REQTYPE_TYPE CONTROL_REQTYPE_RECIPIENT)
           =? Z.lor REQTYPE_CLASS REQREC_INTERFACE) then mret tt else
  LEDs_ToggleLEDs (Z.lor LEDS_LED1 LEDS_LED2) ;;
  modc (on_command (set_DataSize (wLength r))) ;;
  if bRequest r =? DFU_REQ_DNLOAD then request_dnload fuel
  else if bRequest r =? DFU_REQ_UPLOAD then request_upload fuel
  else if bRequest r =? DFU_REQ_GETSTATUS then
    Endpoint_ClearSETUP ;;
    s ← getc DFU_Status;
    Endpoint_Write_8 s ;;
    Endpoint_Write_8 0 ;;
    Endpoint_Write_16_LE 0 ;;
    s ← getc DFU_State;
    Endpoint_Write_8 s ;;
    Endpoint_Write_8 0 ;;
    Endpoint_ClearIN ;;
    Endpoint_ClearStatusStage fuel
  else if bRequest r =? DFU_REQ_CLRSTATUS then
    Endpoint_ClearSETUP ;;
    modc (set_DFU_Status OK) ;;
    Endpoint_ClearStatusStage fuel
  else if bRequest r =? DFU_REQ_GETSTATE then
    Endpoint_ClearSETUP ;;
    s ← getc DFU_State;
    Endpoint_Write_8 s ;;
    Endpoint_ClearIN ;;
    Endpoint_ClearStatusStage fuel
  else when (bRequest r =? DFU_REQ_ABORT) (
    Endpoint_ClearSETUP ;;
    modc (set_DFU_State dfuIDLE) ;;
    Endpoint_ClearStatusStage fuel).

(** [ISR(TIMER1_OVF_vect)] *)
Definition TIMER1_OVF_vect : M G unit := LEDs_ToggleLEDs (Z.lor LEDS_LED1 LEDS_LED2).

(** Whether the start-up code jumps to the application. *)
Definition Application_Jump_Check : M G bool :=
  v ← rd MCUSR;
  k ← getc MagicBootKey;
  if anybit v (BV WDRF) && (k =? MAGIC_BOOT_KEY) then
    reg_clr MCUSR (BV WDRF) ;;
    wdt_disable ;;
    modc (set_MagicBootKey 0) ;;
    mret true
  else mret false.
End dfu.
