(* ===== verification/DfuSecure.v ===== *)
(** * The secure mode of the DFU boot loader

    What the loader's documentation promises of [SECURE_MODE]: nothing but an
    erase is done to the memories, and the host learns nothing of them, until
    the application has been erased. *)

From S2P Require Import Prelude Machine Endpoint EndpointStream Cdc StdReq Startup BootMemory FlashPages BootloaderDFU.

(** ** Programs that do not look at the memory

    [veiled m Q v]: from the variables [v], and any history, [m] does the same
    whatever the memory holds; the result, the variables it leaves and what it
    does to the memory satisfy [Q]. *)

#[local] Existing Instance Has_left.

Section veil.
Context {V B : Type}.
Abbreviation G := (V * B)%type.

Definition veiled {A} (m : M G A) (Q : A -> V -> (B -> B) -> Prop) (v : V) : Prop :=
  forall h, exists o : option (A * history * V * (B -> B)),
    (forall b, m (St h (v, b)) =
       match o with Some (a, h', v', f) => Some (a, St h' (v', f b)) | None => None end)
    /\ match o with Some (a, _, v', f) => Q a v' f | None => True end.

Lemma veil_conseq {A} (m : M G A) (Q Q' : A -> V -> (B -> B) -> Prop) v :
  veiled m Q v -> (forall a v' f, Q a v' f -> Q' a v' f) -> veiled m Q' v.
Proof.
  intros Hm HQ h. destruct (Hm h) as (o & Ho & Hpost). exists o. split; [exact Ho|].
  destruct o as [[[[a h'] v'] f]|]; [by apply HQ|done].
Qed.

Lemma veil_ret {A} (a : A) Q v : Q a v (fun b => b) -> veiled (mret a) Q v.
Proof. intros HQ h. by exists (Some (a, h, v, fun b => b)). Qed.

Lemma veil_bind {A C} (m : M G A) (k : A -> M G C) Q v :
  veiled m (fun a v' f => veiled (k a) (fun c v'' g => Q c v'' (fun b => g (f b))) v') v ->
  veiled (m ≫= k) Q v.
Proof.
  intros Hm h. destruct (Hm h) as ([[[[a h'] v'] f]|] & Ho & Hk).
  - destruct (Hk h') as ([[[[c h''] v''] g]|] & Ho' & HQ).
    + exists (Some (c, h'', v'', fun b => g (f b))). split; [|exact HQ].
      intros b. unfold mbind, M_bind. by rewrite Ho, Ho'.
    + exists None. split; [|done]. intros b. unfold mbind, M_bind. by rewrite Ho, Ho'.
  - exists None. split; [|done]. intros b. unfold mbind, M_bind. by rewrite Ho.
Qed.

Lemma veil_rd `{Hardware} r Q v : (forall x, Q x v (fun b => b)) -> veiled (rd r) Q v.
Proof.
  intros HQ h. exists (Some (reg_trunc r (hw_value h r), Rd r (reg_trunc r (hw_value h r)) :: h, v, fun b => b)).
  by split.
Qed.
Lemma veil_wr r x Q v : Q tt v (fun b => b) -> veiled (wr r x) Q v.
Proof. intros HQ h. by exists (Some (tt, Wr r (reg_trunc r x) :: h, v, fun b => b)). Qed.
Lemma veil_getc {F A} `{Has F V} (f : F -> A) Q v : Q (f (proj v)) v (fun b => b) -> veiled (getc f) Q v.
Proof. intros HQ h. by exists (Some (f (proj v), h, v, fun b => b)). Qed.
Lemma veil_modc {F} `{Has F V} (f : F -> F) Q v : Q tt (inj (f (proj v)) v) (fun b => b) -> veiled (modc f) Q v.
Proof. intros HQ h. by exists (Some (tt, h, inj (f (proj v)) v, fun b => b)). Qed.
Lemma veil_mem `{BootMemory B} f Q v : Q tt v f -> veiled (mem f) Q v.
Proof. intros HQ h. by exists (Some (tt, h, v, f)). Qed.
Lemma veil_defined {A} (o : option A) Q v : (forall a, o = Some a -> Q a v (fun b => b)) -> veiled (defined o) Q v.
Proof.
  intros HQ h. destruct o as [a|]; [exists (Some (a, h, v, fun b => b)); split; [done|by apply HQ]|by exists None].
Qed.
End veil.

(** ** The variables secure mode depends on *)

Section secure.
Context {V B : Type} `{Hardware} `{FlashLaws B} `{Has DfuState V} `{Has UsbState V}.
Abbreviation G := (V * B)%type.

Definition core (v : V) : bool * bool * Z :=
  let d : DfuState := proj v in (IsSecure d, WaitForExit d, DFU_State d).

(** Code that leaves these and the memory alone. *)
Class Quiet {A} (m : M G A) : Prop :=
  quiet : forall v, veiled m (fun _ v' f => core v' = core v /\ f = fun b => b) v.

Lemma veil_quiet {A} (m : M G A) `{!Quiet m} (Q : A -> V -> (B -> B) -> Prop) v :
  (forall a v', core v' = core v -> Q a v' (fun b => b)) -> veiled m Q v.
Proof. intros HQ. eapply veil_conseq; [apply quiet|]. intros a v' f [Hc ->]. by apply HQ. Qed.

#[export] Instance quiet_ret {A} (a : A) : Quiet (mret a).
Proof. intros v. by apply veil_ret. Qed.
#[export] Instance quiet_bind {A C} (m : M G A) (k : A -> M G C) :
  Quiet m -> (forall a, Quiet (k a)) -> Quiet (m ≫= k).
Proof.
  intros Hm Hk v. apply veil_bind, (veil_quiet m). intros a v' Hc. apply (veil_quiet (k a)).
  intros c v'' Hc'. split; [by rewrite Hc', Hc|done].
Qed.
#[export] Instance quiet_rd r : Quiet (rd r).
Proof. intros v. by apply veil_rd. Qed.
#[export] Instance quiet_wr r x : Quiet (wr r x).
Proof. intros v. by apply veil_wr. Qed.
#[export] Instance quiet_getc {F A} `{Has F V} (f : F -> A) : Quiet (getc f).
Proof. intros v. by apply veil_getc. Qed.
#[export] Instance quiet_when b (m : M G unit) : Quiet m -> Quiet (when b m).
Proof. intros Hm. destruct b; apply _. Qed.
#[export] Instance quiet_if {A} (b : bool) (m n : M G A) : Quiet m -> Quiet n -> Quiet (if b then m else n).
Proof. by destruct b. Qed.
#[export] Instance quiet_loop {A C} fuel (body : A -> M G (A + C)) a :
  (forall a, Quiet (body a)) -> Quiet (loop fuel body a).
Proof.
  intros Hb. revert a. induction fuel as [|n IH]; intros a; cbn [loop].
  - intros v h. by exists None.
  - apply quiet_bind; [apply Hb|]. intros [a'|c]; [apply IH|apply _].
Qed.
#[export] Instance quiet_defined {A} (o : option A) : Quiet (defined o).
Proof. intros v. by apply veil_defined. Qed.

(** Assignments to the other variables. *)
Lemma quiet_modc (f : DfuState -> DfuState) :
  (forall d, IsSecure (f d) = IsSecure d /\ WaitForExit (f d) = WaitForExit d /\ DFU_State (f d) = DFU_State d) ->
  Quiet (modc f).
Proof.
  intros Hf v. apply veil_modc. split; [|done]. unfold core. rewrite proj_inj.
  by destruct (Hf (proj v)) as (-> & -> & ->).
Qed.
#[local] Hint Extern 1 (Quiet (modc _)) => apply quiet_modc; intros d; by split_and! : typeclass_instances.

Ltac quiet_go := repeat first [ exact _ | apply quiet_modc; intros ?; by split_and!
  | apply quiet_bind; [|intros ?] | apply quiet_when | apply quiet_if | apply quiet_loop; intros ? ].

#[export] Instance quiet_until_ready fuel (m : M G bool) : Quiet m -> Quiet (until_ready fuel m).
Proof. intros Hm. unfold until_ready, get_DeviceState. quiet_go. Qed.
#[export] Instance quiet_status fuel : Quiet (Endpoint_ClearStatusStage (G := G) fuel).
Proof.
  unfold Endpoint_ClearStatusStage, wait_attached, Endpoint_IsINReady, Endpoint_IsOUTReceived, Endpoint_ClearIN,
    Endpoint_ClearOUT, reg_clr. quiet_go.
Qed.
#[export] Instance quiet_discard fuel n : Quiet (DiscardFillerBytes (G := G) fuel n).
Proof.
  induction n as [|n IH]; cbn [DiscardFillerBytes]; [apply _|].
  unfold Endpoint_BytesInEndpoint, Endpoint_ClearOUT, Endpoint_IsOUTReceived, Endpoint_Discard_8, reg_clr. quiet_go.
Qed.
#[export] Instance quiet_load l : Quiet (load_data (G := G) l).
Proof.
  induction l as [|i l IH]; cbn [load_data]; [apply _|]. unfold Endpoint_BytesInEndpoint, Endpoint_Read_8. quiet_go.
Qed.
#[export] Instance quiet_receive : Quiet (receive_command (G := G)).
Proof. unfold receive_command, Endpoint_Read_8. quiet_go. Qed.
#[export] Instance quiet_read_command : Quiet (ProcessReadCommand (G := G)).
Proof. unfold ProcessReadCommand. cbv zeta. quiet_go. Qed.

(** ** Secure mode *)

(** The loader is in secure mode and no transfer is under way. *)
Definition shut (v : V) : Prop :=
  let d : DfuState := proj v in
  IsSecure d = true /\ WaitForExit d = false /\ DFU_State d <> dfuDNLOAD_IDLE /\ DFU_State d <> dfuUPLOAD_IDLE.

(** A request leaves the loader shut and the memory as it was, or erases. *)
Definition guarded {A} (_ : A) (v : V) (f : B -> B) : Prop := (shut v /\ f = fun b => b) \/ f = erased.

Lemma shut_core v v' : core v' = core v -> shut v -> shut v'.
Proof. unfold core, shut. by intros [= -> -> ->]. Qed.

Lemma erase_veiled Q v : Q tt v application_erased -> veiled (erase_application (G := G)) Q v.
Proof.
  unfold erase_application, application_erased. revert Q. induction application_pages as [|p l IH]; intros Q HQ;
    cbn [for_each fold_left] in *.
  - by apply veil_ret.
  - apply veil_bind. do 3 apply veil_bind, veil_mem. apply veil_mem. by apply IH.
Qed.

Lemma command_guarded v :
  shut v -> veiled (ProcessBootloaderCommand (G := G)) (fun _ v' f =>
    (shut v' /\ f = fun b => b) \/ (DFU_State (proj v') <> dfuDNLOAD_IDLE /\ f = erased)) v.
Proof.
  intros Hv. pose proof Hv as (Hs & Hw & Hd & Hu). unfold ProcessBootloaderCommand.
  apply veil_bind, veil_getc, veil_bind, veil_getc. rewrite Hs. cbn [andb].
  destruct (secure_command _) eqn:Hc; cbn [negb].
  - unfold secure_command in Hc. set (c := SentCommand (proj v)) in *. apply orb_prop in Hc as [Hc|Hc].
    + apply andb_prop in Hc as [Hc Ht]. apply Z.eqb_eq in Hc. rewrite Hc.
      cbn [Z.eqb Pos.eqb COMMAND_WRITE COMMAND_PROG_START COMMAND_DISP_DATA]. unfold ProcessWriteCommand.
      apply veil_bind, veil_getc. fold c. rewrite Ht. unfold IS_ONEBYTE_COMMAND. unfold IS_TWOBYTE_COMMAND in Ht.
      apply andb_prop in Ht as [Ht _]. apply Z.eqb_eq in Ht. rewrite Ht. cbn [Z.eqb]. rewrite when_true.
      apply veil_bind, erase_veiled, veil_bind, veil_mem, veil_modc. right. by rewrite proj_inj.
    + apply Z.eqb_eq in Hc. rewrite Hc. cbn [Z.eqb Pos.eqb COMMAND_READ COMMAND_WRITE COMMAND_PROG_START COMMAND_DISP_DATA].
      apply (veil_quiet _). intros _ v' Hc'. left. split; [by apply (shut_core v)|done].
  - apply veil_bind, veil_modc, veil_bind, veil_modc. unfold Endpoint_StallTransaction, reg_or.
    apply (veil_quiet _). intros _ v' Hc'. left. split; [|done]. eapply shut_core; [exact Hc'|].
    unfold shut. by rewrite !proj_inj.
Qed.

(** Outside a transfer there is nothing to program. *)
Lemma download_idle fuel Q v :
  DFU_State (proj v) <> dfuDNLOAD_IDLE -> Q true v (fun b => b) -> veiled (download (G := G) fuel) Q v.
Proof.
  intros Hd HQ. unfold download. apply veil_bind, veil_getc.
  rewrite (proj2 (Z.eqb_neq _ _) Hd). by apply veil_ret.
Qed.
Lemma upload_idle fuel v :
  DFU_State (proj v) <> dfuUPLOAD_IDLE ->
  veiled (upload (G := G) fuel) (fun _ v' f => core v' = core v /\ f = fun b => b) v.
Proof.
  intros Hu. unfold upload. apply veil_bind, veil_getc.
  rewrite (proj2 (Z.eqb_neq _ _) Hu). cbn [negb].
  unfold Endpoint_Write_16_LE, Endpoint_Write_8. apply (veil_quiet _). by intros a v' Hc.
Qed.

Lemma dnload_guarded fuel v : shut v -> veiled (request_dnload (G := G) fuel) guarded v.
Proof.
  intros Hv. unfold request_dnload, Endpoint_ClearSETUP, reg_clr.
  apply veil_bind, (veil_quiet _). intros [] v1 E1. apply (shut_core _ _ E1) in Hv. clear v E1.
  apply veil_bind, veil_getc. rewrite (proj1 (proj2 Hv)), when_false.
  apply veil_bind, veil_ret, veil_bind, veil_getc, veil_bind.
  set (Q := fun (ok : bool) (v' : V) (f : B -> B) => (shut v' /\ f = fun b => b) \/ (DFU_State (proj v') <> dfuDNLOAD_IDLE /\ f = erased)).
  assert (Hcmd : veiled (if DataSize (SentCommand (proj v1)) =? 0 then mret true else
      ok ← until_ready fuel Endpoint_IsOUTReceived;
      when ok (receive_command ;; ProcessBootloaderCommand) ;; mret ok) Q v1).
  { destruct (_ =? 0); [apply veil_ret; by left|]. unfold Endpoint_IsOUTReceived.
    apply veil_bind, (veil_quiet _). intros ok v2 E2. apply (shut_core _ _ E2) in Hv. apply veil_bind.
    destruct ok; [rewrite when_true|apply veil_ret, veil_ret; by left].
    apply veil_bind, (veil_quiet _). intros [] v3 E3. apply (shut_core _ _ E3) in Hv.
    eapply veil_conseq; [by apply command_guarded|]. intros [] v4 f Hf. by apply veil_ret. }
  eapply veil_conseq; [exact Hcmd|]. intros ok v2 f Hf. destruct ok; [rewrite when_true|apply veil_ret].
  - assert (Hd : DFU_State (proj v2) <> dfuDNLOAD_IDLE) by (destruct Hf as [[(_ & _ & Hd & _) _]|[Hd _]]; exact Hd).
    apply veil_bind, download_idle; [exact Hd|]. rewrite when_true. unfold Endpoint_ClearOUT, reg_clr.
    apply (veil_quiet _). intros [] v3 E3. destruct Hf as [[Hv2 ->]|[_ ->]]; [left|by right].
    split; [by apply (shut_core _ _ E3)|done].
  - destruct Hf as [[Hv2 ->]|[_ ->]]; [by left|by right].
Qed.

Lemma upload_guarded fuel v : shut v -> veiled (request_upload (G := G) fuel) guarded v.
Proof.
  intros Hv. unfold request_upload, Endpoint_ClearSETUP, Endpoint_IsINReady, reg_clr.
  apply veil_bind, (veil_quiet _). intros [] v1 E1. apply (shut_core _ _ E1) in Hv. clear v E1.
  apply veil_bind, (veil_quiet _). intros ok v2 E2. apply (shut_core _ _ E2) in Hv. clear v1 E2.
  destruct ok; [rewrite when_true|apply veil_ret; by left].
  apply veil_bind. eapply veil_conseq; [apply upload_idle, Hv|]. intros ok v3 f [E3 ->]. apply (shut_core _ _ E3) in Hv.
  destruct ok; [rewrite when_true|apply veil_ret; by left]. unfold Endpoint_ClearIN, reg_clr.
  apply (veil_quiet _). intros [] v4 E4. left. split; [by apply (shut_core _ _ E4)|done].
Qed.

(** ** Requests *)

Context `{BoardLeds G} (Hleds : forall l, Quiet (LEDs_ToggleLEDs l)).
(** The variables of the library are not the loader's. *)
Context (Hvars : forall (u : UsbState) (v : V), proj (inj u v) = (proj v : DfuState)).

Lemma request_guarded fuel v : shut v -> veiled (on_control_request (G := G) fuel) guarded v.
Proof using Hleds.
  intros Hv. unfold on_control_request. apply veil_bind, veil_getc.
  destruct (negb _); [apply veil_ret; by left|]. apply veil_bind, (veil_quiet _). intros [] v1 E1.
  apply (shut_core _ _ E1) in Hv. apply veil_bind, veil_modc.
  set (r := USB_ControlRequest _). set (v2 := inj _ v1).
  assert (Hv2 : shut v2) by (unfold shut, v2 in *; by rewrite proj_inj). clearbody v2. clear Hv.
  assert (Hq : forall m : M G unit, Quiet m -> veiled m guarded v2).
  { intros m Hm. apply (veil_quiet m). intros [] v3 E3. left. split; [by apply (shut_core _ _ E3)|done]. }
  repeat (destruct (_ =? _)); rewrite ?when_false, ?when_true.
  - by apply dnload_guarded.
  - by apply upload_guarded.
  - apply Hq. unfold Endpoint_ClearSETUP, Endpoint_ClearIN, Endpoint_Write_16_LE, Endpoint_Write_8, reg_clr. quiet_go.
  - apply Hq. unfold Endpoint_ClearSETUP, reg_clr. quiet_go.
  - apply Hq. unfold Endpoint_ClearSETUP, Endpoint_ClearIN, Endpoint_Write_8, reg_clr. quiet_go.
  - unfold Endpoint_ClearSETUP, reg_clr. apply veil_bind, (veil_quiet _). intros [] v3 E3.
    apply (shut_core _ _ E3) in Hv2. apply veil_bind, veil_modc. apply (veil_quiet _). intros [] v4 E4. left.
    split; [|done]. apply (shut_core _ _ E4). unfold shut in *. rewrite proj_inj. by destruct Hv2 as (?Hs & ?Hw & _).
  - apply Hq. apply _.
Qed.

(** The host's requests, one after the other. *)
Definition request (fuel : nat) (r : USB_Request_Header_t) : M G unit :=
  modc (fun u => mkUsb r (USB_Device_ConfigurationNumber u) (USB_Device_CurrentlySelfPowered u)
    (USB_Device_RemoteWakeupEnabled u) (USB_IsInitialized u)) ;;
  on_control_request fuel.
Fixpoint requests (fuel : nat) (rs : list USB_Request_Header_t) : M G unit :=
  match rs with
  | [] => mret tt
  | r :: rs' => request fuel r ;; requests fuel rs'
  end.

Lemma shut_request fuel r v : shut v -> veiled (request fuel r) guarded v.
Proof using Hleds Hvars.
  intros Hv. apply veil_bind, veil_modc, request_guarded. unfold shut in *. by rewrite Hvars.
Qed.

(** C39. Secure mode keeps its promise.  Whatever requests the host makes of a
    loader in secure mode, and whatever the memories hold: either all of them
    are handled (or one of them waits forever or reads outside an array)
    exactly as they would be with any other contents, the memories are left as they were and the loader is still
    in secure mode; or one of them is the erase command, everything before it
    was handled in that way, and after it every byte of the application reads
    0xFF. *)
Theorem secure_mode fuel rs h v :
  shut v ->
  (exists o : option (history * V),
     (forall b, requests fuel rs (St h (v, b)) =
        match o with Some (h', v') => Some (tt, St h' (v', b)) | None => None end)
     /\ forall h' v', o = Some (h', v') -> shut v')
  \/ (exists rs1 r rs2 h1 v1 h2 v2,
     rs = rs1 ++ r :: rs2
     /\ (forall b, requests fuel rs1 (St h (v, b)) = Some (tt, St h1 (v1, b))) /\ shut v1
     /\ forall b, exists b', request fuel r (St h1 (v1, b)) = Some (tt, St h2 (v2, b'))
          /\ (idle b -> (forall i, latch b i = None) -> forall x, 0 <= x < BOOT_START_ADDR -> flash b' x = 0xFF)).
Proof using Hleds Hvars.
  revert h v. induction rs as [|r rs IH]; intros h v Hv; cbn [requests].
  - left. exists (Some (h, v)). split; [done|]. by intros h' v' [= <- <-].
  - destruct (shut_request fuel r v Hv h) as ([[[[[] h1] v1] f]|] & Hr & Hg).
    + destruct Hg as [[Hv1 ->]| ->].
      * destruct (IH h1 v1 Hv1) as [(o & Ho & Hs)|(rs1 & r' & rs2 & h2 & v2 & h3 & v3 & -> & Hrs & Hv2 & He)].
        -- left. exists o. split; [|exact Hs]. intros b. unfold mbind, M_bind. by rewrite Hr, Ho.
        -- right. exists (r :: rs1), r', rs2, h2, v2, h3, v3. split; [done|]. split; [|done].
           intros b. cbn [requests]. unfold mbind, M_bind. by rewrite Hr, Hrs.
      * right. exists [], r, rs, h, v, h1, v1. split_and!; [done|done|done|].
        intros b. exists (erased b). split; [apply Hr|]. intros Hi Hn x. by apply erased_blank.
    + left. exists None. split; [|done]. intros b. unfold mbind, M_bind. by rewrite Hr.
Qed.
End secure.

(** ** Example *)

(** A board without LEDs, and a host whose flags are always up and who sends
    nothing but the byte of the command to read memory. *)
#[local] Instance no_leds G : BoardLeds G := {| LEDS_LED1 := 0; LEDS_LED2 := 0; LEDs_ToggleLEDs _ := mret tt |}.
#[local] Instance reader : Hardware := fun _ r => match r with UEDATX => COMMAND_DISP_DATA | _ => 0xFF end.

Definition secure_start : DfuState * UsbState := (dfu_start true 0, mkUsb (mkRequest 0 0 0 0 0) 0 false false true).
Definition dnload : USB_Request_Header_t := mkRequest 0x21 DFU_REQ_DNLOAD 0 0 6.

(** A loader in secure mode is sent the command; another memory makes no
    difference to the history. *)
Lemma secure_mode_witness :
  exists h : option history, forall b : cells,
    option_map (fun r => hist (snd r)) (requests 10 [dnload] (St [] (secure_start, b))) = h.
Proof.
  destruct (@secure_mode (DfuState * UsbState) cells reader cells_memory cells_laws (Has_fst _ _) (Has_snd _ _) (no_leds _)
    (fun _ => quiet_ret tt) (fun u v => eq_refl) 10 [dnload] [] secure_start)
    as [(o & Ho & _)|(rs1 & r & rs2 & h1 & v1 & h2 & v2 & Hrs & H1 & _ & He)].
  - by split_and!.
  - exists (option_map fst o). intros b. rewrite Ho. by destruct o as [[h' v']|].
  - destruct rs1 as [|r1 [|]]; try done. injection Hrs as <- <-.
    assert (H1' : forall b, Some (tt, St [] (secure_start, b)) = Some (tt, St h1 (v1, b))) by exact H1.
    exists (Some h2). intros b. destruct (He b) as (b' & Hr & _). injection (H1' b) as <- <-.
    cbn [requests]. unfold mbind, M_bind. by rewrite Hr.
Defined.
