(* ===== verification/DfuProgram.v ===== *)
(** * Programming with the DFU boot loader

    A download that programs the flash memory: what the loader's loop does to
    the pages, and the request that feeds it from the control endpoint. *)

From S2P Require Import Prelude Machine Endpoint EndpointStream ControlRead Cdc StdReq ControlPackets Startup BootMemory FlashPages BootloaderDFU.

(** ** The pages *)

Section pages.
Context {B : Type} `{FlashLaws B}.
Abbreviation P := SPM_PAGESIZE.

(** What [write_words] does to the memory, of the words of [data]. *)
Fixpoint program (data : list Z) (a page k : Z) (m : B) : B :=
  match data with
  | lo :: hi :: data' =>
      let m1 := boot_page_fill a (lo + 2 ^ 8 * hi) m in
      let k' := u8 (k + 1) in
      let a' := u32 (a + 2) in
      if (k' =? Z.shiftr P 1) || (length data' <=? 1)%nat then
        let m2 := boot_spm_busy_wait (boot_page_write page m1) in
        if (length data' <=? 1)%nat then m2
        else program data' a' a' 0 (boot_spm_busy_wait (boot_page_erase a' m2))
      else program data' a' page k' m1
  | _ => m
  end.

Lemma program_step lo hi data a page k (m : B) :
  program (lo :: hi :: data) a page k m =
    let m1 := boot_page_fill a (lo + 2 ^ 8 * hi) m in
    let m2 := boot_spm_busy_wait (boot_page_write page m1) in
    if (u8 (k + 1) =? Z.shiftr P 1) || (length data <=? 1)%nat then
      if (length data <=? 1)%nat then m2
      else program data (u32 (a + 2)) (u32 (a + 2)) 0 (boot_spm_busy_wait (boot_page_erase (u32 (a + 2)) m2))
    else program data (u32 (a + 2)) page (u8 (k + 1)) m1.
Proof. done. Qed.

(** It fills the page, as far as the data go, and writes it; and goes on with
    the rest of the data on the next page, erased. *)
Lemma program_page l data p k (m : B) :
  (length data <= l)%nat -> Nat.Even (length data) -> data <> [] -> 0 <= k -> 2 * k < P ->
  0 <= p * P -> p * P + 2 * k + zlen data < 2 ^ 16 ->
  let n := Z.to_nat (P - 2 * k) in
  let m1 := boot_spm_busy_wait (boot_page_write (p * P) (snd (fill_words (p * P + 2 * k) (take n data) m))) in
  program data (p * P + 2 * k) (p * P) k m =
    match drop n data with
    | [] => m1
    | rest => program rest ((p + 1) * P) ((p + 1) * P) 0 (boot_spm_busy_wait (boot_page_erase ((p + 1) * P) m1))
    end.
Proof.
  destruct fl_page as (w & Hw & Hw0). assert (Hsh : Z.shiftr P 1 = w).
  { rewrite Z.shiftr_div_pow2, Hw, Z.mul_comm by lia. by apply Z.div_mul. }
  revert data k m. induction l as [|l IH]; intros [|lo [|hi data]] k m Hl He Hne Hk Hkp Hp Hmax n m1;
    cbn [length] in Hl; try done; try lia.
  { cbn [length] in He. by destruct He as [? ?]; lia. }
  assert (He' : Nat.Even (length data)) by (cbn [length] in He; destruct He as [q Hq]; exists (q - 1)%nat; lia).
  rewrite !zlen_cons in Hmax. pose proof (zlen_nonneg data). subst m1.
  assert (Hn : n = S (S (Z.to_nat (P - 2 * (k + 1))))) by lia. rewrite Hn, program_step. cbv zeta. cbn [take drop fill_words].
  rewrite (u8_id (k + 1)) by (unfold is_u8; lia). rewrite Hsh.
  rewrite (u32_id (p * P + 2 * k + 2)) by (unfold is_u32; lia).
  replace (p * P + 2 * k + 2) with (p * P + 2 * (k + 1)) by lia.
  destruct (Nat.leb_spec (length data) 1) as [Hl1|Hl1].
  - destruct data as [|y [|z data]]; [|by destruct He' as [q Hq]; cbn [length] in *; lia|cbn [length] in Hl1; lia].
    rewrite orb_true_r, take_nil, drop_nil. done.
  - rewrite orb_false_r. destruct (Z.eqb_spec (k + 1) w) as [Ew|Ew].
    + replace (Z.to_nat (P - 2 * (k + 1))) with 0%nat by lia. rewrite take_0, drop_0. cbn [fill_words snd].
      destruct data as [|y data]; [cbn in Hl1; lia|]. by replace (p * P + 2 * (k + 1)) with ((p + 1) * P) by lia.
    + rewrite (IH data (k + 1)); [done|lia|done|intros ->; cbn in Hl1; lia|lia|lia|done|lia].
Qed.

Lemma even_take n (data : list Z) : Nat.Even n -> Nat.Even (length data) -> Nat.Even (length (take n data)).
Proof.
  intros [i Hi] [j Hj]. rewrite length_take. destruct (Nat.min_spec n (length data)) as [[_ ->]|[_ ->]]; [by exists i|by exists j].
Qed.

(** The first page of the data. *)
Lemma first_page data p (m : B) :
  Nat.Even (length data) -> Forall is_u8 data -> idle m -> (forall i, latch m i = None) -> blank p m ->
  0 <= p -> (p + 1) * P <= BOOT_START_ADDR ->
  let m' := boot_spm_busy_wait (boot_page_write (p * P) (snd (fill_words (p * P) (take (Z.to_nat P) data) m))) in
  idle m' /\ (forall i, latch m' i = None)
  /\ (forall j b, Z.of_nat j < P -> data !! j = Some b -> flash m' (p * P + Z.of_nat j) = b)
  /\ forall x, x / P <> p -> flash m' x = flash m x.
Proof.
  intros He H8 Hi Hn Hb Hp Hpp. destruct fl_page as (w & Hw & Hw0). set (d1 := take (Z.to_nat P) data).
  assert (Hd1 : zlen d1 <= P) by (unfold zlen, d1; rewrite length_take; lia).
  destruct (page_flashed p d1 m Hi Hn Hb Hp Hpp Hd1 ltac:(by apply Forall_take)) as (Hi1 & Hn1 & Hf1).
  split_and!; [done|done| |].
  - intros j b Hj Hjb. rewrite Hf1. rewrite (Z.add_comm (p * P)), Z.div_add, Z.div_small, Z.add_0_l, Z.eqb_refl by lia.
    rewrite Z.mod_add, Z.mod_small, Nat2Z.id by lia. unfold stored.
    assert (Hjb' : d1 !! j = Some b) by (unfold d1; rewrite lookup_take_lt; [done|lia]).
    pose proof (lookup_lt_Some _ _ _ Hjb') as Hjl.
    destruct (even_take (Z.to_nat P) data) as [q Hq]; [exists (Z.to_nat w); lia|done|]. fold d1 in Hq.
    rewrite Hq, (Nat.mul_comm 2 q), Nat.div_mul by done. rewrite (proj2 (Nat.ltb_lt _ _)) by lia. by rewrite Hjb'.
  - intros x Hx. by rewrite Hf1, (proj2 (Z.eqb_neq _ _) Hx).
Qed.

(** The data are where they belong; the other pages are as they were. *)
Lemma programmed l data p (m : B) :
  (length data <= l)%nat -> Nat.Even (length data) -> data <> [] -> Forall is_u8 data ->
  idle m -> (forall i, latch m i = None) -> blank p m -> 0 <= p -> p * P + zlen data <= BOOT_START_ADDR ->
  let m' := program data (p * P) (p * P) 0 m in
  idle m' /\ (forall j b, data !! j = Some b -> flash m' (p * P + Z.of_nat j) = b)
  /\ forall x, x / P < p \/ (p * P + zlen data - 1) / P < x / P -> flash m' x = flash m x.
Proof.
  destruct fl_page as (w & Hw & Hw0). destruct fl_start as [c Hc]. pose proof fl_size as Hsz.
  revert data p m. induction l as [|l IH]; intros data p m Hl He Hne H8 Hi Hn Hb Hp Hmax m'.
  { by destruct data; cbn in Hl; [|lia]. }
  assert (Hz : 0 < zlen data) by (destruct data; [done|rewrite zlen_cons; pose proof (zlen_nonneg data); lia]).
  assert (Hpp : (p + 1) * P <= BOOT_START_ADDR).
  { rewrite Hc in *. assert (p < c) by (apply (Z.mul_lt_mono_pos_r P); lia). apply Z.mul_le_mono_nonneg_r; lia. }
  pose proof (program_page (length data) data p 0 m ltac:(lia) He Hne ltac:(lia) ltac:(lia) ltac:(nia) ltac:(lia)) as Hprog.
  cbv zeta in Hprog. rewrite !Z.mul_0_r, !Z.add_0_r, Z.sub_0_r in Hprog. subst m'. rewrite Hprog. clear Hprog.
  destruct (first_page data p m He H8 Hi Hn Hb Hp Hpp) as (Hi1 & Hn1 & Hj1 & Hf1).
  set (n := Z.to_nat P) in *. assert (Hn0 : Z.of_nat n = P) by (unfold n; lia). set (m1 := boot_spm_busy_wait _) in *.
  assert (Hlow : p <= (p * P + zlen data - 1) / P) by (apply Z.div_le_lower_bound; lia).
  destruct (drop n data) as [|y rest] eqn:Hd; apply (f_equal length) in Hd as Hln; rewrite length_drop in Hln; cbn [length] in Hln.
  - split_and!; [done|intros j b Hjb; apply Hj1; [apply lookup_lt_Some in Hjb; lia|done]|]. intros x Hx. apply Hf1. lia.
  - rewrite <- Hd in *. set (d2 := drop n data) in *. assert (Hl2 : length d2 = (length data - n)%nat) by apply length_drop.
    assert (Hpa : 0 <= (p + 1) * P < BOOT_START_ADDR) by (unfold zlen in *; lia).
    destruct (page_erased (p + 1) m1 Hi1 Hn1 Hpa) as (Hi2 & Hn2 & Hb2 & Hf2). set (m2 := boot_spm_busy_wait (boot_page_erase _ _)) in *.
    assert (Hend : (p + 1) * P + zlen d2 - 1 = p * P + zlen data - 1) by (unfold zlen; lia).
    destruct (IH d2 (p + 1) m2) as (Hi3 & Hj3 & Hf3); try done; [lia| |by rewrite Hd|by apply Forall_drop|lia|unfold zlen in *; lia|].
    { rewrite Hl2. destruct He as [q Hq]. exists (q - Z.to_nat w)%nat. lia. }
    rewrite Hend in Hf3. assert (Hhigh : p + 1 <= (p * P + zlen data - 1) / P) by (apply Z.div_le_lower_bound; unfold zlen; lia).
    split_and!; [done| |intros x Hx; rewrite Hf3, Hf2, Hf1 by lia; done].
    intros j b Hjb. destruct (decide (Z.of_nat j < P)) as [Hj|Hj].
    + assert (Hjp : (p * P + Z.of_nat j) / P = p) by (rewrite Z.add_comm, Z.div_add, Z.div_small by lia; lia).
      rewrite Hf3, Hf2 by lia. by apply Hj1.
    + replace (p * P + Z.of_nat j) with ((p + 1) * P + Z.of_nat (j - n)) by lia. apply Hj3.
      unfold d2. rewrite lookup_drop. by replace (n + (j - n))%nat with j by lia.
Qed.

(** A download, from the erasure of the first page to the end. *)
Definition downloaded (start : Z) (data : list Z) (m : B) : B :=
  boot_rww_enable (program data start start 0 (boot_spm_busy_wait (boot_page_erase start m))).

Lemma downloaded_spec p data (m : B) :
  let start := p * P in
  let m' := downloaded start data m in
  Nat.Even (length data) -> data <> [] -> Forall is_u8 data -> idle m -> (forall i, latch m i = None) ->
  0 <= p -> start + zlen data <= BOOT_START_ADDR ->
  (forall j b, data !! j = Some b -> pgm_read_byte (start + Z.of_nat j) m' = b)
  /\ forall x, x / P < p \/ (start + zlen data - 1) / P < x / P -> flash m' x = flash m x.
Proof.
  intros start m' He Hne H8 Hi Hn Hp Hmax. destruct fl_page as (w & Hw & Hw0).
  assert (Hz : 0 < zlen data) by (destruct data; [done|rewrite zlen_cons; pose proof (zlen_nonneg data); lia]).
  assert (Hs : 0 <= start) by (unfold start; nia).
  destruct (page_erased p m Hi Hn ltac:(fold start; lia)) as (Hi1 & Hn1 & Hb1 & Hf1).
  destruct (programmed (length data) data p _ (le_n _) He Hne H8 Hi1 Hn1 Hb1 Hp Hmax) as (Hi2 & Hj2 & Hf2).
  destruct (fl_enable _ Hi2) as (_ & Hfe & _ & Hre). split.
  - intros j b Hjb. pose proof (lookup_lt_Some _ _ _ Hjb). unfold m', downloaded, start.
    rewrite Hre by (fold start; unfold zlen in *; lia). by apply Hj2.
  - intros x Hx. unfold m', downloaded, start. rewrite Hfe, Hf2 by exact Hx. apply Hf1.
    assert (p <= (start + zlen data - 1) / P) by (apply Z.div_le_lower_bound; unfold start in *; lia). lia.
Qed.
End pages.

(** ** The data stage *)

Section stage.
Context {B : Type} `{Hardware} `{FlashLaws B}.
Abbreviation V := (DfuState * UsbState)%type.
Abbreviation G := (V * B)%type.
#[local] Existing Instance Has_left.
Context (k fuel : nat) (ps : list (list Z)) (h0 : history).
Context (Hhost : control_writer k ps h0) (Hfuel : (k < fuel)%nat).
Context (Heven : Forall (fun p => Nat.Even (length p)) ps) (Hne : Forall (fun p => p <> []) ps).

(** The next packet, when the one in hand is used up. *)
Lemma next_packet_spec (g : G) tr bs (Q : bool -> st G -> Prop) :
  upcoming ps bs tr -> bs <> [] -> Nat.Even (length (in_hand ps tr)) ->
  (forall tr', upcoming ps bs tr' -> in_hand ps tr' <> [] -> Nat.Even (length (in_hand ps tr')) ->
     Q true (St (tr' ++ h0) g)) ->
  wp_ False (next_packet fuel) Q (St (tr ++ h0) g).
Proof using Hhost Hfuel Heven Hne.
  intros Hu Hb He HQ. unfold next_packet. apply wp_bind, (bytes_in_spec k ps h0 Hhost g tr bs); [done|].
  intros tr1 Hr1 Hg1. destruct (cursor_eq ps tr tr1 bs Hr1 Hg1 Hu) as [Hu1 Hh1].
  destruct (Z.eqb_spec (zlen (in_hand ps tr)) 0) as [Hz|Hz].
  - assert (Hh : in_hand ps tr1 = []) by (rewrite Hh1; by destruct (in_hand ps tr)).
    apply (turn_page k fuel ps h0 Hhost Hfuel g tr1 bs); [done..|]. intros tr2 _ Hu2 Hp2.
    apply HQ; [done|exact (Forall_lookup_1 _ _ _ _ Hne Hp2)|exact (Forall_lookup_1 _ _ _ _ Heven Hp2)].
  - apply wp_ret, HQ; [done| |by rewrite Hh1]. rewrite Hh1. by intros E; rewrite E in Hz.
Qed.

(** The firmware: words to pages. *)
Lemma write_words_spec l data rest a page i (v : V) (m : B) tr (Q : bool -> st G -> Prop) :
  (length data <= l)%nat -> Nat.Even (length data) -> Forall is_u8 data ->
  upcoming ps (data ++ rest) tr -> Nat.Even (length (in_hand ps tr)) ->
  (forall tr', upcoming ps rest tr' -> Q true (St (tr' ++ h0) (v, program data a page i m))) ->
  wp_ False (write_words fuel (length data / 2) a page i) Q (St (tr ++ h0) (v, m)).
Proof using Hhost Hfuel Heven Hne.
  revert data a page i m tr. induction l as [|l IH]; intros [|lo [|hi data]] a page i m tr Hl He H8 Hu Hh HQ;
    cbn [length] in Hl; try lia; try (change (length [] / 2)%nat with 0%nat; apply wp_ret; by apply HQ).
  { exfalso. destruct He as [q Hq]. cbn [length] in Hq. lia. }
  assert (He' : Nat.Even (length data)) by (destruct He as [q Hq]; cbn [length] in Hq; exists (q - 1)%nat; lia).
  change (length (lo :: hi :: data)) with (S (S (length data))). rewrite div2_SS. cbn [write_words].
  apply wp_bind, (next_packet_spec _ tr _ _ Hu); [done|done|]. intros tr1 Hu1 Hn1 He1. cbn [negb].
  apply Forall_cons_1 in H8 as [H8l H8]. apply Forall_cons_1 in H8 as [H8h H8].
  apply wp_bind, (read_word_spec k fuel ps h0 Hhost Hfuel (v, m) tr1 lo hi (data ++ rest)); [done..|].
  intros tr3 Hu3 _ Hh3. apply wp_bind, wp_modc. cbn [hist glob proj inj Has_snd snd fst].
  set (m1 := boot_page_fill a (lo + 2 ^ 8 * hi) m) in *.
  assert (Hz : (length data / 2 =? 0)%nat = (length data <=? 1)%nat).
  { destruct data as [|y1 [|y2 data]]; [done|by destruct He' as [r Hr]; cbn in Hr; lia|].
    cbn [length]. by rewrite div2_SS. }
  rewrite Hz. rewrite program_step in HQ. fold m1 in HQ. cbv zeta in HQ.
  destruct ((u8 (i + 1) =? Z.shiftr SPM_PAGESIZE 1) || (length data <=? 1)%nat) eqn:E.
  - do 2 (apply wp_bind, wp_modc; cbn [hist glob proj inj Has_snd snd fst]).
    destruct (Nat.leb_spec (length data) 1) as [Hd|Hd].
    + destruct data as [|y1 [|y2 data]]; [|by destruct He' as [r Hr]; cbn in Hr; lia|cbn in Hd; lia].
      change (length [] / 2)%nat with 0%nat. apply wp_ret. by apply HQ.
    + do 2 (apply wp_bind, wp_modc; cbn [hist glob proj inj Has_snd snd fst]). apply IH; [lia|done|done|done|done|exact HQ].
  - apply IH; [lia|done|done|done|done|].
    destruct (length data <=? 1)%nat; [by rewrite orb_true_r in E|exact HQ].
Qed.
(** Bytes thrown away, of the packet in hand. *)
Lemma discard_in n r (g : G) tr bs (Q : unit -> st G -> Prop) :
  upcoming ps bs tr -> (n <= length (in_hand ps tr))%nat ->
  (forall tr', upcoming ps (drop n bs) tr' -> released tr' = released tr ->
     in_hand ps tr' = drop n (in_hand ps tr) -> wp_ False (DiscardFillerBytes fuel r) Q (St (tr' ++ h0) g)) ->
  wp_ False (DiscardFillerBytes fuel (n + r)) Q (St (tr ++ h0) g).
Proof using Hhost Hfuel.
  revert bs tr. induction n as [|n IH]; intros bs tr Hu Hn HQ; [by apply HQ|].
  destruct (in_hand ps tr) as [|x q] eqn:Hq; [by cbn in Hn; lia|]. cbn [plus DiscardFillerBytes].
  apply wp_bind, (bytes_in_spec k ps h0 Hhost g tr bs); [done|]. intros tr1 Hr1 Hg1.
  destruct (cursor_eq ps tr tr1 bs Hr1 Hg1 Hu) as [Hu1 Hh1]. rewrite Hq in *. rewrite zlen_cons.
  pose proof (zlen_nonneg q). rewrite (proj2 (Z.eqb_neq _ 0)) by lia. unfold Endpoint_Discard_8.
  do 2 apply wp_bind. apply (read_byte_spec k ps h0 Hhost g tr1 x q _ Hh1 (proj1 Hu1)). intros tr2 Hr2 Hq2. apply wp_ret.
  pose proof (upcoming_read ps tr1 tr2 x q bs Hu1 Hh1 Hr2 Hq2) as Hu2.
  apply (IH (tl bs) tr2 Hu2); [rewrite Hq2; cbn in Hn; lia|]. intros tr3 Hu3 Hr3 Hq3. apply HQ; [|congruence|].
  - by destruct bs; [rewrite drop_nil in Hu3 |- *|].
  - by rewrite Hq3, Hq2.
Qed.

(** The change to the next packet counts as a byte: one byte fewer is thrown
    away than was asked for. *)
Lemma discard_turn n (g : G) tr bs (Q : unit -> st G -> Prop) :
  upcoming ps bs tr -> in_hand ps tr = [] -> bs <> [] ->
  (forall tr', released tr' = S (released tr) -> upcoming ps bs tr' -> ps !! released tr' = Some (in_hand ps tr') ->
     wp_ False (DiscardFillerBytes fuel n) Q (St (tr' ++ h0) g)) ->
  wp_ False (DiscardFillerBytes fuel (S n)) Q (St (tr ++ h0) g).
Proof using Hhost Hfuel.
  intros Hu Hh Hb HQ. cbn [DiscardFillerBytes]. apply wp_bind, (bytes_in_spec k ps h0 Hhost g tr bs); [done|].
  intros tr1 Hr1 Hg1. destruct (cursor_eq ps tr tr1 bs Hr1 Hg1 Hu) as [Hu1 Hh1]. rewrite Hh in *.
  change (zlen [] =? 0) with true. cbv match.
  assert (Hturn : wp_ False (Endpoint_ClearOUT ;; until_ready fuel Endpoint_IsOUTReceived) (fun ok s' =>
      wp_ False (when ok (DiscardFillerBytes fuel n)) Q s') (St (tr1 ++ h0) g)).
  { apply (turn_page k fuel ps h0 Hhost Hfuel g tr1 bs _ Hu1 Hh1 Hb). intros tr2 Hr2 Hu2 Hp2. rewrite when_true.
    apply HQ; [by rewrite Hr2, Hr1|done|done]. }
  unfold wp_, mbind, M_bind in *. destruct (Endpoint_ClearOUT _) as [[[] s1]|]; [|done].
  destruct (until_ready _ _ s1) as [[ok s2]|]; [|done]. exact Hturn.
Qed.

(** The suffix is thrown away; the last packet is in hand. *)
Lemma discard_suffix (g : G) tr bs (Q : unit -> st G -> Prop) :
  Forall (fun p => length p = 32%nat) (removelast ps) -> upcoming ps bs tr -> length bs = DFU_FILE_SUFFIX_SIZE ->
  (forall tr', S (released tr') = length ps -> Q tt (St (tr' ++ h0) g)) ->
  wp_ False (DiscardFillerBytes fuel DFU_FILE_SUFFIX_SIZE) Q (St (tr ++ h0) g).
Proof using Hhost Hfuel Hne.
  intros Hfull Hu Hlen HQ. pose proof Hu as [Hl Hbs]. set (q := in_hand ps tr) in *.
  destruct (decide (S (released tr) < length ps)%nat) as [Hmore|Hlast].
  - destruct (lookup_lt_is_Some_2 ps _ Hmore) as [p Hp]. rewrite (drop_S ps p _ Hp) in Hbs. cbn [concat] in Hbs.
    apply (f_equal length) in Hbs as Hbl. rewrite !length_app, Hlen in Hbl. unfold DFU_FILE_SUFFIX_SIZE in *.
    pose proof (Forall_lookup_1 _ _ _ _ Hne Hp) as Hpn. assert (Hp0 : (0 < length p)%nat) by (destruct p; [done|cbn; lia]).
    assert (HSS : S (S (released tr)) = length ps).
    { destruct (decide (S (S (released tr)) < length ps)%nat) as [H2|]; [|lia]. exfalso.
      assert (Hp' : removelast ps !! S (released tr) = Some p).
      { rewrite <- Hp, removelast_firstn_len, lookup_take_lt by lia. done. }
      pose proof (Forall_lookup_1 _ _ _ _ Hfull Hp') as H32. cbn in H32. lia. }
    rewrite HSS, drop_all in Hbs, Hbl. cbn [concat length] in Hbl. rewrite app_nil_r in Hbs.
    replace 16%nat with (length q + S (15 - length q))%nat by lia. apply (discard_in _ _ g tr bs _ Hu); [done|].
    intros tr1 Hu1 Hr1 Hq1. rewrite drop_all in Hq1. rewrite Hbs, drop_app_length in Hu1.
    apply (discard_turn _ g tr1 p _ Hu1 Hq1 Hpn). intros tr2 Hr2 Hu2 Hp2. rewrite Hr2, Hr1, Hp in Hp2. injection Hp2 as Hp2.
    rewrite <- (Nat.add_0_r (15 - length q)).
    apply (discard_in _ _ g tr2 p _ Hu2); [rewrite <- Hp2; lia|]. intros tr3 _ Hr3 _. cbn [DiscardFillerBytes].
    apply wp_ret, HQ. by rewrite Hr3, Hr2, Hr1.
  - rewrite drop_ge, app_nil_r in Hbs by lia. rewrite <- (Nat.add_0_r DFU_FILE_SUFFIX_SIZE).
    apply (discard_in _ _ g tr bs _ Hu); [fold q; by rewrite <- Hbs, Hlen|]. intros tr1 _ Hr1 _.
    cbn [DiscardFillerBytes]. apply wp_ret, HQ. rewrite Hr1. lia.
Qed.

(** The parameters of a command. *)
Fixpoint loaded (l : list nat) (q : list Z) (c : DFU_Command_t) : DFU_Command_t :=
  match l, q with
  | i :: l', x :: q' => loaded l' q' (set_DataSize (u16 (DataSize c - 1)) (set_Data i x c))
  | _, _ => c
  end.

Lemma load_data_spec l q rest bs (d : DfuState) u (m : B) tr (Q : unit -> st G -> Prop) :
  upcoming ps bs tr -> in_hand ps tr = q ++ rest -> length q = length l ->
  (forall tr', upcoming ps (drop (length l) bs) tr' -> in_hand ps tr' = rest ->
     Q tt (St (tr' ++ h0) (on_command (loaded l q) d, u, m))) ->
  wp_ False (load_data l) Q (St (tr ++ h0) (d, u, m)).
Proof using Hhost Hfuel.
  revert q bs d tr. induction l as [|i l IH]; intros [|x q] bs d tr Hu Hh Hl HQ; try done; cbn [load_data].
  - apply wp_ret. destruct d. by apply HQ.
  - cbn [app] in Hh. apply wp_bind, (bytes_in_spec k ps h0 Hhost _ tr bs); [done|]. intros tr1 Hr1 Hg1.
    destruct (cursor_eq ps tr tr1 bs Hr1 Hg1 Hu) as [Hu1 Hh1]. rewrite Hh in *. rewrite zlen_cons.
    pose proof (zlen_nonneg (q ++ rest)). rewrite (proj2 (Z.eqb_neq _ 0)) by lia.
    unfold Endpoint_Read_8. apply wp_bind.
    apply (read_byte_spec k ps h0 Hhost _ tr1 x (q ++ rest) _ Hh1 (proj1 Hu1)). intros tr2 Hr2 Hq2.
    do 2 (apply wp_bind, wp_modc; cbn [hist glob proj inj Has_left Has_fst snd fst]).
    pose proof (upcoming_read ps tr1 tr2 x _ bs Hu1 Hh1 Hr2 Hq2) as Hu2.
    apply (IH q (tl bs) _ tr2 Hu2 Hq2); [by injection Hl|]. intros tr3 Hu3 Hq3.
    apply HQ; [|done]. cbn [length]. by destruct bs; [rewrite drop_nil in Hu3 |- *|].
Qed.
(** The firmware is programmed, and the suffix taken. *)
Lemma download_spec filler data suffix (d : DfuState) u (m : B) tr (Q : bool -> st G -> Prop) :
  DFU_State d = dfuDNLOAD_IDLE -> DataSize (SentCommand d) <> 0 -> IS_ONEBYTE_COMMAND (SentCommand d) 0x00 = true ->
  Flash64KBPage d = 0 -> StartAddr d mod FIXED_CONTROL_ENDPOINT_SIZE = 0 ->
  u16 (EndAddr d - StartAddr d + 1) = zlen data -> Nat.Even (length data) -> Forall is_u8 data ->
  upcoming ps (filler ++ data ++ suffix) tr -> in_hand ps tr = filler ->
  length filler = DFU_FILLER_BYTES_SIZE -> length suffix = DFU_FILE_SUFFIX_SIZE ->
  Forall (fun p => length p = 32%nat) (removelast ps) ->
  (forall tr', S (released tr') = length ps ->
     Q true (St (tr' ++ h0) (set_StartAddr (EndAddr d) d, u,
                             boot_rww_enable (program data (StartAddr d) (StartAddr d) 0 m)))) ->
  wp_ False (download fuel) Q (St (tr ++ h0) (d, u, m)).
Proof using Hhost Hfuel Heven Hne.
  intros Hst Hsz Hcmd Hpg Hal Hbr He H8 Hu Hh Hfl Hsf Hfull HQ. unfold download. apply wp_bind, wp_getc.
  cbn [hist glob proj Has_left Has_fst fst]. rewrite Hst, Z.eqb_refl, (proj2 (Z.eqb_neq _ _) Hsz). cbn [negb].
  rewrite <- Hfl, <- (Nat.add_0_r (length filler)). apply wp_bind.
  apply (discard_in _ _ _ tr _ _ Hu); [by rewrite Hh|]. intros tr1 Hu1 Hr1 Hq1. rewrite drop_app_length in Hu1.
  rewrite Hh, drop_all in Hq1. apply wp_ret. rewrite Hal. change (Z.to_nat 0) with 0%nat. apply wp_bind, wp_ret.
  cbv zeta. rewrite Hbr, Hcmd, Hpg. unfold long_of. rewrite Z.mul_0_r, Z.add_0_r.
  assert (Hw : Z.to_nat (Z.shiftr (zlen data) 1) = (length data / 2)%nat).
  { rewrite Z.shiftr_div_pow2 by lia. change (2 ^ 1) with (Z.of_nat 2). unfold zlen. rewrite <- Nat2Z.inj_div. apply Nat2Z.id. }
  rewrite Hw. do 2 apply wp_bind. eapply (write_words_spec (length data)); [done|done|done|exact Hu1|rewrite Hq1; by exists 0%nat|].
  intros tr2 Hu2. rewrite when_true. apply wp_bind, wp_bind, wp_modc. unfold mem. apply wp_modc, wp_ret.
  cbn [hist glob proj inj Has_left Has_fst Has_snd fst snd]. apply wp_bind. rewrite when_true.
  apply (discard_suffix _ _ _ _ Hfull Hu2 Hsf). intros tr3 Hr3. apply wp_ret. by apply HQ.
Qed.
End stage.

(** ** The request *)

Definition be_word (x : Z) : list Z := [x / 2 ^ 8; x mod 2 ^ 8].
(** The command to program the flash memory from [start] to [stop]. *)
Definition program_command (start stop : Z) : list Z := [COMMAND_PROG_START; 0x00] ++ be_word start ++ be_word stop.

Lemma word_of_bytes x : word_of (x mod 2 ^ 8) (x / 2 ^ 8) = x.
Proof. unfold word_of. pose proof (Z.div_mod x (2 ^ 8) ltac:(lia)). lia. Qed.

(** Full packets and a last one of even length in all. *)
Lemma full_packets_even (ps : list (list Z)) :
  Forall (fun p => length p = 32%nat) (removelast ps) -> Nat.Even (length (concat ps)) ->
  Forall (fun p => Nat.Even (length p)) ps.
Proof.
  induction ps as [|p [|p' ps] IH]; intros Hf He; [done|..].
  - cbn [concat] in He. rewrite app_nil_r in He. by constructor.
  - change (removelast (p :: p' :: ps)) with (p :: removelast (p' :: ps)) in Hf. apply Forall_cons_1 in Hf as [Hp Hf].
    cbn [concat] in He. rewrite length_app, Hp in He. constructor; [rewrite Hp; by exists 16%nat|].
    apply IH; [done|]. destruct He as [n Hn]. exists (n - 16)%nat. cbn [concat]. lia.
Qed.

(** The packets of a download: the first one is the command and the filler. *)
Lemma download_packets ps start stop filler data suffix :
  concat ps = program_command start stop ++ filler ++ data ++ suffix ->
  length filler = DFU_FILLER_BYTES_SIZE -> length suffix = DFU_FILE_SUFFIX_SIZE -> Nat.Even (length data) ->
  Forall (fun q => 0 < length q <= 32)%nat ps -> Forall (fun q => length q = 32%nat) (removelast ps) ->
  ps !! 0%nat = Some (program_command start stop ++ filler) /\ length (concat ps) = (48 + length data)%nat
  /\ Forall (fun q => Nat.Even (length q)) ps /\ Forall (fun q => q <> []) ps.
Proof.
  intros Hcat Hfl Hsf He Hsz Hfull.
  assert (Hclen : length (concat ps) = (48 + length data)%nat).
  { rewrite Hcat, !length_app, Hfl, Hsf. unfold DFU_FILLER_BYTES_SIZE, DFU_FILE_SUFFIX_SIZE. cbn. lia. }
  split_and!; [|done| |].
  - destruct ps as [|q0 [|q1 ps]]; [done| |].
    + apply Forall_cons_1 in Hsz as [Hq _]. cbn [concat] in Hclen. rewrite app_nil_r in Hclen. lia.
    + change (removelast _) with (q0 :: removelast (q1 :: ps)) in Hfull. apply Forall_cons_1 in Hfull as [Hl _].
      cbn [concat] in Hcat. rewrite (app_assoc (program_command start stop)) in Hcat.
      apply app_inj_1 in Hcat as [-> _]; [done|]. rewrite Hl, length_app, Hfl. done.
  - apply full_packets_even; [done|]. rewrite Hclen. destruct He as [n Hn]. exists (24 + n)%nat. lia.
  - eapply Forall_impl; [|exact Hsz]. intros q Hq ->. cbn in Hq. lia.
Qed.

Section programming.
Context {B : Type} `{Hardware} `{FlashLaws B}.
Abbreviation V := (DfuState * UsbState)%type.
Abbreviation G := (V * B)%type.
#[local] Existing Instance Has_left.
Context `{BoardLeds G}.
(** The LEDs have nothing to do with the USB controller. *)
Context (Hleds : forall l h (g : G), exists tr,
  LEDs_ToggleLEDs l (St h g) = Some (tt, St (tr ++ h) g) /\ writes UEINTX tr = []).

(** The variables once the command has been received. *)
Definition commanded (start stop n : Z) (d : DfuState) : DfuState :=
  set_SentCommand (mkCommand COMMAND_PROG_START (tl (program_command start stop)) n) d.
(** ... and executed. *)
Definition prepared (start stop n : Z) (d : DfuState) : DfuState :=
  set_DFU_State dfuDNLOAD_IDLE (set_EndAddr stop (set_StartAddr start (commanded start stop n d))).

Lemma receive_spec k fuel ps h0 start stop rest n (d : DfuState) u (m : B) tr (Q : unit -> st G -> Prop) :
  control_writer k ps h0 -> (k < fuel)%nat ->
  upcoming ps (concat ps) tr -> in_hand ps tr = program_command start stop ++ rest ->
  length (Data (SentCommand d)) = 5%nat -> DataSize (SentCommand d) = n -> 6 <= n < 2 ^ 16 ->
  (forall tr', upcoming ps (drop 6 (concat ps)) tr' -> in_hand ps tr' = rest ->
     Q tt (St (tr' ++ h0) (commanded start stop (n - 6) d, u, m))) ->
  wp_ False receive_command Q (St (tr ++ h0) (d, u, m)).
Proof using.
  intros Hhost Hfuel Hu Hh Hd Hn Hr HQ. unfold receive_command, Endpoint_Read_8. apply wp_bind.
  apply (read_byte_spec k ps h0 Hhost _ tr COMMAND_PROG_START (tl (program_command start stop) ++ rest));
    [exact Hh|apply Hu|]. intros tr1 Hr1 Hq1.
  assert (Hu1 : upcoming ps (tl (concat ps)) tr1) by (eapply upcoming_read; [exact Hu|exact Hh|done|exact Hq1]).
  do 2 (apply wp_bind, wp_modc; cbn [hist glob proj inj Has_left Has_fst snd fst]).
  apply (load_data_spec k fuel ps h0 Hhost Hfuel (seq 0 5) (tl (program_command start stop)) rest (tl (concat ps)));
    [exact Hu1|exact Hq1|done|]. intros tr2 Hu2 Hq2.
  assert (Hc : on_command (loaded (seq 0 5) (tl (program_command start stop)))
      (on_command (fun c => set_DataSize (u16 (DataSize c - 1)) c) (on_command (set_Command COMMAND_PROG_START) d))
    = commanded start stop (n - 6) d).
  { destruct d as [? ? ? ? ? [c l z] ? ? ? ? ? ?]. cbn [SentCommand Data DataSize] in Hd, Hn. subst z.
    destruct l as [|? [|? [|? [|? [|? [|]]]]]]; try done. unfold on_command, commanded.
    cbn. unfold set_SentCommand, set_DataSize, set_Data, set_Command. cbn.
    rewrite (u16_id (n - 1)), (u16_id (n - 1 - 1)), (u16_id (n - 1 - 1 - 1)), (u16_id (n - 1 - 1 - 1 - 1)),
      (u16_id (n - 1 - 1 - 1 - 1 - 1)), u16_id by (unfold is_u16; lia). do 2 f_equal. lia. }
  rewrite Hc. apply HQ; [|exact Hq2]. replace (drop 6 (concat ps)) with (drop (length (seq 0 5)) (tl (concat ps))); [done|].
  by destruct (concat ps).
Qed.
Lemma prog_start_spec start stop n (d : DfuState) u (m : B) h (Q : unit -> st G -> Prop) :
  IsSecure d = false -> Flash64KBPage d = 0 ->
  Q tt (St h (prepared start stop n d, u, boot_spm_busy_wait (boot_page_erase start m))) ->
  wp_ False ProcessBootloaderCommand Q (St h (commanded start stop n d, u, m)).
Proof using.
  intros Hs Hp HQ. unfold ProcessBootloaderCommand. apply wp_bind, wp_getc, wp_bind, wp_getc.
  cbn [hist glob proj Has_left Has_fst fst]. change (IsSecure (commanded start stop n d)) with (IsSecure d).
  rewrite Hs. cbn [andb]. change (wp_ False ProcessMemProgCommand Q (St h (commanded start stop n d, u, m))).
  unfold ProcessMemProgCommand. apply wp_bind, wp_getc. cbn [hist glob proj Has_left Has_fst fst].
  change (IS_ONEBYTE_COMMAND (SentCommand (commanded start stop n d)) 0) with true. cbn [orb]. rewrite !when_true.
  apply wp_bind. unfold LoadStartEndAddresses. apply wp_bind, wp_getc, wp_bind, wp_modc, wp_modc.
  cbn [hist glob proj inj Has_left Has_fst fst snd SentCommand commanded set_SentCommand].
  unfold data_byte. cbn [program_command be_word app tl Data lookup list_lookup default from_option]. cbn.
  rewrite !word_of_bytes. apply wp_bind, wp_bind, wp_getc. cbn.
  unfold mem. apply wp_bind, wp_modc, wp_modc. cbn. rewrite Hp. unfold long_of. rewrite Z.mul_0_r, Z.add_0_r.
  exact HQ.
Qed.

(** C40. A download programs the application.  The host asks, outside secure
    mode, to program the pages from [start], the start of a page (and a
    multiple of the packet size, as every page's is), and sends the
    command, the filler, the data (any even number of bytes the application has
    room for) and the suffix, in full packets of the control endpoint: the
    request terminates; its SETUP packet has been acknowledged, every packet
    of its data stage given back and its status packet handed over; every byte
    of the data is read back at its place, the pages the data do not reach
    have not changed, and the loader waits for the next block.  The loader has
    no exit pending and addresses the first 64 KB, as after its start, and the
    page buffer of the processor is empty. *)
Theorem firmware_programmed k fuel ps p filler data suffix (d : DfuState) u (m : B) h :
  let start := p * SPM_PAGESIZE in
  let stop := start + zlen data - 1 in
  let r := USB_ControlRequest u in
  bmRequestType r = Z.lor (Z.lor REQDIR_HOSTTODEVICE REQTYPE_CLASS) REQREC_INTERFACE ->
  bRequest r = DFU_REQ_DNLOAD -> wLength r = zlen (concat ps) -> wLength r < 2 ^ 16 ->
  IsSecure d = false -> WaitForExit d = false -> Flash64KBPage d = 0 -> length (Data (SentCommand d)) = 5%nat ->
  idle m -> (forall i, latch m i = None) ->
  0 <= p -> start mod FIXED_CONTROL_ENDPOINT_SIZE = 0 -> start + zlen data <= BOOT_START_ADDR ->
  data <> [] -> Nat.Even (length data) -> Forall is_u8 data ->
  concat ps = program_command start stop ++ filler ++ data ++ suffix ->
  length filler = DFU_FILLER_BYTES_SIZE -> length suffix = DFU_FILE_SUFFIX_SIZE ->
  Forall (fun q => 0 < length q <= 32)%nat ps -> Forall (fun q => length q = 32%nat) (removelast ps) ->
  (forall tr, acknowledged tr -> control_writer k ps (tr ++ h)) -> (k < fuel)%nat ->
  wp_ False (on_control_request fuel) (fun _ s' => exists d' m',
    glob s' = (d', u, m') /\ request_served ps h (hist s') /\ DFU_State d' = dfuDNLOAD_IDLE /\ StartAddr d' = stop
    /\ (forall j b, data !! j = Some b -> pgm_read_byte (start + Z.of_nat j) m' = b)
    /\ (forall x, x / SPM_PAGESIZE < p \/ stop / SPM_PAGESIZE < x / SPM_PAGESIZE -> flash m' x = flash m x))
    (St h (d, u, m)).
Proof using Hleds.
  intros start stop r Hty Hrq Hlen Hlen16 Hsec Hexit Hpg Hdata Hi Hn0 Hp Hal Hmax Hne He H8 Hcat Hfl Hsf Hsz Hfull Hhost Hfuel.
  destruct (download_packets ps start stop filler data suffix Hcat Hfl Hsf He Hsz Hfull) as (Hp0 & Hclen & Hpse & Hpsn).
  destruct fl_page as (w & Hw & Hw0). pose proof fl_size as Hbs. pose proof (zlen_nonneg data).
  assert (Hn : wLength r = 48 + zlen data) by (rewrite Hlen; unfold zlen; rewrite Hclen; lia).
  unfold on_control_request. apply wp_bind, wp_getc. cbn [hist glob proj Has_left Has_snd fst snd]. fold r.
  rewrite Hty. change (negb _) with false. cbv match.
  destruct (Hleds (Z.lor LEDS_LED1 LEDS_LED2) h (d, u, m)) as (t0 & Hl0 & Hw1).
  apply wp_bind, (wp_eq _ _ _ _ _ _ Hl0), wp_bind, wp_modc. cbn [hist glob proj inj Has_left Has_fst fst snd].
  rewrite Hrq. change (DFU_REQ_DNLOAD =? DFU_REQ_DNLOAD) with true. cbv match.
  set (d1 := on_command _ d). unfold request_dnload. apply wp_bind, clear_setup_ack. intros t1 Hack.
  specialize (Hhost (t1 ++ t0) (acknowledged_app _ _ Hw1 Hack)). rewrite <- app_assoc in Hhost.
  set (h0 := t1 ++ t0 ++ h) in *. apply wp_bind, wp_getc. cbn [hist glob proj Has_left Has_fst fst].
  change (WaitForExit d1) with (WaitForExit d). rewrite Hexit, when_false. apply wp_bind, wp_ret, wp_bind, wp_getc.
  cbn [hist glob proj Has_left Has_fst fst]. change (DataSize (SentCommand d1)) with (wLength r).
  rewrite (proj2 (Z.eqb_neq _ 0)) by lia. do 2 apply wp_bind.
  destruct (upcoming_start ps _ [] Hp0 eq_refl eq_refl) as [Hu1 _].
  apply (await_out_spec k fuel ps h0 Hhost Hfuel (d1, u, m) []); [apply Hu1|]. intros t2 Hr2 Hg2. rewrite when_true.
  destruct (upcoming_start ps _ t2 Hp0 Hr2 Hg2) as [Hu2 Hh2]. do 2 apply wp_bind.
  apply (receive_spec k fuel ps h0 start stop filler (wLength r) d1 u m t2); [done|done|done|done|done|done|lia|].
  intros t3 Hu3 Hh3. change (commanded start stop (wLength r - 6) d1) with (commanded start stop (wLength r - 6) d).
  apply prog_start_spec; [done|done|]. apply wp_ret. rewrite when_true. apply wp_bind.
  rewrite Hcat in Hu3. change (drop 6 _) with (filler ++ data ++ suffix) in Hu3.
  apply (download_spec k fuel ps h0 Hhost Hfuel Hpse Hpsn filler data suffix _ u _ t3);
    [done|cbn; lia|done|done|exact Hal| |done|done|done|done|done|done|done|].
  { cbn. unfold stop. replace (start + zlen data - 1 - start + 1) with (zlen data) by lia. apply u16_id. unfold is_u16.
    unfold start in *. nia. }
  intros t4 Hr4. rewrite when_true. apply (release_status k fuel ps h0 Hhost Hfuel); [done|cbn; fold r; by rewrite Hty|]. intros h' Hsv.
  eexists _, _. split_and!; [reflexivity| |done|done|..]; [|by apply downloaded_spec..].
  exists (t1 ++ t0). rewrite <- app_assoc. split; [by apply acknowledged_app|exact Hsv].
Qed.
End programming.

(** ** Example *)

(** A board without LEDs is sent four bytes for its second page. *)
#[local] Instance dark G : BoardLeds G := {| LEDS_LED1 := 0; LEDS_LED2 := 0; LEDs_ToggleLEDs _ := mret tt |}.

Definition firmware : list (list Z) :=
  [program_command 128 131 ++ repeat 0 26; [1; 2; 3; 4] ++ repeat 0 16].
Definition download_request : USB_Request_Header_t := mkRequest 0x21 DFU_REQ_DNLOAD 0 0 52.
Definition loader : DfuState * UsbState := (dfu_start false 0, mkUsb download_request 0 false false true).

Lemma firmware_programmed_witness :
  wp_ False (@on_control_request _ cells (command_host firmware) cells_memory (@Has_left _ _ cells (Has_fst _ _))
      (Has_snd _ _) (@Has_left _ _ cells (Has_snd _ _)) (dark _) 10)
    (fun _ s' => pgm_read_byte 130 (snd (glob s')) = 3 /\ flash (snd (glob s')) 5 = 7)
    (St [] (loader, mkCells (fun _ => 7) (fun _ => None))).
Proof.
  refine (wp_conseq False _ _ _ _ _ (@firmware_programmed cells (command_host firmware) cells_memory cells_laws (dark _)
    _ 0 10 firmware 1 (repeat 0 26) [1; 2; 3; 4] (repeat 0 16) (fst loader) (snd loader) _ []
    _ _ _ _ _ _ _ _ _ _ _ _ _ _ _ _ _ _ _ _ _ _ _) (fun x => x) _).
  - intros l h g. by exists [].
  - done.
  - done.
  - done.
  - done.
  - done.
  - done.
  - done.
  - done.
  - done.
  - done.
  - lia.
  - done.
  - apply (bool_decide_unpack _). vm_compute. exact I.
  - done.
  - by exists 2%nat.
  - apply (bool_decide_unpack _). vm_compute. exact I.
  - done.
  - done.
  - done.
  - apply (bool_decide_unpack _). vm_compute. exact I.
  - by repeat constructor.
  - intros tr Ha. rewrite app_nil_r. apply command_host_writer; [..|done|done]; apply (bool_decide_unpack _); vm_compute; exact I.
  - lia.
  - intros [] s' (d' & m' & -> & _ & _ & _ & Hread & Hf). split; [by apply (Hread 2%nat)|]. apply Hf. left. done.
Defined.
