(* ===== verification/BootloaderHID.v ===== *)
(** * Bootloaders/HID/BootloaderHID.c

    LUFA's HID boot loader: one request writes a page of the flash memory, or
    ends the loader.  As built for the ATmega32U2 (FLASHEND = 0x7FFF). *)

From S2P Require Import Prelude Machine Endpoint EndpointStream ControlRead Cdc StdReq ControlPackets HidDevice Startup BootMemory FlashPages.

Definition COMMAND_STARTAPPLICATION : Z := 0xFFFF.

(** [MagicBootKey] is not initialised. *)
Record HidBootState := mkHidBoot { RunBootloader : bool; MagicBootKey : Z }.
Definition hid_boot_start (key : Z) : HidBootState := mkHidBoot true key.
Definition set_RunBootloader (r : bool) (b : HidBootState) : HidBootState := mkHidBoot r (MagicBootKey b).
Definition set_MagicBootKey (k : Z) (b : HidBootState) : HidBootState := mkHidBoot (RunBootloader b) k.

Section hid.
Context {G B : Type} `{Hardware} `{BootMemory B} `{Has HidBootState G} `{Has B G} `{Has UsbState G}.

(** Whether the start-up code jumps to the application. *)
Definition Application_Jump_Check : M G bool :=
  v ← rd MCUSR;
  k ← getc MagicBootKey;
  if anybit v (BV WDRF) && (k =? MAGIC_BOOT_KEY)
  then modc (set_MagicBootKey 0) ;; mret true
  else mret false.

(** The body of the loop over the words of the page. *)
Definition page_word (fuel : nat) (PageAddress PageWord : Z) : M G unit :=
  n ← Endpoint_BytesInEndpoint;
  when (n =? 0) (
    Endpoint_ClearOUT ;;
    busy_wait fuel Endpoint_IsOUTReceived) ;;
  w ← Endpoint_Read_16_LE;
  mem (boot_page_fill (u16 (PageAddress + u16 (Z.shiftl PageWord 1))) w).

Definition page_words : list Z := map Z.of_nat (seq 0 (Z.to_nat (SPM_PAGESIZE / 2))).

(** [EVENT_USB_Device_ControlRequest] *)
Definition on_control_request (fuel : nat) : M G unit :=
  r ← getc USB_ControlRequest;
  if negb (Z.land (bmRequestType r) (Z.lor CONTROL_REQTYPE_TYPE CONTROL_REQTYPE_RECIPIENT)
           =? Z.lor REQTYPE_CLASS REQREC_INTERFACE) then mret tt else
  when (bRequest r =? HID_REQ_SetReport) (
    Endpoint_ClearSETUP ;;
    busy_wait fuel Endpoint_IsOUTReceived ;;
    PageAddress ← Endpoint_Read_16_LE;
    (if PageAddress =? COMMAND_STARTAPPLICATION then modc (set_RunBootloader false) else
     mem (boot_page_erase PageAddress) ;;
     mem boot_spm_busy_wait ;;
     for_each page_words (page_word fuel PageAddress) ;;
     mem (boot_page_write PageAddress) ;;
     mem boot_spm_busy_wait ;;
     mem boot_rww_enable) ;;
    Endpoint_ClearOUT ;;
    Endpoint_ClearStatusStage fuel).
End hid.

(** ** Writing a page *)

Section writing.
Context {B : Type} `{Hardware} `{FlashLaws B}.
Abbreviation V := (HidBootState * UsbState)%type.
Abbreviation G := (V * B)%type.
#[local] Existing Instance Has_left.
Context (k fuel : nat) (ps : list (list Z)) (h0 : history).
Context (Hhost : control_writer k ps h0) (Hfuel : (k < fuel)%nat).
Context (Heven : Forall (fun p => Nat.Even (length p)) ps) (Hne : Forall (fun p => p <> []) ps).

(** One word. *)
Lemma page_word_spec a i lo hi bs (v : V) (m : B) tr (Q : unit -> st G -> Prop) :
  upcoming ps (lo :: hi :: bs) tr -> Nat.Even (length (in_hand ps tr)) -> is_u8 lo ->
  0 <= a -> 0 <= i -> a + 2 * i < 2 ^ 16 ->
  (forall tr', upcoming ps bs tr' -> Nat.Even (length (in_hand ps tr')) ->
     Q tt (St (tr' ++ h0) (v, boot_page_fill (a + 2 * i) (lo + 2 ^ 8 * hi) m))) ->
  wp_ False (page_word fuel a i) Q (St (tr ++ h0) (v, m)).
Proof using Hhost Hfuel Heven Hne.
  intros Hu He Hlo Ha Hi Hmax HQ. unfold page_word.
  apply wp_bind, (bytes_in_spec k ps h0 Hhost _ tr (lo :: hi :: bs)); [done|]. intros tr1 Hr1 Hg1.
  destruct (cursor_eq ps tr tr1 _ Hr1 Hg1 Hu) as [Hu1 Hh1].
  assert (Hread : forall tr2, upcoming ps (lo :: hi :: bs) tr2 -> in_hand ps tr2 <> [] -> Nat.Even (length (in_hand ps tr2)) ->
    wp_ False (w ← Endpoint_Read_16_LE; mem (boot_page_fill (u16 (a + u16 (Z.shiftl i 1))) w)) Q (St (tr2 ++ h0) (v, m))).
  { intros tr2 Hu2 Hn2 He2. apply wp_bind, (read_word_spec k fuel ps h0 Hhost Hfuel (v, m) tr2 lo hi bs); [done..|].
    intros tr3 Hu3 _ He3. apply wp_modc. cbn [hist glob proj inj Has_snd snd fst].
    rewrite Z.shiftl_mul_pow2, (Z.mul_comm i), !u16_id by (rewrite ?u16_id; unfold is_u16; lia). by apply HQ. }
  apply wp_bind. destruct (Z.eqb_spec (zlen (in_hand ps tr)) 0) as [Hz|Hz].
  - rewrite when_true. assert (Hh : in_hand ps tr1 = []) by (rewrite Hh1; by destruct (in_hand ps tr)).
    apply (turn_page_busy k fuel ps h0 Hhost Hfuel _ tr1 _ _ Hu1 Hh); [done|]. intros tr2 Hu2 Hp2.
    apply Hread; [done|exact (Forall_lookup_1 _ _ _ _ Hne Hp2)|exact (Forall_lookup_1 _ _ _ _ Heven Hp2)].
  - rewrite when_false. apply wp_ret, Hread; [done| |by rewrite Hh1]. rewrite Hh1. by intros E; rewrite E in Hz.
Qed.

(** All the words of a page. *)
Lemma fill_page_spec n i data rest a (v : V) (m : B) tr (Q : unit -> st G -> Prop) :
  length data = (2 * n)%nat -> Forall is_u8 data -> 0 <= a -> a + 2 * Z.of_nat (i + n) <= 2 ^ 16 ->
  upcoming ps (data ++ rest) tr -> Nat.Even (length (in_hand ps tr)) ->
  (forall tr', upcoming ps rest tr' -> Q tt (St (tr' ++ h0) (v, snd (fill_words (a + 2 * Z.of_nat i) data m)))) ->
  wp_ False (for_each (map Z.of_nat (seq i n)) (page_word fuel a)) Q (St (tr ++ h0) (v, m)).
Proof using Hhost Hfuel Heven Hne.
  revert i data m tr. induction n as [|n IH]; intros i data m tr Hl H8 Ha Hmax Hu He HQ; cbn [seq map for_each].
  - destruct data; [|done]. apply wp_ret. by apply HQ.
  - destruct data as [|lo [|hi data]]; cbn [length] in Hl; [done|lia|].
    apply Forall_cons_1 in H8 as [H8l H8]. apply Forall_cons_1 in H8 as [H8h H8].
    apply wp_bind, (page_word_spec a (Z.of_nat i) lo hi (data ++ rest)); [done..|lia|lia|]. intros tr1 Hu1 He1.
    apply (IH (S i) data _ tr1); [lia|done|done|lia|done|done|]. intros tr2 Hu2.
    specialize (HQ tr2 Hu2). cbn [fill_words] in HQ. rewrite u32_id in HQ by (unfold is_u32; lia).
    by replace (a + 2 * Z.of_nat (S i)) with (a + 2 * Z.of_nat i + 2) by lia.
Qed.
End writing.

(** A SET_REPORT request with the address of a page and its contents, cut into
    packets of even length: the request terminates, the page is read back as
    it was sent, no other page has changed, and the request has been served to
    the end. *)
Theorem hid_page_written {B} `{Hardware} `{FlashLaws B} k fuel ps p data (d : HidBootState) u (m : B) h :
  let start := p * SPM_PAGESIZE in
  let r := USB_ControlRequest u in
  bmRequestType r = Z.lor (Z.lor REQDIR_HOSTTODEVICE REQTYPE_CLASS) REQREC_INTERFACE -> bRequest r = HID_REQ_SetReport ->
  idle m -> (forall i, latch m i = None) -> 0 <= p -> (p + 1) * SPM_PAGESIZE <= BOOT_START_ADDR ->
  zlen data = SPM_PAGESIZE -> Forall is_u8 data ->
  concat ps = [start mod 2 ^ 8; start / 2 ^ 8] ++ data ->
  Forall (fun q => Nat.Even (length q)) ps -> Forall (fun q => q <> []) ps ->
  (forall tr, acknowledged tr -> control_writer k ps (tr ++ h)) -> (k < fuel)%nat ->
  wp_ False (@on_control_request _ B _ _ (@Has_left _ _ B (Has_fst _ _)) (Has_snd _ _) (@Has_left _ _ B (Has_snd _ _)) fuel)
    (fun _ s' => exists m', glob s' = (d, u, m') /\ request_served ps h (hist s')
      /\ (forall j b, data !! j = Some b -> pgm_read_byte (start + Z.of_nat j) m' = b)
      /\ (forall x, x / SPM_PAGESIZE <> p -> flash m' x = flash m x))
    (St h (d, u, m)).
Proof.
  intros start r Hty Hrq Hi Hn Hp Hmax Hlen H8 Hcat Heven Hne Hhost Hfuel.
  destruct fl_page as (w & Hw & Hw0). pose proof fl_size as Hbs. assert (Hs : 0 <= start) by (unfold start; nia).
  assert (Hs2 : start + SPM_PAGESIZE <= BOOT_START_ADDR) by (unfold start; lia).
  destruct (lookup_lt_is_Some_2 ps 0) as [q Hq]; [destruct ps; [done|cbn; lia]|].
  pose proof (Forall_lookup_1 _ _ _ _ Heven Hq) as Hqe. pose proof (Forall_lookup_1 _ _ _ _ Hne Hq) as Hqn. cbn beta in Hqe, Hqn.
  unfold on_control_request. apply wp_bind, wp_getc. cbn [hist glob proj Has_left Has_snd fst snd]. fold r.
  rewrite Hty. change (negb _) with false. cbv match. rewrite Hrq. change (HID_REQ_SetReport =? HID_REQ_SetReport) with true.
  rewrite when_true. apply wp_bind, clear_setup_ack. intros t1 Hack. specialize (Hhost t1 Hack).
  set (h0 := t1 ++ h) in *. destruct (upcoming_start ps q [] Hq eq_refl eq_refl) as [Hu0 _].
  apply wp_bind, (busy_out_spec k fuel ps h0 Hhost Hfuel _ []); [apply Hu0|]. intros t2 Hr2 Hg2.
  destruct (upcoming_start ps q t2 Hq Hr2 Hg2) as [Hu2 Hh2]. rewrite Hcat in Hu2. cbn [app] in Hu2.
  apply wp_bind, (read_word_spec k fuel ps h0 Hhost Hfuel _ t2 _ _ _ _ Hu2); [by rewrite Hh2|by rewrite Hh2|apply u8_range|].
  intros t3 Hu3 _ He3. replace (start mod 2 ^ 8 + 2 ^ 8 * (start / 2 ^ 8)) with start
    by (pose proof (Z.div_mod start (2 ^ 8) ltac:(lia)); lia).
  rewrite (proj2 (Z.eqb_neq start COMMAND_STARTAPPLICATION)) by (unfold COMMAND_STARTAPPLICATION; lia).
  apply wp_bind. unfold mem. do 2 (apply wp_bind, wp_modc; cbn [hist glob proj inj Has_snd fst snd]).
  unfold page_words.
  apply wp_bind, (fill_page_spec k fuel ps h0 Hhost Hfuel Heven Hne (Z.to_nat (SPM_PAGESIZE / 2)) 0 data []);
    [|done|done| |by rewrite app_nil_r|done|].
  { rewrite Hw, (Z.mul_comm 2 w), Z.div_mul by lia. unfold zlen in Hlen. lia. }
  { rewrite Hw, (Z.mul_comm 2 w), Z.div_mul by lia. lia. }
  intros t4 Hu4. rewrite Z.mul_0_r, Z.add_0_r. do 2 (apply wp_bind, wp_modc; cbn [hist glob proj inj Has_snd fst snd]).
  apply wp_modc. cbn [hist glob proj inj Has_snd fst snd].
  apply (release_status k fuel ps h0 Hhost Hfuel); [|cbn; fold r; by rewrite Hty|].
  { destruct Hu4 as [Hl4 Hb4]. destruct (decide (S (released t4) < length ps)%nat) as [Hm|]; [|lia].
    destruct (lookup_lt_is_Some_2 ps _ Hm) as [q' Hq']. rewrite (drop_S ps q' _ Hq') in Hb4. cbn [concat] in Hb4.
    pose proof (Forall_lookup_1 _ _ _ _ Hne Hq'). by destruct (in_hand ps t4), q'. }
  intros h' Hsv. eexists. split_and!; [reflexivity|by exists t1|..]; by apply page_replaced.
Qed.
