(* ===== verification/Firmware.v ===== *)
(** * AvalonBTC/main.c: the whole firmware

    The instances that plug the application into the USB library, the
    hardware set-up, the phases of the main loop, and the program as a step
    relation: a step is one phase of the main loop or one interrupt routine,
    and routines run between phases, in any order the hardware chooses. *)

From stdpp Require Import relations.
From S2P Require Import Prelude Machine RingBuffer Timer Avalon Precalc Endpoint EndpointStream Cdc Leds App UsbController StdReq Descriptors UsbInterrupt Startup.

(** main.h *)
Definition LEDMASK_USB_NOTREADY : Z := LEDS_LED1.
Definition LEDMASK_USB_ENUMERATING : Z := Z.lor LEDS_LED1 LEDS_LED2.
Definition LEDMASK_USB_READY : Z := LEDS_LED2.
Definition LEDMASK_USB_ERROR : Z := Z.lor LEDS_LED1 LEDS_LED3.

Definition VirtualSerial_CDC_Interface : USB_ClassInfo_CDC_Device_t := {|
  ControlInterfaceNumber := 0;
  DataINEndpoint := mkEndpointTable CDC_TX_EPADDR CDC_TXRX_EPSIZE 0 1;
  DataOUTEndpoint := mkEndpointTable CDC_RX_EPADDR CDC_TXRX_EPSIZE 0 1;
  NotificationEndpoint := mkEndpointTable CDC_NOTIFICATION_EPADDR CDC_NOTIFICATION_EPSIZE 0 1;
  HostToDevice := 0;
  DeviceToHost := 0;
  LineEncoding := mkLineEncoding 0 0 0 0;
|}.

(** The program's variables at start-up: C zeroes what it does not initialise. *)
Definition initial_globals : Globals :=
  mkGlobals (mkAvalon 0 0 0 0) (mkClock 0)
    (mkUsb (mkRequest 0 0 0 0 0) 0 false false false) VirtualSerial_CDC_Interface
    (mkApp (mkRing 0 0 0 0 0 0 (repeat 0 256)) (mkRing 0 0 0 0 0 0 (repeat 0 128))
       (mkWorkUnit (repeat 0 8) (repeat 0 3) (repeat 0 6)) (mkState 0 0 0) (mkTimer 0 0 0)).

Section events.
Context `{Hardware}.

Definition on_configuration_changed (fuel : nat) : M Globals unit :=
  ConfigSuccess ← CDC_Device_ConfigureEndpoints fuel;
  LEDs_SetAllLEDs (if (ConfigSuccess : bool) then LEDMASK_USB_READY else LEDMASK_USB_ERROR).
Definition on_connect : M Globals unit := LEDs_SetAllLEDs LEDMASK_USB_ENUMERATING.
Definition on_disconnect : M Globals unit := LEDs_SetAllLEDs LEDMASK_USB_NOTREADY.

(** The body of [EVENT_CDC_Device_LineEncodingChanged] is compiled out. *)
Definition on_line_encoding_changed : M Globals unit := mret tt.

#[export] Instance firmware_cdc_events : CdcEvents Globals := {|
  EVENT_CDC_Device_LineEncodingChanged := on_line_encoding_changed;
  EVENT_CDC_Device_ControLineStateChanged := CDC_Device_Event_Stub;
  EVENT_CDC_Device_BreakSent := fun _ => CDC_Device_Event_Stub;
|}.

Definition on_control_request (fuel : nat) : M Globals unit :=
  CDC_Device_ProcessControlRequest fuel.

#[export] Instance firmware_device : UsbDevice Globals := {|
  EVENT_USB_Device_ControlRequest := on_control_request;
  EVENT_USB_Device_ConfigurationChanged := on_configuration_changed;
  CALLBACK_USB_GetDescriptor := GetDescriptor;
|}.

#[export] Instance firmware_events : UsbEvents Globals := {|
  EVENT_USB_Device_StartOfFrame := USB_Event_Stub;
  EVENT_USB_Device_Connect := on_connect;
  EVENT_USB_Device_Disconnect := on_disconnect;
  EVENT_USB_Device_Reset := USB_Event_Stub;
|}.

(** The stdout stream: characters go to the USB queue, newlines as CR LF. *)
Definition debug (c : Z) : M Globals unit :=
  when (c =? 0x0A)
    (modc (fun a => set_out (RingBuffer_Insert (USARTtoUSB_Buffer a) 0x0D) a)) ;;
  modc (fun a => set_out (RingBuffer_Insert (USARTtoUSB_Buffer a) c) a).

Definition SetupHardware (fuel : nat) : M Globals unit :=
  reg_clr MCUSR (BV WDRF) ;;
  wdt_disable ;;
  wr DDRB 0x0C ;;
  wr PORTB 0x0F ;;
  wr DDRD 0x43 ;;
  wr PORTD 0x40 ;;
  wr TCCR1A (BV COM1B0) ;;
  wr OCR1B 0 ;;
  wr TCCR1B (Z.lor (BV WGM12) (BV CS10)) ;;
  clock_prescale_set 0 ;;
  clockInit ;;
  LEDs_Init ;;
  USB_Init fuel.

(** [main] up to its loop.  [timer] is the uninitialised local. *)
Definition main_init (fuel : nat) (p_out p_in : Z) (timer : Timer) : M Globals Timer :=
  SetupHardware fuel ;;
  appInit p_out p_in ;;
  LEDs_SetAllLEDs LEDMASK_USB_NOTREADY ;;
  timer' ← timerSet timer 10;
  sei ;;
  mret timer'.

(** The body of the loop, by phases. *)
Definition main_receive (fuel : nat) : M Globals unit :=
  n ← CDC_Device_BytesReceived;
  when (negb (n =? 0)) (appUsbDataReceived fuel).

(** [while(BufferCount--) { ... }] *)
Fixpoint main_drain (fuel : nat) (BufferCount : nat) : M Globals unit :=
  match BufferCount with
  | O => mret tt
  | S n =>
      b ← getc USARTtoUSB_Buffer;
      r ← CDC_Device_SendByte fuel (RingBuffer_Peek b);
      if negb (r =? ENDPOINT_READYWAIT_NoError) then mret tt else
      modc (fun a => set_out (snd (RingBuffer_Remove (USARTtoUSB_Buffer a))) a) ;;
      main_drain fuel n
  end.

Definition main_transmit (fuel : nat) (timer : Timer) : M Globals Timer :=
  b ← getc USARTtoUSB_Buffer;
  let BufferCount := RingBuffer_GetCount b in
  r ← timerExpired timer;
  let timer := snd r in
  if fst r || (0 <? BufferCount) then
    timer' ← timerRestart timer;
    main_drain fuel (Z.to_nat BufferCount) ;;
    mret timer'
  else mret timer.

Definition main_iteration (fuel : nat) (timer : Timer) : M Globals Timer :=
  main_receive fuel ;;
  timer' ← main_transmit fuel timer;
  appService ;;
  CDC_Device_USBTask fuel ;;
  USB_USBTask fuel ;;
  mret timer'.
End events.

(** ** The program *)

Inductive phase := Receive | Transmit | Service | Flush | Task.

Record fw_state := mkFw {
  fw_phase : phase;
  fw_timer : Timer;       (* [main]'s local *)
  fw_st : st Globals;
}.

Section program.
Context `{Hardware} (fuel : nat).

(** One phase of the main loop, or one interrupt routine.  The SPI interrupt
    needs its enable bit; the others are left free. *)
Inductive fw_step : fw_state -> fw_state -> Prop :=
  | step_receive t s s' :
      main_receive fuel s = Some (tt, s') -> fw_step (mkFw Receive t s) (mkFw Transmit t s')
  | step_transmit t t' s s' :
      main_transmit fuel t s = Some (t', s') -> fw_step (mkFw Transmit t s) (mkFw Service t' s')
  | step_service t s s' :
      appService s = Some (tt, s') -> fw_step (mkFw Service t s) (mkFw Flush t s')
  | step_flush t s s' :
      CDC_Device_USBTask fuel s = Some (tt, s') -> fw_step (mkFw Flush t s) (mkFw Task t s')
  | step_task t s s' :
      USB_USBTask fuel s = Some (tt, s') -> fw_step (mkFw Task t s) (mkFw Receive t s')
  | step_spi p t s s' :
      Z.testbit (latch_value SPCR (hist s)) SPIE = true ->
      SPI_STC_vect fuel s = Some (tt, s') -> fw_step (mkFw p t s) (mkFw p t s')
  | step_tick p t s s' :
      TIMER0_COMPA_vect s = Some (tt, s') -> fw_step (mkFw p t s) (mkFw p t s')
  | step_gen p t s s' :
      USB_GEN_vect fuel s = Some (tt, s') -> fw_step (mkFw p t s) (mkFw p t s')
  | step_com p t s s' :
      USB_COM_vect fuel s = Some (tt, s') -> fw_step (mkFw p t s) (mkFw p t s').

(** Uninterrupted, five steps are one pass of the loop. *)
Lemma main_iteration_steps t t' s s' :
  main_iteration fuel t s = Some (t', s') -> rtc fw_step (mkFw Receive t s) (mkFw Receive t' s').
Proof.
  unfold main_iteration. unfold mbind, M_bind.
  destruct (main_receive fuel s) as [[[] s1]|] eqn:E1; [|done].
  destruct (main_transmit fuel t s1) as [[t1 s2]|] eqn:E2; [|done].
  destruct (appService s2) as [[[] s3]|] eqn:E3; [|done].
  destruct (CDC_Device_USBTask fuel s3) as [[[] s4]|] eqn:E4; [|done].
  destruct (USB_USBTask fuel s4) as [[[] s5]|] eqn:E5; [|done].
  intros [= <- <-].
  eapply rtc_l; [by apply step_receive|]. eapply rtc_l; [by apply step_transmit|].
  eapply rtc_l; [by apply step_service|]. eapply rtc_l; [by apply step_flush|].
  eapply rtc_once. by apply step_task.
Qed.

End program.
