(* ===== verification/FirmwareFrames.v ===== *)
(** * What the USB side of the miner leaves alone

    The library's functions, the class driver, the event handlers and the
    interrupt routines but the ASIC's write neither the SPI's control register
    nor the application: a relation on the variables that the library's own
    records respect holds along all their runs. *)

From S2P Require Import Prelude Machine RingBuffer Timer Avalon Precalc Endpoint EndpointStream Cdc Leds App UsbController StdReq Descriptors UsbInterrupt Startup Firmware.

(** Relations that do not see the library's variables. *)
Class UsbLayer (S : relation Globals) : Prop := {
  ul_preorder :: PreOrder S;
  ul_usb g (u : UsbState) : S g (inj u g);
  ul_cdc g (c : USB_ClassInfo_CDC_Device_t) : S g (inj c g);
}.

Definition is_spcr (r : reg) : bool := match r with SPCR => true | _ => false end.

(** Walk a function that does not touch SPCR. *)
Ltac usb_step := first [ runs_step | apply _ | exact (ul_usb _ _) | exact (ul_cdc _ _) ].
Ltac usb_go := repeat usb_step.
Ltac unfold_endpoint :=
  unfold Endpoint_SelectEndpoint, Endpoint_IsReadWriteAllowed, Endpoint_IsINReady,
    Endpoint_IsOUTReceived, Endpoint_IsSETUPReceived, Endpoint_ClearSETUP, Endpoint_ClearIN,
    Endpoint_ClearOUT, Endpoint_StallTransaction, Endpoint_ClearStall, Endpoint_IsStalled,
    Endpoint_ResetDataToggle, Endpoint_ResetEndpoint, Endpoint_IsEnabled, Endpoint_Read_8,
    Endpoint_Write_8, Endpoint_Write_16_LE, Endpoint_Write_32_LE, Endpoint_Read_32_LE,
    Endpoint_BytesInEndpoint, Endpoint_GetCurrentEndpoint, Endpoint_GetEndpointDirection,
    get_DeviceState, set_DeviceState in *.

Section usb_frames.
Context `{Hardware} (S : relation Globals) `{!UsbLayer S}.

#[export] Instance uf_configure fuel a t z b : Runs (frame is_spcr S) (Endpoint_ConfigureEndpoint fuel a t z b).
Proof.
  unfold Endpoint_ConfigureEndpoint, Endpoint_ConfigureEndpoint_Prv, Endpoint_BytesToEPSizeMask.
  usb_go. induction (ep_from _) as [|e l IH]; cbn [reconfigure];
    unfold Endpoint_SelectEndpoint, Endpoint_DisableEndpoint, Endpoint_EnableEndpoint,
      Endpoint_IsConfigured; usb_go.
Qed.
#[export] Instance uf_table fuel l : Runs (frame is_spcr S) (Endpoint_ConfigureEndpointTable fuel l).
Proof. induction l as [|e l IH]; cbn [Endpoint_ConfigureEndpointTable]; usb_go. Qed.
#[export] Instance uf_status fuel : Runs (frame is_spcr S) (Endpoint_ClearStatusStage fuel).
Proof. unfold Endpoint_ClearStatusStage, wait_attached, until_ready. unfold_endpoint. usb_go. Qed.
#[export] Instance uf_ready : Runs (frame is_spcr S) cdc_ready.
Proof. unfold cdc_ready. unfold_endpoint. usb_go. Qed.
#[export] Instance uf_receive_byte : Runs (frame is_spcr S) CDC_Device_ReceiveByte.
Proof. unfold CDC_Device_ReceiveByte. unfold_endpoint. usb_go. Qed.
#[export] Instance uf_bytes_received : Runs (frame is_spcr S) CDC_Device_BytesReceived.
Proof. unfold CDC_Device_BytesReceived. unfold_endpoint. usb_go. Qed.
#[export] Instance uf_send_byte fuel c : Runs (frame is_spcr S) (CDC_Device_SendByte fuel c).
Proof. unfold CDC_Device_SendByte. unfold_endpoint. usb_go. Qed.
#[export] Instance uf_flush fuel : Runs (frame is_spcr S) (CDC_Device_Flush fuel).
Proof. unfold CDC_Device_Flush. unfold_endpoint. usb_go. Qed.
#[export] Instance uf_usb_task fuel : Runs (frame is_spcr S) (CDC_Device_USBTask fuel).
Proof. unfold CDC_Device_USBTask. usb_go. Qed.
#[export] Instance uf_configure_endpoints fuel : Runs (frame is_spcr S) (CDC_Device_ConfigureEndpoints fuel).
Proof. unfold CDC_Device_ConfigureEndpoints. usb_go. Qed.
#[export] Instance uf_control_request fuel : Runs (frame is_spcr S) (CDC_Device_ProcessControlRequest fuel).
Proof.
  unfold CDC_Device_ProcessControlRequest, wait_attached, until_ready, busy_wait, Write_LineEncoding,
    Read_LineEncoding. unfold_endpoint. usb_go.
  all: unfold EVENT_CDC_Device_LineEncodingChanged, EVENT_CDC_Device_ControLineStateChanged,
    EVENT_CDC_Device_BreakSent, firmware_cdc_events, on_line_encoding_changed, CDC_Device_Event_Stub;
    usb_go.
Qed.

(** The standard requests. *)
#[export] Instance uf_fill m o l n p b : Runs (frame is_spcr S) (G:=Globals) (control_fill m o l n p b).
Proof. revert n p b. induction m as [|m IH]; intros n p b; cbn [control_fill]; unfold_endpoint; usb_go. Qed.
#[export] Instance uf_write_control o fuel l n : Runs (frame is_spcr S) (write_control_stream o fuel l n).
Proof.
  unfold write_control_stream, control_w_step, control_status_wait. unfold_endpoint. usb_go.
Qed.
#[export] Instance uf_serial_chars n c a : Runs (frame is_spcr S) (serial_chars n c a).
Proof. revert c a. induction n as [|n IH]; intros c a; cbn [serial_chars]; usb_go. Qed.
#[export] Instance uf_read_bytes n : Runs (frame is_spcr S) (read_bytes n).
Proof. induction n as [|n IH]; cbn [read_bytes]; unfold_endpoint; usb_go. Qed.
#[export] Instance uf_set_leds m : Runs (frame is_spcr S) (LEDs_SetAllLEDs m).
Proof. unfold LEDs_SetAllLEDs, LEDs_ChangeLEDs. usb_go. Qed.
#[export] Instance uf_state : Runs (frame is_spcr S) (G:=Globals) state_by_configuration.
Proof. unfold state_by_configuration, USB_Device_IsAddressSet. unfold_endpoint. usb_go. Qed.

#[export] Instance uf_set_address fuel : Runs (frame is_spcr S) (USB_Device_SetAddress fuel).
Proof.
  unfold USB_Device_SetAddress, request, busy_wait, USB_Device_SetDeviceAddress.
  unfold_endpoint. usb_go.
Qed.
#[export] Instance uf_set_configuration fuel : Runs (frame is_spcr S) (USB_Device_SetConfiguration fuel).
Proof.
  unfold USB_Device_SetConfiguration, request, EVENT_USB_Device_ConfigurationChanged,
    firmware_device, on_configuration_changed. unfold_endpoint. usb_go.
Qed.
#[export] Instance uf_get_configuration fuel : Runs (frame is_spcr S) (G:=Globals) (USB_Device_GetConfiguration fuel).
Proof. unfold USB_Device_GetConfiguration. unfold_endpoint. usb_go. Qed.
#[export] Instance uf_get_descriptor fuel : Runs (frame is_spcr S) (USB_Device_GetDescriptor fuel).
Proof.
  unfold USB_Device_GetDescriptor, request, USB_Device_GetInternalSerialDescriptor,
    USB_Device_GetSerialString, Endpoint_Write_Control_Stream_LE,
    Endpoint_Write_Control_PStream_LE. unfold_endpoint. usb_go.
Qed.
#[export] Instance uf_get_status fuel : Runs (frame is_spcr S) (G:=Globals) (USB_Device_GetStatus fuel).
Proof. unfold USB_Device_GetStatus, current_status, request. unfold_endpoint. usb_go. Qed.
#[export] Instance uf_feature fuel : Runs (frame is_spcr S) (G:=Globals) (USB_Device_ClearSetFeature fuel).
Proof. unfold USB_Device_ClearSetFeature, change_feature, request. unfold_endpoint. usb_go. Qed.
#[export] Instance uf_process fuel : Runs (frame is_spcr S) (USB_Device_ProcessControlRequest fuel).
Proof.
  unfold USB_Device_ProcessControlRequest, standard_request, request,
    EVENT_USB_Device_ControlRequest, firmware_device, on_control_request. unfold_endpoint. usb_go.
Qed.
#[export] Instance uf_usb fuel : Runs (frame is_spcr S) (USB_USBTask fuel).
Proof. unfold USB_USBTask, USB_DeviceTask. unfold_endpoint. usb_go. Qed.
#[export] Instance uf_com fuel : Runs (frame is_spcr S) (USB_COM_vect fuel).
Proof. unfold USB_COM_vect, USB_INT_Disable, USB_INT_Enable. unfold_endpoint. usb_go. Qed.
#[export] Instance uf_gen fuel : Runs (frame is_spcr S) (USB_GEN_vect fuel).
Proof.
  unfold USB_GEN_vect, on_interrupt, isr_start_of_frame, isr_suspend, isr_wakeup, isr_reset,
    USB_INT_HasOccurred, USB_INT_IsEnabled, USB_INT_Clear, USB_INT_Disable, USB_INT_Enable,
    int_flag, USB_CLK_Freeze, USB_CLK_Unfreeze, USB_PLL_Off, pll_start, USB_PLL_On,
    USB_PLL_IsReady, busy_wait, EVENT_USB_Device_StartOfFrame, EVENT_USB_Device_Connect,
    EVENT_USB_Device_Disconnect, EVENT_USB_Device_Reset, firmware_events, on_connect,
    on_disconnect, USB_Event_Stub. unfold_endpoint. usb_go.
Qed.
End usb_frames.

(** Functions with an instance are recognised by name. *)
#[global] Typeclasses Opaque Endpoint_ConfigureEndpoint Endpoint_ConfigureEndpointTable
  Endpoint_ClearStatusStage cdc_ready CDC_Device_ReceiveByte CDC_Device_BytesReceived
  CDC_Device_SendByte CDC_Device_Flush CDC_Device_USBTask CDC_Device_ConfigureEndpoints
  CDC_Device_ProcessControlRequest USB_Device_ProcessControlRequest USB_USBTask USB_COM_vect
  USB_GEN_vect LEDs_SetAllLEDs.
