(* ===== verification/LostInterrupt.v ===== *)
(** * The lost interrupt

    The SPI interrupt disables itself and only [appService], when it finds a
    valid report, enables it again.  [spi_dead]: no report, and the interrupt
    disabled. *)

From stdpp Require Import relations.
From S2P Require Import Prelude Machine RingBuffer Timer Avalon Precalc Endpoint EndpointStream Cdc Leds App UsbController StdReq Descriptors UsbInterrupt Startup Firmware FirmwareFrames.

Definition spi_dead `{Hardware} (s : st Globals) : Prop :=
  report_valid_ (g_avalon (glob s)) = 0 /\ Z.testbit (latch_value SPCR (hist s)) SPIE = false.

(** An absent report stays absent. *)
Definition no_new_report : relation Globals := fun g g' =>
  report_valid_ (g_avalon g) = 0 -> report_valid_ (g_avalon g') = 0.
#[export] Instance no_new_report_preorder : PreOrder no_new_report.
Proof. split; [intros g Hg; exact Hg|]. intros g1 g2 g3 H1 H2 H3. by apply H2, H1. Qed.

#[export] Instance no_new_report_usb : UsbLayer no_new_report.
Proof. split; [apply _|intros g u Hg; exact Hg..]. Qed.

(** SPCR is not written and no report appears. *)
Abbreviation spi_quiet := (frame is_spcr no_new_report).

Lemma dead_frame `{Hardware} s s' : spi_quiet s s' -> spi_dead s -> spi_dead s'.
Proof.
  intros HF [Hv Hs]. split; [by apply (proj2 HF)|]. by rewrite (frame_latch _ _ s s' SPCR HF).
Qed.

(** Walk a function of the application. *)
Ltac spi_go := repeat first [ runs_step | apply _ | (intros ?; cbn in *; congruence) | (intros ?; cbn; reflexivity) ].

Section lost_interrupt.
Context `{Hardware}.

#[export] Instance lost_tick : Runs spi_quiet (G:=Globals) TIMER0_COMPA_vect.
Proof. unfold TIMER0_COMPA_vect. spi_go. Qed.

(** The application, but for the report itself. *)
#[export] Instance lost_removes n : Runs spi_quiet (buffer_removes n).
Proof. induction n as [|n IH]; cbn [buffer_removes]; unfold buffer_remove; spi_go. Qed.
#[export] Instance lost_reply c l : Runs spi_quiet (sendCmdReply c l).
Proof. unfold sendCmdReply, usbWrite. spi_go. Qed.
#[export] Instance lost_asic_reset : Runs spi_quiet (G:=Globals) asicReset.
Proof. unfold asicReset, clear_report. spi_go. Qed.
#[export] Instance lost_asic_reset_spi : Runs spi_quiet (G:=Globals) asicResetSpi.
Proof. unfold asicResetSpi, clear_report, asicDisableSpi, asicEnableSpi. spi_go. Qed.
#[export] Instance lost_asic_stop : Runs spi_quiet (G:=Globals) asicStop.
Proof. unfold asicStop, clear_report. spi_go. Qed.
#[export] Instance lost_send_bits n w : Runs spi_quiet (G:=Globals) (send_bits n w).
Proof. exact (send_bits_runs _ _ eq_refl n w). Qed.
#[export] Instance lost_push w : Runs spi_quiet (pushWork w).
Proof. unfold pushWork, asicSend, send32, asicIdle. spi_go. Qed.
#[export] Instance lost_serial : Runs spi_quiet serialProcess.
Proof.
  unfold serialProcess, cmd_work, work_tail, app_timerSet, timerSet, clockGetTime, reply_state,
    app_setState, app_setNonce, buffer_remove, LEDs_ToggleLEDs. spi_go.
Qed.
#[export] Instance lost_received fuel : Runs spi_quiet (appUsbDataReceived fuel).
Proof. unfold appUsbDataReceived. spi_go. Qed.
#[export] Instance lost_main_receive fuel : Runs spi_quiet (main_receive fuel).
Proof. unfold main_receive. spi_go. Qed.
#[export] Instance lost_drain fuel n : Runs spi_quiet (main_drain fuel n).
Proof. induction n as [|n IH]; cbn [main_drain]; spi_go. Qed.
#[export] Instance lost_main_transmit fuel t : Runs spi_quiet (main_transmit fuel t).
Proof. unfold main_transmit, timerExpired, timerRestart, clockGetTime. spi_go. Qed.
#[export] Instance lost_timeout : Runs spi_quiet service_timeout.
Proof. unfold service_timeout, app_setState, app_setNonce, reply_state. spi_go. Qed.

(** [appService] without a report. *)
Lemma service_dead s s' : spi_dead s -> appService s = Some (tt, s') -> spi_dead s'.
Proof.
  intros Hd. pose proof Hd as [Hv _].
  set (rest := (e ← app_timerExpired; when e service_timeout) : M Globals unit).
  change (appService s) with
    ((when (negb (u8 (report_valid_ (g_avalon (glob s))) =? 0)) service_report ;; rest) s).
  rewrite Hv. change ((when (negb (u8 0 =? 0)) service_report ;; rest) s) with (rest s).
  intros Hrun. apply (dead_frame s s'); [|exact Hd].
  assert (Hr : Runs spi_quiet rest).
  { unfold rest, app_timerExpired, timerExpired, clockGetTime. spi_go. }
  exact (Hr s tt s' Hrun).
Qed.

(** From a disabled interrupt, clearing the report is final. *)
Lemma clear_dead (m : M Globals unit) s s' :
  Z.testbit (latch_value SPCR (hist s)) SPIE = false -> Runs spi_quiet m ->
  (clear_report ;; m) s = Some (tt, s') -> spi_dead s'.
Proof.
  intros Hs Hm Hrun. eapply dead_frame; [exact (Hm _ _ _ Hrun)|]. by split.
Qed.
End lost_interrupt.

Section program.
Context `{Hardware} (fuel : nat).

(** C22. A lost report interrupt is lost for good: once the SPI interrupt is
    disabled and no report is valid, no sequence of main-loop phases and
    interrupts, whatever the host sends and the hardware does, ever enables
    it or makes a report valid again, so the miner finds no nonce until it is
    switched off. *)
Theorem spi_dead_forever x y :
  rtc (fw_step fuel) x y -> spi_dead (fw_st x) -> spi_dead (fw_st y).
Proof.
  induction 1 as [|x y z Hstep _ IH]; [done|]. intros Hd. apply IH. clear IH.
  destruct Hstep as [t s s' E|t t' s s' E|t s s' E|t s s' E|t s s' E|p t s s' Hs E|p t s s' E
    |p t s s' E|p t s s' E]; cbn [fw_st] in *.
  - exact (dead_frame s s' (lost_main_receive fuel s tt s' E) Hd).
  - exact (dead_frame s s' (lost_main_transmit fuel t s t' s' E) Hd).
  - exact (service_dead s s' Hd E).
  - exact (dead_frame s s' (uf_usb_task no_new_report fuel s tt s' E) Hd).
  - exact (dead_frame s s' (uf_usb no_new_report fuel s tt s' E) Hd).
  - destruct Hd as [_ Hd]. rewrite Hd in Hs. discriminate.
  - exact (dead_frame s s' (lost_tick s tt s' E) Hd).
  - exact (dead_frame s s' (uf_gen no_new_report fuel s tt s' E) Hd).
  - exact (dead_frame s s' (uf_com no_new_report fuel s tt s' E) Hd).
Qed.
End program.

(** ** How the interrupt gets lost *)

Section losing.
Context `{Hardware}.

Lemma wp_quiet {A} (m : M Globals A) (Q : A -> st Globals -> Prop) s :
  Runs spi_quiet m -> spi_dead s -> (forall a s', spi_dead s' -> Q a s') -> wp_ True m Q s.
Proof.
  intros Hr Hd HQ. unfold wp_. destruct (m s) as [[a s']|] eqn:E; [|done].
  apply HQ. exact (dead_frame s s' (Hr _ _ _ E) Hd).
Qed.

(** The interrupt routine leaves the application alone and itself disabled. *)
Lemma isr_disables fuel (s : st Globals) :
  (4000 < fuel)%nat ->
  wp_ False (SPI_STC_vect fuel) (fun _ s' =>
    g_app (glob s') = g_app (glob s) /\ Z.testbit (latch_value SPCR (hist s')) SPIE = false) s.
Proof.
  intros Hf. pose proof (spi_isr_spec fuel s Hf) as Ht. unfold SPI_STC_vect in *.
  set (tail := (d ← rd SPDR; _) : M Globals unit) in *.
  assert (Hr : Runs (frame is_spcr only_avalon) tail).
  { unfold tail, spi_poll. runs_go; apply (only_avalon_inj _ (fun _ => _)). }
  revert Ht. unfold wp_, reg_clr, mbind at 1 2 3 4, M_bind, rd, wr. cbn [hist glob].
  set (h1 := _ :: _ :: hist s).
  destruct (tail (St h1 (glob s))) as [[[] s']|] eqn:E; [|done]. intros _.
  pose proof (Hr _ _ _ E) as HF. split.
  - destruct HF as [_ [a Ha]]. rewrite Ha. by destruct (glob s).
  - rewrite (frame_latch _ _ _ _ SPCR HF eq_refl). cbn [hist]. unfold h1. rewrite latch_wr.
    by reg_bits.
Qed.

(** A reset or abort command clears the report and leaves the interrupt as it is. *)
Lemma reset_command_dead c rest (s : st Globals) :
  let a := g_app (glob s) in
  app_ok a -> room 14 a -> length (precalc (worktask a)) = 6%nat ->
  rb_contents (buffer_ a) = c :: rest -> c = 0x52 \/ c = 0x41 ->
  Z.testbit (latch_value SPCR (hist s)) SPIE = false ->
  wp_ False serialProcess (fun _ s' => spi_dead s') s.
Proof.
  intros a Hok Hroom Hp Hc Hcmd Hs.
  destruct (head_command a c rest Hok Hc) as [Hcnt Hpk].
  apply wp_partial. { apply (wp_some False _ _ s (fun x => x) (serialProcess_spec s Hok Hroom Hp)). }
  unfold serialProcess. do 2 wp_step. change (proj (glob s)) with a. cbv zeta. rewrite Hcnt, Hpk.
  rewrite (proj2 (Z.eqb_neq _ 0)) by (rewrite zlen_cons; pose proof (zlen_nonneg rest); lia).
  apply wp_bind. destruct Hcmd as [-> | ->]; cbn [Z.eqb Pos.eqb];
    (apply wp_bind; eapply wp_eq; [apply buffer_remove_run|]).
  - apply wp_bind. unfold asicReset. apply wp_bind. unfold clear_report. wp_step.
    apply wp_quiet; [spi_go|by split|]. intros [] s2 Hd2. apply wp_quiet; [|done|].
    { unfold app_setState, reply_state. spi_go. }
    intros [] s3 Hd3. by apply wp_ret.
  - unfold app_setState. do 2 wp_step. apply wp_bind. unfold asicStop. apply wp_bind.
    unfold clear_report. wp_step. apply wp_quiet; [spi_go|by split|]. intros [] s2 Hd2.
    apply wp_quiet; [unfold reply_state; spi_go|done|]. intros [] s3 Hd3. by apply wp_ret.
Qed.

(** C23. A reset or abort command that arrives with a report kills the report
    interrupt: when the SPI interrupt runs and the next thing the program
    does is to interpret a command queue that starts with ['R'] or ['A'],
    both terminate and leave the interrupt disabled with no report valid,
    which is the state nothing leads out of. *)
Theorem command_loses_interrupt fuel c rest (s : st Globals) :
  let a := g_app (glob s) in
  (4000 < fuel)%nat -> app_ok a -> room 14 a -> length (precalc (worktask a)) = 6%nat ->
  rb_contents (buffer_ a) = c :: rest -> c = 0x52 \/ c = 0x41 ->
  wp_ False (SPI_STC_vect fuel ;; serialProcess) (fun _ s' => spi_dead s') s.
Proof.
  intros a Hf Hok Hroom Hp Hc Hcmd. wp_call (isr_disables fuel s Hf).
  intros [] s1 [Ha Hs]. apply (reset_command_dead c rest); rewrite ?Ha; done.
Qed.
End losing.

Lemma command_loses_interrupt_witness :
  let s := St [Wr SPCR 0xE4] (witness_globals (mkAvalon 0 0 0 0) [0x52]) in
  wp_ False (@SPI_STC_vect Globals _ plain_hardware 4001 ;; @serialProcess plain_hardware)
    (fun _ s' => @spi_dead plain_hardware s') s.
Proof.
  destruct (witness_app_ok [0x52]) as (Hok & Hroom & Hc);
    [vm_compute; discriminate|repeat constructor; vm_compute; congruence|].
  intros s.
  refine (@command_loses_interrupt plain_hardware 4001 0x52 [] s _ Hok Hroom _ _ _).
  - lia.
  - reflexivity.
  - exact Hc.
  - left. reflexivity.
Defined.

(** From then on. *)
Lemma spi_dead_forever_witness :
  let x := mkFw Task (mkTimer 1 0 10) (St [Wr SPCR 0x64] initial_globals) in
  let y := mkFw Task (mkTimer 1 0 10) (St [Wr SPCR 0x64] (set_clock (mkClock 1) initial_globals)) in
  @spi_dead plain_hardware (fw_st y).
Proof.
  intros x y. refine (@spi_dead_forever plain_hardware 10 x y _ _).
  - apply rtc_once. apply step_tick. reflexivity.
  - split; reflexivity.
Defined.
