(* ===== verification/Enumeration.v ===== *)
(** * Enumeration of the miner

    What a host that asks the miner for its descriptors receives: the standard
    request of [StdReq], the application's event handler of [Firmware] and the
    tables of [Descriptors] together. *)

From S2P Require Import Prelude Machine Endpoint EndpointStream UsbController StdReq Cdc Descriptors App Firmware.

(** The descriptors of the miner, by type and index. *)
Definition descriptor (t n : Z) : option (list Z) :=
  let string s := take (Z.to_nat (hdr_Size (sd_Header s))) (string_bytes s) in
  if t =? DTYPE_Device then Some (device_bytes DeviceDescriptor)
  else if t =? DTYPE_Configuration then Some (configuration_bytes ConfigurationDescriptor)
  else if t =? DTYPE_String then string <$> [LanguageString; ManufacturerString; ProductString] !! Z.to_nat n
  else None.

(** What a host checks: a device descriptor of 18 bytes for the control
    endpoint's packet size with one configuration, a configuration that is
    [config_valid], a string of its announced length in 16-bit characters. *)
Definition well_formed (t : Z) (bs : list Z) : bool :=
  bool_decide (Forall is_u8 bs) && (desc_type bs =? t) &&
  (if t =? DTYPE_Device then
     (zlen bs =? 18) && (nth 0 bs 0 =? 18) && (nth 7 bs 0 =? FIXED_CONTROL_ENDPOINT_SIZE)
     && (nth 17 bs 0 =? FIXED_NUM_CONFIGURATIONS)
   else if t =? DTYPE_Configuration then config_valid bs
   else (nth 0 bs 0 =? zlen bs) && Nat.even (length bs)).

(** The request has been refused: the endpoint stalled, the SETUP packet
    acknowledged, and nothing else written. *)
Definition refused (h h' : history) : Prop :=
  exists tr v w, h' = tr ++ h /\ writes UECONX tr = [v] /\ Z.testbit v STALLRQ = true
    /\ writes UEINTX tr = [w] /\ Z.testbit w RXSTPI = false
    /\ forall r, r <> UECONX -> r <> UEINTX -> writes r tr = [].

Lemma table_entry ty mem (bs : list Z) size :
  size = zlen bs ->
  bool_decide (take (length bs) mem = bs) && bool_decide (Forall is_u8 mem) && (zlen bs <=? zlen mem)
    && (2 <=? zlen bs) && (zlen bs <=? 62) && well_formed ty bs = true ->
  exists mem', (size, mem) = (zlen bs, mem') /\ take (length bs) mem' = bs
    /\ Forall is_u8 mem' /\ zlen bs <= zlen mem' /\ 2 <= zlen bs <= 62 /\ well_formed ty bs = true.
Proof.
  intros ->. rewrite !andb_true_iff, !Z.leb_le, !bool_decide_eq_true. intros [[[[[H1 H2] H3] H4] H5] H6].
  exists mem. by split_and!.
Qed.

(** The callback finds exactly these descriptors. *)
Lemma GetDescriptor_table v i :
  let t := u8 (Z.shiftr v 8) in
  let n := u8 (Z.land v 0xFF) in
  match descriptor t n with
  | Some bs => exists mem, GetDescriptor v i = (zlen bs, mem) /\ take (length bs) mem = bs
      /\ Forall is_u8 mem /\ zlen bs <= zlen mem /\ 2 <= zlen bs <= 62 /\ well_formed t bs = true
  | None => GetDescriptor v i = (NO_DESCRIPTOR, [])
      /\ t <> DTYPE_Device /\ t <> DTYPE_Configuration /\ (t = DTYPE_String -> 3 <= n)
  end.
Proof.
  cbv zeta. unfold GetDescriptor, descriptor. set (t := u8 (Z.shiftr v 8)). set (n := u8 (Z.land v 0xFF)).
  pose proof (u8_range (Z.land v 0xFF)) as Hn. fold n in Hn. unfold is_u8 in Hn. clearbody t n.
  destruct (Z.eqb_spec t DTYPE_Device) as [->|Ht1]; [by apply table_entry|].
  destruct (Z.eqb_spec t DTYPE_Configuration) as [->|Ht2]; [by apply table_entry|].
  destruct (Z.eqb_spec t DTYPE_String) as [->|Ht3]; [|by split_and!].
  destruct (Z.eqb_spec n 0) as [->|]; [by apply (table_entry _ (string_bytes LanguageString))|].
  destruct (Z.eqb_spec n 1) as [->|]; [by apply (table_entry _ (string_bytes ManufacturerString))|].
  destruct (Z.eqb_spec n 2) as [->|]; [by apply (table_entry _ (string_bytes ProductString))|].
  rewrite lookup_ge_None_2 by (cbn; lia). cbn [fmap option_fmap option_map]. split_and!; try done. lia.
Qed.

Section enumeration.
Context `{Hardware}.

(** A standard request is none of the application's business. *)
Lemma miner_ignores fuel r :
  bRequest r = REQ_GetDescriptor -> event_ignores (G := Globals) fuel r.
Proof.
  intros Hb [h g] Hr. cbn [hist glob] in *.
  unfold EVENT_USB_Device_ControlRequest, firmware_device, on_control_request, CDC_Device_ProcessControlRequest.
  apply wp_bind, wp_flag. cbv zeta. cbn [hist glob]. set (v := reg_trunc UEINTX _). clearbody v.
  assert (Ho : only_reads h (Rd UEINTX v :: h)) by (apply only_reads_rd; reflexivity).
  destruct (anybit v _); cbn [negb]; [|by apply wp_ret].
  apply wp_bind, wp_getc, wp_bind, wp_getc. cbn [hist glob]. rewrite Hr.
  destruct (negb _); [by apply wp_ret|]. rewrite Hb. by apply wp_ret.
Qed.

(** C25. Whatever descriptor the host asks the miner for, in a SETUP packet to
    the device or to an interface, with whatever length and index (the serial
    number apart, which is not in the tables): a device, configuration or
    string descriptor the miner has is sent, cut to the length, in packets
    ended so that the host recognises the end, and what is sent is the beginning
    of a descriptor that is well formed as a host checks it (a configuration
    splits by its length bytes into descriptors whose total length, interfaces
    and endpoints are those announced); any other, and never a device or
    configuration descriptor or one of the first three strings, is refused
    with a stall.  The request terminates and records itself, and no other
    variable changes. *)
Theorem descriptors_read k fuel hdr (s : st Globals) :
  let r := request_of hdr in
  let t := u8 (Z.shiftr (wValue r) 8) in
  let n := u8 (Z.land (wValue r) 0xFF) in
  setup_packet hdr (hist s) -> bRequest r = REQ_GetDescriptor -> bmRequestType r = 0x80 \/ bmRequestType r = 0x81 ->
  wValue r <> 0x3DC -> is_u16 (wLength r) ->
  (forall tr, acknowledged tr -> control_reader k (wLength r) (tr ++ hist s)) -> (125 * S k + k < fuel)%nat ->
  wp_ False (USB_Device_ProcessControlRequest fuel) (fun _ s' =>
    glob s' = inj (set_ControlRequest r (proj (glob s))) (glob s)
    /\ match descriptor t n with
       | Some bs => well_formed t bs = true
           /\ data_stage_done (wLength r) (take (Z.to_nat (wLength r)) bs) (hist s) (hist s')
       | None => t <> DTYPE_Device /\ t <> DTYPE_Configuration /\ (t = DTYPE_String -> 3 <= n)
           /\ refused (hist s) (hist s')
       end) s.
Proof.
  intros r t n Hset Hb Ht Hser HN Hhost Hfuel.
  pose proof (GetDescriptor_table (wValue r) (u8 (wIndex r))) as Htab. fold t n in Htab. cbv zeta in Htab.
  destruct (descriptor t n) as [bs|].
  - destruct Htab as (mem & Hcb & Hbs & H8 & Hle & Hsz & Hwf).
    assert (Htake : take (Z.to_nat (Z.min (zlen bs) (wLength r))) mem = take (Z.to_nat (wLength r)) bs).
    { rewrite <- Hbs at 2. rewrite take_take. f_equal. unfold zlen. lia. }
    eapply wp_conseq; [apply (get_descriptor_spec k fuel hdr mem (zlen bs)); try done|exact (fun x : False => x)|].
    + by apply miner_ignores.
    + unfold NO_DESCRIPTOR. lia.
    + unfold is_u16. lia.
    + fold r. nia.
    + fold r. rewrite Htake. by intros [] s' [Hd Hg].
  - destruct Htab as (Hcb & Ht1 & Ht2 & Ht3).
    eapply wp_conseq; [apply (unsupported_request_stalled hdr fuel s Hset)|exact (fun x : False => x)|].
    + by apply miner_ignores.
    + fold r. unfold supported. rewrite Hb. change (CALLBACK_USB_GetDescriptor _ _) with (GetDescriptor (wValue r) (u8 (wIndex r))).
      rewrite Hcb, (proj2 (Z.eqb_neq _ _) Hser). by destruct Ht as [-> | ->].
    + by intros [] s' [Hg Hr].
Qed.
End enumeration.

(** ** Example

    The host asks for the first nine bytes of the configuration, and for a
    string the miner does not have. *)

Lemma descriptors_read_witness :
  let ask v := [0x80; 6; v; 2; 0; 0; 9; 0] in
  let none := [0x80; 6; 7; 3; 9; 4; 255; 0] in
  wp_ False (@USB_Device_ProcessControlRequest Globals (setup_host (ask 0) 9) _ (@firmware_device (setup_host (ask 0) 9)) 200)
    (fun _ s' => data_stage_done 9 [9; 2; 62; 0; 2; 1; 0; 0xC0; 50] [] (hist s')) (St [] initial_globals)
  /\ wp_ False (@USB_Device_ProcessControlRequest Globals (setup_host none 255) _ (@firmware_device (setup_host none 255)) 200)
    (fun _ s' => refused [] (hist s')) (St [] initial_globals).
Proof.
  intros ask none. split.
  - refine (wp_conseq False _ _ _ _ _ (@descriptors_read (setup_host (ask 0) 9) 0 200 (ask 0) (St [] initial_globals)
      _ _ _ _ _ _ _) (fun x => x) _).
    + apply setup_host_packet; [done|]. apply (bool_decide_unpack _). vm_compute. exact I.
    + reflexivity.
    + by left.
    + vm_compute. discriminate.
    + apply (bool_decide_unpack _). vm_compute. exact I.
    + intros tr Ha. by apply (setup_host_reader (ask 0) 9).
    + lia.
    + intros [] s' [_ [_ Hd]]. exact Hd.
  - refine (wp_conseq False _ _ _ _ _ (@descriptors_read (setup_host none 255) 0 200 none (St [] initial_globals)
      _ _ _ _ _ _ _) (fun x => x) _).
    + apply setup_host_packet; [done|]. apply (bool_decide_unpack _). vm_compute. exact I.
    + reflexivity.
    + by left.
    + vm_compute. discriminate.
    + apply (bool_decide_unpack _). vm_compute. exact I.
    + intros tr Ha. by apply (setup_host_reader none 255).
    + lia.
    + intros [] s' [_ (_ & _ & _ & Hr)]. exact Hr.
Defined.
