(* ===== verification/PowerOn.v ===== *)
(** * The miner from power-on

    [main] of AvalonBTC up to its loop, from whatever the registers hold: what
    the theorems about commands, reports and the bus suppose of the state is
    what it establishes. *)

From S2P Require Import Prelude Machine RingBuffer Timer Avalon Precalc Endpoint EndpointStream Cdc Leds App UsbController StdReq Descriptors UsbInterrupt Startup Firmware.

Section start.
Context `{Hardware} `{!Latch UDIEN} `{!Latch UDCON} `{!Latch USBCON} `{!Latch REGCR}.
Context (k fuel : nat) (Hpll : pll_locks k) (Hfuel : (k < fuel)%nat) (Hf13 : (13 < fuel)%nat).

(** Ready to work: empty queues of their sizes, no work, no report, the ASIC's
    interrupt and the interrupt flag on, the bus interface ready. *)
Record miner_ready (s : st Globals) : Prop := {
  mr_app : app_ok (g_app (glob s));
  mr_in : rb_contents (buffer_ (g_app (glob s))) = [] /\ rb_Size (buffer_ (g_app (glob s))) = 128;
  mr_out : rb_contents (USARTtoUSB_Buffer (g_app (glob s))) = []
    /\ rb_Size (USARTtoUSB_Buffer (g_app (glob s))) = 256;
  mr_state : app_state (g_app (glob s)) = mkState STATE_RESET 0 0;
  mr_work : worktask (g_app (glob s)) = mkWorkUnit (repeat 0 8) (repeat 0 3) (repeat 0 6);
  mr_timer : work_timer (g_app (glob s)) = mkTimer 0 0 0;
  mr_clock : time_ (g_clock (glob s)) = 0;
  mr_report : report_valid_ (g_avalon (glob s)) = 0;
  mr_spi : Z.testbit (latch_value SPCR (hist s)) SPIE = true;
  mr_flag : Z.testbit (latch_value SREG (hist s)) 7 = true;
  mr_held : Latch PORTD -> Z.testbit (latch_value PORTD (hist s)) PD6 = false;
  mr_usb : usb_ready s;
}.

(** The bus interface is ready still when its registers have not been written. *)
Definition usb_regs : list reg := [REGCR; USBCON; UDCON; UDIEN; GPIOR0].

Lemma usb_ready_same (s s' : st Globals) :
  (forall r, r ∈ usb_regs -> last_wr r (hist s') = last_wr r (hist s)) ->
  usb_ready s -> usb_ready s'.
Proof.
  intros Hr [? ? ? ? ? ?].
  assert (Hl : forall r, r ∈ usb_regs -> latch_value r (hist s') = latch_value r (hist s))
    by (intros r Hin; unfold latch_value; by rewrite Hr).
  split; rewrite ?Hl, ?Hr by (unfold usb_regs; repeat constructor); done.
Qed.

Lemma zeroed_queue p (n : nat) :
  0 < Z.of_nat n < 2 ^ 16 -> rb_ok (RingBuffer_InitBuffer p (repeat 0 n) (Z.of_nat n)).
Proof.
  intros Hn. apply rb_init_ok; [done|unfold zlen; by rewrite repeat_length|].
  apply List.Forall_forall. by intros x ->%repeat_spec.
Qed.

(** Before the bus interface is initialised no variable changes but the clock. *)
Lemma main_init_spec p_out p_in t h :
  wp_ False (main_init fuel p_out p_in t) (fun t' s' =>
    miner_ready s' /\ t' = mkTimer 1 (time_ (g_clock (glob s'))) 10) (St h initial_globals).
Proof.
  unfold main_init, SetupHardware, wdt_disable, clock_prescale_set, clockInit, LEDs_Init.
  abs_run.
  lazymatch goal with |- wp_ _ _ _ ?s => wp_spec (USB_Init_spec k fuel Hpll Hfuel Hf13 s) end.
  intros [] [hu gu] [Hu Hg]. cbn [glob] in Hg. subst gu.
  unfold appInit, app_setState, asicInit, asicStop, clear_report, LEDs_SetAllLEDs,
    LEDs_ChangeLEDs, timerSet, clockGetTime.
  abs_run.
  split; [|reflexivity]. split; cbn [hist].
  - split; [exact (zeroed_queue p_out 256 ltac:(lia))|exact (zeroed_queue p_in 128 ltac:(lia))|done].
  - done.
  - done.
  - done.
  - done.
  - done.
  - done.
  - done.
  - latch_chain. by reg_bits.
  - latch_chain. by reg_bits.
  - intros HL. latch_chain. by reg_bits.
  - refine (usb_ready_same _ _ _ Hu). intros r Hr. unfold usb_regs in Hr. cbn [hist].
    repeat (apply elem_of_cons in Hr as [->|Hr]; [by latch_chain|]). by apply elem_of_nil in Hr.
Qed.

(** C24. [main] up to its loop terminates, whatever the registers held before, on
    a board whose PLL locks, and leaves the miner ready: both queues empty at
    their sizes, no work, no timer, no report, state 'R', the ASIC held in
    reset, the ASIC's interrupt and the global interrupt flag on, the bus
    interface attached and listening; and its local timer runs for 10 ms. *)
Theorem main_init_ready p_out p_in t h :
  wp_ False (main_init fuel p_out p_in t) (fun t' s' =>
    miner_ready s' /\ t' = mkTimer 1 (time_ (g_clock (glob s'))) 10) (St h initial_globals).
Proof. exact (main_init_spec p_out p_in t h). Qed.
End start.

Lemma main_init_ready_witness :
  wp_ False (@main_init locked_pll 20 0x100 0x200 (mkTimer 7 7 7))
    (fun _ s' => @miner_ready locked_pll s' /\ state (app_state (g_app (glob s'))) = 0x52)
    (St [] initial_globals).
Proof.
  refine (wp_conseq False _ _ _ _ _
    (@main_init_ready locked_pll (locked_pll_latch UDIEN ltac:(discriminate))
      (locked_pll_latch UDCON ltac:(discriminate)) (locked_pll_latch USBCON ltac:(discriminate))
      (locked_pll_latch REGCR ltac:(discriminate)) 0 20 _ _ _ _ _ _ _) (fun x => x) _).
  - intros h _ _. reflexivity.
  - lia.
  - lia.
  - intros t' s' [Hr _]. split; [exact Hr|]. by rewrite (mr_state _ Hr).
Defined.
