(* ===== verification/MinerInvariant.v ===== *)
(** * The miner's invariant

    What holds of the miner's variables in every state the program can reach
    from power-on, whatever the host and the hardware do: the ring buffers'
    pointers stay inside their arrays, even when a buffer overflows, the work
    keeps its shape, and a miner at work has its timer running.  So no work
    outlives its 16 seconds by more than a pass of the main loop. *)

From stdpp Require Import relations.
From S2P Require Import Prelude Machine RingBuffer Timer Avalon Precalc Endpoint EndpointStream Cdc Leds App UsbController StdReq Descriptors UsbInterrupt Startup Firmware FirmwareFrames PowerOn.

(** A ring buffer over an array of [n] bytes whose accesses stay in the array.
    Unlike [rb_ok] it survives an insertion into a full buffer and a removal
    from an empty one. *)
Record rb_safe (n : nat) (b : RingBuffer_t) : Prop := {
  rs_size : rb_Size b = Z.of_nat n;
  rs_data : length (rb_data b) = n;
  rs_end : rb_End b = rb_Start b + Z.of_nat n;
  rs_in : rb_Start b <= rb_In b < rb_End b;
  rs_out : rb_Start b <= rb_Out b < rb_End b;
  rs_count : 0 <= rb_Count b < 2 ^ 16;
  rs_bytes : Forall is_u8 (rb_data b);
}.

Lemma rb_safe_insert n b x : rb_safe n b -> rb_safe n (RingBuffer_Insert b x).
Proof.
  intros []. split; cbn; try done.
  - by rewrite length_insert.
  - destruct (Z.eqb_spec (rb_In b + 1) (rb_End b)); lia.
  - apply u16_range.
  - by apply Forall_insert; [|auto with width].
Qed.

Lemma rb_safe_remove n b : rb_safe n b -> rb_safe n (snd (RingBuffer_Remove b)).
Proof.
  intros []. split; cbn; try done.
  - destruct (Z.eqb_spec (rb_Out b + 1) (rb_End b)); lia.
  - apply u16_range.
Qed.

(** Every access to the array is in bounds. *)
Lemma rb_safe_access n b :
  rb_safe n b ->
  (Z.to_nat (rb_In b - rb_Start b) < length (rb_data b))%nat
  /\ (Z.to_nat (rb_Out b - rb_Start b) < length (rb_data b))%nat.
Proof. intros []. lia. Qed.

Lemma rb_ok_safe n b : rb_ok b -> rb_Size b = Z.of_nat n -> rb_safe n b.
Proof.
  intros Hok Hn. pose proof (rb_pos_range b (rb_Count b) Hok). destruct Hok.
  unfold zlen in *. split; try done; lia.
Qed.

(** The invariant at every statement of the program. *)
Record miner_safe (g : Globals) : Prop := {
  ms_in : rb_safe 128 (buffer_ (g_app g));
  ms_out : rb_safe 256 (USARTtoUSB_Buffer (g_app g));
  ms_midstate : length (midstate (worktask (g_app g))) = 8%nat;
  ms_data : length (data (worktask (g_app g))) = 3%nat;
  ms_precalc : length (precalc (worktask (g_app g))) = 6%nat;
  ms_clock : is_u32 (time_ (g_clock g));
  ms_timer : timer_wf (work_timer (g_app g));
}.

(** The invariant between the phases of the main loop: at work, the timer runs. *)
Definition watched (g : Globals) : Prop :=
  state (app_state (g_app g)) = STATE_WORKING ->
  active (work_timer (g_app g)) = 1 /\ interval (work_timer (g_app g)) = 16000.

Definition miner_inv (g : Globals) : Prop := miner_safe g /\ watched g.

(** Not at work. *)
Definition at_rest (g : Globals) : Prop := state (app_state (g_app g)) = STATE_RESET.

Lemma at_rest_watched g : at_rest g -> watched g.
Proof. unfold at_rest, watched. intros ->. discriminate. Qed.

(** ** Relations and postconditions of whole functions *)

Definition keeps (P : Globals -> Prop) : relation Globals := fun g g' => P g -> P g'.
#[export] Instance keeps_preorder P : PreOrder (keeps P).
Proof. split; [intros g Hg; exact Hg|]. intros g1 g2 g3 H1 H2 H3. by apply H2, H1. Qed.

Definition no_reg (r : reg) : bool := false.
Abbreviation Keeps P := (Runs (frame no_reg (keeps P))).

Lemma keeps_run `{Hardware} P {A} (m : M Globals A) s a s' :
  Keeps P m -> P (glob s) -> m s = Some (a, s') -> P (glob s').
Proof. intros Hm HP E. exact (proj2 (Hm _ _ _ E) HP). Qed.

(** A direct proof for a function whose result is known. *)
Lemma keeps_eq P {A} (m : M Globals A) (r : st Globals -> A * st Globals) :
  (forall s, m s = Some (r s)) ->
  (forall s, exists tr, hist (snd (r s)) = tr ++ hist s) ->
  (forall s, P (glob s) -> P (glob (snd (r s)))) -> Keeps P m.
Proof.
  intros Hm Hh HP s a s' E. rewrite Hm in E. injection E as E.
  assert (s' = snd (r s)) as -> by by rewrite E.
  split; [|exact (HP s)]. destruct (Hh s) as [tr Htr]. exists tr. split; [exact Htr|done].
Qed.

#[export] Instance keeps_usb P `{!UsbLayer (keeps P)} {A} (m : M Globals A) :
  Runs (frame is_spcr (keeps P)) m -> Keeps P m.
Proof. intros Hm s a s' E. destruct (Hm s a s' E) as [(tr & Hh & _) HS]. split; [by exists tr|exact HS]. Qed.

(** [m] ends in [P]. *)
Definition Ends (P : Globals -> Prop) {A} (m : M Globals A) : Prop :=
  forall s a s', m s = Some (a, s') -> P (glob s').

Lemma ends_tail P {A B} (m : M Globals A) (f : A -> M Globals B) :
  (forall a, Ends P (f a)) -> Ends P (m ≫= f).
Proof.
  intros Hf s b s'. unfold mbind, M_bind. destruct (m s) as [[a s1]|]; [|done]. apply Hf.
Qed.

Lemma ends_then P {A B} (m : M Globals A) (f : A -> M Globals B) :
  Ends P m -> (forall a, Keeps P (f a)) -> Ends P (m ≫= f).
Proof.
  intros Hm Hf s b s'. unfold mbind, M_bind. destruct (m s) as [[a s1]|] eqn:E; [|done].
  intros Hb. exact (proj2 (Hf a _ _ _ Hb) (Hm _ _ _ E)).
Qed.

Lemma ends_mono (P Q : Globals -> Prop) {A} (m : M Globals A) :
  (forall g, P g -> Q g) -> Ends P m -> Ends Q m.
Proof. intros HPQ Hm s a s' E. exact (HPQ _ (Hm _ _ _ E)). Qed.

(** Predicates on the application and the clock alone. *)
Class AppOnly (P : Globals -> Prop) : Prop :=
  app_only g g' : g_app g = g_app g' -> g_clock g = g_clock g' -> P g -> P g'.

#[export] Instance watched_app_only : AppOnly watched.
Proof. intros g g' Ha _. unfold watched. by rewrite Ha. Qed.
#[export] Instance at_rest_app_only : AppOnly at_rest.
Proof. intros g g' Ha _. unfold at_rest. by rewrite Ha. Qed.
#[export] Instance miner_safe_app_only : AppOnly miner_safe.
Proof. intros g g' Ha Hc []. split; rewrite <- ?Ha, <- ?Hc; done. Qed.

#[export] Instance app_only_usb P `{!AppOnly P} : UsbLayer (keeps P).
Proof. split; [apply _|intros g u; exact (app_only (P:=P) g (inj u g) eq_refl eq_refl)..]. Qed.

Section app_only.
Context `{Hardware} (P : Globals -> Prop) `{!AppOnly P}.

Lemma app_only_avalon g (f : AvalonState -> AvalonState) : keeps P g (inj (f (proj g)) g).
Proof. exact (app_only (P:=P) g (inj (f (proj g)) g) eq_refl eq_refl). Qed.

#[export] Instance keeps_asicReset : Keeps P asicReset := asicReset_runs _ _ app_only_avalon eq_refl.
#[export] Instance keeps_asicResetSpi : Keeps P asicResetSpi :=
  asicResetSpi_runs _ _ app_only_avalon eq_refl.
#[export] Instance keeps_asicStop : Keeps P asicStop := asicStop_runs _ _ app_only_avalon eq_refl.
#[export] Instance keeps_asicSend ws n : Keeps P (asicSend ws n) := asicSend_runs _ _ eq_refl ws n.
#[export] Instance keeps_asicIdle : Keeps P asicIdle := asicIdle_runs _ _ eq_refl.
#[export] Instance keeps_pushWork w : Keeps P (pushWork w).
Proof. unfold pushWork. runs_go. Qed.
#[export] Instance keeps_spi fuel : Keeps P (SPI_STC_vect fuel).
Proof. unfold SPI_STC_vect, spi_poll. runs_go; exact (app_only_avalon _ (fun _ => _)). Qed.
#[export] Instance keeps_asicGetNonce : Keeps P asicGetNonce.
Proof. unfold asicGetNonce, clear_report. runs_go; exact (app_only_avalon _ (fun _ => _)). Qed.
End app_only.

(** ** Safety, statement by statement *)

Lemma bytes_words_length n bs : length (bytes_words n bs) = n.
Proof. revert bs. induction n as [|n IH]; intros bs; cbn; [done|]. by rewrite IH. Qed.

Lemma safe_out g b :
  rb_safe 256 b -> miner_safe g -> miner_safe (set_app (set_out b (g_app g)) g).
Proof. intros Hb []. by split. Qed.
Lemma safe_in g b :
  rb_safe 128 b -> miner_safe g -> miner_safe (set_app (set_in b (g_app g)) g).
Proof. intros Hb []. by split. Qed.
Lemma safe_timer g t :
  timer_wf t -> miner_safe g -> miner_safe (set_app (set_timer t (g_app g)) g).
Proof. intros Ht []. by split. Qed.

Lemma keeps_safe_out g x :
  keeps miner_safe g (inj (set_out (RingBuffer_Insert (USARTtoUSB_Buffer (proj g)) x) (proj g)) g).
Proof. intros Hs. apply safe_out; [apply rb_safe_insert, ms_out|]; done. Qed.
Lemma keeps_safe_in g x :
  keeps miner_safe g (inj (set_in (RingBuffer_Insert (buffer_ (proj g)) x) (proj g)) g).
Proof. intros Hs. apply safe_in; [apply rb_safe_insert, ms_in|]; done. Qed.
Lemma keeps_safe_sent g :
  keeps miner_safe g
    (inj (set_out (snd (RingBuffer_Remove (USARTtoUSB_Buffer (proj g)))) (proj g)) g).
Proof. intros Hs. apply safe_out; [apply rb_safe_remove, ms_out|]; done. Qed.
Lemma keeps_safe_state g st : keeps miner_safe g (inj (set_state st (proj g)) g).
Proof. intros []. by split. Qed.
Lemma keeps_safe_work g ms ds :
  keeps miner_safe g (inj (set_work (mkWorkUnit (bytes_words 8 ms) (bytes_words 3 ds)
    (precalc (worktask (proj g)))) (proj g)) g).
Proof. intros []. split; cbn; try done; apply bytes_words_length. Qed.
Lemma keeps_safe_precalc g :
  keeps miner_safe g (inj (set_work (mkWorkUnit (midstate (worktask (proj g)))
    (data (worktask (proj g))) (asicPrecalc (midstate (worktask (proj g)))
      (data (worktask (proj g))) (precalc (worktask (proj g))))) (proj g)) g).
Proof.
  intros []. split; cbn [inj proj Has_app set_app g_app g_clock set_work worktask midstate data
    precalc buffer_ USARTtoUSB_Buffer work_timer]; try assumption. by rewrite asicPrecalc_length.
Qed.

Ltac safe_go := repeat first [ runs_step | apply _ | apply keeps_safe_out | apply keeps_safe_in
  | apply keeps_safe_sent | apply keeps_safe_state | apply keeps_safe_work | apply keeps_safe_precalc ].

(** Functions are recognised by name. *)
#[local] Typeclasses Opaque buffer_remove buffer_removes sendCmdReply reply_state cmd_work
  serialProcess main_receive main_drain main_transmit appService service_report service_timeout
  app_timerSet app_timerStop app_timerExpired pushWork TIMER0_COMPA_vect SPI_STC_vect.

Section safe.
Context `{Hardware}.

Lemma app_timerSet_run n s :
  app_timerSet n s = Some (tt, St (atomic_hist (hist s)) (set_app (set_timer
    (mkTimer 1 (time_ (g_clock (glob s))) (u32 n)) (g_app (glob s))) (glob s))).
Proof. by destruct s as [h []]. Qed.

Lemma app_timerExpired_run s :
  let r := timer_check (time_ (g_clock (glob s))) (work_timer (g_app (glob s))) in
  app_timerExpired s = Some (fst r, St (atomic_hist (hist s))
    (set_app (set_timer (snd r) (g_app (glob s))) (glob s))).
Proof. by destruct s as [h []]. Qed.

Lemma atomic_grows h : exists tr, atomic_hist h = tr ++ h.
Proof. destruct (atomic_hist_app h) as (tr & Htr & _). by exists tr. Qed.

Lemma timer_check_wf now t : timer_wf t -> timer_wf (snd (timer_check now t)).
Proof. intros []. unfold timer_check. bool_cases; by split. Qed.

#[export] Instance safe_timerSet n : Keeps miner_safe (app_timerSet n).
Proof.
  eapply keeps_eq; [intros s; apply app_timerSet_run|intros s; apply atomic_grows|].
  intros s Hs. apply safe_timer; [|done]. split; [apply Hs|apply u32_range].
Qed.
#[export] Instance safe_timerExpired : Keeps miner_safe app_timerExpired.
Proof.
  eapply keeps_eq; [intros s; apply app_timerExpired_run|intros s; apply atomic_grows|].
  intros s Hs. apply safe_timer; [|done]. apply timer_check_wf, Hs.
Qed.
#[export] Instance safe_timerStop : Keeps miner_safe app_timerStop.
Proof.
  eapply (keeps_eq _ _ (fun s => (tt, St (hist s) (set_app (set_timer
    (mkTimer 0 (start (work_timer (g_app (glob s)))) (interval (work_timer (g_app (glob s)))))
    (g_app (glob s))) (glob s))))).
  - by intros [h []].
  - intros s. by exists [].
  - intros s Hs. apply safe_timer; [|done]. destruct (ms_timer _ Hs). by split.
Qed.
#[export] Instance safe_remove : Keeps miner_safe buffer_remove.
Proof.
  eapply keeps_eq; [intros s; apply buffer_remove_run|intros s; by exists []|].
  intros s Hs. apply safe_in; [apply rb_safe_remove, Hs|done].
Qed.
#[export] Instance safe_removes n : Keeps miner_safe (buffer_removes n).
Proof. induction n as [|n IH]; cbn [buffer_removes]; safe_go. Qed.
#[export] Instance safe_reply c l : Keeps miner_safe (sendCmdReply c l).
Proof. unfold sendCmdReply, usbWrite. safe_go. Qed.
#[export] Instance safe_reply_state c : Keeps miner_safe (reply_state c).
Proof. unfold reply_state. safe_go. Qed.
#[export] Instance safe_work cmd : Keeps miner_safe (cmd_work cmd).
Proof. unfold cmd_work, work_tail, app_setState, app_setNonce. safe_go. Qed.
#[export] Instance safe_serial : Keeps miner_safe serialProcess.
Proof. unfold serialProcess, app_setState, LEDs_ToggleLEDs. safe_go. Qed.
#[export] Instance safe_receive fuel : Keeps miner_safe (main_receive fuel).
Proof. unfold main_receive, appUsbDataReceived. safe_go. Qed.
#[export] Instance safe_drain fuel n : Keeps miner_safe (main_drain fuel n).
Proof. induction n as [|n IH]; cbn [main_drain]; safe_go. Qed.
#[export] Instance safe_transmit fuel t : Keeps miner_safe (main_transmit fuel t).
Proof. unfold main_transmit, timerExpired, timerRestart, clockGetTime. safe_go. Qed.
#[export] Instance safe_report : Keeps miner_safe service_report.
Proof. unfold service_report, app_setState, app_setNonce. safe_go. Qed.
#[export] Instance safe_timeout : Keeps miner_safe service_timeout.
Proof. unfold service_timeout, app_setState, app_setNonce. safe_go. Qed.
#[export] Instance safe_service : Keeps miner_safe appService.
Proof. unfold appService, asicReportValid. safe_go. Qed.
#[export] Instance safe_tick : Keeps miner_safe TIMER0_COMPA_vect.
Proof. unfold TIMER0_COMPA_vect. runs_go. intros []. split; cbn; try done. apply u32_range. Qed.
End safe.

(** ** The timer of the work *)

(** Changes of the application that touch neither the state nor the timer. *)
Definition same_watch (g g' : Globals) : Prop :=
  app_state (g_app g') = app_state (g_app g) /\ work_timer (g_app g') = work_timer (g_app g).

Lemma watched_same g g' : same_watch g g' -> keeps watched g g'.
Proof. intros [Hs Ht]. unfold keeps, watched. by rewrite Hs, Ht. Qed.
Lemma at_rest_same g g' : same_watch g g' -> keeps at_rest g g'.
Proof. intros [Hs _]. unfold keeps, at_rest. by rewrite Hs. Qed.
Lemma watched_reset g (f : State -> State) :
  (forall st, state (f st) = STATE_RESET) ->
  keeps watched g (inj (set_state (f (app_state (proj g))) (proj g)) g).
Proof. intros Hf _. apply at_rest_watched. apply Hf. Qed.

Class Unwatched (P : Globals -> Prop) := {
  uw_app :: AppOnly P;
  uw_same g g' : same_watch g g' -> keeps P g g';
}.
#[export] Instance unwatched_watched : Unwatched watched := {| uw_same := watched_same |}.
#[export] Instance unwatched_rest : Unwatched at_rest := {| uw_same := at_rest_same |}.

Ltac watch_go := repeat first [ runs_step | apply _ | (apply uw_same; by split) ].

Section unwatched.
Context `{Hardware} (P : Globals -> Prop) `{!Unwatched P}.

#[export] Instance watch_reply c l : Keeps P (sendCmdReply c l).
Proof. unfold sendCmdReply, usbWrite. watch_go. Qed.
#[export] Instance watch_reply_state c : Keeps P (reply_state c).
Proof. unfold reply_state. watch_go. Qed.
#[export] Instance watch_remove : Keeps P buffer_remove.
Proof. unfold buffer_remove. watch_go. Qed.
#[export] Instance watch_drain fuel n : Keeps P (main_drain fuel n).
Proof. induction n as [|n IH]; cbn [main_drain]; watch_go. Qed.
#[export] Instance watch_transmit fuel t : Keeps P (main_transmit fuel t).
Proof. unfold main_transmit, timerExpired, timerRestart, clockGetTime. watch_go. Qed.
#[export] Instance watch_tick : Keeps P TIMER0_COMPA_vect.
Proof. unfold TIMER0_COMPA_vect. watch_go. Qed.
End unwatched.

Section watched.
Context `{Hardware}.

(** A work command starts the timer, whatever it finds. *)
Lemma work_starts_timer cmd : Ends watched (cmd_work cmd).
Proof.
  unfold cmd_work, work_tail. do 11 (apply ends_tail; intros ?). apply ends_then; [|intros; apply _].
  intros s [] s' E. rewrite app_timerSet_run in E. injection E as <-. intros _. by split.
Qed.

#[export] Instance watched_work cmd : Keeps watched (cmd_work cmd).
Proof.
  intros s a s' E. split; [exact (proj1 (safe_work cmd s a s' E))|]. intros _. exact (work_starts_timer cmd s a s' E).
Qed.

#[export] Instance watched_serial : Keeps watched serialProcess.
Proof.
  unfold serialProcess, app_setState, LEDs_ToggleLEDs.
  repeat first [ runs_step | apply _ ].
  all: by apply (watched_reset _ (fun st => mkState STATE_RESET (nonce_valid st) (nonce st))).
Qed.

#[export] Instance watched_receive fuel : Keeps watched (main_receive fuel).
Proof. unfold main_receive, appUsbDataReceived. watch_go. Qed.

(** A report and a time-out end the work. *)
Lemma report_ends_work : Ends at_rest service_report.
Proof.
  unfold service_report. do 4 (apply ends_tail; intros ?). apply ends_then.
  - intros s [] s' E. injection E as <-. reflexivity.
  - intros []. unfold app_setNonce. watch_go. intros Hr. exact Hr.
Qed.
Lemma timeout_ends_work : Ends at_rest service_timeout.
Proof.
  unfold service_timeout. do 2 (apply ends_tail; intros ?). apply ends_then.
  - intros s [] s' E. injection E as <-. reflexivity.
  - intros []. unfold app_setNonce. watch_go. intros Hr. exact Hr.
Qed.
End watched.

(** ** The program *)

Section program.
Context `{Hardware}.

(** How old the work is, as the wrapping clock tells. *)
Definition work_age (g : Globals) : Z := u32 (time_ (g_clock g) - start (work_timer (g_app g))).

(** A timer that has not fired is not overdue. *)
Lemma unfired_age now t :
  timer_wf t -> is_u32 now -> active t = 1 -> fst (timer_check now t) = false ->
  u32 (now - start t) <= interval t.
Proof.
  intros Ht Hn Ha. rewrite timer_check_spec by (done || lia).
  destruct (start t <? now); [intros ?%Z.ltb_ge|intros ?%Z.leb_gt]; lia.
Qed.

Lemma asicReportValid_run s :
  asicReportValid s = Some (u8 (report_valid_ (g_avalon (glob s))), s).
Proof. by destruct s. Qed.

Lemma report_inv b s s' :
  miner_inv (glob s) -> when b service_report s = Some (tt, s') -> miner_inv (glob s').
Proof.
  intros [Hs Hw] E. destruct b; rewrite ?when_true, ?when_false in E; [|by injection E as <-].
  split; [exact (keeps_run miner_safe service_report s tt s' safe_report Hs E)|].
  exact (at_rest_watched _ (report_ends_work s tt s' E)).
Qed.

(** After a pass of [appService]. *)
Definition fresh (g : Globals) : Prop :=
  state (app_state (g_app g)) = STATE_WORKING -> work_age g <= 16000.

Lemma expiry_spec s s' :
  miner_inv (glob s) -> (e ← app_timerExpired; when e service_timeout) s = Some (tt, s') ->
  watched (glob s') /\ fresh (glob s').
Proof.
  intros [Hs Hw]. unfold mbind, M_bind. rewrite app_timerExpired_run.
  destruct (fst (timer_check _ _)) eqn:Ef; rewrite ?when_true, ?when_false.
  - intros E. pose proof (timeout_ends_work _ _ _ E) as Hr. split; [by apply at_rest_watched|].
    unfold fresh. rewrite Hr. discriminate.
  - intros [= <-]. rewrite timer_one_shot_idle by done. unfold watched, fresh, work_age.
    cbn [glob set_app set_timer g_app g_clock app_state work_timer].
    split; [exact Hw|]. intros Hwork. destruct (Hw Hwork) as [Ha <-].
    exact (unfired_age _ _ (ms_timer _ Hs) (ms_clock _ Hs) Ha Ef).
Qed.

Lemma service_spec s s' :
  miner_inv (glob s) -> appService s = Some (tt, s') -> watched (glob s') /\ fresh (glob s').
Proof.
  intros Hi. unfold appService. unfold mbind at 1, M_bind at 1. rewrite asicReportValid_run.
  unfold mbind at 1, M_bind at 1.
  destruct (when _ service_report s) as [[[] s1]|] eqn:E1; [|done].
  apply expiry_spec. by eapply report_inv.
Qed.

Lemma appService_total : Total appService.
Proof.
  unfold appService, service_report, service_timeout, asicReportValid, asicGetNonce, app_timerStop,
    timerStop, app_setState, app_setNonce, reply_state, sendCmdReply, usbWrite, app_timerExpired,
    timerExpired, clockGetTime, clear_report. total_go.
Qed.

Lemma step_inv fuel x y :
  fw_step fuel x y -> miner_inv (glob (fw_st x)) -> miner_inv (glob (fw_st y)).
Proof.
  intros Hstep Hi. pose proof Hi as [Hs Hw]. destruct Hstep; cbn [fw_st] in *.
  3: { split; [exact (keeps_run miner_safe appService _ _ _ safe_service Hs H0)|].
       by apply (service_spec s s'). }
  all: match goal with E : ?m ?s = Some _ |- _ =>
    split; [exact (keeps_run miner_safe m s _ _ _ Hs E)|exact (keeps_run watched m s _ _ _ Hw E)]
  end.
Qed.
End program.

Section from_power_on.
Context `{Hardware} `{!Latch UDIEN} `{!Latch UDCON} `{!Latch USBCON} `{!Latch REGCR}.
Context (k fuel : nat) (Hpll : pll_locks k) (Hfuel : (k < fuel)%nat) (Hf13 : (13 < fuel)%nat).

Lemma ready_inv s : miner_ready s -> miner_inv (glob s).
Proof.
  intros Hr. split.
  - destruct (mr_app s Hr), (mr_in s Hr), (mr_out s Hr).

    split; rewrite ?(mr_work s Hr), ?(mr_timer s Hr), ?(mr_clock s Hr);
      first [reflexivity|by apply rb_ok_safe|split; cbn|idtac]; unfold is_u32; lia.
  - apply at_rest_watched. unfold at_rest. by rewrite (mr_state s Hr).
Qed.

(** C4. From power-on the miner reaches its main loop, and in every state any
    sequence of phases of the loop and interrupts leads to, whatever the host
    sends, the ASIC answers and the registers read, its memory is safe: the
    ring buffers' pointers are inside their arrays of 128 and 256 bytes (so
    every access is, even after an overflow), the work keeps its 8, 3 and 6
    words, and a miner at work has its timer of 16000 ms running. *)
Theorem miner_invariant p_out p_in t0 h :
  exists t s, main_init fuel p_out p_in t0 (St h initial_globals) = Some (t, s)
    /\ forall y, rtc (fw_step fuel) (mkFw Receive t s) y -> miner_inv (glob (fw_st y)).
Proof.
  destruct (wp_exists _ _ _ (main_init_spec k fuel Hpll Hfuel Hf13 p_out p_in t0 h))
    as (t & s & E & Hr & _).
  exists t, s. split; [exact E|]. apply ready_inv in Hr.
  intros y Hy. remember (mkFw Receive t s) as x eqn:Ex.
  assert (Hx : miner_inv (glob (fw_st x))) by by subst. clear Ex Hr.
  induction Hy as [|x y z Hstep _ IH]; [done|]. by eapply IH, step_inv.
Qed.

(** C5. No work outlives its time: every pass of [appService] from a reachable
    state terminates, and when it leaves the miner at work the work is at
    most 16000 ticks old, the 32-bit clock possibly wrapping: the first pass
    after 16000 ticks ends the work if no report has. *)
Theorem work_expires s :
  miner_inv (glob s) ->
  wp_ False appService (fun _ s' => miner_inv (glob s')
    /\ (state (app_state (g_app (glob s'))) = STATE_WORKING -> work_age (glob s') <= 16000)) s.
Proof.
  intros Hi. destruct (appService_total s) as [[[] s'] E]. apply (wp_eq _ _ _ _ _ _ E).
  destruct (service_spec s s' Hi E) as [Hw Hf]. split; [|exact Hf].
  split; [|exact Hw]. exact (keeps_run miner_safe appService s tt s' safe_service (proj1 Hi) E).
Qed.
End from_power_on.

Lemma miner_invariant_witness :
  exists t s, @main_init locked_pll 20 0x100 0x200 (mkTimer 7 7 7) (St [] initial_globals) = Some (t, s)
    /\ forall y, rtc (@fw_step locked_pll 20) (mkFw Receive t s) y -> miner_inv (glob (fw_st y)).
Proof.
  refine (@miner_invariant locked_pll (locked_pll_latch UDIEN ltac:(discriminate))
    (locked_pll_latch UDCON ltac:(discriminate)) (locked_pll_latch USBCON ltac:(discriminate))
    (locked_pll_latch REGCR ltac:(discriminate)) 0 20 _ _ _ 0x100 0x200 (mkTimer 7 7 7) []).
  - intros h _ _. reflexivity.
  - lia.
  - lia.
Defined.

(** A miner at work for 16001 ticks, the clock having wrapped. *)
Definition overdue_globals : Globals :=
  mkGlobals (mkAvalon 0 0 0 0) (mkClock 16000) (mkUsb (mkRequest 0 0 0 0 0) 1 false false true)
    VirtualSerial_CDC_Interface
    (mkApp (RingBuffer_InitBuffer 0x100 (repeat 0 256) 256) (RingBuffer_InitBuffer 0x200 (repeat 0 128) 128)
       GOOD_WORK (mkState STATE_WORKING 0 0) (mkTimer 1 0xFFFFFFFF 16000)).

Lemma overdue_inv : miner_inv overdue_globals.
Proof.
  split; [|by intros _]. split; try reflexivity.
  - apply rb_ok_safe; [exact (zeroed_queue 0x200 128 ltac:(lia))|reflexivity].
  - apply rb_ok_safe; [exact (zeroed_queue 0x100 256 ltac:(lia))|reflexivity].
  - cbn. unfold is_u32. lia.
  - by split; cbn; unfold is_u32; lia.
Qed.

Lemma work_expires_witness :
  wp_ False (@appService plain_hardware) (fun _ s' =>
    state (app_state (g_app (glob s'))) = STATE_WORKING -> work_age (glob s') <= 16000)
    (St [] overdue_globals)
  /\ work_age overdue_globals = 16001.
Proof.
  split; [|reflexivity].
  refine (wp_conseq False False _ _ _ _ (@work_expires plain_hardware (St [] overdue_globals) overdue_inv)
    (fun x => x) (fun _ _ Hs => proj2 Hs)).
Defined.
