(* ===== verification/HostLink.v ===== *)
(** * The miner's end of the USB cable

    What a packet from the host does to the miner, and what the miner's queue
    does to the host: the command interpreter and the main loop of AvalonBTC
    over the byte functions of the CDC driver. *)

From S2P Require Import Prelude Machine RingBuffer Timer Avalon Precalc Endpoint EndpointStream Cdc CdcTraffic Leds App UsbController StdReq Descriptors UsbInterrupt Firmware.

(** ** A packet of commands *)

Section packet.
Context `{Hardware}.

(** [pre] of the packet has been queued since [s0]. *)
Definition queued (bs : list Z) (s0 : st Globals) (rest : list Z) (s : st Globals) : Prop :=
  let a := g_app (glob s0) in
  exists pre, bs = pre ++ rest /\ Forall is_u8 pre /\
    glob s = set_app (set_in (fifo_puts (buffer_ a) pre) a) (glob s0).

Lemma queued_all n0 bs fuel (s : st Globals) :
  receiving n0 bs bs s -> (length bs < fuel)%nat ->
  wp_ False (loop fuel (fun _ : unit =>
      received_byte ← CDC_Device_ReceiveByte;
      if 0 <=? received_byte then
        modc (fun a => set_in (RingBuffer_Insert (buffer_ a) received_byte) a) ;; mret (inl tt)
      else mret (inr tt)) tt)
    (fun _ s' => Forall is_u8 bs /\
      glob s' = set_app (set_in (fifo_puts (buffer_ (g_app (glob s))) bs) (g_app (glob s))) (glob s)) s.
Proof.
  intros Hr Hfuel.
  eapply wp_conseq;
    [apply (receive_all n0 bs _ (queued bs s) fuel s bs); [| |exact Hr| |exact Hfuel]|exact (fun x => x)|].
  - intros l s1 s2 (pre & Hpre & HB & Hg) HF. exists pre. by rewrite <- (proj2 HF).
  - intros x l s1 Hx (pre & Hpre & HB & Hg). wp_run. split; [|split; [done|]].
    + exists (pre ++ [x]). split; [by rewrite <- app_assoc|]. split; [by apply Forall_app_2; [|constructor]|].
      cbn [glob]. rewrite Hg. unfold fifo_puts. rewrite fold_left_app. by destruct (glob s) as [? ? ? ? []].
    + cbn [glob]. by destruct (glob s1).
  - exists []. split; [done|]. split; [constructor|]. by destruct (glob s) as [? ? ? ? []].
  - intros [] s' (pre & Hpre & HB & Hg). rewrite app_nil_r in Hpre. by subst pre.
Qed.

(** C6. A packet from the host reaches the interpreter whole: when the main
    loop runs with a packet of the host in the bank of the OUT endpoint and
    room for it in the input queue, every byte is taken, queued behind what
    was waiting, and the interpreter does with the queue exactly what the
    protocol [cmd_spec] says, which is one command per packet. *)
Theorem packet_interpreted n0 bs fuel (s : st Globals) :
  let a := g_app (glob s) in
  receiving n0 bs bs s -> bs <> [] -> (length bs < fuel)%nat ->
  app_ok a -> room 14 a -> length (precalc (worktask a)) = 6%nat ->
  zlen (rb_contents (buffer_ a)) + zlen bs <= rb_Size (buffer_ a) ->
  wp_ False (main_receive fuel) (fun _ s' =>
    let inp := rb_contents (buffer_ a) ++ bs in
    let '(n, o, nst) := cmd_spec inp (app_state a) in
    let a' := g_app (glob s') in
    app_ok a' /\ rb_contents (buffer_ a') = drop n inp
    /\ rb_contents (USARTtoUSB_Buffer a') = rb_contents (USARTtoUSB_Buffer a) ++ o
    /\ app_state a' = nst) s.
Proof.
  intros a Hr Hne Hfuel Hok Hroom Hp Hfit. unfold main_receive.
  wp_call (bytes_received n0 bs bs s Hr Hne). intros n s1 (Hn & Hr1 & _ & Hg1).
  rewrite (proj2 (Z.eqb_neq n 0)) by done. cbn [negb when]. unfold appUsbDataReceived.
  wp_call (queued_all n0 bs fuel s1 Hr1 Hfuel). rewrite <- Hg1. fold a. intros [] s2 [HB Hg2].
  destruct (fifo_puts_spec bs (buffer_ a)) as (Hok2 & Hl2 & _); [exact (ao_in _ Hok)|exact Hfit|].
  cbn [fifo_ok fifo_list RingBuffer_Fifo] in Hok2, Hl2.
  assert (Ha2 : g_app (glob s2) = set_in (fifo_puts (buffer_ a) bs) a) by (by rewrite Hg2).
  assert (Hb : map u8 bs = bs).
  { rewrite <- (map_id bs) at 2. apply map_ext_in. intros x Hx. apply u8_id.
    by apply (proj1 (List.Forall_forall _ _) HB). }
  rewrite Hb in Hl2.
  wp_call (serialProcess_spec s2 ltac:(rewrite Ha2; by destruct Hok) ltac:(by rewrite Ha2) ltac:(by rewrite Ha2)).
  rewrite Ha2. cbn [set_in buffer_ app_state USARTtoUSB_Buffer]. rewrite Hl2.
  destruct (cmd_spec _ _) as [[m o] nst]. intros r s3 (_ & Hok3 & Hin & Hout & _ & Hst).
  apply wp_ret. cbn [set_in buffer_ USARTtoUSB_Buffer] in Hin, Hout. by rewrite Hin, Hl2, Hout.
Qed.
End packet.

(** ** The queue to the host *)

Section transmit.
Context `{Hardware} (k fuel : nat) (Hfp : frame_progress k) (Hwait : (101 * S k < fuel)%nat).

(** From [s] to [s'] the bytes [sent] have left the output queue for the
    bank, and the program's state is otherwise as it was. *)
Definition sent_on (s s' : st Globals) (sent : list Z) : Prop :=
  let a := g_app (glob s) in let a' := g_app (glob s') in
  (exists tr, hist s' = tr ++ hist s /\ rev (writes UEDATX tr) = sent)
  /\ rb_contents (USARTtoUSB_Buffer a) = sent ++ rb_contents (USARTtoUSB_Buffer a')
  /\ rb_ok (USARTtoUSB_Buffer a')
  /\ exists b, glob s' = set_app (set_out b a) (glob s).

Lemma main_drain_sends n : forall s : st Globals,
  let b := USARTtoUSB_Buffer (g_app (glob s)) in
  rb_ok b -> Z.of_nat n <= RingBuffer_GetCount b ->
  wp_ False (main_drain fuel n) (fun _ s' => exists sent, sent_on s s' sent) s.
Proof.
  assert (Hstop : forall s s' : st Globals, rb_ok (USARTtoUSB_Buffer (g_app (glob s))) ->
    glob s' = glob s -> (exists tr, hist s' = tr ++ hist s /\ writes UEDATX tr = []) ->
    exists sent, sent_on s s' sent).
  { intros s s' Hok Hg (tr & Hh & Hw). exists []. unfold sent_on. rewrite Hg.
    split; [exists tr; by rewrite Hw|]. split; [done|]. split; [done|].
    exists (USARTtoUSB_Buffer (g_app (glob s))). by destruct (glob s) as [? ? ? ? []]. }
  induction n as [|n IH]; intros s b Hok Hn; cbn [main_drain].
  { apply wp_ret. apply Hstop; [done|done|by exists []]. }
  do 2 wp_step. change (USARTtoUSB_Buffer (proj (glob s))) with b.
  assert (Hcnt : 0 < rb_Count b) by (unfold RingBuffer_GetCount in Hn; lia).
  pose proof (rb_remove_contents b Hok Hcnt) as Hc.
  assert (Hx : is_u8 (RingBuffer_Peek b)).
  { pose proof (rb_contents_bytes b Hok) as HB. rewrite Hc in HB. by inversion_clear HB. }
  wp_call (send_byte k fuel Hfp Hwait (RingBuffer_Peek b) s Hx). intros r s1 (Hg1 & tr & Hh1 & Hw1).
  destruct (r =? ENDPOINT_READYWAIT_NoError); cbn [negb].
  2:{ apply wp_ret. apply Hstop; [done|done|by exists tr]. }
  do 2 wp_step. set (s2 := St _ _).
  assert (Hb2 : USARTtoUSB_Buffer (g_app (glob s2)) = snd (RingBuffer_Remove b))
    by (unfold s2; cbn [glob]; by rewrite Hg1).
  wp_spec (IH s2 ltac:(rewrite Hb2; by apply rb_remove_ok)
    ltac:(rewrite Hb2; unfold RingBuffer_GetCount in *; cbn [RingBuffer_Remove snd rb_Count];
          pose proof (rb_ok_count _ Hok); pose proof (rb_ok_size _ Hok); rewrite u16_id by (unfold is_u16; lia); lia)).
  intros [] s3 (sent & (t & Ht & Hw) & Hl & Hok3 & b3 & Hg3).
  exists (RingBuffer_Peek b :: sent). split; [|split; [|split; [done|]]].
  - exists (t ++ tr). rewrite Ht. unfold s2. cbn [hist]. rewrite Hh1, app_assoc. split; [done|].
    by rewrite writes_app, Hw1, rev_app_distr, Hw.
  - fold b. rewrite Hc. rewrite Hb2 in Hl. rewrite Hl. done.
  - exists b3. rewrite Hg3. unfold s2. cbn [glob]. rewrite Hg1. by destruct (glob s).
Qed.

(** C8. No byte is lost, repeated or reordered on its way to the host: as
    long as the bus has frames, the transmit phase of the main loop
    terminates, the bytes it wrote to the endpoint are a prefix of the output
    queue, what is left in the queue is the rest, and of the program's
    variables only the queue has changed, whatever the host does meanwhile
    (no room, detached, suspended or a time-out). *)
Theorem transmit_lossless timer (s : st Globals) :
  rb_ok (USARTtoUSB_Buffer (g_app (glob s))) ->
  wp_ False (main_transmit fuel timer) (fun _ s' => exists sent, sent_on s s' sent) s.
Proof.
  intros Hok. unfold main_transmit. do 2 wp_step. cbv zeta. unfold timerExpired, timerRestart.
  do 2 wp_step. eapply wp_eq; [apply clockGetTime_run|]. wp_step.
  set (b := USARTtoUSB_Buffer _). destruct (timer_check _ _) as [e t]. cbn [fst snd].
  destruct (atomic_hist_app (hist s)) as (tr1 & Ha1 & Hw1).
  destruct (e || (0 <? RingBuffer_GetCount b)).
  - do 2 wp_step. eapply wp_eq; [apply clockGetTime_run|]. wp_step. cbn [hist glob].
    destruct (atomic_hist_app (atomic_hist (hist s))) as (tr2 & Ha2 & Hw2).
    set (s1 := St _ _). assert (Hc : 0 <= RingBuffer_GetCount b) by (apply (rb_ok_count _ Hok)).
    wp_call (main_drain_sends (Z.to_nat (RingBuffer_GetCount b)) s1 Hok ltac:(fold b; rewrite Z2Nat.id by done; done)).
    intros [] s2 (sent & (tr & Ht & Hw) & Hrest). apply wp_ret. exists sent. split; [|exact Hrest].
    exists (tr ++ tr2 ++ tr1). rewrite Ht. unfold s1. cbn [hist]. rewrite Ha2, Ha1, <- !app_assoc.
    split; [done|]. by rewrite !writes_app, Hw1, Hw2, !app_nil_r by done.
  - apply wp_ret. exists []. split; [exists tr1; by rewrite Hw1|]. split; [done|]. split; [done|].
    exists b. unfold b. cbn [glob]. by destruct (glob s) as [? ? ? ? []].
Qed.
End transmit.

(** ** Examples *)

Definition open_globals (inp : list Z) : Globals :=
  set_cdc open_port (witness_globals (mkAvalon 0 0 0 0) inp).

(** Two commands in one packet: the first is answered, the second waits. *)
Lemma packet_interpreted_witness :
  let s := St [] (open_globals []) in
  wp_ False (@main_receive (packet_host [0x49; 0x53]) 3) (fun _ s' =>
    let a' := g_app (glob s') in
    app_ok a' /\ rb_contents (buffer_ a') = [0x53]
    /\ rb_contents (USARTtoUSB_Buffer a') = 0x49 :: identity_bytes ID
    /\ app_state a' = app_state (g_app (open_globals []))) s.
Proof.
  destruct (witness_app_ok []) as (Hok & Hroom & Hc); [vm_compute; discriminate|constructor|].
  intros s.
  refine (wp_conseq False False _ _ _ s
    (@packet_interpreted (packet_host [0x49; 0x53]) 0 [0x49; 0x53] 3 s _ _ _ Hok Hroom _ _) (fun x => x) _).
  - split; [vm_compute; discriminate| |apply Nat.le_0_l|reflexivity].
    apply packet_host_sends; [repeat constructor; vm_compute; congruence|reflexivity].
  - discriminate.
  - apply Nat.lt_succ_diag_r.
  - reflexivity.
  - change (g_app (glob s)) with (witness_app []). rewrite Hc. vm_compute. discriminate.
  - intros [] s'. change (g_app (glob s)) with (witness_app []). rewrite Hc. cbn [app].
    change (cmd_spec [0x49; 0x53] _) with (1%nat, 0x49 :: identity_bytes ID, app_state (witness_app [])).
    cbv beta match zeta. intros (H1 & H2 & H3 & H4). split; [exact H1|]. split; [exact H2|].
    split; [|exact H4]. rewrite H3.
    change (rb_contents (USARTtoUSB_Buffer (witness_app []))) with (@nil Z). reflexivity.
Defined.

(** Five bytes for a host that takes every bank. *)
Lemma transmit_lossless_witness :
  let a := witness_app [] in
  let a' := set_out (fifo_puts (USARTtoUSB_Buffer a) [1; 2; 3; 4; 5]) a in
  let s := St [] (set_app a' (open_globals [])) in
  wp_ False (@main_transmit bulk_host 300 (mkTimer 1 0 10))
    (fun _ s' => exists sent, sent_on s s' sent) s.
Proof.
  destruct (witness_app_ok []) as (Hok & Hroom & _); [vm_compute; discriminate|constructor|].
  intros a a' s.
  refine (@transmit_lossless bulk_host 1 300 bulk_host_frames _ (mkTimer 1 0 10) s _).
  - lia.
  - refine (proj1 (fifo_puts_spec (B := RingBuffer_t) [1; 2; 3; 4; 5] _ (ao_out _ Hok) _)).
    unfold room in Hroom. refine (Z.le_trans _ _ _ _ Hroom). vm_compute. discriminate.
Defined.
