(* ===== verification/XilinxFirmware.v ===== *)
(** * XilinxFpgaProg/XilinxFpgaProg.c: the FPGA programmer's main program

    Start-up, main loop, interrupt routine and event handlers.  Its
    Descriptors.c, clock.c and timer.c are the miner's, byte for byte. *)

From S2P Require Import Prelude Machine RingBuffer Timer Endpoint EndpointStream Cdc CdcTraffic Peripherals XilinxBoard Frame XilinxApp UsbController StdReq Descriptors UsbInterrupt Startup.

(** XilinxFpgaProg.h *)
Definition LEDMASK_USB_NOTREADY : Z := LEDS_LED1.
Definition LEDMASK_USB_ENUMERATING : Z := Z.lor LEDS_LED1 LEDS_LED2.
Definition LEDMASK_USB_READY : Z := LEDS_LED2.
Definition LEDMASK_USB_ERROR : Z := Z.lor LEDS_LED1 LEDS_LED3.

Definition CDC_LINEENCODING_TwoStopBits : Z := 2.
Definition CDC_PARITY_Odd : Z := 1.
Definition CDC_PARITY_Even : Z := 2.

Definition VirtualSerial_CDC_Interface : USB_ClassInfo_CDC_Device_t := {|
  ControlInterfaceNumber := 0;
  DataINEndpoint := mkEndpointTable CDC_TX_EPADDR CDC_TXRX_EPSIZE 0 1;
  DataOUTEndpoint := mkEndpointTable CDC_RX_EPADDR CDC_TXRX_EPSIZE 0 1;
  NotificationEndpoint := mkEndpointTable CDC_NOTIFICATION_EPADDR CDC_NOTIFICATION_EPSIZE 0 1;
  HostToDevice := 0;
  DeviceToHost := 0;
  LineEncoding := mkLineEncoding 0 0 0 0;
|}.

(** The program's variables at start-up. *)
Definition initial_globals : Globals :=
  mkGlobals (mkClock 0) (mkUsb (mkRequest 0 0 0 0 0) 0 false false false) VirtualSerial_CDC_Interface
    (mkSerial (mkRing 0 0 0 0 0 0 (repeat 0 128)) 0)
    (mkApp (mkRing 0 0 0 0 0 0 (repeat 0 128)) (mkTimer 0 0 0) (mkRing 0 0 0 0 0 0 (repeat 0 64))).

Section events.
Context `{Hardware}.

Definition USART1_RX_vect : M Globals unit :=
  ReceivedByte ← rd UDR1;
  d ← get_DeviceState;
  when (d =? DEVICE_STATE_Configured) (appSerialDataReceived ReceivedByte).

Definition debug (c : Z) : M Globals unit :=
  when (c =? 0x0A) (out_insert 0x0D) ;;
  out_insert c.

Definition on_configuration_changed (fuel : nat) : M Globals unit :=
  ConfigSuccess ← CDC_Device_ConfigureEndpoints fuel;
  LEDs_SetAllLEDs (if (ConfigSuccess : bool) then LEDMASK_USB_READY else LEDMASK_USB_ERROR).
Definition on_connect : M Globals unit := LEDs_SetAllLEDs LEDMASK_USB_ENUMERATING.
Definition on_disconnect : M Globals unit := LEDs_SetAllLEDs LEDMASK_USB_NOTREADY.

(** The two switches and the test of [EVENT_CDC_Device_LineEncodingChanged]. *)
Definition ConfigMask (e : CDC_LineEncoding_t) : Z :=
  let m := if ParityType e =? CDC_PARITY_Odd then Z.lor (BV UPM11) (BV UPM10)
           else if ParityType e =? CDC_PARITY_Even then BV UPM11 else 0 in
  let m := if CharFormat e =? CDC_LINEENCODING_TwoStopBits then Z.lor m (BV USBS1) else m in
  if DataBits e =? 6 then Z.lor m (BV UCSZ10)
  else if DataBits e =? 7 then Z.lor m (BV UCSZ11)
  else if DataBits e =? 8 then Z.lor m (Z.lor (BV UCSZ11) (BV UCSZ10))
  else m.

Definition on_line_encoding_changed : M Globals unit :=
  e ← getc LineEncoding;
  wr UCSR1B 0 ;;
  wr UCSR1A 0 ;;
  wr UCSR1C 0 ;;
  ubrr ← defined (SERIAL_2X_UBBRVAL (BaudRateBPS e));
  wr UBRR1 ubrr ;;
  wr UCSR1C (ConfigMask e) ;;
  wr UCSR1A (BV U2X1) ;;
  wr UCSR1B (Z.lor (Z.lor (BV RXCIE1) (BV TXEN1)) (BV RXEN1)).

#[export] Instance programmer_cdc_events : CdcEvents Globals := {|
  EVENT_CDC_Device_LineEncodingChanged := on_line_encoding_changed;
  EVENT_CDC_Device_ControLineStateChanged := CDC_Device_Event_Stub;
  EVENT_CDC_Device_BreakSent := fun _ => CDC_Device_Event_Stub;
|}.

Definition on_control_request (fuel : nat) : M Globals unit :=
  CDC_Device_ProcessControlRequest fuel.

#[export] Instance programmer_device : UsbDevice Globals := {|
  EVENT_USB_Device_ControlRequest := on_control_request;
  EVENT_USB_Device_ConfigurationChanged := on_configuration_changed;
  CALLBACK_USB_GetDescriptor := GetDescriptor;
|}.

#[export] Instance programmer_events : UsbEvents Globals := {|
  EVENT_USB_Device_StartOfFrame := USB_Event_Stub;
  EVENT_USB_Device_Connect := on_connect;
  EVENT_USB_Device_Disconnect := on_disconnect;
  EVENT_USB_Device_Reset := USB_Event_Stub;
|}.

(** [p_serial]: the address of the frame buffer. *)
Definition SetupHardware (fuel : nat) (p_serial : Z) : M Globals unit :=
  reg_clr MCUSR (BV WDRF) ;;
  wdt_disable ;;
  wr DDRB 0x27 ;;
  wr PORTB 0x38 ;;
  wr DDRC 0x20 ;;
  wr PORTC 0x00 ;;
  wr DDRD 0x08 ;;
  wr PORTD 0x44 ;;
  wr TCCR1A (BV COM1B0) ;;
  wr OCR1B 0 ;;
  wr TCCR1B (Z.lor (BV WGM12) (BV CS10)) ;;
  clock_prescale_set 0 ;;
  clockInit ;;
  LEDs_Init ;;
  USB_Init fuel ;;
  serialInit p_serial ;;
  xilinxInit.

(** [main] up to its loop. *)
Definition main_init (fuel : nat) (p_serial p_out p_rx : Z) (timer : Timer) : M Globals Timer :=
  SetupHardware fuel p_serial ;;
  appInit p_out p_rx ;;
  LEDs_SetAllLEDs LEDMASK_USB_NOTREADY ;;
  timer' ← timerSet timer 10;
  sei ;;
  mret timer'.

(** The body of the loop, by phases. *)
Definition main_receive (fuel : nat) : M Globals unit :=
  n ← CDC_Device_BytesReceived;
  when (negb (n =? 0)) (appUsbDataReceived fuel).

(** [while(BufferCount--) { ... }] *)
Fixpoint main_drain (fuel : nat) (BufferCount : nat) : M Globals unit :=
  match BufferCount with
  | O => mret tt
  | S n =>
      b ← getc USARTtoUSB_Buffer;
      r ← CDC_Device_SendByte fuel (RingBuffer_Peek b);
      if negb (r =? ENDPOINT_READYWAIT_NoError) then mret tt else
      modc (fun a => set_out (snd (RingBuffer_Remove (USARTtoUSB_Buffer a))) a) ;;
      main_drain fuel n
  end.

Definition main_transmit (fuel : nat) (timer : Timer) : M Globals Timer :=
  b ← getc USARTtoUSB_Buffer;
  let BufferCount := RingBuffer_GetCount b in
  r ← timerExpired timer;
  let timer := snd r in
  if fst r || (0 <? BufferCount) then
    timer' ← timerRestart timer;
    main_drain fuel (Z.to_nat BufferCount) ;;
    mret timer'
  else mret timer.

Definition main_iteration (fuel : nat) (timer : Timer) : M Globals Timer :=
  main_receive fuel ;;
  timer' ← main_transmit fuel timer;
  appService ;;
  CDC_Device_USBTask fuel ;;
  USB_USBTask fuel ;;
  mret timer'.
End events.

(** ** The receive interrupt *)

Section receive_interrupt.
Context `{Hardware}.

(** On a configured device the routine leaves interrupts enabled, and so do
    its last instructions: the clock it reads to restart the time-out switches
    them on ([ATOMIC_FORCEON]), inside a routine that is to run with
    interrupts off ([ISR_BLOCK]). *)
Lemma rx_interruptible (s : st Globals) :
  reg_trunc GPIOR0 (hw_value (Rd UDR1 (reg_trunc UDR1 (hw_value (hist s) UDR1)) :: hist s) GPIOR0)
    = DEVICE_STATE_Configured ->
  wp_ False USART1_RX_vect (fun _ s' => Z.testbit (latch_value SREG (hist s')) 7 = true) s.
Proof.
  intros Hc. unfold USART1_RX_vect, get_DeviceState. do 4 wp_step. cbn [hist]. rewrite Hc.
  change (DEVICE_STATE_Configured =? DEVICE_STATE_Configured) with true. cbn [when].
  eapply wp_eq; [apply serial_data_run|]. cbn [hist].
  match goal with |- context [atomic_hist ?h0] => set (h := h0) end.
  assert (Hs : exists v h', atomic_hist h = Wr SREG (reg_trunc SREG (setbits v (BV 7))) :: h')
    by (by eexists _, _).
  destruct Hs as (v & h' & ->). rewrite latch_wr, reg_trunc_trunc. by reg_bits.
Qed.
End receive_interrupt.

(** ** The line coding *)

(** The frame format field of the data sheet: parity mode, stop bits and
    character size. *)
Definition usart_format (e : CDC_LineEncoding_t) : Z :=
  16 * (if ParityType e =? 1 then 3 else if ParityType e =? 2 then 2 else 0)
  + 8 * (if CharFormat e =? 2 then 1 else 0) + 2 * (DataBits e - 5).

Lemma ConfigMask_format e :
  5 <= DataBits e <= 8 -> ConfigMask e = usart_format e.
Proof.
  intros Hd. unfold ConfigMask, usart_format, CDC_PARITY_Odd, CDC_PARITY_Even,
    CDC_LINEENCODING_TwoStopBits.
  assert (Hc : DataBits e = 5 \/ DataBits e = 6 \/ DataBits e = 7 \/ DataBits e = 8) by lia.
  destruct Hc as [-> | [-> | [-> | ->]]];
    destruct (ParityType e =? 1), (ParityType e =? 2), (CharFormat e =? 2); reflexivity.
Qed.

(** The divisor is the nearest one. *)
Lemma nearest_divisor baud :
  0 < baud <= 4000000 ->
  exists u, SERIAL_2X_UBBRVAL baud = Some u /\ 0 <= u /\ Z.abs (F_CPU - 8 * baud * (u + 1)) <= 4 * baud
    /\ (489 <= baud -> u < 2 ^ 12).
Proof.
  intros Hb. unfold SERIAL_2X_UBBRVAL, F_CPU. rewrite (proj2 (Z.eqb_neq _ _)) by lia.
  change (16000000 / 8) with 2000000. pose proof (Z.div_mod baud 2 ltac:(lia)) as H2.
  pose proof (Z.mod_pos_bound baud 2 ltac:(lia)).
  set (x := 2000000 + baud / 2) in *. pose proof (Z.div_mod x baud ltac:(lia)) as Hx.
  pose proof (Z.mod_pos_bound x baud ltac:(lia)). set (q := x / baud) in *.
  assert (Hq : 1 <= q) by (unfold q; apply Z.div_le_lower_bound; lia).
  assert (Hqx : q <= x) by nia.
  rewrite (u32_id x) by (unfold is_u32; lia). fold q. rewrite u32_id by (unfold is_u32; lia).
  exists (q - 1). split; [done|]. split; [lia|]. split; [nia|]. intros Hlo. nia.
Qed.

Section line_coding.
Context `{Hardware}.

(** C31. A new line coding configures the USART: with a rate of 1 baud to
    4 Mbaud and 5 to 8 data bits, the handler turns the USART off, sets the
    divisor to the low 16 bits of the [u] for which [u + 1] is the integer
    nearest to F_CPU / (8 baud), the frame format of the data sheet
    and double speed, and only then turns receiver, transmitter and receive
    interrupt on; from 489 baud on [u] fits in the 12 bits the divisor register has; and with a rate of 0, which the host may send,
    it divides by zero and has no result. *)
Theorem line_encoding_applied (s : st Globals) :
  let e := LineEncoding (g_cdc (glob s)) in
  (BaudRateBPS e = 0 -> on_line_encoding_changed s = None)
  /\ (0 < BaudRateBPS e <= 4000000 -> 5 <= DataBits e <= 8 ->
      wp_ False on_line_encoding_changed (fun _ s' => glob s' = glob s /\ exists tr u,
        hist s' = tr ++ hist s
        /\ rev (writes UCSR1B tr) = [0; Z.lor (Z.lor (BV RXCIE1) (BV TXEN1)) (BV RXEN1)]
        /\ (exists tr', tr = Wr UCSR1B (Z.lor (Z.lor (BV RXCIE1) (BV TXEN1)) (BV RXEN1)) :: tr')
        /\ last_wr UCSR1C (hist s') = Some (usart_format e)
        /\ last_wr UCSR1A (hist s') = Some (BV U2X1)
        /\ last_wr UBRR1 (hist s') = Some (u mod 2 ^ 16) /\ 0 <= u /\ (489 <= BaudRateBPS e -> u < 2 ^ 12)
        /\ Z.abs (F_CPU - 8 * BaudRateBPS e * (u + 1)) <= 4 * BaudRateBPS e) s).
Proof.
  intros e. split.
  - intros Hz. unfold on_line_encoding_changed, mbind, M_bind, getc, gets. cbn [glob wr].
    change (LineEncoding (proj (glob s))) with e. by rewrite Hz.
  - intros Hb Hd. destruct (nearest_divisor (BaudRateBPS e) ltac:(lia)) as (u & Hu & Hu0 & Hn & Hm).
    unfold on_line_encoding_changed. do 8 wp_step.
    change (LineEncoding (proj (glob s))) with e. rewrite Hu. apply wp_bind. unfold wp_ at 1, defined.
    do 7 wp_step. split; [done|].
    assert (Hf : is_u8 (usart_format e)).
    { unfold usart_format, is_u8. repeat destruct (_ =? _); lia. }
    rewrite ConfigMask_format, (reg_trunc_u8 UCSR1C) by done.
    eexists [_; _; _; _; _; _; _], u. split; [reflexivity|]. split; [done|]. split; [by eexists|].
    split; [done|]. split; [done|]. split; [|by split_and!].
    cbn [last_wr hist]. reg_decide. done.
Qed.
End line_coding.

(** 115200 8N1, and a rate of 0. *)
Lemma line_encoding_applied_witness :
  let s1 := St [] (set_cdc (set_LineEncoding (mkLineEncoding 115200 0 0 8) VirtualSerial_CDC_Interface) initial_globals) in
  let s2 := St [] (set_cdc (set_LineEncoding (mkLineEncoding 0 0 0 8) VirtualSerial_CDC_Interface) initial_globals) in
  wp_ False on_line_encoding_changed (fun _ s' => last_wr UCSR1C (hist s') = Some 6) s1
  /\ on_line_encoding_changed s2 = None.
Proof.
  intros s1 s2. split.
  - refine (wp_conseq False False _ _ _ s1 (proj2 (line_encoding_applied s1) _ _) (fun x => x) _).
    + vm_compute. split; [reflexivity|discriminate].
    + vm_compute. split; discriminate.
    + intros [] s' (_ & tr & u & _ & _ & _ & Hc & _). rewrite Hc. reflexivity.
  - apply (proj1 (line_encoding_applied s2)). reflexivity.
Defined.
